(* ===== verification/_CoqProject ===== *)
-Q . S2P
Prelude.v
Bytes.v
Sha256.v
Crypto.v
Strconv.v
Json.v
Integers.v
Floats.v
GoJson.v
Jobs.v
JobFiles.v
Mean.v
Rpc.v
Typing.v
LeaderSelection.v
Assembly.v
Reference.v
Observations.v
Reporter.v
ReporterSpec.v
HandlerSpec.v
Round.v
Transport.v
Framing.v
Server.v
Exchange.v
Completion.v
Travel.v
Runs.v
EngineInv.v
Pacemaker.v
System.v
Config.v
Network.v
Election.v
