(* ===== verification/Prelude.v ===== *)
(** * Verification of the eavesdrop off-chain reporting node

    eavesdrop is a node of an off-chain reporting network, written in Go under
    [src/].  The nodes of a network find each other (libp2p), exchange their
    server ids, and elect a leader for an epoch.  The leader schedules the
    jobs of its job files into rounds.  In a round it asks everybody for
    observations, distributes the map of the observations it received, asks
    for reports (the value of each job computed from that map), assembles the
    values that at least f+1 nodes report into a final report, has it echoed,
    and would then transmit it.  [src/main.go] starts three nodes in one process.

    ** The parts, and where they are modelled

    - Prelude (this file): outcomes of a Go call ([outcome]: it returns,
      panics or waits for ever), the state monad over them ([proc]), Go errors
      and results, machine integers, slices and maps that may be nil, and the
      order of map ranges and goroutines, which the language leaves open
      ([Nondet]).  The class is a parameter of every definition that ranges
      over a map, so theorems hold for every order.
    - Bytes, Sha256, Strconv, Json, GoJson: the standard library as the node
      uses it: hexadecimal and decimal text, SHA-256 and HMAC, float64 with
      its parsing and printing, JSON texts, and encoding/json on Go types
      ([gotype]: a type with its encoder and decoder, [lawful] when the second
      undoes the first).
    - Integers: what an integer becomes on its way through a float64.
    - Crypto: crypto/keypairs.go and crypto/address.go.
    - Jobs: ocr/jobs/ (job.go, direct_req.go, report_assembler.go,
      job_observation.go).
    - JobFiles: job_reader.go and job_source.go: the directory of job files,
      its paths ([Clean] and [Join] of path/filepath) and the reader of one
      file.
    - Mean: averages of integer observations.
    - Rpc: rpc/ (the messages, their builders, the JSON codec).
    - Typing: the values that a decoder can make.
    - LeaderSelection: ocr/leader_selection.go and [exponentialBackoff].
    - Assembly: [assembleFinalReport] of ocr/leader.go.
    - Reference: what the assembly computes, as one pass over the reports,
      and that it does.
    - Observations: ocr/observation_map.go, utils/common.go, and
      ocr/messaging_layer.go as the class [MessagingLayer].
    - Reporter: ocr/reporter.go, the phases of ocr/leader.go, utils.go,
      timer.go and transmitter.go.  A [node] is the engine with the network
      below it, the channel its orchestrator waits on, and the goroutines that
      it has started; a message handler is a procedure on nodes.
    - ReporterSpec: the runs of an engine as a step relation (a message, a
      goroutine, a call of the pacemaker), and what holds in all of them.
    - HandlerSpec: what each handler does, branch by branch.
    - Round: the round of a leader as an automaton of its own
      ([round_step]: ask, take an observation, collect, take a report), and
      that the engine refines it.
    - Exchange: a request answered by a follower and taken by the leader,
      through the bytes on the wire.
    - Completion: a round of a leader from its start to its last broadcast.
    - Travel: the jobs of a round on their way to the followers, whose
      template is an [interface{}] in between.
    - Runs: the properties of the engine on concrete nodes.
    - Transport: network/, over a libp2p host that is a parameter: starting and
      stopping it, its streams, what its read loop delivers.
    - Framing: what that loop makes of a message longer than its buffer.
    - EngineInv: what every operation of the engine keeps of the engine, of the
      network below it and of the pacemaker's registry, and what it sends, from
      what its few sources of messages and updates keep ([Custody]).
    - Server: ocr/server.go and ocr/server_rpc_processor.go; the server is an
      instance of [MessagingLayer] over any [Transport].
    - Pacemaker: ocr/pacemaker.go and ocr/ocr.go; its state holds the engine,
      which holds the server, as in the code.
    - System: a whole node as [OCR.Start] puts it together ([sys_step]: a
      message read from a stream, a peer found, a status message received, a
      goroutine of the engine or the pacemaker, a stage of the start, stopping).
    - Config: the import and generation of keys, crypto/gen_keys.go,
      ocr/config_reader.go and ocr/ocr_builder.go, and [gen_keys] of main.go.
    - Network: main.go: three such nodes, on a network that loses, repeats and
      reorders what is written to it but makes nothing up ([world_step]).
    - Election: how these nodes get acquainted, and that they then choose one
      leader.

    A state record has the fields of the Go struct under their names, except
    for locks that are always released within the operation, loggers, and
    fields that are never read.  A method is a definition of the same name,
    with the type in front where two types have it.  An operation that sleeps
    or starts a goroutine ends there: what comes later is a definition of its
    own, run by a later step.

    ** The theorems

    - Safety of reports (Assembly): every value of a final report was
      reported, with the same hash, by at least f+1 received reports; a job
      is in it exactly when it has such a value; with at most f faulty
      reporters every value is one that a correct node reported.  The loops
      over tallies compute what one pass over the reports finds (Reference).
    - Refinement (Round): every state that a started engine can come to is
      one of the automaton, hence what it holds as a final report is backed
      by reports that their senders have signed, and it asks for reports only
      after more than 2f+1 signed observations.
    - Exchanges (Exchange, Travel): a request for observations and one for a
      report are answered with what the jobs give, and the answer is what the
      leader stores, whatever the codec and the signature scheme, by their
      laws; and the jobs that a follower launches from the bytes of a request
      are those of the leader's schedule, if their numbers fit in a float64.
    - Whole nodes (System): what is true of a node in all its runs, and that
      its context of one peer makes the first signed report the final one.
    - The program (Network): what a node of [main] holds was sent by the node
      that it names, and its routes lead to the nodes that they name; and no
      run of [main] ever makes a final report.
    - Agreement on the leader (LeaderSelection, Election): one leader per
      epoch for nodes that know the same participants, found in finitely many
      looks; in the network of [main] one name is the leader of every node that
      has met all the others when it chooses, that node leads and the others
      follow; and a node can meet all that have sent it their names.
    - Handlers (HandlerSpec): the full effect of each handler on a node that
      is ready, for authentic and for other messages.
    - Completion (Completion): a leader that is started, hears of enough
      followers with signed observations and signed reports, and is left to
      run its goroutines, makes the final report and broadcasts it.
    - Types (Typing): whatever bytes arrive, the message that is decoded from
      them is well typed, so that encoding it again cannot fail.
    - Jobs (Jobs, Mean, JobFiles, Pacemaker): running a job implements the
      pipeline of its tasks; the mean of a report, which for integers is that of
      arithmetic and does not depend on the order of a map; what is read from a
      job file is never run to the end; every file of a directory gets its
      listener.
    - The wire (Rpc, Server, Observations, Crypto): what is encoded decodes
      to itself, through both envelopes, and keys and addresses travel as
      text; a key file is read as it was written, and none of its private
      keys can be imported (Config).  JSON text of strings that are not UTF-8
      reads as the strings made valid (Json).  A message that does not fit in
      the buffer of a stream is never read whole (Framing).
    - Invariants of all runs (ReporterSpec, Pacemaker, Server, Transport):
      the round, the phase, the epoch, the routes, the streams.
    - Behaviour that its authors did not mean: deadlocks, panics and lost
      messages are theorems too, stated for every state in which they happen.

    ** Bounds and fuel

    Recursion is structural except in the JSON parser, whose fuel is the
    length of the text (proved enough for every printed value), the search
    for the shortest decimal of a float (17 digits are always enough for
    float64), [exponentialBackoff] and [waitForEvents], which the code may
    repeat for ever and whose theorems say how much fuel gives the result.
    Integers are [Z] with the wrap-around of their width written out ([u64],
    [i64]).  JSON nests at most 10000 deep, as in encoding/json.

    ** Parameters

    The arithmetic of ECDSA ([Ecdsa], with the laws its callers rely on in
    [EcdsaLaws]), libp2p ([Libp2p], with the laws that a host's log grows by
    what is written to it and that its id stays the same in [Libp2pLog]), the
    TOML package, the answers of HTTP servers, clocks, entropy, and the file
    system ([Files]).  Witnesses instantiate them with concrete functions.

    ** Not modelled

    logger/ (set-up of a logger), the log messages, the commented-out code
    (most of network/peer.go), the parts that nobody calls ([execDirectTx], the
    gob forms of two internal messages, the getters of job events), and the
    branches of the two timers of the pacemaker, which are never started.

    ** Not proved

    A node that looks at its tree of peers before it has met everybody may
    choose another leader ([two_leaders]); agreement is for those that find it
    empty until then.
    Texts of floats that are no integers read back by computation in the
    witnesses, and not by a general theorem.  Nothing is said of when a run
    takes place: a network may keep every message for ever. *)

From Stdlib Require Export ZArith Lia.
From Stdlib Require Import Ascii String.
From stdpp Require Export base tactics list gmap strings.

Open Scope Z_scope.

Create HintDb ocr.
Create Rewrite HintDb ocr.

(** ** Run-time outcomes

    A Go call returns, brings the process down with a run-time panic, or
    never returns because it waits for ever on a lock or a channel. *)
Inductive outcome (A : Type) : Type :=
| Done (a : A)
| Panicked (why : string)
| Blocked (why : string).
Arguments Done {A} a.
Arguments Panicked {A} why.
Arguments Blocked {A} why.

#[export] Instance outcome_ret : MRet outcome := λ A a, Done a.
#[export] Instance outcome_bind : MBind outcome := λ A B f m,
  match m with
  | Done a => f a
  | Panicked w => Panicked w
  | Blocked w => Blocked w
  end.

(** The state monad over [outcome] that every stateful operation is written
    in.  The state reached is kept whatever the outcome: a handler that stops
    for ever with a lock held leaves that lock held. *)
Definition proc (S A : Type) : Type := S → outcome A * S.

#[export] Instance proc_ret {S} : MRet (proc S) := λ A a s, (Done a, s).
#[export] Instance proc_bind {S} : MBind (proc S) := λ A B f m s,
  match m s with
  | (Done a, s') => f a s'
  | (Panicked w, s') => (Panicked w, s')
  | (Blocked w, s') => (Blocked w, s')
  end.

Section proc.
Context {S : Type}.

Definition get : proc S S := λ s, (Done s, s).
Definition gets {A} (f : S → A) : proc S A := λ s, (Done (f s), s).
Definition modify (f : S → S) : proc S unit := λ s, (Done tt, f s).
Definition panic {A} (why : string) : proc S A := λ s, (Panicked why, s).
Definition block {A} (why : string) : proc S A := λ s, (Blocked why, s).
Definition lift_outcome {A} (o : outcome A) : proc S A := λ s, (o, s).

(** The monad laws, as pointwise equations. *)
Lemma proc_ret_bind {A B} (a : A) (f : A → proc S B) s :
  (mret a ≫= f) s = f a s.
Proof. reflexivity. Qed.

Lemma proc_bind_ret {A} (m : proc S A) s : (m ≫= mret) s = m s.
Proof. unfold mbind, proc_bind. destruct (m s) as [[] ?]; reflexivity. Qed.

Lemma proc_bind_assoc {A B C} (m : proc S A) (f : A → proc S B)
    (g : B → proc S C) s :
  ((m ≫= f) ≫= g) s = (m ≫= (λ a, f a ≫= g)) s.
Proof. unfold mbind, proc_bind. destruct (m s) as [[] ?]; reflexivity. Qed.

(** A bind that returns went through both halves. *)
Lemma proc_bind_done {A B} (m : proc S A) (f : A → proc S B) s b s' :
  (m ≫= f) s = (Done b, s') ↔
  ∃ a s1, m s = (Done a, s1) ∧ f a s1 = (Done b, s').
Proof.
  unfold mbind, proc_bind. destruct (m s) as [[a|w|w] s1].
  - split; [by eauto|]. intros (a' & s2 & [= <- <-] & H). done.
  - split; [done|]. by intros (a & s2 & ? & _).
  - split; [done|]. by intros (a & s2 & ? & _).
Qed.
End proc.

(** *** Invariants of procedures

    [preserves I m]: whatever the outcome of [m], the state it leaves has [I]
    if the state it found had.  The rules follow the shape of the code, and
    the hints below apply them. *)
Definition preserves {S A} (I : S → Prop) (m : proc S A) : Prop := ∀ s, I s → I (m s).2.

Section preserves.
Context {S : Type} (I : S → Prop).

Lemma preserves_bind {A B} (m : proc S A) (f : A → proc S B) :
  preserves I m → (∀ a, preserves I (f a)) → preserves I (m ≫= f).
Proof.
  intros Hm Hf s Hs. specialize (Hm s Hs). unfold mbind, proc_bind.
  destruct (m s) as [[a|w|w] s']; [by apply Hf|done|done].
Qed.

(** The continuation may use what the first half returned, and where. *)
Lemma preserves_bind_dep {A B} (m : proc S A) (f : A → proc S B) :
  (∀ s, I s → I (m s).2 ∧ ∀ a, (m s).1 = Done a → I (f a (m s).2).2) →
  preserves I (m ≫= f).
Proof.
  intros Hm s Hs. destruct (Hm s Hs) as [Hs' Hf]. unfold mbind, proc_bind.
  destruct (m s) as [[a|w|w] s']; [by apply Hf|done|done].
Qed.

Lemma preserves_modify f : (∀ s, I s → I (f s)) → preserves I (modify f).
Proof. intros Hf s Hs. by apply Hf. Qed.

Lemma preserves_reads {A} (m : proc S A) : (∀ s, (m s).2 = s) → preserves I m.
Proof. intros Hm s Hs. by rewrite Hm. Qed.
End preserves.

Create HintDb preserves.
#[export] Hint Extern 2 (preserves _ (mret _)) => (apply preserves_reads; done) : preserves.
#[export] Hint Extern 2 (preserves _ get) => (apply preserves_reads; done) : preserves.
#[export] Hint Extern 2 (preserves _ (gets _)) => (apply preserves_reads; done) : preserves.
#[export] Hint Extern 2 (preserves _ (panic _)) => (apply preserves_reads; done) : preserves.
#[export] Hint Extern 2 (preserves _ (block _)) => (apply preserves_reads; done) : preserves.
#[export] Hint Extern 2 (preserves _ (lift_outcome _)) => (apply preserves_reads; done) : preserves.

(** Follow the code: a bind is split, a match is a case analysis, and what is
    left is looked up. *)
Ltac preserve :=
  repeat first
    [ solve [eauto with preserves nocore]
    | apply preserves_bind; [|intros ?]
    | progress cbv zeta
    | match goal with |- preserves _ (match ?x with _ => _ end) => destruct x eqn:? end ].

(** ** Go errors and results

    [error] keeps the fixed part of the message and the wrapped error; the
    formatted values in a message are not observable by the program. *)
Inductive error : Type :=
| Errorf (msg : string)
| Wrapf (msg : string) (cause : error).

Inductive result (A : Type) : Type :=
| Ok (a : A)
| Error (e : error).
Arguments Ok {A} a.
Arguments Error {A} e.

#[export] Instance result_ret : MRet result := λ A a, Ok a.
#[export] Instance result_bind : MBind result := λ A B f m,
  match m with Ok a => f a | Error e => Error e end.
#[export] Instance error_eq_dec : EqDecision error.
Proof. solve_decision. Defined.

Definition is_ok {A} (r : result A) : bool :=
  match r with Ok _ => true | Error _ => false end.

(** [return x, fmt.Errorf("...: %v", err)] *)
Definition wrap {A} (msg : string) (r : result A) : result A :=
  match r with Ok a => Ok a | Error e => Error (Wrapf msg e) end.

Lemma result_bind_ok {A B} (m : result A) (f : A → result B) b :
  (m ≫= f) = Ok b ↔ ∃ a, m = Ok a ∧ f a = Ok b.
Proof.
  unfold mbind, result_bind. destruct m as [a|e].
  - split; [by eauto|]. by intros (a' & [= <-] & H).
  - split; [done|]. by intros (a & ? & _).
Qed.

Lemma wrap_ok {A} msg (r : result A) a : wrap msg r = Ok a ↔ r = Ok a.
Proof. by destruct r. Qed.

(** Go maps a function that can fail over a slice, stopping at the first
    error. *)
Fixpoint result_map {A B} (f : A → result B) (l : list A) : result (list B) :=
  match l with
  | [] => Ok []
  | x :: l => y ← f x; ys ← result_map f l; Ok (y :: ys)
  end.

Lemma result_map_ok {A B} (f : A → result B) l l' :
  result_map f l = Ok l' ↔ Forall2 (λ x y, f x = Ok y) l l'.
Proof.
  revert l'. induction l as [|x l IH]; intros l'; simpl.
  - split; [intros [= <-]; constructor | by inversion 1].
  - rewrite result_bind_ok. setoid_rewrite result_bind_ok. split.
    + intros (y & Hy & ys & Hys & [= <-]). constructor; [done|]. by apply IH.
    + inversion 1; subst. eexists; split; [done|]. eexists; split; [by apply IH|done].
Qed.

(** ** Machine integers *)
Definition u8 (z : Z) : Z := z mod 2 ^ 8.
Definition u32 (z : Z) : Z := z mod 2 ^ 32.
Definition u64 (z : Z) : Z := z mod 2 ^ 64.
Definition i64 (z : Z) : Z := (z + 2 ^ 63) mod 2 ^ 64 - 2 ^ 63.

Definition is_u64 (z : Z) : Prop := 0 ≤ z < 2 ^ 64.
Definition is_i64 (z : Z) : Prop := - 2 ^ 63 ≤ z < 2 ^ 63.

Lemma u64_range z : is_u64 (u64 z).
Proof. apply Z.mod_pos_bound. lia. Qed.

Lemma u64_id z : is_u64 z → u64 z = z.
Proof. intros H. apply Z.mod_small. exact H. Qed.

Lemma u64_le z : 0 ≤ z → u64 z ≤ z.
Proof. intros H. apply Z.mod_le; [done|lia]. Qed.

Lemma u64_succ z : u64 (u64 z + 1) = u64 (z + 1).
Proof. apply Zplus_mod_idemp_l. Qed.

Lemma i64_range z : is_i64 (i64 z).
Proof.
  unfold is_i64, i64. pose proof (Z.mod_pos_bound (z + 2 ^ 63) (2 ^ 64)). lia.
Qed.

Lemma i64_id z : is_i64 z → i64 z = z.
Proof. unfold is_i64, i64. intros H. rewrite Z.mod_small; lia. Qed.

(** The conversion [uint64(int64(x))] is the identity on uint64. *)
Lemma u64_i64 z : is_u64 z → u64 (i64 z) = z.
Proof.
  unfold is_u64, u64, i64. intros H.
  rewrite Zminus_mod_idemp_l. replace (z + 2 ^ 63 - 2 ^ 63) with z by lia.
  by apply Z.mod_small.
Qed.

Lemma i64_u64 z : is_i64 z → i64 (u64 z) = z.
Proof.
  unfold is_i64, u64, i64. intros H.
  rewrite Zplus_mod_idemp_l, Z.mod_small; lia.
Qed.

#[export] Hint Resolve u64_range i64_range : ocr.

(** ** Slices

    A Go slice is nil or a sequence; [len] and [range] do not see the
    difference, [json.Marshal] does. *)
Abbreviation slice A := (option (list A)).

Definition elems {A} (s : slice A) : list A := default [] s.

(** [append(s, xs...)]: appending nothing to nil gives nil. *)
Definition append {A} (s : slice A) (xs : list A) : slice A :=
  match s, xs with
  | None, [] => None
  | _, _ => Some (elems s ++ xs)
  end.

Lemma elems_append {A} (s : slice A) xs : elems (append s xs) = elems s ++ xs.
Proof. by destruct s, xs. Qed.

(** ** Filters *)
Section filters.
Context {A : Type} (P : A → Prop) `{!∀ x, Decision (P x)}.
Implicit Types (l : list A).

Lemma filter_snoc l x : filter P (l ++ [x]) = filter P l ++ (if decide (P x) then [x] else []).
Proof. by rewrite filter_app. Qed.

Lemma filter_none l : (∀ x, x ∈ l → ¬ P x) → filter P l = [].
Proof.
  intros Hl. destruct (filter P l) as [|x l'] eqn:E; [done|].
  assert (x ∈ filter P l) as Hx by (rewrite E; by left).
  apply list_elem_of_filter in Hx as [HP Hx]. by apply Hl in Hx.
Qed.

Lemma filter_positive l : (0 < length (filter P l))%nat → ∃ x, x ∈ l ∧ P x.
Proof.
  destruct (filter P l) as [|x l'] eqn:E; [simpl; lia|]. intros _. exists x.
  assert (x ∈ filter P l) as Hx by (rewrite E; by left).
  apply list_elem_of_filter in Hx. tauto.
Qed.

(** More members with [P] than members with [Q] failing: some have both. *)
Lemma filter_exceeds (Q : A → Prop) `{!∀ x, Decision (Q x)} l :
  (length (filter (λ x, ¬ Q x) l) < length (filter P l))%nat → ∃ x, x ∈ l ∧ P x ∧ Q x.
Proof.
  induction l as [|x l IH]; [simpl; lia|]. rewrite !filter_cons.
  destruct (decide (P x)) as [HP|HP], (decide (¬ Q x)) as [HQ|HQ]; cbn [length]; intros Hl.
  - destruct IH as (y & ? & ?); [lia|]. exists y. split; [by right|done].
  - exists x. split; [by left|]. split; [done|]. by apply dec_stable.
  - destruct IH as (y & ? & ?); [lia|]. exists y. split; [by right|done].
  - destruct IH as (y & ? & ?); [lia|]. exists y. split; [by right|done].
Qed.
End filters.

(** ** Unspecified order

    The language leaves the order of a [range] over a map open, and the
    scheduler the order in which goroutines finish.  Both are an unknown
    rearrangement, which may be different each time: [s] names the statement
    and the time it is executed. *)
Class Nondet : Type := {
  shuffle : list nat → ∀ {A : Type}, list A → list A;
  shuffle_perm s A (l : list A) : shuffle s l ≡ₚ l
}.

#[export] Hint Resolve shuffle_perm : ocr.

(** Two orders to run the model with. *)
Definition in_order : Nondet := {| shuffle _ A l := l; shuffle_perm _ A l := Permutation_refl l |}.

Lemma reverse_order_perm (s : list nat) A (l : list A) : reverse l ≡ₚ l.
Proof. apply reverse_Permutation. Qed.

Definition in_reverse : Nondet :=
  {| shuffle _ A l := reverse l; shuffle_perm s A l := reverse_order_perm s A l |}.

(** [for k, v := range m] *)
Definition map_range `{Nondet} {V} (s : list nat) (m : gmap string V) : list (string * V) :=
  shuffle s (map_to_list m).

Section range.
Context `{Nondet}.

Lemma shuffle_elem_of {A} s (l : list A) x : x ∈ shuffle s l ↔ x ∈ l.
Proof. by rewrite shuffle_perm. Qed.

Lemma shuffle_length {A} s (l : list A) : length (shuffle s l) = length l.
Proof. by rewrite shuffle_perm. Qed.

Lemma map_range_elem_of {V} s (m : gmap string V) k v :
  (k, v) ∈ map_range s m ↔ m !! k = Some v.
Proof. unfold map_range. by rewrite shuffle_elem_of, elem_of_map_to_list. Qed.

Lemma map_range_NoDup {V} s (m : gmap string V) : NoDup (map_range s m).*1.
Proof.
  unfold map_range. rewrite shuffle_perm. apply NoDup_fst_map_to_list.
Qed.

Lemma map_range_length {V} s (m : gmap string V) : length (map_range s m) = size m.
Proof. unfold map_range. by rewrite shuffle_length, length_map_to_list. Qed.

Lemma map_range_nil {V} s (m : gmap string V) : map_range s m = [] ↔ m = ∅.
Proof.
  rewrite <-length_zero_iff_nil, map_range_length. apply map_size_empty_iff.
Qed.
End range.

#[export] Hint Rewrite @shuffle_elem_of @shuffle_length @map_range_elem_of
  @map_range_length @elems_append : ocr.

(** ** Go maps that may be nil *)
Abbreviation gomap V := (option (gmap string V)).

Definition entries {V} (m : gomap V) : gmap string V := default ∅ m.

(** ** Byte strings

    Go strings and byte slices are both sequences of bytes; a nil byte slice
    is told apart where the code does. *)
Abbreviation bytes := string.

(** ** Proof automation *)

(** Evaluate the binds of a [proc] on a given state. *)
Ltac proc_simpl :=
  repeat (unfold mbind, proc_bind, mret, proc_ret, get, gets, modify, panic,
            block, lift_outcome in *; cbn beta iota in * ).

(** Case analysis on the guards of the code, one at a time. *)
Ltac guards := repeat (case_match; simplify_eq/=; try done).
