(* ===== verification/Bytes.v ===== *)
(** * Bytes, hexadecimal and decimal text

    The parts of [encoding/hex], [encoding/base64] and [strconv] the program
    uses, on strings of 8-bit characters. *)

From Stdlib Require Import Ascii DecimalString DecimalZ DecimalPos.
From S2P Require Import Prelude.

#[global] Arguments String.append : simpl nomatch.

Definition code (c : ascii) : Z := Z.of_N (N_of_ascii c).
Definition chr (z : Z) : ascii := ascii_of_N (Z.to_N z).

Lemma code_range c : 0 ≤ code c < 256.
Proof. unfold code. pose proof (N_ascii_bounded c). lia. Qed.

Lemma chr_code c : chr (code c) = c.
Proof. unfold chr, code. rewrite N2Z.id. apply ascii_N_embedding. Qed.

Lemma code_chr z : 0 ≤ z < 256 → code (chr z) = z.
Proof. intros H. unfold chr, code. rewrite N_ascii_embedding; lia. Qed.

Lemma code_inj c d : code c = code d → c = d.
Proof. intros H. by rewrite <-(chr_code c), H, chr_code. Qed.

#[export] Hint Resolve code_range : ocr.

(** A string as the list of its byte values. *)
Fixpoint to_bytes (s : string) : list Z :=
  match s with
  | EmptyString => []
  | String c s => code c :: to_bytes s
  end.

Fixpoint of_bytes (l : list Z) : string :=
  match l with
  | [] => EmptyString
  | z :: l => String (chr z) (of_bytes l)
  end.

Lemma of_to_bytes s : of_bytes (to_bytes s) = s.
Proof. induction s as [|c s IH]; simpl; [done|]. by rewrite IH, chr_code. Qed.

Lemma to_of_bytes l : Forall (λ z, 0 ≤ z < 256) l → to_bytes (of_bytes l) = l.
Proof. induction 1 as [|z l Hz _ IH]; simpl; [done|]. by rewrite IH, code_chr. Qed.

Lemma to_bytes_range s : Forall (λ z, 0 ≤ z < 256) (to_bytes s).
Proof. induction s; constructor; auto with ocr. Qed.

Lemma to_bytes_app s t : to_bytes (s +:+ t) = to_bytes s ++ to_bytes t.
Proof. induction s as [|c s IH]; simpl; [done|]. by rewrite IH. Qed.

Lemma to_bytes_length s : length (to_bytes s) = String.length s.
Proof. by induction s; simpl; f_equal. Qed.

Lemma of_bytes_length l : String.length (of_bytes l) = length l.
Proof. by induction l; simpl; f_equal. Qed.

#[export] Hint Rewrite of_to_bytes to_bytes_length of_bytes_length : ocr.

Lemma substring_full s : String.substring 0 (String.length s) s = s.
Proof. induction s; simpl; [done|]. by f_equal. Qed.

Lemma substring_length n m s :
  (n + m ≤ String.length s)%nat → String.length (String.substring n m s) = m.
Proof.
  revert n m. induction s as [|c s IH]; intros [|n] [|m] H; simpl in *; try lia; try done.
  - f_equal. apply (IH 0%nat). lia.
  - apply IH. lia.
  - apply IH. lia.
Qed.

(** ** encoding/hex *)
Module Hex.
Definition digit (n : Z) : ascii :=
  if n <? 10 then chr (48 + n) else chr (87 + n).

Definition value (c : ascii) : option Z :=
  let z := code c in
  if (48 <=? z) && (z <=? 57) then Some (z - 48)
  else if (97 <=? z) && (z <=? 102) then Some (z - 87)
  else if (65 <=? z) && (z <=? 70) then Some (z - 55)
  else None.

(** [hex.EncodeToString] *)
Fixpoint EncodeToString (s : bytes) : string :=
  match s with
  | EmptyString => EmptyString
  | String c s =>
      String (digit (code c / 16)) (String (digit (code c mod 16)) (EncodeToString s))
  end.

(** [hex.DecodeString] *)
Fixpoint DecodeString (s : string) : result bytes :=
  match s with
  | EmptyString => Ok EmptyString
  | String p EmptyString =>
      match value p with
      | None => Error (Errorf "encoding/hex: invalid byte")
      | Some _ => Error (Errorf "encoding/hex: odd length hex string")
      end
  | String p (String q s) =>
      match value p, value q with
      | Some a, Some b =>
          r ← DecodeString s; Ok (String (chr (16 * a + b)) r)
      | _, _ => Error (Errorf "encoding/hex: invalid byte")
      end
  end.

Definition is_lower_digit (c : ascii) : bool :=
  let z := code c in
  ((48 <=? z) && (z <=? 57)) || ((97 <=? z) && (z <=? 102)).

Lemma value_digit n : 0 ≤ n < 16 → value (digit n) = Some n.
Proof.
  intros H. rewrite <-(Z2Nat.id n) by lia.
  assert (Hn : (Z.to_nat n < 16)%nat) by lia. clear H.
  revert Hn. generalize (Z.to_nat n). intros k Hk.
  do 16 (destruct k as [|k]; [reflexivity|]). lia.
Qed.

Lemma digit_lower n : 0 ≤ n < 16 → is_lower_digit (digit n) = true.
Proof.
  intros H. rewrite <-(Z2Nat.id n) by lia.
  assert (Hn : (Z.to_nat n < 16)%nat) by lia. clear H.
  revert Hn. generalize (Z.to_nat n). intros k Hk.
  do 16 (destruct k as [|k]; [reflexivity|]). lia.
Qed.

Lemma value_range c n : value c = Some n → 0 ≤ n < 16.
Proof. unfold value. intros. guards; lia. Qed.

Lemma digit_value c n :
  is_lower_digit c = true → value c = Some n → digit n = c.
Proof.
  unfold is_lower_digit, value, digit. intros Hl Hv.
  apply code_inj. pose proof (code_range c).
  guards; rewrite ?code_chr; lia.
Qed.

Lemma nibbles c : 0 ≤ code c / 16 < 16 ∧ 0 ≤ code c mod 16 < 16.
Proof.
  pose proof (code_range c). split; [|apply Z.mod_pos_bound; lia].
  split; [apply Z.div_pos|apply Z.div_lt_upper_bound]; lia.
Qed.

Lemma DecodeString_EncodeToString s : DecodeString (EncodeToString s) = Ok s.
Proof.
  induction s as [|c s IH]; [done|]. cbn [EncodeToString DecodeString].
  destruct (nibbles c) as [H1 H2].
  rewrite !value_digit, IH by done.
  simpl. do 2 f_equal. rewrite <-Z.div_mod by lia. apply chr_code.
Qed.

Fixpoint all_lower (s : string) : bool :=
  match s with
  | EmptyString => true
  | String c s => is_lower_digit c && all_lower s
  end.

Lemma EncodeToString_lower s : all_lower (EncodeToString s) = true.
Proof.
  induction s as [|c s IH]; [done|]. simpl. destruct (nibbles c).
  by rewrite !digit_lower, IH.
Qed.

Lemma EncodeToString_length s :
  String.length (EncodeToString s) = (2 * String.length s)%nat.
Proof. induction s as [|c s IH]; simpl; [done|]. rewrite IH. lia. Qed.

(** Decoding two characters at a time: the induction principle of the
    decoder. *)
Lemma pairs_ind (P : string → Prop) :
  P EmptyString → (∀ c, P (String c EmptyString)) →
  (∀ c d s, P s → P (String c (String d s))) → ∀ s, P s.
Proof.
  intros H0 H1 H2. fix IH 1. intros [|c [|d s]]; [done|done|]. apply H2, IH.
Qed.

Lemma DecodeString_length s b :
  DecodeString s = Ok b → String.length s = (2 * String.length b)%nat.
Proof.
  revert b. induction s as [|c|c d s IH] using pairs_ind; intros b; simpl.
  - by intros [= <-].
  - destruct (value c); done.
  - destruct (value c), (value d); try done. rewrite result_bind_ok.
    intros (r & Hr & [= <-]). simpl. rewrite (IH _ Hr). lia.
Qed.

Lemma EncodeToString_DecodeString s b :
  all_lower s = true → DecodeString s = Ok b → EncodeToString b = s.
Proof.
  revert b. induction s as [|c|c d s IH] using pairs_ind; intros b; simpl.
  - by intros _ [= <-].
  - destruct (value c); done.
  - rewrite !andb_true_iff. intros (Hc & Hd & Hs).
    destruct (value c) as [x|] eqn:Hx, (value d) as [y|] eqn:Hy; try done.
    rewrite result_bind_ok. intros (r & Hr & [= <-]). simpl.
    pose proof (value_range _ _ Hx). pose proof (value_range _ _ Hy).
    rewrite code_chr by lia.
    replace ((16 * x + y) / 16) with x by (apply Z.div_unique with y; lia).
    replace ((16 * x + y) mod 16) with y by (apply Z.mod_unique with x; lia).
    by rewrite (digit_value c), (digit_value d), (IH r).
Qed.

(** The decoder accepts exactly the strings of an even number of digits. *)
Fixpoint all_digits (s : string) : bool :=
  match s with
  | EmptyString => true
  | String c s => (if value c is Some _ then true else false) && all_digits s
  end.

Lemma DecodeString_ok s :
  is_ok (DecodeString s) = all_digits s && Nat.even (String.length s).
Proof.
  induction s as [|c|c d s IH] using pairs_ind; simpl; [done| |].
  - by destruct (value c).
  - destruct (value c); [|done]. destruct (value d); [|done].
    rewrite andb_true_l, andb_true_l, <-IH. by destruct (DecodeString s).
Qed.
End Hex.

(** ** strconv for integers *)
Definition Itoa (z : Z) : string := NilZero.string_of_int (Z.to_int z).
Definition Atoi (s : string) : option Z := Z.of_int <$> NilZero.int_of_string s.

Lemma to_int_nonnil z : Z.to_int z ≠ Decimal.Pos Decimal.Nil ∧ Z.to_int z ≠ Decimal.Neg Decimal.Nil.
Proof.
  destruct z as [|p|p]; simpl; split; try done; intros [= H];
    by apply (DecimalPos.Unsigned.to_uint_nonnil p).
Qed.

Lemma Atoi_Itoa z : Atoi (Itoa z) = Some z.
Proof.
  unfold Atoi, Itoa. destruct (to_int_nonnil z).
  rewrite NilZero.isi by done. simpl. by rewrite DecimalZ.of_to.
Qed.

#[export] Instance Itoa_inj : Inj (=) (=) Itoa.
Proof. intros x y H. apply (f_equal Atoi) in H. rewrite !Atoi_Itoa in H. congruence. Qed.
