(* ===== verification/Sha256.v ===== *)
(** * crypto/sha256 and crypto/hmac

    The standard library's SHA-256 (FIPS 180-4) and HMAC (RFC 2104) on byte
    strings, written out so that the hashes the program compares can be
    evaluated.  Words are 32-bit integers in [Z]. *)

From S2P Require Import Prelude Bytes.

Module Sha256.
Definition rotr (x : Z) (n : Z) : Z :=
  Z.lor (Z.shiftr x n) (u32 (Z.shiftl x (32 - n))).

Definition add32 (x y : Z) : Z := u32 (x + y).

(** The constants are the first 32 bits of the fractional parts of the cube
    roots, and of the square roots, of the first primes. *)
Definition is_prime (n : Z) : bool :=
  forallb (λ d, negb (n mod Z.of_nat d =? 0)) (seq 2 (Z.to_nat n - 2)).

Definition primes (k : nat) : list Z :=
  take k (List.filter is_prime (map Z.of_nat (seq 2 400))).

(** The greatest [r] from [lo] on, below [lo + 2 ^ bits], whose cube is at
    most [n]. *)
Fixpoint cube_root (bits : nat) (lo n : Z) : Z :=
  match bits with
  | O => lo
  | S bits =>
      let mid := lo + 2 ^ Z.of_nat bits in
      cube_root bits (if mid ^ 3 <=? n then mid else lo) n
  end.

Definition K : list Z :=
  Eval vm_compute in map (λ p, u32 (cube_root 40 0 (p * 2 ^ 96))) (primes 64).

Definition H0 : list Z :=
  Eval vm_compute in map (λ p, u32 (Z.sqrt (p * 2 ^ 64))) (primes 8).

(** Big-endian words. *)
Definition word_bytes (w : Z) : list Z :=
  [u8 (Z.shiftr w 24); u8 (Z.shiftr w 16); u8 (Z.shiftr w 8); u8 w].

Fixpoint words (l : list Z) : list Z :=
  match l with
  | a :: b :: c :: d :: l =>
      Z.lor (Z.shiftl a 24) (Z.lor (Z.shiftl b 16) (Z.lor (Z.shiftl c 8) d)) :: words l
  | _ => []
  end.

(** The message, a 1 bit, zeros, and the length in bits on 64 bits: a
    multiple of 64 bytes. *)
Definition pad (m : list Z) : list Z :=
  let n := Z.of_nat (length m) in
  m ++ 0x80 :: replicate (Z.to_nat ((55 - n) mod 64)) 0
    ++ word_bytes (u32 (Z.shiftr (8 * n) 32)) ++ word_bytes (u32 (8 * n)).

Definition sigma0 x := Z.lxor (rotr x 7) (Z.lxor (rotr x 18) (Z.shiftr x 3)).
Definition sigma1 x := Z.lxor (rotr x 17) (Z.lxor (rotr x 19) (Z.shiftr x 10)).
Definition Sigma0 x := Z.lxor (rotr x 2) (Z.lxor (rotr x 13) (rotr x 22)).
Definition Sigma1 x := Z.lxor (rotr x 6) (Z.lxor (rotr x 11) (rotr x 25)).
Definition Ch x y z := Z.lxor (Z.land x y) (Z.land (Z.lxor x 0xffffffff) z).
Definition Maj x y z := Z.lxor (Z.land x y) (Z.lxor (Z.land x z) (Z.land y z)).

(** One round on the working variables and the last sixteen words of the
    message schedule, the oldest first. *)
Definition round (st : list Z * list Z) (k : Z) : list Z * list Z :=
  match st with
  | ([a; b; c; d; e; f; g; h], w :: ws) =>
      let t1 := u32 (h + Sigma1 e + Ch e f g + k + w) in
      let t2 := u32 (Sigma0 a + Maj a b c) in
      let w' := u32 (sigma1 (nth 13 ws 0) + nth 8 ws 0 + sigma0 (nth 0 ws 0) + w) in
      ([add32 t1 t2; a; b; c; add32 d t1; e; f; g], ws ++ [w'])
  | st => st
  end.

Definition block (h : list Z) (m : list Z) : list Z :=
  zip_with add32 h (foldl round (h, words m) K).1.

(** [fuel] bounds the number of 64-byte blocks. *)
Fixpoint blocks (fuel : nat) (h : list Z) (m : list Z) : list Z :=
  match fuel with
  | O => h
  | S fuel =>
      match m with
      | [] => h
      | _ => blocks fuel (block h (take 64 m)) (drop 64 m)
      end
  end.

Definition digest (m : list Z) : list Z :=
  let p := pad m in concat (word_bytes <$> blocks (length p) H0 p).

(** [sha256.Sum256] *)
Definition Sum256 (s : bytes) : bytes := of_bytes (digest (to_bytes s)).

(** [hmac.New(sha256.New, key)], [Write], [Sum(nil)] *)
Definition hmac (key msg : bytes) : bytes :=
  let k := to_bytes key in
  let k := if (length k <=? 64)%nat then k else digest k in
  let k := k ++ replicate (64 - length k) 0 in
  let inner := digest (((Z.lxor 0x36) <$> k) ++ to_bytes msg) in
  of_bytes (digest (((Z.lxor 0x5c) <$> k) ++ inner)).

Lemma round_length st k :
  length st.1 = 8%nat → length (round st k).1 = 8%nat.
Proof. unfold round. intros H. by guards. Qed.

Lemma rounds_length ks st :
  length st.1 = 8%nat → length (foldl round st ks).1 = 8%nat.
Proof. revert st. induction ks; simpl; auto using round_length. Qed.

Lemma blocks_length fuel h m :
  length h = 8%nat → length (blocks fuel h m) = 8%nat.
Proof.
  revert h m. induction fuel as [|fuel IH]; intros h m Hh; simpl; [done|].
  destruct m; [done|]. apply IH. unfold block.
  rewrite length_zip_with, (rounds_length _ (h, _)); [lia|done].
Qed.

Lemma word_bytes_concat_length l :
  length (concat (word_bytes <$> l)) = (4 * length l)%nat.
Proof.
  induction l as [|w l IH]; [done|]. rewrite fmap_cons. cbn [concat].
  rewrite length_app, IH. cbn [length word_bytes]. lia.
Qed.

Lemma digest_length m : length (digest m) = 32%nat.
Proof.
  unfold digest. rewrite word_bytes_concat_length, blocks_length; done.
Qed.

Lemma Sum256_length s : String.length (Sum256 s) = 32%nat.
Proof. unfold Sum256. by rewrite of_bytes_length, digest_length. Qed.

Lemma hmac_length k s : String.length (hmac k s) = 32%nat.
Proof. unfold hmac. by rewrite of_bytes_length, digest_length. Qed.

(** The padding makes whole blocks, so the fuel of [blocks] is enough. *)
Lemma pad_length m : (length (pad m) mod 64 = 0)%nat.
Proof.
  unfold pad. rewrite !length_app. cbn [length].
  rewrite !length_app, length_replicate. cbn [length word_bytes].
  pose proof (Z.mod_pos_bound (55 - Z.of_nat (length m)) 64 eq_refl).
  apply Nat2Z.inj. rewrite Nat2Z.inj_mod, Nat2Z.inj_add, Nat2Z.inj_succ,
    Nat2Z.inj_add, Z2Nat.id by lia.
  change (Z.of_nat 64) with 64. change (Z.of_nat (4 + 4)) with 8.
  pose proof (Z.div_mod (55 - Z.of_nat (length m)) 64).
  set (q := (55 - Z.of_nat (length m)) / 64) in *.
  replace (Z.of_nat (length m) + _) with ((1 - q) * 64) by lia.
  apply Z.mod_mul. lia.
Qed.

Example Sum256_abc : Hex.EncodeToString (Sum256 "abc") =
  "ba7816bf8f01cfea414140de5dae2223b00361a396177a9cb410ff61f20015ad".
Proof. vm_compute. reflexivity. Qed.

Example Sum256_448 : Hex.EncodeToString
    (Sum256 "abcdbcdecdefdefgefghfghighijhijkijkljklmklmnlmnomnopnopq") =
  "248d6a61d20638b8e5c026930c3e6039a33ce45964ff2167f6ecedd419db06c1".
Proof. vm_compute. reflexivity. Qed.

Example hmac_jefe : Hex.EncodeToString (hmac "Jefe" "what do ya want for nothing?") =
  "5bdcc146bf60754e6a042426089575c75a003f089d2739839dec58b964ec3843".
Proof. vm_compute. reflexivity. Qed.
End Sha256.
