(* ===== verification/Crypto.v ===== *)
(** * crypto/: addresses, keys and signatures

    [address.go] and [keypairs.go] on top of the parts of the standard library
    they call: [math/big] byte conversions, [crypto/elliptic]'s P-256 point
    decompression (both written out) and [crypto/ecdsa], whose signing and
    verification equations are the interface [Ecdsa]. *)

From Stdlib Require Import Ascii.
From S2P Require Import Prelude Bytes Sha256.

(** ** math/big: big-endian bytes *)
Module Big.
Fixpoint bytes_n (n : nat) (z : Z) : list Z :=
  match n with
  | O => []
  | S n => bytes_n n (z / 256) ++ [z mod 256]
  end.

(** [Int.Bytes]: no leading zero, the empty slice for 0. *)
Definition Bytes (z : Z) : list Z :=
  if z =? 0 then [] else bytes_n (Z.to_nat (Z.log2 z / 8 + 1)) z.

(** [Int.SetBytes] *)
Definition SetBytes (l : list Z) : Z := foldl (λ acc b, 256 * acc + b) 0 l.

Lemma SetBytes_snoc l b : SetBytes (l ++ [b]) = 256 * SetBytes l + b.
Proof. unfold SetBytes. by rewrite foldl_app. Qed.

Lemma bytes_n_length n z : length (bytes_n n z) = n.
Proof. revert z. induction n; intros z; simpl; [done|]. rewrite length_app, IHn. simpl. lia. Qed.

Lemma SetBytes_range l :
  Forall (λ z, 0 ≤ z < 256) l → 0 ≤ SetBytes l < 256 ^ Z.of_nat (length l).
Proof.
  induction l as [|b l IH] using rev_ind; [by cbn|].
  rewrite Forall_app, Forall_singleton, SetBytes_snoc, length_app. intros [Hl Hb].
  cbn [length]. rewrite Nat2Z.inj_add, Z.pow_add_r by lia.
  specialize (IH Hl). change (256 ^ Z.of_nat 1) with 256. lia.
Qed.

Lemma bytes_n_SetBytes l :
  Forall (λ z, 0 ≤ z < 256) l → bytes_n (length l) (SetBytes l) = l.
Proof.
  induction l as [|b l IH] using rev_ind; [done|].
  rewrite Forall_app, Forall_singleton, SetBytes_snoc, length_app. intros [Hl Hb].
  rewrite Nat.add_comm. cbn [length Nat.add bytes_n].
  replace ((256 * SetBytes l + b) / 256) with (SetBytes l)
    by (apply Z.div_unique with b; lia).
  replace ((256 * SetBytes l + b) mod 256) with b
    by (apply Z.mod_unique with (SetBytes l); lia).
  by rewrite IH.
Qed.

(** The number of bytes of a number: it has [n + 1] of them exactly when it
    lies between the powers. *)
Lemma Bytes_length n z :
  256 ^ Z.of_nat n ≤ z < 256 ^ Z.of_nat (S n) → length (Bytes z) = S n.
Proof.
  intros [Hl Hu]. unfold Bytes.
  assert (0 < z) by (pose proof (Z.pow_pos_nonneg 256 (Z.of_nat n)); lia).
  destruct (Z.eqb_spec z 0); [lia|]. rewrite bytes_n_length.
  change 256 with (2 ^ 8) in *. rewrite <-!Z.pow_mul_r in Hl, Hu by lia.
  apply Z.log2_le_pow2 in Hl; [|lia]. apply Z.log2_lt_pow2 in Hu; [|lia].
  replace (Z.log2 z / 8) with (Z.of_nat n)
    by (apply Z.div_unique with (Z.log2 z - 8 * Z.of_nat n); lia).
  lia.
Qed.

Lemma Bytes_SetBytes n l :
  length l = S n → Forall (λ z, 0 ≤ z < 256) l → 256 ^ Z.of_nat n ≤ SetBytes l →
  Bytes (SetBytes l) = l.
Proof.
  intros Hn Hl Hz. pose proof (SetBytes_range l Hl) as Hr. rewrite Hn in Hr.
  pose proof (Bytes_length n _ (conj Hz (proj2 Hr))) as Hlen.
  unfold Bytes in *. destruct (Z.eqb_spec (SetBytes l) 0); [done|].
  rewrite bytes_n_length in Hlen. rewrite Hlen, <-Hn.
  by apply bytes_n_SetBytes.
Qed.

Lemma Bytes_length_lt n z :
  0 ≤ z < 256 ^ Z.of_nat n → (length (Bytes z) ≤ n)%nat.
Proof.
  intros [Hl Hu]. unfold Bytes. destruct (Z.eqb_spec z 0); [cbn; lia|].
  rewrite bytes_n_length. change 256 with (2 ^ 8) in Hu.
  rewrite <-Z.pow_mul_r in Hu by lia. apply Z.log2_lt_pow2 in Hu; [|lia].
  pose proof (Z.log2_nonneg z).
  assert (Z.log2 z / 8 < Z.of_nat n) by (apply Z.div_lt_upper_bound; lia).
  lia.
Qed.

Lemma Bytes_range z : 0 ≤ z → Forall (λ b, 0 ≤ b < 256) (Bytes z).
Proof.
  intros _. unfold Bytes. destruct (z =? 0); [constructor|].
  generalize (Z.to_nat (Z.log2 z / 8 + 1)). intros n. revert z.
  induction n; intros z; simpl; [constructor|].
  apply Forall_app; split; [done|]. constructor; [|constructor].
  apply Z.mod_pos_bound. lia.
Qed.
End Big.

(** ** crypto/elliptic: P-256 *)
Module P256.
Definition P : Z := 0xffffffff00000001000000000000000000000000ffffffffffffffffffffffff.
Definition B : Z := 0x5ac635d8aa3a93e7b3ebbd55769886bc651d06b0cc53b0f63bce3c3e27d2604b.
Definition N : Z := 0xffffffff00000000ffffffffffffffffbce6faada7179e84f3b9cac2fc632551.

(** Affine coordinates. *)
Definition point : Type := Z * Z.

(** [v mod P]: with [P = 2^256 - 2^224 + 2^192 + 2^96 - 1] the bits above 256
    fold onto the others, 32 at a time. *)
Definition fold (v : Z) : Z :=
  let h := Z.shiftr v 256 in
  Z.land v (Z.ones 256) + Z.shiftl (Z.shiftl (Z.shiftl h 32 - h) 96 - h) 96 + h.
Definition reduce (v : Z) : Z :=
  let r := Nat.iter 8 fold v in
  let r := if r <? P then r else r - P in
  if (0 <=? r) && (r <? P) then r else r mod P.

Fixpoint pow (a : Z) (e : positive) : Z :=
  match e with
  | xH => reduce a
  | xO e => let r := pow a e in reduce (r * r)
  | xI e => let r := pow a e in reduce (reduce (r * r) * a)
  end.

(** [x³ - 3x + b] *)
Definition polynomial (x : Z) : Z := (x * x * x - 3 * x + B) mod P.

(** P ≡ 3 (mod 4): the square root, when there is one, is a power. *)
Definition sqrt (v : Z) : option Z :=
  let r := pow v (Z.to_pos ((P + 1) / 4)) in
  if reduce (r * r) =? v then Some r else None.

(** [elliptic.UnmarshalCompressed] *)
Definition UnmarshalCompressed (data : list Z) : option point :=
  match data with
  | prefix :: xs =>
      if ((prefix =? 2) || (prefix =? 3)) && (length xs =? 32)%nat then
        let x := Big.SetBytes xs in
        if x <? P then
          match sqrt (polynomial x) with
          | Some y =>
              Some (x, if Bool.eqb (Z.odd y) (prefix =? 3) then y else (P - y) mod P)
          | None => None
          end
        else None
      else None
  | [] => None
  end.
End P256.

(** ** crypto/ecdsa

    Signing and verification see the message only through [hashToNat]: the
    integer of its first 32 bytes, modulo the order of the curve.  [entropy]
    is what [rand.Reader] yields. *)
Definition hashToNat (data : bytes) : Z :=
  Big.SetBytes (take 32 (to_bytes data)) mod P256.N.

Class Ecdsa : Type := {
  entropy : Type;
  base_mult : Z → P256.point;
  sign_digest : entropy → Z → Z → result (Z * Z);
  verify_digest : P256.point → Z → Z → Z → bool
}.

(** What the callers rely on: a signature made with a scalar verifies under
    the point of that scalar, and its halves are positive. *)
Class EcdsaLaws (E : Ecdsa) : Prop := {
  sign_verify k d e r s :
    sign_digest k d e = Ok (r, s) → verify_digest (base_mult d) e r s = true;
  sign_positive k d e r s : sign_digest k d e = Ok (r, s) → 0 < r ∧ 0 < s
}.

(** ** keypairs.go *)
Record PublicKey := { pub_key : option P256.point }.
Record PrivateKey := { priv_D : Z; priv_pub : P256.point }.
Record Signature := { sig_R : option Z; sig_S : option Z }.

#[export] Instance Signature_eq_dec : EqDecision Signature.
Proof. solve_decision. Defined.

Definition no_signature : Signature := {| sig_R := None; sig_S := None |}.

Definition PrivateKey_PublicKey (p : PrivateKey) : PublicKey :=
  {| pub_key := Some (priv_pub p) |}.

Definition PublicKey_Bytes (p : PublicKey) : outcome bytes :=
  match pub_key p with
  | None => Panicked "nil pointer dereference"
  | Some (x, y) =>
      let prefix := if Z.testbit y 0 then 3 else 2 in
      Done (of_bytes (prefix :: Big.Bytes x))
  end.

Definition PublicKey_String (p : PublicKey) : outcome string :=
  b ← PublicKey_Bytes p; Done (Hex.EncodeToString b).

Definition StringToPublicKey (hexString : string) : result PublicKey :=
  match Hex.DecodeString hexString with
  | Error e => Error (Wrapf "invalid hex string" e)
  | Ok b =>
      match P256.UnmarshalCompressed (to_bytes b) with
      | None => Error (Errorf "invalid compressed public key")
      | Some q => Ok {| pub_key := Some q |}
      end
  end.

Section signatures.
Context `{Ecdsa}.

Definition Sign (k : entropy) (p : PrivateKey) (data : bytes) : result Signature :=
  match sign_digest k (priv_D p) (hashToNat data) with
  | Error e => Error e
  | Ok (r, s) => Ok {| sig_R := Some r; sig_S := Some s |}
  end.

(** [ecdsa.Verify]: the signs of [r] and [s] are looked at first, so a nil
    one is a nil dereference, and then the coordinates of the key. *)
Definition ecdsa_Verify (q : option P256.point) (data : bytes)
    (r s : option Z) : outcome bool :=
  match r with
  | None => Panicked "nil pointer dereference"
  | Some r =>
      if r <=? 0 then Done false else
      match s with
      | None => Panicked "nil pointer dereference"
      | Some s =>
          if s <=? 0 then Done false else
          match q with
          | None => Panicked "nil pointer dereference"
          | Some q => Done (verify_digest q (hashToNat data) r s)
          end
      end
  end.

Definition Verify (sig : Signature) (data : bytes) (p : PublicKey) : outcome bool :=
  b ← PublicKey_Bytes p;
  ecdsa_Verify (P256.UnmarshalCompressed (to_bytes b)) data (sig_R sig) (sig_S sig).
End signatures.

(** ** address.go *)
Module Address.
(** A [20]uint8: a string of 20 bytes. *)
Definition t : Type := string.
Definition valid (a : t) : Prop := String.length a = 20%nat.

Definition AddressFromBytes (b : bytes) : outcome t :=
  if negb (String.length b =? 20)%nat
  then Panicked "Binary Address must be 20 bytes long"
  else Done b.

Definition String (a : t) : string := "0x" +:+ Hex.EncodeToString a.

Definition UnmarshalText (text : bytes) : result t :=
  let hexStr :=
    if (2 <=? String.length text)%nat && String.eqb (String.substring 0 2 text) "0x"
    then String.substring 2 (String.length text - 2) text else text in
  match Hex.DecodeString hexStr with
  | Error e => Error e
  | Ok decoded =>
      if negb (String.length decoded =? 20)%nat
      then Error (Errorf "invalid address length") else Ok decoded
  end.

Definition MarshalText (a : t) : bytes := String a.
End Address.

Definition PublicKey_Address (p : PublicKey) : outcome Address.t :=
  b ← PublicKey_Bytes p;
  let hash := Sha256.Sum256 b in
  Address.AddressFromBytes (String.substring (String.length hash - 20) 20 hash).

(** ** Lemmas *)

Lemma strip_0x e :
  (if (2 <=? String.length ("0x" +:+ e))%nat
        && String.eqb (String.substring 0 2 ("0x" +:+ e)) "0x"
   then String.substring 2 (String.length ("0x" +:+ e) - 2) ("0x" +:+ e)
   else "0x" +:+ e) = e.
Proof.
  change ("0x" +:+ e) with (String "0" (String "x" e)). simpl.
  assert (String.substring 0 0 e = "") as -> by (by destruct e).
  simpl. by rewrite Nat.sub_0_r, substring_full.
Qed.

Lemma hex_not_0x a :
  String.eqb (String.substring 0 2 (Hex.EncodeToString a)) "0x" = false.
Proof.
  destruct a as [|c a]; [done|]. apply String.eqb_neq. simpl.
  assert (String.substring 0 0 (Hex.EncodeToString a) = "") as ->.
  { by destruct (Hex.EncodeToString a). }
  destruct (Hex.nibbles c) as [_ Hn]. intros [= _ Hx].
  pose proof (Hex.digit_lower _ Hn) as Hl. rewrite Hx in Hl. done.
Qed.

Lemma fold_mod v : P256.fold v mod P256.P = v mod P256.P.
Proof.
  unfold P256.fold. rewrite Z.land_ones, Z.shiftr_div_pow2, !Z.shiftl_mul_pow2 by lia.
  set (h := v / 2 ^ 256).
  rewrite <-(Z_mod_plus_full _ h P256.P). f_equal.
  rewrite (Z.div_mod v (2 ^ 256)) at 2 by lia. subst h. unfold P256.P. lia.
Qed.

Lemma reduce_mod v : P256.reduce v = v mod P256.P.
Proof.
  unfold P256.reduce. assert (Nat.iter 8 P256.fold v mod P256.P = v mod P256.P) as <-.
  { cbn [Nat.iter nat_rect]. by rewrite !fold_mod. }
  generalize (Nat.iter 8 P256.fold v). intros r.
  assert ((if r <? P256.P then r else r - P256.P) mod P256.P = r mod P256.P) as <-.
  { destruct (r <? P256.P); [done|]. rewrite <-(Z_mod_plus_full (r - P256.P) 1). f_equal. lia. }
  generalize (if r <? P256.P then r else r - P256.P). clear r. intros r.
  destruct (_ && _) eqn:Hr; [|done]. by rewrite Z.mod_small by lia.
Qed.

Lemma reduce_range v : 0 ≤ P256.reduce v < P256.P.
Proof. rewrite reduce_mod. by apply Z.mod_pos_bound. Qed.

(** What [sqrt] raises to is the power modulo [P]. *)
Lemma pow_spec a e : P256.pow a e = a ^ Z.pos e mod P256.P.
Proof.
  induction e as [e IH|e IH|]; cbn [P256.pow]; rewrite !reduce_mod.
  - rewrite IH, Pos2Z.inj_xI, Z.mul_mod_idemp_l, Z.pow_add_r, Z.mul_comm, Z.pow_1_r by done.
    rewrite <-Z.mul_mod_idemp_r, <-Zmult_mod, Z.mul_mod_idemp_r by done. f_equal.
    replace (2 * Z.pos e) with (Z.pos e + Z.pos e) by lia. rewrite Z.pow_add_r by lia. lia.
  - rewrite IH, Pos2Z.inj_xO, <-Zmult_mod. f_equal.
    replace (2 * Z.pos e) with (Z.pos e + Z.pos e) by lia. by rewrite Z.pow_add_r by lia.
  - by rewrite Z.pow_1_r.
Qed.

Lemma sqrt_range v r : P256.sqrt v = Some r → 0 ≤ r < P256.P.
Proof.
  unfold P256.sqrt. generalize (Z.to_pos ((P256.P + 1) / 4)). intros e.
  assert (0 ≤ P256.pow v e < P256.P) as Hr by (destruct e; apply reduce_range). revert Hr.
  generalize (P256.pow v e). intros q Hq. destruct (_ =? _); [|done]. by intros [= <-].
Qed.

Lemma UnmarshalCompressed_inv data x y :
  P256.UnmarshalCompressed data = Some (x, y) → y ≠ 0 →
  ∃ prefix xs, data = prefix :: xs ∧ prefix = (if Z.testbit y 0 then 3 else 2) ∧
    length xs = 32%nat ∧ x = Big.SetBytes xs.
Proof.
  unfold P256.UnmarshalCompressed. destruct data as [|prefix xs]; [done|].
  destruct (((prefix =? 2) || (prefix =? 3)) && (length xs =? 32)%nat) eqn:Hg; [|done].
  rewrite andb_true_iff, orb_true_iff, !Z.eqb_eq, Nat.eqb_eq in Hg.
  destruct Hg as [Hp Hl].
  destruct (_ <? _); [|done]. destruct (P256.sqrt _) as [r|] eqn:Hr; [|done].
  pose proof (sqrt_range _ _ Hr) as Hrange.
  intros [= <- <-] Hy. exists prefix, xs. rewrite Z.bit0_odd. repeat split; [|done].
  destruct (Bool.eqb (Z.odd r) (prefix =? 3)) eqn:Hb.
  - apply Bool.eqb_prop in Hb. rewrite Hb. by destruct Hp as [-> | ->].
  - apply Bool.eqb_false_iff in Hb.
    assert (r ≠ 0).
    { intros ->. apply Hy. rewrite Z.sub_0_r. apply Z.mod_same. discriminate. }
    rewrite Z.mod_small, Z.odd_sub by lia. change (Z.odd P256.P) with true.
    destruct (Z.odd r), Hp as [-> | ->]; done.
Qed.

(** A point whose coordinates fill their encoding. *)
Definition full_width (p : PublicKey) : Prop :=
  ∃ x y, pub_key p = Some (x, y) ∧ 256 ^ 31 ≤ x ∧ y ≠ 0.

(** A compressed point that decodes to a full-width key is what the key
    encodes to. *)
Lemma PublicKey_Bytes_compressed b p :
  P256.UnmarshalCompressed (to_bytes b) = pub_key p → full_width p →
  PublicKey_Bytes p = Done b.
Proof.
  intros Hu (x & y & Hp & Hx & Hy). rewrite Hp in Hu.
  destruct (UnmarshalCompressed_inv _ _ _ Hu Hy) as (c & xs & Hb & -> & Hlen & ->).
  unfold PublicKey_Bytes. rewrite Hp. f_equal.
  pose proof (to_bytes_range b) as Hr. rewrite Hb in Hr.
  rewrite (Big.Bytes_SetBytes 31); [|done|by inversion Hr|done].
  by rewrite <-Hb, of_to_bytes.
Qed.

Lemma StringToPublicKey_inv s p :
  StringToPublicKey s = Ok p →
  ∃ b, Hex.DecodeString s = Ok b ∧ P256.UnmarshalCompressed (to_bytes b) = pub_key p.
Proof.
  unfold StringToPublicKey. destruct (Hex.DecodeString s) as [b|]; [|done].
  destruct (P256.UnmarshalCompressed _) as [q|] eqn:Hq; [|done].
  intros [= <-]. eauto.
Qed.

(** Without the leading zeros of the x coordinate the encoding is too short to
    be decoded again. *)
Lemma PublicKey_Bytes_short p x y :
  pub_key p = Some (x, y) → 0 ≤ x < 256 ^ 31 →
  ∃ b, PublicKey_Bytes p = Done b ∧ P256.UnmarshalCompressed (to_bytes b) = None.
Proof.
  intros Hp Hx. unfold PublicKey_Bytes. rewrite Hp. eexists; split; [done|].
  pose proof (Big.Bytes_length_lt 31 x Hx) as Hl.
  rewrite to_of_bytes; last first.
  { constructor; [by destruct (Z.testbit y 0)|]. apply Big.Bytes_range. lia. }
  unfold P256.UnmarshalCompressed.
  destruct (Nat.eqb_spec (length (Big.Bytes x)) 32); [lia|].
  by rewrite andb_false_r.
Qed.

(** With them it is decoded again. *)
Lemma PublicKey_Bytes_full b x y :
  P256.UnmarshalCompressed (to_bytes b) = Some (x, y) → 256 ^ 31 ≤ x →
  ∃ b' q, PublicKey_Bytes {| pub_key := Some (x, y) |} = Done b' ∧
    P256.UnmarshalCompressed (to_bytes b') = Some q.
Proof.
  intros Hu Hx. pose proof (to_bytes_range b) as Hr. unfold PublicKey_Bytes. cbn [pub_key].
  unfold P256.UnmarshalCompressed in Hu. destruct (to_bytes b) as [|prefix xs]; [done|].
  destruct (((prefix =? 2) || (prefix =? 3)) && (length xs =? 32)%nat) eqn:Hg; [|done].
  apply andb_true_iff in Hg as [_ Hl]. apply Nat.eqb_eq in Hl.
  destruct (Z.ltb_spec (Big.SetBytes xs) P256.P) as [Hlt|]; [|done].
  destruct (P256.sqrt (P256.polynomial (Big.SetBytes xs))) as [r|] eqn:Hs; [|done].
  injection Hu as <- Hy. apply Forall_cons in Hr as [_ Hr].
  rewrite (Big.Bytes_SetBytes 31) by done.
  destruct (Z.testbit y 0); eexists _, _; (split; [reflexivity|]);
    rewrite to_of_bytes by (constructor; [by split|done]);
    unfold P256.UnmarshalCompressed; rewrite Hl;
    (destruct (Z.ltb_spec (Big.SetBytes xs) P256.P); [|lia]); rewrite Hs; reflexivity.
Qed.

(** *** What a check of a signature comes to

    A signature without its first half, or with a positive first half and no
    second one: what a message without the two numbers is read as. *)
Definition unsigned (sg : Signature) : Prop :=
  sig_R sg = None ∨ ∃ r, sig_R sg = Some r ∧ 0 < r ∧ sig_S sg = None.

Definition positive (sg : Signature) : Prop :=
  ∃ r s, sig_R sg = Some r ∧ sig_S sg = Some s ∧ 0 < r ∧ 0 < s.

(** The x coordinate has a leading zero byte. *)
Definition narrow_key (p : PublicKey) : Prop :=
  ∃ x y, pub_key p = Some (x, y) ∧ 0 ≤ x < 256 ^ 31.

(** The check of the signature [sg] by the key that [who] names crashes. *)
Definition crashing (who : string) (sg : Signature) : Prop :=
  ∃ pk, StringToPublicKey who = Ok pk ∧ (unsigned sg ∨ positive sg ∧ narrow_key pk).

Lemma StringToPublicKey_point s p :
  StringToPublicKey s = Ok p →
  ∃ b x y, P256.UnmarshalCompressed (to_bytes b) = Some (x, y) ∧ 0 ≤ x ∧
    p = {| pub_key := Some (x, y) |}.
Proof.
  unfold StringToPublicKey. destruct (Hex.DecodeString s) as [b|]; [|done].
  destruct (P256.UnmarshalCompressed _) as [[x y]|] eqn:Hq; [|done]. intros [= <-].
  exists b, x, y. split; [done|]. split; [|done].
  pose proof (to_bytes_range b) as Hr. unfold P256.UnmarshalCompressed in Hq.
  destruct (to_bytes b) as [|prefix xs]; [done|]. apply Forall_cons in Hr as [_ Hr].
  destruct (_ && _); [|done]. destruct (_ <? _); [|done].
  destruct (P256.sqrt _); [|done]. injection Hq as <- _. by apply Big.SetBytes_range.
Qed.

Section checks.
Context `{Ecdsa}.

Lemma Verify_crashes who sg pk b :
  StringToPublicKey who = Ok pk → crashing who sg →
  Verify sg b pk = Panicked "nil pointer dereference".
Proof.
  intros Hpk (pk' & Hpk' & Hc). rewrite Hpk in Hpk'. injection Hpk' as <-.
  unfold Verify, ecdsa_Verify. destruct Hc as [Hc|[(r & s & -> & -> & Hr & Hs) (x & y & Hp & Hx)]].
  - destruct (StringToPublicKey_point _ _ Hpk) as (b' & x & y & _ & _ & ->).
    unfold PublicKey_Bytes. cbn [pub_key mbind outcome_bind].
    destruct Hc as [->|(r & -> & Hr & ->)]; [done|]. by destruct (Z.leb_spec r 0); [lia|].
  - destruct (PublicKey_Bytes_short pk x y Hp Hx) as (b' & -> & Hu).
    cbn [mbind outcome_bind]. rewrite Hu.
    destruct (Z.leb_spec r 0); [lia|]. by destruct (Z.leb_spec s 0); [lia|].
Qed.

Lemma Verify_answers who sg pk b :
  StringToPublicKey who = Ok pk → ¬ crashing who sg → ∃ ok, Verify sg b pk = Done ok.
Proof.
  intros Hpk Hc.
  destruct (StringToPublicKey_point _ _ Hpk) as (b' & x & y & Hu & Hx & Hp).
  assert (∃ b'', PublicKey_Bytes pk = Done b'') as [b'' Hb] by (subst pk; by eexists).
  unfold Verify. rewrite Hb. cbn [mbind outcome_bind]. unfold ecdsa_Verify.
  destruct (sig_R sg) as [r|] eqn:HR; [|exfalso; apply Hc; exists pk; split; [done|left; by left]].
  destruct (Z.leb_spec r 0); [by eexists|].
  destruct (sig_S sg) as [s|] eqn:HS;
    [|exfalso; apply Hc; exists pk; split; [done|left; right; by exists r]].
  destruct (Z.leb_spec s 0); [by eexists|].
  destruct (Z.lt_ge_cases x (256 ^ 31)) as [Hlt|Hge].
  { exfalso. apply Hc. exists pk. split; [done|right]. split; [by exists r, s|].
    exists x, y. by subst pk. }
  destruct (PublicKey_Bytes_full b' x y Hu Hge) as (b3 & q & Hb3 & Hq).
  subst pk. rewrite Hb in Hb3. injection Hb3 as <-. rewrite Hq. by eexists.
Qed.
End checks.

(** ** Properties *)

(** C30: keys travel as text: a key read from its hexadecimal form, when its
    coordinates are full width, prints to a text that reads back as the same
    key, and that text is the one it was read from when that one is in lower
    case. *)
Theorem public_key_roundtrip s p :
  StringToPublicKey s = Ok p → full_width p →
  ∃ t, PublicKey_String p = Done t ∧ StringToPublicKey t = Ok p ∧
    (Hex.all_lower s = true → t = s).
Proof.
  intros Hs Hw. destruct (StringToPublicKey_inv _ _ Hs) as (b & Hb & Hu).
  exists (Hex.EncodeToString b). unfold PublicKey_String.
  rewrite (PublicKey_Bytes_compressed b) by done. split; [done|]. split.
  - unfold StringToPublicKey. rewrite Hex.DecodeString_EncodeToString, Hu.
    destruct Hw as (x & y & Hp & _). destruct p; simpl in *; by subst.
  - intros Hl. by apply Hex.EncodeToString_DecodeString.
Qed.

Definition base_hex : string :=
  "036b17d1f2e12c4247f8bce6e563a440f277037d812deb33a0f4a13945d898c296".
Definition base_x : Z := 0x6b17d1f2e12c4247f8bce6e563a440f277037d812deb33a0f4a13945d898c296.
Definition base_y : Z := 0x4fe342e2fe1a7f9b8ee7eb4a7c0f9e162bce33576b315ececbb6406837bf51f5.
Definition base_key : PublicKey := {| pub_key := Some (base_x, base_y) |}.

(** The one decompression that the runs need. *)
Definition base_bytes : bytes := of_bytes (3 :: Big.Bytes base_x).

Lemma base_decompress : P256.UnmarshalCompressed (to_bytes base_bytes) = Some (base_x, base_y).
Proof. vm_compute. reflexivity. Qed.

Lemma base_hex_key : StringToPublicKey base_hex = Ok base_key.
Proof.
  unfold StringToPublicKey. assert (Hex.DecodeString base_hex = Ok base_bytes) as ->.
  { vm_compute. reflexivity. }
  by rewrite base_decompress.
Qed.

Lemma base_key_bytes : PublicKey_Bytes base_key = Done base_bytes.
Proof. vm_compute. reflexivity. Qed.

Lemma Verify_base `{Ecdsa} sig data :
  Verify sig data base_key = ecdsa_Verify (Some (base_x, base_y)) data (sig_R sig) (sig_S sig).
Proof. unfold Verify. rewrite base_key_bytes. cbn [mbind outcome_bind]. by rewrite base_decompress. Qed.

Lemma base_full_width : full_width base_key.
Proof. exists base_x, base_y. split; [reflexivity|]. by split. Qed.

Lemma public_key_roundtrip_witness :
  ∃ t, PublicKey_String base_key = Done t ∧ StringToPublicKey t = Ok base_key ∧
    (Hex.all_lower base_hex = true → t = base_hex).
Proof.
  apply public_key_roundtrip; [apply base_hex_key|apply base_full_width].
Defined.

(** The scalar 379 times the base point: its x coordinate has a leading zero
    byte, as one key in 256 has. *)
Definition short_x : Z := 0x5543894af3d00ed7d740abdbd75c96b06877b787db5f70eea78b90a8d7c00a.
Definition short_key : PublicKey := {| pub_key := Some (short_x, 2) |}.

(** A key whose x coordinate has a leading zero byte is unusable: its text form
    is refused when read back, and verifying any signature with positive halves
    against it stops the process with a nil dereference. *)
Theorem short_key_unusable `{Ecdsa} p x y sig data r s :
  pub_key p = Some (x, y) → 0 ≤ x < 256 ^ 31 →
  sig_R sig = Some r → sig_S sig = Some s → 0 < r → 0 < s →
  (∃ t, PublicKey_String p = Done t ∧
     StringToPublicKey t = Error (Errorf "invalid compressed public key")) ∧
  Verify sig data p = Panicked "nil pointer dereference".
Proof.
  intros Hp Hx HR HS Hr Hs.
  destruct (PublicKey_Bytes_short p x y Hp Hx) as (b & Hb & Hnone). split.
  - exists (Hex.EncodeToString b). unfold PublicKey_String. rewrite Hb. split; [done|].
    unfold StringToPublicKey. by rewrite Hex.DecodeString_EncodeToString, Hnone.
  - unfold Verify. rewrite Hb. cbn. rewrite Hnone, HR, HS. cbn.
    destruct (Z.leb_spec r 0); [lia|]. by destruct (Z.leb_spec s 0); [lia|].
Qed.

(** An instance to evaluate the model with: a transparent scheme whose
    signatures are a function of the message digest. *)
Definition plain_ecdsa : Ecdsa := {|
  entropy := unit;
  base_mult _ := (base_x, base_y);
  sign_digest _ _ e := Ok (e * e + 1, 1);
  verify_digest _ e r s := (r =? e * e + 1) && (s =? 1)
|}.

#[export] Instance plain_ecdsa_laws : EcdsaLaws plain_ecdsa.
Proof.
  split; simpl.
  - intros _ _ e r s [= <- <-]. by rewrite !Z.eqb_refl.
  - intros _ _ e r s [= <- <-]. nia.
Qed.

Lemma short_key_unusable_witness :
  let E := plain_ecdsa in
  (∃ t, PublicKey_String short_key = Done t ∧
     StringToPublicKey t = Error (Errorf "invalid compressed public key")) ∧
  Verify {| sig_R := Some 7; sig_S := Some 9 |} "report" short_key = Panicked "nil pointer dereference".
Proof.
  intros E. apply (short_key_unusable short_key short_x 2 _ _ 7 9); done.
Defined.

(** A key pair made by [base_mult] whose point survives its own encoding. *)
Definition key_pair `{Ecdsa} (p : PrivateKey) : Prop :=
  priv_pub p = base_mult (priv_D p) ∧
  ∃ b, PublicKey_Bytes (PrivateKey_PublicKey p) = Done b ∧
    P256.UnmarshalCompressed (to_bytes b) = Some (priv_pub p).

(** What a node signs with its private key verifies under its public key. *)
Theorem sign_then_verify `{EcdsaLaws} k p data sig :
  key_pair p → Sign k p data = Ok sig →
  Verify sig data (PrivateKey_PublicKey p) = Done true.
Proof.
  intros (Hpub & b & Hb & Hu). unfold Sign.
  destruct (sign_digest _ _ _) as [[r s]|] eqn:Hsign; [|done]. intros [= <-].
  destruct (sign_positive _ _ _ _ _ Hsign). unfold Verify. rewrite Hb. cbn.
  destruct (Z.leb_spec r 0); [lia|]. destruct (Z.leb_spec s 0); [lia|].
  rewrite Hu, Hpub. f_equal. by apply (sign_verify k).
Qed.

Definition base_pair : PrivateKey := {| priv_D := 1; priv_pub := (base_x, base_y) |}.

Lemma sign_then_verify_witness :
  let E := plain_ecdsa in
  Verify {| sig_R := Some (hashToNat "report" * hashToNat "report" + 1); sig_S := Some 1 |}
    "report" (PrivateKey_PublicKey base_pair) = Done true.
Proof.
  intros E. apply (sign_then_verify (H := plain_ecdsa_laws) tt base_pair); [|done].
  split; [done|]. exists base_bytes. split; [apply base_key_bytes|apply base_decompress].
Defined.

(** A signature covers the first 32 bytes of the message and nothing else: the
    message is handed to ECDSA in place of its hash. Two messages that start
    alike are interchangeable under every signature and key. *)
Theorem signature_covers_32_bytes `{Ecdsa} sig p m m' :
  take 32 (to_bytes m) = take 32 (to_bytes m') →
  Verify sig m p = Verify sig m' p.
Proof.
  intros Hm. unfold Verify, ecdsa_Verify, hashToNat. by rewrite Hm.
Qed.

Lemma signature_covers_32_bytes_witness :
  let E := plain_ecdsa in
  Verify {| sig_R := Some 3; sig_S := Some 1 |} "a message of thirty-two bytes...: pay 1" base_key =
  Verify {| sig_R := Some 3; sig_S := Some 1 |} "a message of thirty-two bytes...: pay 1000" base_key.
Proof. intros E. apply signature_covers_32_bytes. reflexivity. Defined.

(** Addresses travel as text: a 20-byte address is what its text reads back as,
    with or without the prefix, and everything that is read is a 20-byte
    address. *)
Theorem address_roundtrip (a : Address.t) :
  (Address.valid a →
     Address.UnmarshalText (Address.String a) = Ok a ∧
     Address.UnmarshalText (Hex.EncodeToString a) = Ok a) ∧
  (∀ text, Address.UnmarshalText text = Ok a → Address.valid a).
Proof.
  split; [intros Ha; split|].
  - unfold Address.UnmarshalText, Address.String. cbv zeta.
    rewrite strip_0x, Hex.DecodeString_EncodeToString. by rewrite Ha.
  - unfold Address.UnmarshalText. cbv zeta. rewrite hex_not_0x, andb_false_r. cbv iota.
    rewrite Hex.DecodeString_EncodeToString. by rewrite Ha.
  - unfold Address.UnmarshalText, Address.valid. intros text.
    generalize (if (2 <=? String.length text)%nat && String.eqb (String.substring 0 2 text) "0x"
      then String.substring 2 (String.length text - 2) text else text). intros h.
    destruct (Hex.DecodeString h) as [d|]; [|done].
    by destruct (Nat.eqb_spec (String.length d) 20); intros [= <-].
Qed.

(** The address of a key is well formed: taking it never panics for a key that
    has a point. *)
Theorem key_address_valid p b :
  PublicKey_Bytes p = Done b →
  ∃ a, PublicKey_Address p = Done a ∧ Address.valid a.
Proof.
  intros Hb. unfold PublicKey_Address. rewrite Hb. cbn [mbind outcome_bind].
  rewrite Sha256.Sum256_length. change (32 - 20)%nat with 12%nat.
  pose proof (Sha256.Sum256_length b) as Hl.
  set (h := Sha256.Sum256 b) in *.
  assert (Hlen : String.length (String.substring 12 20 h) = 20%nat).
  { rewrite substring_length; lia. }
  exists (String.substring 12 20 h). unfold Address.AddressFromBytes.
  by rewrite Hlen.
Qed.

Lemma key_address_valid_witness :
  ∃ a, PublicKey_Address base_key = Done a ∧ Address.valid a.
Proof. eapply key_address_valid. reflexivity. Defined.
