(* ===== verification/Strconv.v ===== *)
(** * float64 and strconv for floating point

    [float64] arithmetic is the IEEE 754 binary64 of the standard library's
    [SpecFloat] (no axioms: it computes), and [strconv.ParseFloat],
    [strconv.FormatFloat] and the [%v] verb are written out on it.  Values
    that are not numbers are all one NaN. *)

From Stdlib Require Import Ascii.
From Stdlib Require Import SpecFloat.
From S2P Require Import Prelude Bytes.

Abbreviation float64 := spec_float.

#[export] Instance spec_float_eq_dec : EqDecision spec_float.
Proof. solve_decision. Defined.

Module Float64.
Definition zero : float64 := S754_zero false.
Definition add : float64 → float64 → float64 := SFadd 53 1024.
Definition mul : float64 → float64 → float64 := SFmul 53 1024.
Definition div : float64 → float64 → float64 := SFdiv 53 1024.

(** [float64(n)] for an integer *)
Definition of_Z (z : Z) : float64 := binary_normalize 53 1024 z 0 false.

Definition of_ratio (neg : bool) (num den : positive) : float64 :=
  SFdiv 53 1024 (S754_finite neg num 0) (S754_finite false den 0).

(** ± [m] 10^[e], correctly rounded; the guards are the ones of strconv and
    keep the powers of ten small. *)
Definition of_decimal (neg : bool) (m e : Z) : float64 :=
  match m with
  | Zpos p =>
      let dp := Z.of_nat (String.length (Itoa m)) + e in
      if 310 <? dp then S754_infinity neg
      else if dp <? -330 then S754_zero neg
      else if 0 <=? e then of_ratio neg (p * Z.to_pos (10 ^ e)) 1
      else of_ratio neg p (Z.to_pos (10 ^ (- e)))
  | _ => S754_zero neg
  end.

(** ± [m] 2^[e], correctly rounded *)
Definition of_binary (neg : bool) (m e : Z) : float64 :=
  match m with
  | Zpos p => binary_normalize 53 1024 (if neg then Zneg p else Zpos p) e neg
  | _ => S754_zero neg
  end.
End Float64.

(** ** ParseFloat *)
Module ParseFloat.
Definition lower (z : Z) : Z := if (65 <=? z) && (z <=? 90) then z + 32 else z.

Definition digit (hex : bool) (z : Z) : option Z :=
  if (48 <=? z) && (z <=? 57) then Some (z - 48)
  else if hex && (97 <=? lower z) && (lower z <=? 102) then Some (lower z - 87)
  else None.

(** Digits and at most one point: the mantissa, the number of digits after
    the point, whether a digit was seen, and the rest. *)
Fixpoint mantissa (hex : bool) (l : list Z) (m frac : Z) (dot dig : bool)
    : Z * Z * bool * list Z :=
  match l with
  | z :: l' =>
      if z =? 46 then
        if dot then (m, frac, dig, l) else mantissa hex l' m frac true dig
      else match digit hex z with
           | Some d =>
               mantissa hex l' ((if hex then 16 else 10) * m + d)
                 (if dot then frac + 1 else frac) dot true
           | None => (m, frac, dig, l)
           end
  | [] => (m, frac, dig, l)
  end.

Fixpoint exponent (l : list Z) (e : Z) : option Z :=
  match l with
  | [] => Some e
  | z :: l =>
      match digit false z with
      (* strconv stops adding digits at 10000 *)
      | Some d => exponent l (if e <? 10000 then 10 * e + d else e)
      | None => None
      end
  end.

Definition sign (l : list Z) : bool * list Z :=
  match l with
  | 43 :: l => (false, l)
  | 45 :: l => (true, l)
  | l => (false, l)
  end.

Definition number (l : list Z) : option float64 :=
  let (neg, l) := sign l in
  let (hex, l) :=
    match l with
    | 48 :: x :: l' => if lower x =? 120 then (true, l') else (false, l)
    | l => (false, l)
    end in
  match mantissa hex l 0 0 false false with
  | (m, frac, true, rest) =>
      let e :=
        match rest with
        | [] => if hex then None else Some 0
        | x :: rest =>
            if lower x =? (if hex then 112 else 101) then
              let (eneg, rest) := sign rest in
              match rest with
              | [] => None
              | _ => e ← exponent rest 0; Some (if eneg : bool then - e else e)
              end
            else None
        end in
      e ← e;
      Some (if hex then Float64.of_binary neg m (e - 4 * frac)
            else Float64.of_decimal neg m (e - frac))
  | _ => None
  end.

Definition special (l : list Z) : option float64 :=
  let (neg, l') := sign l in
  let w := of_bytes (lower <$> l') in
  if String.eqb w "inf" || String.eqb w "infinity" then Some (S754_infinity neg)
  else if String.eqb (of_bytes (lower <$> l)) "nan" then Some S754_nan
  else None.

(** [underscoreOK]: underscores stand between digits, or between the prefix and
    a digit; [saw] is the last character: a digit, an underscore, or another. *)
Inductive seen := SawDigit | SawUnderscore | SawOther.

Fixpoint underscores_between (hex : bool) (saw : seen) (l : list Z) : bool :=
  match l with
  | [] => match saw with SawUnderscore => false | _ => true end
  | z :: l =>
      match digit hex z with
      | Some _ => underscores_between hex SawDigit l
      | None =>
          if z =? 95 then
            match saw with SawDigit => underscores_between hex SawUnderscore l | _ => false end
          else match saw with SawUnderscore => false | _ => underscores_between hex SawOther l end
      end
  end.

Definition underscoreOK (l : list Z) : bool :=
  let l := (sign l).2 in
  match l with
  | 48 :: x :: l' =>
      if (lower x =? 98) || (lower x =? 111) || (lower x =? 120)
      then underscores_between (lower x =? 120) SawDigit l'
      else underscores_between false SawOther l
  | _ => underscores_between false SawOther l
  end.

(** The number without its underscores. *)
Definition without_underscores (l : list Z) : option (list Z) :=
  if bool_decide (95 ∈ l) then
    if underscoreOK l then Some (filter (λ z, z ≠ 95) l) else None
  else Some l.

Lemma no_underscores l : Forall (λ z, z ≠ 95) l → without_underscores l = Some l.
Proof.
  intros Hl. unfold without_underscores. rewrite bool_decide_eq_false_2; [done|].
  intros Hin. by destruct (proj1 (Forall_forall _ _) Hl 95 Hin).
Qed.
End ParseFloat.

(** [strconv.ParseFloat(s, 64)] *)
Definition ParseFloat (s : string) : result float64 :=
  match ParseFloat.special (to_bytes s) with
  | Some f => Ok f
  | None =>
      match ParseFloat.without_underscores (to_bytes s) ≫= ParseFloat.number with
      | None => Error (Errorf "strconv.ParseFloat: invalid syntax")
      | Some (S754_infinity _) => Error (Errorf "strconv.ParseFloat: value out of range")
      | Some f => Ok f
      end
  end.

(** ** FormatFloat with the shortest precision *)
Module FormatFloat.
(** num/den < 10^k *)
Definition below (num den k : Z) : bool :=
  if 0 <=? k then num <? 10 ^ k * den else num * 10 ^ (- k) <? den.

Definition find_dp (num den est : Z) : Z :=
  if below num den (est - 1) then est - 1
  else if below num den est then est
  else if below num den (est + 1) then est + 1
  else est + 2.

(** [d] 10^[dp - n], where [d] has [n] digits or is 10^n, which is written with
    the digit 1: the digits, and the position of the decimal point. *)
Definition pointed (d n dp : Z) : Z * Z := if d =? 10 ^ n then (1, dp + 1) else (d, dp).

Definition reads_as (f : float64) (d n dp : Z) : bool :=
  let '(d, e) := if d =? 10 ^ n then (1, dp) else (d, dp - n) in
  bool_decide (Float64.of_decimal false d e = f).

(** The first number of digits [n] for which one of the two [n]-digit
    decimals around the value reads back as it; the closer one if both do,
    the even one if they are as close. *)
Fixpoint search (fuel : nat) (f : float64) (num den dp n : Z) : Z * Z :=
  let k := n - dp in
  let (a, b) := if 0 <=? k then (num * 10 ^ k, den) else (num, den * 10 ^ (- k)) in
  let lo := a / b in
  let up := lo + 1 in
  let ok d := reads_as f d n dp in
  let r := a - lo * b in
  let nearest := if 2 * r <? b then lo else if b <? 2 * r then up
                 else if Z.even lo then lo else up in
  match fuel with
  | O => (nearest, n)
  | S fuel =>
      if ok lo && ok up then (nearest, n)
      else if ok lo then (lo, n)
      else if ok up then (up, n)
      else search fuel f num den dp (n + 1)
  end.

(** No float has more digits than this, so that the search ends with one that
    reads back (17 are enough, and with all the digits there is no rounding). *)
Definition max_digits : nat := Z.to_nat 1400.

(** The digits and the position of the decimal point: 0.digits × 10^dp. *)
Definition shortest (m : positive) (e : Z) : string * Z :=
  let num := Zpos m * 2 ^ Z.max e 0 in
  let den := 2 ^ Z.max (- e) 0 in
  let dp := find_dp num den (((Z.log2 (Zpos m) + e) * 30103) / 100000) in
  let (d, n) := search max_digits (S754_finite false m e) num den dp 1 in
  let (d, dp) := pointed d n dp in (Itoa d, dp).

Definition zeros (n : Z) : string := of_bytes (replicate (Z.to_nat n) 48).

(** [pad]: at least two digits of exponent, as strconv prints it. *)
Definition fmtE (pad : bool) (digs : string) (dp : Z) : string :=
  let e := dp - 1 in
  let a := Itoa (Z.abs e) in
  String.substring 0 1 digs
  +:+ (if (String.length digs =? 1)%nat then ""
       else "." +:+ String.substring 1 (String.length digs - 1) digs)
  +:+ "e" +:+ (if e <? 0 then "-" else "+")
  +:+ (if pad && (String.length a =? 1)%nat then "0" else "") +:+ a.

Definition fmtF (digs : string) (dp : Z) : string :=
  let nd := Z.of_nat (String.length digs) in
  (if 0 <? dp then
     String.substring 0 (Z.to_nat (Z.min nd dp)) digs +:+ zeros (dp - nd)
   else "0")
  +:+ (if dp <? nd then
         "." +:+ zeros (- dp)
         +:+ String.substring (Z.to_nat (Z.max dp 0)) (Z.to_nat (nd - Z.max dp 0)) digs
       else "").

Definition sign (neg : bool) (s : string) : string := if neg then "-" +:+ s else s.
End FormatFloat.

(** [fmt.Sprintf("%v", f)]: format 'g' with the shortest precision, which
    takes an exponent form below 1e-4 and from 1e6 on. *)
Definition Sprint_float (f : float64) : string :=
  match f with
  | S754_nan => "NaN"
  | S754_infinity neg => if neg then "-Inf" else "+Inf"
  | S754_zero neg => FormatFloat.sign neg "0"
  | S754_finite neg m e =>
      let (digs, dp) := FormatFloat.shortest m e in
      FormatFloat.sign neg
        (if (dp - 1 <? -4) || (6 <=? dp - 1)
         then FormatFloat.fmtE true digs dp else FormatFloat.fmtF digs dp)
  end.

(** The number that [encoding/json] writes for a float64: format 'f', or 'e'
    below 1e-6 and from 1e21 on; infinities and NaN are refused. *)
Definition json_float (f : float64) : result string :=
  match f with
  | S754_nan | S754_infinity _ => Error (Errorf "json: unsupported value")
  | S754_zero neg => Ok (FormatFloat.sign neg "0")
  | S754_finite neg m e =>
      let (digs, dp) := FormatFloat.shortest m e in
      Ok (FormatFloat.sign neg
        (if (dp <=? -6) || (22 <=? dp)
         then FormatFloat.fmtE false digs dp else FormatFloat.fmtF digs dp))
  end.

(** ** Checks against known values *)
Definition float_of (s : string) : float64 :=
  match ParseFloat s with Ok f => f | Error _ => S754_nan end.

Example parse_tenth : float_of "0.1" = S754_finite false 7205759403792794 (-56).
Proof. vm_compute. reflexivity. Qed.

Example parse_hex : float_of "-0x1.8p1" = float_of "-3".
Proof. vm_compute. reflexivity. Qed.

Example parse_underscores :
  ParseFloat "1_23.50_0_0e+1_2" = ParseFloat "1.235e14" ∧
  ParseFloat "1__0" = Error (Errorf "strconv.ParseFloat: invalid syntax") ∧
  ParseFloat "0x_1p1" = ParseFloat "2".
Proof. split_and!; vm_compute; reflexivity. Qed.

Example parse_bad : ParseFloat "1.2.3" = Error (Errorf "strconv.ParseFloat: invalid syntax").
Proof. vm_compute. reflexivity. Qed.

Example print_floats :
  Sprint_float <$> (float_of <$> ["0.1"; "3012.55"; "1e6"; "123456"; "0.00001234";
    "1e23"; "-2.5"]) =
  ["0.1"; "3012.55"; "1e+06"; "123456"; "1.234e-05";
    "1e+23"; "-2.5"].
Proof. vm_compute. reflexivity. Qed.

Example json_floats :
  json_float <$> (float_of <$> ["0.1"; "1e6"; "1e21"; "0.0000001"; "123456789012345680000"; "-0"]) =
  Ok <$> ["0.1"; "1000000"; "1e+21"; "1e-7"; "123456789012345680000"; "-0"].
Proof. vm_compute. reflexivity. Qed.

(** Addition of float64 is not associative, so a sum depends on its order. *)
Example sum_order :
  Sprint_float (Float64.add (Float64.add (float_of "0.1") (float_of "0.2")) (float_of "0.3"))
    = "0.6000000000000001" ∧
  Sprint_float (Float64.add (Float64.add (float_of "0.3") (float_of "0.2")) (float_of "0.1"))
    = "0.6".
Proof. split; vm_compute; reflexivity. Qed.
