(* ===== verification/Json.v ===== *)
(** * encoding/json: the text layer

    JSON trees, the compact text that [json.Marshal] writes for them and the
    syntax that [json.Unmarshal] reads.  A number is kept as its literal, as
    the standard library's scanner does; the typed layer interprets it. *)

From Stdlib Require Import Ascii DecimalPos DecimalString.
From S2P Require Import Prelude Bytes.

Inductive json : Type :=
| JNull
| JBool (b : bool)
| JNum (lit : string)
| JStr (s : string)
| JArr (l : list json)
| JObj (l : list (string * json)).

Definition quote : ascii := chr 34.
Definition backslash : ascii := chr 92.

(** ** UTF-8 *)
Module Utf8.
Definition cont (z : Z) : bool := (128 <=? z) && (z <=? 191).

Definition two (a b : Z) : bool := (194 <=? a) && (a <=? 223) && cont b.

Definition three (a b c : Z) : bool :=
  cont c &&
  (((a =? 224) && (160 <=? b) && (b <=? 191))
   || ((225 <=? a) && (a <=? 239) && negb (a =? 237) && cont b)
   || ((a =? 237) && (128 <=? b) && (b <=? 159))).

Definition four (a b c d : Z) : bool :=
  cont c && cont d &&
  (((a =? 240) && (144 <=? b) && (b <=? 191))
   || ((241 <=? a) && (a <=? 243) && cont b)
   || ((a =? 244) && (128 <=? b) && (b <=? 143))).

(** [utf8.EncodeRune] *)
Definition encode (r : Z) : string :=
  of_bytes
    (if r <? 128 then [r]
     else if r <? 2048 then [192 + r / 64; 128 + r mod 64]
     else if r <? 65536 then [224 + r / 4096; 128 + r / 64 mod 64; 128 + r mod 64]
     else [240 + r / 262144; 128 + r / 4096 mod 64; 128 + r / 64 mod 64; 128 + r mod 64]).

Definition replacement : string := encode 65533.
End Utf8.

(** ** Writing *)
Definition hex_escape (z : Z) : string :=
  "\u00" +:+ String (Hex.digit (z / 16)) (String (Hex.digit (z mod 16)) "").

(** One ASCII character inside a string, with [EscapeHTML] on. *)
Definition escape_ascii (c : ascii) : string :=
  let z := code c in
  if (z =? 34) || (z =? 92) then String backslash (String c "")
  else if z =? 8 then "\b"
  else if z =? 12 then "\f"
  else if z =? 10 then "\n"
  else if z =? 13 then "\r"
  else if z =? 9 then "\t"
  else if (z <? 32) || (z =? 60) || (z =? 62) || (z =? 38) then hex_escape z
  else String c "".

(** The line separators U+2028 and U+2029 are escaped. *)
Definition escape_three (a b c : ascii) : string :=
  if (code a =? 226) && (code b =? 128) && ((code c =? 168) || (code c =? 169))
  then "\u202" +:+ String (Hex.digit (code c mod 16)) ""
  else String a (String b (String c "")).

Fixpoint escape (s : string) : string :=
  match s with
  | EmptyString => ""
  | String a s1 =>
      if code a <? 128 then escape_ascii a +:+ escape s1 else
      match s1 with
      | EmptyString => "\ufffd"
      | String b s2 =>
          if Utf8.two (code a) (code b) then String a (String b (escape s2)) else
          match s2 with
          | EmptyString => "\ufffd" +:+ escape s1
          | String c s3 =>
              if Utf8.three (code a) (code b) (code c)
              then escape_three a b c +:+ escape s3 else
              match s3 with
              | EmptyString => "\ufffd" +:+ escape s1
              | String d s4 =>
                  if Utf8.four (code a) (code b) (code c) (code d)
                  then String a (String b (String c (String d (escape s4))))
                  else "\ufffd" +:+ escape s1
              end
          end
      end
  end.

Definition print_string (s : string) : string :=
  String quote (escape s +:+ String quote "").

(** Items separated by commas. *)
Fixpoint sep (l : list string) : string :=
  match l with
  | [] => ""
  | [x] => x
  | x :: l => x +:+ "," +:+ sep l
  end.

Fixpoint print (j : json) : string :=
  match j with
  | JNull => "null"
  | JBool b => if b then "true" else "false"
  | JNum lit => lit
  | JStr s => print_string s
  | JArr l => "[" +:+ sep (map print l) +:+ "]"
  | JObj l => "{" +:+ sep (map (λ kj, print_string kj.1 +:+ ":" +:+ print kj.2) l) +:+ "}"
  end.

(** [json.Indent] without prefix and with an indentation of two spaces: [k] is
    how deep the value is. *)
Definition newline (k : nat) : string := String (chr 10) (String.concat "" (replicate k "  ")).

Fixpoint print_indent (k : nat) (j : json) : string :=
  match j with
  | JArr ((_ :: _) as l) =>
      "[" +:+ sep (map (λ j, newline (S k) +:+ print_indent (S k) j) l) +:+ newline k +:+ "]"
  | JObj ((_ :: _) as l) =>
      "{" +:+ sep (map (λ kj, newline (S k) +:+ print_string kj.1 +:+ ":" +:+ " " +:+
                               print_indent (S k) kj.2) l) +:+ newline k +:+ "}"
  | j => print j
  end.

(** ** Reading *)
Definition is_space (c : ascii) : bool :=
  let z := code c in (z =? 32) || (z =? 9) || (z =? 10) || (z =? 13).

Fixpoint skip (s : string) : string :=
  match s with
  | String c s' => if is_space c then skip s' else s
  | EmptyString => s
  end.

(** The four hexadecimal digits of a \u escape. *)
Definition getu4 (s : string) : option (Z * string) :=
  match s with
  | String a (String b (String c (String d s))) =>
      w ← Hex.value a; x ← Hex.value b; y ← Hex.value c; z ← Hex.value d;
      Some (4096 * w + 256 * x + 16 * y + z, s)
  | _ => None
  end.

Definition simple_escape (c : ascii) : option Z :=
  let z := code c in
  if (z =? 34) || (z =? 92) || (z =? 47) then Some z
  else if z =? 98 then Some 8
  else if z =? 102 then Some 12
  else if z =? 110 then Some 10
  else if z =? 114 then Some 13
  else if z =? 116 then Some 9
  else None.

Definition surrogate (r : Z) : bool := (55296 <=? r) && (r <? 57344).

(** The characters up to the closing quote, decoded; the rest follows it.
    Escapes are read first and surrogate halves joined; bytes that are not
    UTF-8 become the replacement character. *)
Fixpoint unquote (fuel : nat) (s : string) : option (string * string) :=
  match fuel with
  | O => None
  | S fuel =>
      let emit p s := '(t, rest) ← unquote fuel s; Some (p +:+ t, rest) in
      match s with
      | EmptyString => None
      | String a s1 =>
          if code a =? 34 then Some ("", s1)
          else if code a =? 92 then
            match s1 with
            | EmptyString => None
            | String e s2 =>
                if code e =? 117 then
                  '(r, s3) ← getu4 s2;
                  if surrogate r then
                    match s3 with
                    | String x (String y s4) =>
                        if (code x =? 92) && (code y =? 117) then
                          '(r', s5) ← getu4 s4;
                          if (r <? 56320) && (56320 <=? r') && (r' <? 57344)
                          then emit (Utf8.encode
                                 (65536 + 1024 * (r - 55296) + (r' - 56320))) s5
                          else emit Utf8.replacement s3
                        else emit Utf8.replacement s3
                    | _ => emit Utf8.replacement s3
                    end
                  else emit (Utf8.encode r) s3
                else
                  z ← simple_escape e; emit (String (chr z) "") s2
            end
          else if code a <? 32 then None
          else if code a <? 128 then emit (String a "") s1
          else
          match s1 with
          | EmptyString => None
          | String b s2 =>
              if Utf8.two (code a) (code b) then emit (String a (String b "")) s2 else
              match s2 with
              | EmptyString => emit Utf8.replacement s1
              | String c s3 =>
                  if Utf8.three (code a) (code b) (code c)
                  then emit (String a (String b (String c ""))) s3 else
                  match s3 with
                  | EmptyString => emit Utf8.replacement s1
                  | String d s4 =>
                      if Utf8.four (code a) (code b) (code c) (code d)
                      then emit (String a (String b (String c (String d "")))) s4
                      else emit Utf8.replacement s1
                  end
              end
          end
      end
  end.

(** *** Numbers *)
Definition is_digit (c : ascii) : bool := (48 <=? code c) && (code c <=? 57).

Definition number_char (c : ascii) : bool :=
  let z := code c in
  is_digit c || (z =? 45) || (z =? 43) || (z =? 46) || (z =? 101) || (z =? 69).

Fixpoint span (p : ascii → bool) (s : string) : string * string :=
  match s with
  | String c s' =>
      if p c then let (a, b) := span p s' in (String c a, b) else ("", s)
  | EmptyString => ("", "")
  end.

Definition digits1 (s : string) : option string :=
  match span is_digit s with
  | (EmptyString, _) => None
  | (_, rest) => Some rest
  end.

Definition exponent_part (s : string) : bool :=
  match s with
  | EmptyString => true
  | String e s =>
      ((code e =? 101) || (code e =? 69)) &&
      match digits1 (match s with
                     | String c s' =>
                         if (code c =? 43) || (code c =? 45) then s' else s
                     | EmptyString => s
                     end) with
      | Some EmptyString => true
      | _ => false
      end
  end.

Definition fraction_part (s : string) : bool :=
  match s with
  | String c s' =>
      if code c =? 46 then
        match digits1 s' with Some rest => exponent_part rest | None => false end
      else exponent_part s
  | EmptyString => true
  end.

Definition unsigned_number (s : string) : bool :=
  match s with
  | String c s' =>
      if code c =? 48 then fraction_part s'
      else is_digit c && fraction_part (span is_digit s').2
  | EmptyString => false
  end.

(** The grammar of a JSON number. *)
Definition valid_number (s : string) : bool :=
  match s with
  | String c s' => if code c =? 45 then unsigned_number s' else unsigned_number s
  | EmptyString => false
  end.

Fixpoint strip (p s : string) : option string :=
  match p, s with
  | EmptyString, _ => Some s
  | String a p, String b s => if Ascii.eqb a b then strip p s else None
  | _, _ => None
  end.

(** [fuel] bounds the recursion and [depth] the nesting of arrays and objects,
    as the scanner does. *)
Fixpoint value (fuel : nat) (depth : Z) (s : string) : option (json * string) :=
  match fuel with
  | O => None
  | S fuel =>
      match skip s with
      | EmptyString => None
      | String c s' =>
          if code c =? 34 then
            '(t, rest) ← unquote (S (String.length s')) s'; Some (JStr t, rest)
          else if code c =? 91 then
            if depth <=? 0 then None else
            match skip s' with
            | String d rest =>
                if code d =? 93 then Some (JArr [], rest) else
                '(l, rest) ← elements fuel (depth - 1) s'; Some (JArr l, rest)
            | EmptyString => None
            end
          else if code c =? 123 then
            if depth <=? 0 then None else
            match skip s' with
            | String d rest =>
                if code d =? 125 then Some (JObj [], rest) else
                '(l, rest) ← members fuel (depth - 1) s'; Some (JObj l, rest)
            | EmptyString => None
            end
          else if code c =? 110 then
            rest ← strip "ull" s'; Some (JNull, rest)
          else if code c =? 116 then
            rest ← strip "rue" s'; Some (JBool true, rest)
          else if code c =? 102 then
            rest ← strip "alse" s'; Some (JBool false, rest)
          else
            let (lit, rest) := span number_char (String c s') in
            if valid_number lit then Some (JNum lit, rest) else None
      end
  end
with elements (fuel : nat) (depth : Z) (s : string) : option (list json * string) :=
  match fuel with
  | O => None
  | S fuel =>
      '(j, rest) ← value fuel depth s;
      match skip rest with
      | String c rest =>
          if code c =? 44 then
            '(l, rest) ← elements fuel depth rest; Some (j :: l, rest)
          else if code c =? 93 then Some ([j], rest)
          else None
      | EmptyString => None
      end
  end
with members (fuel : nat) (depth : Z) (s : string)
    : option (list (string * json) * string) :=
  match fuel with
  | O => None
  | S fuel =>
      match skip s with
      | String q s' =>
          if code q =? 34 then
            '(k, rest) ← unquote (S (String.length s')) s';
            match skip rest with
            | String c rest =>
                if code c =? 58 then
                  '(j, rest) ← value fuel depth rest;
                  match skip rest with
                  | String c rest =>
                      if code c =? 44 then
                        '(l, rest) ← members fuel depth rest; Some ((k, j) :: l, rest)
                      else if code c =? 125 then Some ([(k, j)], rest)
                      else None
                  | EmptyString => None
                  end
                else None
            | EmptyString => None
            end
          else None
      | EmptyString => None
      end
  end.

Definition max_depth : Z := 10000.

Definition parse (s : string) : result json :=
  match value (S (2 * String.length s)) max_depth s with
  | Some (j, rest) =>
      match skip rest with
      | EmptyString => Ok j
      | _ => Error (Errorf "json: invalid character after top-level value")
      end
  | None => Error (Errorf "json: syntax error")
  end.

Example parse_print :
  let j := JObj [("a<b", JArr [JNum "-1.5e+3"; JNull; JBool true]);
                 ("k", JStr (String quote (String (chr 7) "x"))); ("o", JObj [])] in
  parse (print j) = Ok j.
Proof. vm_compute. reflexivity. Qed.

(** ** Well-formed trees

    The trees that are a faithful image of a Go value: strings are UTF-8,
    numbers are literals of the grammar, the nesting is within the bound. *)
Fixpoint is_utf8 (s : string) : bool :=
  match s with
  | EmptyString => true
  | String a s1 =>
      if code a <? 128 then is_utf8 s1 else
      match s1 with
      | EmptyString => false
      | String b s2 =>
          if Utf8.two (code a) (code b) then is_utf8 s2 else
          match s2 with
          | EmptyString => false
          | String c s3 =>
              if Utf8.three (code a) (code b) (code c) then is_utf8 s3 else
              match s3 with
              | EmptyString => false
              | String d s4 => Utf8.four (code a) (code b) (code c) (code d) && is_utf8 s4
              end
          end
      end
  end.

Fixpoint all_chars (p : ascii → bool) (s : string) : bool :=
  match s with
  | EmptyString => true
  | String c s => p c && all_chars p s
  end.

Definition wf_number (lit : string) : bool :=
  valid_number lit && all_chars number_char lit.

Fixpoint wf (depth : Z) (j : json) : bool :=
  match j with
  | JNull | JBool _ => true
  | JNum lit => wf_number lit
  | JStr s => is_utf8 s
  | JArr l => (0 <? depth) && forallb (wf (depth - 1)) l
  | JObj l => (0 <? depth) && forallb (λ kj, is_utf8 kj.1 && wf (depth - 1) kj.2) l
  end.

(** What is read back of a string: itself, with U+FFFD for every byte that
    begins no UTF-8 sequence. *)
Fixpoint to_valid (s : string) : string :=
  match s with
  | EmptyString => ""
  | String a s1 =>
      if code a <? 128 then String a (to_valid s1) else
      match s1 with
      | EmptyString => Utf8.replacement
      | String b s2 =>
          if Utf8.two (code a) (code b) then String a (String b (to_valid s2)) else
          match s2 with
          | EmptyString => Utf8.replacement +:+ to_valid s1
          | String c s3 =>
              if Utf8.three (code a) (code b) (code c)
              then String a (String b (String c (to_valid s3))) else
              match s3 with
              | EmptyString => Utf8.replacement +:+ to_valid s1
              | String d s4 =>
                  if Utf8.four (code a) (code b) (code c) (code d)
                  then String a (String b (String c (String d (to_valid s4))))
                  else Utf8.replacement +:+ to_valid s1
              end
          end
      end
  end.

(** And of a tree. *)
Fixpoint scrub (j : json) : json :=
  match j with
  | JStr s => JStr (to_valid s)
  | JArr l => JArr (map scrub l)
  | JObj l => JObj (map (λ kj, (to_valid kj.1, scrub kj.2)) l)
  | j => j
  end.

(** ** Lemmas *)

(** Settle the comparisons of byte values that the hypotheses decide. *)
Ltac byte_cases :=
  repeat match goal with
  | |- context [?x =? ?y] => destruct (Z.eqb_spec x y); [lia|]
  | |- context [?x <? ?y] => destruct (Z.ltb_spec x y); [lia|]
  end.

Lemma app_assoc_str (a b c : string) : (a +:+ b) +:+ c = a +:+ b +:+ c.
Proof. induction a as [|x a IH]; [done|]. cbn [String.append]. by rewrite IH. Qed.

Lemma app_length_str (a b : string) :
  String.length (a +:+ b) = (String.length a + String.length b)%nat.
Proof. induction a as [|x a IH]; [done|]. cbn [String.append String.length Nat.add]. by rewrite IH. Qed.

Lemma is_utf8_ind (P : string → Prop) :
  P "" →
  (∀ a s, code a < 128 → is_utf8 s = true → P s → P (String a s)) →
  (∀ a b s, 128 ≤ code a → Utf8.two (code a) (code b) = true →
    is_utf8 s = true → P s → P (String a (String b s))) →
  (∀ a b c s, 128 ≤ code a → Utf8.two (code a) (code b) = false →
    Utf8.three (code a) (code b) (code c) = true →
    is_utf8 s = true → P s → P (String a (String b (String c s)))) →
  (∀ a b c d s, 128 ≤ code a → Utf8.two (code a) (code b) = false →
    Utf8.three (code a) (code b) (code c) = false →
    Utf8.four (code a) (code b) (code c) (code d) = true →
    is_utf8 s = true → P s → P (String a (String b (String c (String d s))))) →
  ∀ s, is_utf8 s = true → P s.
Proof.
  intros H0 H1 H2 H3 H4. fix IH 1. intros [|a s1]; [done|]. simpl.
  destruct (Z.ltb_spec (code a) 128); [by intros; apply H1, IH|].
  destruct s1 as [|b s2]; [done|].
  destruct (Utf8.two _ _) eqn:E2; [by intros; apply H2, IH|].
  destruct s2 as [|c s3]; [done|].
  destruct (Utf8.three _ _ _) eqn:E3; [by intros; apply H3, IH|].
  destruct s3 as [|d s4]; [done|].
  rewrite andb_true_iff. intros [E4 Hs]. by apply H4, IH.
Qed.

(** What [unquote] does with the image of one ASCII character. *)
Lemma unquote_ascii a fuel t :
  code a < 128 →
  unquote (S fuel) (escape_ascii a +:+ t) =
    '(x, rest) ← unquote fuel t; Some (String a x, rest).
Proof.
  destruct a as [[] [] [] [] [] [] [] []]; intros H;
    solve [reflexivity | exfalso; revert H; vm_compute; done].
Qed.

Lemma two_range a b : Utf8.two a b = true → 194 ≤ a ≤ 223 ∧ 128 ≤ b ≤ 191.
Proof. unfold Utf8.two, Utf8.cont. lia. Qed.

Lemma three_range a b c : Utf8.three a b c = true → 224 ≤ a ≤ 239.
Proof. unfold Utf8.three, Utf8.cont. lia. Qed.

Lemma four_range a b c d : Utf8.four a b c d = true → 240 ≤ a ≤ 244.
Proof. unfold Utf8.four, Utf8.cont. lia. Qed.

Lemma unquote_three a b c fuel t :
  128 ≤ code a → Utf8.two (code a) (code b) = false →
  Utf8.three (code a) (code b) (code c) = true →
  unquote (S fuel) (escape_three a b c +:+ t) =
    '(x, rest) ← unquote fuel t; Some (String a (String b (String c x)), rest).
Proof.
  intros Ha H2 H3. unfold escape_three.
  destruct ((code a =? 226) && (code b =? 128) && ((code c =? 168) || (code c =? 169))) eqn:E.
  - rewrite !andb_true_iff, orb_true_iff, !Z.eqb_eq in E. destruct E as [[Ea Eb] Ec].
    rewrite <-(chr_code a), <-(chr_code b), <-(chr_code c), Ea, Eb.
    destruct Ec as [-> | ->]; reflexivity.
  - cbn [String.append unquote]. pose proof (three_range _ _ _ H3).
    byte_cases. by rewrite H2, H3.
Qed.

(** A string is a sequence of runes, and of bytes that are part of none. *)
Lemma runes_ind (P : string → Prop) :
  P "" →
  (∀ a s, code a < 128 → P s → P (String a s)) →
  (∀ a b s, 128 ≤ code a → Utf8.two (code a) (code b) = true → P s → P (String a (String b s))) →
  (∀ a b c s, 128 ≤ code a → Utf8.two (code a) (code b) = false →
    Utf8.three (code a) (code b) (code c) = true → P s → P (String a (String b (String c s)))) →
  (∀ a b c d s, 128 ≤ code a → Utf8.two (code a) (code b) = false →
    Utf8.three (code a) (code b) (code c) = false →
    Utf8.four (code a) (code b) (code c) (code d) = true →
    P s → P (String a (String b (String c (String d s))))) →
  (∀ a s, escape (String a s) = "\ufffd" +:+ escape s →
    to_valid (String a s) = Utf8.replacement +:+ to_valid s → P s → P (String a s)) →
  ∀ s, P s.
Proof.
  intros H0 H1 H2 H3 H4 H5. fix IH 1. intros [|a s1]; [exact H0|].
  destruct (Z.ltb_spec (code a) 128) as [|Ha]; [apply H1; [done|apply IH]|].
  assert ((code a <? 128) = false) as Hlt by (clear IH; by apply Z.ltb_ge).
  pose proof (IH s1) as Hs1.
  destruct s1 as [|b s2]; [clear IH; by apply H5; [cbn; rewrite Hlt..|]|].
  destruct (Utf8.two (code a) (code b)) eqn:E2; [apply H2; [done|done|apply IH]|].
  destruct s2 as [|c s3].
  { clear IH. by apply H5; [cbn [escape to_valid]; rewrite Hlt, E2..|]. }
  destruct (Utf8.three (code a) (code b) (code c)) eqn:E3; [apply H3; [done..|apply IH]|].
  destruct s3 as [|d s4].
  { clear IH. apply H5; [..|done]; cbn [escape to_valid]; by rewrite Hlt, E2, E3. }
  destruct (Utf8.four (code a) (code b) (code c) (code d)) eqn:E4; [apply H4; [done..|apply IH]|].
  clear IH. apply H5; [..|done]; cbn [escape to_valid]; by rewrite Hlt, E2, E3, E4.
Qed.

Lemma to_valid_utf8 s : is_utf8 s = true → to_valid s = s.
Proof.
  revert s. refine (is_utf8_ind _ _ _ _ _ _); [done|intros a s Ha _ IH|intros a b s Ha H2 _ IH
    |intros a b c s Ha H2 H3 _ IH|intros a b c d s Ha H2 H3 H4 _ IH]; cbn [to_valid];
    (destruct (Z.ltb_spec (code a) 128); [try lia|try lia]);
    rewrite ?H2, ?H3, ?H4; by rewrite IH.
Qed.

Lemma utf8_to_valid s : is_utf8 (to_valid s) = true.
Proof.
  revert s. refine (runes_ind _ _ _ _ _ _ _); [done|intros a s Ha IH|intros a b s Ha H2 IH
    |intros a b c s Ha H2 H3 IH|intros a b c d s Ha H2 H3 H4 IH|intros a s _ -> IH; exact IH];
    cbn [to_valid]; (destruct (Z.ltb_spec (code a) 128) as [Hlt|Hge]; [try lia|try lia]);
    rewrite ?H2, ?H3, ?H4; cbn [is_utf8];
    (destruct (Z.ltb_spec (code a) 128); [try lia; done|try lia]); rewrite ?H2, ?H3, ?H4; done.
Qed.

(** A string reads back as itself, made valid. *)
Lemma unquote_escape s fuel rest :
  (String.length (escape s) < fuel)%nat →
  unquote fuel (escape s +:+ String quote rest) = Some (to_valid s, rest).
Proof.
  revert s fuel.
  refine (runes_ind _ _ _ _ _ _ _);
    [|intros a s Ha IH|intros a b s Ha H2 IH|intros a b c s Ha H2 H3 IH
     |intros a b c d s Ha H2 H3 H4 IH|intros a s He Hv IH];
    intros [|fuel] Hf; try lia; [done|..];
    [..|rewrite He, Hv in *; rewrite app_length_str in Hf; simpl in Hf;
      rewrite app_assoc_str; cbn -[unquote];
      change (unquote (S fuel) ("\ufffd" +:+ (escape s +:+ String quote rest)) = Some (Utf8.replacement +:+ to_valid s, rest));
      transitivity ('(t, r) ← unquote fuel (escape s +:+ String quote rest);
        Some (Utf8.replacement +:+ t, r)); [reflexivity|rewrite IH by lia; reflexivity]];
    cbn [escape to_valid] in *.
  - destruct (Z.ltb_spec (code a) 128); [|lia]. rewrite app_length_str in Hf.
    rewrite app_assoc_str, unquote_ascii, IH; [done| |done].
    assert (1 ≤ String.length (escape_ascii a))%nat; [|lia].
    unfold escape_ascii. repeat (case_match; simpl; try lia).
  - destruct (Z.ltb_spec (code a) 128); [lia|]. rewrite H2 in *.
    apply two_range in H2 as Hr. simpl in Hf. cbn [String.append unquote].
    byte_cases. rewrite H2, IH; [done|lia].
  - destruct (Z.ltb_spec (code a) 128); [lia|]. rewrite H2, H3 in *.
    rewrite app_length_str in Hf. rewrite app_assoc_str, unquote_three, IH; try done.
    assert (1 ≤ String.length (escape_three a b c))%nat; [|lia].
    unfold escape_three. case_match; simpl; lia.
  - destruct (Z.ltb_spec (code a) 128); [lia|]. rewrite H2, H3, H4 in *.
    apply four_range in H4 as Hr. simpl in Hf. cbn [String.append unquote].
    byte_cases. rewrite H2, H3, H4, IH; [done|lia].
Qed.

Section json_ind.
Variable P : json → Prop.
Hypothesis Hnull : P JNull.
Hypothesis Hbool : ∀ b, P (JBool b).
Hypothesis Hnum : ∀ lit, P (JNum lit).
Hypothesis Hstr : ∀ s, P (JStr s).
Hypothesis Harr : ∀ l, Forall P l → P (JArr l).
Hypothesis Hobj : ∀ l, Forall (λ kj, P kj.2) l → P (JObj l).

(** Induction with hypotheses for the items of arrays and objects. *)
Fixpoint json_ind' (j : json) : P j :=
  match j with
  | JNull => Hnull
  | JBool b => Hbool b
  | JNum lit => Hnum lit
  | JStr s => Hstr s
  | JArr l =>
      Harr l ((fix go l : Forall P l :=
        match l with
        | [] => Forall_nil_2 _
        | j :: l => Forall_cons_2 _ j l (json_ind' j) (go l)
        end) l)
  | JObj l =>
      Hobj l ((fix go l : Forall (λ kj, P kj.2) l :=
        match l with
        | [] => Forall_nil_2 _
        | kj :: l => Forall_cons_2 _ kj l (json_ind' kj.2) (go l)
        end) l)
  end.
End json_ind.

(** What may follow a value without extending a number. *)
Definition ends (rest : string) : Prop :=
  match rest with
  | EmptyString => True
  | String c _ => number_char c = false
  end.

Lemma span_all p s rest :
  all_chars p s = true →
  match rest with EmptyString => True | String c _ => p c = false end →
  span p (s +:+ rest) = (s, rest).
Proof.
  induction s as [|c s IH]; simpl.
  - intros _ Hr. destruct rest as [|c rest]; simpl; [done|]. by rewrite Hr.
  - rewrite andb_true_iff. intros [Hc Hs] Hr. by rewrite Hc, IH.
Qed.

Lemma skip_head c t : is_space c = false → skip (String c t) = String c t.
Proof. intros H. simpl. by rewrite H. Qed.

(** The text is read as the value, wherever it stands. *)
Definition reads_as (t : string) (j : json) : Prop := ∀ fuel d rest,
  wf d j = true → (2 * String.length t ≤ fuel)%nat → ends rest →
  value fuel d (t +:+ rest) = Some (j, rest).

Lemma reads_number lit : reads_as lit (JNum lit).
Proof.
  intros [|fuel] d rest Hwf Hf He; cbn [wf value] in *; unfold wf_number in Hwf;
    rewrite andb_true_iff in Hwf; destruct Hwf as [Hv Hall];
    (destruct lit as [|c t]; [done|]); [simpl in Hf; lia|].
  assert (Hc : number_char c = true) by (simpl in Hall; by apply andb_true_iff in Hall as [? _]).
  assert (is_space c = false ∧ (code c = 45 ∨ is_digit c = true)) as [Hsp Hd].
  { simpl in Hv. unfold is_space, unsigned_number, is_digit in *.
    destruct (Z.eqb_spec (code c) 45); [lia|]. destruct (Z.eqb_spec (code c) 48); lia. }
  cbn [String.append]. rewrite skip_head by done.
  assert (45 ≤ code c ≤ 57) by (unfold is_digit in Hd; lia).
  byte_cases. change (String c (t +:+ rest)) with (String c t +:+ rest).
  rewrite span_all; [by rewrite Hv|done|]. by destruct rest.
Qed.

Lemma reads_string s : reads_as (print_string s) (JStr (to_valid s)).
Proof.
  intros [|fuel] d rest Hwf Hf He; unfold print_string in *;
    cbn [String.append String.length wf] in *; [lia|].
  cbn [value]. rewrite skip_head by reflexivity. change (code quote =? 34) with true. cbv iota.
  rewrite app_assoc_str. cbn [String.append].
  rewrite unquote_escape; [done|]. rewrite app_length_str. lia.
Qed.

(** Blanks before a value change nothing. *)
Definition blank (ws : string) : Prop := all_chars is_space ws = true.

Lemma skip_blank ws s : blank ws → skip (ws +:+ s) = skip s.
Proof.
  unfold blank. induction ws as [|c ws IH]; [done|]. simpl. rewrite andb_true_iff.
  intros [Hc Hws]. rewrite Hc. by apply IH.
Qed.

Lemma reads_blank ws t j : blank ws → reads_as t j → reads_as (ws +:+ t) j.
Proof.
  intros Hws Ht fuel d rest Hwf Hf He. rewrite app_length_str in Hf. rewrite app_assoc_str.
  rewrite <-(Ht fuel d rest) by (done || lia). destruct fuel as [|fuel]; [done|].
  cbn [value]. by rewrite skip_blank.
Qed.

Lemma space_ends c : is_space c = true → number_char c = false.
Proof. unfold is_space, number_char, is_digit. intros. lia. Qed.

Lemma ends_blank ws c rest : blank ws → number_char c = false → ends (ws +:+ String c rest).
Proof.
  destruct ws as [|c' ws]; [done|]. unfold blank. simpl. rewrite andb_true_iff.
  intros [Hc _] _. by apply space_ends.
Qed.

(** What a value begins with is no closing bracket. *)
Lemma value_head fuel d s r : value fuel d s = Some r → ∃ c t, skip s = String c t ∧ code c ≠ 93.
Proof.
  destruct fuel as [|fuel]; [done|]. cbn [value]. destruct (skip s) as [|c t]; [done|].
  intros Hv. exists c, t. split; [done|]. intros Hc. revert Hv. rewrite Hc.
  cbn [Z.eqb Pos.eqb span]. unfold number_char, is_digit. rewrite Hc. done.
Qed.

Lemma sep_cons2 x y l : sep (x :: y :: l) = x +:+ "," +:+ sep (y :: l).
Proof. reflexivity. Qed.

Lemma elements_read ts l : ∀ fuel d ws rest,
  l ≠ [] → Forall2 reads_as ts l → forallb (wf d) l = true → blank ws →
  (2 * String.length (sep ts) + 1 ≤ fuel)%nat →
  elements fuel d (sep ts +:+ ws +:+ String "]" rest) = Some (l, rest).
Proof.
  revert ts. induction l as [|j l IH]; [done|]. intros ts [|fuel] d ws rest _ Hl Hwf Hws Hf; [lia|].
  apply Forall2_cons_inv_r in Hl as (t & ts' & Ht & Hl & ->).
  simpl in Hwf. apply andb_true_iff in Hwf as [Hwj Hwl].
  destruct l as [|j' l]; cbn [elements].
  - apply Forall2_nil_inv_r in Hl as ->. cbn [sep] in *.
    rewrite Ht; [|done|lia|by apply ends_blank]. cbn [mbind option_bind].
    by rewrite skip_blank.
  - apply Forall2_cons_inv_r in Hl as Hl'. destruct Hl' as (t' & ts & _ & _ & ->).
    rewrite sep_cons2 in *. rewrite !app_length_str in Hf. cbn [String.append String.length] in Hf.
    rewrite app_assoc_str, Ht; [|done|lia|done].
    cbn [mbind option_bind]. cbn [String.append skip]. change (is_space ",") with false.
    cbv iota. change (code "," =? 44) with true. cbv iota.
    rewrite (IH (t' :: ts)); [done|done|done|done|done|]. lia.
Qed.

(** The text of a member, with blanks around the key. *)
Definition reads_member (u : string) (kj : string * json) : Prop :=
  ∃ ws ws' k t, blank ws ∧ blank ws' ∧ to_valid k = kj.1 ∧
    u = ws +:+ print_string k +:+ ":" +:+ ws' +:+ t ∧ reads_as t kj.2.

Lemma members_read us l : ∀ fuel d ws rest,
  l ≠ [] → Forall2 reads_member us l →
  forallb (λ kj, is_utf8 kj.1 && wf d kj.2) l = true → blank ws →
  (2 * String.length (sep us) + 1 ≤ fuel)%nat →
  members fuel d (sep us +:+ ws +:+ String "}" rest) = Some (l, rest).
Proof.
  revert us. induction l as [|[k' j] l IH]; [done|]. intros us [|fuel] d ws rest _ Hl Hwf Hws Hf; [lia|].
  apply Forall2_cons_inv_r in Hl as (u & us' & (w & w' & k & t & Hw & Hw' & Hk' & -> & Ht) & Hl & ->).
  cbn [fst] in Hk'. subst k'.
  cbn [forallb fst snd] in *. rewrite !andb_true_iff in Hwf. destruct Hwf as [[Hk Hwj] Hwl].
  apply (reads_blank w') in Ht; [|done]. set (t' := w' +:+ t) in *.
  assert (Hkey : ∀ z, members (S fuel) d ((w +:+ print_string k +:+ ":" +:+ t') +:+ z) =
    '(j, rest) ← value fuel d (t' +:+ z);
    match skip rest with
    | String c rest =>
        if code c =? 44 then
          '(l, rest) ← members fuel d rest; Some ((to_valid k, j) :: l, rest)
        else if code c =? 125 then Some ([(to_valid k, j)], rest)
        else None
    | EmptyString => None
    end).
  { intros z. rewrite app_assoc_str. cbn [members]. rewrite skip_blank by done.
    unfold print_string. cbn [String.append]. rewrite skip_head by reflexivity.
    change (code quote =? 34) with true. cbv iota. rewrite !app_assoc_str.
    cbn [String.append]. rewrite unquote_escape; [reflexivity|].
    rewrite app_length_str. lia. }
  assert (Hlen : (String.length t' + 3 ≤ String.length (w +:+ print_string k +:+ ":" +:+ t'))%nat).
  { unfold print_string. rewrite !app_length_str. cbn [String.append String.length].
    rewrite !app_length_str. cbn [String.append String.length]. lia. }
  generalize dependent (w +:+ print_string k +:+ ":" +:+ t'). intros u Hf Hkey Hlen.
  destruct l as [|kj' l].
  - apply Forall2_nil_inv_r in Hl as ->. cbn [sep] in *.
    rewrite Hkey, Ht; [|done|lia|by apply ends_blank]. cbn [mbind option_bind].
    by rewrite skip_blank.
  - apply Forall2_cons_inv_r in Hl as Hl'. destruct Hl' as (u' & us & _ & _ & ->).
    rewrite sep_cons2 in *. rewrite !app_length_str in Hf. cbn [String.append String.length] in Hf.
    rewrite app_assoc_str, Hkey, Ht; [|done|lia|done].
    cbn [mbind option_bind String.append skip]. change (is_space ",") with false.
    cbv iota. change (code "," =? 44) with true. cbv iota.
    rewrite (IH (u' :: us)); [done|done|done|done|done|]. lia.
Qed.

Lemma reads_array ts l ws : Forall2 reads_as ts l → blank ws → reads_as ("[" +:+ sep ts +:+ ws +:+ "]") (JArr l).
Proof.
  intros Hl Hws [|fuel] d rest Hwf Hf He; cbn [String.append String.length] in *; [lia|].
  cbn [wf] in Hwf. apply andb_true_iff in Hwf as [Hd Hwl].
  cbn [value]. rewrite skip_head by reflexivity. change (code "[") with 91.
  cbn [Z.eqb Pos.eqb]. destruct (Z.leb_spec d 0); [lia|].
  rewrite !app_length_str in Hf. cbn [String.length] in Hf. rewrite !app_assoc_str. cbn [String.append].
  destruct l as [|j l].
  { apply Forall2_nil_inv_r in Hl as ->. cbn [sep String.append]. by rewrite skip_blank. }
  pose proof (elements_read ts (j :: l) fuel (d - 1) ws rest ltac:(done) Hl Hwl Hws ltac:(lia)) as He'.
  destruct fuel as [|fuel]; [done|]. pose proof He' as Hv. cbn [elements] in Hv.
  destruct (value fuel (d - 1) (sep ts +:+ ws +:+ String "]" rest)) as [r|] eqn:Hr; [|done].
  destruct (value_head _ _ _ _ Hr) as (c & t & -> & Hc).
  destruct (Z.eqb_spec (code c) 93); [done|]. by rewrite He'.
Qed.

Lemma reads_object us l ws :
  Forall2 reads_member us l → blank ws → reads_as ("{" +:+ sep us +:+ ws +:+ "}") (JObj l).
Proof.
  intros Hl Hws [|fuel] d rest Hwf Hf He; cbn [String.append String.length] in *; [lia|].
  cbn [wf] in Hwf. apply andb_true_iff in Hwf as [Hd Hwl].
  cbn [value]. rewrite skip_head by reflexivity. change (code "{") with 123.
  cbn [Z.eqb Pos.eqb]. destruct (Z.leb_spec d 0); [lia|].
  rewrite !app_length_str in Hf. cbn [String.length] in Hf. rewrite !app_assoc_str. cbn [String.append].
  destruct l as [|kj l].
  { apply Forall2_nil_inv_r in Hl as ->. cbn [sep String.append]. by rewrite skip_blank. }
  rewrite (members_read us (kj :: l)); [|done|done|done|done|lia].
  apply Forall2_cons_inv_r in Hl as (u & us' & (w & w' & k & t & Hw & _ & _ & -> & _) & _ & ->).
  assert (∃ z : string, sep ((w +:+ print_string k +:+ ":" +:+ w' +:+ t) :: us') = w +:+ String quote z) as [z ->].
  { destruct us'; cbn [sep]; rewrite ?app_assoc_str; eexists; reflexivity. }
  rewrite app_assoc_str, skip_blank by done. reflexivity.
Qed.

Lemma reads_null : reads_as "null" JNull.
Proof. intros [|fuel] d rest _ Hf _; [simpl in Hf; lia|]. destruct rest; reflexivity. Qed.

Lemma reads_bool (b : bool) : reads_as (if b then "true" else "false") (JBool b).
Proof.
  intros [|fuel] d rest _ Hf _; [destruct b; simpl in Hf; lia|]. destruct b, rest; reflexivity.
Qed.

Lemma app_nil_str t : t +:+ "" = t.
Proof. induction t as [|c t IH]; [done|]. cbn [String.append]. by rewrite IH. Qed.

(** The printed forms. *)
Lemma reads_all j : reads_as (print j) (scrub j).
Proof.
  induction j as [|b|lit|s|l Hl|l Hl] using json_ind'.
  - apply reads_null.
  - apply reads_bool.
  - apply reads_number.
  - apply reads_string.
  - apply (reads_array _ _ ""); [|done]. by apply Forall2_fmap_l, Forall2_fmap_r, Forall_Forall2_diag.
  - apply (reads_object _ _ ""); [|done]. apply Forall2_fmap_l, Forall2_fmap_r, Forall_Forall2_diag.
    eapply Forall_impl; [exact Hl|]. intros kj Hkj. by exists "", "", kj.1, (print kj.2).
Qed.

Lemma scrub_wf j : ∀ d, wf d j = true → scrub j = j.
Proof.
  induction j as [|b|lit|s|l Hl|l Hl] using json_ind'; intros d; cbn [wf scrub]; try done.
  - intros Hs. by rewrite to_valid_utf8.
  - intros [_ Hwf]%andb_true_iff. f_equal. revert Hwf. induction Hl as [|j l Hj _ IH]; [done|].
    cbn [forallb map]. intros [H1 H2]%andb_true_iff. by rewrite (Hj (d - 1)), IH.
  - intros [_ Hwf]%andb_true_iff. f_equal. revert Hwf. induction Hl as [|[k j] l Hj _ IH]; [done|].
    cbn [forallb map fst snd] in *. rewrite !andb_true_iff. intros [[Hk H1] H2].
    by rewrite to_valid_utf8, (Hj (d - 1)), IH.
Qed.

(** A well-formed tree is read as it was written. *)
Lemma reads_valid t j : reads_as t (scrub j) → reads_as t j.
Proof. intros Ht fuel d rest Hwf. specialize (Ht fuel d rest). rewrite (scrub_wf j d) in Ht by done. auto. Qed.

Lemma newline_blank k : blank (newline k).
Proof. unfold blank, newline. simpl. induction k as [|[|k] IH]; [done..|]. exact IH. Qed.

Lemma reads_indent j : ∀ k, reads_as (print_indent k j) (scrub j).
Proof.
  induction j as [|b|lit|s|l Hl|l Hl] using json_ind'; intros k.
  - apply reads_null.
  - apply reads_bool.
  - apply reads_number.
  - apply reads_string.
  - destruct l as [|j l]; [apply reads_all|].
    change (print_indent k (JArr (j :: l))) with
      ("[" +:+ sep (map (λ j, newline (S k) +:+ print_indent (S k) j) (j :: l)) +:+ newline k +:+ "]").
    apply reads_array; [|apply newline_blank]. apply Forall2_fmap_l, Forall2_fmap_r, Forall_Forall2_diag.
    eapply Forall_impl; [exact Hl|]. intros j' Hj'. apply reads_blank; [apply newline_blank|apply Hj'].
  - destruct l as [|kj l]; [apply reads_all|].
    change (print_indent k (JObj (kj :: l))) with
      ("{" +:+ sep (map (λ kj, newline (S k) +:+ print_string kj.1 +:+ ":" +:+ " " +:+
                             print_indent (S k) kj.2) (kj :: l)) +:+ newline k +:+ "}").
    apply reads_object; [|apply newline_blank]. apply Forall2_fmap_l, Forall2_fmap_r, Forall_Forall2_diag.
    eapply Forall_impl; [exact Hl|]. intros kj' Hkj'.
    exists (newline (S k)), " ", kj'.1, (print_indent (S k) kj'.2). split; [apply newline_blank|]. by repeat split.
Qed.

(** ** Round trip *)

(** What [json.Marshal] prints, [json.Unmarshal] parses back to the same
    tree, whatever the tree, as long as it is well formed. *)
Lemma parse_reads t j : reads_as t j → wf max_depth j = true → parse t = Ok j.
Proof.
  intros Ht Hwf. unfold parse. pose proof (Ht (S (2 * String.length t)) max_depth "" Hwf) as Hv.
  rewrite app_nil_str in Hv. rewrite Hv; [done|lia|done].
Qed.

(** Any tree is read back as itself with its strings made valid. *)
Lemma parse_print_scrub j : wf max_depth (scrub j) = true → parse (print j) = Ok (scrub j).
Proof. apply parse_reads, reads_all. Qed.

Lemma parse_print_wf j : wf max_depth j = true → parse (print j) = Ok j.
Proof. apply parse_reads, reads_valid, reads_all. Qed.

(** So is what [json.MarshalIndent] prints. *)
Lemma parse_print_indent j k : wf max_depth j = true → parse (print_indent k j) = Ok j.
Proof. apply parse_reads, reads_valid, reads_indent. Qed.

(** ** The text of an integer is a number *)

Lemma uint_digits d : all_chars is_digit (NilEmpty.string_of_uint d) = true.
Proof. induction d; simpl; done. Qed.

Lemma digits_number_chars s : all_chars is_digit s = true → all_chars number_char s = true.
Proof.
  induction s as [|c s IH]; simpl; [done|]. rewrite !andb_true_iff.
  intros [Hc Hs]. split; [|by apply IH]. unfold number_char. by rewrite Hc.
Qed.

Lemma span_digits s : all_chars is_digit s = true → span is_digit s = (s, "").
Proof.
  intros H. pose proof (span_all is_digit s "" H I) as Hs.
  assert (∀ t, t +:+ "" = t) as Hnil.
  { induction t as [|c t IH]; [done|]. simpl. by rewrite IH. }
  by rewrite Hnil in Hs.
Qed.

(** The decimal digits of a positive number are not empty and do not start
    with a zero. *)
Lemma to_uint_head p :
  ∃ c s, NilEmpty.string_of_uint (Pos.to_uint p) = String c s ∧
    is_digit c = true ∧ code c ≠ 48 ∧ all_chars is_digit s = true.
Proof.
  pose proof (DecimalPos.Unsigned.to_uint_nonnil p) as Hn.
  pose proof (DecimalPos.Unsigned.to_uint_nonzero p) as Hz.
  pose proof (DecimalPos.Unsigned.to_of (Pos.to_uint p)) as Hu.
  rewrite DecimalPos.Unsigned.of_to in Hu. cbn [N.to_uint] in Hu.
  unfold Decimal.unorm in Hu.
  destruct (Pos.to_uint p) as [|d|d|d|d|d|d|d|d|d|d]; [done|..];
    try (eexists _, _; split; [reflexivity|]; split; [reflexivity|]; split; [done|];
         apply uint_digits).
  exfalso. simpl in Hu.
  assert (∀ e d, Decimal.nzhead e ≠ Decimal.D0 d) as Hh by (induction e; intros; done).
  destruct (Decimal.nzhead d) as [|e|e|e|e|e|e|e|e|e|e] eqn:E;
    try done; try (by apply Hh in E).
Qed.

Lemma Itoa_pos p : Itoa (Zpos p) = NilEmpty.string_of_uint (Pos.to_uint p).
Proof.
  unfold Itoa. simpl. pose proof (DecimalPos.Unsigned.to_uint_nonnil p).
  by destruct (Pos.to_uint p).
Qed.

Lemma Itoa_neg p : Itoa (Zneg p) = String "-" (Itoa (Zpos p)).
Proof.
  unfold Itoa. simpl. pose proof (DecimalPos.Unsigned.to_uint_nonnil p).
  by destruct (Pos.to_uint p).
Qed.

Lemma wf_Itoa_pos p : unsigned_number (Itoa (Zpos p)) = true ∧
  all_chars number_char (Itoa (Zpos p)) = true.
Proof.
  rewrite Itoa_pos. destruct (to_uint_head p) as (c & s & -> & Hc & H48 & Hs).
  split; [|apply digits_number_chars; simpl; by rewrite Hc].
  unfold unsigned_number. destruct (Z.eqb_spec (code c) 48); [done|].
  by rewrite Hc, span_digits.
Qed.

Lemma wf_Itoa z : wf_number (Itoa z) = true.
Proof.
  unfold wf_number, valid_number. destruct z as [|p|p]; [done| |].
  - destruct (wf_Itoa_pos p) as [Hu ->]. rewrite andb_true_r.
    destruct (Itoa (Zpos p)) as [|c s] eqn:E; [done|].
    destruct (Z.eqb_spec (code c) 45); [|done].
    rewrite Itoa_pos in E. destruct (to_uint_head p) as (c' & s' & Hs & Hc & _).
    rewrite Hs in E. injection E as -> ->. unfold is_digit in Hc. lia.
  - destruct (wf_Itoa_pos p) as [Hu Ha]. rewrite Itoa_neg. simpl. by rewrite Hu, Ha.
Qed.
