(* ===== verification/Integers.v ===== *)
(** * Integers through float64

    A number that is read as an [interface{}] is a float64.  What happens to an
    integer on the way: below 2^53 it is read exactly, and it is printed with
    the digits that it had. *)

From Stdlib Require Import Ascii SpecFloat DecimalPos DecimalString.
From S2P Require Import Prelude Bytes Strconv Json.

(** ** Digits *)

(** The number that digits continue. *)
Definition digits_from (m : Z) (l : list Z) : Z := foldl (λ m z, 10 * m + (z - 48)) m l.

Definition are_digits (l : list Z) : Prop := Forall (λ z, 48 ≤ z ≤ 57) l.

Lemma digits_from_snoc m l z : digits_from m (l ++ [z]) = 10 * digits_from m l + (z - 48).
Proof. unfold digits_from. by rewrite foldl_app. Qed.

Lemma digits_from_app m l l' : digits_from m (l ++ l') = digits_from (digits_from m l) l'.
Proof. apply foldl_app. Qed.

Lemma digits_from_bounds m l :
  are_digits l → m * 10 ^ Z.of_nat (length l) ≤ digits_from m l < (m + 1) * 10 ^ Z.of_nat (length l).
Proof.
  intros Hl. revert m. induction Hl as [|z l Hz _ IH]; intros m; cbn [digits_from foldl length]; [lia|].
  specialize (IH (10 * m + (z - 48))). fold (digits_from (10 * m + (z - 48)) l).
  rewrite Nat2Z.inj_succ, Z.pow_succ_r by lia. pose proof (Z.pow_pos_nonneg 10 (Z.of_nat (length l))). nia.
Qed.

(** As many digits with the same value are the same digits. *)
Lemma digits_from_inj m l : ∀ l',
  are_digits l → are_digits l' → length l = length l' → digits_from m l = digits_from m l' → l = l'.
Proof.
  induction l as [|z l IH] using rev_ind; intros l' Hl Hl' Hlen Heq.
  { by destruct l'. }
  destruct l' as [|z' l' _] using rev_ind; [rewrite length_app in Hlen; cbn in Hlen; lia|].
  rewrite !digits_from_snoc in Heq. rewrite !length_app in Hlen. cbn in Hlen.
  apply Forall_app in Hl as [Hl Hz], Hl' as [Hl' Hz']. rewrite Forall_singleton in Hz, Hz'.
  assert (z = z') as -> by lia. f_equal. apply IH; lia || done.
Qed.

Lemma zeros_digits k : are_digits (replicate k 48).
Proof. apply Forall_replicate. lia. Qed.

Lemma digits_from_zeros m k : digits_from m (replicate k 48) = m * 10 ^ Z.of_nat k.
Proof.
  revert m. induction k as [|k IH]; intros m; cbn [replicate digits_from foldl]; [lia|].
  fold (digits_from (10 * m + (48 - 48)) (replicate k 48)). rewrite IH, Nat2Z.inj_succ, Z.pow_succ_r; lia.
Qed.

(** The digits of a positive number: the first one is not a zero. *)
Lemma uint_are_digits d : are_digits (to_bytes (NilEmpty.string_of_uint d)).
Proof. induction d; cbn; constructor; (by vm_compute) || done. Qed.

Lemma uint_digits_from d acc :
  digits_from (Zpos acc) (to_bytes (NilEmpty.string_of_uint d)) = Zpos (Pos.of_uint_acc d acc).
Proof.
  revert acc. induction d; intros acc; [done|..];
    cbn [NilEmpty.string_of_uint to_bytes digits_from foldl Pos.of_uint_acc];
    rewrite <-IHd; unfold digits_from; (f_equal; lazymatch goal with |- context [code ?c] => let x := eval vm_compute in (code c) in change (code c) with x end; lia).
Qed.

Lemma Itoa_digits_from z : 0 < z →
  ∃ c l, to_bytes (Itoa z) = c :: l ∧ 48 < c ≤ 57 ∧ are_digits l ∧ digits_from 0 (c :: l) = z.
Proof.
  intros Hz. destruct z as [|p|p]; try lia. rewrite Itoa_pos.
  pose proof (DecimalPos.Unsigned.to_uint_nonzero p) as Hn. pose proof (DecimalPos.Unsigned.of_to p) as Hp.
  destruct (to_uint_head p) as (c & s & Hs & Hc & Hc0 & _).
  pose proof (uint_are_digits (Pos.to_uint p)) as Hd. rewrite Hs in *. cbn [to_bytes] in *.
  apply Forall_cons in Hd as [Hd Hl]. exists (code c), (to_bytes s). split_and!; [done|lia|lia|done|].
  assert (∀ d, NilEmpty.string_of_uint d = String c s →
    Z.of_N (Pos.of_uint d) = digits_from 0 (code c :: to_bytes s)) as Hall; [|by rewrite <-(Hall _ Hs), Hp].
  clear -Hc0. intros d Hd. destruct d; cbn in Hd; try done; injection Hd as <- <-;
    (try by destruct Hc0); cbn [digits_from foldl]; cbn -[digits_from]; by rewrite <-uint_digits_from.
Qed.

(** The number of digits. *)
Lemma Itoa_size z : 0 < z →
  let n := Z.of_nat (String.length (Itoa z)) in 1 ≤ n ∧ 10 ^ (n - 1) ≤ z < 10 ^ n.
Proof.
  intros Hz n. destruct (Itoa_digits_from z Hz) as (c & l & Hb & Hc & Hl & Hv).
  assert (n = Z.of_nat (length l) + 1) as ->.
  { unfold n. rewrite <-to_bytes_length, Hb. cbn [length]. lia. }
  split; [lia|]. cbn [digits_from foldl] in Hv.
  pose proof (digits_from_bounds (10 * 0 + (c - 48)) l Hl) as Hb'. unfold digits_from in Hb'. rewrite Hv in Hb'.
  replace (Z.of_nat (length l) + 1 - 1) with (Z.of_nat (length l)) by lia.
  rewrite Z.pow_add_r by lia. pose proof (Z.pow_pos_nonneg 10 (Z.of_nat (length l))). nia.
Qed.

Lemma digits_unique z n m : 0 < z →
  1 ≤ n → 10 ^ (n - 1) ≤ z < 10 ^ n → 1 ≤ m → 10 ^ (m - 1) ≤ z < 10 ^ m → n = m.
Proof.
  intros Hz Hn [Hn1 Hn2] Hm [Hm1 Hm2].
  assert (∀ a b, 10 ^ (a - 1) ≤ z → z < 10 ^ b → 1 ≤ a → 1 ≤ b → a ≤ b) as Hle.
  { intros a b Ha Hb Ha1 Hb1. assert (10 ^ (a - 1) < 10 ^ b) as Hlt by lia.
    apply Z.pow_lt_mono_r_iff in Hlt; lia. }
  apply Z.le_antisymm; by apply Hle.
Qed.

(** Times a power of ten: zeros. *)
Lemma Itoa_zeros d k :
  0 < d → Itoa (d * 10 ^ Z.of_nat k) = Itoa d +:+ of_bytes (replicate k 48).
Proof.
  intros Hd. set (z := d * 10 ^ Z.of_nat k).
  assert (0 < 10 ^ Z.of_nat k) as Hk by (apply Z.pow_pos_nonneg; lia).
  assert (0 < z) as Hz by (unfold z; nia).
  destruct (Itoa_digits_from d Hd) as (c & l & Hb & Hc & Hl & Hv).
  destruct (Itoa_digits_from z Hz) as (c' & l' & Hb' & Hc' & Hl' & Hv').
  rewrite <-(of_to_bytes (Itoa z)), <-(of_to_bytes (Itoa d +:+ _)). f_equal.
  rewrite to_bytes_app, to_of_bytes by (apply Forall_replicate; lia).
  assert (are_digits (to_bytes (Itoa d) ++ replicate k 48)) as Hzd.
  { rewrite Hb. apply Forall_app. split; [constructor; [lia|done]|apply zeros_digits]. }
  apply (digits_from_inj 0); [rewrite Hb'; constructor; [lia|done]|done| |].
  - destruct (Itoa_size d Hd) as [H1 Hsd], (Itoa_size z Hz) as [H1' Hsz].
    rewrite length_app, length_replicate, !to_bytes_length. apply Nat2Z.inj. rewrite Nat2Z.inj_add.
    apply (digits_unique z); [done|done|done|lia|]. unfold z.
    replace (Z.of_nat (String.length (Itoa d)) + Z.of_nat k - 1)
      with (Z.of_nat (String.length (Itoa d)) - 1 + Z.of_nat k) by lia.
    rewrite !Z.pow_add_r by lia. nia.
  - rewrite Hb', Hv', digits_from_app, Hb, Hv. by rewrite digits_from_zeros.
Qed.

(** ** Exact floats

    A positive integer below 2^53, normalised. *)
Definition float_of_int (z : Z) : float64 :=
  S754_finite false (Z.to_pos (z * 2 ^ (52 - Z.log2 z))) (Z.log2 z - 52).

Lemma digits2_size p : digits2_pos p = Pos.size p.
Proof. induction p; cbn; by f_equal. Qed.

Lemma Zdigits2_log2 z : 0 < z → Zdigits2 z = Z.log2 z + 1.
Proof. destruct z as [|p|p]; [lia| |lia]. intros _. cbn [Zdigits2]. rewrite digits2_size. destruct p; cbn; lia. Qed.

(** An even number loses a bit without a trace. *)
Lemma shr_even m e : 0 < m → shr (shr_record_of_loc (2 * m) loc_Exact) e 1 =
  ({| shr_m := m; shr_r := false; shr_s := false |}, e + 1).
Proof. by destruct m. Qed.

Lemma shr_fexp_stays m e :
  fexp 53 1024 (Zdigits2 m + e) = e → shr_fexp 53 1024 m e loc_Exact =
  ({| shr_m := m; shr_r := false; shr_s := false |}, e).
Proof. intros He. unfold shr_fexp. by rewrite He, Z.sub_diag. Qed.

(** Reading with its digits. *)
Lemma of_ratio_exact z : 0 < z < 2 ^ 53 → Float64.of_ratio false (Z.to_pos z) 1 = float_of_int z.
Proof.
  intros Hz. pose proof (Z.log2_spec z ltac:(lia)) as Hl. pose proof (Z.log2_nonneg z) as Hl0.
  assert (Z.log2 z < 53) as Hl53 by (apply Z.log2_lt_pow2; lia).
  unfold Float64.of_ratio, SFdiv, SFdiv_core_binary. rewrite Z2Pos.id by lia.
  rewrite Zdigits2_log2 by lia. change (Zdigits2 1) with 1.
  set (L := Z.log2 z) in *.
  replace (Z.min (fexp 53 1024 (L + 1 + 0 - (1 + 0))) (0 - 0)) with (L - 53) by (unfold fexp, emin; lia).
  replace (0 - 0 - (L - 53)) with (53 - L) by lia.
  assert (match 53 - L with Z0 => z | Zpos _ => Z.shiftl z (53 - L) | Zneg _ => 0 end = Z.shiftl z (53 - L)) as ->.
  { destruct (53 - L) eqn:E; lia || done. }
  rewrite Z.shiftl_mul_pow2 by lia. set (m := z * 2 ^ (52 - L)).
  replace (z * 2 ^ (53 - L)) with (2 * m)
    by (unfold m; replace (53 - L) with (Z.succ (52 - L)) by lia; rewrite Z.pow_succ_r; lia).
  pose proof (Z.div_eucl_eq (2 * m) 1 ltac:(lia)) as Hde. pose proof (Z_mod_lt (2 * m) 1 ltac:(lia)) as Hmod.
  unfold Z.modulo in Hmod. destruct (Z.div_eucl (2 * m) 1) as [q r]. assert (r = 0) as -> by lia.
  assert (q = 2 * m) as -> by lia. clear Hde Hmod.
  change (new_location 1 0) with loc_Exact. cbn [xorb].
  assert (2 ^ 52 <= m < 2 ^ 53) as Hm.
  { unfold m. replace (2 ^ 52) with (2 ^ L * 2 ^ (52 - L)) by (rewrite <-Z.pow_add_r by lia; f_equal; lia).
    replace (2 ^ 53) with (2 ^ Z.succ L * 2 ^ (52 - L)) by (rewrite <-Z.pow_add_r by lia; f_equal; lia).
    pose proof (Z.pow_pos_nonneg 2 (52 - L)). nia. }
  assert (Z.log2 m = 52) as Hlm by (apply Z.log2_unique; lia).
  unfold binary_round_aux.
  assert (shr_fexp 53 1024 (2 * m) (L - 53) loc_Exact =
    ({| shr_m := m; shr_r := false; shr_s := false |}, L - 52)) as ->.
  { unfold shr_fexp. rewrite Zdigits2_log2 by lia. rewrite Z.log2_double, Hlm by lia.
    replace (fexp 53 1024 (Z.succ 52 + 1 + (L - 53)) - (L - 53)) with 1 by (unfold fexp, emin; lia).
    rewrite shr_even by lia. f_equal. lia. }
  cbn [loc_of_shr_record shr_m round_nearest_even].
  rewrite shr_fexp_stays by (rewrite Zdigits2_log2, Hlm by lia; unfold fexp, emin; lia).
  cbn [shr_m]. unfold float_of_int. fold L m. destruct m as [|p|p]; try lia.
  destruct (Z.leb_spec (L - 52) (1024 - 53)); [done|lia].
Qed.

(** From 2^53 on the exponent is positive. *)
Lemma shr_raises mrs e n : (shr mrs e n).2 = e + Z.max n 0.
Proof. destruct n; cbn; lia. Qed.

Lemma of_ratio_big z neg m e :
  2 ^ 53 ≤ z → Float64.of_ratio false (Z.to_pos z) 1 = S754_finite neg m e → 0 < e.
Proof.
  intros Hz. assert (53 ≤ Z.log2 z) as Hl by (apply Z.log2_le_pow2; lia).
  unfold Float64.of_ratio, SFdiv, SFdiv_core_binary. rewrite Z2Pos.id by lia.
  rewrite Zdigits2_log2 by lia. change (Zdigits2 1) with 1. set (L := Z.log2 z) in *.
  replace (Z.min (fexp 53 1024 (L + 1 + 0 - (1 + 0))) (0 - 0)) with 0 by (unfold fexp, emin; lia).
  change (0 - 0 - 0) with 0. cbv beta iota.
  pose proof (Z.div_eucl_eq z 1 ltac:(lia)) as Hde. pose proof (Z_mod_lt z 1 ltac:(lia)) as Hmod.
  unfold Z.modulo in Hmod. destruct (Z.div_eucl z 1) as [q r]. assert (r = 0) as -> by lia.
  assert (q = z) as -> by lia. unfold binary_round_aux, shr_fexp at 1.
  pose proof (shr_raises (shr_record_of_loc z (new_location 1 0)) 0 (fexp 53 1024 (Zdigits2 z + 0) - 0)) as He.
  destruct (shr _ 0 _) as [mrs' e']. cbn [snd] in He.
  rewrite Zdigits2_log2 in He by lia. fold L in He.
  assert (0 < e') as He' by (unfold fexp, emin in He; lia). clear He.
  unfold shr_fexp. match goal with |- context [shr ?a e' ?n] => pose proof (shr_raises a e' n) as He;
    destruct (shr a e' n) as [mrs'' e''] end. cbn [snd] in He.
  destruct (shr_m mrs'') as [|p|p]; try done. destruct (e'' <=? _); [|done]. intros [= _ _ <-]. lia.
Qed.

Lemma float_of_int_inj z z' : 0 < z < 2 ^ 53 → 0 < z' < 2 ^ 53 → float_of_int z = float_of_int z' → z = z'.
Proof.
  intros Hz Hz' [= Hm He].
  assert (Z.log2 z < 53) by (apply Z.log2_lt_pow2; lia).
  assert (Z.log2 z = Z.log2 z') as Hlog by lia. rewrite <-Hlog in Hm.
  pose proof (Z.pow_pos_nonneg 2 (52 - Z.log2 z)). apply Z2Pos.inj in Hm; nia.
Qed.

(** Digits and zeros are read as what they say. *)
Lemma of_decimal_int d k :
  0 < d → d * 10 ^ Z.of_nat k < 10 ^ 300 →
  Float64.of_decimal false d (Z.of_nat k) = Float64.of_ratio false (Z.to_pos (d * 10 ^ Z.of_nat k)) 1.
Proof.
  intros Hd Hlt. destruct (Itoa_size d Hd) as [Hn [Hlo _]].
  assert (Z.of_nat (String.length (Itoa d)) + Z.of_nat k ≤ 300) as Hs.
  { assert (10 ^ (Z.of_nat (String.length (Itoa d)) - 1 + Z.of_nat k) < 10 ^ 300) as Hp.
    { rewrite Z.pow_add_r by lia. pose proof (Z.pow_pos_nonneg 10 (Z.of_nat k)). nia. }
    apply Z.pow_lt_mono_r_iff in Hp; lia. }
  unfold Float64.of_decimal. destruct d as [|p|p]; try lia.
  destruct (Z.ltb_spec 310 (Z.of_nat (String.length (Itoa (Zpos p))) + Z.of_nat k)); [lia|].
  destruct (Z.ltb_spec (Z.of_nat (String.length (Itoa (Zpos p))) + Z.of_nat k) (-330)); [lia|].
  destruct (Z.leb_spec 0 (Z.of_nat k)); [|lia]. f_equal.
  pose proof (Z.pow_pos_nonneg 10 (Z.of_nat k)). rewrite Z2Pos.inj_mul by lia. done.
Qed.

(** Of the integers in this range only one is read as this float. *)
Lemma of_decimal_only z d k :
  0 < z < 2 ^ 53 → 0 < d → d * 10 ^ Z.of_nat k < 10 ^ 300 →
  Float64.of_decimal false d (Z.of_nat k) = float_of_int z ↔ d * 10 ^ Z.of_nat k = z.
Proof.
  intros Hz Hd Hlt. rewrite of_decimal_int by done. set (y := d * 10 ^ Z.of_nat k) in *.
  assert (0 < y) as Hy by (unfold y; pose proof (Z.pow_pos_nonneg 10 (Z.of_nat k)); nia).
  destruct (Z.lt_ge_cases y (2 ^ 53)) as [Hs|Hs].
  - rewrite of_ratio_exact by lia. split; [intros He|by intros ->].
    by apply float_of_int_inj in He.
  - split; [|lia]. intros He. apply of_ratio_big in He; [|done].
    assert (Z.log2 z < 53) by (apply Z.log2_lt_pow2; lia). lia.
Qed.

(** ** Printing *)

(** The estimate of the number of digits is at most two away. *)
Definition estimate_ok (l : nat) : bool :=
  let L := Z.of_nat l in let est := L * 30103 / 100000 in
  (10 ^ (est - 2) <=? 2 ^ L) && (2 ^ (L + 1) <=? 10 ^ (est + 2)).

Lemma estimates_ok : forallb estimate_ok (seq 0 53) = true.
Proof. vm_compute. reflexivity. Qed.

Lemma estimate_bounds L : 0 ≤ L < 53 →
  10 ^ (L * 30103 / 100000 - 2) ≤ 2 ^ L ∧ 2 ^ (L + 1) ≤ 10 ^ (L * 30103 / 100000 + 2).
Proof.
  intros HL. pose proof (proj1 (forallb_forall _ _) estimates_ok (Z.to_nat L)) as Hok.
  assert (In (Z.to_nat L) (seq 0 53)) as Hin by (apply in_seq; lia). specialize (Hok Hin).
  unfold estimate_ok in Hok. rewrite Z2Nat.id in Hok by lia. lia.
Qed.

Section print.
Context (z : Z) (Hz : 0 < z < 2 ^ 53).
#[local] Abbreviation L := (Z.log2 z).
#[local] Abbreviation nd := (Z.of_nat (String.length (Itoa z))).
#[local] Abbreviation den := (2 ^ (52 - Z.log2 z)).

Lemma log_bounds : 0 ≤ L < 53 ∧ 2 ^ L ≤ z < 2 ^ (L + 1).
Proof.
  pose proof (Z.log2_spec z ltac:(lia)). pose proof (Z.log2_nonneg z).
  assert (L < 53) by (apply Z.log2_lt_pow2; lia). split; [lia|]. by rewrite Z.add_1_r.
Qed.

Lemma den_pos : 0 < den.
Proof. apply Z.pow_pos_nonneg; pose proof log_bounds; lia. Qed.

Lemma size_bounds : 1 ≤ nd ≤ 16 ∧ 10 ^ (nd - 1) ≤ z < 10 ^ nd.
Proof.
  destruct (Itoa_size z ltac:(lia)) as [H1 H2]. split; [|done]. split; [done|].
  assert (10 ^ (nd - 1) < 10 ^ 16) as Hp by lia. apply Z.pow_lt_mono_r_iff in Hp; lia.
Qed.

Lemma below_size k : FormatFloat.below (z * den) den k = (nd <=? k).
Proof.
  pose proof den_pos. pose proof size_bounds as [Hn Hs]. unfold FormatFloat.below.
  destruct (Z.leb_spec 0 k).
  - destruct (Z.leb_spec nd k) as [Hk|Hk].
    + apply Z.ltb_lt. pose proof (Z.pow_le_mono_r 10 nd k ltac:(lia) Hk). nia.
    + apply Z.ltb_ge. pose proof (Z.pow_le_mono_r 10 k (nd - 1) ltac:(lia) ltac:(lia)). nia.
  - destruct (Z.leb_spec nd k); [lia|]. apply Z.ltb_ge. assert (0 < 10 ^ (- k)) by (apply Z.pow_pos_nonneg; lia).
    assert (1 ≤ z * 10 ^ (- k)) by nia. nia.
Qed.

Lemma find_size : FormatFloat.find_dp (z * den) den (L * 30103 / 100000) = nd.
Proof.
  pose proof log_bounds as [HL Hlz]. pose proof size_bounds as [Hn Hs].
  pose proof (estimate_bounds L HL) as [He1 He2]. set (est := L * 30103 / 100000) in *.
  assert (0 ≤ est) by (unfold est; apply Z.div_pos; lia).
  assert (nd ≤ est + 2).
  { assert (10 ^ (nd - 1) < 10 ^ (est + 2)) as Hp by lia. apply Z.pow_lt_mono_r_iff in Hp; lia. }
  assert (est - 1 ≤ nd).
  { assert (10 ^ (est - 2) < 10 ^ nd) as Hp by lia.
    destruct (Z.lt_ge_cases (est - 2) 0); [lia|]. apply Z.pow_lt_mono_r_iff in Hp; lia. }
  unfold FormatFloat.find_dp. rewrite !below_size.
  destruct (Z.leb_spec nd (est - 1)); [lia|]. destruct (Z.leb_spec nd est); [lia|].
  destruct (Z.leb_spec nd (est + 1)); lia.
Qed.

(** The shortest digits that read back are the digits without final zeros. *)
Lemma search_size fuel n :
  1 ≤ n ≤ nd → nd < Z.of_nat fuel + n →
  ∃ d k, FormatFloat.search fuel (float_of_int z) (z * den) den nd n = (d, nd - Z.of_nat k) ∧
    0 < d ∧ d * 10 ^ Z.of_nat k = z.
Proof.
  pose proof den_pos as Hden. pose proof size_bounds as [Hn Hs]. revert n.
  induction fuel as [|fuel IH]; intros n Hnn Hfuel; [lia|]. cbn [FormatFloat.search].
  set (k := Z.to_nat (nd - n)). assert (nd - n = Z.of_nat k) as Hk by (unfold k; lia).
  assert ((if 0 <=? n - nd then (z * den * 10 ^ (n - nd), den)
           else (z * den, den * 10 ^ (- (n - nd)))) = (z * den, den * 10 ^ Z.of_nat k)) as ->.
  { destruct (Z.leb_spec 0 (n - nd)).
    - replace (n - nd) with 0 by lia. replace (Z.of_nat k) with 0 by lia. f_equal; lia.
    - do 2 f_equal. f_equal. lia. }
  set (t := 10 ^ Z.of_nat k). assert (0 < t) as Ht by (apply Z.pow_pos_nonneg; lia).
  replace (z * den / (den * t)) with (z / t)
    by (rewrite (Z.mul_comm z den), Z.div_mul_cancel_l; lia).
  set (q := z / t).
  pose proof (Z.div_mod z t ltac:(lia)) as Hdm. pose proof (Z.mod_pos_bound z t Ht) as Hm. fold q in Hdm.
  assert (10 ^ nd = t * 10 ^ n) as Hpow.
  { unfold t. rewrite <-Z.pow_add_r by lia. f_equal. lia. }
  assert (t ≤ 10 ^ (nd - 1)) as Ht' by (unfold t; apply Z.pow_le_mono_r; lia).
  assert (10 ^ nd ≤ 10 ^ 16) as Hbig by (apply Z.pow_le_mono_r; lia).
  assert (0 < q) as Hq by nia. assert (q < 10 ^ n) as Hq' by nia.
  assert ((q + 1) * t ≤ 10 ^ 16) as Hup by nia.
  assert (FormatFloat.reads_as (float_of_int z) (q + 1) n nd = false) as ->.
  { unfold FormatFloat.reads_as. rewrite Hk. destruct (Z.eqb_spec (q + 1) (10 ^ n)) as [Hp|]; apply bool_decide_eq_false.
    - replace nd with (Z.of_nat (Z.to_nat nd)) by lia. rewrite of_decimal_only; rewrite ?Z2Nat.id by lia; lia.
    - rewrite of_decimal_only by (fold t; lia). fold t. nia. }
  rewrite andb_false_r. unfold FormatFloat.reads_as. destruct (Z.eqb_spec q (10 ^ n)); [lia|]. rewrite Hk.
  destruct (bool_decide_reflect (Float64.of_decimal false q (Z.of_nat k) = float_of_int z)) as [He|He];
    rewrite of_decimal_only in He by (fold t; nia).
  - exists q, k. split; [f_equal; lia|done].
  - fold t in He. apply IH; [|lia]. destruct (Z.eq_dec n nd) as [->|]; [|lia].
    exfalso. apply He. unfold q, t. replace (Z.of_nat k) with 0 by lia. rewrite Z.pow_0_r, Z.div_1_r. lia.
Qed.

Lemma shortest_int : ∃ d k, 0 < d ∧ d * 10 ^ Z.of_nat k = z ∧
  FormatFloat.shortest (Z.to_pos (z * den)) (L - 52) = (Itoa d, nd).
Proof.
  pose proof den_pos as Hden. pose proof log_bounds as [HL Hlz]. pose proof size_bounds as [Hn Hs].
  assert (2 ^ 52 ≤ z * den < 2 ^ 53) as Hm.
  { replace (2 ^ 52) with (2 ^ L * den) by (rewrite <-Z.pow_add_r by lia; f_equal; lia).
    replace (2 ^ 53) with (2 ^ (L + 1) * den) by (rewrite <-Z.pow_add_r by lia; f_equal; lia). nia. }
  destruct (search_size FormatFloat.max_digits 1 ltac:(lia) ltac:(unfold FormatFloat.max_digits; lia)) as (d & k & Hd & Hd0 & Hdz).
  exists d, k. split; [done|]. split; [done|]. unfold FormatFloat.shortest.
  change (S754_finite false (Z.to_pos (z * den)) (L - 52)) with (float_of_int z).
  rewrite Z2Pos.id by lia. rewrite Z.max_r, Z.pow_0_r, Z.mul_1_r by lia.
  replace (Z.max (- (L - 52)) 0) with (52 - L) by lia.
  replace (Z.log2 (z * den) + (L - 52)) with L by (rewrite (Z.log2_unique (z * den) 52) by lia; lia).
  rewrite find_size, Hd. unfold FormatFloat.pointed. destruct (Z.eqb_spec d (10 ^ (nd - Z.of_nat k))) as [->|]; [|done].
  exfalso. destruct (Z.lt_ge_cases (nd - Z.of_nat k) 0) as [Hneg|Hge].
  - by rewrite Z.pow_neg_r in Hd0 by done.
  - rewrite <-Z.pow_add_r in Hdz by lia. replace (nd - Z.of_nat k + Z.of_nat k) with nd in Hdz by lia. lia.
Qed.

(** The digits with their zeros. *)
Lemma digits_size d k : 0 < d → d * 10 ^ Z.of_nat k = z →
  nd = Z.of_nat (String.length (Itoa d)) + Z.of_nat k ∧
  Itoa z = Itoa d +:+ of_bytes (replicate k 48).
Proof.
  intros Hd Hdz. assert (Itoa z = Itoa d +:+ of_bytes (replicate k 48)) as Hz' by by rewrite <-Hdz, Itoa_zeros.
  split; [|done]. rewrite Hz', <-to_bytes_length, to_bytes_app, length_app, to_bytes_length.
  rewrite to_of_bytes, length_replicate by (apply Forall_replicate; lia). lia.
Qed.

Lemma fmtF_int d k : 0 < d → d * 10 ^ Z.of_nat k = z → FormatFloat.fmtF (Itoa d) nd = Itoa z.
Proof.
  intros Hd Hdz. pose proof size_bounds as [Hn Hs]. destruct (digits_size d k Hd Hdz) as [Hnd Hz'].
  unfold FormatFloat.fmtF. rewrite Hnd.
  destruct (Z.ltb_spec 0 (Z.of_nat (String.length (Itoa d)) + Z.of_nat k)); [|lia].
  rewrite Z.min_l, Nat2Z.id, substring_full by lia.
  destruct (Z.ltb_spec (Z.of_nat (String.length (Itoa d)) + Z.of_nat k) (Z.of_nat (String.length (Itoa d)))); [lia|].
  rewrite Hz'. unfold FormatFloat.zeros.
  replace (Z.to_nat (Z.of_nat (String.length (Itoa d)) + Z.of_nat k - Z.of_nat (String.length (Itoa d)))) with k by lia.
  rewrite <-(of_to_bytes ((_ +:+ _) +:+ _)), !to_bytes_app. cbn [to_bytes].
  rewrite app_nil_r, <-to_bytes_app. apply of_to_bytes.
Qed.

Lemma json_float_int : json_float (float_of_int z) = Ok (Itoa z).
Proof.
  pose proof size_bounds as [Hn Hs]. destruct shortest_int as (d & k & Hd & Hdz & Hsh).
  unfold json_float, float_of_int. rewrite Hsh.
  assert ((nd <=? -6) || (22 <=? nd) = false) as -> by lia. cbn [FormatFloat.sign].
  by rewrite (fmtF_int d k).
Qed.

(** *** Reading *)
Lemma mantissa_digits l m dig :
  are_digits l → ParseFloat.mantissa false l m 0 false dig =
    (digits_from m l, 0, match l with [] => dig | _ => true end, []).
Proof.
  intros Hl. revert m dig. induction Hl as [|c l Hc Hl IH]; intros m dig; [done|].
  cbn [ParseFloat.mantissa]. destruct (Z.eqb_spec c 46); [lia|]. unfold ParseFloat.digit.
  assert ((48 <=? c) && (c <=? 57) = true) as -> by lia. rewrite IH. by destruct l.
Qed.

Lemma number_plain c l m :
  48 < c ≤ 57 → ParseFloat.mantissa false (c :: l) 0 0 false false = (m, 0, true, []) →
  ParseFloat.special (c :: l) = None ∧ ParseFloat.number (c :: l) = Some (Float64.of_decimal false m 0).
Proof.
  intros Hc. assert (c ∈ [49; 50; 51; 52; 53; 54; 55; 56; 57]) as Hin by (rewrite !elem_of_cons; lia).
  clear Hc. repeat (apply elem_of_cons in Hin as [->|Hin];
    [intros Hm; split; [reflexivity|]; unfold ParseFloat.number; cbn [ParseFloat.sign]; by rewrite Hm|]).
  by apply elem_of_nil in Hin.
Qed.

Lemma ParseFloat_int : ParseFloat (Itoa z) = Ok (float_of_int z).
Proof.
  destruct (Itoa_digits_from z ltac:(lia)) as (c & l & Hb & Hc & Hl & Hv).
  unfold ParseFloat. rewrite Hb.
  rewrite ParseFloat.no_underscores by (constructor; [lia|]; eapply Forall_impl; [exact Hl|]; cbn; lia).
  cbn [mbind option_bind]. destruct (number_plain c l z) as [-> ->]; [done| |].
  { rewrite mantissa_digits by (constructor; [lia|done]). by rewrite Hv. }
  pose proof (of_decimal_int z 0 ltac:(lia) ltac:(lia)) as He.
  change (Z.of_nat 0) with 0 in He.
  by rewrite He, Z.pow_0_r, Z.mul_1_r, of_ratio_exact.
Qed.
End print.

(** An integer below 2^53 goes through float64 and comes out as it was. *)
Lemma int_through_float z : 0 ≤ z < 2 ^ 53 →
  ∃ f, ParseFloat (Itoa z) = Ok f ∧ json_float f = Ok (Itoa z).
Proof.
  intros Hz. destruct (Z.eq_dec z 0) as [->|]; [by exists Float64.zero|].
  exists (float_of_int z). split; [apply ParseFloat_int; lia|apply json_float_int; lia].
Qed.

(** 2^53 + 1 does not. *)
Lemma int_rounded : ∃ f,
  ParseFloat (Itoa (2 ^ 53 + 1)) = Ok f ∧ json_float f = Ok (Itoa (2 ^ 53)).
Proof. exists (S754_finite false (2 ^ 52) 1). split; vm_compute; reflexivity. Qed.
