(* ===== verification/Floats.v ===== *)
(** * Texts of floats

    What encoding/json writes for a float64 reads back as that float64.  The
    search for the shortest decimal only accepts one that reads back, and with
    all its digits the decimal of a float is the float, where the division that
    reads it is exact.  The division of two floats never gives anything but a
    float64. *)

From Stdlib Require Import Ascii SpecFloat.
From S2P Require Import Prelude Bytes Strconv Json Integers.

(** A finite float64: its mantissa and exponent are the canonical ones. *)
Definition float_ok (f : float64) : Prop :=
  match f with
  | S754_zero _ => True
  | S754_finite _ m e => bounded 53 1024 m e = true
  | S754_infinity _ | S754_nan => False
  end.

Abbreviation fexp64 := (fexp 53 1024).

Lemma float_ok_spec neg m e :
  float_ok (S754_finite neg m e) ↔ fexp64 (Z.log2 (Zpos m) + 1 + e) = e ∧ e ≤ 971.
Proof.
  cbn [float_ok]. unfold bounded, canonical_mantissa. rewrite andb_true_iff, Z.eqb_eq, Z.leb_le.
  rewrite <-Zdigits2_log2 by lia. done.
Qed.

(** ** Shifts of a mantissa *)
Lemma iter_pos_nat {A} (f : A → A) p : ∀ x, SpecFloat.iter_pos f p x = Nat.iter (Pos.to_nat p) f x.
Proof.
  induction p as [p IH|p IH|]; intros x; cbn [SpecFloat.iter_pos]; [| |done].
  - rewrite !IH, <-Nat.iter_add, <-Nat.iter_succ_r.
    by replace (Pos.to_nat p~1) with (S (Pos.to_nat p + Pos.to_nat p)) by lia.
  - rewrite !IH, <-Nat.iter_add. by replace (Pos.to_nat p~0) with (Pos.to_nat p + Pos.to_nat p)%nat by lia.
Qed.

Lemma shr_nat rec e n : 0 ≤ n → shr rec e n = (Nat.iter (Z.to_nat n) shr_1 rec, e + n).
Proof.
  destruct n as [|p|p]; intros Hn; [|by cbn [shr]; rewrite iter_pos_nat|lia].
  cbn. by rewrite Z.add_0_r.
Qed.

Lemma shr_1_half rec : 0 ≤ shr_m rec → shr_m (shr_1 rec) = shr_m rec / 2.
Proof.
  destruct rec as [[|[p|p|]|p] r s]; cbn [shr_m]; intros H; try done; cbn [shr_1 shr_m].
  - rewrite (Pos2Z.inj_xI p). by rewrite Z.mul_comm, Z.div_add_l, Z.add_0_r by lia.
  - rewrite (Pos2Z.inj_xO p). by rewrite Z.mul_comm, Z.div_mul by lia.
Qed.

Lemma shr_mantissa n rec : 0 ≤ shr_m rec → shr_m (Nat.iter n shr_1 rec) = shr_m rec / 2 ^ Z.of_nat n.
Proof.
  intros H. induction n as [|n IH]; [by rewrite Z.div_1_r|]. rewrite Nat.iter_succ.
  rewrite shr_1_half; rewrite IH by done; [|apply Z.div_pos; [done|]; apply Z.pow_pos_nonneg; lia].
  rewrite Z.div_div by (try apply Z.pow_nonzero; lia). f_equal.
  rewrite Nat2Z.inj_succ, Z.pow_succ_r by lia. lia.
Qed.

(** A multiple of the power of two loses nothing. *)
Lemma shr_multiple n m : 0 < m →
  Nat.iter n shr_1 {| shr_m := m * 2 ^ Z.of_nat n; shr_r := false; shr_s := false |} =
  {| shr_m := m; shr_r := false; shr_s := false |}.
Proof.
  revert m. induction n as [|n IH]; intros m Hm; [cbn; by rewrite Z.mul_1_r|]. rewrite Nat.iter_succ.
  replace (m * 2 ^ Z.of_nat (S n)) with (2 * m * 2 ^ Z.of_nat n)
    by (rewrite Nat2Z.inj_succ, Z.pow_succ_r by lia; lia).
  rewrite IH by lia. by destruct m.
Qed.

Lemma digits_shifted m k : 0 < m → 0 ≤ k → Zdigits2 (m * 2 ^ k) = Zdigits2 m + k.
Proof.
  intros Hm Hk. pose proof (Z.pow_pos_nonneg 2 k). rewrite !Zdigits2_log2 by nia.
  rewrite Z.log2_mul_pow2 by lia. lia.
Qed.

(** Rounding what needs no rounding. *)
Lemma round_multiple neg m k e :
  0 < m → 0 ≤ k → fexp64 (Zdigits2 m + e) = e → e ≤ 971 →
  binary_round_aux 53 1024 neg (m * 2 ^ k) (e - k) loc_Exact = S754_finite neg (Z.to_pos m) e.
Proof.
  intros Hm Hk Hc He. unfold binary_round_aux.
  assert (shr_fexp 53 1024 (m * 2 ^ k) (e - k) loc_Exact =
    ({| shr_m := m; shr_r := false; shr_s := false |}, e)) as ->.
  { unfold shr_fexp. rewrite digits_shifted by done.
    replace (Zdigits2 m + k + (e - k)) with (Zdigits2 m + e) by lia. rewrite Hc.
    replace (e - (e - k)) with k by lia. rewrite shr_nat by done. cbn [shr_record_of_loc].
    pose proof (shr_multiple (Z.to_nat k) m Hm) as Hs. rewrite Z2Nat.id in Hs by done. rewrite Hs.
    f_equal. lia. }
  cbn [loc_of_shr_record shr_m round_nearest_even]. rewrite shr_fexp_stays by done. cbn [shr_m].
  destruct m as [|p|p]; try lia. by destruct (Z.leb_spec e (1024 - 53)); [|lia].
Qed.

(** ** Exact quotients *)
Lemma core_shift a s : 0 ≤ s →
  match s with Z0 => a | Zpos _ => Z.shiftl a s | Zneg _ => 0 end = a * 2 ^ s.
Proof. intros Hs. destruct s; [lia|by rewrite Z.shiftl_mul_pow2|lia]. Qed.

Lemma fexp_mono a b : a ≤ b → fexp64 a ≤ fexp64 b.
Proof. unfold fexp. lia. Qed.

Lemma of_ratio_value a b m e :
  float_ok (S754_finite false m e) →
  Zpos a * 2 ^ Z.max (- e) 0 = Zpos m * 2 ^ Z.max e 0 * Zpos b →
  Float64.of_ratio false a b = S754_finite false m e.
Proof.
  rewrite float_ok_spec. intros [Hc He] Hv. set (lm := Z.log2 (Zpos m)) in *.
  pose proof (Z.log2_spec (Zpos a) eq_refl) as Ha. pose proof (Z.log2_spec (Zpos b) eq_refl) as Hb.
  pose proof (Z.log2_spec (Zpos m) eq_refl) as Hm. fold lm in Hm.
  pose proof (Z.log2_nonneg (Zpos a)). pose proof (Z.log2_nonneg (Zpos b)).
  assert (0 ≤ lm) by apply Z.log2_nonneg.
  unfold Float64.of_ratio, SFdiv, SFdiv_core_binary. rewrite !Zdigits2_log2 by lia.
  set (La := Z.log2 (Zpos a)) in *. set (Lb := Z.log2 (Zpos b)) in *.
  set (e' := Z.min (fexp64 (La + 1 + 0 - (Lb + 1 + 0))) (0 - 0)).
  assert (La - Lb ≤ lm + 1 + e) as Hdig.
  { assert (2 ^ (La + Z.max (- e) 0) < 2 ^ (Z.succ lm + Z.max e 0 + Z.succ Lb)) as Hp.
    { rewrite !Z.pow_add_r by lia. pose proof (Z.pow_pos_nonneg 2 (Z.max (- e) 0)).
      pose proof (Z.pow_pos_nonneg 2 (Z.max e 0)).
      apply Z.le_lt_trans with (Zpos a * 2 ^ Z.max (- e) 0); [apply Z.mul_le_mono_nonneg_r; lia|]. rewrite Hv.
      assert (Zpos m * Zpos b < 2 ^ Z.succ lm * 2 ^ Z.succ Lb) by (apply Z.mul_lt_mono_nonneg; lia). nia. }
    apply Z.pow_lt_mono_r_iff in Hp; lia. }
  assert (e' ≤ e) as He'.
  { unfold e'. apply Z.le_trans with (fexp64 (La + 1 + 0 - (Lb + 1 + 0))); [lia|].
    rewrite <-Hc. apply fexp_mono. lia. }
  assert (e' ≤ 0) by (unfold e'; lia).
  rewrite core_shift by lia.
  assert (Zpos a * 2 ^ (0 - 0 - e') = Zpos b * (Zpos m * 2 ^ (e - e'))) as Hq.
  { destruct (Z.le_ge_cases 0 e).
    - rewrite (Z.max_r (- e)), (Z.max_l e) in Hv by lia. rewrite Z.pow_0_r, Z.mul_1_r in Hv. rewrite Hv.
      replace (e - e') with (e + (0 - 0 - e')) by lia. rewrite Z.pow_add_r by lia. lia.
    - rewrite (Z.max_l (- e)), (Z.max_r e) in Hv by lia. rewrite Z.pow_0_r, Z.mul_1_r in Hv.
      replace (0 - 0 - e') with (- e + (e - e')) by lia. rewrite Z.pow_add_r by lia.
      rewrite Z.mul_assoc, Hv. lia. }
  rewrite Hq. pose proof (Z.div_eucl_eq (Zpos b * (Zpos m * 2 ^ (e - e'))) (Zpos b) ltac:(lia)) as Hde.
  pose proof (Z_mod_lt (Zpos b * (Zpos m * 2 ^ (e - e'))) (Zpos b) ltac:(lia)) as Hmod.
  assert (Zpos b * (Zpos m * 2 ^ (e - e')) / Zpos b = Zpos m * 2 ^ (e - e')) as Hdiv
    by (rewrite Z.mul_comm, Z.div_mul; lia).
  unfold Z.modulo in Hmod. unfold Z.div in Hdiv.
  destruct (Z.div_eucl _ _) as [q r]. subst q. assert (r = 0) as -> by lia.
  assert (new_location (Zpos b) 0 = loc_Exact) as ->.
  { unfold new_location, new_location_even, new_location_odd. by destruct (Z.even _). }
  cbn [xorb]. replace e' with (e - (e - e')) at 2 by lia.
  rewrite round_multiple; [done|lia|lia| |done]. by rewrite Zdigits2_log2 by lia.
Qed.

Lemma of_ratio_neg a b : Float64.of_ratio true a b = SFopp (Float64.of_ratio false a b).
Proof.
  unfold Float64.of_ratio, SFdiv. destruct (SFdiv_core_binary _ _ _ _ _ _) as [[mz ez] lz].
  unfold binary_round_aux. destruct (shr_fexp 53 1024 mz ez lz) as [mrs' e'].
  destruct (shr_fexp _ _ _ e' loc_Exact) as [mrs'' e'']. destruct (shr_m mrs''); [done| |done].
  by destruct (e'' <=? 1024 - 53).
Qed.

Lemma of_decimal_neg d e : 0 < d →
  Float64.of_decimal true d e = SFopp (Float64.of_decimal false d e).
Proof.
  intros Hd. destruct d as [|p|p]; try lia. unfold Float64.of_decimal.
  destruct (310 <? _); [done|]. destruct (_ <? -330); [done|].
  destruct (0 <=? e); apply of_ratio_neg.
Qed.

(** ** Every quotient is a float64 *)

(** A shift to the exponent that belongs to the number of digits ends there. *)
Lemma shift_canonical m e : 0 ≤ m → e ≤ fexp64 (Zdigits2 m + e) →
  let e' := fexp64 (Zdigits2 m + e) in fexp64 (Zdigits2 (m / 2 ^ (e' - e)) + e') = e'.
Proof.
  intros Hm He e'. destruct (Z.eq_dec m 0) as [->|].
  { change (Zdigits2 0) with 0 in *. unfold e', fexp, emin in *. rewrite Z.div_0_l by (apply Z.pow_nonzero; lia).
    change (Zdigits2 0) with 0. lia. }
  pose proof (Z.pow_pos_nonneg 2 (e' - e) ltac:(lia) ltac:(lia)) as Hp.
  destruct (Z.eq_dec (m / 2 ^ (e' - e)) 0) as [Hz|Hz].
  - rewrite Hz. change (Zdigits2 0) with 0. apply Z.div_small_iff in Hz as [Hz|Hz]; [|lia..].
    assert (Z.log2 m < e' - e) by (apply Z.log2_lt_pow2; lia).
    pose proof (Zdigits2_log2 m ltac:(lia)). unfold e', fexp, emin in *. lia.
  - pose proof (Z.div_pos m (2 ^ (e' - e)) Hm Hp) as Hd.
    rewrite Zdigits2_log2 by lia. rewrite <-Z.shiftr_div_pow2 by lia.
    rewrite Z.log2_shiftr by lia. pose proof (Z.log2_nonneg (Z.shiftr m (e' - e))) as Hl.
    assert (e' - e ≤ Z.log2 m).
    { apply Z.log2_le_pow2; [lia|]. destruct (Z.lt_ge_cases m (2 ^ (e' - e))); [|done].
      destruct Hz. by apply Z.div_small. }
    pose proof (Zdigits2_log2 m ltac:(lia)) as Hd2. unfold e' in *. rewrite Z.max_r by lia. f_equal. lia.
Qed.

Lemma round_float_ok neg m e l : 0 ≤ m → e ≤ fexp64 (Zdigits2 m + e) →
  match binary_round_aux 53 1024 neg m e l with
  | S754_finite neg' m' e' => float_ok (S754_finite neg' m' e')
  | _ => True
  end.
Proof.
  intros Hm He. unfold binary_round_aux, shr_fexp at 1.
  set (e1 := fexp64 (Zdigits2 m + e)) in *. rewrite shr_nat by lia.
  set (rec1 := Nat.iter _ _ _).
  assert (shr_m (shr_record_of_loc m l) = m) as Hl by by destruct l as [|[]].
  assert (shr_m rec1 = m / 2 ^ (e1 - e)) as Hr1.
  { unfold rec1. rewrite shr_mantissa by lia. rewrite Hl. rewrite Z2Nat.id; lia || done. }
  assert (0 ≤ shr_m rec1) as Hp1 by (rewrite Hr1; apply Z.div_pos; [done|]; apply Z.pow_pos_nonneg; lia).
  pose proof (shift_canonical m e Hm He) as Hc1. cbv zeta in Hc1. fold e1 in Hc1. rewrite <-Hr1 in Hc1.
  replace (e + (e1 - e)) with e1 by lia.
  set (m2 := round_nearest_even (shr_m rec1) (loc_of_shr_record rec1)).
  assert (m2 = shr_m rec1 ∨ m2 = shr_m rec1 + 1) as Hm2.
  { unfold m2. destruct (loc_of_shr_record rec1) as [|[]]; cbn; auto. destruct (Z.even _); auto. }
  assert (Zdigits2 (shr_m rec1) ≤ Zdigits2 m2) as Hdig.
  { destruct Hm2 as [->| ->]; [lia|]. destruct (Z.eq_dec (shr_m rec1) 0) as [->|]; [by vm_compute|].
    rewrite !Zdigits2_log2 by lia. pose proof (Z.log2_le_mono (shr_m rec1) (shr_m rec1 + 1)). lia. }
  assert (e1 ≤ fexp64 (Zdigits2 m2 + e1)) as He1 by (rewrite <-Hc1 at 1; apply fexp_mono; lia).
  pose proof (shift_canonical m2 e1 ltac:(lia) He1) as Hc2. cbv zeta in Hc2.
  unfold shr_fexp. set (e2 := fexp64 (Zdigits2 m2 + e1)) in *. rewrite shr_nat by lia.
  rewrite shr_mantissa by (cbn; lia). cbn [shr_record_of_loc shr_m]. rewrite Z2Nat.id by lia.
  replace (e1 + (e2 - e1)) with e2 by lia.
  destruct (m2 / 2 ^ (e2 - e1)) as [|p|p] eqn:Hq; [done| |done].
  destruct (Z.leb_spec e2 (1024 - 53)); [|done]. apply float_ok_spec.
  rewrite Zdigits2_log2 in Hc2 by lia. split; [exact Hc2|lia].
Qed.

(** A quotient of finite floats is a float64, if it is finite. *)
Lemma div_float_ok f g neg m e :
  SFdiv 53 1024 f g = S754_finite neg m e → float_ok (S754_finite neg m e).
Proof.
  destruct f as [s|s| |s m1 e1], g as [s'|s'| |s' m2 e2]; try done. unfold SFdiv, SFdiv_core_binary.
  set (e' := Z.min (fexp64 (Zdigits2 (Zpos m1) + e1 - (Zdigits2 (Zpos m2) + e2))) (e1 - e2)).
  rewrite core_shift by lia. set (sh := e1 - e2 - e'). assert (0 ≤ sh) as Hs by lia.
  pose proof (Z.pow_pos_nonneg 2 sh ltac:(lia) Hs) as Hp.
  assert (0 ≤ Zpos m1 * 2 ^ sh / Zpos m2) as Hq by (apply Z.div_pos; nia).
  assert (Zdigits2 (Zpos m1) + sh - Zdigits2 (Zpos m2) ≤ Zdigits2 (Zpos m1 * 2 ^ sh / Zpos m2)) as Hdig.
  { assert (0 ≤ Zdigits2 (Zpos m1 * 2 ^ sh / Zpos m2)) as H0.
    { destruct (Zpos m1 * 2 ^ sh / Zpos m2) as [|p|p] eqn:E; [by vm_compute| |lia].
      rewrite Zdigits2_log2 by lia. pose proof (Z.log2_nonneg (Zpos p)). lia. }
    rewrite (Zdigits2_log2 (Zpos m1)), (Zdigits2_log2 (Zpos m2)) in * by lia.
    set (l1 := Z.log2 (Zpos m1)) in *. set (l2 := Z.log2 (Zpos m2)) in *.
    destruct (Z.le_gt_cases (l1 + 1 + sh - (l2 + 1)) 0); [lia|].
    pose proof (Z.log2_spec (Zpos m1) eq_refl) as H1. pose proof (Z.log2_spec (Zpos m2) eq_refl) as H2.
    fold l1 in H1. fold l2 in H2. assert (0 ≤ l1 ∧ 0 ≤ l2) as [] by (split; apply Z.log2_nonneg).
    assert (2 ^ (l1 + sh - l2 - 1) ≤ Zpos m1 * 2 ^ sh / Zpos m2) as Hle.
    { apply Z.div_le_lower_bound; [lia|]. 
      assert (2 ^ l1 * 2 ^ sh = 2 ^ Z.succ l2 * 2 ^ (l1 + sh - l2 - 1)) as Heq
        by (rewrite <-!Z.pow_add_r by lia; f_equal; lia).
      pose proof (Z.pow_pos_nonneg 2 (l1 + sh - l2 - 1)). nia. }
    assert (0 < Zpos m1 * 2 ^ sh / Zpos m2) by (pose proof (Z.pow_pos_nonneg 2 (l1 + sh - l2 - 1)); lia).
    rewrite Zdigits2_log2 by done. apply Z.log2_le_pow2 in Hle; lia. }
  assert (e' ≤ fexp64 (Zdigits2 (Zpos m1 * 2 ^ sh / Zpos m2) + e')) as He.
  { apply Z.le_trans with (fexp64 (Zdigits2 (Zpos m1) + e1 - (Zdigits2 (Zpos m2) + e2))); [lia|].
    apply fexp_mono. lia. }
  unfold Z.div in Hq, He. destruct (Z.div_eucl _ _) as [q r].
  pose proof (round_float_ok (xorb s s') q e' (new_location (Zpos m2) r) Hq He) as Hok.
  intros Heq. by rewrite Heq in Hok.
Qed.

(** ** The digits of a float *)

(** [num/den < 10^k], with the powers on the sides where they are integers. *)
Lemma below_spec num den k :
  FormatFloat.below num den k = true ↔ num * 10 ^ Z.max (- k) 0 < den * 10 ^ Z.max k 0.
Proof.
  unfold FormatFloat.below. destruct (Z.leb_spec 0 k).
  - rewrite (Z.max_r (- k)), (Z.max_l k), Z.ltb_lt by lia. lia.
  - rewrite (Z.max_l (- k)), (Z.max_r k), Z.ltb_lt by lia. lia.
Qed.

(** Two to the power of [a] compared with ten to the power of [k]. *)
Definition two_below_ten (a k : Z) : bool :=
  2 ^ Z.max a 0 * 10 ^ Z.max (- k) 0 <=? 10 ^ Z.max k 0 * 2 ^ Z.max (- a) 0.
Definition ten_below_two (k a : Z) : bool :=
  10 ^ Z.max k 0 * 2 ^ Z.max (- a) 0 <=? 2 ^ Z.max a 0 * 10 ^ Z.max (- k) 0.

Definition estimate_of (l : Z) : Z := l * 30103 / 100000.

Definition in_range (i : nat) : bool :=
  let l := Z.of_nat i - 1074 in
  ten_below_two (estimate_of l - 2) l && two_below_ten (l + 1) (estimate_of l + 2) &&
  (-330 <=? estimate_of l - 1) && (estimate_of l + 2 <=? 310).

Lemma all_in_range : forallb in_range (seq 0 2098) = true.
Proof. vm_compute. reflexivity. Qed.

Section digits.
Context (m : positive) (e : Z) (Hok : float_ok (S754_finite false m e)).
#[local] Abbreviation num := (Zpos m * 2 ^ Z.max e 0).
#[local] Abbreviation den := (2 ^ Z.max (- e) 0).
#[local] Abbreviation L := (Z.log2 (Zpos m) + e).
#[local] Abbreviation f := (S754_finite false m e).

Lemma exponent_range : -1074 ≤ e ≤ 971 ∧ 0 ≤ Z.log2 (Zpos m) ≤ 52.
Proof.
  apply float_ok_spec in Hok as [Hc He]. pose proof (Z.log2_nonneg (Zpos m)).
  unfold fexp, emin in Hc. lia.
Qed.

Lemma num_den_pos : 0 < num ∧ 0 < den.
Proof.
  pose proof (Z.pow_pos_nonneg 2 (Z.max e 0)). pose proof (Z.pow_pos_nonneg 2 (Z.max (- e) 0)). lia.
Qed.

Lemma range_of_log : ten_below_two (estimate_of L - 2) L = true ∧
  two_below_ten (L + 1) (estimate_of L + 2) = true ∧ -330 ≤ estimate_of L - 1 ∧ estimate_of L + 2 ≤ 310.
Proof.
  pose proof exponent_range as [He Hm].
  pose proof (proj1 (forallb_forall _ _) all_in_range (Z.to_nat (L + 1074))) as Hin.
  assert (In (Z.to_nat (L + 1074)) (seq 0 2098)) as Hs by (apply in_seq; lia). specialize (Hin Hs).
  unfold in_range in Hin. rewrite Z2Nat.id in Hin by lia. replace (L + 1074 - 1074) with L in Hin by lia.
  rewrite !andb_true_iff, !Z.leb_le in Hin. tauto.
Qed.

(** The float lies between two powers of two. *)
Lemma num_bounds :
  den * 2 ^ Z.max L 0 ≤ num * 2 ^ Z.max (- L) 0 ∧
  num * 2 ^ Z.max (- (L + 1)) 0 < den * 2 ^ Z.max (L + 1) 0.
Proof.
  pose proof exponent_range as [He Hm]. pose proof (Z.log2_spec (Zpos m) eq_refl) as [H1 H2].
  set (lm := Z.log2 (Zpos m)) in *. split.
  - replace (den * 2 ^ Z.max (lm + e) 0) with (2 ^ lm * 2 ^ (Z.max e 0 + Z.max (- (lm + e)) 0))
      by (rewrite <-!Z.pow_add_r by lia; f_equal; lia).
    rewrite <-(Z.mul_assoc (Zpos m)), <-(Z.pow_add_r 2 (Z.max e 0)) by lia. apply Z.mul_le_mono_nonneg_r; [|done].
    apply Z.pow_nonneg. lia.
  - replace (den * 2 ^ Z.max (lm + e + 1) 0) with (2 ^ Z.succ lm * 2 ^ (Z.max e 0 + Z.max (- (lm + e + 1)) 0))
      by (rewrite <-!Z.pow_add_r by lia; f_equal; lia).
    rewrite <-(Z.mul_assoc (Zpos m)), <-(Z.pow_add_r 2 (Z.max e 0)) by lia. apply Z.mul_lt_mono_pos_r; [|done].
    apply Z.pow_pos_nonneg; lia.
Qed.

Lemma estimate_above : FormatFloat.below num den (estimate_of L + 2) = true.
Proof.
  apply below_spec. destruct range_of_log as (_ & H & _ & _). destruct num_bounds as [_ Hn].
  unfold two_below_ten in H. rewrite Z.leb_le in H. destruct num_den_pos as [Hnum Hden].
  set (k := estimate_of L + 2) in *.
  pose proof (Z.pow_pos_nonneg 10 (Z.max (- k) 0)). pose proof (Z.pow_pos_nonneg 2 (Z.max (- (L + 1)) 0)).
  apply (Z.mul_lt_mono_pos_r (2 ^ Z.max (- (L + 1)) 0)); [lia|].
  apply Z.lt_le_trans with (den * 2 ^ Z.max (L + 1) 0 * 10 ^ Z.max (- k) 0).
  - replace (num * 10 ^ Z.max (- k) 0 * 2 ^ Z.max (- (L + 1)) 0)
      with (num * 2 ^ Z.max (- (L + 1)) 0 * 10 ^ Z.max (- k) 0) by lia.
    apply Z.mul_lt_mono_pos_r; lia.
  - replace (den * 2 ^ Z.max (L + 1) 0 * 10 ^ Z.max (- k) 0)
      with (den * (2 ^ Z.max (L + 1) 0 * 10 ^ Z.max (- k) 0)) by lia.
    rewrite <-Z.mul_assoc. apply Z.mul_le_mono_nonneg_l; lia.
Qed.

Lemma estimate_below : FormatFloat.below num den (estimate_of L - 2) = false.
Proof.
  apply not_true_iff_false. rewrite below_spec. destruct range_of_log as (H & _ & _ & _). destruct num_bounds as [Hn _].
  unfold ten_below_two in H. rewrite Z.leb_le in H. destruct num_den_pos as [Hnum Hden].
  set (k := estimate_of L - 2) in *. apply Z.le_ngt.
  pose proof (Z.pow_pos_nonneg 10 (Z.max (- k) 0)). pose proof (Z.pow_pos_nonneg 2 (Z.max (- L) 0)).
  apply (Z.mul_le_mono_pos_r _ _ (2 ^ Z.max (- L) 0)); [lia|].
  apply Z.le_trans with (den * 2 ^ Z.max L 0 * 10 ^ Z.max (- k) 0).
  - replace (den * 2 ^ Z.max L 0 * 10 ^ Z.max (- k) 0)
      with (den * (2 ^ Z.max L 0 * 10 ^ Z.max (- k) 0)) by lia.
    rewrite <-Z.mul_assoc. apply Z.mul_le_mono_nonneg_l; lia.
  - replace (num * 10 ^ Z.max (- k) 0 * 2 ^ Z.max (- L) 0)
      with (num * 2 ^ Z.max (- L) 0 * 10 ^ Z.max (- k) 0) by lia.
    apply Z.mul_le_mono_nonneg_r; lia.
Qed.

#[local] Abbreviation dp := (FormatFloat.find_dp num den (estimate_of L)).

Lemma find_dp_spec :
  FormatFloat.below num den dp = true ∧ FormatFloat.below num den (dp - 1) = false ∧ -330 ≤ dp ≤ 310.
Proof.
  pose proof estimate_above as Ha. pose proof estimate_below as Hb. destruct range_of_log as (_ & _ & H1 & H2).
  unfold FormatFloat.find_dp. destruct (FormatFloat.below num den (estimate_of L - 1)) eqn:E1.
  { split; [done|]. replace (estimate_of L - 1 - 1) with (estimate_of L - 2) by lia. split; [done|lia]. }
  destruct (FormatFloat.below num den (estimate_of L)) eqn:E2; [split; [done|]; split; [done|lia]|].
  destruct (FormatFloat.below num den (estimate_of L + 1)) eqn:E3.
  { split; [done|]. replace (estimate_of L + 1 - 1) with (estimate_of L) by lia. split; [done|lia]. }
  split; [done|]. replace (estimate_of L + 2 - 1) with (estimate_of L + 1) by lia. split; [done|lia].
Qed.

(** The [n] digits below the float: there are as many. *)
Definition scaled (n : Z) : Z * Z :=
  let k := n - dp in if 0 <=? k then (num * 10 ^ k, den) else (num, den * 10 ^ (- k)).

Lemma scaled_eq n : scaled n = (num * 10 ^ Z.max (n - dp) 0, den * 10 ^ Z.max (dp - n) 0).
Proof.
  unfold scaled. cbv zeta. destruct (Z.leb_spec 0 (n - dp)).
  - rewrite (Z.max_l (n - dp)), (Z.max_r (dp - n)) by lia. f_equal. lia.
  - rewrite (Z.max_r (n - dp)), (Z.max_l (dp - n)) by lia. f_equal; [lia|]. do 2 f_equal. lia.
Qed.

Lemma pow10 a : 0 ≤ a → 0 < 10 ^ a.
Proof. intros. apply Z.pow_pos_nonneg; lia. Qed.

Lemma pow10_le a b c d : 0 ≤ a → 0 ≤ b → 0 ≤ c → 0 ≤ d → a + b ≤ c + d → 10 ^ a * 10 ^ b ≤ 10 ^ c * 10 ^ d.
Proof.
  intros Ha Hb Hc Hd Hle. rewrite <-(Z.pow_add_r 10 a b), <-(Z.pow_add_r 10 c d) by done.
  by apply Z.pow_le_mono_r.
Qed.

Lemma digits_below n : 1 ≤ n → let '(a, b) := scaled n in 0 < b ∧ 10 ^ (n - 1) ≤ a / b < 10 ^ n.
Proof.
  intros Hn. rewrite scaled_eq. destruct find_dp_spec as (H1 & H2 & _). destruct num_den_pos as [Hnum Hden].
  apply below_spec in H1. apply not_true_iff_false in H2. rewrite below_spec in H2. apply Z.nlt_ge in H2.
  set (d := dp) in *. set (nu := num) in *. set (de := den) in *. clearbody d nu de.
  pose proof (pow10 (Z.max (d - n) 0) ltac:(lia)). pose proof (pow10 (Z.max (n - d) 0) ltac:(lia)).
  split; [nia|]. split.
  - apply Z.div_le_lower_bound; [nia|]. 
    pose proof (pow10 (Z.max (- (d - 1)) 0) ltac:(lia)).
    apply (Z.mul_le_mono_pos_r _ _ (10 ^ Z.max (- (d - 1)) 0)); [done|].
    replace (nu * 10 ^ Z.max (n - d) 0 * 10 ^ Z.max (- (d - 1)) 0)
      with (nu * 10 ^ Z.max (- (d - 1)) 0 * 10 ^ Z.max (n - d) 0) by lia.
    apply Z.le_trans with (de * 10 ^ Z.max (d - 1) 0 * 10 ^ Z.max (n - d) 0);
      [|apply Z.mul_le_mono_nonneg_r; lia].
    rewrite <-!Z.mul_assoc. apply Z.mul_le_mono_nonneg_l; [lia|].
    rewrite <-(Z.pow_add_r 10 (n - 1)) by lia. apply pow10_le; lia.
  - apply Z.div_lt_upper_bound; [nia|]. pose proof (pow10 (Z.max (- d) 0) ltac:(lia)).
    apply (Z.mul_lt_mono_pos_r (10 ^ Z.max (- d) 0)); [done|].
    replace (nu * 10 ^ Z.max (n - d) 0 * 10 ^ Z.max (- d) 0)
      with (nu * 10 ^ Z.max (- d) 0 * 10 ^ Z.max (n - d) 0) by lia.
    apply Z.lt_le_trans with (de * 10 ^ Z.max d 0 * 10 ^ Z.max (n - d) 0);
      [apply Z.mul_lt_mono_pos_r; lia|].
    rewrite <-!Z.mul_assoc. apply Z.mul_le_mono_nonneg_l; [lia|].
    rewrite <-(Z.pow_add_r 10 n) by lia. apply pow10_le; lia.
Qed.

(** With all its digits a decimal reads as the float. *)
Lemma all_digits_read n : 1 ≤ n → dp + Z.max (- e) 0 ≤ n → 
  let '(a, b) := scaled n in FormatFloat.reads_as f (a / b) n dp = true.
Proof.
  intros Hn Hbig. pose proof (digits_below n Hn) as Hd. rewrite scaled_eq in *. destruct Hd as [Hb Hd].
  rewrite (Z.max_l (n - dp)), (Z.max_r (dp - n)), Z.pow_0_r, Z.mul_1_r in * by lia.
  destruct find_dp_spec as (_ & _ & Hdp). destruct num_den_pos as [Hnum Hden]. set (d := dp) in *.
  assert (num * 10 ^ (n - d) / den * den = num * 10 ^ (n - d)) as Hex.
  { assert (10 ^ (n - d) = den * (5 ^ Z.max (- e) 0 * 10 ^ (n - d - Z.max (- e) 0))) as ->.
    { rewrite Z.mul_assoc, <-Z.pow_mul_l, <-Z.pow_add_r by lia. f_equal. lia. }
    rewrite (Z.mul_comm den), Z.mul_assoc, Z.div_mul by lia. lia. }
  set (lo := num * 10 ^ (n - d) / den) in *. pose proof (pow10 (n - 1) ltac:(lia)). assert (0 < lo) as Hlo by lia.
  unfold FormatFloat.reads_as. destruct (Z.eqb_spec lo (10 ^ n)); [lia|]. apply bool_decide_eq_true.
  destruct (Itoa_size lo Hlo) as [Hs1 Hs2].
  assert (Z.of_nat (String.length (Itoa lo)) = n) as Hlen by (apply (digits_unique lo); lia).
  destruct lo as [|p|p] eqn:Elo; [lia| |lia]. unfold Float64.of_decimal. rewrite Hlen.
  destruct (Z.ltb_spec 310 (n + (d - n))); [lia|]. destruct (Z.ltb_spec (n + (d - n)) (-330)); [lia|].
  destruct (Z.leb_spec 0 (d - n)).
  - replace (d - n) with 0 by lia. apply of_ratio_value; [exact Hok|]. cbn [Z.pow Z.pow_pos].
    change (10 ^ 0) with 1. replace (n - d) with 0 in Hex by lia. change (10 ^ 0) with 1 in Hex. lia.
  - apply of_ratio_value; [exact Hok|]. rewrite Z2Pos.id by (apply pow10; lia).
    replace (- (d - n)) with (n - d) by lia. exact Hex.
Qed.

(** The search ends with digits that read back. *)
Lemma search_reads fuel : ∀ n N, 1 ≤ n ≤ N → dp + Z.max (- e) 0 ≤ N → N < n + Z.of_nat fuel →
  let '(d, n') := FormatFloat.search fuel f num den dp n in
  1 ≤ n' ∧ 10 ^ (n' - 1) ≤ d ≤ 10 ^ n' ∧ FormatFloat.reads_as f d n' dp = true.
Proof.
  induction fuel as [|fuel IH]; intros n N Hn HN Hf; [lia|]. cbn [FormatFloat.search]. cbv zeta.
  pose proof (digits_below n ltac:(lia)) as Hd. pose proof (all_digits_read n ltac:(lia)) as Hall.
  unfold scaled in Hd, Hall. cbv zeta in Hd, Hall. set (d0 := dp) in *. set (nu := num) in *. set (de := den) in *.
  clearbody d0 nu de.
  destruct (if 0 <=? n - d0 then (nu * 10 ^ (n - d0), de) else (nu, de * 10 ^ (- (n - d0)))) as [a b].
  destruct Hd as [Hb Hd].
  destruct (FormatFloat.reads_as f (a / b) n d0) eqn:Hlo;
    destruct (FormatFloat.reads_as f (a / b + 1) n d0) eqn:Hup; cbn [andb]; cbv beta iota.
  - split; [lia|]. destruct (_ <? b); [split; [lia|done]|]. destruct (b <? _); [split; [lia|done]|].
    destruct (Z.even _); (split; [lia|done]).
  - split; [lia|]. split; [lia|done].
  - split; [lia|]. split; [lia|done].
  - destruct (Z.eq_dec n N) as [->|]; [specialize (Hall HN); cbv beta iota in Hall; congruence|]. apply (IH (n + 1) N); lia.
Qed.

Lemma shortest_reads : ∃ d p, FormatFloat.shortest m e = (Itoa d, p) ∧ 0 < d ∧
  -400 ≤ p ≤ 400 ∧ Float64.of_decimal false d (p - Z.of_nat (String.length (Itoa d))) = f.
Proof.
  destruct find_dp_spec as (_ & _ & Hdp). pose proof exponent_range as [He _].
  unfold FormatFloat.shortest. change (L * 30103 / 100000) with (estimate_of L).
  pose proof (search_reads FormatFloat.max_digits 1 (Z.max 1 (dp + Z.max (- e) 0))) as Hs.
  assert (Z.of_nat FormatFloat.max_digits = 1400) as Hmax by done.
  destruct (FormatFloat.search _ _ _ _ _ _) as [d n].
  destruct Hs as (Hn & Hd & Hr); [lia..|]. unfold FormatFloat.pointed, FormatFloat.reads_as in *.
  destruct (Z.eqb_spec d (10 ^ n)) as [->|Hne]; apply bool_decide_eq_true in Hr.
  - exists 1, (dp + 1). split; [done|]. split; [lia|]. split; [lia|].
    change (Z.of_nat (String.length (Itoa 1))) with 1. by replace (dp + 1 - 1) with dp by lia.
  - exists d, dp. pose proof (pow10 (n - 1) ltac:(lia)). split; [done|]. split; [lia|]. split; [lia|].
    destruct (Itoa_size d ltac:(lia)) as [Hs1 Hs2].
    by rewrite (digits_unique d (Z.of_nat (String.length (Itoa d))) n) by lia.
Qed.
End digits.

(** ** Texts of numbers

    An integer part, a fraction and an exponent, some of which may be missing:
    what the text is as JSON, and what strconv reads from it. *)

Lemma chars_app p a b : all_chars p (a +:+ b) = all_chars p a && all_chars p b.
Proof. induction a as [|c a IH]; [done|]. cbn. by rewrite IH, andb_assoc. Qed.

Lemma digit_char c : is_digit c = true → number_char c = true.
Proof. unfold number_char. by intros ->. Qed.

Lemma are_digits_chars s : are_digits (to_bytes s) ↔ all_chars is_digit s = true.
Proof.
  induction s as [|c s IH]; [split; [done|constructor]|]. cbn [to_bytes all_chars]. unfold are_digits. rewrite Forall_cons, andb_true_iff.
  fold (are_digits (to_bytes s)). rewrite IH. assert (is_digit c = true ↔ 48 ≤ code c ≤ 57) as -> by (unfold is_digit; lia).
  done.
Qed.

(** A text of such characters has no underscores. *)
Lemma number_chars_plain s : all_chars number_char s = true →
  ParseFloat.without_underscores (to_bytes s) = Some (to_bytes s).
Proof.
  intros Hs. apply ParseFloat.no_underscores. induction s as [|c s IH]; [constructor|].
  cbn [all_chars] in Hs. apply andb_true_iff in Hs as [Hc Hs]. constructor; [|by apply IH].
  unfold number_char, is_digit in Hc. lia.
Qed.

Lemma sign_digit z l : 48 ≤ z → ParseFloat.sign (z :: l) = (false, z :: l).
Proof. intros Hz. destruct z as [|p|p]; [done| |done]. do 6 (destruct p as [p|p|]; try done); lia. Qed.

(** A JSON number is none of the words for infinities and NaN. *)
Lemma number_not_special lit : valid_number lit = true → ParseFloat.special (to_bytes lit) = None.
Proof.
  assert (∀ c s, is_digit c = true → ParseFloat.special (code c :: to_bytes s) = None ∧
    ParseFloat.special (45 :: code c :: to_bytes s) = None) as Hd.
  { intros c s Hc. unfold is_digit in Hc. assert (48 ≤ code c ≤ 57) as Hr by lia. clear Hc.
    assert (∀ x t, code x ≠ ParseFloat.lower (code c) →
      String.eqb (of_bytes (ParseFloat.lower <$> (code c :: to_bytes s))) (String x t) = false) as Hne.
    { intros x t Hx. apply String.eqb_neq. cbn [fmap list_fmap of_bytes]. intros [= H _].
      apply Hx. rewrite <-H. apply code_chr. unfold ParseFloat.lower. destruct (_ && _) eqn:?; lia. }
    assert (ParseFloat.lower (code c) = code c) as Hl by (unfold ParseFloat.lower; destruct (_ && _) eqn:?; lia).
    assert (∀ x : ascii, 57 < code x → code x ≠ ParseFloat.lower (code c)) as Hx by (intros x; lia).
    unfold ParseFloat.special. split.
    - rewrite sign_digit by lia. by rewrite !Hne by by apply Hx.
    - cbn [ParseFloat.sign]. by rewrite !Hne by by apply Hx. }
  assert (∀ s, unsigned_number s = true → ∃ c t, s = String c t ∧ is_digit c = true) as Hu.
  { intros [|c t]; [done|]. cbn [unsigned_number]. intros H. exists c, t. split; [done|].
    destruct (Z.eqb_spec (code c) 48) as [E|]; [unfold is_digit; lia|].
    by apply andb_true_iff in H as [? _]. }
  destruct lit as [|c s]; [done|]. cbn [valid_number to_bytes].
  destruct (Z.eqb_spec (code c) 45) as [->|].
  - intros (d & t & -> & Hd')%Hu. by apply Hd.
  - intros (d & t & [= <- <-] & Hd')%Hu. by apply Hd.
Qed.

(** Reading digits. *)
Lemma mantissa_app l t m frac dot dig :
  are_digits l →
  ParseFloat.mantissa false (l ++ t) m frac dot dig =
  ParseFloat.mantissa false t (digits_from m l) (frac + (if dot then Z.of_nat (length l) else 0)) dot
    (match l with [] => dig | _ => true end).
Proof.
  intros Hl. revert m frac dig. induction Hl as [|c l Hc Hl IH]; intros m frac dig.
  { cbn [app digits_from foldl length]. f_equal. destruct dot; lia. }
  cbn [app ParseFloat.mantissa]. destruct (Z.eqb_spec c 46); [lia|]. unfold ParseFloat.digit.
  assert ((48 <=? c) && (c <=? 57) = true) as -> by lia. rewrite IH. cbn [length digits_from foldl].
  f_equal; [destruct dot; lia|by destruct l].
Qed.

Lemma exponent_digits l : ∀ x, are_digits l → 0 ≤ x → digits_from x l ≤ 10000 →
  ParseFloat.exponent l x = Some (digits_from x l).
Proof.
  induction l as [|z l IH]; intros x Hl Hx Hle; [done|]. cbn [ParseFloat.exponent].
  pose proof (digits_from_bounds x (z :: l) Hl) as [Hb _]. cbn [length] in Hb.
  rewrite Nat2Z.inj_succ, Z.pow_succ_r in Hb by lia. pose proof (Z.pow_pos_nonneg 10 (Z.of_nat (length l))).
  apply Forall_cons in Hl as [Hz Hl]. unfold ParseFloat.digit.
  assert ((48 <=? z) && (z <=? 57) = true) as -> by lia. destruct (Z.ltb_spec x 10000); [|nia].
  cbn [digits_from foldl] in *. apply IH; [done|lia|done].
Qed.

(** The integer part is zero or does not start with it. *)
Definition integer_part (s : string) : Prop :=
  s = "0" ∨ ∃ c t, s = String c t ∧ 48 < code c ≤ 57 ∧ all_chars is_digit t = true.

Definition point (fp : string) : string := match fp with EmptyString => "" | _ => "." +:+ fp end.
Definition exponent_text (ex : option (bool * string)) : string :=
  match ex with
  | None => ""
  | Some (eneg, ds) => "e" +:+ (if eneg then "-" else "+") +:+ ds
  end.
Definition exponent_value (ex : option (bool * string)) : Z :=
  match ex with
  | None => 0
  | Some (eneg, ds) => let x := digits_from 0 (to_bytes ds) in if eneg then - x else x
  end.
Definition exponent_ok (ex : option (bool * string)) : Prop :=
  match ex with
  | None => True
  | Some (_, ds) => ds ≠ "" ∧ all_chars is_digit ds = true ∧ digits_from 0 (to_bytes ds) ≤ 10000
  end.
Definition number_text (ip fp : string) (ex : option (bool * string)) : string :=
  ip +:+ (point fp +:+ exponent_text ex).

Section number_text.
Context (ip fp : string) (ex : option (bool * string)).
Context (Hip : integer_part ip) (Hfp : all_chars is_digit fp = true) (Hex : exponent_ok ex).

Lemma integer_part_digits : are_digits (to_bytes ip) ∧ to_bytes ip ≠ [].
Proof.
  destruct Hip as [->|(c & t & -> & Hc & Ht)].
  - split; [|done]. repeat constructor; by vm_compute.
  - split; [|done]. constructor; [lia|]. by apply are_digits_chars.
Qed.

Lemma exponent_valid : exponent_part (exponent_text ex) = true ∧ all_chars number_char (exponent_text ex) = true ∧
  match exponent_text ex with String c _ => is_digit c = false | EmptyString => True end.
Proof.
  destruct ex as [[eneg ds]|]; [|done]. destruct Hex as (Hne & Hd & _). cbn [exponent_text].
  destruct ds as [|a s]; [done|]. split; [|split; [|done]].
  - cbn [exponent_part String.append]. unfold digits1.
    destruct eneg; cbn [String.append]; cbn; by rewrite span_digits.
  - rewrite !chars_app, (digits_number_chars _ Hd). by destruct eneg.
Qed.

Lemma fraction_valid : fraction_part (point fp +:+ exponent_text ex) = true ∧
  all_chars number_char (point fp +:+ exponent_text ex) = true ∧
  match point fp +:+ exponent_text ex with String c _ => is_digit c = false | EmptyString => True end.
Proof.
  destruct exponent_valid as (He & Hc & Hh). unfold point. destruct fp as [|a s].
  - cbn [String.append]. split; [|done]. unfold fraction_part. destruct (exponent_text ex) as [|b t] eqn:Ht; [done|].
    destruct (Z.eqb_spec (code b) 46) as [Hb|]; [|done]. destruct ex as [[]|]; [|done]. by injection Ht as <- _.
  - change (("." +:+ String a s) +:+ exponent_text ex) with (String "." (String a s +:+ exponent_text ex)).
    split; [|split; [|done]].
    + unfold fraction_part. change (code "." =? 46) with true. cbv iota. unfold digits1.
      by rewrite (span_all is_digit (String a s)) by done.
    + cbn [all_chars]. rewrite chars_app, Hc, (digits_number_chars _ Hfp). done.
Qed.

Lemma text_unsigned : unsigned_number (number_text ip fp ex) = true ∧
  all_chars number_char (number_text ip fp ex) = true.
Proof.
  destruct fraction_valid as (Hf & Hc & Hh). unfold number_text. destruct integer_part_digits as [Hd _].
  split; [|by rewrite chars_app, Hc, (digits_number_chars ip (proj1 (are_digits_chars ip) Hd))].
  destruct Hip as [->|(c & t & -> & Hcc & Ht)]; [exact Hf|]. cbn [String.append unsigned_number].
  destruct (Z.eqb_spec (code c) 48); [lia|]. rewrite span_all by done. unfold is_digit. cbn [snd].
  rewrite Hf. lia.
Qed.

Lemma text_wf neg : wf_number (FormatFloat.sign neg (number_text ip fp ex)) = true.
Proof.
  destruct text_unsigned as [Hu Hc]. unfold wf_number. destruct neg; cbn [FormatFloat.sign].
  - change ("-" +:+ number_text ip fp ex) with (String "-" (number_text ip fp ex)).
    cbn [valid_number all_chars]. by rewrite Hu, Hc.
  - rewrite Hc, andb_true_r. unfold valid_number. destruct (number_text ip fp ex) as [|c s] eqn:E; [done|].
    destruct (Z.eqb_spec (code c) 45) as [H45|]; [|done]. exfalso. revert E. unfold number_text.
    destruct Hip as [->|(c' & t & -> & Hcc & _)]; intros [= <- _]; [done|lia].
Qed.

Lemma no_hex : let l := to_bytes (number_text ip fp ex) in
  match l with
  | 48 :: x :: l' => if ParseFloat.lower x =? 120 then (true, l') else (false, l)
  | l => (false, l)
  end = (false, l).
Proof.
  cbv zeta. unfold number_text. destruct Hip as [->|(c & t & -> & Hc & _)].
  - cbn [String.append to_bytes]. change (code "0") with 48.
    destruct (point fp +:+ exponent_text ex) as [|a s] eqn:E; [done|]. cbn [to_bytes].
    destruct (Z.eqb_spec (ParseFloat.lower (code a)) 120) as [Ha|]; [|done]. exfalso.
    unfold point in E. destruct fp as [|b u]; [|by injection E as <- _].
    destruct ex as [[]|]; [|done]. by injection E as <- _.
  - cbn [String.append to_bytes]. generalize (to_bytes (t +:+ (point fp +:+ exponent_text ex))). intros l.
    destruct (code c) as [|p|p]; [lia| |lia]. do 6 (destruct p as [p|p|]; try reflexivity); lia.
Qed.

Lemma text_mantissa : ParseFloat.mantissa false (to_bytes (number_text ip fp ex)) 0 0 false false =
  (digits_from 0 (to_bytes ip ++ to_bytes fp), Z.of_nat (String.length fp), true, to_bytes (exponent_text ex)).
Proof.
  destruct integer_part_digits as [Hd Hne]. unfold number_text. rewrite !to_bytes_app, mantissa_app by done.
  replace (match to_bytes ip with [] => false | _ => true end) with true by by destruct (to_bytes ip).
  assert (∀ m frac dot, ParseFloat.mantissa false (to_bytes (exponent_text ex)) m frac dot true =
    (m, frac, true, to_bytes (exponent_text ex))) as Hend.
  { intros m frac dot. by destruct ex as [[]|]. }
  rewrite digits_from_app. unfold point. destruct fp as [|a s] eqn:E; [by rewrite Hend|].
  rewrite to_bytes_app. change (to_bytes ".") with [46]. cbn [app ParseFloat.mantissa]. rewrite Z.eqb_refl.
  rewrite mantissa_app by (by apply are_digits_chars). rewrite to_bytes_length.
  cbn [to_bytes]. rewrite Hend. done.
Qed.

Lemma text_number neg : ParseFloat.number (to_bytes (FormatFloat.sign neg (number_text ip fp ex))) =
  Some (Float64.of_decimal neg (digits_from 0 (to_bytes ip ++ to_bytes fp))
    (exponent_value ex - Z.of_nat (String.length fp))).
Proof.
  assert (ParseFloat.sign (to_bytes (FormatFloat.sign neg (number_text ip fp ex))) =
    (neg, to_bytes (number_text ip fp ex))) as Hs.
  { destruct neg; [done|]. cbn [FormatFloat.sign]. destruct integer_part_digits as [Hd Hne].
    unfold number_text. rewrite to_bytes_app. destruct (to_bytes ip) as [|c l]; [done|].
    apply Forall_cons in Hd as [Hc _]. apply sign_digit. lia. }
  unfold ParseFloat.number. rewrite Hs. pose proof no_hex as Hh. cbv zeta in Hh. rewrite Hh, text_mantissa.
  destruct ex as [[eneg ds]|]; [|done]. destruct Hex as (Hne & Hd%are_digits_chars & Hle). cbn [exponent_text exponent_value].
  rewrite !to_bytes_app. change (to_bytes "e") with [101]. cbn [app].
  change (ParseFloat.lower 101 =? 101) with true. cbv iota.
  assert (ParseFloat.sign (to_bytes (if eneg then "-" else "+") ++ to_bytes ds) = (eneg, to_bytes ds)) as ->
    by by destruct eneg.
  rewrite (exponent_digits (to_bytes ds) 0) by done. destruct ds as [|a s]; [done|]. cbn [to_bytes mbind option_bind].
  by destruct eneg.
Qed.

(** The text reads as the decimal that it is, if it is not too large. *)
Lemma text_reads neg :
  let f := Float64.of_decimal neg (digits_from 0 (to_bytes ip ++ to_bytes fp))
    (exponent_value ex - Z.of_nat (String.length fp)) in
  float_ok f → ParseFloat (FormatFloat.sign neg (number_text ip fp ex)) = Ok f.
Proof.
  intros f Hf. pose proof (text_wf neg) as Hw. unfold wf_number in Hw. apply andb_true_iff in Hw as [Hv Hc].
  unfold ParseFloat. rewrite number_not_special, number_chars_plain by done. cbn [mbind option_bind].
  rewrite text_number. fold f. by destruct f.
Qed.
End number_text.

(** ** What encoding/json prints *)

(** Trailing zeros are the same as an exponent. *)
Lemma of_decimal_zeros neg d k : 0 < d →
  Float64.of_decimal neg (d * 10 ^ Z.of_nat k) 0 = Float64.of_decimal neg d (Z.of_nat k).
Proof.
  intros Hd. pose proof (Z.pow_pos_nonneg 10 (Z.of_nat k) ltac:(lia) ltac:(lia)) as Hp.
  assert (Z.of_nat (String.length (Itoa (d * 10 ^ Z.of_nat k))) = Z.of_nat (String.length (Itoa d)) + Z.of_nat k) as Hl.
  { rewrite Itoa_zeros, <-to_bytes_length, to_bytes_app, length_app, to_bytes_length by done.
    rewrite to_of_bytes, length_replicate by (apply Forall_replicate; lia). lia. }
  unfold Float64.of_decimal. destruct (d * 10 ^ Z.of_nat k) as [|q|q] eqn:Eq; [nia| |nia].
  destruct d as [|p|p]; try lia. rewrite Hl, Z.add_0_r.
  destruct (310 <? _); [done|]. destruct (_ <? -330); [done|].
  destruct (Z.leb_spec 0 0); [|lia]. destruct (Z.leb_spec 0 (Z.of_nat k)); [|lia]. f_equal.
  change (Z.to_pos (10 ^ 0)) with 1%positive. rewrite Pos.mul_1_r. apply Pos2Z.inj.
  rewrite Pos2Z.inj_mul, Z2Pos.id by done. by rewrite Eq.
Qed.

Lemma split_string s k : (k ≤ String.length s)%nat →
  s = String.substring 0 k s +:+ String.substring k (String.length s - k) s.
Proof.
  revert k. induction s as [|c s IH]; intros [|k] Hk; [done|cbn in Hk; lia| |].
  - cbn [String.append]. rewrite Nat.sub_0_r. by rewrite (substring_full (String c s)).
  - cbn [String.substring String.append String.length Nat.sub]. f_equal. apply IH. cbn in Hk. lia.
Qed.

Section printing.
Context (d p : Z) (Hd : 0 < d) (Hp : -400 ≤ p ≤ 400).
#[local] Abbreviation nd := (Z.of_nat (String.length (Itoa d))).

(** A text of a number with the digits of [d] and the point at [p]. *)
Definition writes (t : string) : Prop := ∃ ip fp ex,
  t = number_text ip fp ex ∧ integer_part ip ∧ all_chars is_digit fp = true ∧ exponent_ok ex ∧
  ∀ neg, Float64.of_decimal neg (digits_from 0 (to_bytes ip ++ to_bytes fp))
    (exponent_value ex - Z.of_nat (String.length fp)) = Float64.of_decimal neg d (p - nd).

Lemma Itoa_head x : 0 < x → ∃ c s, Itoa x = String c s ∧ 48 < code c ≤ 57 ∧ all_chars is_digit s = true.
Proof.
  intros Hx. destruct (Itoa_digits_from x Hx) as (c & l & Hb & Hc & Hl & _).
  destruct (Itoa x) as [|a s]; [done|]. cbn [to_bytes] in Hb. injection Hb as <- <-.
  exists a, s. split; [done|]. split; [done|]. by apply are_digits_chars.
Qed.

Lemma Itoa_chars x : 0 ≤ x → all_chars is_digit (Itoa x) = true.
Proof.
  intros Hx. destruct (Z.eq_dec x 0) as [->|]; [done|].
  destruct (Itoa_head x ltac:(lia)) as (c & s & -> & Hc & Hs). cbn [all_chars]. rewrite Hs. unfold is_digit. lia.
Qed.

Lemma Itoa_value x : 0 ≤ x → digits_from 0 (to_bytes (Itoa x)) = x.
Proof.
  intros Hx. destruct (Z.eq_dec x 0) as [->|]; [done|].
  destruct (Itoa_digits_from x ltac:(lia)) as (c & l & Hb & _ & _ & Hv). by rewrite Hb.
Qed.

Lemma fmtE_writes pad : writes (FormatFloat.fmtE pad (Itoa d) p).
Proof.
  destruct (Itoa_head d Hd) as (c & s & Hcs & Hc & Hs). pose proof (Itoa_value d ltac:(lia)) as Hv.
  set (ds := (if pad && (String.length (Itoa (Z.abs (p - 1))) =? 1)%nat then "0" else "") +:+ Itoa (Z.abs (p - 1))).
  assert (digits_from 0 (to_bytes ds) = Z.abs (p - 1)) as Hds.
  { unfold ds. rewrite to_bytes_app, digits_from_app.
    transitivity (digits_from 0 (to_bytes (Itoa (Z.abs (p - 1))))); [|apply Itoa_value; lia].
    by destruct (pad && (String.length (Itoa (Z.abs (p - 1))) =? 1)%nat). }
  exists (String c ""), s, (Some (p - 1 <? 0, ds)).
  split; [|split; [|split; [done|split]]].
  - unfold FormatFloat.fmtE, number_text, exponent_text, point. fold ds. rewrite Hcs.
    cbn [String.length String.substring].
    destruct s as [|a s]; [done|]. cbn [Nat.eqb String.append String.length].
    replace (S (S (String.length s)) - 1)%nat with (String.length (String a s)) by (cbn; lia).
    by rewrite substring_full.
  - right. by exists c, "".
  - split; [|split; [|rewrite Hds; lia]].
    + unfold ds. destruct (Itoa (Z.abs (p - 1))) as [|b u] eqn:E; [|by destruct (pad && _)].
      pose proof (Atoi_Itoa (Z.abs (p - 1))) as Ha. by rewrite E in Ha.
    + unfold ds. rewrite chars_app, Itoa_chars by lia. by destruct (pad && _).
  - intros neg. cbn [exponent_value]. rewrite Hds, Hcs in *. f_equal; [exact Hv|]. cbn [String.length].
    destruct (Z.ltb_spec (p - 1) 0); lia.
Qed.

(** The point inside the digits, after them, and before them. *)
Lemma fmtF_inside : 0 < p < nd → writes (FormatFloat.fmtF (Itoa d) p).
Proof.
  intros Hpn. destruct (Itoa_head d Hd) as (c & s & Hcs & Hc & Hs). pose proof (Itoa_value d ltac:(lia)) as Hv.
  set (k := Z.to_nat p). assert (k ≤ String.length (Itoa d))%nat as Hk by lia. assert (0 < k)%nat as Hk0 by lia.
  exists (String.substring 0 k (Itoa d)), (String.substring k (String.length (Itoa d) - k) (Itoa d)), None.
  pose proof (split_string (Itoa d) k Hk) as Hsp. pose proof (Itoa_chars d ltac:(lia)) as Hall.
  assert (String.length (String.substring k (String.length (Itoa d) - k) (Itoa d)) = String.length (Itoa d) - k)%nat
    as Hl by (apply substring_length; lia).
  rewrite Hsp, chars_app in Hall. apply andb_true_iff in Hall as [Ha Hb].
  split_and!; [| |exact Hb|done|].
  - unfold FormatFloat.fmtF. destruct (Z.ltb_spec 0 p); [|lia]. destruct (Z.ltb_spec p nd); [|lia].
    rewrite Z.min_r, Z.max_l by lia. fold k. replace (Z.to_nat (nd - p)) with (String.length (Itoa d) - k)%nat by lia.
    assert (Z.to_nat (p - nd) = 0%nat ∧ Z.to_nat (- p) = 0%nat) as [Hz1 Hz2] by (split; clear -Hpn; lia).
    unfold number_text, exponent_text, point, FormatFloat.zeros. rewrite Hz1, Hz2. cbn [replicate of_bytes String.append].
    destruct (String.substring k _ (Itoa d)) as [|a t]; [cbn in Hl; lia|]. by rewrite !app_nil_str.
  - rewrite Hcs in *. clearbody k. destruct k as [|k]; [lia|]. right. exists c, (String.substring 0 k s).
    split; [done|]. split; [done|]. cbn in Ha. by apply andb_true_iff in Ha as [_ ?].
  - intros neg. rewrite <-to_bytes_app, <-Hsp, Hv, Hl. f_equal. cbn [exponent_value]. unfold k in *. lia.
Qed.

Lemma fmtF_after : nd ≤ p → writes (FormatFloat.fmtF (Itoa d) p).
Proof.
  intros Hpn. destruct (Itoa_size d Hd) as [Hnd _].
  pose proof (Z.pow_pos_nonneg 10 (Z.of_nat (Z.to_nat (p - nd)))) as Hpow.
  exists (Itoa (d * 10 ^ Z.of_nat (Z.to_nat (p - nd)))), "", None. split_and!; [| |done|done|].
  - unfold FormatFloat.fmtF. destruct (Z.ltb_spec 0 p); [|lia]. destruct (Z.ltb_spec p nd); [lia|].
    rewrite Z.min_l, Nat2Z.id, substring_full by lia. unfold number_text. rewrite Itoa_zeros by done.
    unfold FormatFloat.zeros, point, exponent_text. by rewrite !app_nil_str.
  - right. apply Itoa_head. nia.
  - intros neg. cbn [to_bytes String.length exponent_value]. rewrite app_nil_r, Itoa_value by nia.
    change (0 - Z.of_nat 0) with 0. rewrite of_decimal_zeros by done. f_equal. lia.
Qed.

Lemma fmtF_before : p ≤ 0 → writes (FormatFloat.fmtF (Itoa d) p).
Proof.
  intros Hp0. destruct (Itoa_size d Hd) as [Hnd _]. pose proof (Itoa_value d ltac:(lia)) as Hv.
  exists "0", (FormatFloat.zeros (- p) +:+ Itoa d), None.
  assert (to_bytes (FormatFloat.zeros (- p)) = replicate (Z.to_nat (- p)) 48) as Hz
    by (unfold FormatFloat.zeros; rewrite to_of_bytes; [done|apply Forall_replicate; lia]).
  split_and!; [|by left| |done|].
  - unfold FormatFloat.fmtF. destruct (Z.ltb_spec 0 p); [lia|]. destruct (Z.ltb_spec p nd); [|lia].
    rewrite Z.max_r by lia. rewrite Z.sub_0_r, Nat2Z.id. change (Z.to_nat 0) with 0%nat. rewrite substring_full.
    unfold number_text, exponent_text, point. destruct (Itoa_head d Hd) as (c & s & -> & _).
    rewrite app_nil_str. by destruct (FormatFloat.zeros (- p)).
  - rewrite chars_app, Itoa_chars by lia. rewrite andb_true_r. apply are_digits_chars. rewrite Hz. apply zeros_digits.
  - intros neg. rewrite to_bytes_app, Hz. change (to_bytes "0") with [48].
    rewrite !digits_from_app, digits_from_zeros. change (digits_from 0 [48]) with 0.
    rewrite Z.mul_0_l, Hv. f_equal. rewrite <-to_bytes_length, to_bytes_app, length_app, Hz, length_replicate.
    rewrite to_bytes_length. cbn [exponent_value]. lia.
Qed.

Lemma layout_writes (big pad : bool) :
  writes (if big then FormatFloat.fmtE pad (Itoa d) p else FormatFloat.fmtF (Itoa d) p).
Proof.
  destruct big; [apply fmtE_writes|]. destruct (Z.le_gt_cases p 0); [by apply fmtF_before|].
  destruct (Z.le_gt_cases nd p); [by apply fmtF_after|by apply fmtF_inside].
Qed.
End printing.

(** Whatever the layout, what is written for a float64 is a number and reads
    back as the float64. *)
Lemma layout_reads neg m e (big : Z → bool) pad :
  float_ok (S754_finite neg m e) →
  let t := let (digs, dp) := FormatFloat.shortest m e in
    FormatFloat.sign neg (if big dp then FormatFloat.fmtE pad digs dp else FormatFloat.fmtF digs dp) in
  wf_number t = true ∧ ParseFloat t = Ok (S754_finite neg m e).
Proof.
  intros Hok. assert (float_ok (S754_finite false m e)) as Hpos by exact Hok.
  destruct (shortest_reads m e Hpos) as (d & p & -> & Hd & Hp & Hr). cbv zeta beta iota.
  destruct (layout_writes d p Hd Hp (big p) pad) as (ip & fp & ex & -> & Hip & Hfp & Hex & Hv).
  split; [by apply text_wf|].
  assert (Float64.of_decimal neg d (p - Z.of_nat (String.length (Itoa d))) = S754_finite neg m e) as Hn.
  { destruct neg; [rewrite of_decimal_neg by done|]; by rewrite Hr. }
  pose proof (text_reads ip fp ex Hip Hfp Hex neg) as Hread. rewrite Hv, Hn in Hread. by apply Hread.
Qed.

(** encoding/json. *)
Lemma json_float_reads f : float_ok f →
  ∃ lit, json_float f = Ok lit ∧ wf_number lit = true ∧ ParseFloat lit = Ok f.
Proof.
  destruct f as [[]|s| |neg m e]; try done; intros Hok; [by eexists; split; [reflexivity|]..|].
  pose proof (layout_reads neg m e (λ dp, (dp <=? -6) || (22 <=? dp)) false Hok) as Ht. cbv zeta in Ht.
  unfold json_float. destruct (FormatFloat.shortest m e) as [digs dp]. by eexists.
Qed.

(** [fmt.Sprintf("%v", f)], which is the text of an observation. *)
Lemma Sprint_float_reads f : float_ok f →
  wf_number (Sprint_float f) = true ∧ ParseFloat (Sprint_float f) = Ok f.
Proof.
  destruct f as [[]|s| |neg m e]; try done; intros Hok.
  pose proof (layout_reads neg m e (λ dp, (dp - 1 <? -4) || (6 <=? dp - 1)) true Hok) as Ht. cbv zeta in Ht.
  unfold Sprint_float. by destruct (FormatFloat.shortest m e) as [digs dp].
Qed.
