(* ===== verification/GoJson.v ===== *)
(** * encoding/json: the typed layer

    How the standard library maps Go types to JSON trees and back.  A Go type
    is described by a [gotype]: its zero value, its encoder, and its decoder,
    which stores into an existing value (a null leaves most of them alone).
    [lawful] is the round trip a type promises to the structures built on
    it. *)

From Stdlib Require Import Ascii DecimalPos DecimalString.
From stdpp Require Import sorting.
From S2P Require Import Prelude Bytes Strconv Json Integers Floats.

(** ** encoding/base64, standard alphabet with padding *)
Module Base64.
Definition char (n : Z) : ascii :=
  if n <? 26 then chr (65 + n)
  else if n <? 52 then chr (71 + n)
  else if n <? 62 then chr (n - 4)
  else if n =? 62 then chr 43 else chr 47.

Definition value (c : ascii) : option Z :=
  let z := code c in
  if (65 <=? z) && (z <=? 90) then Some (z - 65)
  else if (97 <=? z) && (z <=? 122) then Some (z - 71)
  else if (48 <=? z) && (z <=? 57) then Some (z + 4)
  else if z =? 43 then Some 62
  else if z =? 47 then Some 63
  else None.

Definition pad : ascii := chr 61.

Fixpoint EncodeToString (s : bytes) : string :=
  match s with
  | EmptyString => ""
  | String a EmptyString =>
      let n := code a * 16 in
      String (char (n / 64)) (String (char (n mod 64)) (String pad (String pad "")))
  | String a (String b EmptyString) =>
      let n := (code a * 256 + code b) * 4 in
      String (char (n / 4096)) (String (char (n / 64 mod 64))
        (String (char (n mod 64)) (String pad "")))
  | String a (String b (String c s)) =>
      let n := (code a * 256 + code b) * 256 + code c in
      String (char (n / 262144)) (String (char (n / 4096 mod 64))
        (String (char (n / 64 mod 64)) (String (char (n mod 64)) (EncodeToString s))))
  end.

Definition is_pad (c : ascii) : bool := code c =? 61.

Fixpoint quanta (s : string) : option bytes :=
  match s with
  | EmptyString => Some ""
  | String a (String b (String c (String d s))) =>
      w ← value a; x ← value b;
      if is_pad c && is_pad d && String.eqb s "" then
        Some (String (chr ((w * 64 + x) / 16)) "")
      else
        y ← value c;
        if is_pad d && String.eqb s "" then
          let n := (w * 64 + x) * 64 + y in
          Some (String (chr (n / 1024)) (String (chr (n / 4 mod 256)) ""))
        else
          z ← value d;
          let n := ((w * 64 + x) * 64 + y) * 64 + z in
          r ← quanta s;
          Some (String (chr (n / 65536)) (String (chr (n / 256 mod 256))
            (String (chr (n mod 256)) r)))
  | _ => None
  end.

(** Line ends are skipped. *)
Fixpoint strip_newlines (s : string) : string :=
  match s with
  | EmptyString => ""
  | String c s =>
      if (code c =? 10) || (code c =? 13) then strip_newlines s
      else String c (strip_newlines s)
  end.

Definition DecodeString (s : string) : result bytes :=
  match quanta (strip_newlines s) with
  | Some b => Ok b
  | None => Error (Errorf "illegal base64 data")
  end.
End Base64.

(** ** Types *)
Record gotype (A : Type) : Type := {
  zero : A;
  enc : A → result json;
  dec : A → json → result A
}.
Arguments zero {A} g.
Arguments enc {A} g a.
Arguments dec {A} g a j.

(** [P] holds of the values that survive; [d] is the nesting they may use. *)
Record lawful {A} (g : gotype A) (P : A → Prop) (d : Z) : Prop := {
  enc_dec a j : P a → enc g a = Ok j → dec g (zero g) j = Ok a;
  enc_wf a j : P a → enc g a = Ok j → wf d j = true
}.
Arguments enc_dec {A g P d} _ {a j} _ _.
Arguments enc_wf {A g P d} _ {a j} _ _.

Definition type_error : error := Errorf "json: cannot unmarshal".

Definition all_digits : string → bool := all_chars is_digit.

(** [strconv.ParseUint(lit, 10, bits)] *)
Definition parse_uint (bits : Z) (lit : string) : option Z :=
  if all_digits lit then
    z ← Atoi lit; if z <? 2 ^ bits then Some z else None
  else None.

Definition go_uint (bits : Z) : gotype Z := {|
  zero := 0;
  enc z := Ok (JNum (Itoa z));
  dec a j :=
    match j with
    | JNull => Ok a
    | JNum lit => match parse_uint bits lit with Some z => Ok z | None => Error type_error end
    | _ => Error type_error
    end
|}.

Definition go_int : gotype Z := {|
  zero := 0;
  enc z := Ok (JNum (Itoa z));
  dec a j :=
    match j with
    | JNull => Ok a
    | JNum lit =>
        let digits := match lit with
                      | String c s => if code c =? 45 then s else lit
                      | EmptyString => lit
                      end in
        match (if all_digits digits then Atoi lit else None) with
        | Some z => if (- 2 ^ 63 <=? z) && (z <? 2 ^ 63) then Ok z else Error type_error
        | None => Error type_error
        end
    | _ => Error type_error
    end
|}.

Definition go_string : gotype string := {|
  zero := "";
  enc s := Ok (JStr s);
  dec a j := match j with JNull => Ok a | JStr s => Ok s | _ => Error type_error end
|}.

Definition go_float : gotype float64 := {|
  zero := Float64.zero;
  enc f := lit ← json_float f; Ok (JNum lit);
  dec a j :=
    match j with
    | JNull => Ok a
    | JNum lit => match ParseFloat lit with Ok f => Ok f | Error _ => Error type_error end
    | _ => Error type_error
    end
|}.

(** A byte slice is a base64 string; an array of numbers is read as well. *)
Definition go_bytes : gotype (option bytes) := {|
  zero := None;
  enc b := Ok (match b with None => JNull | Some b => JStr (Base64.EncodeToString b) end);
  dec a j :=
    match j with
    | JNull => Ok None
    | JStr s => b ← Base64.DecodeString s; Ok (Some b)
    | JArr l => zs ← result_map (dec (go_uint 8) 0) l; Ok (Some (of_bytes zs))
    | _ => Error type_error
    end
|}.

(** A [*big.Int]: null is the nil pointer, otherwise a decimal integer. *)
Definition go_big : gotype (option Z) := {|
  zero := None;
  enc z := Ok (match z with None => JNull | Some z => JNum (Itoa z) end);
  dec a j :=
    match j with
    | JNull => Ok None
    | JNum lit =>
        let digits := match lit with
                      | String c s => if code c =? 45 then s else lit
                      | EmptyString => lit
                      end in
        match (if all_digits digits then Atoi lit else None) with
        | Some z => Ok (Some z)
        | None => Error type_error
        end
    | _ => Error type_error
    end
|}.

Definition go_slice {A} (g : gotype A) : gotype (slice A) := {|
  zero := None;
  enc s := match s with
           | None => Ok JNull
           | Some l => js ← result_map (enc g) l; Ok (JArr js)
           end;
  dec a j :=
    match j with
    | JNull => Ok None
    | JArr l => xs ← result_map (dec g (zero g)) l; Ok (Some xs)
    | _ => Error type_error
    end
|}.

(** Map keys are written in order. *)
Definition sorted_entries {A} (m : gmap string A) : list (string * A) :=
  merge_sort (λ x y, String.le x.1 y.1) (map_to_list m).

Definition go_map {A} (g : gotype A) : gotype (gomap A) := {|
  zero := None;
  enc m := match m with
           | None => Ok JNull
           | Some m =>
               js ← result_map (λ kv, j ← enc g kv.2; Ok (kv.1, j)) (sorted_entries m);
               Ok (JObj js)
           end;
  dec m j :=
    match j with
    | JNull => Ok None
    | JObj l =>
        kvs ← result_map (λ kj, v ← dec g (zero g) kj.2; Ok (kj.1, v)) l;
        Ok (Some (foldl (λ m kv, <[kv.1 := kv.2]> m) (entries m) kvs))
    | _ => Error type_error
    end
|}.

(** *** Structures: fields are found by name, without regard to case *)
Fixpoint fold_name (s : string) : string :=
  match s with
  | EmptyString => ""
  | String a s1 =>
      let default := String (if (65 <=? code a) && (code a <=? 90) then chr (code a + 32) else a)
                            (fold_name s1) in
      match s1 with
      | String b s2 =>
          (* U+017F folds to s and U+212A to k *)
          if (code a =? 197) && (code b =? 191) then String "s" (fold_name s2) else
          match s2 with
          | String c s3 =>
              if (code a =? 226) && (code b =? 132) && (code c =? 170)
              then String "k" (fold_name s3) else default
          | EmptyString => default
          end
      | EmptyString => default
      end
  end.

Definition field_is (name : string) (kj : string * json) : bool :=
  String.eqb (fold_name kj.1) (fold_name name).

(** Every occurrence of the field is stored, the last one remains. *)
Definition dec_field {A} (name : string) (g : gotype A) (a : A)
    (fields : list (string * json)) : result A :=
  foldl (λ acc kj, a ← acc; dec g a kj.2) (Ok a) (List.filter (field_is name) fields).

Definition enc_field {A} (name : string) (g : gotype A) (a : A) : result (string * json) :=
  j ← enc g a; Ok (name, j).

Definition enc_object (fields : list (result (string * json))) : result json :=
  l ← result_map (λ r, r) fields; Ok (JObj l).

(** ** interface{} values as the decoder makes them *)
Inductive any : Type :=
| ANil
| ABool (b : bool)
| AFloat (f : float64)
| AStr (s : string)
| AArr (l : list any)
| AMap (m : list (string * any)).  (* in the order of the keys *)

(** Storing a key in a map kept in order. *)
Fixpoint any_store {A} (k : string) (v : A) (m : list (string * A)) : list (string * A) :=
  match m with
  | [] => [(k, v)]
  | (k', v') :: m' =>
      match String.compare k k' with
      | Lt => (k, v) :: m
      | Eq => (k, v) :: m'
      | Gt => (k', v') :: any_store k v m'
      end
  end.

Definition any_lookup {A} (k : string) (m : list (string * A)) : option A :=
  snd <$> List.find (λ kv, String.eqb kv.1 k) m.

Fixpoint any_of_json (j : json) : result any :=
  match j with
  | JNull => Ok ANil
  | JBool b => Ok (ABool b)
  | JNum lit => match ParseFloat lit with Ok f => Ok (AFloat f) | Error _ => Error type_error end
  | JStr s => Ok (AStr s)
  | JArr l => xs ← result_map (λ r, r) (map any_of_json l); Ok (AArr xs)
  | JObj l =>
      kvs ← result_map (λ kr, v ← kr.2; Ok (kr.1, v))
              (map (λ kj, (kj.1, any_of_json kj.2)) l);
      Ok (AMap (foldl (λ m kv, any_store kv.1 kv.2 m) [] kvs))
  end.

Fixpoint any_to_json (a : any) : result json :=
  match a with
  | ANil => Ok JNull
  | ABool b => Ok (JBool b)
  | AFloat f => enc go_float f
  | AStr s => Ok (JStr s)
  | AArr l => js ← result_map (λ r, r) (map any_to_json l); Ok (JArr js)
  | AMap m =>
      kjs ← result_map (λ kr, j ← kr.2; Ok (kr.1, j))
              (map (λ kv, (kv.1, any_to_json kv.2)) m);
      Ok (JObj kjs)
  end.

Definition go_any : gotype any := {|
  zero := ANil;
  enc := any_to_json;
  dec _ := any_of_json
|}.

(** ** json.Marshal and json.Unmarshal *)
Definition Marshal {A} (g : gotype A) (a : A) : result bytes :=
  j ← enc g a; Ok (print j).

Definition Unmarshal {A} (g : gotype A) (a : A) (data : bytes) : result A :=
  j ← parse data; dec g a j.

(** Unmarshalling what was marshalled gives the value back. *)
Lemma Unmarshal_Marshal {A} (g : gotype A) P a b :
  lawful g P max_depth → P a → Marshal g a = Ok b → Unmarshal g (zero g) b = Ok a.
Proof.
  intros Hg Ha. unfold Marshal, Unmarshal. rewrite result_bind_ok.
  intros (j & Hj & [= <-]). rewrite parse_print_wf by by apply (enc_wf Hg Ha Hj).
  simpl. by apply (enc_dec Hg Ha Hj).
Qed.

(** ** Laws *)

Lemma Itoa_digits z : 0 ≤ z → all_digits (Itoa z) = true.
Proof.
  intros Hz. unfold all_digits, Itoa. destruct z as [|p|p]; [done| |lia]. simpl.
  destruct (to_uint_head p) as (c & s & Hs & Hc & _ & Hall).
  destruct (Pos.to_uint p); try done; cbn [NilZero.string_of_uint]; apply uint_digits.
Qed.

Lemma parse_uint_Itoa bits z : 0 ≤ z < 2 ^ bits → parse_uint bits (Itoa z) = Some z.
Proof.
  intros Hz. unfold parse_uint. rewrite Itoa_digits, Atoi_Itoa by lia.
  simpl. destruct (Z.ltb_spec z (2 ^ bits)); [done|lia].
Qed.

Lemma go_uint_lawful bits d : lawful (go_uint bits) (λ z, 0 ≤ z < 2 ^ bits) d.
Proof.
  split; intros z j Hz [= <-]; simpl; [|apply wf_Itoa].
  by rewrite parse_uint_Itoa.
Qed.

(** A signed literal: the digits after the sign are digits. *)
Lemma Itoa_signed z :
  all_digits (match Itoa z with
              | String c s => if code c =? 45 then s else Itoa z
              | EmptyString => Itoa z
              end) = true.
Proof.
  destruct z as [|p|p]; [done| |].
  - pose proof (Itoa_digits (Zpos p)). rewrite Itoa_pos in *.
    destruct (to_uint_head p) as (c & s & Hs & Hc & _). rewrite Hs in *.
    destruct (Z.eqb_spec (code c) 45) as [E|_]; [|auto with lia].
    unfold is_digit in Hc. lia.
  - rewrite Itoa_neg. simpl. by apply Itoa_digits.
Qed.

Lemma go_int_lawful d : lawful go_int is_i64 d.
Proof.
  split; intros z j Hz [= <-]; cbn [dec go_int wf]; [|apply wf_Itoa].
  rewrite Itoa_signed, Atoi_Itoa. unfold is_i64 in Hz.
  destruct (Z.leb_spec (- 2 ^ 63) z), (Z.ltb_spec z (2 ^ 63)); simpl; (lia || done).
Qed.

Lemma go_big_lawful d : lawful go_big (λ _, True) d.
Proof.
  split; intros [z|] j _ [= <-]; cbn [dec go_big wf]; [|done|apply wf_Itoa|done].
  by rewrite Itoa_signed, Atoi_Itoa.
Qed.

Lemma go_string_lawful d : lawful go_string (λ s, is_utf8 s = true) d.
Proof. by split; intros s j Hs [= <-]. Qed.

Lemma go_float_lawful d : lawful go_float float_ok d.
Proof.
  split; intros f j (lit & Hl & Hw & Hp)%json_float_reads; simpl; rewrite Hl; intros [= <-]; simpl; [|done].
  by rewrite Hp.
Qed.

Lemma result_map_dec {A} (g : gotype A) P d l js :
  lawful g P d → Forall P l → result_map (enc g) l = Ok js →
  result_map (dec g (zero g)) js = Ok l ∧ forallb (wf d) js = true.
Proof.
  intros Hg Hl. rewrite result_map_ok, result_map_ok. revert js.
  induction Hl as [|a l Ha Hl IH]; intros js Hjs; inversion Hjs; subst; simpl; [done|].
  destruct (IH _ ltac:(eassumption)) as [IHd IHw]. split.
  - constructor; [by eapply enc_dec|done].
  - rewrite IHw, (enc_wf Hg Ha); done.
Qed.

Lemma go_slice_lawful {A} (g : gotype A) P d :
  0 < d → lawful g P (d - 1) →
  lawful (go_slice g) (λ s, Forall P (elems s)) d.
Proof.
  intros Hd Hg. split; intros [l|] j Hl; simpl; try (by intros [= <-]);
    rewrite result_bind_ok; intros (js & Hjs & [= <-]);
    destruct (result_map_dec g P _ l js Hg Hl Hjs) as [Hdec Hwf]; simpl.
  - by rewrite Hdec.
  - rewrite Hwf. by destruct (Z.ltb_spec 0 d); [|lia].
Qed.

(** *** Byte slices *)
Lemma base64_char n :
  0 ≤ n < 64 →
  Base64.value (Base64.char n) = Some n ∧ Base64.is_pad (Base64.char n) = false ∧
  ((code (Base64.char n) =? 10) || (code (Base64.char n) =? 13)) = false ∧
  code (Base64.char n) < 128.
Proof.
  intros H. rewrite <-(Z2Nat.id n) by lia.
  assert (Hn : (Z.to_nat n < 64)%nat) by lia. clear H.
  revert Hn. generalize (Z.to_nat n). intros k Hk.
  do 64 (destruct k as [|k]; [by vm_compute|]). lia.
Qed.

Section sextets.
Context (n : Z) (t : string) (Hn : 0 ≤ n < 64).

Lemma value_char : Base64.value (Base64.char n) = Some n.
Proof. by apply base64_char. Qed.

Lemma pad_char : Base64.is_pad (Base64.char n) = false.
Proof. by apply base64_char. Qed.

Lemma strip_char :
  Base64.strip_newlines (String (Base64.char n) t)
    = String (Base64.char n) (Base64.strip_newlines t).
Proof. cbn [Base64.strip_newlines]. by rewrite (proj1 (proj2 (proj2 (base64_char n Hn)))). Qed.

Lemma utf8_char : is_utf8 (String (Base64.char n) t) = is_utf8 t.
Proof.
  cbn [is_utf8]. destruct (base64_char n Hn) as (_ & _ & _ & ?).
  by destruct (Z.ltb_spec (code (Base64.char n)) 128); [|lia].
Qed.
End sextets.

Lemma triples_ind (P : string → Prop) :
  P "" → (∀ a, P (String a "")) → (∀ a b, P (String a (String b ""))) →
  (∀ a b c s, P s → P (String a (String b (String c s)))) → ∀ s, P s.
Proof.
  intros H0 H1 H2 H3. fix IH 1. intros [|a [|b [|c s]]]; [done|done|done|]. apply H3, IH.
Qed.

Ltac euclid := Z.to_euclidean_division_equations; lia.

Ltac sextet := repeat match goal with
  | c : ascii |- _ => pose proof (code_range c); generalize dependent (code c); clear c; intros
  end; euclid.

Lemma strip_newlines_base64 s :
  Base64.strip_newlines (Base64.EncodeToString s) = Base64.EncodeToString s.
Proof.
  induction s as [|a|a b|a b c s IH] using triples_ind; [done|..];
    cbn [Base64.EncodeToString]; rewrite !strip_char by sextet; [done|done|].
  by rewrite IH.
Qed.

Lemma base64_utf8 s : is_utf8 (Base64.EncodeToString s) = true.
Proof.
  induction s as [|a|a b|a b c s IH] using triples_ind; [done|..];
    cbn [Base64.EncodeToString]; rewrite !utf8_char by sextet; done.
Qed.

Lemma hex_utf8 s : is_utf8 (Hex.EncodeToString s) = true.
Proof.
  pose proof (Hex.EncodeToString_lower s) as Hl. revert Hl. generalize (Hex.EncodeToString s).
  induction s0 as [|c t IH]; [done|]. cbn [Hex.all_lower is_utf8]. rewrite andb_true_iff.
  intros [Hc Ht]. unfold Hex.is_lower_digit in Hc.
  destruct (Z.ltb_spec (code c) 128); [by apply IH|lia].
Qed.

Lemma base64_roundtrip s : Base64.DecodeString (Base64.EncodeToString s) = Ok s.
Proof.
  unfold Base64.DecodeString. rewrite strip_newlines_base64.
  enough (Base64.quanta (Base64.EncodeToString s) = Some s) as -> by done.
  induction s as [|a|a b|a b c s IH] using triples_ind; [done|..];
    cbn [Base64.EncodeToString Base64.quanta];
    pose proof (code_range a); try pose proof (code_range b); try pose proof (code_range c).
  - rewrite !value_char by sextet. cbn [mbind option_bind].
    change (Base64.is_pad Base64.pad) with true. cbn [andb String.eqb].
    do 2 f_equal. apply code_inj. rewrite code_chr by euclid. euclid.
  - rewrite !value_char by sextet. cbn [mbind option_bind].
    rewrite pad_char by sextet. change (Base64.is_pad Base64.pad) with true.
    cbn [andb String.eqb]. f_equal.
    f_equal; [|f_equal]; apply code_inj; rewrite code_chr by euclid; euclid.
  - rewrite !value_char by sextet. cbn [mbind option_bind].
    rewrite !pad_char by sextet. cbn [andb]. rewrite IH. cbn [mbind option_bind]. f_equal.
    f_equal; [|f_equal; [|f_equal]]; apply code_inj; rewrite code_chr by euclid; euclid.
Qed.

Lemma go_bytes_lawful d : lawful go_bytes (λ _, True) d.
Proof.
  split; intros [b|] j _ [= <-]; cbn [dec go_bytes wf]; try done.
  - by rewrite base64_roundtrip.
  - apply base64_utf8.
Qed.

(** *** Maps *)
Lemma foldl_insert_perm {A} (l : list (string * A)) (m : gmap string A) :
  l ≡ₚ map_to_list m → foldl (λ m kv, <[kv.1 := kv.2]> m) ∅ l = m.
Proof.
  intros Hl.
  assert (∀ l' m0, foldl (λ m kv, <[kv.1 := kv.2]> m) m0 l' = list_to_map (reverse l') ∪ m0
    :> gmap string A) as Hfold.
  { clear. induction l' as [|[k v] l' IH]; intros m0; simpl.
    - by rewrite (left_id_L ∅ (∪)).
    - rewrite IH, reverse_cons, list_to_map_app.
      rewrite <-(assoc_L (∪)). f_equal. simpl. by rewrite <-insert_union_l, (left_id_L ∅ (∪)). }
  rewrite Hfold, (right_id_L ∅ (∪)), <-(list_to_map_to_list m).
  apply list_to_map_proper.
  - rewrite reverse_Permutation, Hl. apply NoDup_fst_map_to_list.
  - by rewrite reverse_Permutation.
Qed.

Lemma sorted_entries_perm {A} (m : gmap string A) : sorted_entries m ≡ₚ map_to_list m.
Proof. apply merge_sort_Permutation. Qed.

Definition entries_ok {A} (P : A → Prop) (m : gomap A) : Prop :=
  map_Forall (λ k v, is_utf8 k = true ∧ P v) (entries m).

Lemma result_map_entries {A} (g : gotype A) (P : A → Prop) d l js :
  lawful g P d → Forall (λ kv, is_utf8 kv.1 = true ∧ P kv.2) l →
  result_map (λ kv, j ← enc g kv.2; Ok (kv.1, j)) l = Ok js →
  result_map (λ kj, v ← dec g (zero g) kj.2; Ok (kj.1, v)) js = Ok l ∧
  forallb (λ kj, is_utf8 kj.1 && wf d kj.2) js = true.
Proof.
  intros Hg Hl. rewrite !result_map_ok. revert js.
  induction Hl as [|[k v] l [Hk Hv] Hl IH]; intros js Hjs; inversion Hjs as [|? kj ? ? Hj]; subst;
    simpl; [done|].
  apply result_bind_ok in Hj as (j & Hj & [= <-]).
  destruct (IH _ ltac:(eassumption)) as [IHd IHw]. simpl in *. split.
  - constructor; [|done]. simpl. by rewrite (enc_dec Hg Hv Hj).
  - by rewrite IHw, Hk, (enc_wf Hg Hv Hj).
Qed.

Lemma go_map_lawful {A} (g : gotype A) P d :
  0 < d → lawful g P (d - 1) → lawful (go_map g) (entries_ok P) d.
Proof.
  intros Hd Hg.
  assert (∀ (m : gmap string A) js, map_Forall (λ k v, is_utf8 k = true ∧ P v) m →
    result_map (λ kv, j ← enc g kv.2; Ok (kv.1, j)) (sorted_entries m) = Ok js →
    result_map (λ kj, v ← dec g (zero g) kj.2; Ok (kj.1, v)) js = Ok (sorted_entries m) ∧
    forallb (λ kj, is_utf8 kj.1 && wf (d - 1) kj.2) js = true) as Hm.
  { intros m js Hm Hjs. eapply result_map_entries; [done| |done].
    rewrite Forall_forall. intros [k v]. rewrite sorted_entries_perm, elem_of_map_to_list.
    intros Hkv. by apply Hm in Hkv. }
  split; intros [m|] j Hok; simpl; try (by intros [= <-]);
    rewrite result_bind_ok; intros (js & Hjs & [= <-]); destruct (Hm m js Hok Hjs) as [Hdec Hwf];
    simpl.
  - rewrite Hdec. simpl. by rewrite (foldl_insert_perm _ m) by apply sorted_entries_perm.
  - rewrite Hwf. by destruct (Z.ltb_spec 0 d); [|lia].
Qed.

(** *** Scalar interface{} values *)
Definition scalar_ok (a : any) : Prop :=
  match a with
  | ANil | ABool _ => True
  | AFloat f => float_ok f
  | AStr s => is_utf8 s = true
  | AArr _ | AMap _ => False
  end.

Lemma go_any_lawful d : lawful go_any scalar_ok d.
Proof.
  split; intros [|b|f|s|l|m] j; try done; cbn [enc go_any any_to_json scalar_ok];
    try (intros H; by intros [= <-]).
  - intros Hf Hj. pose proof (enc_dec (go_float_lawful d) Hf Hj) as Hd.
    apply json_float_reads in Hf as (lit & Hl & _). simpl in Hj. rewrite Hl in Hj. injection Hj as <-.
    simpl in *. by destruct (ParseFloat lit) as [g|]; [injection Hd as ->|].
  - intros Hf Hj. by apply (enc_wf (go_float_lawful d) Hf Hj).
Qed.

(** *** Structures *)
Section fields.
Context {A : Type} (name : string) (g : gotype A).

Lemma dec_field_nil a : dec_field name g a [] = Ok a.
Proof. reflexivity. Qed.

Lemma dec_field_miss a k j rest :
  String.eqb (fold_name k) (fold_name name) = false →
  dec_field name g a ((k, j) :: rest) = dec_field name g a rest.
Proof. intros H. unfold dec_field, field_is. simpl. by rewrite H. Qed.

Lemma dec_field_hit a k j rest :
  String.eqb (fold_name k) (fold_name name) = true →
  dec_field name g a ((k, j) :: rest) = a' ← dec g a j; dec_field name g a' rest.
Proof.
  intros H. unfold dec_field at 1, field_is. simpl. rewrite H. simpl.
  destruct (dec g a j) as [a'|e]; [reflexivity|]. simpl.
  induction (List.filter _ rest); simpl; done.
Qed.
End fields.

(** Read the fields of an object with known keys one by one. *)
Ltac read_fields :=
  repeat first [rewrite dec_field_miss by reflexivity | rewrite dec_field_hit by reflexivity
               | rewrite dec_field_nil].

(** Take an encoding that succeeded apart. *)
Ltac encoded :=
  repeat match goal with
  | H : (_ ≫= _) = Ok _ |- _ => apply result_bind_ok in H as (? & ? & ?)
  | H : Ok _ = Ok _ |- _ => injection H as H; subst
  end.
