(* ===== verification/Jobs.v ===== *)
(** * ocr/jobs/: jobs, their observation pipeline and their reports

    [job.go], [direct_req.go], [report_assembler.go] and
    [job_observation.go].  The only implementation of the [Job] interface is
    [DirectRequest], so a job is one.  The network ([http.Get]) is a
    parameter. *)

From Stdlib Require Import Ascii.
From S2P Require Import Prelude Bytes Crypto Strconv Json GoJson.

(** ** Data *)
Definition JobType : Type := string.
Definition DirectReqJob : JobType := "directrequest".
Definition CcipJob : JobType := "ccip".

Record DirectReqReportGenParms := {
  Strategy : string;
  ResultType : string;
  Schema : string
}.

Record DirectReqTask := {
  task_Name : string;
  task_Type : string;
  task_Method : string;
  task_URL : string;
  task_Input : string;
  task_Path : string;
  task_Factor : float64
}.

Record DirectRequestTemplateParams := {
  ContractAddress : Address.t;
  EvmChainID : Z;
  ChainID : string;
  ExternalJobID : string;
  SchemaVersion : Z;
  params_Name : string;
  ObservationSource : slice DirectReqTask;
  ReportingStrategy : DirectReqReportGenParms
}.

(** [MeanValueAssembler]: the job it points to is read for its type and
    parameters, which never change. *)
Record MeanValueAssembler := {
  mva_type : JobType;
  mva_params : DirectRequestTemplateParams
}.

(** The mutex protects [Results] inside one operation at a time and is always
    released, so it is left out; [ReportAssembler] is the embedded interface,
    nil until [Run] has set it. *)
Record DirectRequest := {
  dr_JobID : string;
  dr_JobType : JobType;
  dr_params : DirectRequestTemplateParams;
  dr_Results : gmap string any;
  dr_timeout : Z;
  dr_ReportAssembler : option MeanValueAssembler
}.

Definition set_Results (r : gmap string any) (dr : DirectRequest) : DirectRequest := {|
  dr_JobID := dr_JobID dr; dr_JobType := dr_JobType dr; dr_params := dr_params dr;
  dr_Results := r; dr_timeout := dr_timeout dr; dr_ReportAssembler := dr_ReportAssembler dr |}.

Definition set_ReportAssembler (a : MeanValueAssembler) (dr : DirectRequest) : DirectRequest := {|
  dr_JobID := dr_JobID dr; dr_JobType := dr_JobType dr; dr_params := dr_params dr;
  dr_Results := dr_Results dr; dr_timeout := dr_timeout dr; dr_ReportAssembler := Some a |}.

Abbreviation Job := DirectRequest.

(** The template of a job is its parameters on the node that schedules it and
    whatever JSON gave on the node that receives it. *)
Inductive template : Type :=
| TParams (p : DirectRequestTemplateParams)
| TAny (a : any).

Record JobInfo := {
  info_JobID : string;
  info_JobType : JobType;
  info_Template : template;
  info_Timeout : Z  (* nanoseconds *)
}.

Record JobObservationResponse := {
  obs_JobId : string;
  obs_Response : option bytes
}.

Record DirectReqEventRes := {
  dre_id : string;
  dre_event : string;
  dre_result : option bytes
}.

Definition NewDirectReq (params : DirectRequestTemplateParams) : DirectRequest := {|
  dr_JobID := ExternalJobID params; dr_JobType := DirectReqJob; dr_params := params;
  dr_Results := ∅; dr_timeout := 0; dr_ReportAssembler := None |}.

(** [time.Duration(dr.timeout)] *)
Definition TaskTimeout (dr : DirectRequest) : Z := i64 (dr_timeout dr).

(** ** JSON forms *)
Definition go_address : gotype Address.t := {|
  zero := of_bytes (replicate 20 0);
  enc a := Ok (JStr (Address.MarshalText a));
  dec a j :=
    match j with
    | JNull => Ok a
    | JStr s => Address.UnmarshalText s
    | _ => Error type_error
    end
|}.

Definition go_report_params : gotype DirectReqReportGenParms := {|
  zero := {| Strategy := ""; ResultType := ""; Schema := "" |};
  enc p := enc_object [enc_field "Strategy" go_string (Strategy p);
                       enc_field "ResultType" go_string (ResultType p);
                       enc_field "Schema" go_string (Schema p)];
  dec p j :=
    match j with
    | JNull => Ok p
    | JObj fs =>
        s ← dec_field "Strategy" go_string (Strategy p) fs;
        r ← dec_field "ResultType" go_string (ResultType p) fs;
        c ← dec_field "Schema" go_string (Schema p) fs;
        Ok {| Strategy := s; ResultType := r; Schema := c |}
    | _ => Error type_error
    end
|}.

Definition go_task : gotype DirectReqTask := {|
  zero := {| task_Name := ""; task_Type := ""; task_Method := ""; task_URL := "";
             task_Input := ""; task_Path := ""; task_Factor := Float64.zero |};
  enc t := enc_object [enc_field "Name" go_string (task_Name t);
                       enc_field "Type" go_string (task_Type t);
                       enc_field "Method" go_string (task_Method t);
                       enc_field "URL" go_string (task_URL t);
                       enc_field "Input" go_string (task_Input t);
                       enc_field "Path" go_string (task_Path t);
                       enc_field "Factor" go_float (task_Factor t)];
  dec t j :=
    match j with
    | JNull => Ok t
    | JObj fs =>
        n ← dec_field "Name" go_string (task_Name t) fs;
        ty ← dec_field "Type" go_string (task_Type t) fs;
        m ← dec_field "Method" go_string (task_Method t) fs;
        u ← dec_field "URL" go_string (task_URL t) fs;
        i ← dec_field "Input" go_string (task_Input t) fs;
        p ← dec_field "Path" go_string (task_Path t) fs;
        f ← dec_field "Factor" go_float (task_Factor t) fs;
        Ok {| task_Name := n; task_Type := ty; task_Method := m; task_URL := u;
              task_Input := i; task_Path := p; task_Factor := f |}
    | _ => Error type_error
    end
|}.

Definition go_params : gotype DirectRequestTemplateParams := {|
  zero := {| ContractAddress := zero go_address; EvmChainID := 0; ChainID := "";
             ExternalJobID := ""; SchemaVersion := 0; params_Name := "";
             ObservationSource := None; ReportingStrategy := zero go_report_params |};
  enc p := enc_object [enc_field "ContractAddress" go_address (ContractAddress p);
                       enc_field "EvmChainID" (go_uint 64) (EvmChainID p);
                       enc_field "ChainID" go_string (ChainID p);
                       enc_field "ExternalJobID" go_string (ExternalJobID p);
                       enc_field "SchemaVersion" (go_uint 64) (SchemaVersion p);
                       enc_field "Name" go_string (params_Name p);
                       enc_field "ObservationSource" (go_slice go_task) (ObservationSource p);
                       enc_field "ReportingStrategy" go_report_params (ReportingStrategy p)];
  dec p j :=
    match j with
    | JNull => Ok p
    | JObj fs =>
        a ← dec_field "ContractAddress" go_address (ContractAddress p) fs;
        e ← dec_field "EvmChainID" (go_uint 64) (EvmChainID p) fs;
        c ← dec_field "ChainID" go_string (ChainID p) fs;
        x ← dec_field "ExternalJobID" go_string (ExternalJobID p) fs;
        v ← dec_field "SchemaVersion" (go_uint 64) (SchemaVersion p) fs;
        n ← dec_field "Name" go_string (params_Name p) fs;
        o ← dec_field "ObservationSource" (go_slice go_task) (ObservationSource p) fs;
        r ← dec_field "ReportingStrategy" go_report_params (ReportingStrategy p) fs;
        Ok {| ContractAddress := a; EvmChainID := e; ChainID := c; ExternalJobID := x;
              SchemaVersion := v; params_Name := n; ObservationSource := o;
              ReportingStrategy := r |}
    | _ => Error type_error
    end
|}.

Definition go_template : gotype template := {|
  zero := TAny ANil;
  enc t := match t with TParams p => enc go_params p | TAny a => enc go_any a end;
  dec _ j := a ← any_of_json j; Ok (TAny a)
|}.

Definition go_jobinfo : gotype JobInfo := {|
  zero := {| info_JobID := ""; info_JobType := ""; info_Template := zero go_template;
             info_Timeout := 0 |};
  enc i := enc_object [enc_field "JobID" go_string (info_JobID i);
                       enc_field "JobType" go_string (info_JobType i);
                       enc_field "Template" go_template (info_Template i);
                       enc_field "Timeout" go_int (info_Timeout i)];
  dec i j :=
    match j with
    | JNull => Ok i
    | JObj fs =>
        d ← dec_field "JobID" go_string (info_JobID i) fs;
        t ← dec_field "JobType" go_string (info_JobType i) fs;
        p ← dec_field "Template" go_template (info_Template i) fs;
        o ← dec_field "Timeout" go_int (info_Timeout i) fs;
        Ok {| info_JobID := d; info_JobType := t; info_Template := p; info_Timeout := o |}
    | _ => Error type_error
    end
|}.

Definition go_observation : gotype JobObservationResponse := {|
  zero := {| obs_JobId := ""; obs_Response := None |};
  enc o := enc_object [enc_field "job_id" go_string (obs_JobId o);
                       enc_field "response" go_bytes (obs_Response o)];
  dec o j :=
    match j with
    | JNull => Ok o
    | JObj fs =>
        d ← dec_field "job_id" go_string (obs_JobId o) fs;
        r ← dec_field "response" go_bytes (obs_Response o) fs;
        Ok {| obs_JobId := d; obs_Response := r |}
    | _ => Error type_error
    end
|}.

(** ** job.go *)
Definition NewJobFromInfo (info : JobInfo) : result Job :=
  if String.eqb (info_JobType info) DirectReqJob then
    templateBytes ← wrap "failed to marshal template" (Marshal go_template (info_Template info));
    params ← wrap "failed to parse job template"
      (Unmarshal go_params (zero go_params) templateBytes);
    Ok {| dr_JobID := info_JobID info; dr_JobType := DirectReqJob; dr_params := params;
          dr_Results := ∅; dr_timeout := u64 (info_Timeout info);
          dr_ReportAssembler := None |}
  else if String.eqb (info_JobType info) CcipJob then
    Error (Errorf "CCIP job implementation not provided yet")
  else Error (Errorf "unknown job type").

(** ** report_assembler.go *)
Definition NewReportAssembler (strategy : string) (job : Job) : result MeanValueAssembler :=
  if String.eqb strategy "mean"
  then Ok {| mva_type := dr_JobType job; mva_params := dr_params job |}
  else Error (Errorf "unsupported strategy").

(** The loop over the observations: the sum and the count. *)
Fixpoint mean_loop (obs : list JobObservationResponse) (sum : float64) (count : Z)
    : result (float64 * Z) :=
  match obs with
  | [] => Ok (sum, count)
  | res :: obs =>
      val ← wrap "failed to parse response as float64"
        (Unmarshal go_float Float64.zero (default "" (obs_Response res)));
      mean_loop obs (Float64.add sum val) (count + 1)
  end.

Definition MeanValueAssembler_Assemble (mva : MeanValueAssembler)
    (obs : list JobObservationResponse) : result any :=
  if String.eqb (mva_type mva) DirectReqJob then
    if negb (String.eqb (ResultType (ReportingStrategy (mva_params mva))) "numeric")
    then Error (Errorf "mean can't be calculated on non-numeric data types")
    else
      '(sum, count) ← mean_loop obs Float64.zero 0;
      if count =? 0 then Error (Errorf "no valid numeric observations")
      else Ok (AFloat (Float64.div sum (Float64.of_Z count)))
  else Error (Errorf "unsupported job type").

(** The promoted method: calling it through the nil interface panics. *)
Definition Assemble (dr : Job) (obs : list JobObservationResponse) : outcome (result any) :=
  match dr_ReportAssembler dr with
  | None => Panicked "nil pointer dereference"
  | Some mva => Done (MeanValueAssembler_Assemble mva obs)
  end.

(** ** direct_req.go *)

(** [fmt.Sprintf("%v", v)] *)
Fixpoint words (l : list string) : string :=
  match l with
  | [] => ""
  | [x] => x
  | x :: l => x +:+ " " +:+ words l
  end.

Fixpoint Sprint (a : any) : string :=
  match a with
  | ANil => "<nil>"
  | ABool b => if b then "true" else "false"
  | AFloat f => Sprint_float f
  | AStr s => s
  | AArr l => "[" +:+ words (map Sprint l) +:+ "]"
  | AMap m => "map[" +:+ words (map (λ kv, kv.1 +:+ ":" +:+ Sprint kv.2) m) +:+ "]"
  end.

Section direct_request.
(** The body that a GET of the URL yields. *)
Variable http_get : string → result bytes.

(** The new value that a task stores under its name, if it stores one. *)
Definition task_value (results : gmap string any) (task : DirectReqTask)
    : result (option any) :=
  if String.eqb (task_Type task) "http" then
    body ← http_get (task_URL task); Ok (Some (AStr body))
  else if String.eqb (task_Type task) "json" then
    match results !! task_Input task with
    | Some (AStr input) =>
        parsed ← Unmarshal (go_map go_any) None input;
        match entries parsed !! task_Path task with
        | Some value => Ok (Some value)
        | None => Error (Errorf "key not found in JSON")
        end
    | _ => Error (Errorf "invalid input for JSON parsing")
    end
  else if String.eqb (task_Type task) "math" then
    match results !! task_Input task with
    | Some (AFloat input) => Ok (Some (AFloat (Float64.mul input (task_Factor task))))
    | Some (AStr str) =>
        num ← wrap "failed to convert input to float" (ParseFloat str);
        Ok (Some (AFloat (Float64.mul num (task_Factor task))))
    | _ => Error (Errorf "invalid input for math operation")
    end
  else if String.eqb (task_Type task) "log" then Ok None
  else Error (Errorf "unknown task type").

Definition Execute (task : DirectReqTask) : proc DirectRequest (option error) :=
  dr ← get;
  match task_value (dr_Results dr) task with
  | Error e => mret (Some e)
  | Ok None => mret None
  | Ok (Some v) =>
      modify (set_Results (<[task_Name task := v]> (dr_Results dr)));; mret None
  end.

(** The loop over the tasks; [done i] tells whether the context is done when
    the [i]-th task is about to start. *)
Fixpoint run_tasks (done : nat → bool) (i : nat) (tasks : list DirectReqTask)
    : proc DirectRequest (option error) :=
  match tasks with
  | [] => mret None
  | task :: tasks =>
      if done i then mret (Some (Errorf "execution cancelled")) else
      err ← Execute task;
      match err with
      | Some e => mret (Some (Wrapf "error executing task" e))
      | None => run_tasks done (S i) tasks
      end
  end.

Definition Run (done : nat → bool) : proc DirectRequest (option error) :=
  dr ← get;
  err ← run_tasks done 0 (elems (ObservationSource (dr_params dr)));
  match err with
  | Some e => mret (Some e)
  | None =>
      match NewReportAssembler (Strategy (ReportingStrategy (dr_params dr))) dr with
      | Error e => mret (Some e)
      | Ok a => modify (set_ReportAssembler a);; mret None
      end
  end.

(** The value of the last task; there must be one. *)
Definition Result (dr : DirectRequest) : outcome (result bytes) :=
  match last (elems (ObservationSource (dr_params dr))) with
  | None => Panicked "index out of range [-1]"
  | Some finalTask =>
      Done match dr_Results dr !! task_Name finalTask with
           | None => Error (Errorf "task not found in results")
           | Some result => Ok (Sprint result)
           end
  end.

(** The event a listener puts on its channel. *)
Definition Listen (dr : DirectRequest) : outcome DirectReqEventRes :=
  res ← Result dr;
  Done {| dre_id := dr_JobID dr; dre_event := "dummy_event";
          dre_result := match res with Ok b => Some b | Error _ => None end |}.

(** A context made by [context.WithTimeout] is done from the start when the
    timeout is not positive; [late] tells when a positive one runs out. *)
Definition ctx_done (timeout : Z) (late : nat → bool) (i : nat) : bool :=
  (timeout <=? 0) || late i.
End direct_request.

(** ** Correctness of the pipeline *)

(** What a task gives, by its type: the body that a GET yields, a member of the
    JSON object that an earlier task has read, or a number of an earlier task,
    as it is or written out, times a factor; a log gives nothing. *)
Inductive yields (http_get : string → result bytes) (r : gmap string any) (task : DirectReqTask) :
    option any → Prop :=
| yields_http body :
    task_Type task = "http" → http_get (task_URL task) = Ok body →
    yields http_get r task (Some (AStr body))
| yields_member input obj v :
    task_Type task = "json" → r !! task_Input task = Some (AStr input) →
    Unmarshal (go_map go_any) None input = Ok obj → entries obj !! task_Path task = Some v →
    yields http_get r task (Some v)
| yields_scaled x :
    task_Type task = "math" → r !! task_Input task = Some (AFloat x) →
    yields http_get r task (Some (AFloat (Float64.mul x (task_Factor task))))
| yields_text_scaled text x :
    task_Type task = "math" → r !! task_Input task = Some (AStr text) → ParseFloat text = Ok x →
    yields http_get r task (Some (AFloat (Float64.mul x (task_Factor task))))
| yields_log : task_Type task = "log" → yields http_get r task None.

(** What running a list of tasks means: each task that gives a value adds it
    under its own name to the results the next one reads. *)
Inductive pipeline (http_get : string → result bytes) :
    gmap string any → list DirectReqTask → gmap string any → Prop :=
| pipeline_nil r : pipeline http_get r [] r
| pipeline_store r task v tasks r' :
    yields http_get r task (Some v) →
    pipeline http_get (<[task_Name task := v]> r) tasks r' →
    pipeline http_get r (task :: tasks) r'
| pipeline_skip r task tasks r' :
    yields http_get r task None →
    pipeline http_get r tasks r' →
    pipeline http_get r (task :: tasks) r'.

Section pipeline.
Context (http_get : string → result bytes).

Lemma yields_value r task o : yields http_get r task o ↔ task_value http_get r task = Ok o.
Proof.
  split.
  - unfold task_value.
    intros [body Ht Hb|input obj v Ht Hi Hu Hv|x Ht Hi|text x Ht Hi Hx|Ht]; rewrite Ht; cbn [String.eqb].
    + vm_compute (String.eqb "http" "http"). by rewrite Hb.
    + by rewrite Hi, Hu; cbn; rewrite Hv.
    + by rewrite Hi.
    + by rewrite Hi, Hx.
    + done.
  - unfold task_value. destruct (String.eqb_spec (task_Type task) "http") as [Ht|_].
    { destruct (http_get _) as [body|] eqn:Hb; [|done]. intros [= <-]. by apply yields_http. }
    destruct (String.eqb_spec (task_Type task) "json") as [Ht|_].
    { destruct (r !! task_Input task) as [[]|] eqn:Hi; try done.
      destruct (Unmarshal _ _ _) as [obj|] eqn:Hu; [|done]. cbn [mbind result_bind].
      destruct (entries obj !! task_Path task) as [v|] eqn:Hv; [|done]. intros [= <-].
      by eapply yields_member. }
    destruct (String.eqb_spec (task_Type task) "math") as [Ht|_].
    { destruct (r !! task_Input task) as [[]|] eqn:Hi; try done.
      - intros [= <-]. by apply yields_scaled.
      - destruct (ParseFloat _) as [x|] eqn:Hx; [|done]. intros [= <-].
        by eapply yields_text_scaled. }
    destruct (String.eqb_spec (task_Type task) "log") as [Ht|_]; [|done].
    intros [= <-]. by apply yields_log.
Qed.

Lemma set_Results_id dr : set_Results (dr_Results dr) dr = dr.
Proof. by destruct dr. Qed.

Lemma Execute_eq task dr :
  Execute http_get task dr =
  match task_value http_get (dr_Results dr) task with
  | Error e => (Done (Some e), dr)
  | Ok None => (Done None, dr)
  | Ok (Some v) => (Done None, set_Results (<[task_Name task := v]> (dr_Results dr)) dr)
  end.
Proof.
  unfold Execute. proc_simpl. by destruct (task_value http_get (dr_Results dr) task) as [[v|]|e].
Qed.

Lemma run_tasks_cons done i task tasks dr :
  run_tasks http_get done i (task :: tasks) dr =
  if done i then (Done (Some (Errorf "execution cancelled")), dr) else
  match task_value http_get (dr_Results dr) task with
  | Error e => (Done (Some (Wrapf "error executing task" e)), dr)
  | Ok None => run_tasks http_get done (S i) tasks dr
  | Ok (Some v) =>
      run_tasks http_get done (S i) tasks (set_Results (<[task_Name task := v]> (dr_Results dr)) dr)
  end.
Proof.
  cbn [run_tasks]. destruct (done i); [done|]. unfold mbind at 1, proc_bind.
  rewrite Execute_eq. by destruct (task_value http_get (dr_Results dr) task) as [[v|]|e].
Qed.

Lemma run_tasks_pipeline done tasks : ∀ i dr dr',
  run_tasks http_get done i tasks dr = (Done None, dr') ↔
  (∀ k, (k < length tasks)%nat → done (i + k)%nat = false) ∧
  ∃ r, pipeline http_get (dr_Results dr) tasks r ∧ dr' = set_Results r dr.
Proof.
  induction tasks as [|task tasks IH]; intros i dr dr'.
  { cbn. split.
    - intros [= <-]. split; [lia|]. exists (dr_Results dr). split; [constructor|].
      by rewrite set_Results_id.
    - intros (_ & r & Hr & ->). inversion Hr; subst. by rewrite set_Results_id. }
  assert ((∀ k, (k < length (task :: tasks))%nat → done (i + k)%nat = false) ↔
    done i = false ∧ ∀ k, (k < length tasks)%nat → done (S i + k)%nat = false) as ->.
  { split.
    - intros Hk. split; [specialize (Hk O); rewrite Nat.add_0_r in Hk; apply Hk; cbn; lia|].
      intros k Hl. replace (S i + k)%nat with (i + S k)%nat by lia. apply Hk. cbn. lia.
    - intros [H0 Hk] [|k] Hl; [by rewrite Nat.add_0_r|].
      replace (i + S k)%nat with (S i + k)%nat by lia. apply Hk. cbn in Hl. lia. }
  rewrite run_tasks_cons. destruct (done i) eqn:Hd; [by split; [|intros [[? _] _]]|].
  destruct (task_value http_get (dr_Results dr) task) as [[v|]|e] eqn:Hv.
  - rewrite IH. split; [intros (Hk & r & Hr & ->)|intros ([_ Hk] & r & Hr & ->)].
    + split; [done|]. exists r. split; [|done]. apply yields_value in Hv. by eapply pipeline_store.
    + split; [done|]. exists r. split; [|done].
      inversion Hr as [|? ? v' ? ? Hv' Hp|? ? ? ? Hv' Hp]; subst; apply yields_value in Hv'; [|congruence].
      rewrite Hv in Hv'. by injection Hv' as <-.
  - rewrite IH. split; [intros (Hk & r & Hr & ->)|intros ([_ Hk] & r & Hr & ->)].
    + split; [done|]. exists r. split; [|done]. apply yields_value in Hv. by apply pipeline_skip.
    + split; [done|]. exists r. split; [|done].
      inversion Hr as [|? ? v' ? ? Hv' Hp|? ? ? ? Hv' Hp]; subst; apply yields_value in Hv'; [congruence|done].
  - split; [done|]. intros (_ & r & Hr & _).
    inversion Hr as [|? ? v' ? ? Hv' Hp|? ? ? ? Hv' Hp]; subst; apply yields_value in Hv'; congruence.
Qed.

Lemma Run_eq done dr :
  Run http_get done dr =
  match run_tasks http_get done 0 (elems (ObservationSource (dr_params dr))) dr with
  | (Done None, dr') =>
      match NewReportAssembler (Strategy (ReportingStrategy (dr_params dr))) dr with
      | Error e => (Done (Some e), dr')
      | Ok a => (Done None, set_ReportAssembler a dr')
      end
  | res => res
  end.
Proof.
  unfold Run. proc_simpl.
  destruct (run_tasks http_get done 0 _ dr) as [[[e|]|w|w] dr']; [done| |done|done].
  by destruct (NewReportAssembler _ dr).
Qed.

(** A context that is done at the start lets nothing run. *)
Lemma Run_expired done dr :
  done 0%nat = true → elems (ObservationSource (dr_params dr)) ≠ [] →
  Run http_get done dr = (Done (Some (Errorf "execution cancelled")), dr).
Proof.
  intros Hd Hs. rewrite Run_eq.
  destruct (elems (ObservationSource (dr_params dr))) as [|task tasks]; [done|].
  by rewrite run_tasks_cons, Hd.
Qed.
End pipeline.


(** A job file, as the TOML reader would give it. *)
Definition price_task : DirectReqTask :=
  {| task_Name := "fetch"; task_Type := "http"; task_Method := "GET";
     task_URL := "http://price"; task_Input := ""; task_Path := ""; task_Factor := Float64.zero |}.
Definition cents_task : DirectReqTask :=
  {| task_Name := "cents"; task_Type := "math"; task_Method := ""; task_URL := "";
     task_Input := "fetch"; task_Path := ""; task_Factor := Float64.of_Z 100 |}.
Definition price_params : DirectRequestTemplateParams :=
  {| ContractAddress := zero go_address; EvmChainID := 1; ChainID := "1"; ExternalJobID := "job-1";
     SchemaVersion := 1; params_Name := "price"; ObservationSource := Some [price_task; cents_task];
     ReportingStrategy := {| Strategy := "mean"; ResultType := "numeric"; Schema := "" |} |}.
Definition price_get (url : string) : result bytes :=
  if String.eqb url "http://price" then Ok "2.5" else Error (Errorf "no such host").

Example price_job_result :
  (Result <$> Some (Run price_get (λ _, false) (NewDirectReq price_params)).2) =
  Some (Done (Ok "250")).
Proof. vm_compute. reflexivity. Qed.

(** ** Reports *)

(** The numbers in the responses. *)
Definition responses (obs : list JobObservationResponse) : result (list float64) :=
  result_map (λ o, wrap "failed to parse response as float64"
    (Unmarshal go_float Float64.zero (default "" (obs_Response o)))) obs.

Lemma mean_loop_eq obs : ∀ sum count,
  mean_loop obs sum count =
  vs ← responses obs; Ok (foldl Float64.add sum vs, count + Z.of_nat (length vs)).
Proof.
  unfold responses. induction obs as [|o obs IH]; intros sum count; cbn [mean_loop result_map].
  - cbn. by rewrite Z.add_0_r.
  - destruct (wrap _ _) as [v|e]; [|done]. cbn [mbind result_bind]. rewrite IH.
    destruct (result_map _ obs) as [vs|e]; [|done]. cbn. do 2 f_equal. lia.
Qed.

(** The report of a numeric job is the mean of the observations, summed in
    the order of the list; one that is not a number, an empty list and a job
    that is not numeric are errors. *)
Theorem Assemble_mean mva obs :
  mva_type mva = DirectReqJob →
  MeanValueAssembler_Assemble mva obs =
  if String.eqb (ResultType (ReportingStrategy (mva_params mva))) "numeric" then
    match responses obs with
    | Error e => Error e
    | Ok [] => Error (Errorf "no valid numeric observations")
    | Ok vs => Ok (AFloat (Float64.div (foldl Float64.add Float64.zero vs)
                             (Float64.of_Z (Z.of_nat (length vs)))))
    end
  else Error (Errorf "mean can't be calculated on non-numeric data types").
Proof.
  intros Ht. unfold MeanValueAssembler_Assemble. rewrite Ht, String.eqb_refl, mean_loop_eq.
  destruct (String.eqb _ "numeric"); [|done]. simpl.
  destruct (responses obs) as [[|v vs]|e]; [done| |done]. cbn [mbind result_bind].
  by destruct (Z.eqb_spec (0 + Z.of_nat (length (v :: vs))) 0); [simpl in *; lia|].
Qed.

Definition price_assembler : MeanValueAssembler :=
  {| mva_type := DirectReqJob; mva_params := price_params |}.
Definition observed (s : string) : JobObservationResponse :=
  {| obs_JobId := "job-1"; obs_Response := Some s |}.

Lemma Assemble_mean_witness :
  MeanValueAssembler_Assemble price_assembler [observed "1"; observed "2.5"; observed "4"] =
  Ok (AFloat (Float64.div (Float64.of_Z 15) (Float64.of_Z 6))).
Proof. rewrite Assemble_mean; [vm_compute|]; reflexivity. Defined.

(** The mean depends on the order in which the observations come: the
    floating-point sum is not associative, so two followers with the same
    observations can report different values. *)
Theorem mean_depends_on_order :
  ∃ obs obs', obs ≡ₚ obs' ∧
    is_ok (MeanValueAssembler_Assemble price_assembler obs) = true ∧
    MeanValueAssembler_Assemble price_assembler obs ≠
    MeanValueAssembler_Assemble price_assembler obs'.
Proof.
  exists [observed "0.1"; observed "0.2"; observed "0.3"].
  exists [observed "0.3"; observed "0.2"; observed "0.1"].
  split; [apply (Permutation_rev [_; _; _])|]. split; [by vm_compute|].
  intros H. apply (f_equal (λ r, match r with Ok (AFloat f) => Sprint_float f | _ => "" end)) in H.
  vm_compute in H. discriminate.
Qed.

(** ** Results *)
Section outcome_of_a_run.
Context (http_get : string → result bytes).

(** A task other than a log always leaves a value under its name. *)
Lemma pipeline_last r tasks task r' :
  pipeline http_get r (tasks ++ [task]) r' → task_Type task ≠ "log" →
  is_Some (r' !! task_Name task).
Proof.
  intros Hp Hl. remember (tasks ++ [task]) as l eqn:El. revert tasks El.
  induction Hp as [r|r t v ts r' Hv Hp IH|r t ts r' Hv Hp IH]; intros tasks El.
  - by destruct tasks.
  - destruct tasks as [|t' tasks]; [|injection El as -> ->; by eapply IH].
    injection El as -> ->. inversion Hp; subst. rewrite lookup_insert_eq. by eexists.
  - destruct tasks as [|t' tasks]; [|injection El as -> ->; by eapply IH].
    injection El as -> ->. by inversion Hv.
Qed.
End outcome_of_a_run.

(** After a successful run the result of the job is there: it is the printed
    value that the last task stored, provided that the source is not empty and
    does not end with a log task. *)
Theorem Result_after_Run http_get done dr dr' tasks task :
  Run http_get done dr = (Done None, dr') →
  elems (ObservationSource (dr_params dr)) = tasks ++ [task] → task_Type task ≠ "log" →
  ∃ v, dr_Results dr' !! task_Name task = Some v ∧ Result dr' = Done (Ok (Sprint v)).
Proof.
  intros Hrun Hs Hl. rewrite Run_eq in Hrun.
  destruct (run_tasks http_get _ 0 _ dr) as [[[e|]|w|w] d1] eqn:Ht; try done.
  apply run_tasks_pipeline in Ht as (_ & r & Hr & ->). rewrite Hs in Hr.
  destruct (pipeline_last _ _ _ _ _ Hr Hl) as [v Hv]. exists v.
  destruct (NewReportAssembler _ dr) as [a|]; [|done]. injection Hrun as <-. split; [done|].
  unfold Result. cbn [dr_params set_ReportAssembler set_Results dr_Results]. rewrite Hs, last_snoc.
  by rewrite Hv.
Qed.

Lemma Result_after_Run_witness :
  ∃ v, dr_Results (Run price_get (λ _, false) (NewDirectReq price_params)).2 !! "cents" = Some v ∧
    Result (Run price_get (λ _, false) (NewDirectReq price_params)).2 = Done (Ok (Sprint v)).
Proof.
  apply (Result_after_Run price_get (λ _, false) (NewDirectReq price_params) _ [price_task] cents_task);
    [vm_compute; reflexivity|reflexivity|discriminate].
Defined.

(** A job without tasks runs and then takes the node down: [Run] has nothing to
    do and succeeds, [Result] looks for the last task at index -1. The job
    comes from the leader's message, so a leader can crash every follower. *)
Theorem empty_job_crashes http_get done job :
  elems (ObservationSource (dr_params job)) = [] →
  Strategy (ReportingStrategy (dr_params job)) = "mean" →
  ∃ job', Run http_get done job = (Done None, job') ∧
    Result job' = Panicked "index out of range [-1]".
Proof.
  intros Hs Hm. rewrite Run_eq, Hs. unfold NewReportAssembler. rewrite Hm. cbn.
  eexists. split; [reflexivity|]. unfold Result. cbn. by rewrite Hs.
Qed.

(** What is decoded from {"ReportingStrategy":{"Strategy":"mean"}}. *)
Definition empty_job_info : JobInfo :=
  {| info_JobID := "x"; info_JobType := DirectReqJob; info_Timeout := 1000000000;
     info_Template := TAny (AMap [("ReportingStrategy", AMap [("Strategy", AStr "mean")])]) |}.

Lemma empty_job_crashes_witness :
  match NewJobFromInfo empty_job_info with
  | Ok job => ∃ job', Run price_get (λ _, false) job = (Done None, job') ∧
                Result job' = Panicked "index out of range [-1]"
  | Error _ => False
  end.
Proof.
  destruct (NewJobFromInfo empty_job_info) as [job|e] eqn:E; [|by vm_compute in E].
  vm_compute in E. injection E as <-. apply empty_job_crashes; reflexivity.
Defined.
