(* ===== verification/JobFiles.v ===== *)
(** * ocr/jobs/job_reader.go and job_source.go

    The jobs that a leader is given as files: the directory they are found in,
    the paths made from it, and the reader of one file.  The file system and
    the TOML package are parameters; [path/filepath] is written out. *)

From Stdlib Require Import Ascii.
From S2P Require Import Prelude Bytes Crypto Strconv Json GoJson Jobs.

(** ** path/filepath on Unix *)
Definition slash : ascii := chr 47.

(** The parts between the slashes. *)
Fixpoint components (path : string) : list string :=
  match path with
  | EmptyString => [""]
  | String c path =>
      if Ascii.eqb c slash then "" :: components path
      else match components path with
           | x :: xs => String c x :: xs
           | [] => [String c ""]
           end
  end.

Definition is_rooted (path : string) : bool :=
  match path with String c _ => Ascii.eqb c slash | EmptyString => false end.

(** One part after those that are kept, the last of them first. *)
Definition clean_step (rooted : bool) (kept : list string) (x : string) : list string :=
  if String.eqb x "" || String.eqb x "." then kept
  else if String.eqb x ".." then
    match kept with
    | [] => if rooted then [] else [".."]
    | y :: rest => if String.eqb y ".." then ".." :: kept else rest
    end
  else x :: kept.

Definition clean_parts (path : string) : list string :=
  foldl (clean_step (is_rooted path)) [] (components path).

Definition Clean (path : string) : string :=
  let s := String.concat "/" (reverse (clean_parts path)) in
  if is_rooted path then String slash s else if String.eqb s "" then "." else s.

(** [filepath.Join(dir, name)]: empty elements are left out. *)
Definition Join (dir name : string) : string :=
  if negb (String.eqb dir "") then Clean (dir +:+ "/" +:+ name)
  else if negb (String.eqb name "") then Clean name else "".

Example join_jobs : Join "./jobs_def" "price.toml" = "jobs_def/price.toml".
Proof. reflexivity. Qed.

Example clean_up : Clean "/a/./b//../../../c" = "/c" ∧ Clean "a/../../b/." = "../b".
Proof. split; reflexivity. Qed.

(** ** Files *)
Class JobFiles (fs file : Type) : Type := {
  ReadDir : string → fs → result (list (string * bool));  (* names; whether a directory *)
  Open : string → fs → result file;
  ReadAll : file → fs → result bytes
}.

(** ** job_reader.go *)
Inductive JobFormat := JobFormatJSON | JobFormatYAML | JobFormatTOML.

(** [ReadFrom] and [JobSourceType] are strings. *)
Definition ReadFromFs : string := "fs".
Definition ReadFromHTTP : string := "http".
Definition ReadFromDB : string := "db".

Section job_reader.
(** What the TOML package reads from a file: the type, and the template. *)
Variable toml_type : bytes → result string.
Variable toml_params : bytes → result DirectRequestTemplateParams.

(** [Read], of what reading the reader to its end gives: an unsupported type or
    format is logged and gives the nil job with a nil error. *)
Definition JobReader_Read (r : result bytes) (format : JobFormat) : result (option Job) :=
  data ← r;
  jType ← toml_type data;
  match format with
  | JobFormatTOML =>
      if String.eqb jType DirectReqJob then
        drParams ← toml_params data;
        let id := if String.eqb (ExternalJobID drParams) ""
                  then Address.String (ContractAddress drParams)
                  else ExternalJobID drParams in
        Ok (Some {| dr_JobID := id; dr_JobType := DirectReqJob; dr_params := drParams;
                    dr_Results := ∅; dr_timeout := 0; dr_ReportAssembler := None |})
      else Ok None
  | _ => Ok None
  end.
End job_reader.

Section directory.
Context `{JobFiles fs file}.

Definition ReadJobSpec (from : string) (path : string) (s : fs) : result file :=
  if String.eqb from ReadFromFs then Open path s
  else Error (Errorf "unsupported read from").

(** The loop over the entries: one that cannot be opened ends it. *)
Fixpoint open_files (dir : string) (files : list (string * bool)) (s : fs) : result (list file) :=
  match files with
  | [] => Ok []
  | (name, is_dir) :: files =>
      if (is_dir : bool) then open_files dir files s
      else f ← Open (Join dir name) s; readers ← open_files dir files s; Ok (f :: readers)
  end.

Definition ReadJobsFromDir (dir : string) (s : fs) : result (list file) :=
  files ← ReadDir dir s; open_files dir files s.
End directory.

(** ** job_source.go *)
Definition JobSourceDir : string := "dir".
Definition JobSourceDB : string := "db".
Definition JobSourceNetwork : string := "network".

Record JobSourceConfig := { SourceType : string; DirPath : string; APIURL : string }.

(** ** Properties *)

(** *** Paths *)

(** A name that an entry of a directory can have. *)
Definition plain_name (name : string) : Prop :=
  components name = [name] ∧ name ≠ "" ∧ name ≠ "." ∧ name ≠ "..".

Lemma components_some path : ∃ x xs, components path = x :: xs.
Proof.
  destruct path as [|c path]; [by eexists _, _|]. cbn [components].
  destruct (Ascii.eqb c slash); [by eexists _, _|]. destruct (components path); by eexists _, _.
Qed.

Lemma components_join dir name :
  components (dir +:+ "/" +:+ name) = components dir ++ components name.
Proof.
  induction dir as [|c dir IH]; [done|].
  cbn [String.append] in IH |- *. cbn [components]. rewrite IH.
  destruct (Ascii.eqb c slash); [done|].
  by destruct (components_some dir) as (x & xs & ->).
Qed.

Lemma rooted_join dir name : dir ≠ "" → is_rooted (dir +:+ "/" +:+ name) = is_rooted dir.
Proof. by destruct dir. Qed.

Lemma concat_snoc l : ∃ p, ∀ x, String.concat "/" (l ++ [x]) = p +:+ x.
Proof.
  induction l as [|y l [p IH]]; [by exists ""|]. exists (y +:+ "/" +:+ p). intros x.
  rewrite !app_assoc_str. rewrite <-IH. by destruct l.
Qed.

Lemma append_nonempty p x : x ≠ "" → p +:+ x ≠ "".
Proof. by destruct p, x. Qed.

(** The path of an entry is a prefix that depends on the directory, and its
    name. *)
Lemma Join_plain dir : dir ≠ "" → ∃ p, ∀ name, plain_name name → Join dir name = p +:+ name.
Proof.
  intros Hd. destruct (concat_snoc (reverse (clean_parts dir))) as [p Hp].
  exists (if is_rooted dir then String slash p else p). intros name (Hc & Hn & H1 & H2).
  unfold Join. apply String.eqb_neq in Hd as Hd'. rewrite Hd'. cbn [negb].
  unfold Clean, clean_parts. cbv zeta. rewrite rooted_join, components_join, Hc, foldl_app by done. cbn [foldl].
  fold (clean_parts dir). apply String.eqb_neq in Hn as Hn', H1, H2.
  assert (clean_step (is_rooted dir) (clean_parts dir) name = name :: clean_parts dir) as ->
    by (unfold clean_step; by rewrite Hn', H1, H2).
  rewrite reverse_cons, Hp. destruct (is_rooted dir); [done|].
  apply (append_nonempty p), String.eqb_neq in Hn. by rewrite Hn.
Qed.

Lemma append_cancel p x y : p +:+ x = p +:+ y → x = y.
Proof. induction p as [|c p IH]; [done|]. cbn [String.append]. intros [= ?]. auto. Qed.

(** Two entries of a directory are never taken for one another. *)
Lemma Join_inj dir x y : dir ≠ "" → plain_name x → plain_name y → Join dir x = Join dir y → x = y.
Proof.
  intros Hd Hx Hy. destruct (Join_plain dir Hd) as [p Hp]. rewrite !Hp by done. apply append_cancel.
Qed.

(** *** Reading the directory *)

(** The entries that are files, in order. *)
Definition regular (files : list (string * bool)) : list string :=
  (filter (λ f : string * bool, f.2 = false) files).*1.

Lemma open_files_ok `{JobFiles fs file} dir files s readers :
  open_files dir files s = Ok readers ↔
  Forall2 (λ name f, Open (Join dir name) s = Ok f) (regular files) readers.
Proof.
  unfold regular. revert readers. induction files as [|[name []] files IH]; intros readers; cbn [open_files].
  - split; [by intros [= <-]|by inversion 1].
  - rewrite filter_cons_False by done. apply IH.
  - rewrite filter_cons_True by done. cbn [fmap list_fmap fst]. rewrite result_bind_ok.
    setoid_rewrite result_bind_ok. split.
    + intros (f & Hf & fs' & Hfs & [= <-]). constructor; [done|]. by apply IH.
    + inversion 1; subst. eexists. split; [done|]. eexists. split; [by apply IH|done].
Qed.

(** A job that was read from a file never runs: its timeout is zero, the
    context made with it is done from the start, and the first task of a
    non-empty source is refused whatever the network would say. *)
Theorem read_job_never_runs http_get late toml_type toml_params r format job :
  JobReader_Read toml_type toml_params r format = Ok (Some job) →
  elems (ObservationSource (dr_params job)) ≠ [] →
  Run http_get (ctx_done (TaskTimeout job) late) job =
    (Done (Some (Errorf "execution cancelled")), job).
Proof.
  intros Hread Hs. apply Run_expired; [|done].
  unfold JobReader_Read in Hread. apply result_bind_ok in Hread as (data & _ & Hread).
  apply result_bind_ok in Hread as (t & _ & Hread).
  destruct format; try done. destruct (String.eqb t DirectReqJob); [|done].
  apply result_bind_ok in Hread as (p & _ & [= <-]). reflexivity.
Qed.

Lemma read_job_never_runs_witness :
  Run price_get (ctx_done (TaskTimeout (NewDirectReq price_params)) (λ _, false))
    (NewDirectReq price_params) =
  (Done (Some (Errorf "execution cancelled")), NewDirectReq price_params).
Proof.
  eapply (read_job_never_runs price_get (λ _, false) (λ _, Ok DirectReqJob) (λ _, Ok price_params)
    (Ok "") JobFormatTOML); [reflexivity|discriminate].
Defined.
