(* ===== verification/Mean.v ===== *)
(** * Averages of integers

    An observation is the text of a float64, its average with others a sum of
    what is read from such texts, in the order of a map.  For integers below
    2^53 nothing is lost on the way: the text reads back, sums are exact, and
    their order does not matter. *)

From Stdlib Require Import Ascii SpecFloat.
From S2P Require Import Prelude Bytes Strconv Json Integers Floats GoJson Jobs.

(** ** The text of an observation *)

(** What a response with the text of a float says. *)
Lemma float_read f f0 : float_ok f → Unmarshal go_float f0 (Sprint (AFloat f)) = Ok f.
Proof.
  intros [Hw Hp]%Sprint_float_reads. cbn [Sprint].
  unfold Unmarshal. pose proof (parse_print_wf (JNum (Sprint_float f)) Hw) as Hj.
  cbn [print] in Hj. rewrite Hj. cbn [mbind result_bind dec go_float]. by rewrite Hp.
Qed.

(** The float of an integer. *)
Definition float_of_nat (z : Z) : float64 := if z =? 0 then Float64.zero else float_of_int z.

Lemma float_of_int_ok z : 0 < z < 2 ^ 53 → float_ok (float_of_int z).
Proof.
  intros Hz. pose proof (of_ratio_exact z Hz) as He. unfold Float64.of_ratio, float_of_int in He.
  by apply div_float_ok in He.
Qed.

Lemma integer_read z f0 : 0 ≤ z < 2 ^ 53 →
  Unmarshal go_float f0 (Sprint (AFloat (float_of_nat z))) = Ok (float_of_nat z).
Proof.
  intros Hz. apply float_read. unfold float_of_nat. destruct (Z.eqb_spec z 0); [done|].
  apply float_of_int_ok. lia.
Qed.

(** ** Exact sums *)

(** Shifting out zeros. *)
Definition exactly (m : Z) : shr_record := {| shr_m := m; shr_r := false; shr_s := false |}.

Lemma shr_exact m e n : 0 < m → 0 ≤ n → shr (exactly (m * 2 ^ n)) e n = (exactly m, e + n).
Proof.
  intros Hm Hn. rewrite shr_nat by done. pose proof (shr_multiple (Z.to_nat n) m Hm) as Hs.
  rewrite Z2Nat.id in Hs by done. unfold exactly. by rewrite Hs.
Qed.

Lemma iter_xO p (m : positive) : Zpos (Pos.iter xO m p) = Zpos m * 2 ^ Zpos p.
Proof.
  rewrite Pos2Nat.inj_iter, <-(positive_nat_Z p). generalize (Pos.to_nat p) as k.
  induction k as [|k IH]; [cbn; lia|]. rewrite Nat2Z.inj_succ, Z.pow_succ_r by lia.
  cbn [Nat.iter nat_rect]. rewrite Pos2Z.inj_xO. cbn in IH. lia.
Qed.

(** An exact multiple of a power of two is rounded to its float. *)
Lemma round_exact m e z : 0 < z < 2 ^ 53 → e ≤ Z.log2 z - 52 → m = z * 2 ^ (- e) →
  binary_round_aux 53 1024 false m e loc_Exact = float_of_int z.
Proof.
  intros Hz He Hm. pose proof (log_bounds z Hz) as [HL Hlz].
  set (M := z * 2 ^ (52 - Z.log2 z)).
  assert (0 < M) as HM by (unfold M; pose proof (Z.pow_pos_nonneg 2 (52 - Z.log2 z)); nia).
  assert (Z.log2 M = 52) as HlogM by (unfold M; rewrite Z.log2_mul_pow2; lia).
  assert (m = M * 2 ^ (Z.log2 z - 52 - e)) as ->.
  { unfold M. rewrite Hm, <-Z.mul_assoc, <-Z.pow_add_r by lia. do 2 f_equal. lia. }
  assert (0 < 2 ^ (Z.log2 z - 52 - e)) by (apply Z.pow_pos_nonneg; lia).
  unfold binary_round_aux, shr_fexp at 1. rewrite Zdigits2_log2 by nia.
  rewrite Z.log2_mul_pow2, HlogM by lia.
  replace (fexp 53 1024 (Z.log2 z - 52 - e + 52 + 1 + e) - e) with (Z.log2 z - 52 - e)
    by (unfold fexp, emin; lia).
  change (shr_record_of_loc ?x loc_Exact) with (exactly x). rewrite shr_exact by lia.
  cbn [loc_of_shr_record shr_m round_nearest_even exactly].
  rewrite shr_fexp_stays by (rewrite Zdigits2_log2, HlogM by lia; unfold fexp, emin; lia).
  cbn [shr_m]. unfold float_of_int. fold M. destruct M as [|q|q]; try lia.
  replace (e + (Z.log2 z - 52 - e)) with (Z.log2 z - 52) by lia.
  destruct (Z.leb_spec (Z.log2 z - 52) (1024 - 53)); [done|lia].
Qed.

Lemma align_value m e e' : e' ≤ e → Zpos (shl_align m e e').1 = Zpos m * 2 ^ (e - e').
Proof.
  intros He. unfold shl_align. destruct (e' - e) as [|q|q] eqn:Hd; [|lia|].
  - replace (e - e') with 0 by lia. cbn [fst]. lia.
  - cbn [fst]. rewrite iter_xO. do 2 f_equal. lia.
Qed.

(** It is also normalised to it. *)
Lemma normalize_int m e z : 0 < z < 2 ^ 53 → e ≤ 0 → m = z * 2 ^ (- e) →
  binary_normalize 53 1024 m e false = float_of_int z.
Proof.
  intros Hz He Hm. pose proof (log_bounds z Hz) as [HL Hlz].
  assert (0 < 2 ^ (- e)) as Hp by (apply Z.pow_pos_nonneg; lia).
  assert (Z.log2 m = Z.log2 z - e) as Hlog by (rewrite Hm, Z.log2_mul_pow2; lia).
  destruct m as [|p|p]; try nia. cbn [binary_normalize]. unfold binary_round.
  assert (Zpos (digits2_pos p) = Z.log2 (Zpos p) + 1) as -> by (by rewrite <-Zdigits2_log2).
  rewrite Hlog. replace (fexp 53 1024 (Z.log2 z - e + 1 + e)) with (Z.log2 z - 52) by (unfold fexp, emin; lia).
  pose proof (align_value p e (Z.log2 z - 52)) as Hal.
  assert ((shl_align p e (Z.log2 z - 52)).2 = Z.min e (Z.log2 z - 52)) as Hez
    by (unfold shl_align; destruct (Z.log2 z - 52 - e) eqn:Hd; cbn [snd]; lia).
  assert (0 ≤ Z.log2 z - 52 - e → (shl_align p e (Z.log2 z - 52)).1 = p) as Hno
    by (unfold shl_align; by destruct (Z.log2 z - 52 - e)).
  destruct (shl_align p e (Z.log2 z - 52)) as [mz ez]. cbn [fst snd] in *.
  apply round_exact; [done|lia|]. destruct (Z.le_ge_cases e (Z.log2 z - 52)) as [Hle|Hge].
  - rewrite Hno, Hm by lia. do 2 f_equal. lia.
  - rewrite Hal, Hm, <-Z.mul_assoc, <-Z.pow_add_r by lia. do 2 f_equal. lia.
Qed.

Lemma of_Z_nat z : 0 ≤ z < 2 ^ 53 → Float64.of_Z z = float_of_nat z.
Proof.
  intros Hz. unfold Float64.of_Z, float_of_nat. destruct (Z.eqb_spec z 0) as [->|]; [done|].
  apply normalize_int; [lia|done|]. by rewrite Z.mul_1_r.
Qed.

(** Sums that stay below 2^53 are exact. *)
Lemma add_exact a b : 0 ≤ a → 0 ≤ b → a + b < 2 ^ 53 →
  Float64.add (float_of_nat a) (float_of_nat b) = float_of_nat (a + b).
Proof.
  intros Ha Hb Hab. unfold float_of_nat. destruct (Z.eqb_spec a 0) as [->|Ha0].
  { rewrite Z.add_0_l. by destruct (Z.eqb_spec b 0). }
  destruct (Z.eqb_spec b 0) as [->|Hb0].
  { rewrite Z.add_0_r. by destruct (Z.eqb_spec a 0). }
  destruct (Z.eqb_spec (a + b) 0); [lia|].
  pose proof (log_bounds a ltac:(lia)) as [HLa _]. pose proof (log_bounds b ltac:(lia)) as [HLb _].
  assert (∀ z, 0 < z < 2 ^ 53 → Zpos (Z.to_pos (z * 2 ^ (52 - Z.log2 z))) = z * 2 ^ (52 - Z.log2 z)) as Hpos.
  { intros z Hz. pose proof (den_pos z Hz). rewrite Z2Pos.id; nia. }
  unfold Float64.add. unfold float_of_int at 1 2. cbn [SFadd cond_Zopp]. cbv zeta.
  rewrite !align_value, !Hpos by lia. apply normalize_int; [lia|lia|].
  rewrite <-!Z.mul_assoc, <-!Z.pow_add_r by lia.
  rewrite Z.mul_add_distr_r. do 2 f_equal; f_equal; lia.
Qed.

(** So are quotients that are integers. *)
Lemma div_exact q n : 0 < q → 0 < n → q * n < 2 ^ 53 →
  Float64.div (float_of_nat (q * n)) (float_of_nat n) = float_of_nat q.
Proof.
  intros Hq Hn Hqn. unfold float_of_nat. destruct (Z.eqb_spec (q * n) 0); [nia|].
  destruct (Z.eqb_spec n 0); [lia|]. destruct (Z.eqb_spec q 0); [lia|].
  assert (0 < q < 2 ^ 53 ∧ 0 < n < 2 ^ 53 ∧ 0 < q * n < 2 ^ 53) as (Hq' & Hn' & Hqn') by nia.
  pose proof (log_bounds q Hq') as [HLq _]. pose proof (log_bounds n Hn') as [HLn _].
  pose proof (log_bounds (q * n) Hqn') as [HLqn _].
  pose proof (Z.log2_mul_below q n Hq Hn) as Hlo. pose proof (Z.log2_mul_above q n ltac:(lia) ltac:(lia)) as Hup.
  assert (∀ z, 0 < z < 2 ^ 53 → 0 < z * 2 ^ (52 - Z.log2 z) ∧ Z.log2 (z * 2 ^ (52 - Z.log2 z)) = 52) as Hm.
  { intros z Hz. pose proof (den_pos z Hz). pose proof (log_bounds z Hz) as [? _].
    split; [nia|]. rewrite Z.log2_mul_pow2; lia. }
  destruct (Hm _ Hn') as [Hn0 Hln], (Hm _ Hqn') as [Hqn0 Hlqn].
  unfold Float64.div. unfold float_of_int at 1 2. cbn [SFdiv]. unfold SFdiv_core_binary. rewrite !Z2Pos.id by done.
  rewrite !Zdigits2_log2, Hln, Hlqn by done.
  set (Lq := Z.log2 q) in *. set (Ln := Z.log2 n) in *. set (L := Z.log2 (q * n)) in *.
  replace (Z.min (fexp 53 1024 (52 + 1 + (L - 52) - (52 + 1 + (Ln - 52)))) (L - 52 - (Ln - 52)))
    with (L - Ln - 53) by (unfold fexp, emin; lia).
  replace (L - 52 - (Ln - 52) - (L - Ln - 53)) with 53 by lia. cbv beta iota.
  rewrite Z.shiftl_mul_pow2 by lia. set (d := n * 2 ^ (52 - Ln)) in *.
  assert (q * n * 2 ^ (52 - L) * 2 ^ 53 = d * (q * 2 ^ (- (L - Ln - 53)))) as ->.
  { unfold d. rewrite <-Z.mul_assoc, <-Z.pow_add_r by lia.
    replace (n * 2 ^ (52 - Ln) * (q * 2 ^ (- (L - Ln - 53))))
      with (q * n * (2 ^ (52 - Ln) * 2 ^ (- (L - Ln - 53)))) by lia.
    rewrite <-Z.pow_add_r by lia. do 2 f_equal. lia. }
  set (k := q * 2 ^ (- (L - Ln - 53))).
  pose proof (Z.div_eucl_eq (d * k) d ltac:(lia)) as Hde. pose proof (Z.mod_mul k d ltac:(lia)) as Hmod.
  rewrite Z.mul_comm in Hmod. unfold Z.modulo in Hmod. destruct (Z.div_eucl (d * k) d) as [x r]. subst r.
  assert (x = k) as -> by nia. cbn [xorb].
  assert (new_location d 0 = loc_Exact) as -> by (unfold new_location, new_location_even, new_location_odd; by destruct (Z.even d)).
  apply round_exact; [done|lia|done].
Qed.

(** ** The mean *)

(** The observation of an integer, as a job's result gives it. *)
Definition observes (o : JobObservationResponse) (z : Z) : Prop :=
  obs_Response o = Some (Sprint (AFloat (float_of_nat z))).

Definition total (zs : list Z) : Z := foldr Z.add 0 zs.

Lemma total_perm zs zs' : zs ≡ₚ zs' → total zs = total zs'.
Proof. unfold total. induction 1; cbn; lia. Qed.

Lemma total_nonneg zs : Forall (λ z, 0 ≤ z) zs → 0 ≤ total zs.
Proof. unfold total. induction 1; cbn; lia. Qed.

Lemma total_bounds zs : Forall (λ z, 0 ≤ z) zs → total zs < 2 ^ 53 → Forall (λ z, 0 ≤ z < 2 ^ 53) zs.
Proof.
  induction 1 as [|z zs Hz Hzs IH]; intros Ht; [constructor|].
  change (z + total zs < 2 ^ 53) in Ht. pose proof (total_nonneg zs Hzs). constructor; [lia|apply IH; lia].
Qed.

Lemma responses_integers obs zs :
  Forall2 observes obs zs → Forall (λ z, 0 ≤ z < 2 ^ 53) zs → responses obs = Ok (float_of_nat <$> zs).
Proof.
  unfold responses. induction 1 as [|o z obs zs Ho _ IH]; intros Hzs; [done|].
  apply Forall_cons in Hzs as [Hz Hzs]. cbn [result_map]. rewrite Ho. cbn [default from_option id].
  rewrite integer_read by done. cbn [wrap mbind result_bind]. by rewrite (IH Hzs).
Qed.

Lemma sum_integers zs : ∀ a, Forall (λ z, 0 ≤ z) zs → 0 ≤ a → a + total zs < 2 ^ 53 →
  foldl Float64.add (float_of_nat a) (float_of_nat <$> zs) = float_of_nat (a + total zs).
Proof.
  induction zs as [|z zs IH]; intros a Hzs Ha Ht; [cbn; by rewrite Z.add_0_r|].
  change (a + (z + total zs) < 2 ^ 53) in Ht. change (total (z :: zs)) with (z + total zs). cbn [fmap list_fmap foldl].
  apply Forall_cons in Hzs as [Hz Hzs]. pose proof (total_nonneg zs Hzs).
  rewrite add_exact by lia. rewrite IH by (done || lia). f_equal. lia.
Qed.

(** C29: the average of integers is that of arithmetic, in any order. When the
    observations of a numeric job are the texts of integers that are not
    negative and whose sum is below 2^53, its report is the sum divided by
    their number, rounded once, in whatever order the observations are visited,
    so that nodes with the same observations agree on it; and when the number
    divides the sum it is the quotient. *)
Theorem integer_mean mva obs obs' zs :
  mva_type mva = DirectReqJob → ResultType (ReportingStrategy (mva_params mva)) = "numeric" →
  Forall2 observes obs zs → obs ≡ₚ obs' → zs ≠ [] → Forall (λ z, 0 ≤ z) zs → total zs < 2 ^ 53 →
  Z.of_nat (length zs) < 2 ^ 53 →
  let n := Z.of_nat (length zs) in
  MeanValueAssembler_Assemble mva obs' = Ok (AFloat (Float64.div (float_of_nat (total zs)) (float_of_nat n))) ∧
  ∀ q, total zs = q * n → MeanValueAssembler_Assemble mva obs' = Ok (AFloat (float_of_nat q)).
Proof.
  intros Ht Hr Hobs Hp Hne Hpos Hsum Hlen n.
  assert (MeanValueAssembler_Assemble mva obs' =
    Ok (AFloat (Float64.div (float_of_nat (total zs)) (float_of_nat n)))) as Hm.
  { destruct (Permutation_Forall2 Hp Hobs) as (zs' & Hzs & Hobs'). unfold n.
    rewrite (Permutation_length Hzs), (total_perm _ _ Hzs). rewrite Hzs in Hpos.
    rewrite (total_perm _ _ Hzs) in Hsum. rewrite (Permutation_length Hzs) in Hlen.
    unfold MeanValueAssembler_Assemble. rewrite Ht, Hr, String.eqb_refl, mean_loop_eq.
    rewrite (responses_integers _ _ Hobs' (total_bounds _ Hpos Hsum)).
    change Float64.zero with (float_of_nat 0). cbn [negb mbind result_bind].
    change (String.eqb _ _) with true. cbn [negb]. rewrite sum_integers, length_fmap by (done || lia).
    rewrite !Z.add_0_l. destruct (Z.eqb_spec (Z.of_nat (length zs')) 0) as [He|_].
    { destruct zs'; [|done]. by apply Permutation_nil_r in Hzs. }
    by rewrite of_Z_nat by lia. }
  split; [exact Hm|]. intros q Hq. rewrite Hm, Hq. do 2 f_equal.
  assert (0 < n) as Hn by (unfold n; destruct zs; [done|cbn; lia]).
  pose proof (total_nonneg zs Hpos). destruct (Z.eq_dec q 0) as [->|Hq0].
  - unfold float_of_nat at 2. destruct (Z.eqb_spec n 0); [lia|done].
  - apply div_exact; nia.
Qed.

(** Three prices, one of them printed with an exponent, visited backwards. *)
Definition response (text : bytes) : JobObservationResponse :=
  {| obs_JobId := "job-1"; obs_Response := Some text |}.
Definition three_prices : list JobObservationResponse :=
  [response "1.5e+06"; response "900000"; response "600000"].
Definition price_mean : MeanValueAssembler := {| mva_type := DirectReqJob; mva_params := price_params |}.

Lemma three_observed : Forall2 observes three_prices [1500000; 900000; 600000].
Proof. repeat constructor; vm_compute; reflexivity. Qed.

Lemma integer_mean_witness :
  MeanValueAssembler_Assemble price_mean (reverse three_prices) = Ok (AFloat (float_of_nat 1000000)).
Proof.
  apply (integer_mean price_mean three_prices (reverse three_prices) [1500000; 900000; 600000]);
    [done|done|exact three_observed|by rewrite reverse_Permutation|done|repeat constructor; lia|done..].
Defined.
