(* ===== verification/Rpc.v ===== *)
(** * rpc/: messages, codec and builders

    [message.go], [rpc.go], [pacemaker_rpc.go], [reporter_rpc.go],
    [codec.go], [json_codec.go], [builder.go] and [packermaker.go].  The
    fields Epoch, Round and Leader, which every reporter message starts with,
    are one record here. *)

From Stdlib Require Import Ascii.
From S2P Require Import Prelude Bytes Crypto Strconv Json Floats GoJson Jobs.

(** ** Messages *)
Record RPCMessage := {
  FromID : string;
  Payload : option bytes;
  rpc_Signature : Signature
}.

Record Message := {
  Headers : Z;
  msg_Topic : Z;
  Data : option bytes
}.

Record StatusMsg := { Id : string; NetworkId : string; ListenAddr : string }.
Record NewEpochMesage := { EpochID : Z }.

Record common := { Epoch : Z; Round : Z; Leader : string }.

Record ObserveReq := { oq_common : common; Jobs : slice JobInfo }.
Record ObserveResp := { or_common : common; JobResponses : slice JobObservationResponse }.
Record ReportReq := { rq_common : common; rq_Observations : option bytes }.

(** jobID -> final report value *)
Abbreviation JobReports := (gomap any).

Record Signatories := { sg_Sign : Signature; sg_ID : string }.
Record FinalReport := { fr_Report : JobReports; fr_Signatories : slice Signatories }.
Record ReportRes := { rr_common : common; Reports : JobReports }.
Record BroadcastObservationMap := { om_common : common; om_Observations : option bytes }.
Record BroadcastFinalReport := { bf_common : common; bf_FinalReport : FinalReport }.
Record FinalEcho := { fe_common : common }.
Record ProgressRound := { pr_common : common }.

(** The Go values that the program hands to a codec. *)
Inductive goval : Type :=
| VNil
| VRPCMessage (m : RPCMessage)
| VMessage (m : Message)
| VStatusMsg (m : StatusMsg)
| VNewEpochMesage (m : NewEpochMesage)
| VChangeLeaderMessage
| VObserveReq (m : ObserveReq)
| VObserveResp (m : ObserveResp)
| VReportReq (m : ReportReq)
| VReportRes (m : ReportRes)
| VBroadcastObservationMap (m : BroadcastObservationMap)
| VBroadcastFinalReport (m : BroadcastFinalReport)
| VFinalEcho (m : FinalEcho)
| VProgressRound (m : ProgressRound).

(** The type a decoder is asked to fill. *)
Inductive kind : Type :=
| KRPCMessage | KMessage | KStatusMsg | KNewEpochMesage | KChangeLeaderMessage
| KObserveReq | KObserveResp | KReportReq | KReportRes | KBroadcastObservationMap
| KBroadcastFinalReport | KFinalEcho | KProgressRound.

Definition kind_of (v : goval) : option kind :=
  match v with
  | VNil => None
  | VRPCMessage _ => Some KRPCMessage
  | VMessage _ => Some KMessage
  | VStatusMsg _ => Some KStatusMsg
  | VNewEpochMesage _ => Some KNewEpochMesage
  | VChangeLeaderMessage => Some KChangeLeaderMessage
  | VObserveReq _ => Some KObserveReq
  | VObserveResp _ => Some KObserveResp
  | VReportReq _ => Some KReportReq
  | VReportRes _ => Some KReportRes
  | VBroadcastObservationMap _ => Some KBroadcastObservationMap
  | VBroadcastFinalReport _ => Some KBroadcastFinalReport
  | VFinalEcho _ => Some KFinalEcho
  | VProgressRound _ => Some KProgressRound
  end.

(** A value behind an interface: a pointer to a structure or the structure. *)
Inductive boxed : Type := Ptr (v : goval) | Val (v : goval).

Record DecodedMsg := {
  FromId : string;
  Topic : Z;
  dm_Data : boxed;
  dm_Signature : Signature
}.

Record InternalPeerServerInfoMsg := {
  info_NetworkId : string;
  info_ListenAddr : string;
  info_ServerId : string
}.

(** *** message.go constants: [Pacemaker] is [iota] on the twelfth line of its
    block *)
Definition MessageNewEpoch : Z := 0x1.
Definition MessageStatus : Z := 0x2.
Definition MessageChangeLeader : Z := 0x3.
Definition MessageObserveReq : Z := 0x4.
Definition MessageObserveRes : Z := 0x5.
Definition MessageReportReq : Z := 0x6.
Definition MessageReportRes : Z := 0x7.
Definition MessageObservationMap : Z := 0x8.
Definition MessageFinalReport : Z := 0x9.
Definition MessageFinalEcho : Z := 0x10.
Definition MessageProgressRound : Z := 0x11.

Definition TopicPacemaker : Z := 11.
Definition TopicReporter : Z := 0x1.
Definition TopicServer : Z := 0x4.

(** *** packermaker.go *)
Inductive OCRState := PREPARE | FOLLOWING | LEADING | REPORT_GEN | TRANSMIT.

(** ** codec.go: the interface the rest of the program is written against *)
Class Codec : Type := {
  Encode : goval → result bytes;
  Decode : kind → bytes → result goval
}.

(** What a codec promises for the values in [P]. *)
Class CodecLaws (C : Codec) (P : goval → Prop) : Prop := {
  decode_encode v k b :
    P v → kind_of v = Some k → Encode v = Ok b → Decode k b = Ok v;
  decode_kind k b v : Decode k b = Ok v → kind_of v = Some k
}.

(** codec.go: the types of codec; only the first has an implementation. *)
Definition JsonCodec : Z := 1.
Definition ProtoBuf : Z := 2.

(** ** builder.go *)
Record RPCMessageBuilder := {
  b_fromId : string;
  b_headers : Z;
  b_topic : Z;
  b_payloadData : goval;
  b_signature : Signature;
  b_message : option bytes
}.

Definition NewRPCMessageBuilder (fromID : string) : RPCMessageBuilder := {|
  b_fromId := fromID; b_headers := 0; b_topic := 0; b_payloadData := VNil;
  b_signature := no_signature; b_message := None |}.

Definition SetHeaders (h : Z) (b : RPCMessageBuilder) : RPCMessageBuilder := {|
  b_fromId := b_fromId b; b_headers := h; b_topic := b_topic b;
  b_payloadData := b_payloadData b; b_signature := b_signature b; b_message := b_message b |}.
Definition SetTopic (t : Z) (b : RPCMessageBuilder) : RPCMessageBuilder := {|
  b_fromId := b_fromId b; b_headers := b_headers b; b_topic := t;
  b_payloadData := b_payloadData b; b_signature := b_signature b; b_message := b_message b |}.
Definition SetPayload (v : goval) (b : RPCMessageBuilder) : RPCMessageBuilder := {|
  b_fromId := b_fromId b; b_headers := b_headers b; b_topic := b_topic b;
  b_payloadData := v; b_signature := b_signature b; b_message := b_message b |}.
Definition SetSignature (s : Signature) (b : RPCMessageBuilder) : RPCMessageBuilder := {|
  b_fromId := b_fromId b; b_headers := b_headers b; b_topic := b_topic b;
  b_payloadData := b_payloadData b; b_signature := s; b_message := b_message b |}.
Definition SetMessage (m : option bytes) (b : RPCMessageBuilder) : RPCMessageBuilder := {|
  b_fromId := b_fromId b; b_headers := b_headers b; b_topic := b_topic b;
  b_payloadData := b_payloadData b; b_signature := b_signature b; b_message := m |}.

Section builders.
Context `{Codec}.

Definition RPCMessageBuilder_Build (b : RPCMessageBuilder) : result RPCMessage :=
  msgBytes ←
    match b_message b with
    | None =>
        payloadBytes ← wrap "failed to encode payload" (Encode (b_payloadData b));
        wrap "failed to encode message"
          (Encode (VMessage {| Headers := b_headers b; msg_Topic := b_topic b;
                               Data := Some payloadBytes |}))
    | Some m => Ok m
    end;
  Ok {| FromID := b_fromId b; Payload := Some msgBytes; rpc_Signature := b_signature b |}.

Definition RPCMessageBuilder_Bytes (b : RPCMessageBuilder) : result bytes :=
  rpcMessage ← RPCMessageBuilder_Build b; Encode (VRPCMessage rpcMessage).

(** The chain of setters that every sender of the program uses. *)
Definition rpc_bytes (fromID : string) (headers topic : Z) (payload : goval)
    (sig : Signature) : result bytes :=
  RPCMessageBuilder_Bytes
    (SetSignature sig (SetPayload payload (SetTopic topic
      (SetHeaders headers (NewRPCMessageBuilder fromID))))).

(** [MessageBuilder]: the envelope without sender and signature. *)
Record MessageBuilder := { mb_headers : Z; mb_topic : Z; mb_data : option bytes }.

Definition NewMessageBuilder : MessageBuilder :=
  {| mb_headers := 0; mb_topic := 0; mb_data := None |}.

Definition MessageBuilder_SetHeaders (h : Z) (b : MessageBuilder) : MessageBuilder :=
  {| mb_headers := h; mb_topic := mb_topic b; mb_data := mb_data b |}.
Definition MessageBuilder_SetTopic (t : Z) (b : MessageBuilder) : MessageBuilder :=
  {| mb_headers := mb_headers b; mb_topic := t; mb_data := mb_data b |}.

Definition MessageBuilder_SetData (v : goval) (b : MessageBuilder) : outcome MessageBuilder :=
  match Encode v with
  | Error _ => Panicked "MessageBuilder: unable to encode msg"
  | Ok d => Done {| mb_headers := mb_headers b; mb_topic := mb_topic b; mb_data := Some d |}
  end.

Definition MessageBuilder_Build (b : MessageBuilder) : result Message :=
  match mb_data b with
  | None => Error (Errorf "data cannot be nil")
  | Some d => Ok {| Headers := mb_headers b; msg_Topic := mb_topic b; Data := Some d |}
  end.

Definition MessageBuilder_Bytes (b : MessageBuilder) : result bytes :=
  message ← MessageBuilder_Build b; Encode (VMessage message).
End builders.

(** ** JSON forms of the messages *)
Definition go_signature : gotype Signature := {|
  zero := no_signature;
  enc s := enc_object [enc_field "R" go_big (sig_R s); enc_field "S" go_big (sig_S s)];
  dec s j :=
    match j with
    | JNull => Ok s
    | JObj fs =>
        r ← dec_field "R" go_big (sig_R s) fs;
        t ← dec_field "S" go_big (sig_S s) fs;
        Ok {| sig_R := r; sig_S := t |}
    | _ => Error type_error
    end
|}.

Definition go_rpcmessage : gotype RPCMessage := {|
  zero := {| FromID := ""; Payload := None; rpc_Signature := no_signature |};
  enc m := enc_object [enc_field "from_id" go_string (FromID m);
                       enc_field "payload" go_bytes (Payload m);
                       enc_field "signature" go_signature (rpc_Signature m)];
  dec m j :=
    match j with
    | JNull => Ok m
    | JObj fs =>
        f ← dec_field "from_id" go_string (FromID m) fs;
        p ← dec_field "payload" go_bytes (Payload m) fs;
        s ← dec_field "signature" go_signature (rpc_Signature m) fs;
        Ok {| FromID := f; Payload := p; rpc_Signature := s |}
    | _ => Error type_error
    end
|}.

Definition go_message : gotype Message := {|
  zero := {| Headers := 0; msg_Topic := 0; Data := None |};
  enc m := enc_object [enc_field "Headers" (go_uint 8) (Headers m);
                       enc_field "Topic" (go_uint 8) (msg_Topic m);
                       enc_field "Data" go_bytes (Data m)];
  dec m j :=
    match j with
    | JNull => Ok m
    | JObj fs =>
        h ← dec_field "Headers" (go_uint 8) (Headers m) fs;
        t ← dec_field "Topic" (go_uint 8) (msg_Topic m) fs;
        d ← dec_field "Data" go_bytes (Data m) fs;
        Ok {| Headers := h; msg_Topic := t; Data := d |}
    | _ => Error type_error
    end
|}.

Definition go_status : gotype StatusMsg := {|
  zero := {| Id := ""; NetworkId := ""; ListenAddr := "" |};
  enc m := enc_object [enc_field "Id" go_string (Id m);
                       enc_field "NetworkId" go_string (NetworkId m);
                       enc_field "ListenAddr" go_string (ListenAddr m)];
  dec m j :=
    match j with
    | JNull => Ok m
    | JObj fs =>
        i ← dec_field "Id" go_string (Id m) fs;
        n ← dec_field "NetworkId" go_string (NetworkId m) fs;
        l ← dec_field "ListenAddr" go_string (ListenAddr m) fs;
        Ok {| Id := i; NetworkId := n; ListenAddr := l |}
    | _ => Error type_error
    end
|}.

Definition go_newepoch : gotype NewEpochMesage := {|
  zero := {| EpochID := 0 |};
  enc m := enc_object [enc_field "EpochID" (go_uint 64) (EpochID m)];
  dec m j :=
    match j with
    | JNull => Ok m
    | JObj fs => e ← dec_field "EpochID" (go_uint 64) (EpochID m) fs; Ok {| EpochID := e |}
    | _ => Error type_error
    end
|}.

(** The leading fields of a reporter message. *)
Definition enc_common (c : common) : list (result (string * json)) :=
  [enc_field "epoch" (go_uint 64) (Epoch c);
   enc_field "round" (go_uint 64) (Round c);
   enc_field "leader" go_string (Leader c)].

Definition dec_common (c : common) (fs : list (string * json)) : result common :=
  e ← dec_field "epoch" (go_uint 64) (Epoch c) fs;
  r ← dec_field "round" (go_uint 64) (Round c) fs;
  l ← dec_field "leader" go_string (Leader c) fs;
  Ok {| Epoch := e; Round := r; Leader := l |}.

Definition zero_common : common := {| Epoch := 0; Round := 0; Leader := "" |}.

(** A message of the common fields and one more, as all but two are. *)
Definition go_with {A T} (name : string) (g : gotype A) (mk : common → A → T)
    (get_c : T → common) (get_a : T → A) : gotype T := {|
  zero := mk zero_common (zero g);
  enc m := enc_object (enc_common (get_c m) ++ [enc_field name g (get_a m)]);
  dec m j :=
    match j with
    | JNull => Ok m
    | JObj fs =>
        c ← dec_common (get_c m) fs;
        a ← dec_field name g (get_a m) fs;
        Ok (mk c a)
    | _ => Error type_error
    end
|}.

Definition go_only {T} (mk : common → T) (get_c : T → common) : gotype T := {|
  zero := mk zero_common;
  enc m := enc_object (enc_common (get_c m));
  dec m j :=
    match j with
    | JNull => Ok m
    | JObj fs => c ← dec_common (get_c m) fs; Ok (mk c)
    | _ => Error type_error
    end
|}.

Definition go_signatory : gotype Signatories := {|
  zero := {| sg_Sign := no_signature; sg_ID := "" |};
  enc s := enc_object [enc_field "Sign" go_signature (sg_Sign s); enc_field "ID" go_string (sg_ID s)];
  dec s j :=
    match j with
    | JNull => Ok s
    | JObj fs =>
        g ← dec_field "Sign" go_signature (sg_Sign s) fs;
        i ← dec_field "ID" go_string (sg_ID s) fs;
        Ok {| sg_Sign := g; sg_ID := i |}
    | _ => Error type_error
    end
|}.

Definition go_finalreport : gotype FinalReport := {|
  zero := {| fr_Report := None; fr_Signatories := None |};
  enc r := enc_object [enc_field "Report" (go_map go_any) (fr_Report r);
                       enc_field "Signatories" (go_slice go_signatory) (fr_Signatories r)];
  dec r j :=
    match j with
    | JNull => Ok r
    | JObj fs =>
        p ← dec_field "Report" (go_map go_any) (fr_Report r) fs;
        s ← dec_field "Signatories" (go_slice go_signatory) (fr_Signatories r) fs;
        Ok {| fr_Report := p; fr_Signatories := s |}
    | _ => Error type_error
    end
|}.

Definition go_observereq : gotype ObserveReq :=
  go_with "jobs" (go_slice go_jobinfo) Build_ObserveReq oq_common Jobs.
Definition go_observeresp : gotype ObserveResp :=
  go_with "jobResponses" (go_slice go_observation) Build_ObserveResp or_common JobResponses.
Definition go_reportreq : gotype ReportReq :=
  go_with "observations" go_bytes Build_ReportReq rq_common rq_Observations.
Definition go_reportres : gotype ReportRes :=
  go_with "reports" (go_map go_any) Build_ReportRes rr_common Reports.
Definition go_observationmap : gotype BroadcastObservationMap :=
  go_with "observations" go_bytes Build_BroadcastObservationMap om_common om_Observations.
Definition go_bfinalreport : gotype BroadcastFinalReport :=
  go_with "finalReport" go_finalreport Build_BroadcastFinalReport bf_common bf_FinalReport.
Definition go_finalecho : gotype FinalEcho := go_only Build_FinalEcho fe_common.
Definition go_progressround : gotype ProgressRound := go_only Build_ProgressRound pr_common.

(** ** json_codec.go *)
Definition JSONCodec_Encode (v : goval) : result bytes :=
  match v with
  | VNil => Ok (print JNull)
  | VRPCMessage m => Marshal go_rpcmessage m
  | VMessage m => Marshal go_message m
  | VStatusMsg m => Marshal go_status m
  | VNewEpochMesage m => Marshal go_newepoch m
  | VChangeLeaderMessage => Ok (print (JObj []))
  | VObserveReq m => Marshal go_observereq m
  | VObserveResp m => Marshal go_observeresp m
  | VReportReq m => Marshal go_reportreq m
  | VReportRes m => Marshal go_reportres m
  | VBroadcastObservationMap m => Marshal go_observationmap m
  | VBroadcastFinalReport m => Marshal go_bfinalreport m
  | VFinalEcho m => Marshal go_finalecho m
  | VProgressRound m => Marshal go_progressround m
  end.

Definition unmarshal_as {A} (g : gotype A) (box : A → goval) (data : bytes) : result goval :=
  a ← Unmarshal g (zero g) data; Ok (box a).

Definition JSONCodec_Decode (k : kind) (data : bytes) : result goval :=
  match k with
  | KRPCMessage => unmarshal_as go_rpcmessage VRPCMessage data
  | KMessage => unmarshal_as go_message VMessage data
  | KStatusMsg => unmarshal_as go_status VStatusMsg data
  | KNewEpochMesage => unmarshal_as go_newepoch VNewEpochMesage data
  | KChangeLeaderMessage =>
      j ← parse data;
      match j with
      | JNull | JObj _ => Ok VChangeLeaderMessage
      | _ => Error type_error
      end
  | KObserveReq => unmarshal_as go_observereq VObserveReq data
  | KObserveResp => unmarshal_as go_observeresp VObserveResp data
  | KReportReq => unmarshal_as go_reportreq VReportReq data
  | KReportRes => unmarshal_as go_reportres VReportRes data
  | KBroadcastObservationMap => unmarshal_as go_observationmap VBroadcastObservationMap data
  | KBroadcastFinalReport => unmarshal_as go_bfinalreport VBroadcastFinalReport data
  | KFinalEcho => unmarshal_as go_finalecho VFinalEcho data
  | KProgressRound => unmarshal_as go_progressround VProgressRound data
  end.

#[export] Instance JSONCodec : Codec := {|
  Encode := JSONCodec_Encode;
  Decode := JSONCodec_Decode
|}.

(** ** Laws *)

Create HintDb lawful.
#[export] Hint Resolve go_uint_lawful go_int_lawful go_big_lawful go_string_lawful
  go_float_lawful go_bytes_lawful go_any_lawful go_slice_lawful go_map_lawful : lawful.
#[export] Hint Extern 5 (_ < _) => lia : lawful.
#[export] Hint Extern 5 (_ ≤ _) => lia : lawful.

(** What one encoded field gives to the proof about its structure. *)
Lemma enc_field_inv {A} name (g : gotype A) P d a kj :
  lawful g P d → P a → enc_field name g a = Ok kj →
  ∃ j, kj = (name, j) ∧ dec g (zero g) j = Ok a ∧ wf d j = true.
Proof.
  intros Hg Ha. unfold enc_field. rewrite result_bind_ok. intros (j & Hj & [= <-]).
  exists j. split; [done|]. split; [by apply (enc_dec Hg Ha Hj)|by apply (enc_wf Hg Ha Hj)].
Qed.

(** Take an encoded structure, nested at depth [d], apart into its fields. *)
Ltac open_fields d :=
  repeat match goal with
  | H : enc_object _ = Ok _ |- _ => unfold enc_object in H
  | H : result_map _ (_ :: _) = Ok _ |- _ => cbn [result_map] in H
  | H : result_map _ [] = Ok _ |- _ => cbn [result_map] in H
  | H : (_ ≫= _) = Ok _ |- _ => apply result_bind_ok in H as (? & ? & ?)
  | H : Ok _ = Ok _ |- _ => injection H as H; subst
  | H : enc_field _ _ _ = Ok _ |- _ =>
      eapply (enc_field_inv _ _ _ (d - 1)) in H as (? & -> & ? & ?);
        [|solve [eauto with lawful]|first [exact I | eassumption]]
  end.

(** Read a known object back. *)
Ltac read_back :=
  repeat first
    [ rewrite dec_field_miss by first [reflexivity | assumption]
    | rewrite dec_field_hit by first [reflexivity | apply String.eqb_refl]
    | rewrite dec_field_nil
    | match goal with H : dec ?g _ ?j = Ok _ |- context [dec ?g ?a ?j] =>
        change (dec g a j) with (dec g (zero g) j); rewrite H
      end
    | progress cbn [mbind result_bind] ].

Ltac print_well :=
  cbn [wf forallb fst snd];
  repeat match goal with H : wf _ _ = true |- _ => rewrite H end;
  first [ reflexivity
        | match goal with |- context [?a <? ?b] => destruct (Z.ltb_spec a b); [reflexivity|lia] end ].

Lemma go_signature_lawful d : 0 < d → lawful go_signature (λ _, True) d.
Proof.
  intros Hd. split; intros [r t] j _; cbn [enc go_signature sig_R sig_S]; intros H;
    open_fields d; cbn [dec go_signature zero sig_R sig_S no_signature]; [read_back; done|print_well].
Qed.
#[export] Hint Resolve go_signature_lawful : lawful.

Definition rpcmessage_ok (m : RPCMessage) : Prop := is_utf8 (FromID m) = true.

Lemma go_rpcmessage_lawful d : 1 < d → lawful go_rpcmessage rpcmessage_ok d.
Proof.
  intros Hd. split; intros [f p g] j Hf; unfold rpcmessage_ok in Hf; cbn in Hf;
    cbn [enc go_rpcmessage FromID Payload rpc_Signature]; intros H; open_fields d;
    cbn [dec go_rpcmessage zero FromID Payload rpc_Signature]; [|print_well].
  read_back. done.
Qed.

#[export] Hint Resolve go_rpcmessage_lawful : lawful.

Definition message_ok (m : Message) : Prop := 0 ≤ Headers m < 2 ^ 8 ∧ 0 ≤ msg_Topic m < 2 ^ 8.

Lemma go_message_lawful d : 0 < d → lawful go_message message_ok d.
Proof.
  intros Hd. split; intros [h t x] j [Hh Ht];
    cbn [enc go_message Headers msg_Topic Data] in *; intros H; open_fields d;
    cbn [dec go_message]; [read_back; done|print_well].
Qed.

Definition status_ok (m : StatusMsg) : Prop :=
  is_utf8 (Id m) = true ∧ is_utf8 (NetworkId m) = true ∧ is_utf8 (ListenAddr m) = true.

Lemma go_status_lawful d : 0 < d → lawful go_status status_ok d.
Proof.
  intros Hd. split; intros [i n l] j (Hi & Hn & Hl);
    cbn [enc go_status Id NetworkId ListenAddr] in *; intros H; open_fields d;
    cbn [dec go_status]; [read_back; done|print_well].
Qed.

Lemma go_newepoch_lawful d : 0 < d → lawful go_newepoch (λ m, is_u64 (EpochID m)) d.
Proof.
  intros Hd. split; intros [e] j He; cbn [enc go_newepoch EpochID] in *; unfold is_u64 in He;
    intros H; open_fields d; cbn [dec go_newepoch]; [read_back; done|print_well].
Qed.

Definition common_ok (c : common) : Prop :=
  (0 ≤ Epoch c < 2 ^ 64) ∧ (0 ≤ Round c < 2 ^ 64) ∧ is_utf8 (Leader c) = true.

Lemma go_only_lawful {T} (mk : common → T) (get_c : T → common) d :
  0 < d → (∀ c, get_c (mk c) = c) → (∀ m, mk (get_c m) = m) →
  lawful (go_only mk get_c) (λ m, common_ok (get_c m)) d.
Proof.
  intros Hd Hc Hm. split; intros m j (He & Hr & Hl); cbn [enc go_only]; unfold enc_common;
    intros H; open_fields d; [|print_well].
  cbn [dec go_only zero]. unfold dec_common. rewrite Hc. read_back.
  rewrite <-(Hm m) at 4. by destruct (get_c m).
Qed.

(** The extra field has a name of its own. *)
Definition fresh_name (name : string) : bool :=
  negb (String.eqb (fold_name name) "epoch") && negb (String.eqb (fold_name name) "round") &&
  negb (String.eqb (fold_name name) "leader") && is_utf8 name.

Lemma go_with_lawful {A T} name (g : gotype A) P (mk : common → A → T) get_c get_a d :
  0 < d → lawful g P (d - 1) → fresh_name name = true →
  (∀ c a, get_c (mk c a) = c) → (∀ c a, get_a (mk c a) = a) → (∀ m, mk (get_c m) (get_a m) = m) →
  lawful (go_with name g mk get_c get_a) (λ m, common_ok (get_c m) ∧ P (get_a m)) d.
Proof.
  intros Hd Hg Hn Hc Ha Hm. unfold fresh_name in Hn.
  rewrite !andb_true_iff, !negb_true_iff in Hn. destruct Hn as [[[Hne Hnr] Hnl] Hu].
  pose proof Hne as Hen; pose proof Hnr as Hrn; pose proof Hnl as Hln.
  rewrite String.eqb_sym in Hen, Hrn, Hln.
  change "epoch" with (fold_name "epoch") in Hne, Hen.
  change "round" with (fold_name "round") in Hnr, Hrn.
  change "leader" with (fold_name "leader") in Hnl, Hln.
  split; intros m j ((He & Hr & Hl) & HP); cbn [enc go_with]; unfold enc_common; cbn [app];
    intros H; open_fields d; [|cbn [wf forallb fst snd]; rewrite Hu; print_well].
  cbn [dec go_with zero]. unfold dec_common. rewrite Hc, Ha. read_back.
  rewrite <-(Hm m) at 5. by destruct (get_c m).
Qed.

Lemma go_signatory_lawful d : 1 < d → lawful go_signatory (λ s, is_utf8 (sg_ID s) = true) d.
Proof.
  intros Hd. split; intros [g i] j Hi; cbn [enc go_signatory sg_Sign sg_ID] in *; intros H;
    open_fields d; cbn [dec go_signatory]; [read_back; done|print_well].
Qed.
#[export] Hint Resolve go_signatory_lawful : lawful.

Definition finalreport_ok (r : FinalReport) : Prop :=
  entries_ok scalar_ok (fr_Report r) ∧ Forall (λ s, is_utf8 (sg_ID s) = true) (elems (fr_Signatories r)).

Lemma go_finalreport_lawful d : 3 < d → lawful go_finalreport finalreport_ok d.
Proof.
  intros Hd. split; intros [p g] j [Hp Hg]; cbn [enc go_finalreport fr_Report fr_Signatories] in *;
    intros H; open_fields d; cbn [dec go_finalreport]; [read_back; done|print_well].
Qed.

Definition observation_ok (o : JobObservationResponse) : Prop := is_utf8 (obs_JobId o) = true.

Lemma go_observation_lawful d : 0 < d → lawful go_observation observation_ok d.
Proof.
  intros Hd. unfold observation_ok.
  split; intros [i r] j Hi; cbn [enc go_observation obs_JobId obs_Response] in *;
    intros H; open_fields d; cbn [dec go_observation]; [read_back; done|print_well].
Qed.

Lemma go_template_lawful d :
  lawful go_template (λ t, match t with TAny a => scalar_ok a | TParams _ => False end) d.
Proof.
  split; intros [p|a] j Ha; try done; cbn [enc dec go_template]; intros Hj.
  - pose proof (enc_dec (go_any_lawful d) Ha Hj) as Hd. simpl in Hd. by rewrite Hd.
  - by apply (enc_wf (go_any_lawful d) Ha Hj).
Qed.
#[export] Hint Resolve go_finalreport_lawful go_observation_lawful go_template_lawful : lawful.

(** A job description whose template is already in its wire form. *)
Definition jobinfo_ok (i : JobInfo) : Prop :=
  is_utf8 (info_JobID i) = true ∧ is_utf8 (info_JobType i) = true ∧ is_i64 (info_Timeout i) ∧
  match info_Template i with TAny a => scalar_ok a | TParams _ => False end.

Lemma go_jobinfo_lawful d : 0 < d → lawful go_jobinfo jobinfo_ok d.
Proof.
  intros Hd. split; intros [i t p o] j (Hi & Ht & Ho & Hp);
    cbn [enc go_jobinfo info_JobID info_JobType info_Template info_Timeout] in *;
    intros H; open_fields d; cbn [dec go_jobinfo]; [read_back; done|print_well].
Qed.
#[export] Hint Resolve go_jobinfo_lawful : lawful.

(** The values that survive the JSON codec. *)
Definition json_ok (v : goval) : Prop :=
  match v with
  | VNil => False
  | VRPCMessage m => rpcmessage_ok m
  | VMessage m => message_ok m
  | VStatusMsg m => status_ok m
  | VNewEpochMesage m => is_u64 (EpochID m)
  | VChangeLeaderMessage => True
  | VObserveReq m => common_ok (oq_common m) ∧ Forall jobinfo_ok (elems (Jobs m))
  | VObserveResp m => common_ok (or_common m) ∧ Forall observation_ok (elems (JobResponses m))
  | VReportReq m => common_ok (rq_common m) ∧ True
  | VReportRes m => common_ok (rr_common m) ∧ entries_ok scalar_ok (Reports m)
  | VBroadcastObservationMap m => common_ok (om_common m) ∧ True
  | VBroadcastFinalReport m => common_ok (bf_common m) ∧ finalreport_ok (bf_FinalReport m)
  | VFinalEcho m => common_ok (fe_common m)
  | VProgressRound m => common_ok (pr_common m)
  end.

Lemma unmarshal_as_Marshal {A} (g : gotype A) P box a b :
  lawful g P max_depth → P a → Marshal g a = Ok b → unmarshal_as g box b = Ok (box a).
Proof.
  intros Hg Ha Hb. unfold unmarshal_as. by rewrite (Unmarshal_Marshal g P a b Hg Ha Hb).
Qed.

Lemma unmarshal_as_kind {A} (g : gotype A) (box : A → goval) k b v :
  (∀ a, kind_of (box a) = Some k) → unmarshal_as g box b = Ok v → kind_of v = Some k.
Proof.
  intros Hk. unfold unmarshal_as. rewrite result_bind_ok. by intros (a & _ & [= <-]).
Qed.

#[export] Hint Resolve go_message_lawful go_status_lawful go_newepoch_lawful : lawful.
#[export] Hint Extern 1 (lawful _ _ _) => (eapply go_with_lawful; [lia| |done|done|done|by intros []]) : lawful.
#[export] Hint Extern 1 (lawful _ _ _) => (eapply go_only_lawful; [lia|done|by intros []]) : lawful.

Lemma json_decode_encode v k b :
  json_ok v → kind_of v = Some k → JSONCodec_Encode v = Ok b → JSONCodec_Decode k b = Ok v.
Proof.
  intros Hv Hk Hb. assert (max_depth = 10000) as Hmax by done.
  destruct v; simplify_eq/=; try done;
    unfold go_observereq, go_observeresp, go_reportreq, go_reportres, go_observationmap,
      go_bfinalreport, go_finalecho, go_progressround in *;
    (eapply unmarshal_as_Marshal; [rewrite Hmax; solve [eauto 6 with lawful]|exact Hv|exact Hb]).
Qed.

(** JSON keeps what the code relies on a codec for. *)
#[export] Instance JSONCodec_laws : CodecLaws JSONCodec json_ok.
Proof.
  split; [exact json_decode_encode|].
  intros [] b v; cbn [Decode JSONCodec JSONCodec_Decode];
    try (apply unmarshal_as_kind; intros; reflexivity).
  rewrite result_bind_ok. by intros ([] & _ & [= <-]).
Qed.

(** ** Whatever the value, when it is read at all *)
Lemma go_uint_read bits a z z' : dec (go_uint bits) a (JNum (Itoa z)) = Ok z' → z' = z.
Proof.
  cbn [dec go_uint]. unfold parse_uint. rewrite Atoi_Itoa. cbn [mbind option_bind].
  destruct (all_digits _); [|done]. by destruct (_ <? _); [intros [= <-]|].
Qed.

Lemma message_read m b v :
  Encode (VMessage m) = Ok b → Decode KMessage b = Ok v →
  ∃ m', v = VMessage m' ∧ Headers m' = Headers m ∧ Data m' = Data m.
Proof.
  destruct m as [h t x]. cbn [Encode Decode JSONCodec JSONCodec_Encode JSONCodec_Decode].
  unfold Marshal, unmarshal_as, Unmarshal. rewrite result_bind_ok. intros (j & Hj & [= <-]).
  assert (wf max_depth j = true) as Hwf.
  { injection Hj as <-. cbn [wf forallb fst snd]. rewrite !wf_Itoa. by destruct x; cbn [wf]; rewrite ?base64_utf8. }
  rewrite (parse_print_wf j) by done. cbn [mbind result_bind].
  assert (dec go_bytes (zero go_bytes) (match x with None => JNull | Some d => JStr (Base64.EncodeToString d) end) = Ok x) as Hx.
  { by apply (enc_dec (go_bytes_lawful 0) (a := x)). }
  injection Hj as <-. cbn [dec go_message zero Headers msg_Topic Data].
  rewrite !result_bind_ok. intros (m' & Hm' & [= <-]). exists m'. split; [done|].
  apply result_bind_ok in Hm' as (h' & Hh & Hm'). apply result_bind_ok in Hm' as (t' & _ & Hm').
  apply result_bind_ok in Hm' as (d & Hd & [= <-]). cbn [Headers Data]. split.
  - rewrite dec_field_hit in Hh by apply String.eqb_refl.
    apply result_bind_ok in Hh as (h'' & ->%go_uint_read & Hh). revert Hh. read_back. by intros [= <-].
  - revert Hd. read_back. by intros [= <-].
Qed.

Lemma empty_report_read c b v :
  Encode (VReportRes {| rr_common := c; Reports := Some ∅ |}) = Ok b → Decode KReportRes b = Ok v →
  ∃ m, v = VReportRes m ∧ Reports m = Some ∅.
Proof.
  destruct c as [e r l]. cbn [Encode Decode JSONCodec JSONCodec_Encode JSONCodec_Decode].
  set (t := JObj [("epoch", JNum (Itoa e)); ("round", JNum (Itoa r)); ("leader", JStr l);
                  ("reports", JObj [])]).
  change (Marshal go_reportres _) with (Ok (print t)). generalize (parse_print_scrub t).
  generalize (print t). intros txt Ht [= <-].
  unfold unmarshal_as, Unmarshal. rewrite Ht; subst t.
  2:{ cbn [scrub map wf forallb fst snd]. rewrite !wf_Itoa, !utf8_to_valid. by vm_compute. }
  cbn [mbind result_bind scrub map fst snd]. rewrite !result_bind_ok. intros (m & Hm & [= <-]).
  exists m. split; [done|]. unfold go_reportres, go_with in Hm. cbn [dec zero rr_common Reports] in Hm.
  apply result_bind_ok in Hm as (c' & _ & Hm). apply result_bind_ok in Hm as (rs & Hrs & [= <-]).
  revert Hrs. cbn [Reports]. rewrite !to_valid_utf8 by done. read_back.
  by intros [= <-].
Qed.

(** The names in a status message are read, whatever the address is. *)
Lemma status_read m b v :
  is_utf8 (Id m) = true → is_utf8 (NetworkId m) = true →
  Encode (VStatusMsg m) = Ok b → Decode KStatusMsg b = Ok v →
  ∃ m', v = VStatusMsg m' ∧ Id m' = Id m ∧ NetworkId m' = NetworkId m.
Proof.
  destruct m as [i n a]. cbn [Id NetworkId Encode Decode JSONCodec JSONCodec_Encode JSONCodec_Decode].
  intros Hi Hn. set (t := JObj [("Id", JStr i); ("NetworkId", JStr n); ("ListenAddr", JStr a)]).
  change (Marshal go_status _) with (Ok (print t)). generalize (parse_print_scrub t).
  generalize (print t). intros txt Ht [= <-]. unfold unmarshal_as, Unmarshal. rewrite Ht; subst t.
  2:{ cbn [scrub map wf forallb fst snd]. rewrite !utf8_to_valid. by vm_compute. }
  cbn [mbind result_bind scrub map fst snd]. rewrite !result_bind_ok. intros (m & Hm & [= <-]).
  exists m. split; [done|]. cbn [dec go_status zero Id NetworkId ListenAddr] in Hm.
  rewrite (to_valid_utf8 i Hi), (to_valid_utf8 n Hn), !to_valid_utf8 in Hm by done.
  apply result_bind_ok in Hm as (i' & Hi' & Hm). apply result_bind_ok in Hm as (n' & Hn' & Hm).
  apply result_bind_ok in Hm as (a' & _ & [= <-]). cbn [Id NetworkId].
  split; [revert Hi'|revert Hn']; read_back; by intros [= <-].
Qed.

(** ** Encoding succeeds *)
Definition total {A} (g : gotype A) (P : A → Prop) : Prop := ∀ a, P a → ∃ j, enc g a = Ok j.

Section total.
Context {A : Type} (g : gotype A) (P : A → Prop) (Hg : total g P).

Lemma result_map_total {B C} (f : B → result C) l :
  (∀ x, x ∈ l → ∃ y, f x = Ok y) → ∃ l', result_map f l = Ok l'.
Proof.
  induction l as [|x l IH]; intros Hl; [by eexists|].
  destruct (Hl x) as [y Hy]; [by left|]. destruct IH as [l' Hl']; [intros; apply Hl; by right|].
  exists (y :: l'). cbn [result_map]. by rewrite Hy, Hl'.
Qed.

Lemma go_slice_total : total (go_slice g) (λ s, Forall P (elems s)).
Proof.
  intros [l|] Hl; [|by eexists]. destruct (result_map_total (enc g) l) as [js Hjs].
  - intros x Hx. apply Hg. by eapply Forall_forall in Hl.
  - exists (JArr js). cbn [enc go_slice]. by rewrite Hjs.
Qed.

Lemma go_map_total : total (go_map g) (entries_ok P).
Proof.
  intros [m|] Hm; [|by eexists].
  destruct (result_map_total (λ kv, j ← enc g kv.2; Ok (kv.1, j)) (sorted_entries m))
    as [js Hjs].
  - intros [k v]. rewrite sorted_entries_perm, elem_of_map_to_list. intros Hkv.
    destruct (Hg v) as [j Hj]; [by eapply Hm|]. exists (k, j). cbn [fst snd]. by rewrite Hj.
  - exists (JObj js). cbn [enc go_map]. by rewrite Hjs.
Qed.

Lemma enc_field_total name a : P a → ∃ kj, enc_field name g a = Ok kj.
Proof. intros Ha. destruct (Hg a Ha) as [j Hj]. exists (name, j). unfold enc_field. by rewrite Hj. Qed.

Lemma Marshal_total a : P a → ∃ b, Marshal g a = Ok b.
Proof. intros Ha. destruct (Hg a Ha) as [j Hj]. exists (print j). unfold Marshal. by rewrite Hj. Qed.
End total.

Lemma enc_object_total fs :
  Forall (λ r, ∃ kj, r = Ok kj) fs → ∃ j, enc_object fs = Ok j.
Proof.
  intros Hfs. unfold enc_object. destruct (result_map_total (λ r, r) fs) as [l Hl].
  - intros r Hr. by eapply Forall_forall in Hfs.
  - exists (JObj l). by rewrite Hl.
Qed.

Create HintDb total.

Lemma scalars_total :
  (∀ bits, total (go_uint bits) (λ _, True)) ∧ total go_int (λ _, True) ∧
  total go_big (λ _, True) ∧ total go_string (λ _, True) ∧ total go_bytes (λ _, True).
Proof. by repeat split; intros; intros a Ha; eexists. Qed.

Lemma go_float_total : total go_float float_ok.
Proof. intros f (lit & Hl & _)%json_float_reads. exists (JNum lit). simpl. by rewrite Hl. Qed.

Lemma go_any_total : total go_any scalar_ok.
Proof.
  intros [|b|f|s|l|m] Ha; try done; try by eexists.
  apply json_float_reads in Ha as (lit & Hl & _). exists (JNum lit). simpl. by rewrite Hl.
Qed.

#[export] Hint Resolve go_any_total go_slice_total go_map_total : total.
#[export] Hint Extern 3 (total _ _) => (apply scalars_total) : total.

(** The fields of a structure one by one; the condition on each is given. *)
Ltac fields_total :=
  apply enc_object_total; cbn [app enc_common];
  repeat first [apply Forall_nil_2 | apply Forall_cons_2];
  try (eapply enc_field_total; [solve [eauto with total]|first [exact I | eassumption]]).

Lemma go_signature_total : total go_signature (λ _, True).
Proof. intros [r s] _. cbn [enc go_signature]. fields_total. Qed.
#[export] Hint Resolve go_signature_total : total.

Lemma go_signatory_total : total go_signatory (λ s, is_utf8 (sg_ID s) = true).
Proof. intros [g i] H. cbn [enc go_signatory]. fields_total. Qed.
#[export] Hint Resolve go_signatory_total : total.

Lemma go_finalreport_total : total go_finalreport finalreport_ok.
Proof. intros [r s] [Hr Hs]. cbn [enc go_finalreport fr_Report fr_Signatories] in *. fields_total. Qed.

Lemma go_observation_total : total go_observation observation_ok.
Proof. intros [i r] H. cbn [enc go_observation]. fields_total. Qed.

Lemma go_jobinfo_total : total go_jobinfo jobinfo_ok.
Proof.
  intros [i t [p|a] o] (Hi & Ht & Ho & Ha); [done|]. cbn [enc go_jobinfo info_Template] in *.
  fields_total. unfold enc_field. cbn [enc go_template].
  destruct (go_any_total a Ha) as [j Hj]. rewrite Hj. by eexists.
Qed.
#[export] Hint Resolve go_finalreport_total go_observation_total go_jobinfo_total : total.

Lemma go_with_total {A T} name (g : gotype A) P (mk : common → A → T) get_c get_a :
  total g P → total (go_with name g mk get_c get_a) (λ m, common_ok (get_c m) ∧ P (get_a m)).
Proof. intros Hg m [Hc Ha]. cbn [enc go_with]. fields_total. Qed.

Lemma JSONCodec_Encode_total v : json_ok v → ∃ b, JSONCodec_Encode v = Ok b.
Proof.
  destruct v; cbn [json_ok JSONCodec_Encode]; intros Hv; try done; try (by eexists);
    try (eapply Marshal_total; [eapply go_with_total; solve [eauto with total]|exact Hv]);
    unfold Marshal; cbn [enc go_rpcmessage go_message go_status go_newepoch go_finalecho
      go_progressround go_only].
  all: match goal with |- context [enc_object ?fs] =>
         assert (∃ j, enc_object fs = Ok j) as [j ->] by fields_total; by eexists end.
Qed.

(** An envelope around a payload that can be encoded. *)
Lemma rpc_bytes_total id headers topic v sig data :
  is_utf8 id = true → 0 ≤ headers < 2 ^ 8 → 0 ≤ topic < 2 ^ 8 → JSONCodec_Encode v = Ok data →
  ∃ b, rpc_bytes (H := JSONCodec) id headers topic v sig = Ok b.
Proof.
  intros Hid Hh Ht Hd. unfold rpc_bytes, RPCMessageBuilder_Bytes, RPCMessageBuilder_Build.
  cbn -[JSONCodec]. change (Encode v) with (JSONCodec_Encode v). rewrite Hd. cbn [wrap mbind result_bind].
  destruct (JSONCodec_Encode_total (VMessage {| Headers := headers; msg_Topic := topic; Data := Some data |}))
    as [m Hm]; [by split|].
  cbn [Encode JSONCodec]. rewrite Hm. cbn [wrap mbind result_bind].
  by apply (JSONCodec_Encode_total (VRPCMessage _)).
Qed.


(** A map is encoded only if its values are. *)
Lemma enc_map_values {A} (g : gotype A) m j :
  enc (go_map g) (Some m) = Ok j → ∀ k v, m !! k = Some v → ∃ j', enc g v = Ok j'.
Proof.
  cbn [enc go_map]. intros (js & Hjs & _)%result_bind_ok k v Hk.
  apply result_map_ok in Hjs.
  assert ((k, v) ∈ sorted_entries m) as Hin by (by rewrite sorted_entries_perm, elem_of_map_to_list).
  apply list_elem_of_lookup in Hin as [i Hi].
  destruct (Forall2_lookup_l _ _ _ _ _ Hjs Hi) as ([k' j'] & _ & Hj).
  apply result_bind_ok in Hj as (j0 & Hj & _). by exists j0.
Qed.

(** ** The header of a reporter message *)

(** The common fields of a message, if it has them. *)
Definition common_of (v : goval) : option common :=
  match v with
  | VObserveReq m => Some (oq_common m)
  | VObserveResp m => Some (or_common m)
  | VReportReq m => Some (rq_common m)
  | VReportRes m => Some (rr_common m)
  | VBroadcastObservationMap m => Some (om_common m)
  | VBroadcastFinalReport m => Some (bf_common m)
  | VFinalEcho m => Some (fe_common m)
  | VProgressRound m => Some (pr_common m)
  | _ => None
  end.

Definition message_header (c : common) : string :=
  "{" +:+ (print_string "epoch" +:+ ":" +:+ Itoa (Epoch c)) +:+ "," +:+
  (print_string "round" +:+ ":" +:+ Itoa (Round c)) +:+ "," +:+
  (print_string "leader" +:+ ":" +:+ print_string (Leader c)).

Lemma str_app_assoc (a b c : string) : (a +:+ b) +:+ c = a +:+ (b +:+ c).
Proof. induction a as [|x a IH]; [done|]. simpl. by rewrite IH. Qed.

Lemma str_app_length (a b : string) :
  String.length (a +:+ b) = (String.length a + String.length b)%nat.
Proof. induction a as [|x a IH]; [done|]. simpl. by rewrite IH. Qed.

Lemma print_common (c : common) (fs : list (string * json)) :
  ∃ t, print (JObj ([("epoch", JNum (Itoa (Epoch c))); ("round", JNum (Itoa (Round c)));
                     ("leader", JStr (Leader c))] ++ fs)) = message_header c +:+ t.
Proof.
  unfold message_header. cbn [print app map fst snd sep]. destruct fs as [|f fs].
  - exists "}". cbn [map]. by rewrite !str_app_assoc.
  - eexists. cbn [map]. rewrite !str_app_assoc. reflexivity.
Qed.

(** Whatever its type, a message starts with its common fields. *)
Lemma encoded_header v c b :
  common_of v = Some c → JSONCodec_Encode v = Ok b → ∃ t, b = message_header c +:+ t.
Proof.
  intros Hc Hb.
  assert (∀ js l, result_map (λ r, r) (enc_common c ++ js) = Ok l →
    ∃ fs, l = [("epoch", JNum (Itoa (Epoch c))); ("round", JNum (Itoa (Round c)));
               ("leader", JStr (Leader c))] ++ fs) as Hl.
  { intros js l. cbn. destruct (result_map (λ r, r) js) as [fs|]; [|done].
    intros [= <-]. by exists fs. }
  destruct v; cbn [common_of JSONCodec_Encode] in Hc, Hb; simplify_eq; unfold Marshal in Hb; apply result_bind_ok in Hb as (j & Hj & [= <-]);
    cbn [enc go_observereq go_observeresp go_reportreq go_reportres go_observationmap
      go_bfinalreport go_finalecho go_progressround go_with go_only] in Hj;
    unfold enc_object in Hj; apply result_bind_ok in Hj as (l & Hj & [= <-]);
    first [apply Hl in Hj as [fs ->] | rewrite <-(app_nil_r (enc_common _)) in Hj;
      apply Hl in Hj as [fs ->]]; apply print_common.
Qed.

Lemma Itoa_nonempty z : (1 ≤ String.length (Itoa z))%nat.
Proof.
  destruct (Itoa z) as [|c s] eqn:E; [|simpl; lia].
  pose proof (Atoi_Itoa z) as H. by rewrite E in H.
Qed.

Lemma message_header_length c : (32 ≤ String.length (message_header c))%nat.
Proof.
  unfold message_header, print_string. change (escape "epoch") with "epoch".
  change (escape "round") with "round". change (escape "leader") with "leader".
  repeat (rewrite !str_app_length || cbn [String.length]).
  pose proof (Itoa_nonempty (Epoch c)). pose proof (Itoa_nonempty (Round c)). lia.
Qed.

(** All the reporter messages of one epoch, round and leader have the same
    first 32 bytes. *)
Lemma same_first_32 v v' c b b' :
  common_of v = Some c → common_of v' = Some c →
  JSONCodec_Encode v = Ok b → JSONCodec_Encode v' = Ok b' →
  take 32 (to_bytes b) = take 32 (to_bytes b').
Proof.
  intros Hv Hv' Hb Hb'. destruct (encoded_header v c b Hv Hb) as [t ->].
  destruct (encoded_header v' c b' Hv' Hb') as [t' ->].
  rewrite !to_bytes_app, !take_app_le; [done|..];
    rewrite to_bytes_length; apply message_header_length.
Qed.

(** C23: what a node sends is what the others read: a message whose strings are
    UTF-8, whose integers are in range and whose values are scalars (null,
    booleans, strings, and float64s other than infinities and NaN) is encoded,
    and its encoding decodes, as its own type, to itself: the digits that are
    written for a float read back as the float. *)
Theorem codec_roundtrip v k :
  json_ok v → kind_of v = Some k →
  ∃ b, Encode (Codec := JSONCodec) v = Ok b ∧ Decode (Codec := JSONCodec) k b = Ok v.
Proof.
  intros Hv Hk. destruct (JSONCodec_Encode_total v Hv) as [b Hb].
  exists b. split; [exact Hb|]. by apply (json_decode_encode v k b).
Qed.

(** A message of each kind of payload. *)
Definition sample_common : common := {| Epoch := 3; Round := 2 ^ 64 - 1; Leader := "02ab" |}.
Definition sample_report : ReportRes :=
  {| rr_common := sample_common; Reports := Some {["job-1" := AFloat (float_of "3012.55"); "job-2" := AStr "a<b"]} |}.
Definition sample_echo : FinalEcho := {| fe_common := sample_common |}.

Lemma codec_roundtrip_witness :
  ∃ b, Encode (VReportRes sample_report) = Ok b ∧ Decode KReportRes b = Ok (VReportRes sample_report).
Proof.
  apply codec_roundtrip; [|reflexivity]. split; [split; [done|]; split; done|].
  apply map_Forall_insert_2; [split; [done|vm_compute; reflexivity]|]. by apply map_Forall_singleton.
Defined.

(** C40: a signature made for one reporter message is a signature of every
    other message of the same epoch, round and leader, whatever its type and
    contents: only the header is covered. *)
Theorem reporter_signatures_interchangeable `{Ecdsa} v v' c b b' sig p :
  common_of v = Some c → common_of v' = Some c →
  Encode (Codec := JSONCodec) v = Ok b → Encode (Codec := JSONCodec) v' = Ok b' →
  Verify sig b p = Verify sig b' p.
Proof.
  intros Hv Hv' Hb Hb'. unfold Verify, ecdsa_Verify, hashToNat.
  by rewrite (same_first_32 v v' c b b' Hv Hv' Hb Hb').
Qed.

(** The signature under an echo, as the signature of a report. *)
Lemma reporter_signatures_interchangeable_witness :
  let E := plain_ecdsa in
  let sig := {| sig_R := Some 7; sig_S := Some 1 |} in
  match Encode (VFinalEcho sample_echo), Encode (VReportRes sample_report) with
  | Ok b, Ok b' => b ≠ b' ∧ Verify sig b base_key = Verify sig b' base_key
  | _, _ => False
  end.
Proof.
  intros E sig. destruct (Encode (VFinalEcho sample_echo)) as [b|] eqn:Hb; [|by vm_compute in Hb].
  destruct (Encode (VReportRes sample_report)) as [b'|] eqn:Hb'; [|by vm_compute in Hb'].
  split.
  - intros ->. rewrite <-Hb in Hb'. by vm_compute in Hb'.
  - by apply (reporter_signatures_interchangeable (VFinalEcho sample_echo)
      (VReportRes sample_report) sample_common).
Defined.
