(* ===== verification/Typing.v ===== *)
(** * What a decoder can make

    encoding/json only makes well-typed values: the strings are UTF-8, the
    numbers in the range of their field, the floats finite and the maps in
    order.  So whatever the network brings, a message that has been decoded can
    be encoded again, as every handler does to check its signature. *)

From Stdlib Require Import Ascii SpecFloat.
From S2P Require Import Prelude Bytes Crypto Strconv Json Floats GoJson Jobs Rpc.

(** ** Text *)
Lemma is_utf8_app s t : is_utf8 s = true → is_utf8 t = true → is_utf8 (s +:+ t) = true.
Proof.
  intros Hs Ht. revert s Hs. apply is_utf8_ind; [exact Ht|..]; intros; cbn [String.append is_utf8];
    destruct (Z.ltb_spec (code a) 128); try lia;
    repeat match goal with H : _ = _ |- _ => rewrite H end; done.
Qed.

Lemma is_utf8_ascii c : code c < 128 → is_utf8 (String c "") = true.
Proof. intros Hc. cbn [is_utf8]. by destruct (Z.ltb_spec (code c) 128); [|lia]. Qed.

(** A rune that is neither half of a surrogate pair nor too large. *)
Lemma encode_utf8 r : 0 ≤ r < 1114112 → surrogate r = false → is_utf8 (Utf8.encode r) = true.
Proof.
  intros Hr Hs. unfold surrogate in Hs. unfold Utf8.encode.
  destruct (Z.ltb_spec r 128); [apply is_utf8_ascii; rewrite code_chr; lia|].
  destruct (Z.ltb_spec r 2048); [|destruct (Z.ltb_spec r 65536)]; cbn [of_bytes is_utf8];
    rewrite !code_chr by euclid; unfold Utf8.two, Utf8.three, Utf8.four, Utf8.cont.
  all: assert (is_utf8 "" = true) as _ by done.
  all: repeat match goal with |- context [if ?c then _ else _] =>
         first [replace c with true by (symmetry; euclid) | replace c with false by (symmetry; euclid)] end.
  all: rewrite ?andb_true_r; euclid.
Qed.

Lemma getu4_range s r s' : getu4 s = Some (r, s') → 0 ≤ r < 65536.
Proof.
  destruct s as [|a [|b [|c [|d s]]]]; try done. cbn [getu4]. intros Hg.
  repeat (apply bind_Some in Hg as (? & ?%Hex.value_range & Hg)). injection Hg as <- _. lia.
Qed.

(** What the scanner puts into a string. *)
Lemma unquote_emit (p : string) (m : option (string * string)) t rest :
  is_utf8 p = true → (∀ t rest, m = Some (t, rest) → is_utf8 t = true) →
  ('(t, rest) ← m; Some (p +:+ t, rest)) = Some (t, rest) → is_utf8 t = true.
Proof.
  intros Hp Hm He. destruct m as [[t' r']|]; [|done]. injection He as <- _.
  apply is_utf8_app; [done|]. by eapply Hm.
Qed.

Lemma simple_escape_ascii c z : simple_escape c = Some z → 0 ≤ z < 128.
Proof. unfold simple_escape. intros. guards; lia. Qed.

Lemma unquote_utf8 fuel : ∀ s t rest, unquote fuel s = Some (t, rest) → is_utf8 t = true.
Proof.
  induction fuel as [|fuel IH]; [done|]. intros s t rest. cbn [unquote].
  assert (∀ p s, is_utf8 p = true →
    ('(t, rest) ← unquote fuel s; Some (p +:+ t, rest)) = Some (t, rest) → is_utf8 t = true) as Hemit.
  { intros p s' Hp. eapply unquote_emit; [done|apply IH]. }
  destruct s as [|a s1]; [done|]. pose proof (code_range a) as Ha.
  destruct (_ =? 34); [by intros [= <- _]|]. destruct (code a =? 92).
  { destruct s1 as [|e s2]; [done|]. destruct (code e =? 117).
    - intros ([r s3] & Hr%getu4_range & H)%bind_Some.
      destruct (surrogate r) eqn:Hs; [|revert H; apply Hemit, encode_utf8; [lia|done]].
      destruct s3 as [|x [|y s4]]; try (by revert H; apply Hemit).
      destruct (_ && _); [|by revert H; apply Hemit].
      apply bind_Some in H as ([r' s5] & Hr'%getu4_range & H). destruct (_ && _) eqn:Hc;
        [|by revert H; apply Hemit]. revert H. unfold surrogate in Hs. apply Hemit, encode_utf8; [lia|].
      unfold surrogate. lia.
    - intros (z & Hz%simple_escape_ascii & H)%bind_Some. revert H. apply Hemit, is_utf8_ascii.
      rewrite code_chr; lia. }
  destruct (code a <? 32); [done|]. destruct (Z.ltb_spec (code a) 128) as [Hlt|Hge].
  { apply Hemit. by apply is_utf8_ascii. }
  destruct s1 as [|b s2]; [done|]. pose proof Hge as Hb%Z.ltb_ge.
  destruct (Utf8.two _ _) eqn:E2; [apply Hemit; cbn [is_utf8]; by rewrite Hb, E2|].
  destruct s2 as [|c s3]; [by apply Hemit|].
  destruct (Utf8.three _ _ _) eqn:E3; [apply Hemit; cbn [is_utf8]; by rewrite Hb, E2, E3|].
  destruct s3 as [|d s4]; [by apply Hemit|].
  destruct (Utf8.four _ _ _ _) eqn:E4; [|by apply Hemit].
  apply Hemit. cbn [is_utf8]. by rewrite Hb, E2, E3, E4.
Qed.

(** ** Trees *)
Lemma span_chars p s : all_chars p (span p s).1 = true.
Proof.
  induction s as [|c s IH]; [done|]. cbn [span]. destruct (p c) eqn:Hc; [|done].
  destruct (span p s). cbn [fst all_chars] in *. by rewrite Hc.
Qed.

(** A tree that has been read is well formed, within the depth it was read at. *)
Definition reads_wf (fuel : nat) : Prop := ∀ d s rest,
  (∀ j, value fuel d s = Some (j, rest) → wf d j = true) ∧
  (∀ l, elements fuel d s = Some (l, rest) → forallb (wf d) l = true) ∧
  (∀ l, members fuel d s = Some (l, rest) → forallb (λ kj, is_utf8 kj.1 && wf d kj.2) l = true).

Ltac take_bind H := let r := fresh "r" in apply bind_Some in H as ([? r] & ? & H).

Lemma value_reads_wf fuel d s rest j :
  reads_wf fuel → value (S fuel) d s = Some (j, rest) → wf d j = true.
Proof.
  intros IH. cbn [value]. destruct (skip s) as [|c s']; [done|].
  destruct (code c =? 34).
  { intros H. take_bind H. injection H as <- _. by eapply unquote_utf8. }
  destruct (code c =? 91).
  { destruct (Z.leb_spec d 0); [done|]. assert ((0 <? d) = true) as Hd by lia.
    destruct (skip s') as [|e rest']; [done|].
    destruct (code e =? 93); [intros [= <- _]; cbn [wf forallb]; by rewrite Hd|].
    intros H'. take_bind H'. injection H' as <- _. cbn [wf]. rewrite Hd.
    destruct (IH (d - 1) s' r) as (_ & Hl & _). by apply Hl. }
  destruct (code c =? 123).
  { destruct (Z.leb_spec d 0); [done|]. assert ((0 <? d) = true) as Hd by lia.
    destruct (skip s') as [|e rest']; [done|].
    destruct (code e =? 125); [intros [= <- _]; cbn [wf forallb]; by rewrite Hd|].
    intros H'. take_bind H'. injection H' as <- _. cbn [wf]. rewrite Hd.
    destruct (IH (d - 1) s' r) as (_ & _ & Hl). by apply Hl. }
  destruct (code c =? 110); [by intros (? & _ & [= <- _])%bind_Some|].
  destruct (code c =? 116); [by intros (? & _ & [= <- _])%bind_Some|].
  destruct (code c =? 102); [by intros (? & _ & [= <- _])%bind_Some|].
  pose proof (span_chars number_char (String c s')) as Hsp. destruct (span _ _) as [lit r].
  destruct (valid_number lit) eqn:Hv; [|done]. intros [= <- _]. cbn [wf]. unfold wf_number.
  by rewrite Hv.
Qed.

Lemma elements_reads_wf fuel d s rest l :
  reads_wf fuel → elements (S fuel) d s = Some (l, rest) → forallb (wf d) l = true.
Proof.
  intros IH. cbn [elements]. intros H. take_bind H. destruct (IH d s r) as (Hj & _).
  destruct (skip r) as [|c rest']; [done|]. destruct (code c =? 44).
  - take_bind H. injection H as <- _. cbn [forallb]. rewrite Hj by done.
    destruct (IH d rest' r0) as (_ & Hl & _). by rewrite Hl.
  - destruct (code c =? 93); [|done]. injection H as <- _. cbn [forallb]. by rewrite Hj.
Qed.

Lemma members_reads_wf fuel d s rest l :
  reads_wf fuel → members (S fuel) d s = Some (l, rest) →
  forallb (λ kj, is_utf8 kj.1 && wf d kj.2) l = true.
Proof.
  intros IH. cbn [members]. destruct (skip s) as [|q s']; [done|].
  destruct (code q =? 34); [|done]. intros H. apply bind_Some in H as ([k r] & Hk%unquote_utf8 & H).
  destruct (skip r) as [|c r']; [done|]. destruct (code c =? 58); [|done].
  apply bind_Some in H as ([j r2] & Hv & H). destruct (IH d r' r2) as (Hj & _).
  destruct (skip r2) as [|c2 r3]; [done|]. destruct (code c2 =? 44).
  - apply bind_Some in H as ([l' r4] & Hl' & H). injection H as <- _. cbn [forallb fst snd].
    destruct (IH d r3 r4) as (_ & _ & Hl). by rewrite Hk, Hj, Hl.
  - destruct (code c2 =? 125); [|done]. injection H as <- _. cbn [forallb fst snd]. by rewrite Hk, Hj.
Qed.

Lemma reads_all_wf fuel : reads_wf fuel.
Proof.
  induction fuel as [|fuel IH]; [done|]. intros d s rest.
  split; [|split]; intros ?; eauto using value_reads_wf, elements_reads_wf, members_reads_wf.
Qed.

Lemma parse_wf s j : parse s = Ok j → wf max_depth j = true.
Proof.
  unfold parse. destruct (value _ _ _) as [[j' rest]|] eqn:Hv; [|done].
  destruct (skip rest); [|done]. intros [= <-]. by eapply reads_all_wf.
Qed.

(** ** Numbers *)
Definition finite (f : float64) : bool :=
  match f with S754_zero _ | S754_finite _ _ _ => true | _ => false end.

(** Rounding a mantissa that is not negative never makes a NaN. *)
Lemma shr_nonneg r e n : 0 ≤ shr_m r → 0 ≤ shr_m (shr r e n).1.
Proof.
  intros Hr. destruct n as [|p|p]; [done| |done]. cbn [shr fst].
  assert (∀ r, 0 ≤ shr_m r → 0 ≤ shr_m (shr_1 r)) as H1.
  { intros [m x y]. cbn [shr_m shr_1]. intros Hm. destruct m as [|[q|q|]|[q|q|]]; cbn [shr_m]; lia. }
  revert r Hr. induction p as [p IH|p IH|]; intros r Hr; cbn [iter_pos];
    [by apply IH, IH, H1|by apply IH, IH|by apply H1].
Qed.

Lemma shr_fexp_nonneg prec emax m e l : 0 ≤ m → 0 ≤ shr_m (shr_fexp prec emax m e l).1.
Proof. intros Hm. unfold shr_fexp. apply shr_nonneg. by destruct l as [|[]]. Qed.

Lemma binary_round_aux_number prec emax s m e l :
  0 ≤ m → binary_round_aux prec emax s m e l ≠ S754_nan.
Proof.
  intros Hm. unfold binary_round_aux. pose proof (shr_fexp_nonneg prec emax m e l Hm) as H1.
  destruct (shr_fexp prec emax m e l) as [r e']. cbn [fst] in H1.
  assert (0 ≤ round_nearest_even (shr_m r) (loc_of_shr_record r)) as H2.
  { unfold round_nearest_even. destruct (loc_of_shr_record r) as [|[]]; try lia. destruct (Z.even _); lia. }
  pose proof (shr_fexp_nonneg prec emax _ e' loc_Exact H2) as H3.
  destruct (shr_fexp prec emax (round_nearest_even _ _) e' loc_Exact) as [r2 e2]. cbn [fst] in H3.
  destruct (shr_m r2); [done| |lia]. by destruct (_ <=? _).
Qed.

Lemma binary_normalize_number prec emax m e s : binary_normalize prec emax m e s ≠ S754_nan.
Proof.
  unfold binary_normalize, binary_round. destruct m; [done|..];
    destruct (shl_align _ _ _); by apply binary_round_aux_number.
Qed.

Lemma of_ratio_number neg num den : Float64.of_ratio neg num den ≠ S754_nan.
Proof.
  unfold Float64.of_ratio, SFdiv, SFdiv_core_binary.
  set (s := Z.min _ _). match goal with |- context [Z.div_eucl ?m _] => set (m' := m) end.
  destruct (Z.div_eucl m' (Zpos den)) as [q r] eqn:Hq. apply binary_round_aux_number.
  assert (0 ≤ m') as Hm'.
  { subst m'. clearbody s. destruct (_ - s); [lia| |lia]. apply Z.shiftl_nonneg. lia. }
  pose proof (Z.div_pos m' (Zpos den) Hm' eq_refl) as Hp. unfold Z.div in Hp. by rewrite Hq in Hp.
Qed.

Lemma number_no_nan l f : ParseFloat.number l = Some f → f ≠ S754_nan.
Proof.
  unfold ParseFloat.number. destruct (ParseFloat.sign l) as [neg l1].
  destruct (match l1 with 48 :: _ => _ | _ => _ end) as [hex l2].
  destruct (ParseFloat.mantissa _ _ _ _ _ _) as [[[m frac] []] rest]; [|done].
  intros (e & _ & [= <-])%bind_Some. destruct hex.
  - unfold Float64.of_binary. destruct m; try done. apply binary_normalize_number.
  - unfold Float64.of_decimal. destruct m; try done. guards; apply of_ratio_number.
Qed.

Lemma ParseFloat_finite lit f : valid_number lit = true → ParseFloat lit = Ok f → finite f = true.
Proof.
  intros Hv. unfold ParseFloat. rewrite number_not_special by done.
  destruct (_ ≫= ParseFloat.number) as [[]|] eqn:Hn; try done; try by intros [= <-].
  apply bind_Some in Hn as (l & _ & Hn). by apply number_no_nan in Hn.
Qed.

(** ** Typed Go types

    [Q] is a type of values that the decoder stays in and the encoder takes. *)
Record typed {A} (g : gotype A) (Q : A → Prop) : Prop := {
  typed_zero : Q (zero g);
  typed_dec d a j a' : Q a → wf d j = true → dec g a j = Ok a' → Q a';
  typed_enc : total g Q
}.
Arguments typed_dec {A g Q} _ {d a j a'} _ _ _.

Create HintDb typed.

Lemma Unmarshal_typed {A} (g : gotype A) Q a b a' :
  typed g Q → Q a → Unmarshal g a b = Ok a' → Q a'.
Proof.
  intros Hg Ha. unfold Unmarshal. rewrite result_bind_ok. intros (j & Hj%parse_wf & Hd).
  by eapply (typed_dec Hg).
Qed.

(** *** Scalars *)
Lemma Atoi_digits lit z : all_digits lit = true → Atoi lit = Some z → 0 ≤ z.
Proof.
  unfold Atoi. intros Hd (i & Hi & ->)%fmap_Some.
  pose proof (DecimalString.NilZero.sis _ _ Hi) as Hs. destruct i as [u|u]; [apply N2Z.is_nonneg|].
  rewrite <-Hs in Hd. done.
Qed.

Lemma parse_uint_range bits lit z : parse_uint bits lit = Some z → 0 ≤ z < 2 ^ bits.
Proof.
  unfold parse_uint. destruct (all_digits lit) eqn:Hd; [|done].
  intros (x & Hx & Hz)%bind_Some. pose proof (Atoi_digits _ _ Hd Hx). destruct (Z.ltb_spec x (2 ^ bits)); [|done].
  injection Hz as <-. lia.
Qed.

Lemma go_uint_typed bits : 0 ≤ bits → typed (go_uint bits) (λ z, 0 ≤ z < 2 ^ bits).
Proof.
  intros Hb. split; [cbn; lia| |by eexists]. intros d a [] a' Ha _; cbn [dec go_uint]; try done.
  - by intros [= <-].
  - destruct (parse_uint bits lit) eqn:Hp; [|done]. intros [= <-]. by eapply parse_uint_range.
Qed.

Lemma go_int_typed : typed go_int is_i64.
Proof.
  split; [done| |by eexists]. intros d a [] a' Ha _; cbn [dec go_int]; try done; [by intros [= <-]|].
  destruct (if all_digits _ then _ else _) as [z|]; [|done].
  destruct (_ && _) eqn:Hr; [|done]. intros [= <-]. unfold is_i64. lia.
Qed.

Lemma go_big_typed : typed go_big (λ _, True).
Proof. by split; [| |eexists]. Qed.

Lemma go_string_typed : typed go_string (λ s, is_utf8 s = true).
Proof.
  split; [done| |by eexists]. intros d a [] a' Ha Hj; cbn [dec go_string]; try done; by intros [= <-].
Qed.

Lemma go_bytes_typed : typed go_bytes (λ _, True).
Proof. by split; [| |eexists]. Qed.

Lemma json_float_total f : finite f = true → ∃ lit, json_float f = Ok lit.
Proof.
  destruct f; try done; intros _; [by eexists|]. cbn [json_float]. destruct (FormatFloat.shortest _ _).
  by eexists.
Qed.

(** *** Composite types *)
Lemma go_slice_typed {A} (g : gotype A) Q : typed g Q → typed (go_slice g) (λ s, Forall Q (elems s)).
Proof.
  intros Hg. split; [by constructor| |by apply go_slice_total, Hg].
  intros d a [] a' Ha Hj; cbn [dec go_slice]; try done; [by intros [= <-]; constructor|].
  cbn [wf] in Hj. apply andb_true_iff in Hj as [_ Hl]. rewrite result_bind_ok.
  intros (xs & Hxs%result_map_ok & [= <-]). cbn. revert Hl.
  induction Hxs as [|j x l xs Hx _ IH]; cbn [forallb]; [by constructor|].
  rewrite andb_true_iff. intros [Hj Hl]. constructor; [|by apply IH].
  by apply (typed_dec Hg (typed_zero _ _ Hg) Hj Hx).
Qed.

Lemma entries_typed {A} (g : gotype A) Q d l kvs :
  typed g Q → forallb (λ kj, is_utf8 kj.1 && wf d kj.2) l = true →
  result_map (λ kj, v ← dec g (zero g) kj.2; Ok (kj.1, v)) l = Ok kvs →
  Forall (λ kv, is_utf8 kv.1 = true ∧ Q kv.2) kvs.
Proof.
  intros Hg Hl Hm%result_map_ok. revert Hl.
  induction Hm as [|[k j] kv l kvs Hx _ IH]; cbn [forallb fst snd]; [by constructor|].
  rewrite !andb_true_iff. intros [[Hk Hj] Hl]. constructor; [|by apply IH].
  apply result_bind_ok in Hx as (v & Hv & [= <-]). split; [done|].
  by apply (typed_dec Hg (typed_zero _ _ Hg) Hj Hv).
Qed.

Lemma go_map_typed {A} (g : gotype A) Q : typed g Q → typed (go_map g) (entries_ok Q).
Proof.
  intros Hg. split; [apply map_Forall_empty| |by apply go_map_total, Hg].
  intros d a [] a' Ha Hj; cbn [dec go_map]; try done; [by intros [= <-]; apply map_Forall_empty|].
  cbn [wf] in Hj. apply andb_true_iff in Hj as [_ Hl]. rewrite result_bind_ok.
  intros (kvs & Hkvs & [= <-]). pose proof (entries_typed g Q _ _ _ Hg Hl Hkvs) as Hq.
  unfold entries_ok in *. cbn [entries default]. clear Hkvs Hl. revert Ha. generalize (entries a).
  induction Hq as [|[k v] kvs [Hk Hv] _ IH]; intros m Hm; [done|]. cbn [foldl fst snd].
  apply IH. by apply map_Forall_insert_2.
Qed.

(** *** Structures *)
Lemma dec_field_typed {A} name (g : gotype A) Q d a fs a' :
  typed g Q → Q a → forallb (λ kj, is_utf8 kj.1 && wf d kj.2) fs = true →
  dec_field name g a fs = Ok a' → Q a'.
Proof.
  intros Hg Ha Hfs. revert a Ha. unfold dec_field.
  induction fs as [|[k j] fs IH]; intros a Ha; [by intros [= <-]|].
  cbn [forallb fst snd] in Hfs. rewrite !andb_true_iff in Hfs. destruct Hfs as [[_ Hj] Hfs].
  cbn [List.filter]. destruct (field_is name (k, j)); [|by apply IH].
  cbn [foldl]. destruct (dec g a j) as [a1|e] eqn:Hd; cbn [snd mbind result_bind] in *; rewrite Hd.
  - apply IH; [done|]. by apply (typed_dec Hg Ha Hj Hd).
  - intros H. exfalso. revert H. clear. induction (List.filter _ fs); simpl; done.
Qed.

(** ** interface{} values *)

(** Keys in strictly increasing order, as a Go map has each key once. *)
Fixpoint increasing (l : list string) : bool :=
  match l with
  | x :: ((y :: _) as l') => String.ltb x y && increasing l'
  | _ => true
  end.

Fixpoint any_ok (a : any) : bool :=
  match a with
  | ANil | ABool _ => true
  | AFloat f => finite f
  | AStr s => is_utf8 s
  | AArr l => forallb any_ok l
  | AMap m => increasing (map fst m) && forallb (λ kv, is_utf8 kv.1 && any_ok kv.2) m
  end.

Lemma increasing_cons k l :
  increasing (k :: l) = match l with [] => true | y :: _ => String.ltb k y && increasing l end.
Proof. by destruct l. Qed.

Lemma any_store_head {A} k (v : A) m :
  head (map fst (any_store k v m)) = Some k ∨ head (map fst (any_store k v m)) = head (map fst m).
Proof. destruct m as [|[k' v'] m]; [by left|]. cbn. destruct (String.compare k k'); auto. Qed.

Lemma increasing_store {A} k (v : A) m :
  increasing (map fst m) = true → increasing (map fst (any_store k v m)) = true.
Proof.
  induction m as [|[k' v'] m IH]; [done|]. cbn [any_store]. intros Hm.
  destruct (String.compare k k') eqn:Hc.
  - by apply String.compare_eq_iff in Hc as ->.
  - cbn [map fst] in *. rewrite increasing_cons, Hm. unfold String.ltb. by rewrite Hc.
  - cbn [map fst] in *. rewrite increasing_cons in Hm |- *.
    pose proof (any_store_head k v m) as Hh.
    assert (increasing (map fst m) = true) as Hi by (destruct m; [done|]; by apply andb_true_iff in Hm as [_ ?]).
    specialize (IH Hi). destruct (map fst (any_store k v m)) as [|y l] eqn:Hl; [done|].
    rewrite IH, andb_true_r. cbn [head] in Hh.
    destruct Hh as [[= ->]|Hh].
    + unfold String.ltb. rewrite String.compare_antisym, Hc. done.
    + destruct m; [done|]. injection Hh as ->. by apply andb_true_iff in Hm as [? _].
Qed.

Lemma store_ok {A} (p : A → bool) k v m :
  is_utf8 k = true → p v = true → forallb (λ kv, is_utf8 kv.1 && p kv.2) m = true →
  forallb (λ kv, is_utf8 kv.1 && p kv.2) (any_store k v m) = true.
Proof.
  intros Hk Hv. induction m as [|[k' v'] m IH]; cbn [any_store forallb fst snd]; [by rewrite Hk, Hv|].
  rewrite !andb_true_iff. intros [Hkv Hm].
  destruct (String.compare k k'); cbn [forallb fst snd]; rewrite ?andb_true_iff; auto.
Qed.

Lemma any_of_json_ok j : ∀ d a, wf d j = true → any_of_json j = Ok a → any_ok a = true.
Proof.
  induction j as [|b|lit|s|l Hl|l Hl] using json_ind'; intros d a Hw; cbn [any_of_json wf] in *.
  - by intros [= <-].
  - by intros [= <-].
  - destruct (ParseFloat lit) eqn:Hp; [|done]. intros [= <-]. unfold wf_number in Hw.
    apply andb_true_iff in Hw as [Hv _]. by apply (ParseFloat_finite lit).
  - by intros [= <-].
  - apply andb_true_iff in Hw as [_ Hw]. rewrite result_bind_ok. intros (xs & Hxs%result_map_ok & [= <-]).
    cbn [any_ok]. revert Hw xs Hxs. induction Hl as [|j l Hj _ IH]; cbn [map forallb]; intros Hw xs Hxs;
      inversion Hxs as [|? x ? xs' Hx Hxs']; subst; [done|]. apply andb_true_iff in Hw as [Hwj Hwl].
    cbn [forallb]. by rewrite (Hj _ _ Hwj Hx), (IH Hwl xs' Hxs').
  - apply andb_true_iff in Hw as [_ Hw]. rewrite result_bind_ok. intros (kvs & Hkvs%result_map_ok & [= <-]).
    assert (Forall (λ kv, is_utf8 kv.1 = true ∧ any_ok kv.2 = true) kvs) as Hok.
    { revert Hw kvs Hkvs. induction Hl as [|kj l Hj _ IH]; cbn [map forallb]; intros Hw kvs Hkvs;
        inversion Hkvs as [|? x ? xs' Hx Hxs']; subst; [done|]. rewrite !andb_true_iff in Hw.
      destruct Hw as [[Hk Hwj] Hwl]. constructor; [|by apply IH].
      cbn [fst snd] in Hx. apply result_bind_ok in Hx as (v & Hv & [= <-]). split; [done|].
      by apply (Hj _ _ Hwj Hv). }
    cbn [any_ok]. clear Hkvs Hl Hw. enough (∀ m, increasing (map fst m) = true →
      forallb (λ kv, is_utf8 kv.1 && any_ok kv.2) m = true →
      let m' := foldl (λ m kv, any_store kv.1 kv.2 m) m kvs in
      increasing (map fst m') && forallb (λ kv, is_utf8 kv.1 && any_ok kv.2) m' = true) as H
      by by apply H.
    induction Hok as [|[k v] kvs [Hk Hv] _ IH]; intros m Hi Hm; cbn [foldl]; cbv zeta; [by rewrite Hi, Hm|].
    apply IH; [by apply increasing_store|by apply store_ok].
Qed.

Lemma any_to_json_total : ∀ a, any_ok a = true → ∃ j, any_to_json a = Ok j.
Proof.
  fix IH 1. intros [|b|f|s|l|m]; cbn [any_ok any_to_json]; intros Ha; try by eexists.
  - destruct (json_float_total f Ha) as [lit Hl]. exists (JNum lit). cbn. by rewrite Hl.
  - enough (∃ js, result_map (λ r, r) (map any_to_json l) = Ok js) as [js ->] by by eexists.
    induction l as [|x l IHl]; [by eexists|]. cbn [forallb] in Ha. apply andb_true_iff in Ha as [Hx Hl].
    cbn [map result_map]. destruct (IH x Hx) as [j ->], (IHl Hl) as [js Hjs]. cbn. rewrite Hjs. by eexists.
  - apply andb_true_iff in Ha as [_ Ha]. match goal with |- context [result_map ?f ?l'] =>
      enough (∃ js, result_map f l' = Ok js) as [js ->] by by eexists end.
    induction m as [|[k x] m IHm]; [by eexists|]. cbn [forallb fst snd] in Ha. rewrite !andb_true_iff in Ha.
    destruct Ha as [[_ Hx] Hm]. cbn [map result_map fst snd].
    destruct (IH x Hx) as [j ->], (IHm Hm) as [js Hjs]. cbn. rewrite Hjs. by eexists.
Qed.

Lemma go_any_typed : typed go_any (λ a, any_ok a = true).
Proof.
  split; [done| |exact any_to_json_total]. intros d a j a' _ Hj. by apply (any_of_json_ok j d).
Qed.

(** A description of a job that has been decoded has its template in wire form. *)
Definition template_typed (t : template) : Prop :=
  match t with TAny a => any_ok a = true | TParams _ => False end.

Lemma go_template_typed : typed go_template template_typed.
Proof.
  split; [done| |].
  - intros d a j a' _ Hj. cbn [dec go_template]. rewrite result_bind_ok. intros (x & Hx & [= <-]).
    by apply (any_of_json_ok j d).
  - intros [p|a] Ha; [done|]. by apply any_to_json_total.
Qed.

#[export] Hint Resolve go_uint_typed go_int_typed go_big_typed go_string_typed go_bytes_typed
  go_slice_typed go_map_typed go_any_typed go_template_typed : typed.
#[export] Hint Extern 2 (0 ≤ _) => lia : typed.

(** Take the decoder of a structure apart, and its value field by field. *)
Ltac fields_typed :=
  let d := fresh "d" in let a := fresh in let j := fresh in let a' := fresh in let Ha := fresh in
  let Hj := fresh in
  intros d a j a' Ha Hj; destruct j; try done; [by intros [= <-]|];
  cbn [wf] in Hj; apply andb_true_iff in Hj as [_ Hj]; simpl in Ha; destruct_and? Ha;
  let H := fresh in intros H; simpl in H;
  repeat match goal with
  | H : (_ ≫= _) = Ok _ |- _ => apply result_bind_ok in H as (? & ? & ?)
  | H : Ok _ = Ok _ |- _ => injection H as <-
  end;
  repeat match goal with
  | H : dec_field _ _ _ _ = Ok _ |- _ =>
      eapply dec_field_typed in H; [|solve [eauto with typed]|first [exact I | eassumption | split; eassumption]|eassumption]
  end.

(** Encode a structure field by field. *)
Ltac encodes :=
  let a := fresh "a" in let Ha := fresh in intros a Ha; simpl in Ha; destruct_and? Ha;
  cbn [enc go_with go_only]; apply enc_object_total; cbn [app enc_common];
  repeat first [apply Forall_nil_2 | apply Forall_cons_2];
  (eapply enc_field_total; [apply typed_enc; solve [eauto with typed]|first [exact I | eassumption | split; eassumption]]).

(** ** The messages *)
Lemma go_signature_typed : typed go_signature (λ _, True).
Proof. split; [done|done|apply go_signature_total]. Qed.
#[export] Hint Resolve go_signature_typed : typed.

Lemma go_rpcmessage_typed : typed go_rpcmessage rpcmessage_ok.
Proof. unfold rpcmessage_ok. split; [done|fields_typed; done|encodes]. Qed.

Lemma go_message_typed : typed go_message message_ok.
Proof. unfold message_ok. split; [done|fields_typed; by split|encodes]. Qed.

Lemma go_status_typed : typed go_status status_ok.
Proof. unfold status_ok. split; [done|fields_typed; done|encodes]. Qed.

Lemma go_newepoch_typed : typed go_newepoch (λ m, is_u64 (EpochID m)).
Proof. unfold is_u64. split; [done|fields_typed; done|encodes]. Qed.

Lemma dec_common_typed d c fs c' :
  common_ok c → forallb (λ kj, is_utf8 kj.1 && wf d kj.2) fs = true →
  dec_common c fs = Ok c' → common_ok c'.
Proof.
  intros (He & Hr & Hl) Hfs. unfold dec_common.
  rewrite result_bind_ok. intros (e & Hde & H). apply result_bind_ok in H as (r & Hdr & H).
  apply result_bind_ok in H as (l & Hdl & [= <-]).
  pose proof (go_uint_typed 64 ltac:(lia)) as Hu.
  pose proof (dec_field_typed _ _ _ _ _ _ _ Hu He Hfs Hde).
  pose proof (dec_field_typed _ _ _ _ _ _ _ Hu Hr Hfs Hdr).
  by pose proof (dec_field_typed _ _ _ _ _ _ _ go_string_typed Hl Hfs Hdl).
Qed.

Lemma go_with_typed {A T} name (g : gotype A) Q (mk : common → A → T) get_c get_a :
  typed g Q → (∀ c a, get_c (mk c a) = c) → (∀ c a, get_a (mk c a) = a) →
  typed (go_with name g mk get_c get_a) (λ m, common_ok (get_c m) ∧ Q (get_a m)).
Proof.
  intros Hg Hc Ha. split.
  - cbn. rewrite Hc, Ha. split; [done|]. apply Hg.
  - intros d m [] m' [Hmc Hma] Hj; cbn [dec go_with]; try done; [by intros [= <-]|].
    cbn [wf] in Hj. apply andb_true_iff in Hj as [_ Hj]. rewrite result_bind_ok. intros (c & Hdc & H).
    apply result_bind_ok in H as (a & Hda & [= <-]). rewrite Hc, Ha. split.
    + by eapply dec_common_typed.
    + by eapply dec_field_typed.
  - apply go_with_total, Hg.
Qed.

Lemma go_only_typed {T} (mk : common → T) get_c :
  (∀ c, get_c (mk c) = c) → typed (go_only mk get_c) (λ m, common_ok (get_c m)).
Proof.
  intros Hc. split.
  - cbn. by rewrite Hc.
  - intros d m [] m' Hmc Hj; cbn [dec go_only]; try done; [by intros [= <-]|].
    cbn [wf] in Hj. apply andb_true_iff in Hj as [_ Hj]. rewrite result_bind_ok.
    intros (c & Hdc & [= <-]). rewrite Hc. by eapply dec_common_typed.
  - intros m Hm. cbn [enc go_only]. apply enc_object_total. unfold enc_common.
    repeat first [apply Forall_nil_2 | apply Forall_cons_2]; by eexists.
Qed.

Lemma go_signatory_typed : typed go_signatory (λ s, is_utf8 (sg_ID s) = true).
Proof. split; [done|fields_typed; done|encodes]. Qed.
#[export] Hint Resolve go_signatory_typed : typed.

Definition finalreport_typed (r : FinalReport) : Prop :=
  entries_ok (λ a, any_ok a = true) (fr_Report r) ∧
  Forall (λ s, is_utf8 (sg_ID s) = true) (elems (fr_Signatories r)).

Lemma go_finalreport_typed : typed go_finalreport finalreport_typed.
Proof. unfold finalreport_typed. split; [split; [done|by constructor]|fields_typed; done|encodes]. Qed.

Lemma go_observation_typed : typed go_observation observation_ok.
Proof. unfold observation_ok. split; [done|fields_typed; done|encodes]. Qed.

Definition jobinfo_typed (i : JobInfo) : Prop :=
  is_utf8 (info_JobID i) = true ∧ is_utf8 (info_JobType i) = true ∧ is_i64 (info_Timeout i) ∧
  template_typed (info_Template i).

Lemma go_jobinfo_typed : typed go_jobinfo jobinfo_typed.
Proof. unfold jobinfo_typed. split; [done|fields_typed; done|encodes]. Qed.
#[export] Hint Resolve go_finalreport_typed go_observation_typed go_jobinfo_typed : typed.

(** The type of each kind of message. *)
Definition well_typed (v : goval) : Prop :=
  match v with
  | VNil => False
  | VRPCMessage m => rpcmessage_ok m
  | VMessage m => message_ok m
  | VStatusMsg m => status_ok m
  | VNewEpochMesage m => is_u64 (EpochID m)
  | VChangeLeaderMessage => True
  | VObserveReq m => common_ok (oq_common m) ∧ Forall jobinfo_typed (elems (Jobs m))
  | VObserveResp m => common_ok (or_common m) ∧ Forall observation_ok (elems (JobResponses m))
  | VReportReq m => common_ok (rq_common m) ∧ True
  | VReportRes m => common_ok (rr_common m) ∧ entries_ok (λ a, any_ok a = true) (Reports m)
  | VBroadcastObservationMap m => common_ok (om_common m) ∧ True
  | VBroadcastFinalReport m => common_ok (bf_common m) ∧ finalreport_typed (bf_FinalReport m)
  | VFinalEcho m => common_ok (fe_common m)
  | VProgressRound m => common_ok (pr_common m)
  end.

Lemma unmarshal_as_typed {A} (g : gotype A) Q box b v :
  typed g Q → unmarshal_as g box b = Ok v → ∃ a, v = box a ∧ Q a ∧ ∃ j, enc g a = Ok j.
Proof.
  intros Hg. unfold unmarshal_as. rewrite result_bind_ok. intros (a & Ha & [= <-]).
  pose proof (Unmarshal_typed g Q _ b a Hg (typed_zero _ _ Hg) Ha) as HQ.
  exists a. split; [done|]. split; [done|]. by apply (typed_enc _ _ Hg).
Qed.

(** The kinds whose values have no floating-point numbers behind interfaces. *)
Definition plain (k : kind) : bool :=
  match k with KObserveReq | KReportRes | KBroadcastFinalReport => false | _ => true end.

Lemma plain_json_ok v k : kind_of v = Some k → plain k = true → well_typed v → json_ok v.
Proof. by destruct v; intros [= <-]. Qed.

#[local] Hint Resolve go_rpcmessage_typed go_message_typed go_status_typed go_newepoch_typed : typed.

Lemma decoded_typed k b v : JSONCodec_Decode k b = Ok v →
  well_typed v ∧ ∃ b', JSONCodec_Encode v = Ok b'.
Proof.
  destruct k; cbn [JSONCodec_Decode]; intros Hd;
    try (apply result_bind_ok in Hd as ([] & _ & [= <-]); by split; [|eexists]);
    unfold go_observereq, go_observeresp, go_reportreq, go_reportres, go_observationmap,
      go_bfinalreport, go_finalecho, go_progressround in Hd;
    eapply unmarshal_as_typed in Hd as (a & -> & Ha & j & Hj);
    try first [solve [eauto with typed] | apply go_only_typed; done
              | apply go_with_typed; [solve [eauto with typed]|done|done]];
    (split; [exact Ha|]); cbn [JSONCodec_Encode]; unfold Marshal;
    unfold go_observereq, go_observeresp, go_reportreq, go_reportres, go_observationmap,
      go_bfinalreport, go_finalecho, go_progressround; rewrite Hj; by eexists.
Qed.

(** C22: what the network brings is well typed or refused: a message that the
    decoder makes from any bytes is of the kind it was asked for, its strings
    are UTF-8, its numbers in the range of their fields, its floats finite and
    its maps in order; so it can always be encoded again, as the handlers do to
    check its signature, and, where no floats are involved, decoding that gives
    the same message. *)
Theorem decoded_well_typed k b v :
  Decode (Codec := JSONCodec) k b = Ok v →
  kind_of v = Some k ∧ well_typed v ∧
  ∃ b', Encode (Codec := JSONCodec) v = Ok b' ∧
    (plain k = true → Decode (Codec := JSONCodec) k b' = Ok v).
Proof.
  intros Hd. pose proof (decode_kind k b v Hd) as Hk.
  destruct (decoded_typed k b v Hd) as [Ht [b' Hb']]. split; [done|]. split; [done|].
  exists b'. split; [done|]. intros Hp. apply (json_decode_encode v k b'); [|done..].
  by apply (plain_json_ok v k).
Qed.

(** A response with blanks, a field that is not known, one that comes twice, half
    of a surrogate pair and a byte that is not UTF-8; apostrophes stand for
    quotes. *)
Definition untidy : bytes :=
  of_bytes ((λ z, if z =? 39 then 34 else if z =? 94 then 255 else z) <$> to_bytes
    " { 'epoch' : 3, 'x': [1e3, {}], 'LEADER': '\ud800', 'leader': '^', 'jobResponses': [null, {'job_id': 'a'}] } ").

Lemma decoded_well_typed_witness :
  ∃ v, Decode KObserveResp untidy = Ok v ∧ well_typed v ∧
  ∃ b', Encode v = Ok b' ∧ b' ≠ untidy ∧ Decode KObserveResp b' = Ok v.
Proof.
  destruct (Decode KObserveResp untidy) as [v|] eqn:Hd; [|by vm_compute in Hd].
  exists v. split; [done|]. destruct (decoded_well_typed KObserveResp untidy v Hd) as (_ & Ht & b' & Hb & Hr).
  split; [done|]. exists b'. split; [done|]. split; [|by apply Hr].
  intros ->. vm_compute in Hd. injection Hd as <-. by vm_compute in Hb.
Defined.
