(* ===== verification/LeaderSelection.v ===== *)
(** * ocr/leader_selection.go and the wait for a leader

    [findLeader], [hashPeer] and [exponentialBackoff] (of [pacemaker.go]).
    The AVL tree of peers is a third-party container: its traversal is a
    range over a map in an unknown order, which covers every order the tree
    may have. *)

From Stdlib Require Import Ascii OrderedTypeEx.
From S2P Require Import Prelude Bytes Sha256.

(** ** Peers *)

(** network/peer.go *)
Record Peer := { peer_ID : string; Addr : string }.

(** server.go: the embedded pointer is nil in the peer that stands for the
    node itself. *)
Record ProtcolPeer := { ServerID : string; embedded : option Peer }.

(** The tree of peers, by network id. *)
Abbreviation peers_tree := (gmap string ProtcolPeer).

Definition secretKey : bytes := "secretvalue".

(** ** leader_selection.go *)
Definition hashPeer (epoch : Z) (secretKey : bytes) (peerID : string) : string :=
  Hex.EncodeToString (Sha256.hmac secretKey (peerID +:+ Itoa epoch)).

(** One visit of [peers.Each]: the selected peer and its hash. *)
Definition visit (hash : string → string) (acc : option ProtcolPeer * string)
    (peer : ProtcolPeer) : option ProtcolPeer * string :=
  let '(selectedPeer, minHash) := acc in
  let peerHash := hash (ServerID peer) in
  match selectedPeer with
  | None => (Some peer, peerHash)
  | Some _ => if String.ltb peerHash minHash then (Some peer, peerHash) else acc
  end.

Definition pick (hash : string → string) (self : string) (visited : list ProtcolPeer)
    : option ProtcolPeer :=
  match visited with
  | [] => None
  | _ =>
      let '(selectedPeer, minHash) := foldl (visit hash) (None, "") visited in
      if String.ltb (hash self) minHash
      then Some {| ServerID := self; embedded := None |}
      else selectedPeer
  end.

Definition findLeader `{Nondet} (s : list nat) (self : string) (epoch : Z)
    (secretKey : bytes) (peers : peers_tree) : option ProtcolPeer :=
  if (size peers <? 1)%nat then None
  else pick (hashPeer epoch secretKey) self (map_range s peers).*2.

(** ** The wait for a leader

    Durations are in nanoseconds. *)
Definition initTickerTime : Z := 500 * 10 ^ 6.
Definition maxBackoff : Z := 10 * 10 ^ 9.

Definition next_backoff (backoff : Z) : Z :=
  if backoff * 2 >? maxBackoff then maxBackoff else backoff * 2.

(** [peers i] is the tree when it is looked at for the [i]-th time; the result
    comes with the time slept.  [fuel] bounds the number of looks. *)
Fixpoint exponentialBackoff `{Nondet} (fuel : nat) (i : nat) (backoff slept : Z) (epoch : Z)
    (secretKey : bytes) (peers : nat → peers_tree) (serverID : string)
    : option (ProtcolPeer * Z) :=
  match fuel with
  | O => None
  | S fuel =>
      match findLeader [i] serverID epoch secretKey (peers i) with
      | Some leader => Some (leader, slept)
      | None =>
          exponentialBackoff fuel (S i) (next_backoff backoff) (slept + backoff)
            epoch secretKey peers serverID
      end
  end.

(** ** The order on strings *)
Lemma ltb_lt a b : String.ltb a b = true ↔ String_as_OT.lt a b.
Proof.
  unfold String.ltb. rewrite <-String_as_OT.cmp_lt. unfold String_as_OT.cmp.
  by destruct (String.compare a b).
Qed.

Lemma ltb_irrefl a : String.ltb a a = false.
Proof.
  destruct (String.ltb a a) eqn:E; [|done]. apply ltb_lt in E.
  exfalso. by apply (String_as_OT.lt_not_eq _ _ E).
Qed.

Lemma ltb_trans a b c : String.ltb a b = true → String.ltb b c = true → String.ltb a c = true.
Proof. rewrite !ltb_lt. apply String_as_OT.lt_trans. Qed.

Lemma ltb_total a b : String.ltb a b = false → String.ltb b a = false → a = b.
Proof.
  unfold String.ltb. rewrite (String.compare_antisym a b).
  destruct (String.compare b a) eqn:E; simpl; intros; try done.
  symmetry. by apply String.compare_eq_iff.
Qed.

(** [ltb] reversed is a total order. *)
Lemma ltb_false_trans a b c :
  String.ltb a b = false → String.ltb b c = false → String.ltb a c = false.
Proof.
  intros Hab Hbc. destruct (String.ltb a c) eqn:Hac; [|done].
  destruct (String.ltb b a) eqn:Hba.
  - by rewrite (ltb_trans b a c Hba Hac) in Hbc.
  - rewrite (ltb_total a b Hab Hba) in Hac. congruence.
Qed.

(** ** Selection *)
Section pick.
Context (hash : string → string).

(** [id] is the smallest of [ids] by hash. *)
Definition least (id : string) (ids : list string) : Prop :=
  id ∈ ids ∧ ∀ x, x ∈ ids → String.ltb (hash x) (hash id) = false.

Lemma visits_least l : ∀ p0,
  ∃ p, foldl (visit hash) (Some p0, hash (ServerID p0)) l = (Some p, hash (ServerID p)) ∧
    p ∈ p0 :: l ∧ least (ServerID p) (map ServerID (p0 :: l)).
Proof.
  induction l as [|p1 l IH]; intros p0.
  - exists p0. split; [done|]. split; [by left|]. split; [by left|].
    intros x Hx. apply list_elem_of_singleton in Hx as ->. apply ltb_irrefl.
  - cbn [foldl visit]. destruct (String.ltb (hash (ServerID p1)) (hash (ServerID p0))) eqn:E.
    + destruct (IH p1) as (p & Hp & Hin & Hid & Hmin). exists p. split; [done|].
      split; [by right|]. split; [by right|]. intros x Hx.
      apply elem_of_cons in Hx as [->|Hx]; [|by apply Hmin].
      destruct (String.ltb (hash (ServerID p0)) (hash (ServerID p))) eqn:E'; [|done].
      pose proof (Hmin (ServerID p1) ltac:(by left)) as H1. by rewrite (ltb_trans _ _ _ E E') in H1.
    + destruct (IH p0) as (p & Hp & Hin & Hid & Hmin). exists p. split; [done|].
      assert (Hsub : ∀ A (x y z : A) l, x ∈ y :: l → x ∈ y :: z :: l).
      { clear. intros A x y z l. rewrite !elem_of_cons. tauto. }
      split; [by apply Hsub|]. split; [by apply (Hsub string)|]. intros x Hx.
      apply elem_of_cons in Hx as [->|Hx]; [apply Hmin; by left|].
      apply elem_of_cons in Hx as [->|Hx]; [|apply Hmin; by right].
      apply (ltb_false_trans _ (hash (ServerID p0))); [done|]. apply Hmin. by left.
Qed.

Lemma pick_least self visited :
  visited ≠ [] →
  ∃ leader, pick hash self visited = Some leader ∧
    least (ServerID leader) (self :: map ServerID visited) ∧
    (leader = {| ServerID := self; embedded := None |} ∨ leader ∈ visited).
Proof.
  destruct visited as [|p0 l]; [done|]. intros _. unfold pick. cbn [foldl visit].
  destruct (visits_least l p0) as (p & -> & Hin & Hid & Hmin).
  destruct (String.ltb (hash self) (hash (ServerID p))) eqn:E; eexists; (split; [done|]).
  - split; [|by left]. split; [by left|]. intros x Hx. cbn [ServerID].
    apply elem_of_cons in Hx as [->|Hx]; [apply ltb_irrefl|].
    destruct (String.ltb (hash x) (hash self)) eqn:E'; [|done].
    pose proof (Hmin x Hx) as H1. by rewrite (ltb_trans _ _ _ E' E) in H1.
  - split; [|by right]. split; [by right|]. intros x Hx.
    apply elem_of_cons in Hx as [->|Hx]; [done|by apply Hmin].
Qed.

(** Without a tie there is one least element. *)
Lemma least_unique x y ids ids' :
  (∀ z, z ∈ ids ↔ z ∈ ids') →
  (∀ z z', z ∈ ids → z' ∈ ids → hash z = hash z' → z = z') →
  least x ids → least y ids' → x = y.
Proof.
  intros Hids Hinj [Hx Hmx] [Hy Hmy]. apply Hinj; [done|by apply Hids|].
  apply ltb_total; [apply Hmy; by apply Hids|apply Hmx; by apply Hids].
Qed.
End pick.

Lemma hex_length s : String.length (Hex.EncodeToString s) = (2 * String.length s)%nat.
Proof. apply Hex.EncodeToString_length. Qed.

(** The ids that a node chooses from: its own and those of its peers. *)
Definition candidates (self : string) (peers : peers_tree) : gset string :=
  {[self]} ∪ map_to_set (λ _ p, ServerID p) peers.

Section leader.
Context `{Nondet}.

Lemma visited_candidates s self peers x :
  x ∈ self :: map ServerID (map_range s peers).*2 ↔ x ∈ candidates self peers.
Proof.
  unfold candidates. rewrite elem_of_cons, elem_of_union, elem_of_singleton.
  rewrite elem_of_map_to_set, list_elem_of_In, in_map_iff. split; intros [->|Hx]; auto; right.
  - destruct Hx as (p & <- & Hp). apply list_elem_of_In, list_elem_of_fmap in Hp as ([k p'] & -> & Hp).
    exists k, p'. split; [|done]. by apply map_range_elem_of in Hp.
  - destruct Hx as (k & p & Hp & <-). exists p. split; [done|].
    apply list_elem_of_In, list_elem_of_fmap. exists (k, p). split; [done|].
    by apply map_range_elem_of.
Qed.

Lemma findLeader_None s self epoch key peers :
  findLeader s self epoch key peers = None ↔ peers = ∅.
Proof.
  unfold findLeader. destruct (Nat.ltb_spec (size peers) 1) as [Hs|Hs].
  - split; [|done]. intros _. apply map_size_empty_iff. lia.
  - assert ((map_range s peers).*2 ≠ []) as Hne.
    { intros Hnil. apply (f_equal length) in Hnil. rewrite length_fmap, map_range_length in Hnil.
      simpl in Hnil. lia. }
    destruct (pick_least (hashPeer epoch key) self _ Hne) as (l & -> & _). split; [done|].
    intros ->. rewrite map_size_empty in Hs. lia.
Qed.

Lemma findLeader_least s self epoch key peers leader :
  findLeader s self epoch key peers = Some leader →
  ServerID leader ∈ candidates self peers ∧
  (∀ x, x ∈ candidates self peers →
     String.ltb (hashPeer epoch key x) (hashPeer epoch key (ServerID leader)) = false) ∧
  (leader = {| ServerID := self; embedded := None |} ∨ ∃ id, peers !! id = Some leader).
Proof.
  intros Hl. unfold findLeader in Hl. destruct (Nat.ltb_spec (size peers) 1) as [|Hs]; [done|].
  destruct (pick_least (hashPeer epoch key) self (map_range s peers).*2) as (l & Hp & [Hid Hmin] & Hor).
  { intros Hnil. by rewrite Hnil in Hl. }
  rewrite Hl in Hp. injection Hp as <-. setoid_rewrite visited_candidates in Hmin.
  apply visited_candidates in Hid. split; [done|]. split; [done|].
  destruct Hor as [->|Hin]; [by left|right].
  apply list_elem_of_fmap in Hin as ([k p] & -> & Hin). exists k. by apply map_range_elem_of in Hin.
Qed.
End leader.

(** A leader is chosen as soon as there is a peer, whatever the order of
    the tree: it is the node itself or one of its peers, and nobody has a
    smaller hash for the epoch. *)
Theorem findLeader_minimal `{Nondet} s self epoch key peers :
  peers ≠ ∅ →
  ∃ leader, findLeader s self epoch key peers = Some leader ∧
    ServerID leader ∈ candidates self peers ∧
    (∀ x, x ∈ candidates self peers →
       String.ltb (hashPeer epoch key x) (hashPeer epoch key (ServerID leader)) = false).
Proof.
  intros Hne. destruct (findLeader s self epoch key peers) as [leader|] eqn:E.
  - exists leader. split; [done|]. apply findLeader_least in E. tauto.
  - by apply findLeader_None in E.
Qed.

(** Three nodes that know each other. *)
Definition peer_of (net id : string) : ProtcolPeer :=
  {| ServerID := id; embedded := Some {| peer_ID := net; Addr := "" |} |}.
Definition tree_of_a : peers_tree := {["QmB" := peer_of "QmB" "02bb"; "QmC" := peer_of "QmC" "02cc"]}.
Definition tree_of_b : peers_tree := {["QmA" := peer_of "QmA" "02aa"; "QmC" := peer_of "QmC" "02cc"]}.

Lemma findLeader_minimal_witness :
  ∃ leader, findLeader (H := in_order) [] "02aa" 0 secretKey tree_of_a = Some leader ∧
    ServerID leader ∈ candidates "02aa" tree_of_a ∧
    (∀ x, x ∈ candidates "02aa" tree_of_a →
       String.ltb (hashPeer 0 secretKey x) (hashPeer 0 secretKey (ServerID leader)) = false).
Proof. apply (findLeader_minimal (H := in_order)). by vm_compute. Defined.

(** C6: agreement: two nodes that know the same participants choose the same
    leader for the same epoch, in whatever order each of them visits its peers,
    unless two participants have the same hash. *)
Theorem leader_agreement (N1 N2 : Nondet) s1 s2 self1 self2 epoch key peers1 peers2 l1 l2 :
  candidates self1 peers1 = candidates self2 peers2 →
  (∀ x y, x ∈ candidates self1 peers1 → y ∈ candidates self1 peers1 →
     hashPeer epoch key x = hashPeer epoch key y → x = y) →
  findLeader (H := N1) s1 self1 epoch key peers1 = Some l1 →
  findLeader (H := N2) s2 self2 epoch key peers2 = Some l2 →
  ServerID l1 = ServerID l2.
Proof.
  intros Hc Hinj H1 H2.
  apply findLeader_least in H1 as (Hin1 & Hmin1 & _). apply findLeader_least in H2 as (Hin2 & Hmin2 & _).
  rewrite <-Hc in Hin2, Hmin2. apply Hinj; [done..|].
  apply ltb_total; [by apply Hmin2|by apply Hmin1].
Qed.

Lemma candidates_of_a x : x ∈ candidates "02aa" tree_of_a ↔ x = "02aa" ∨ x = "02bb" ∨ x = "02cc".
Proof.
  unfold candidates. rewrite elem_of_union, elem_of_singleton, elem_of_map_to_set.
  split.
  - intros [->|Hx]; [by left|right]. destruct Hx as (k & p & Hp & <-). unfold tree_of_a in Hp.
    rewrite lookup_insert_Some in Hp. destruct Hp as [[_ <-]|[_ Hp]]; [by left|].
    apply lookup_singleton_Some in Hp as [_ <-]. by right.
  - intros [-> | [-> | ->]]; [by left|right; by exists "QmB", (peer_of "QmB" "02bb")|].
    right. by exists "QmC", (peer_of "QmC" "02cc").
Qed.

(** The hashes of epoch 7. *)
Lemma epoch_7_hashes :
  hashPeer 7 secretKey "02aa" = "4599a8018aa7748b59ea46e0a1468b0cc6926a4a0144bbddf95dcd83c23d97d8" ∧
  hashPeer 7 secretKey "02bb" = "79f21fa7a97e70d2dcc65131df6641ca91a0436822cd7f8e7391ac7e58b545a8" ∧
  hashPeer 7 secretKey "02cc" = "43d4f5bcee053419aa7653e434181d0e7ed5693bb5756e99d0f33adc5a37b45a".
Proof. split; [|split]; vm_compute; reflexivity. Qed.

Lemma epoch_7_leader_at_a :
  findLeader (H := in_order) [] "02aa" 7 secretKey tree_of_a = Some (peer_of "QmC" "02cc").
Proof. vm_compute. reflexivity. Qed.

Lemma epoch_7_leader_at_b :
  findLeader (H := in_reverse) [] "02bb" 7 secretKey tree_of_b = Some (peer_of "QmC" "02cc").
Proof. vm_compute. reflexivity. Qed.

Lemma same_candidates : candidates "02aa" tree_of_a = candidates "02bb" tree_of_b.
Proof. vm_compute. reflexivity. Qed.

Lemma leader_agreement_witness :
  ∃ l1 l2, findLeader (H := in_order) [] "02aa" 7 secretKey tree_of_a = Some l1 ∧
    findLeader (H := in_reverse) [] "02bb" 7 secretKey tree_of_b = Some l2 ∧
    ServerID l1 = ServerID l2.
Proof.
  eexists _, _. split; [exact epoch_7_leader_at_a|]. split; [exact epoch_7_leader_at_b|].
  eapply (leader_agreement in_order in_reverse);
    [exact same_candidates| |exact epoch_7_leader_at_a|exact epoch_7_leader_at_b].
  destruct epoch_7_hashes as (Ha & Hb & Hc).
  intros x y. rewrite !candidates_of_a.
  intros [-> | [-> | ->]] [-> | [-> | ->]]; rewrite ?Ha, ?Hb, ?Hc; done.
Defined.

(** The rule lets two nodes of one epoch lead at once: a peer takes part with
    the empty id until its handshake has been processed. Here the second node
    knows the first, the first does not know the id of the second, and each
    elects itself. *)
Theorem two_leaders `{Nondet} s1 s2 :
  findLeader s1 "02cc" 0 secretKey {["QmA" := peer_of "QmA" ""]} =
    Some {| ServerID := "02cc"; embedded := None |} ∧
  findLeader s2 "02aa" 0 secretKey {["QmC" := peer_of "QmC" "02cc"]} =
    Some {| ServerID := "02aa"; embedded := None |}.
Proof.
  assert (Hone : ∀ s k p, map_range s ({[k := p]} : peers_tree) = [(k, p)]).
  { intros s k p. pose proof (shuffle_perm s _ (map_to_list ({[k := p]} : peers_tree))) as Hp.
    rewrite map_to_list_singleton in Hp at 2. by apply Permutation_length_1_inv. }
  unfold findLeader. rewrite !map_size_singleton, !Hone. split; vm_compute; reflexivity.
Qed.

(** ** Waiting *)

(** The duration of the [k]-th sleep. *)
Fixpoint backoff_at (k : nat) : Z :=
  match k with O => initTickerTime | S k => next_backoff (backoff_at k) end.

Fixpoint slept_until (k : nat) : Z :=
  match k with O => 0 | S k => slept_until k + backoff_at k end.

(** The sleeps double up to ten seconds. *)
Lemma backoff_closed k : backoff_at k = Z.min (initTickerTime * 2 ^ Z.of_nat k) maxBackoff.
Proof.
  induction k as [|k IH]; [done|]. cbn [backoff_at]. rewrite IH.
  rewrite Nat2Z.inj_succ, Z.pow_succ_r by lia. unfold next_backoff, initTickerTime, maxBackoff.
  pose proof (Z.pow_pos_nonneg 2 (Z.of_nat k)).
  destruct (Z.gtb_spec (Z.min (500 * 10 ^ 6 * 2 ^ Z.of_nat k) (10 * 10 ^ 9) * 2) (10 * 10 ^ 9)); lia.
Qed.

(** The sum of the first [k] sleeps, in nanoseconds: half a second, doubled each
    time, and ten seconds at most. *)
Definition doubled_sleeps (k : nat) : Z :=
  foldr Z.add 0 ((λ j, Z.min (500000000 * 2 ^ Z.of_nat j) 10000000000) <$> seq 0 k).

Lemma slept_until_doubled k : slept_until k = doubled_sleeps k.
Proof.
  unfold doubled_sleeps. induction k as [|k IH]; [done|]. cbn [slept_until].
  rewrite IH, backoff_closed, seq_S, fmap_app, foldr_app. cbn [fmap list_fmap foldr Nat.add].
  change (initTickerTime) with 500000000. change maxBackoff with 10000000000.
  generalize (Z.min (500000000 * 2 ^ Z.of_nat k) 10000000000). intros z.
  generalize ((λ j, Z.min (500000000 * 2 ^ Z.of_nat j) 10000000000) <$> seq 0 k). intros l.
  induction l as [|y l IHl]; cbn [foldr]; lia.
Qed.

Lemma slept_until_bound k : 0 ≤ slept_until k ≤ Z.of_nat k * maxBackoff.
Proof.
  induction k as [|k IH]; cbn [slept_until]; [done|]. rewrite backoff_closed.
  assert (0 ≤ Z.min (initTickerTime * 2 ^ Z.of_nat k) maxBackoff ≤ maxBackoff).
  { unfold initTickerTime, maxBackoff. pose proof (Z.pow_pos_nonneg 2 (Z.of_nat k)). lia. }
  lia.
Qed.

Section backoff.
Context `{Nondet} (epoch : Z) (key : bytes) (peers : nat → peers_tree) (self : string).

Lemma backoff_steps k : ∀ fuel,
  (∀ j, (j < k)%nat → peers j = ∅) →
  exponentialBackoff (k + fuel) 0 initTickerTime 0 epoch key peers self =
  exponentialBackoff fuel k (backoff_at k) (slept_until k) epoch key peers self.
Proof.
  induction k as [|k IH]; intros fuel Hk; [done|].
  replace (S k + fuel)%nat with (k + S fuel)%nat by lia. rewrite IH by auto with lia.
  cbn [exponentialBackoff]. by rewrite (proj2 (findLeader_None _ _ _ _ _) (Hk k ltac:(lia))).
Qed.
End backoff.

(** C27: the wait ends with the leader of the first look that finds a peer,
    after as many sleeps as there were looks before it, the first of half a
    second, each twice as long as the one before but ten seconds at most; it
    does not end before, and with no peers it goes on for ever. *)
Theorem exponentialBackoff_first `{Nondet} epoch key peers self k :
  (∀ j, (j < k)%nat → peers j = ∅) →
  (∀ fuel, (fuel ≤ k)%nat →
     exponentialBackoff fuel 0 initTickerTime 0 epoch key peers self = None) ∧
  (peers k ≠ ∅ → ∀ fuel, (k < fuel)%nat →
     ∃ leader, findLeader [k] self epoch key (peers k) = Some leader ∧
       exponentialBackoff fuel 0 initTickerTime 0 epoch key peers self =
         Some (leader, doubled_sleeps k)).
Proof.
  rewrite <-slept_until_doubled. intros Hk. split.
  - intros fuel Hf. replace fuel with (fuel + 0)%nat by lia.
    rewrite backoff_steps; [done|]. intros j Hj. apply Hk. lia.
  - intros Hne fuel Hf. replace fuel with (k + S (fuel - S k))%nat by lia.
    destruct (findLeader [k] self epoch key (peers k)) as [leader|] eqn:E.
    + exists leader. split; [done|]. rewrite backoff_steps by done. cbn [exponentialBackoff].
      by rewrite E.
    + by apply findLeader_None in E.
Qed.

(** A peer that shows up after seven looks: 35.5 seconds are slept, of them ten
    and ten at the end. *)
Lemma exponentialBackoff_first_witness :
  ∃ leader, findLeader (H := in_order) [7%nat] "02aa" 0 secretKey tree_of_a = Some leader ∧
    exponentialBackoff (H := in_order) 8 0 initTickerTime 0 0 secretKey
      (λ i, if (i <? 7)%nat then ∅ else tree_of_a) "02aa" = Some (leader, 355 * 10 ^ 8).
Proof.
  pose (peers := λ i, if (i <? 7)%nat then ∅ else tree_of_a).
  destruct (exponentialBackoff_first (H := in_order) 0 secretKey peers "02aa" 7) as [_ H].
  - intros j Hj. unfold peers. apply Nat.ltb_lt in Hj. by rewrite Hj.
  - apply H; [by vm_compute|lia].
Defined.
