(* ===== verification/Assembly.v ===== *)
(** * ocr/leader.go: assembleFinalReport

    How the leader turns the attested reports of the followers into one final
    report.  The tallies are the three maps of the code; every [range] over a
    map takes an unknown order. *)

From S2P Require Import Prelude Crypto Sha256 Json GoJson Rpc.

(** report.go *)
Record Report := {
  from : string;
  reports : JobReports;
  sig : Signature
}.

(** The element that [make([]Report, 1)] starts with. *)
Definition zero_report : Report := {| from := ""; reports := None; sig := no_signature |}.

(** The hash under which a value is counted, unless it cannot be printed. *)
Definition value_hash (response : any) : option string :=
  match Marshal go_any response with
  | Ok responseBytes => Some (Sha256.Sum256 responseBytes)
  | Error _ => None
  end.

Record tally := {
  jobHashCount : gmap string (gmap string Z);           (* jobID -> (hash -> count) *)
  jobFinalReports : gmap string (gmap string JobReports); (* jobID -> (hash -> reports) *)
  hashSignatories : gmap string (list Signatories)      (* hash -> list of signatories *)
}.

Definition no_tally : tally :=
  {| jobHashCount := ∅; jobFinalReports := ∅; hashSignatories := ∅ |}.

(** The body of the inner loop, for one job of one report.  Reading a missing
    inner map gives nil, which is made before it is written. *)
Definition count_vote (t : tally) (vote : Report * (string * any)) : tally :=
  let '(report, (jobID, response)) := vote in
  match value_hash response with
  | None => t
  | Some hash =>
      let counts := default ∅ (jobHashCount t !! jobID) in
      let finals := default ∅ (jobFinalReports t !! jobID) in
      {| jobHashCount :=
           <[jobID := <[hash := default 0 (counts !! hash) + 1]> counts]> (jobHashCount t);
         jobFinalReports :=
           <[jobID := <[hash := reports report]> finals]> (jobFinalReports t);
         hashSignatories :=
           <[hash := default [] (hashSignatories t !! hash)
                       ++ [{| sg_Sign := sig report; sg_ID := from report |}]]>
             (hashSignatories t) |}
  end.

Section assemble.
Context `{Nondet}.

(** The jobs of the reports in the order they are visited; [s] names the
    call. *)
Fixpoint votes (s : list nat) (i : nat) (rs : list Report) : list (Report * (string * any)) :=
  match rs with
  | [] => []
  | r :: rs => map (pair r) (map_range (s ++ [1; i]%nat) (entries (reports r))) ++ votes s (S i) rs
  end.

Definition count_votes (s : list nat) (rs : list Report) : tally :=
  foldl count_vote no_tally (votes s 0 rs).

(** The loop over the hashes of a job, which ends at the first that has
    enough votes. *)
Definition winner (threshold : Z) (counts : list (string * Z)) : option string :=
  fst <$> List.find (λ hc, threshold <=? hc.2) counts.

(** The loop over the jobs. *)
Fixpoint settle (s : list nat) (threshold : Z) (t : tally) (i : nat)
    (jobs : list (string * gmap string Z)) (acc : gmap string any * list Signatories)
    : gmap string any * list Signatories :=
  match jobs with
  | [] => acc
  | (jobID, hashCounts) :: jobs =>
      settle s threshold t (S i) jobs
        match winner threshold (map_range (s ++ [3; i]%nat) hashCounts) with
        | None => acc
        | Some hash =>
            let finals := entries (default None (default ∅ (jobFinalReports t !! jobID) !! hash)) in
            let signatories := default [] (hashSignatories t !! hash) in
            (<[jobID := default ANil (finals !! jobID)]> acc.1,
             if threshold <=? Z.of_nat (length signatories)
             then acc.2 ++ take (Z.to_nat threshold) signatories
             else acc.2)
        end
  end.

Definition assembleFinalReport (s : list nat) (f : Z) (rs : list Report) : option FinalReport :=
  let t := count_votes s rs in
  let threshold := f + 1 in
  let '(finalJobReports, finalSignatories) :=
    settle s threshold t 0 (map_range (s ++ [2%nat]) (jobHashCount t)) (∅, []) in
  if (size finalJobReports =? 0)%nat || (Z.of_nat (length finalSignatories) <? threshold)
  then None
  else Some {| fr_Report := Some finalJobReports; fr_Signatories := Some finalSignatories |}.
End assemble.

(** ** The specification: who supports what *)

(** The hash of what a report says about a job. *)
Definition report_hash (jobID : string) (r : Report) : option string :=
  entries (reports r) !! jobID ≫= value_hash.

(** The reports that say it. *)
Definition supporters (jobID hash : string) (rs : list Report) : list Report :=
  filter (λ r, report_hash jobID r = Some hash) rs.

Definition signatory_of (r : Report) : Signatories := {| sg_Sign := sig r; sg_ID := from r |}.

Definition vote_for (jobID hash : string) (v : Report * (string * any)) : Prop :=
  v.2.1 = jobID ∧ value_hash v.2.2 = Some hash.

#[export] Instance vote_for_dec jobID hash v : Decision (vote_for jobID hash v).
Proof. unfold vote_for. apply _. Defined.

(** *** The tallies hold the votes *)
Section tallies.
Implicit Types (vs : list (Report * (string * any))).

Definition tallied vs : tally := foldl count_vote no_tally vs.

Lemma tallied_snoc vs v : tallied (vs ++ [v]) = count_vote (tallied vs) v.
Proof. unfold tallied. by rewrite foldl_snoc. Qed.

(** A vote for another job, another hash or without one. *)
Ltac no_vote :=
  first [done | intros [Hvj Hvh]; cbn [fst snd] in Hvj, Hvh; congruence].

Lemma tallied_count vs j h :
  default 0 (default ∅ (jobHashCount (tallied vs) !! j) !! h) =
  Z.of_nat (length (filter (vote_for j h) vs)).
Proof.
  induction vs as [|v vs IH] using rev_ind; [done|].
  rewrite tallied_snoc, filter_snoc, length_app, Nat2Z.inj_add, <-IH. clear IH.
  destruct v as [r [j0 a]]. unfold count_vote.
  destruct (value_hash a) as [h0|] eqn:Ha; cbn [jobHashCount].
  - destruct (decide (j0 = j)) as [->|Hj].
    + rewrite lookup_insert_eq. cbn [from_option id]. destruct (decide (h0 = h)) as [->|Hh].
      * rewrite lookup_insert_eq, decide_True by done. cbn. lia.
      * rewrite lookup_insert_ne, decide_False by no_vote.
        cbn. lia.
    + rewrite lookup_insert_ne, decide_False by no_vote.
      cbn. lia.
  - rewrite decide_False by no_vote. cbn. lia.
Qed.

Lemma tallied_signatories vs h :
  default [] (hashSignatories (tallied vs) !! h) =
  (λ v, signatory_of v.1) <$> filter (λ v, value_hash v.2.2 = Some h) vs.
Proof.
  induction vs as [|v vs IH] using rev_ind; [done|].
  rewrite tallied_snoc, filter_snoc, fmap_app, <-IH. clear IH.
  destruct v as [r [j0 a]]. unfold count_vote. cbn [fst snd].
  destruct (value_hash a) as [h0|] eqn:Ha; cbn [hashSignatories].
  - destruct (decide (h0 = h)) as [->|Hh].
    + rewrite lookup_insert_eq, decide_True by done. done.
    + rewrite lookup_insert_ne, decide_False by congruence. by rewrite app_nil_r.
  - rewrite decide_False by done. by rewrite app_nil_r.
Qed.

(** The kept reports are those of some vote with the hash. *)
Lemma tallied_finals vs j h :
  (0 < length (filter (vote_for j h) vs))%nat →
  ∃ v, v ∈ vs ∧ vote_for j h v ∧
    default ∅ (jobFinalReports (tallied vs) !! j) !! h = Some (reports v.1).
Proof.
  induction vs as [|v vs IH] using rev_ind; [cbn; lia|].
  rewrite tallied_snoc, filter_snoc, length_app. destruct v as [r [j0 a]]. unfold count_vote.
  destruct (decide (vote_for j h (r, (j0, a)))) as [Hv|Hv].
  - intros _. exists (r, (j0, a)). split; [apply elem_of_app; right; by left|]. split; [done|].
    destruct Hv as [Hj Hh]; cbn in Hj, Hh; subst. rewrite Hh. cbn [jobFinalReports].
    rewrite lookup_insert_eq. cbn [from_option id]. by rewrite lookup_insert_eq.
  - rewrite Nat.add_0_r. intros Hl. destruct (IH Hl) as (v & Hin & Hvf & Hlook).
    exists v. split; [apply elem_of_app; by left|]. split; [done|].
    destruct (value_hash a) as [h0|] eqn:Ha; cbn [jobFinalReports]; [|done].
    destruct (decide (j0 = j)) as [->|Hj]; [|by rewrite lookup_insert_ne].
    rewrite lookup_insert_eq. cbn [from_option id]. destruct (decide (h0 = h)) as [->|Hh];
      [by destruct Hv|by rewrite lookup_insert_ne].
Qed.
End tallies.

(** *** The votes are what the reports say *)
Section votes.
Context `{Nondet}.

Lemma filter_key {A} (P : A → Prop) `{!∀ x, Decision (P x)} (l : list (string * A)) j :
  NoDup l.*1 →
  length (filter (λ kv, kv.1 = j ∧ P kv.2) l) =
  match list_to_map (M := gmap string A) l !! j with
  | Some a => if decide (P a) then 1%nat else O
  | None => O
  end.
Proof.
  induction l as [|[k a] l IH]; [done|]. cbn [fmap list_fmap fst]. intros Hnd.
  apply NoDup_cons in Hnd as [Hk Hnd]. cbn [list_to_map foldr uncurry].
  rewrite filter_cons. cbn [fst snd]. destruct (decide (k = j)) as [->|Hne].
  - rewrite lookup_insert_eq.
    assert (filter (λ kv : string * A, kv.1 = j ∧ P kv.2) l = []) as ->.
    { apply filter_none. intros [k' a'] Hin [Hkj _]. cbn in Hkj. subst k'. apply Hk, list_elem_of_fmap.
      by exists (j, a'). }
    destruct (decide (P a)); [by rewrite decide_True|by rewrite decide_False by tauto].
  - rewrite lookup_insert_ne, decide_False by tauto. by apply IH.
Qed.

Lemma map_range_map {V} s (m : gmap string V) : list_to_map (map_range s m) = m.
Proof.
  rewrite <-(list_to_map_to_list m) at 2. apply list_to_map_proper; [apply map_range_NoDup|].
  apply shuffle_perm.
Qed.

Lemma votes_of_report s r j h :
  length (filter (vote_for j h) (map (pair r) (map_range s (entries (reports r))))) =
  if decide (report_hash j r = Some h) then 1%nat else O.
Proof.
  pose proof (filter_key (λ a, value_hash a = Some h) _ j
    (map_range_NoDup s (entries (reports r)))) as Hk.
  rewrite map_range_map in Hk. etrans; [etrans; [|exact Hk]|].
  - generalize (map_range s (entries (reports r))). intros l. clear Hk.
    induction l as [|kv l IH]; [done|]. cbn [map]. rewrite !filter_cons.
    destruct (decide (vote_for j h (r, kv))) as [Hv|Hv],
      (decide (kv.1 = j ∧ value_hash kv.2 = Some h)) as [Hw|Hw];
      cbn [length]; [by rewrite IH|by destruct Hw|by destruct Hv|done].
  - unfold report_hash.
    destruct (entries (reports r) !! j) as [a|]; done.
Qed.

Lemma votes_supporters s i rs j h :
  length (filter (vote_for j h) (votes s i rs)) = length (supporters j h rs).
Proof.
  revert i. unfold supporters. induction rs as [|r rs IH]; intros i; [done|].
  cbn [votes]. rewrite filter_app, length_app, votes_of_report, IH, filter_cons.
  by destruct (decide (report_hash j r = Some h)).
Qed.

Lemma votes_elem s rs v : ∀ i,
  v ∈ votes s i rs ↔ v.1 ∈ rs ∧ entries (reports v.1) !! v.2.1 = Some v.2.2.
Proof.
  induction rs as [|r rs IH]; intros i; cbn [votes].
  - split; [by intros ?%not_elem_of_nil|by intros [?%not_elem_of_nil _]].
  - rewrite elem_of_app, IH, elem_of_cons, list_elem_of_In, in_map_iff. destruct v as [r' [j a]].
    cbn [fst snd]. split.
    + intros [(kv & [= <- ->] & Hin)|[? ?]]; [|tauto].
      apply list_elem_of_In, map_range_elem_of in Hin. tauto.
    + intros [[->|Hin] Hl]; [left|by right]. exists (j, a). split; [done|].
      by apply list_elem_of_In, map_range_elem_of.
Qed.
End votes.

(** *** Settling *)
Section settle.
Context `{Nondet} (s : list nat) (threshold : Z) (t : tally).

Lemma winner_some l h : winner threshold l = Some h → ∃ c, (h, c) ∈ l ∧ threshold ≤ c.
Proof.
  unfold winner. destruct (List.find _ l) as [[h' c]|] eqn:E; [|done]. intros [= <-].
  apply List.find_some in E as [Hin Hc]. exists c. split; [by apply list_elem_of_In|].
  by apply Z.leb_le.
Qed.

Lemma winner_exists l h c : (h, c) ∈ l → threshold ≤ c → is_Some (winner threshold l).
Proof.
  unfold winner. intros Hin Hc. destruct (List.find _ l) as [[h' c']|] eqn:E; [by eexists|].
  apply list_elem_of_In in Hin. pose proof (List.find_none _ _ E _ Hin) as Hn.
  cbn in Hn. lia.
Qed.

(** The hash [h] of job [j] has enough votes. *)
Definition enough (jobs : list (string * gmap string Z)) (j h : string) : Prop :=
  ∃ hc c, (j, hc) ∈ jobs ∧ hc !! h = Some c ∧ threshold ≤ c.

Definition final_value (j h : string) : any :=
  default ANil (entries (default None (default ∅ (jobFinalReports t !! j) !! h)) !! j).

Definition final_signers (h : string) : list Signatories := default [] (hashSignatories t !! h).

Lemma enough_cons x jobs j h : enough jobs j h → enough (x :: jobs) j h.
Proof. intros (hc & c & Hin & ?). exists hc, c. split; [by right|done]. Qed.

Lemma settle_sound jobs : ∀ i acc,
  (∀ j v, (settle s threshold t i jobs acc).1 !! j = Some v →
     acc.1 !! j = Some v ∨ ∃ h, enough jobs j h ∧ v = final_value j h) ∧
  (∀ sg, sg ∈ (settle s threshold t i jobs acc).2 →
     sg ∈ acc.2 ∨ ∃ j h, enough jobs j h ∧ sg ∈ final_signers h).
Proof.
  induction jobs as [|[j0 hc] jobs IH]; intros i acc; [by split; intros; left|].
  cbn [settle]. destruct (winner threshold (map_range (s ++ [3; i]%nat) hc)) as [h0|] eqn:Hw.
  - apply winner_some in Hw as (c & Hin & Hc). apply map_range_elem_of in Hin.
    assert (Henough : enough ((j0, hc) :: jobs) j0 h0).
    { exists hc, c. split; [by left|done]. }
    destruct (IH (S i) (<[j0 := final_value j0 h0]> acc.1,
      if threshold <=? Z.of_nat (length (final_signers h0))
      then acc.2 ++ take (Z.to_nat threshold) (final_signers h0) else acc.2)) as [IHv IHs].
    split.
    + intros j v Hv. destruct (IHv j v Hv) as [Hacc|(h & Hh & ->)].
      * cbn [fst] in Hacc. destruct (decide (j0 = j)) as [->|Hne].
        -- rewrite lookup_insert_eq in Hacc. injection Hacc as <-. right. by exists h0.
        -- rewrite lookup_insert_ne in Hacc by done. by left.
      * right. exists h. split; [by apply enough_cons|done].
    + intros sg Hsg. destruct (IHs sg Hsg) as [Hacc|(j & h & Hh & Hin')].
      * cbn [snd] in Hacc. destruct (threshold <=? _); [|by left].
        apply elem_of_app in Hacc as [?|Ht]; [by left|right]. exists j0, h0. split; [done|].
        rewrite <-(take_drop (Z.to_nat threshold)). apply elem_of_app. by left.
      * right. exists j, h. split; [by apply enough_cons|done].
  - destruct (IH (S i) acc) as [IHv IHs]. split.
    + intros j v Hv. destruct (IHv j v Hv) as [?|(h & Hh & ->)]; [by left|right].
      exists h. split; [by apply enough_cons|done].
    + intros sg Hsg. destruct (IHs sg Hsg) as [?|(j & h & Hh & ?)]; [by left|right].
      exists j, h. split; [by apply enough_cons|done].
Qed.

(** Settling only adds. *)
Lemma settle_grows jobs : ∀ i acc,
  (∀ j, is_Some (acc.1 !! j) → is_Some ((settle s threshold t i jobs acc).1 !! j)) ∧
  (length acc.2 ≤ length (settle s threshold t i jobs acc).2)%nat.
Proof.
  induction jobs as [|[j0 hc] jobs IH]; intros i acc; [done|].
  cbn [settle]. destruct (winner _ _) as [h0|]; [|apply IH].
  match goal with |- context [settle s threshold t (S i) jobs ?a] => destruct (IH (S i) a) as [IHv IHs] end.
  split.
  - intros j Hj. apply IHv. cbn [fst]. destruct (decide (j0 = j)) as [->|Hne].
    + rewrite lookup_insert_eq. by eexists.
    + by rewrite lookup_insert_ne.
  - etrans; [|exact IHs]. cbn [snd]. destruct (threshold <=? _); [|done].
    rewrite length_app. lia.
Qed.

Lemma settle_complete jobs j h : ∀ i acc,
  enough jobs j h →
  (∀ j h, enough jobs j h → threshold ≤ Z.of_nat (length (final_signers h))) →
  is_Some ((settle s threshold t i jobs acc).1 !! j) ∧
  threshold ≤ Z.of_nat (length (settle s threshold t i jobs acc).2).
Proof.
  induction jobs as [|[j0 hc] jobs IH]; intros i acc (hc' & c & Hin & Hl & Hc) Hsign.
  { by apply not_elem_of_nil in Hin. }
  cbn [settle]. apply elem_of_cons in Hin as [[= <- <-]|Hin].
  - destruct (winner_exists (map_range (s ++ [3; i]%nat) hc') h c) as [h0 Hw];
      [by apply map_range_elem_of|done|].
    rewrite Hw. apply winner_some in Hw as (c0 & Hin0 & Hc0). apply map_range_elem_of in Hin0.
    assert (Hs : threshold ≤ Z.of_nat (length (final_signers h0))).
    { apply (Hsign j). exists hc', c0. split; [by left|done]. }
    match goal with |- context [settle s threshold t (S i) jobs ?a] =>
      destruct (settle_grows jobs (S i) a) as [Hv Hg] end.
    split.
    + apply Hv. cbn [fst]. rewrite lookup_insert_eq. by eexists.
    + etrans; [|apply Nat2Z.inj_le, Hg]. cbn [snd]. unfold final_signers in Hs.
      destruct (Z.leb_spec threshold (Z.of_nat (length (default [] (hashSignatories t !! h0)))));
        [|lia]. rewrite length_app, length_take. lia.
  - apply IH; [by exists hc', c|]. intros j' h' Hh'. apply (Hsign j'). by apply enough_cons.
Qed.
End settle.

(** *** From the tallies to the reports *)
Section assembled.
Context `{Nondet} (s : list nat) (f : Z) (Hf : 0 ≤ f) (rs : list Report).

Lemma enough_supporters j h :
  enough (f + 1) (map_range (s ++ [2%nat]) (jobHashCount (count_votes s rs))) j h ↔
  f + 1 ≤ Z.of_nat (length (supporters j h rs)).
Proof.
  rewrite <-(votes_supporters s 0). rewrite <-tallied_count. unfold tallied, enough, count_votes.
  set (t := foldl count_vote no_tally (votes s 0 rs)). split.
  - intros (hc & c & Hin & Hl & Hc). apply map_range_elem_of in Hin. rewrite Hin.
    cbn [from_option id]. rewrite Hl. cbn [from_option id]. lia.
  - intros Hc. destruct (jobHashCount t !! j) as [hc|] eqn:Hj; cbn [from_option id] in Hc.
    + destruct (hc !! h) as [c|] eqn:Hh; cbn [from_option id] in Hc; [|lia].
      exists hc, c. split; [by apply map_range_elem_of|]. split; [done|lia].
    + rewrite lookup_empty in Hc. cbn in Hc. lia.
Qed.

Lemma final_value_reported j h :
  f + 1 ≤ Z.of_nat (length (supporters j h rs)) →
  ∃ r, r ∈ rs ∧ entries (reports r) !! j = Some (final_value (count_votes s rs) j h) ∧
    value_hash (final_value (count_votes s rs) j h) = Some h.
Proof.
  intros Hs. destruct (tallied_finals (votes s 0 rs) j h) as (v & Hv & [Hj Hh] & Hl).
  { rewrite votes_supporters. lia. }
  apply votes_elem in Hv as [Hin Hv]. exists v.1. split; [done|].
  unfold final_value, count_votes. unfold tallied in Hl. rewrite Hl.
  cbn [from_option id]. rewrite Hj in Hv. rewrite Hv. cbn [from_option id]. done.
Qed.

Lemma final_signers_length j h :
  f + 1 ≤ Z.of_nat (length (supporters j h rs)) →
  f + 1 ≤ Z.of_nat (length (final_signers (count_votes s rs) h)).
Proof.
  intros Hs. unfold final_signers, count_votes.
  pose proof (tallied_signatories (votes s 0 rs) h) as Ht. unfold tallied in Ht. rewrite Ht.
  rewrite length_fmap. rewrite <-(votes_supporters s 0) in Hs.
  assert (∀ vs : list (Report * (string * any)),
    (length (filter (vote_for j h) vs) ≤
     length (filter (λ v, value_hash v.2.2 = Some h) vs))%nat) as Hle.
  { induction vs as [|v vs IH]; [done|]. rewrite !filter_cons.
    destruct (decide (vote_for j h v)) as [Hv|Hv].
    - rewrite decide_True by apply Hv. cbn [length]. lia.
    - destruct (decide (value_hash v.2.2 = Some h)); cbn [length]; lia. }
  specialize (Hle (votes s 0 rs)). lia.
Qed.

Lemma final_signers_elem h sg :
  sg ∈ final_signers (count_votes s rs) h →
  ∃ r j, r ∈ rs ∧ sg = signatory_of r ∧ report_hash j r = Some h.
Proof.
  unfold final_signers, count_votes.
  pose proof (tallied_signatories (votes s 0 rs) h) as Ht. unfold tallied in Ht. rewrite Ht.
  intros (v & -> & Hv)%list_elem_of_fmap. apply list_elem_of_filter in Hv as [Hh Hv].
  apply votes_elem in Hv as [Hin Hv]. exists v.1, v.2.1. split; [done|]. split; [done|].
  unfold report_hash. by rewrite Hv.
Qed.

Lemma assemble_inv fr :
  assembleFinalReport s f rs = Some fr →
  (∀ j v, entries (fr_Report fr) !! j = Some v →
     ∃ h, f + 1 ≤ Z.of_nat (length (supporters j h rs)) ∧ v = final_value (count_votes s rs) j h) ∧
  (∀ sg, sg ∈ elems (fr_Signatories fr) →
     ∃ j h, f + 1 ≤ Z.of_nat (length (supporters j h rs)) ∧
       sg ∈ final_signers (count_votes s rs) h) ∧
  f + 1 ≤ Z.of_nat (length (elems (fr_Signatories fr))).
Proof.
  unfold assembleFinalReport.
  pose proof (settle_sound s (f + 1) (count_votes s rs)
    (map_range (s ++ [2%nat]) (jobHashCount (count_votes s rs))) 0 (∅, [])) as [Hv Hs].
  destruct (settle _ _ _ _ _ _) as [m l]. cbn [fst snd] in Hv, Hs.
  destruct (_ || _) eqn:E; [done|]. intros [= <-]. cbn [fr_Report fr_Signatories entries elems].
  apply orb_false_iff in E as [_ El]. apply Z.ltb_ge in El. cbn [from_option id].
  split; [|split; [|done]].
  - intros j v Hjv. destruct (Hv j v Hjv) as [Hne|(h & Hh & ->)].
    + by rewrite lookup_empty in Hne.
    + exists h. by rewrite <-enough_supporters.
  - intros sg Hsg. destruct (Hs sg Hsg) as [Hne%not_elem_of_nil|(j & h & Hh & ?)]; [done|].
    exists j, h. by rewrite <-enough_supporters.
Qed.

(** Reports without values give no final report. *)
Lemma assemble_nothing : Forall (λ r, entries (reports r) = ∅) rs → assembleFinalReport s f rs = None.
Proof.
  intros Hrs. destruct (assembleFinalReport s f rs) as [fr|] eqn:Ha; [|done]. exfalso.
  destruct (assemble_inv fr Ha) as (_ & Hs & Hl).
  destruct (elems (fr_Signatories fr)) as [|sg sgs]; [cbn in Hl; lia|].
  destruct (Hs sg) as (j & h & Hj & _); [by left|].
  destruct (supporters j h rs) as [|r rs'] eqn:Hsup; [cbn in Hj; lia|].
  assert (r ∈ supporters j h rs) as [Hh Hin]%list_elem_of_filter by (rewrite Hsup; by left).
  unfold report_hash in Hh. rewrite Forall_forall in Hrs. by rewrite (Hrs r Hin), lookup_empty in Hh.
Qed.

Lemma assemble_complete j h :
  f + 1 ≤ Z.of_nat (length (supporters j h rs)) →
  ∃ fr, assembleFinalReport s f rs = Some fr ∧ is_Some (entries (fr_Report fr) !! j).
Proof.
  intros Hs. unfold assembleFinalReport.
  destruct (settle_complete s (f + 1) (count_votes s rs)
    (map_range (s ++ [2%nat]) (jobHashCount (count_votes s rs))) j h 0 (∅, [])) as [Hv Hl].
  - by apply enough_supporters.
  - intros j' h' Hh'. apply (final_signers_length j'). by apply enough_supporters.
  - destruct (settle _ _ _ _ _ _) as [m l]. cbn [fst snd] in Hv, Hl.
    destruct (Nat.eqb_spec (size m) 0) as [Hm|Hm].
    { apply map_size_empty_inv in Hm as ->. rewrite lookup_empty in Hv. by destruct Hv. }
    destruct (Z.ltb_spec (Z.of_nat (length l)) (f + 1)); [lia|]. cbn [orb].
    eexists. split; [reflexivity|done].
Qed.
End assembled.

(** ** The properties *)

(** C1: soundness of the final report: each value in it is one that a received
    report gives for that job, and at least f+1 of the received reports give a
    value with the same hash. *)
Theorem final_report_supported `{Nondet} s f rs fr j v :
  0 ≤ f → assembleFinalReport s f rs = Some fr → entries (fr_Report fr) !! j = Some v →
  ∃ h r, value_hash v = Some h ∧ r ∈ rs ∧ entries (reports r) !! j = Some v ∧
    f + 1 ≤ Z.of_nat (length (supporters j h rs)).
Proof.
  intros Hf Ha Hv. destruct (assemble_inv s f Hf rs fr Ha) as (Hval & _).
  destruct (Hval j v Hv) as (h & Hh & ->).
  destruct (final_value_reported s f Hf rs j h Hh) as (r & Hr & Hl & Hhash). by exists h, r.
Qed.

(** Three reports of two values, as the leader has them. *)
Definition report_of (id : string) (v : any) : Report :=
  {| from := id; reports := Some {["job-1" := v]};
     sig := {| sig_R := Some 1; sig_S := Some 1 |} |}.
Definition two_against_one : list Report :=
  [zero_report; report_of "02aa" (AStr "7"); report_of "02bb" (AStr "9"); report_of "02cc" (AStr "7")].

Definition reported (o : option FinalReport) (j : string) : option any :=
  fr ← o; entries (fr_Report fr) !! j.

Lemma reported_inv o j v :
  reported o j = Some v → ∃ fr, o = Some fr ∧ entries (fr_Report fr) !! j = Some v.
Proof. destruct o as [fr|]; [|done]. by exists fr. Qed.

Lemma two_against_one_agree :
  ∃ fr, assembleFinalReport (H := in_order) [] 1 two_against_one = Some fr ∧
    entries (fr_Report fr) !! "job-1" = Some (AStr "7").
Proof. apply reported_inv. vm_compute. reflexivity. Qed.

Lemma final_report_supported_witness :
  ∃ h r, value_hash (AStr "7") = Some h ∧ r ∈ two_against_one ∧
    entries (reports r) !! "job-1" = Some (AStr "7") ∧
    1 + 1 ≤ Z.of_nat (length (supporters "job-1" h two_against_one)).
Proof.
  destruct two_against_one_agree as (fr & Ha & Hv).
  eapply (final_report_supported (H := in_order)); [|exact Ha|exact Hv]. done.
Defined.

(** C2: completeness: there is a final report exactly when some job has a hash
    that at least f+1 reports give it, in whatever order the maps are visited,
    and the jobs in it are exactly those that have one; without such a job
    there is no final report, not an empty one. *)
Theorem final_report_complete `{Nondet} s f rs :
  0 ≤ f →
  ((∀ j h, Z.of_nat (length (supporters j h rs)) < f + 1) ↔ assembleFinalReport s f rs = None) ∧
  ∀ j, (∃ fr, assembleFinalReport s f rs = Some fr ∧ is_Some (entries (fr_Report fr) !! j)) ↔
       ∃ h, f + 1 ≤ Z.of_nat (length (supporters j h rs)).
Proof.
  intros Hf. split; split.
  - intros Hno. destruct (assembleFinalReport s f rs) as [fr|] eqn:Ha; [|done]. exfalso.
    destruct (assemble_inv s f Hf rs fr Ha) as (_ & Hs & Hl).
    destruct (elems (fr_Signatories fr)) as [|sg sgs]; [cbn in Hl; lia|].
    destruct (Hs sg) as (j & h & Hh & _); [by left|]. specialize (Hno j h). lia.
  - intros Hnone j h. apply Z.nle_gt. intros Hh.
    destruct (assemble_complete s f Hf rs j h Hh) as (fr & Ha & _). congruence.
  - intros (fr & Ha & v & Hv). destruct (assemble_inv s f Hf rs fr Ha) as (Hval & _).
    destruct (Hval j v Hv) as (h & Hh & _). by exists h.
  - intros [h Hh]. by apply (assemble_complete s f Hf rs j h).
Qed.

Lemma final_report_complete_witness :
  ((∀ j h, Z.of_nat (length (supporters j h two_against_one)) < 1 + 1) ↔
     assembleFinalReport (H := in_reverse) [] 1 two_against_one = None) ∧
  ((∃ fr, assembleFinalReport (H := in_reverse) [] 1 two_against_one = Some fr ∧
      is_Some (entries (fr_Report fr) !! "job-1")) ↔
   ∃ h, 1 + 1 ≤ Z.of_nat (length (supporters "job-1" h two_against_one))).
Proof.
  destruct (final_report_complete (H := in_reverse) [] 1 two_against_one) as [Hn Hj]; [lia|].
  split; [exact Hn|exact (Hj "job-1")].
Defined.

(** C26: validity against faulty followers: when at most f of the received
    reports come from faulty followers, every value in the final report has the
    hash of a value that a correct follower reported for that job. *)
Theorem final_report_valid `{Nondet} (correct : Report → Prop) `{!∀ r, Decision (correct r)}
    s f rs fr j v :
  0 ≤ f → Z.of_nat (length (filter (λ r, ¬ correct r) rs)) ≤ f →
  assembleFinalReport s f rs = Some fr → entries (fr_Report fr) !! j = Some v →
  ∃ r, r ∈ rs ∧ correct r ∧ is_Some (report_hash j r) ∧ report_hash j r = value_hash v.
Proof.
  intros Hf Hfaulty Ha Hv. destruct (assemble_inv s f Hf rs fr Ha) as (Hval & _).
  destruct (Hval j v Hv) as (h & Hh & ->).
  destruct (final_value_reported s f Hf rs j h Hh) as (_ & _ & _ & ->).
  destruct (filter_exceeds (λ r, report_hash j r = Some h) correct rs) as (r & Hr & Hrh & Hc).
  { unfold supporters in Hh. lia. }
  exists r. split; [done|]. split; [done|]. by rewrite Hrh.
Qed.

Lemma final_report_valid_witness :
  ∃ r, r ∈ two_against_one ∧ from r ≠ "02bb" ∧ is_Some (report_hash "job-1" r) ∧
    report_hash "job-1" r = value_hash (AStr "7").
Proof.
  destruct two_against_one_agree as (fr & Ha & Hv).
  eapply (final_report_valid (H := in_order) (λ r, from r ≠ "02bb")); [| |exact Ha|exact Hv];
    [done|by vm_compute].
Defined.

(** The signatories are reporters: there are at least f+1 of them, and
    each carries the sender and the signature of a received report that gives
    some job a value with a hash that at least f+1 reports give some job. *)
Theorem final_report_signatories `{Nondet} s f rs fr :
  0 ≤ f → assembleFinalReport s f rs = Some fr →
  f + 1 ≤ Z.of_nat (length (elems (fr_Signatories fr))) ∧
  ∀ sg, sg ∈ elems (fr_Signatories fr) →
    ∃ r j h j', r ∈ rs ∧ sg_ID sg = from r ∧ sg_Sign sg = sig r ∧ report_hash j r = Some h ∧
      f + 1 ≤ Z.of_nat (length (supporters j' h rs)).
Proof.
  intros Hf Ha. destruct (assemble_inv s f Hf rs fr Ha) as (_ & Hsg & Hl). split; [done|].
  intros sg Hin. destruct (Hsg sg Hin) as (j' & h & Hh & Hfs).
  apply final_signers_elem in Hfs as (r & j & Hr & -> & Hrh). by exists r, j, h, j'.
Qed.

Lemma final_report_signatories_witness :
  ∃ fr, assembleFinalReport (H := in_order) [] 1 two_against_one = Some fr ∧
    1 + 1 ≤ Z.of_nat (length (elems (fr_Signatories fr))).
Proof.
  destruct two_against_one_agree as (fr & Ha & Hv).
  exists fr. split; [done|].
  eapply (final_report_signatories (H := in_order)); [|exact Ha]. done.
Defined.

(** One follower can make the final report by itself: the reports are counted
    and not their senders, so f+1 copies of one report carry every job of it,
    whatever else was received. *)
Theorem repeated_report_wins `{Nondet} s f r rs j h :
  0 ≤ f → report_hash j r = Some h →
  ∃ fr, assembleFinalReport s f (replicate (Z.to_nat (f + 1)) r ++ rs) = Some fr ∧
    is_Some (entries (fr_Report fr) !! j).
Proof.
  intros Hf Hr. apply (assemble_complete s f Hf _ j h). unfold supporters.
  rewrite filter_app, length_app.
  assert (∀ n, length (filter (λ r, report_hash j r = Some h) (replicate n r)) = n) as Hn.
  { induction n as [|n IH]; [done|]. cbn [replicate].
    rewrite filter_cons_True by done. cbn [length]. by rewrite IH. }
  rewrite Hn. lia.
Qed.

Lemma repeated_report_wins_witness :
  ∃ fr, assembleFinalReport (H := in_order) [] 1
      (replicate 2 (report_of "02bb" (AStr "666")) ++ [zero_report]) = Some fr ∧
    is_Some (entries (fr_Report fr) !! "job-1").
Proof.
  eapply (repeated_report_wins (H := in_order) [] 1 _ [zero_report] "job-1");
    [done|vm_compute; reflexivity].
Defined.

Definition two_against_two : list Report :=
  [report_of "02aa" (AStr "7"); report_of "02bb" (AStr "9"); report_of "02cc" (AStr "7");
   report_of "02dd" (AStr "9")].

Lemma first_in_order :
  reported (assembleFinalReport (H := in_order) [] 1 two_against_two) "job-1" = Some (AStr "7").
Proof. vm_compute. reflexivity. Qed.

Lemma first_in_reverse :
  reported (assembleFinalReport (H := in_reverse) [] 1 two_against_two) "job-1" = Some (AStr "9").
Proof. vm_compute. reflexivity. Qed.

(** Which value wins can depend on the order in which a map is visited: of four
    reports two give one value and two another, both reach f+1 = 2, and the
    visit that comes first decides. *)
Theorem winner_depends_on_order :
  ∃ N1 N2 v1 v2, v1 ≠ v2 ∧
    reported (assembleFinalReport (H := N1) [] 1 two_against_two) "job-1" = Some v1 ∧
    reported (assembleFinalReport (H := N2) [] 1 two_against_two) "job-1" = Some v2.
Proof.
  exists in_order, in_reverse, (AStr "7"), (AStr "9").
  split; [done|]. split; [exact first_in_order|exact first_in_reverse].
Qed.
