(* ===== verification/Reference.v ===== *)
(** * A reference for the assembly of the final report

    [agreed] says in one pass over the reports, without tallies and without
    maps in an unknown order, which value of a job the final report should
    have.  Where at most one value of the job has enough support,
    [assembleFinalReport] computes it, whatever the order of its maps. *)

From S2P Require Import Prelude Crypto Sha256 Json GoJson Rpc Assembly.

(** ** The reference *)

(** The value that a report gives a job, if at least [f + 1] reports give one
    with the same hash. *)
Definition backed (f : Z) (rs : list Report) (j : string) (r : Report) : option any :=
  v ← entries (reports r) !! j;
  h ← value_hash v;
  if f + 1 <=? Z.of_nat (length (supporters j h rs)) then Some v else None.

(** The last of them. *)
Definition agreed (f : Z) (rs : list Report) (j : string) : option any :=
  last (omap (backed f rs j) rs).

(** At most one hash of the job has enough support. *)
Definition unambiguous (f : Z) (rs : list Report) (j : string) : Prop :=
  ∀ h h', f + 1 ≤ Z.of_nat (length (supporters j h rs)) →
    f + 1 ≤ Z.of_nat (length (supporters j h' rs)) → h = h'.

(** ** The tallies keep the last report of a hash *)
Lemma tallied_last vs j h :
  default ∅ (jobFinalReports (tallied vs) !! j) !! h =
  (λ v, reports v.1) <$> last (filter (vote_for j h) vs).
Proof.
  induction vs as [|v vs IH] using rev_ind; [done|].
  rewrite tallied_snoc, filter_snoc. destruct v as [r [j0 a]]. unfold count_vote.
  destruct (decide (vote_for j h (r, (j0, a)))) as [[Hj Hh]|Hv].
  - cbn in Hj, Hh. subst. rewrite Hh, last_snoc. cbn [jobFinalReports].
    rewrite lookup_insert_eq. cbn [from_option id]. by rewrite lookup_insert_eq.
  - rewrite app_nil_r, <-IH. destruct (value_hash a) as [h0|] eqn:Ha; cbn [jobFinalReports]; [|done].
    destruct (decide (j0 = j)) as [->|Hj]; [|by rewrite lookup_insert_ne].
    rewrite lookup_insert_eq. cbn [from_option id].
    destruct (decide (h0 = h)) as [->|Hh]; [by destruct Hv|by rewrite lookup_insert_ne].
Qed.

Section reference.
Context `{Nondet}.

(** The voters for a hash, in order, are its supporters. *)
Lemma voters_supporters s rs j h : ∀ i,
  (filter (vote_for j h) (votes s i rs)).*1 = supporters j h rs.
Proof.
  unfold supporters. induction rs as [|r rs IH]; intros i; [done|]. cbn [votes].
  rewrite filter_app, fmap_app, IH, filter_cons.
  pose proof (votes_of_report (s ++ [1; i]%nat) r j h) as Hl.
  assert (Hall : Forall (λ v : Report * (string * any), v.1 = r)
    (filter (vote_for j h) (map (pair r) (map_range (s ++ [1; i]%nat) (entries (reports r)))))).
  { apply Forall_forall. intros v [_ Hv]%list_elem_of_filter.
    apply list_elem_of_In, in_map_iff in Hv as (kv & <- & _). done. }
  destruct (filter _ (map _ _)) as [|v [|v' l]]; cbn [length] in Hl.
  - by destruct (decide (report_hash j r = Some h)).
  - destruct (decide _); [|done]. apply Forall_cons in Hall as [<- _]. done.
  - by destruct (decide (report_hash j r = Some h)).
Qed.

Lemma final_value_last s rs j h :
  final_value (count_votes s rs) j h =
  default ANil (r ← last (supporters j h rs); entries (reports r) !! j).
Proof.
  unfold final_value, count_votes. fold (tallied (votes s 0 rs)). rewrite tallied_last.
  rewrite <-(voters_supporters s rs j h 0), fmap_last.
  destruct (last (filter _ _)) as [v|]; cbn; [done|]. by rewrite lookup_empty.
Qed.
End reference.

(** Only the supporters of a job's one supported hash are backed. *)
Lemma backed_supporters f rs j h :
  unambiguous f rs j → f + 1 ≤ Z.of_nat (length (supporters j h rs)) →
  ∀ l, omap (backed f rs j) l = omap (λ r, entries (reports r) !! j) (supporters j h l).
Proof.
  intros Hu Hh l. unfold supporters. induction l as [|r l IH]; [done|].
  change (omap (backed f rs j) (r :: l)) with
    (match backed f rs j r with
     | Some v => v :: omap (backed f rs j) l
     | None => omap (backed f rs j) l
     end).
  rewrite IH, filter_cons. unfold backed, report_hash.
  destruct (entries (reports r) !! j) as [v|] eqn:Hv; cbn [mbind option_bind];
    [|by rewrite decide_False].
  destruct (value_hash v) as [h0|] eqn:Hh0; cbn [mbind option_bind];
    [|by rewrite decide_False].
  destruct (Z.leb_spec (f + 1) (Z.of_nat (length (supporters j h0 rs)))) as [Hs|Hs].
  - rewrite (Hu h0 h) by done. rewrite decide_True by done. cbn [omap list_omap]. by rewrite Hv.
  - rewrite decide_False; [done|]. intros [= ->]. unfold supporters in Hh, Hs. lia.
Qed.

Lemma backed_none f rs j l :
  (∀ h, ¬ f + 1 ≤ Z.of_nat (length (supporters j h rs))) → omap (backed f rs j) l = [].
Proof.
  intros Hn. induction l as [|r l IH]; [done|]. cbn [omap list_omap].
  assert (backed f rs j r = None) as ->; [|done].
  unfold backed. destruct (entries (reports r) !! j) as [v|]; [|done]. cbn [mbind option_bind].
  destruct (value_hash v) as [h|]; [|done]. cbn [mbind option_bind].
  destruct (Z.leb_spec (f + 1) (Z.of_nat (length (supporters j h rs)))); [|done]. by destruct (Hn h).
Qed.

Lemma last_supported_values j h l :
  last (omap (λ r, entries (reports r) !! j) (supporters j h l)) =
  (r ← last (supporters j h l); entries (reports r) !! j).
Proof.
  unfold supporters. induction l as [|r l IH] using rev_ind; [done|].
  rewrite filter_snoc. destruct (decide _) as [Hr|Hr]; [|by rewrite app_nil_r].
  unfold report_hash in Hr. destruct (entries (reports r) !! j) as [v|] eqn:Hv; [|done].
  rewrite omap_app, last_snoc. cbn [omap list_omap]. rewrite Hv, last_snoc. cbn [mbind option_bind]. by rewrite Hv.
Qed.

(** C10: the assembly computes the reference: the value of a job in the final
    report is the one that the one-pass reference finds, in whatever order the
    maps of the code are visited, when at most one value of the job has f+1
    reports behind it. *)
Theorem assemble_is_reference `{Nondet} s f rs j :
  0 ≤ f → unambiguous f rs j →
  reported (assembleFinalReport s f rs) j = agreed f rs j.
Proof.
  intros Hf Hu. unfold agreed, reported.
  destruct (assembleFinalReport s f rs) as [fr|] eqn:Ha; cbn [mbind option_bind].
  - destruct (assemble_inv s f Hf rs fr Ha) as (Hval & _).
    destruct (entries (fr_Report fr) !! j) as [v|] eqn:Hv.
    + destruct (Hval j v Hv) as (h & Hh & ->). rewrite (backed_supporters f rs j h Hu Hh).
      rewrite last_supported_values, final_value_last.
      destruct (last (supporters j h rs)) as [r|] eqn:Hl.
      * assert (Hr : r ∈ supporters j h rs).
        { apply last_Some in Hl as [l' ->]. apply elem_of_app. right. by left. }
        apply list_elem_of_filter in Hr as [Hr _]. unfold report_hash in Hr. cbn.
        by destruct (entries (reports r) !! j).
      * apply last_None in Hl. rewrite Hl in Hh. cbn in Hh. lia.
    + rewrite backed_none; [done|]. intros h Hh.
      destruct (assemble_complete s f Hf rs j h Hh) as (fr' & Ha' & Hs). rewrite Ha in Ha'.
      injection Ha' as <-. rewrite Hv in Hs. by destruct Hs.
  - rewrite backed_none; [done|]. intros h Hh.
    destruct (assemble_complete s f Hf rs j h Hh) as (fr' & Ha' & _). by rewrite Ha in Ha'.
Qed.

(** Supporters of different hashes are different reports. *)
Lemma supporters_disjoint j h h' rs :
  h ≠ h' → (length (supporters j h rs) + length (supporters j h' rs) ≤ length rs)%nat.
Proof.
  intros Hne. unfold supporters. induction rs as [|r rs IH]; [done|]. rewrite !filter_cons.
  destruct (decide (report_hash j r = Some h)), (decide (report_hash j r = Some h'));
    cbn [length]; [congruence|lia..].
Qed.

(** Fewer than 2f+2 reports cannot support two values. *)
Lemma few_reports_unambiguous f rs j :
  Z.of_nat (length rs) < 2 * (f + 1) → unambiguous f rs j.
Proof.
  intros Hl h h' Hh Hh'. destruct (decide (h = h')) as [|Hne]; [done|].
  pose proof (supporters_disjoint j h h' rs Hne). lia.
Qed.

Lemma assemble_is_reference_witness :
  reported (assembleFinalReport (H := in_reverse) [] 1 (tail two_against_one)) "job-1" =
  agreed 1 (tail two_against_one) "job-1".
Proof.
  apply (assemble_is_reference (H := in_reverse)); [lia|].
  apply few_reports_unambiguous. vm_compute. reflexivity.
Defined.

(** What the reference says of it. *)
Example agreed_two_against_one :
  agreed 1 (tail two_against_one) "job-1" = Some (AStr "7") ∧
  agreed 1 (tail two_against_one) "job-2" = None.
Proof. split; vm_compute; reflexivity. Qed.
