(* ===== verification/Observations.v ===== *)
(** * ocr/observation_map.go, utils/common.go and ocr/messaging_layer.go

    The map of observations that leader and followers exchange as JSON, the
    comparison of two such exchanges by hash, and the messaging interface that
    the pacemaker and the reporting engine are written against. *)

From S2P Require Import Prelude Crypto Sha256 Json GoJson Jobs Rpc.

(** ** observation_map.go

    The [sync.Map] of the code, by peer; its methods never fail on the types
    that are stored.  A value read from JSON can be the nil map. *)
Abbreviation PeerObservations := (gomap (slice JobObservationResponse)).
Abbreviation ObservationSafeMap := (gmap string PeerObservations).

Definition Store (key : string) (value : PeerObservations) (o : ObservationSafeMap)
    : ObservationSafeMap := <[key := value]> o.

Definition Load (key : string) (o : ObservationSafeMap) : option PeerObservations := o !! key.

(** The callback, with what it has captured, decides whether the range goes
    on. *)
Fixpoint iterate_while {A} (callback : string → PeerObservations → A → A * bool)
    (l : list (string * PeerObservations)) (a : A) : A :=
  match l with
  | [] => a
  | (k, v) :: l =>
      let '(a, go_on) := callback k v a in
      if (go_on : bool) then iterate_while callback l a else a
  end.

Definition Iterate `{Nondet} {A} (s : list nat)
    (callback : string → PeerObservations → A → A * bool) (o : ObservationSafeMap) (a : A) : A :=
  iterate_while callback (map_range s o) a.

Definition go_observations : gotype (gomap PeerObservations) :=
  go_map (go_map (go_slice go_observation)).

Definition MarshalJSON (o : ObservationSafeMap) : result bytes := Marshal go_observations (Some o).

(** The temporary map starts as a made map; its entries are stored into [o]. *)
Definition UnmarshalJSON (data : bytes) (o : ObservationSafeMap) : result ObservationSafeMap :=
  tempMap ← Unmarshal go_observations (Some ∅) data; Ok (entries tempMap ∪ o).

(** ** utils/common.go *)
Definition CompareHashes (dataItems : list bytes) : bool :=
  match dataItems with
  | [] => false
  | first :: rest =>
      forallb (λ data, String.eqb (Sha256.Sum256 data) (Sha256.Sum256 first)) rest
  end.

(** ** messaging_layer.go

    [net] is the state of the layer.  [SendMsg] takes the server id of the
    peer; its callers ignore the errors. *)
Class MessagingLayer (net : Type) : Type := {
  SendMsg : string → bytes → proc net (option error);
  BroadcastMsg : bytes → proc net (option error);
  IsPeer : string → proc net bool
}.

(** What the engine relies on: asking who is a peer changes nothing. *)
Class MessagingLaws (net : Type) `{MessagingLayer net} : Prop := {
  IsPeer_reads id n : (IsPeer id n).2 = n
}.

(** ** Properties *)

(** A callback that always goes on is a fold. *)
Lemma iterate_all {A} (f : A → string * PeerObservations → A) l a :
  iterate_while (λ k v a, (f a (k, v), true)) l a = foldl f a l.
Proof. revert a. induction l as [|[k v] l IH]; intros a; [done|]. apply IH. Qed.

(** The maps whose strings are UTF-8. *)
Definition observations_ok (o : ObservationSafeMap) : Prop :=
  entries_ok (entries_ok (λ s, Forall observation_ok (elems s))) (Some o).

Lemma go_observations_lawful :
  lawful go_observations
    (entries_ok (entries_ok (λ s, Forall observation_ok (elems s)))) max_depth.
Proof.
  change max_depth with 10000. unfold go_observations.
  repeat (first [apply go_map_lawful | apply go_slice_lawful]; [lia|]).
  by apply go_observation_lawful.
Qed.

Lemma Unmarshal_MarshalJSON o data :
  observations_ok o → MarshalJSON o = Ok data → UnmarshalJSON data ∅ = Ok o.
Proof.
  intros Ho Hm. pose proof (Unmarshal_Marshal go_observations _ (Some o) data
    go_observations_lawful Ho Hm) as Hu.
  unfold UnmarshalJSON. unfold Unmarshal in *. apply result_bind_ok in Hu as (j & Hj & Hd).
  rewrite Hj. cbn [mbind result_bind].
  assert (dec go_observations (Some ∅) j = Ok (Some o)) as ->.
  { destruct j; try done. }
  cbn. by rewrite (right_id_L ∅ (∪)).
Qed.

Lemma MarshalJSON_total o : observations_ok o → ∃ data, MarshalJSON o = Ok data.
Proof.
  intros Ho. apply (Marshal_total go_observations (entries_ok (entries_ok
    (λ s, Forall observation_ok (elems s))))); [|done].
  apply go_map_total, go_map_total, go_slice_total, go_observation_total.
Qed.

(** C28: the observations travel unchanged: what the leader marshals from
    well-formed observations is what a follower reads back into an empty map,
    and marshalling it again gives the same bytes, so that the copy in the
    report request and the cached copy pass the comparison by hash. *)
Theorem observations_roundtrip o :
  observations_ok o →
  ∃ data, MarshalJSON o = Ok data ∧ UnmarshalJSON data ∅ = Ok o ∧
    ∀ o' data', UnmarshalJSON data ∅ = Ok o' → MarshalJSON o' = Ok data' →
      CompareHashes [data; data'] = true.
Proof.
  intros Ho. destruct (MarshalJSON_total o Ho) as [data Hd]. exists data.
  pose proof (Unmarshal_MarshalJSON o data Ho Hd) as Hu. split; [done|]. split; [done|].
  intros o' data' Hu' Hd'. assert (o' = o) as -> by congruence.
  assert (data' = data) as -> by congruence. cbn. by rewrite String.eqb_refl.
Qed.

Definition sample_observations : ObservationSafeMap :=
  {["02aa" := Some {["job-1" := Some [observed "1.5"]]}; "02bb" := Some ∅]}.

Lemma sample_observations_ok : observations_ok sample_observations.
Proof.
  apply map_Forall_insert_2; [split; [done|]|apply map_Forall_singleton; split; done].
  apply map_Forall_singleton. split; [done|]. by constructor.
Qed.

Lemma observations_roundtrip_witness :
  ∃ data, MarshalJSON sample_observations = Ok data ∧
    UnmarshalJSON data ∅ = Ok sample_observations ∧
    ∀ o' data', UnmarshalJSON data ∅ = Ok o' → MarshalJSON o' = Ok data' →
      CompareHashes [data; data'] = true.
Proof. apply observations_roundtrip, sample_observations_ok. Defined.

(** A comparison accepts exactly the lists, not empty, whose items all have the
    hash of the first. *)
Theorem CompareHashes_iff items :
  CompareHashes items = true ↔
  ∃ first, head items = Some first ∧
    Forall (λ data, Sha256.Sum256 data = Sha256.Sum256 first) items.
Proof.
  destruct items as [|first rest]; cbn [CompareHashes head].
  - split; [done|]. by intros (? & ? & _).
  - rewrite forallb_forall. split.
    + intros Hall. exists first. split; [done|]. constructor; [done|].
      apply Forall_forall. intros x Hx. apply String.eqb_eq, Hall. by apply list_elem_of_In.
    + intros (? & [= <-] & Hall) x Hx. apply String.eqb_eq.
      eapply Forall_forall in Hall; [exact Hall|]. apply list_elem_of_In. by right.
Qed.
