(* ===== verification/Reporter.v ===== *)
(** * ocr/reporter.go, leader.go, utils.go, timer.go and transmitter.go

    The reporting engine: its state, the handler of every message, the phase
    handlers of the leader, and its start and stop.  An operation is a
    procedure on the [node]: the engine, the messaging layer below it, and the
    part of the Go run time that it uses (the channel on which phases are
    sent and the goroutines that have been started).  The network below is any
    [MessagingLayer], the wire format any [Codec]. *)

From S2P Require Import Prelude Bytes Crypto Strconv Json GoJson Jobs Rpc Observations.
From S2P Require Import Assembly.

(** ** Constants *)
Definition MAX_ROUNDS : Z := 10.
Definition INIT_ROUND : Z := 1.

(** leader.go *)
Inductive LeaderPhase :=
  PhaseNil | PhaseObserve | PhaseGrace | PhaseReport | PhaseFinal | PhaseTransmit.

#[export] Instance LeaderPhase_eq_dec : EqDecision LeaderPhase.
Proof. solve_decision. Defined.

(** pacemaker.go *)
Inductive SendingSchme := BROADCAST | LEADER | PEER.

(** ** Data *)

(** timer.go: a timer that was made runs; the zero [Timer] has no channel to
    stop it with. *)
Record Timer := { made : bool; stopped : bool }.
Definition zero_timer : Timer := {| made := false; stopped := false |}.
Definition NewTimer : Timer := {| made := true; stopped := false |}.

(** [Timer.Stop]: closing the nil channel panics. *)
Definition Timer_Stop (t : Timer) : outcome Timer :=
  if stopped t then Done t
  else if made t then Done {| made := true; stopped := true |}
  else Panicked "close of nil channel".

(** The guarded stop of the clean-up: nothing to do for the nil timer. *)
Definition stop_timer (t : option Timer) : outcome (option Timer) :=
  match t with None => Done None | Some t => t' ← Timer_Stop t; Done (Some t') end.

(** A channel is known by its number. *)
Abbreviation chan := nat.

Record ServerInfo := { si_Addr : string; si_ID : string }.
Record PacemakerGlobals := { pg_n : Z; pg_f : Z }.

Record LeaderState := {
  observations : ObservationSafeMap;
  finalReport : option FinalReport;
  ls_reports : list Report;
  finalReportAttestation : Z;
  TimerRoundTimeout : option Timer;
  TimerGrace : option Timer;
  Phase : LeaderPhase;
  phaseCh : chan
}.

Record CacheLayer := {
  observe_n : Z;
  report_n : Z;
  cl_jobs : list Job;
  jobReports : JobReports;
  follower_observations : ObservationSafeMap;
  c_finalReport : FinalReport
}.

Definition zero_final_report : FinalReport := {| fr_Report := None; fr_Signatories := None |}.

Definition zero_cache : CacheLayer := {|
  observe_n := 0; report_n := 0; cl_jobs := []; jobReports := None;
  follower_observations := ∅; c_finalReport := zero_final_report |}.

(** The pointer to a job registry: nil, one of the engine's own that nobody
    adds to, or that of the pacemaker. *)
Inductive registry := NilRegistry | OwnRegistry | PacemakerRegistry.

(** An event of the queue; the queue holds what the listeners send. *)
Abbreviation fifo := (list DirectReqEventRes).

Record ReportingEngine := {
  curRound : Z;
  isLeader : bool;
  epoch : Z;
  leader : string;
  leaderState : LeaderState;
  msgService : bool;  (* not nil *)
  serverOpts : ServerInfo;
  quitCh : option bool;  (* nil, or closed or not *)
  cacheLayer : CacheLayer;
  pacemakerGlobals : PacemakerGlobals;
  signer : PrivateKey;
  recEvents : option fifo;
  jobRegistry : registry;
  jobSchedule : option (gmap Z (list Job));
  mu : bool;  (* locked *)
  ready : bool
}.

(** Goroutines and delayed functions that have been started and not yet run. *)
Inductive task :=
| TPhase (p : LeaderPhase)         (* go re.handle...() *)
| TGraceOver                       (* the function that handleGrace delays *)
| TReportReq (data : bytes)        (* the rest of handleReport after its sleep *)
| TProgress                        (* go re.progressToNextRound() *)
| TRunJob (job : Job) (info : JobInfo).

Record node (net : Type) := {
  re : ReportingEngine;
  below : net;
  pm_registry : gmap string Job;  (* the pacemaker's jobs *)
  listening : option chan;        (* where the orchestrator waits for a phase *)
  closed : gset nat;              (* closed phase channels *)
  next_chan : chan;
  spawned : list task
}.
Arguments re {net} n.
Arguments below {net} n.
Arguments pm_registry {net} n.
Arguments listening {net} n.
Arguments closed {net} n.
Arguments next_chan {net} n.
Arguments spawned {net} n.

(** *** Field updates *)
Section updates.
Context {net : Type}.
Implicit Types (n : node net).

Definition set_re (r : ReportingEngine) n : node net := {|
  re := r; below := below n; pm_registry := pm_registry n; listening := listening n;
  closed := closed n; next_chan := next_chan n; spawned := spawned n |}.
Definition set_below (b : net) n : node net := {|
  re := re n; below := b; pm_registry := pm_registry n; listening := listening n;
  closed := closed n; next_chan := next_chan n; spawned := spawned n |}.
Definition set_listening (l : option chan) n : node net := {|
  re := re n; below := below n; pm_registry := pm_registry n; listening := l;
  closed := closed n; next_chan := next_chan n; spawned := spawned n |}.
Definition set_closed (c : gset nat) n : node net := {|
  re := re n; below := below n; pm_registry := pm_registry n; listening := listening n;
  closed := c; next_chan := next_chan n; spawned := spawned n |}.
Definition set_next_chan (c : chan) n : node net := {|
  re := re n; below := below n; pm_registry := pm_registry n; listening := listening n;
  closed := closed n; next_chan := c; spawned := spawned n |}.
Definition spawn (t : task) n : node net := {|
  re := re n; below := below n; pm_registry := pm_registry n; listening := listening n;
  closed := closed n; next_chan := next_chan n; spawned := spawned n ++ [t] |}.
End updates.

Definition set_curRound z (r : ReportingEngine) : ReportingEngine := {|
  curRound := z; isLeader := isLeader r; epoch := epoch r; leader := leader r;
  leaderState := leaderState r; msgService := msgService r; serverOpts := serverOpts r;
  quitCh := quitCh r; cacheLayer := cacheLayer r; pacemakerGlobals := pacemakerGlobals r;
  signer := signer r; recEvents := recEvents r; jobRegistry := jobRegistry r;
  jobSchedule := jobSchedule r; mu := mu r; ready := ready r |}.
Definition set_leaderState l (r : ReportingEngine) : ReportingEngine := {|
  curRound := curRound r; isLeader := isLeader r; epoch := epoch r; leader := leader r;
  leaderState := l; msgService := msgService r; serverOpts := serverOpts r;
  quitCh := quitCh r; cacheLayer := cacheLayer r; pacemakerGlobals := pacemakerGlobals r;
  signer := signer r; recEvents := recEvents r; jobRegistry := jobRegistry r;
  jobSchedule := jobSchedule r; mu := mu r; ready := ready r |}.
Definition set_cacheLayer c (r : ReportingEngine) : ReportingEngine := {|
  curRound := curRound r; isLeader := isLeader r; epoch := epoch r; leader := leader r;
  leaderState := leaderState r; msgService := msgService r; serverOpts := serverOpts r;
  quitCh := quitCh r; cacheLayer := c; pacemakerGlobals := pacemakerGlobals r;
  signer := signer r; recEvents := recEvents r; jobRegistry := jobRegistry r;
  jobSchedule := jobSchedule r; mu := mu r; ready := ready r |}.
Definition set_mu_ready m b (r : ReportingEngine) : ReportingEngine := {|
  curRound := curRound r; isLeader := isLeader r; epoch := epoch r; leader := leader r;
  leaderState := leaderState r; msgService := msgService r; serverOpts := serverOpts r;
  quitCh := quitCh r; cacheLayer := cacheLayer r; pacemakerGlobals := pacemakerGlobals r;
  signer := signer r; recEvents := recEvents r; jobRegistry := jobRegistry r;
  jobSchedule := jobSchedule r; mu := m; ready := b |}.
Definition set_schedule (q : option fifo) (g : registry) s (r : ReportingEngine)
    : ReportingEngine := {|
  curRound := curRound r; isLeader := isLeader r; epoch := epoch r; leader := leader r;
  leaderState := leaderState r; msgService := msgService r; serverOpts := serverOpts r;
  quitCh := quitCh r; cacheLayer := cacheLayer r; pacemakerGlobals := pacemakerGlobals r;
  signer := signer r; recEvents := q; jobRegistry := g;
  jobSchedule := s; mu := mu r; ready := ready r |}.

Definition set_quitCh q (r : ReportingEngine) : ReportingEngine := {|
  curRound := curRound r; isLeader := isLeader r; epoch := epoch r; leader := leader r;
  leaderState := leaderState r; msgService := msgService r; serverOpts := serverOpts r;
  quitCh := q; cacheLayer := cacheLayer r; pacemakerGlobals := pacemakerGlobals r;
  signer := signer r; recEvents := recEvents r; jobRegistry := jobRegistry r;
  jobSchedule := jobSchedule r; mu := mu r; ready := ready r |}.
Definition set_msgService b (r : ReportingEngine) : ReportingEngine := {|
  curRound := curRound r; isLeader := isLeader r; epoch := epoch r; leader := leader r;
  leaderState := leaderState r; msgService := b; serverOpts := serverOpts r;
  quitCh := quitCh r; cacheLayer := cacheLayer r; pacemakerGlobals := pacemakerGlobals r;
  signer := signer r; recEvents := recEvents r; jobRegistry := jobRegistry r;
  jobSchedule := jobSchedule r; mu := mu r; ready := ready r |}.

Definition set_Phase p (l : LeaderState) : LeaderState := {|
  observations := observations l; finalReport := finalReport l; ls_reports := ls_reports l;
  finalReportAttestation := finalReportAttestation l; TimerRoundTimeout := TimerRoundTimeout l;
  TimerGrace := TimerGrace l; Phase := p; phaseCh := phaseCh l |}.
Definition set_observations o (l : LeaderState) : LeaderState := {|
  observations := o; finalReport := finalReport l; ls_reports := ls_reports l;
  finalReportAttestation := finalReportAttestation l; TimerRoundTimeout := TimerRoundTimeout l;
  TimerGrace := TimerGrace l; Phase := Phase l; phaseCh := phaseCh l |}.
Definition set_reports o (l : LeaderState) : LeaderState := {|
  observations := observations l; finalReport := finalReport l; ls_reports := o;
  finalReportAttestation := finalReportAttestation l; TimerRoundTimeout := TimerRoundTimeout l;
  TimerGrace := TimerGrace l; Phase := Phase l; phaseCh := phaseCh l |}.
Definition set_finalReport o (l : LeaderState) : LeaderState := {|
  observations := observations l; finalReport := o; ls_reports := ls_reports l;
  finalReportAttestation := finalReportAttestation l; TimerRoundTimeout := TimerRoundTimeout l;
  TimerGrace := TimerGrace l; Phase := Phase l; phaseCh := phaseCh l |}.
Definition set_attestation z (l : LeaderState) : LeaderState := {|
  observations := observations l; finalReport := finalReport l; ls_reports := ls_reports l;
  finalReportAttestation := z; TimerRoundTimeout := TimerRoundTimeout l;
  TimerGrace := TimerGrace l; Phase := Phase l; phaseCh := phaseCh l |}.
Definition set_timers a b (l : LeaderState) : LeaderState := {|
  observations := observations l; finalReport := finalReport l; ls_reports := ls_reports l;
  finalReportAttestation := finalReportAttestation l; TimerRoundTimeout := a;
  TimerGrace := b; Phase := Phase l; phaseCh := phaseCh l |}.

Definition set_observe_n z (c : CacheLayer) : CacheLayer := {|
  observe_n := z; report_n := report_n c; cl_jobs := cl_jobs c; jobReports := jobReports c;
  follower_observations := follower_observations c; c_finalReport := c_finalReport c |}.
Definition set_report_n z (c : CacheLayer) : CacheLayer := {|
  observe_n := observe_n c; report_n := z; cl_jobs := cl_jobs c; jobReports := jobReports c;
  follower_observations := follower_observations c; c_finalReport := c_finalReport c |}.
Definition set_cl_jobs j (c : CacheLayer) : CacheLayer := {|
  observe_n := observe_n c; report_n := report_n c; cl_jobs := j; jobReports := jobReports c;
  follower_observations := follower_observations c; c_finalReport := c_finalReport c |}.
Definition set_jobReports j (c : CacheLayer) : CacheLayer := {|
  observe_n := observe_n c; report_n := report_n c; cl_jobs := cl_jobs c; jobReports := j;
  follower_observations := follower_observations c; c_finalReport := c_finalReport c |}.
Definition set_follower_observations o (c : CacheLayer) : CacheLayer := {|
  observe_n := observe_n c; report_n := report_n c; cl_jobs := cl_jobs c;
  jobReports := jobReports c; follower_observations := o; c_finalReport := c_finalReport c |}.
Definition set_c_finalReport o (c : CacheLayer) : CacheLayer := {|
  observe_n := observe_n c; report_n := report_n c; cl_jobs := cl_jobs c;
  jobReports := jobReports c; follower_observations := follower_observations c;
  c_finalReport := o |}.

(** What a handler finds outside the node: the network, the clock, the
    randomness and the order of concurrent things during this call. *)
Record Env `{Ecdsa} := {
  http : nat → string → result bytes;   (* for the i-th job of the message *)
  late : nat → nat → bool;              (* its deadline, before its k-th task *)
  rand : entropy;
  site : list nat
}.
Arguments Env {H}.

(** ** utils.go *)
Definition typeToPhase (v : goval) : option LeaderPhase :=
  match v with
  | VObserveReq _ | VObserveResp _ => Some PhaseObserve
  | VReportReq _ | VReportRes _ | VBroadcastObservationMap _ => Some PhaseReport
  | VBroadcastFinalReport _ | VFinalEcho _ => Some PhaseFinal
  | _ => None
  end.

(** The value behind the interface, pointer or not. *)
Definition unbox (data : boxed) : goval := match data with Ptr v | Val v => v end.

Definition getCommonFieldsAndPhase (data : boxed) : result (common * LeaderPhase) :=
  match unbox data with
  | VNil => Error (Errorf "data is not a struct")
  | v =>
      match common_of v with
      | None => Error (Errorf "required fields missing")
      | Some c =>
          match typeToPhase v with
          | None => Error (Errorf "unknown message type")
          | Some phase => Ok (c, phase)
          end
      end
  end.

Section engine.
Context `{Nondet} `{Ecdsa} `{Codec} {net : Type} `{MessagingLayer net}.

Abbreviation P A := (proc (node net) A).

(** *** Access to the node *)
Definition gets_re {A} (f : ReportingEngine → A) : P A := gets (λ n, f (re n)).
Definition mod_re (f : ReportingEngine → ReportingEngine) : P unit :=
  modify (λ n, set_re (f (re n)) n).
Definition mod_leader (f : LeaderState → LeaderState) : P unit :=
  mod_re (λ r, set_leaderState (f (leaderState r)) r).
Definition mod_cache (f : CacheLayer → CacheLayer) : P unit :=
  mod_re (λ r, set_cacheLayer (f (cacheLayer r)) r).
Definition go (t : task) : P unit := modify (spawn t).

Definition on_net {A} (m : proc net A) : P A :=
  λ n, let '(o, b) := m (below n) in (o, set_below b n).

(** A call through [re.msgService], which is nil after the clean-up. *)
Definition through {A} (m : proc net A) : P A :=
  up ← gets_re msgService;
  if (up : bool) then on_net m else panic "nil pointer dereference".

Definition broadcast (msg : bytes) : P unit := through (BroadcastMsg msg);; mret tt.
Definition send_to (id : string) (msg : bytes) : P unit := through (SendMsg id msg);; mret tt.

(** [re.SendMsg] *)
Definition RE_SendMsg (s : SendingSchme) (msg : bytes) (id : string) : P unit :=
  match s with
  | BROADCAST => broadcast msg
  | LEADER => to ← gets_re leader; send_to to msg
  | PEER => send_to id msg
  end.

(** *** The phase channel

    The orchestrator takes a phase, starts its handler, and waits on the
    channel that the engine has by then. *)
Definition orchestrateLeadership (phase : LeaderPhase) : P unit :=
  (if decide (phase = PhaseNil) then mret tt else go (TPhase phase));;
  modify (λ n, set_listening (Some (phaseCh (leaderState (re n)))) n).

Definition send_on (c : chan) (phase : LeaderPhase) : P unit :=
  n ← get;
  if decide (c ∈ closed n) then panic "send on closed channel"
  else if decide (listening n = Some c) then orchestrateLeadership phase
  else block "no receiver on the phase channel".

(** [re.LeaderState.phaseCh <- phase] *)
Definition send_phase (phase : LeaderPhase) : P unit :=
  c ← gets_re (λ r, phaseCh (leaderState r)); send_on c phase.

Definition set_and_send (phase : LeaderPhase) : P unit :=
  mod_leader (set_Phase phase);; send_phase phase.

(** *** Signatures: [return *sign, err] dereferences nil after an error *)
Definition SignMessage (env : Env) (msg : bytes) : P Signature :=
  key ← gets_re signer;
  match Sign (rand env) key msg with
  | Error _ => panic "nil pointer dereference"
  | Ok sign => mret sign
  end.

Definition VerifySignature (msgBytes : bytes) (fromID : string) (signature : Signature)
    : outcome (result bool) :=
  match StringToPublicKey fromID with
  | Error _ => Done (Error (Errorf "failed to convert string to public key"))
  | Ok pk =>
      ok ← Verify signature msgBytes pk;
      Done (if (ok : bool) then Ok true else Error (Errorf "signature verification failed"))
  end.

(** [isPeer] is declared false and only ever set to false. *)
Definition VerifySigAndPeer (msg : bytes) (fromID : string) (sign : Signature) : P bool :=
  match StringToPublicKey fromID with
  | Error _ => mret false
  | Ok pk =>
      ifSigned ← lift_outcome (Verify sign msg pk);
      known ← through (IsPeer fromID);
      let isPeer := if negb (known : bool) then false else false in
      mret ((ifSigned : bool) && isPeer)
  end.

(** The builder that every sender uses: a failure is a panic. *)
Definition build_or_panic (headers topic : Z) (payload : goval) (sig : Signature) : P bytes :=
  id ← gets_re (λ r, si_ID (serverOpts r));
  match rpc_bytes id headers topic payload sig with
  | Error _ => panic "panic(err)"
  | Ok b => mret b
  end.

(** ** Stop and clean-up *)
Definition cleanupFunc : P unit :=
  r ← gets re;
  (* the quit channel: closed when it is not closed yet *)
  (match quitCh r with
   | None => panic "close of nil channel"
   | Some _ => mod_re (set_quitCh (Some true));; modify (set_listening None)
   end);;
  (if isLeader r then
     n ← get;
     let c := phaseCh (leaderState (re n)) in
     if decide (c ∈ closed n) then panic "close of closed channel"
     else modify (set_closed ({[c]} ∪ closed n))
   else mret tt);;
  t1 ← lift_outcome (stop_timer (TimerRoundTimeout (leaderState r)));
  mod_leader (set_timers t1 (TimerGrace (leaderState r)));;
  t2 ← lift_outcome (stop_timer (TimerGrace (leaderState r)));
  mod_leader (set_timers t1 t2);;
  mod_re (set_schedule None NilRegistry None);;
  mod_cache (λ c, set_observe_n 0 (set_report_n 0 c));;
  mod_re (set_msgService false).

Definition Stop : P unit :=
  q ← gets_re quitCh;
  match q with
  | None => panic "close of nil channel"
  | Some true => panic "close of closed channel"
  | Some false =>
      mod_re (set_quitCh (Some true));; modify (set_listening None);; cleanupFunc
  end.

(** ** ProcessMessage, case by case

    Each case ends with the error that [ProcessMessage] returns. *)

(** *** ObserveReq, on a follower *)

(** The loop that creates the jobs: each is kept in the cache and started;
    after an error those that run are left alone. *)
Fixpoint launch (infos : list JobInfo) : P (option (list (Job * JobInfo))) :=
  match infos with
  | [] => mret (Some [])
  | jobInfo :: infos =>
      match NewJobFromInfo jobInfo with
      | Error _ => mret None
      | Ok job =>
          mod_cache (λ c, set_cl_jobs (cl_jobs c ++ [job]) c);;
          rest ← launch infos;
          match rest with
          | Some l => mret (Some ((job, jobInfo) :: l))
          | None => go (TRunJob job jobInfo);; mret None
          end
      end
  end.

(** The goroutine of the [i]-th job. *)
Definition run_job (env : Env) (i : nat) (job : Job) (jobInfo : JobInfo)
    : outcome (Job * result JobObservationResponse) :=
  match Run (http env i) (ctx_done (info_Timeout jobInfo) (late env i)) job with
  | (Done (Some e), job') => Done (job', Error e)
  | (Done None, job') =>
      res ← Result job';
      Done (job', match res with
                  | Error e => Error e
                  | Ok res => Ok {| obs_JobId := info_JobID jobInfo; obs_Response := Some res |}
                  end)
  | (Panicked w, _) => Panicked w
  | (Blocked w, _) => Blocked w
  end.

(** All of them: a panic in one ends the process. *)
Fixpoint run_jobs (env : Env) (i : nat) (l : list (Job * JobInfo))
    : outcome (list (Job * result JobObservationResponse)) :=
  match l with
  | [] => Done []
  | (job, jobInfo) :: l =>
      r ← run_job env i job jobInfo; rs ← run_jobs env (S i) l; Done (r :: rs)
  end.

Definition oks {A} (l : list (result A)) : list A :=
  omap (λ r, match r with Ok a => Some a | Error _ => None end) l.
Definition errors {A} (l : list (result A)) : list error :=
  omap (λ r, match r with Ok _ => None | Error e => Some e end) l.

Definition max_rounds_reached : P unit :=
  rpcMsg ← build_or_panic MessageNewEpoch TopicPacemaker
    (VNewEpochMesage {| EpochID := 0 |}) no_signature;
  broadcast rpcMsg;; Stop.

(** The response: signed, and sent to the leader. *)
Definition respond (env : Env) (headers : Z) (payload : goval) : P unit :=
  match Encode payload with
  | Error _ => mret tt
  | Ok msgBytes =>
      signature ← SignMessage env msgBytes;
      rpcMsg ← build_or_panic headers TopicReporter payload signature;
      to ← gets_re leader;
      send_to to rpcMsg
  end.

Definition processObserveReq (env : Env) (msg : ObserveReq) : P (option error) :=
  mod_re (set_curRound (i64 (Round (oq_common msg))));;
  round ← gets_re curRound;
  (if MAX_ROUNDS <? round then max_rounds_reached else mret tt);;
  launched ← launch (elems (Jobs msg));
  match launched with
  | None => mret None
  | Some l =>
      results ← lift_outcome (run_jobs env 0 l);
      mod_cache (λ c, set_cl_jobs
        (take (length (cl_jobs c) - length l) (cl_jobs c) ++ results.*1) c);;
      let finished := shuffle (site env) results.*2 in
      match errors finished with
      | e :: _ => mret (Some e)
      | [] =>
          r ← gets_re id;
          respond env MessageObserveRes
            (VObserveResp {| or_common := {| Epoch := epoch r; Round := u64 (curRound r);
                                             Leader := leader r |};
                             JobResponses := append None (oks finished) |});;
          mret None
      end
  end.

(** *** ObserveResp, on the leader *)
Definition group_responses (l : list JobObservationResponse)
    : gmap string (slice JobObservationResponse) :=
  foldl (λ m j, <[obs_JobId j := append (default None (m !! obs_JobId j)) [j]]> m) ∅ l.

Definition processObserveResp (msg : DecodedMsg) (observation : ObserveResp)
    : P (option error) :=
  r ← gets_re id;
  if (Round (or_common observation) =? u64 (curRound r)) &&
     (Epoch (or_common observation) =? epoch r) then
    match Encode (VObserveResp observation) with
    | Error _ => mret None
    | Ok msgBytes =>
        match StringToPublicKey (FromId msg) with
        | Error _ => mret None
        | Ok pk =>
            isSigned ← lift_outcome (Verify (dm_Signature msg) msgBytes pk);
            if (isSigned : bool) then
              mod_leader (λ l, set_observations (Store (FromId msg)
                (Some (group_responses (elems (JobResponses observation))))
                (observations l)) l);;
              mod_cache (λ c, set_observe_n (u64 (observe_n c + 1)) c);;
              count ← gets_re (λ r, observe_n (cacheLayer r));
              if u64 (2 * pg_f (pacemakerGlobals r) + 1) <? count
              then set_and_send PhaseGrace;; mret None
              else mret None
            else mret None
        end
    end
  else mret None.

(** *** BroadcastObservationMap, on a follower *)
Definition processObservationMap (msg : BroadcastObservationMap) : P (option error) :=
  match UnmarshalJSON (default "" (om_Observations msg)) ∅ with
  | Error e => mret (Some e)
  | Ok obsMap => mod_cache (set_follower_observations obsMap);; mret None
  end.

(** *** ReportReq, on a follower *)

(** Step 2: the observations of all peers, by job. *)
Definition reorganize (env : Env) (obsMap : ObservationSafeMap)
    : gmap string (slice JobObservationResponse) :=
  Iterate (site env) (λ peerID peerObservations acc,
    (foldl (λ acc jo, <[jo.1 := append (default None (acc !! jo.1)) (elems jo.2)]> acc) acc
       (map_range (site env ++ [1%nat]) (entries peerObservations)), true))
    obsMap ∅.

(** The lookup through the pointer [re.jobRegistry]; a missing job is the nil interface, on which
    [Assemble] is called. *)
Definition registered (n : node net) (jobID : string) : outcome Job :=
  match jobRegistry (re n) with
  | NilRegistry | OwnRegistry => Panicked "nil pointer dereference"
  | PacemakerRegistry =>
      match pm_registry n !! jobID with
      | None => Panicked "nil pointer dereference"
      | Some job => Done job
      end
  end.

(** Step 3: the final value of every job; a job that fails is skipped. *)
Fixpoint assemble_all (n : node net) (jobs : list (string * slice JobObservationResponse))
    (values : gmap string any) : outcome (gmap string any) :=
  match jobs with
  | [] => Done values
  | (jobID, observations) :: jobs =>
      job ← registered n jobID;
      finalValue ← Assemble job (elems observations);
      assemble_all n jobs
        match finalValue with Error _ => values | Ok v => <[jobID := v]> values end
  end.

Definition processReportReq (env : Env) (msg : ReportReq) : P (option error) :=
  let observationMap := default "" (rq_Observations msg) in
  match UnmarshalJSON observationMap ∅ with
  | Error e => mret (Some e)
  | Ok obsMap =>
      cached ← gets_re (λ r, follower_observations (cacheLayer r));
      let cacheObsData := match MarshalJSON cached with Ok b => b | Error _ => "" end in
      if negb (CompareHashes [observationMap; cacheObsData]) then mret None
      else
        n ← get;
        values ← lift_outcome
          (assemble_all n (map_range (site env ++ [2%nat]) (reorganize env obsMap)) ∅);
        mod_cache (set_jobReports (Some values));;
        r ← gets_re id;
        respond env MessageReportRes
          (VReportRes {| rr_common := {| Epoch := epoch r; Round := u64 (curRound r);
                                         Leader := leader r |};
                         Reports := Some values |});;
        mret None
  end.

(** *** ReportRes, on the leader *)
Definition processReportRes (env : Env) (msg : DecodedMsg) (reports : ReportRes)
    : P (option error) :=
  match Encode (VReportRes reports) with
  | Error _ => mret None
  | Ok msgBytes =>
      match StringToPublicKey (FromId msg) with
      | Error _ => mret None
      | Ok pk =>
          isSigned ← lift_outcome (Verify (dm_Signature msg) msgBytes pk);
          if (isSigned : bool) then
            mod_leader (λ l, set_reports (ls_reports l ++
              [{| sig := dm_Signature msg; from := FromId msg;
                  Assembly.reports := Reports reports |}]) l);;
            r ← gets_re id;
            if i64 (pg_n (pacemakerGlobals r)) <=?
                 Z.of_nat (length (ls_reports (leaderState r))) then
              match assembleFinalReport (site env) (i64 (pg_f (pacemakerGlobals r)))
                      (ls_reports (leaderState r)) with
              | Some finalR =>
                  mod_leader (set_finalReport (Some finalR));;
                  set_and_send PhaseFinal;; mret None
              | None => mret None
              end
            else mret None
          else mret None
      end
  end.

(** *** BroadcastFinalReport, on a follower *)
Definition sendFinalReportEcho (env : Env) : P (option error) :=
  r ← gets_re id;
  let echo := VFinalEcho {| fe_common := {| Epoch := epoch r; Round := u64 (curRound r);
                                            Leader := leader r |} |} in
  match Encode echo with
  | Error e => mret (Some e)
  | Ok msgBytes =>
      signature ← SignMessage env msgBytes;
      match rpc_bytes (si_ID (serverOpts r)) MessageFinalEcho TopicReporter echo signature with
      | Error e => mret (Some e)
      | Ok rpcMsg => send_to (leader r) rpcMsg;; mret None
      end
  end.

(** The loop over the signatories: the number of valid ones, or none when the
    message is dropped on the way. *)
Fixpoint count_valid (threshold : Z) (msgBytes : bytes) (signatories : list Signatories)
    (uniqueValidators : gset string) (validSignatures : Z) : P (option Z) :=
  match signatories with
  | [] => mret (Some validSignatures)
  | signatory :: signatories =>
      match StringToPublicKey (sg_ID signatory) with
      | Error _ => mret None
      | Ok pk =>
          known ← through (IsPeer (sg_ID signatory));
          if negb (known : bool) then mret None else
          ok ← lift_outcome (Verify (sg_Sign signatory) msgBytes pk);
          let fresh := (ok : bool) && negb (bool_decide (sg_ID signatory ∈ uniqueValidators)) in
          let unique := if fresh then {[sg_ID signatory]} ∪ uniqueValidators
                        else uniqueValidators in
          let valid := if fresh then validSignatures + 1 else validSignatures in
          if threshold <=? valid then mret (Some valid)
          else count_valid threshold msgBytes signatories unique valid
      end
  end.

Definition processFinalReport (env : Env) (msg : DecodedMsg) (m : BroadcastFinalReport)
    : P (option error) :=
  match Encode (VBroadcastFinalReport m) with
  | Error _ => mret None
  | Ok msgBytes =>
      isSigned ← lift_outcome (VerifySignature msgBytes (FromId msg) (dm_Signature msg));
      match isSigned with
      | Ok true =>
          threshold ← gets_re (λ r, i64 (pg_f (pacemakerGlobals r)) + 1);
          counted ← count_valid threshold msgBytes
            (elems (fr_Signatories (bf_FinalReport m))) ∅ 0;
          match counted with
          | None => mret None
          | Some validSignatures =>
              if validSignatures <? threshold then mret None
              else
                mod_cache (set_c_finalReport (bf_FinalReport m));;
                sendFinalReportEcho env;; mret None
          end
      | _ => mret None
      end
  end.

(** *** FinalEcho, on the leader *)
Definition processFinalEcho (msg : DecodedMsg) (finalEcho : FinalEcho) : P (option error) :=
  r ← gets_re id;
  let c := fe_common finalEcho in
  if negb (Epoch c =? epoch r) ||
     (negb (Round c =? u64 (curRound r)) || negb (String.eqb (Leader c) (leader r)))
  then mret None
  else
    match Encode (VFinalEcho finalEcho) with
    | Error _ => mret None
    | Ok msgBytes =>
        signed ← VerifySigAndPeer msgBytes (FromId msg) (dm_Signature msg);
        if (signed : bool) then
          mod_leader (λ l, set_attestation (u64 (finalReportAttestation l + 1)) l);;
          count ← gets_re (λ r, finalReportAttestation (leaderState r));
          if u64 (pg_f (pacemakerGlobals r) + 1) <=? count
          then set_and_send PhaseTransmit;; mret None
          else mret None
        else mret None
    end.

(** *** ProgressRound, on a follower *)
Definition processProgressRound (msg : DecodedMsg) (m : ProgressRound) : P (option error) :=
  match Encode (VProgressRound m) with
  | Error e => mret (Some e)
  | Ok msgBytes =>
      from ← gets_re leader;
      isSigned ← lift_outcome (VerifySignature msgBytes from (dm_Signature msg));
      match isSigned with
      | Ok true => go TProgress;; mret None
      | _ => mret (Some (Errorf "RE: err verifying leader's signature"))
      end
  end.

(** ** ProcessMessage *)
Definition rpcMsgPrechecks (r : ReportingEngine) (msg : DecodedMsg) : result bool :=
  '(c, _) ← getCommonFieldsAndPhase (dm_Data msg);
  if negb (Epoch c =? epoch r) then Error (Errorf "RE: message has incorrect epoch")
  else if negb (Round c =? u64 (curRound r)) then
    Error (Errorf "RE: message has incorrect round")
  else if negb (String.eqb (Leader c) (leader r)) then
    Error (Errorf "RE: message has incorrect leader")
  else Ok true.

(** The switch on the type of the message: every case is a pointer. *)
Definition dispatch (env : Env) (msg : DecodedMsg) : P (option error) :=
  match dm_Data msg with
  | Ptr (VObserveReq m) => processObserveReq env m
  | Ptr (VObserveResp m) => processObserveResp msg m
  | Ptr (VBroadcastObservationMap m) => processObservationMap m
  | Ptr (VReportReq m) => processReportReq env m
  | Ptr (VReportRes m) => processReportRes env msg m
  | Ptr (VBroadcastFinalReport m) => processFinalReport env msg m
  | Ptr (VFinalEcho m) => processFinalEcho msg m
  | Ptr (VProgressRound m) => processProgressRound msg m
  | _ => mret None
  end.

Definition lock : P unit :=
  locked ← gets_re mu;
  if (locked : bool) then block "mutex is locked" else mod_re (λ r, set_mu_ready true (ready r) r).
Definition unlock : P unit := mod_re (λ r, set_mu_ready false (ready r) r).

(** An engine that is not ready returns with its mutex locked. *)
Definition ProcessMessage (env : Env) (msg : DecodedMsg) : P (option error) :=
  lock;;
  is_ready ← gets_re ready;
  if negb (is_ready : bool) then mret (Some (Errorf "RE: not ready to process messages"))
  else
    unlock;;
    r ← gets_re id;
    match rpcMsgPrechecks r msg with
    | Ok true => dispatch env msg
    | Ok false => mret (Some (Errorf "RE: rpc msg prechecks failed"))
    | Error e => mret (Some (Wrapf "RE: rpc msg prechecks failed" e))
    end.

(** ** The phases of the leader (leader.go) *)
Definition current_common (r : ReportingEngine) : common :=
  {| Epoch := epoch r; Round := u64 (curRound r); Leader := leader r |}.

Definition GetJobInfosForCurrRound (r : ReportingEngine) : slice JobInfo :=
  let js := default [] (default ∅ (jobSchedule r) !! curRound r) in
  append None (map (λ job, {| info_JobID := dr_JobID job; info_JobType := dr_JobType job;
                              info_Template := TParams (dr_params job);
                              info_Timeout := TaskTimeout job |}) js).

Definition handleObserve : P unit :=
  r ← gets_re id;
  rpcMsg ← build_or_panic MessageObserveReq TopicReporter
    (VObserveReq {| oq_common := current_common r; Jobs := GetJobInfosForCurrRound r |})
    no_signature;
  broadcast rpcMsg;;
  mod_leader (λ l, set_Phase PhaseObserve (set_timers (Some NewTimer) (TimerGrace l) l)).

Definition handleGrace : P unit := go TGraceOver.

Definition broadcastObservationMap (data : bytes) : P (option error) :=
  r ← gets_re id;
  match rpc_bytes (si_ID (serverOpts r)) MessageObservationMap TopicReporter
          (VBroadcastObservationMap {| om_common := current_common r;
                                       om_Observations := Some data |}) no_signature with
  | Error e => mret (Some e)
  | Ok rpcMsg => broadcast rpcMsg;; mret None
  end.

(** Up to the sleep; the rest is a task of its own. *)
Definition handleReport : P unit :=
  o ← gets_re (λ r, observations (leaderState r));
  match MarshalJSON o with
  | Error _ => mret tt
  | Ok data =>
      err ← broadcastObservationMap data;
      match err with Some _ => mret tt | None => go (TReportReq data) end
  end.

Definition sendReportReq (data : bytes) : P unit :=
  r ← gets_re id;
  rpcMsg ← build_or_panic MessageReportReq TopicReporter
    (VReportReq {| rq_common := current_common r; rq_Observations := Some data |}) no_signature;
  broadcast rpcMsg.

(** Sign a payload and broadcast it, giving up when it cannot be encoded. *)
Definition broadcast_signed (env : Env) (headers : Z) (payload : goval) : P bool :=
  match Encode payload with
  | Error _ => mret false
  | Ok msgBytes =>
      signature ← SignMessage env msgBytes;
      rpcMsg ← build_or_panic headers TopicReporter payload signature;
      broadcast rpcMsg;; mret true
  end.

Definition handleFinal (env : Env) : P unit :=
  r ← gets_re id;
  match finalReport (leaderState r) with
  | None => mret tt
  | Some fr =>
      broadcast_signed env MessageFinalReport
        (VBroadcastFinalReport {| bf_common := current_common r; bf_FinalReport := fr |});;
      mret tt
  end.

(** The jobs of the final report; nothing is done when one is not in the
    registry. *)
Fixpoint report_jobs (n : node net) (ids : list string) : outcome (option (list Job)) :=
  match ids with
  | [] => Done (Some [])
  | jobId :: ids =>
      match jobRegistry (re n) with
      | NilRegistry => Panicked "nil pointer dereference"
      | OwnRegistry => Done None
      | PacemakerRegistry =>
          match pm_registry n !! jobId with
          | None => Done None
          | Some job =>
              rest ← report_jobs n ids;
              Done (match rest with Some l => Some (job :: l) | None => None end)
          end
      end
  end.

(** transmitter.go: [Transmit] reports success and does nothing else. *)
Record Transmitter := { tx_epoch : Z; tx_round : Z; tx_leader : string; tx_job : Job }.

Definition NewTransmitter (e r : Z) (l : string) (j : Job) : Transmitter :=
  {| tx_epoch := e; tx_round := r; tx_leader := l; tx_job := j |}.

Definition Transmit (t : Transmitter) (data : any) : bool := true.

Definition handleTransmit (env : Env) : P unit :=
  n ← get;
  match finalReport (leaderState (re n)) with
  | None => panic "nil pointer dereference"
  | Some fr =>
      found ← lift_outcome (report_jobs n (map_range (site env) (entries (fr_Report fr))).*1);
      match found with
      | None => mret tt
      | Some l =>
          let r := re n in
          let statuses := map (λ job, Transmit (NewTransmitter (epoch r) (u64 (curRound r)) (leader r) job)
            (default ANil (entries (fr_Report fr) !! dr_JobID job))) l in
          sent ← broadcast_signed env MessageProgressRound
            (VProgressRound {| pr_common := current_common (re n) |});
          if (sent : bool) then go TProgress else mret tt
      end
  end.

(** ** The next round *)
Definition round_leader_state (phase : LeaderPhase) (report : option FinalReport)
    (timer : option Timer) (c : chan) : LeaderState := {|
  observations := ∅; finalReport := report; ls_reports := [zero_report];
  finalReportAttestation := 0; TimerRoundTimeout := timer; TimerGrace := timer;
  Phase := phase; phaseCh := c |}.

Definition make_chan : P chan :=
  n ← get; modify (set_next_chan (S (next_chan n)));; mret (next_chan n).

Definition progressToNextRound : P unit :=
  r ← gets_re id;
  (if String.eqb (si_ID (serverOpts r)) (leader r) then
     c ← make_chan;
     mod_leader (λ _, round_leader_state PhaseObserve (Some zero_final_report) None c)
   else mod_cache (λ _, set_jobReports (Some ∅) zero_cache));;
  mod_re (λ r, set_curRound (i64 (curRound r + 1)) r).

(** ** Goroutines *)
Definition run_task (env : Env) (t : task) : P unit :=
  match t with
  | TPhase PhaseObserve => handleObserve
  | TPhase PhaseGrace => handleGrace
  | TPhase PhaseReport => handleReport
  | TPhase PhaseFinal => handleFinal env
  | TPhase PhaseTransmit => handleTransmit env
  | TPhase PhaseNil => mret tt
  | TGraceOver => set_and_send PhaseReport
  | TReportReq data => sendReportReq data
  | TProgress => progressToNextRound
  | TRunJob job info => lift_outcome (run_job env 0 job info);; mret tt
  end.

(** ** Making and starting an engine *)
Definition initReporter (lead : bool) (e : Z) (l : string) (s_info : ServerInfo)
    (p_globals : PacemakerGlobals) (key : PrivateKey) : P unit :=
  lock;;
  c ← make_chan;
  mod_re (λ r, {|
    curRound := INIT_ROUND; isLeader := lead; epoch := e; leader := l;
    leaderState := round_leader_state (if lead then PhaseObserve else PhaseNil) None
                     (Some zero_timer) c;
    msgService := true; serverOpts := s_info; quitCh := quitCh r; cacheLayer := zero_cache;
    pacemakerGlobals := p_globals; signer := key; recEvents := recEvents r;
    jobRegistry := OwnRegistry; jobSchedule := Some ∅; mu := mu r; ready := false |});;
  unlock.

(** The engine that [NewPaceMaker] starts with: everything zero. *)
Definition zero_engine (key : PrivateKey) : ReportingEngine := {|
  curRound := 0; isLeader := false; epoch := 0; leader := "";
  leaderState := {| observations := ∅; finalReport := None; ls_reports := [];
                    finalReportAttestation := 0; TimerRoundTimeout := None; TimerGrace := None;
                    Phase := PhaseObserve; phaseCh := O |};
  msgService := false; serverOpts := {| si_Addr := ""; si_ID := "" |}; quitCh := None;
  cacheLayer := zero_cache; pacemakerGlobals := {| pg_n := 0; pg_f := 0 |}; signer := key;
  recEvents := None; jobRegistry := NilRegistry; jobSchedule := None; mu := false;
  ready := false |}.

Definition NewReportingEngine (lead : bool) (e : Z) (l : string) (s_info : ServerInfo)
    (p_globals : PacemakerGlobals) (key : PrivateKey) (c : chan) : ReportingEngine := {|
  curRound := INIT_ROUND; isLeader := lead; epoch := e; leader := l;
  leaderState := round_leader_state (if lead then PhaseObserve else PhaseNil) None
                   (Some zero_timer) c;
  msgService := true; serverOpts := s_info; quitCh := None; cacheLayer := zero_cache;
  pacemakerGlobals := p_globals; signer := key; recEvents := None;
  jobRegistry := OwnRegistry; jobSchedule := Some ∅; mu := false; ready := false |}.

(** [job.( jobs.Job )]: what the listeners put into the queue is an event,
    which is not a job, and the empty queue gives nil. *)
Definition as_job (event : option DirectReqEventRes) : outcome Job :=
  Panicked "interface conversion: not jobs.Job".

(** The loop of one round, [k] times around. *)
Fixpoint schedule_round (k : nat) (q : fifo) (js : list Job) : outcome (fifo * list Job) :=
  match k with
  | O => Done (q, js)
  | S k => job ← as_job (head q); schedule_round k (tail q) (js ++ [job])
  end.

(** The rounds from [i] on, [rounds] of them; the inner index starts at 1. *)
Fixpoint schedule_rounds (rounds : nat) (i jobs_per_round : Z) (q : fifo)
    (schedule : gmap Z (list Job)) : outcome (fifo * gmap Z (list Job)) :=
  match rounds with
  | O => Done (q, schedule)
  | S rounds =>
      '(q, js) ← schedule_round (Z.to_nat (jobs_per_round - 1)) q
                   (default [] (schedule !! i));
      schedule_rounds rounds (i + 1) jobs_per_round q
        (if (1 <? jobs_per_round) then <[i := js]> schedule else schedule)
  end.

(** The leader's first phase is sent a second after its orchestrator was
    started; the orchestrator of a follower waits on the nil channel. *)
Definition Start (events : fifo) : P unit :=
  mod_re (λ r, set_schedule (recEvents r) PacemakerRegistry (jobSchedule r) r);;
  r ← gets_re id;
  (if isLeader r then
     '(q, schedule) ← lift_outcome (schedule_rounds (Z.to_nat MAX_ROUNDS) 0
        (Z.of_nat (length events) / MAX_ROUNDS) events (default ∅ (jobSchedule r)));
     mod_re (λ r, set_schedule (Some q) (jobRegistry r) (Some schedule) r);;
     modify (set_listening (Some (phaseCh (leaderState r))));;
     send_phase PhaseObserve
   else mret tt);;
  lock;;
  mod_re (λ r, set_mu_ready (mu r) true r);;
  unlock.
End engine.
