(* ===== verification/ReporterSpec.v ===== *)
(** * The reporting engine: properties

    What the engine of [Reporter.v] does in every state that messages, its own
    goroutines, the network and the pacemaker can bring it to, and what its
    handlers do with a message. *)

From S2P Require Import Prelude Bytes Crypto Strconv Json GoJson Jobs Rpc Observations.
From S2P Require Import Assembly Reporter.

#[export] Hint Extern 2 (preserves _ (gets_re _)) => (apply preserves_reads; done) : preserves.

Section system.
Context `{Nondet} `{Ecdsa} `{Codec} {net : Type} `{MessagingLayer net}.

Definition set_spawned (l : list task) (n : node net) : node net := {|
  re := re n; below := below n; pm_registry := pm_registry n; listening := listening n;
  closed := closed n; next_chan := next_chan n; spawned := l |}.
Definition set_registry (g : gmap string Job) (n : node net) : node net := {|
  re := re n; below := below n; pm_registry := g; listening := listening n;
  closed := closed n; next_chan := next_chan n; spawned := spawned n |}.

(** ** The steps of a running node

    A message is processed, a goroutine runs, or the network or the
    pacemaker's registry changes. *)
Inductive step : node net → node net → Prop :=
| step_message env msg n : step n (ProcessMessage env msg n).2
| step_task env t l1 l2 n :
    spawned n = l1 ++ t :: l2 → step n (run_task env t (set_spawned (l1 ++ l2) n)).2
| step_below b n : step n (set_below b n)
| step_registry g n : step n (set_registry g n).

Definition reachable : node net → node net → Prop := rtc step.

(** ** Frozen: the round, the epoch and the leader never change

    What is true of the node as long as it runs. *)
Definition good_task (t : task) : Prop := t ≠ TPhase PhaseTransmit ∧ t ≠ TProgress.

Record frozen (e : Z) (l : string) (n : node net) : Prop := {
  frozen_quit : quitCh (re n) = None;
  frozen_round : curRound (re n) = INIT_ROUND;
  frozen_epoch : epoch (re n) = e;
  frozen_leader : leader (re n) = l;
  frozen_phase : Phase (leaderState (re n)) ≠ PhaseTransmit;
  frozen_echoes : finalReportAttestation (leaderState (re n)) = 0;
  frozen_tasks : Forall good_task (spawned n)
}.

Section frozen.
Context (e : Z) (l : string).

Lemma frozen_mod_cache f : preserves (frozen e l) (mod_cache f).
Proof. apply preserves_modify. intros n []. by split. Qed.

(** An update of the leader's state that leaves these two fields alone. *)
Lemma frozen_mod_leader f :
  (∀ s, Phase s ≠ PhaseTransmit → Phase (f s) ≠ PhaseTransmit) →
  (∀ s, finalReportAttestation (f s) = finalReportAttestation s) →
  preserves (frozen e l) (mod_leader f).
Proof. intros Hp Ha. apply preserves_modify. intros n []. split; cbn; auto. by rewrite Ha. Qed.

Lemma frozen_go t : good_task t → preserves (frozen e l) (go t).
Proof.
  intros Ht. apply preserves_modify. intros n []. split; cbn; auto.
  apply Forall_app. split; [done|by apply Forall_singleton].
Qed.

Lemma frozen_listening f : preserves (frozen e l) (modify (λ n, set_listening (f n) n)).
Proof. apply preserves_modify. intros n []. by split. Qed.

Lemma frozen_through {A} (m : proc net A) : preserves (frozen e l) (through m).
Proof.
  unfold through. preserve. intros n Hn. unfold on_net.
  destruct (m (below n)) as [o b]. destruct Hn. by split.
Qed.

Lemma frozen_mutex b r : preserves (frozen e l) (mod_re (λ x, set_mu_ready (b x) (r x) x)).
Proof. apply preserves_modify. intros n []. by split. Qed.

Lemma frozen_chan : preserves (frozen e l) make_chan.
Proof. unfold make_chan. preserve. apply preserves_modify. intros n' []. by split. Qed.
End frozen.
End system.

#[export] Hint Resolve frozen_mod_cache frozen_go frozen_listening frozen_through frozen_mutex
  frozen_chan : preserves.
#[export] Hint Extern 3 (preserves (frozen _ _) (mod_leader _)) =>
  (apply frozen_mod_leader; done) : preserves.
#[export] Hint Extern 1 (good_task _) => (split; discriminate) : preserves.

Section handlers.
Context `{Nondet} `{Ecdsa} `{Codec} {net : Type} `{MessagingLayer net}.
Context (e : Z) (l : string).
#[local] Abbreviation inv := (frozen (net := net) e l).

Lemma frozen_broadcast msg : preserves inv (broadcast msg).
Proof. unfold broadcast. preserve. Qed.

Lemma frozen_send_to id msg : preserves inv (send_to id msg).
Proof. unfold send_to. preserve. Qed.

Lemma frozen_set_and_send phase : phase ≠ PhaseTransmit → preserves inv (set_and_send phase).
Proof.
  intros Hp. unfold set_and_send, send_phase, send_on, orchestrateLeadership. preserve.
  apply frozen_go. split; congruence.
Qed.

Lemma frozen_send_phase phase : phase ≠ PhaseTransmit → preserves inv (send_phase phase).
Proof.
  intros Hp. unfold send_phase, send_on, orchestrateLeadership. preserve.
  apply frozen_go. split; congruence.
Qed.

Lemma frozen_SignMessage env msg : preserves inv (SignMessage env msg).
Proof. unfold SignMessage. preserve. Qed.

Lemma frozen_build headers topic v sig : preserves inv (build_or_panic headers topic v sig).
Proof. unfold build_or_panic. preserve. Qed.

(** The quit channel is nil: stopping panics before it changes anything. *)
Lemma frozen_Stop : preserves inv Stop.
Proof. intros n Hn. unfold Stop. proc_simpl. unfold gets_re, gets. by rewrite (frozen_quit _ _ _ Hn). Qed.
End handlers.

#[export] Hint Resolve frozen_broadcast frozen_send_to frozen_SignMessage frozen_build
  frozen_Stop : preserves.
#[export] Hint Extern 3 (preserves (frozen _ _) (set_and_send _)) =>
  (apply frozen_set_and_send; discriminate) : preserves.
#[export] Hint Extern 3 (preserves (frozen _ _) (send_phase _)) =>
  (apply frozen_send_phase; discriminate) : preserves.

Section messages.
Context `{Nondet} `{Ecdsa} `{Codec} {net : Type} `{MessagingLayer net}.
Context (e : Z) (l : string).
#[local] Abbreviation inv := (frozen (net := net) e l).

Lemma frozen_respond env headers v : preserves inv (respond env headers v).
Proof. unfold respond. preserve. Qed.

Lemma frozen_launch infos : preserves inv (launch infos).
Proof. induction infos as [|i infos IH]; cbn [launch]; preserve. Qed.
#[local] Hint Resolve frozen_respond frozen_launch : preserves.

Lemma frozen_ObserveReq env m n :
  Round (oq_common m) = u64 (curRound (re n)) → inv n → inv (processObserveReq env m n).2.
Proof.
  intros Hr Hn. unfold processObserveReq.
  assert (Hid : set_re (set_curRound (i64 (Round (oq_common m))) (re n)) n = n).
  { rewrite Hr, (frozen_round _ _ _ Hn). change (i64 (u64 INIT_ROUND)) with INIT_ROUND.
    rewrite <-(frozen_round _ _ _ Hn). by destruct n as [[]]. }
  unfold mbind at 1, proc_bind at 1, mod_re, modify. rewrite Hid. revert n Hn Hr Hid.
  match goal with |- ∀ n, _ → _ → _ → _ (?m n).2 => enough (preserves inv m) as Hp end.
  { intros n Hn _ _. by apply Hp. }
  unfold max_rounds_reached. preserve.
Qed.

Lemma frozen_ObserveResp msg m : preserves inv (processObserveResp msg m).
Proof. unfold processObserveResp. preserve. Qed.

Lemma frozen_ObservationMap m : preserves inv (processObservationMap m).
Proof. unfold processObservationMap. preserve. Qed.

Lemma frozen_ReportReq env m : preserves inv (processReportReq env m).
Proof. unfold processReportReq. preserve. Qed.

Lemma frozen_ReportRes env msg m : preserves inv (processReportRes env msg m).
Proof. unfold processReportRes. preserve. Qed.

Lemma frozen_count_valid th b sgs : ∀ u v, preserves inv (count_valid th b sgs u v).
Proof. induction sgs as [|sg sgs IH]; intros u v; cbn [count_valid]; preserve. Qed.
#[local] Hint Resolve frozen_count_valid : preserves.

Lemma frozen_FinalReport env msg m : preserves inv (processFinalReport env msg m).
Proof. unfold processFinalReport, sendFinalReportEcho. preserve. Qed.

(** [VerifySigAndPeer] never says yes. *)
Lemma VerifySigAndPeer_false msg from sig (n : node net) b :
  (VerifySigAndPeer msg from sig n).1 = Done b → b = false.
Proof.
  unfold VerifySigAndPeer. destruct (StringToPublicKey from); [|by intros [= <-]].
  proc_simpl. unfold through, on_net, gets_re, gets. proc_simpl.
  destruct (Verify sig msg a) as [s|w|w]; [|done..].
  destruct (msgService (re n)); [|done]. destruct (IsPeer from (below n)) as [[k|w|w] b']; [|done..].
  cbn. intros [= <-]. by destruct s, k.
Qed.

Lemma frozen_VerifySigAndPeer msg from sig : preserves inv (VerifySigAndPeer msg from sig).
Proof. unfold VerifySigAndPeer. preserve. Qed.
#[local] Hint Resolve frozen_VerifySigAndPeer : preserves.

Lemma frozen_FinalEcho msg m : preserves inv (processFinalEcho msg m).
Proof.
  unfold processFinalEcho. apply preserves_bind; [by eauto with preserves|intros r].
  cbv zeta. destruct (_ || _); [by eauto with preserves|].
  destruct (Encode (VFinalEcho m)) as [b|]; [|by eauto with preserves].
  apply preserves_bind_dep. intros n Hn. split; [by apply frozen_VerifySigAndPeer|].
  intros ok Hok. apply VerifySigAndPeer_false in Hok as ->. by apply frozen_VerifySigAndPeer.
Qed.

(** A message that passes the checks is of the current round, and is not a
    request to progress to the next one. *)
Lemma prechecks_ok r msg b :
  rpcMsgPrechecks r msg = Ok b →
  b = true ∧ ∃ c, common_of (unbox (dm_Data msg)) = Some c ∧ is_Some (typeToPhase (unbox (dm_Data msg))) ∧
    Epoch c = epoch r ∧ Round c = u64 (curRound r) ∧ Leader c = leader r.
Proof.
  unfold rpcMsgPrechecks. intros Hc. apply result_bind_ok in Hc as ([c ph] & Hg & Hc).
  destruct (Z.eqb_spec (Epoch c) (epoch r)); [|done].
  destruct (Z.eqb_spec (Round c) (u64 (curRound r))); [|done].
  destruct (String.eqb_spec (Leader c) (leader r)); [|done]. cbn in Hc. injection Hc as <-.
  split; [done|]. exists c. unfold getCommonFieldsAndPhase in Hg.
  destruct (unbox (dm_Data msg)); cbn in Hg; simplify_eq; by repeat split.
Qed.

Lemma frozen_dispatch env msg n :
  rpcMsgPrechecks (re n) msg = Ok true → inv n → inv (dispatch env msg n).2.
Proof.
  intros (_ & c & Hc & Hph & _ & Hr & _)%prechecks_ok Hn. unfold dispatch.
  destruct (dm_Data msg) as [v|v]; [|done].
  destruct v; cbn in Hc, Hph; simplify_eq; try done;
    [by apply frozen_ObserveReq|by apply frozen_ObserveResp|by apply frozen_ReportReq
    |by apply frozen_ReportRes|by apply frozen_ObservationMap|by apply frozen_FinalReport
    |by apply frozen_FinalEcho].
Qed.

Lemma frozen_lock : preserves inv lock.
Proof. unfold lock. preserve. Qed.

Lemma frozen_unlock : preserves inv unlock.
Proof. unfold unlock. eauto with preserves. Qed.
#[local] Hint Resolve frozen_lock frozen_unlock : preserves.

Lemma frozen_ProcessMessage env msg : preserves inv (ProcessMessage env msg).
Proof.
  unfold ProcessMessage. apply preserves_bind; [by eauto with preserves|intros _].
  apply preserves_bind; [by eauto with preserves|intros rdy].
  destruct (negb rdy); [by eauto with preserves|].
  apply preserves_bind; [by eauto with preserves|intros _].
  apply preserves_bind_dep. intros n Hn. split; [exact Hn|]. unfold gets_re, gets.
  cbn [fst snd id]. intros r [= <-].
  destruct (rpcMsgPrechecks (re n) msg) as [[]|err] eqn:Hc; [|exact Hn..].
  by apply frozen_dispatch.
Qed.

(** ** The goroutines *)
Lemma frozen_task env t : good_task t → preserves inv (run_task env t).
Proof.
  intros [Ht Hp]. destruct t as [[]| | | |]; try done; cbn [run_task];
    unfold handleObserve, handleGrace, handleReport, broadcastObservationMap, handleFinal,
      broadcast_signed, sendReportReq; preserve.
Qed.

Lemma frozen_step n n' : inv n → step n n' → inv n'.
Proof.
  intros Hn Hs. destruct Hs as [env msg n|env t l1 l2 n Hsp|b n|g n].
  - by apply frozen_ProcessMessage.
  - pose proof (frozen_tasks _ _ _ Hn) as Hts. rewrite Hsp in Hts.
    apply Forall_app in Hts as [Hl1 Hl2]. apply Forall_cons in Hl2 as [Ht Hl2].
    apply frozen_task; [done|]. destruct Hn. split; cbn; try done.
    apply Forall_app. by split.
  - destruct Hn. by split.
  - destruct Hn. by split.
Qed.

Lemma frozen_reachable n n' : inv n → reachable n n' → inv n'.
Proof. intros Hn Hr. induction Hr; [done|]. eauto using frozen_step. Qed.
End messages.

(** ** Life of an engine *)
Section life.
Context `{Nondet} `{Ecdsa} `{Codec} {net : Type} `{MessagingLayer net}.

(** The node as [NewPaceMaker] leaves it; channel 0 is the nil channel. *)
Definition fresh_node (key : PrivateKey) (b : net) (g : gmap string Job) : node net := {|
  re := zero_engine key; below := b; pm_registry := g; listening := None; closed := ∅;
  next_chan := 1; spawned := [] |}.

(** What the pacemaker does to bring an engine up. *)
Definition boot (lead : bool) (e : Z) (l : string) (s_info : ServerInfo)
    (p_globals : PacemakerGlobals) (key : PrivateKey) (events : fifo) : proc (node net) unit :=
  initReporter lead e l s_info p_globals key;; Start events.

Lemma frozen_schedule e l q g s :
  preserves (frozen (net := net) e l) (mod_re (λ r, set_schedule (q r) (g r) (s r) r)).
Proof. apply preserves_modify. intros n []. by split. Qed.

Lemma frozen_Start e l events : preserves (frozen (net := net) e l) (Start events).
Proof.
  unfold Start. pose proof (frozen_schedule e l) as Hs.
  pose proof (frozen_lock (net := net) e l). pose proof (frozen_unlock (net := net) e l). preserve.
Qed.

Lemma frozen_init lead e l s_info p_globals key b g :
  frozen e l (initReporter lead e l s_info p_globals key (fresh_node key b g)).2.
Proof. destruct lead; split; done. Qed.

Lemma frozen_boot lead e l s_info p_globals key events b g :
  frozen e l (boot lead e l s_info p_globals key events (fresh_node key b g)).2.
Proof.
  unfold boot, mbind, proc_bind. pose proof (frozen_init lead e l s_info p_globals key b g) as Hi.
  destruct (initReporter _ _ _ _ _ _ _) as [[[]|w|w] n1]; [|done..].
  by apply frozen_Start.
Qed.

(** C36: no round after the first: from the start of an engine on, whatever
    messages come, whoever sends and signs them, and in whatever order its
    goroutines run, its round is 1, and its epoch and leader are those it was
    started with: the request to progress does not pass the checks and the
    leader never gets to make one. *)
Theorem round_never_advances lead e l s_info p_globals key events b g n :
  reachable (boot lead e l s_info p_globals key events (fresh_node key b g)).2 n →
  curRound (re n) = INIT_ROUND ∧ epoch (re n) = e ∧ leader (re n) = l ∧
  TProgress ∉ spawned n.
Proof.
  intros Hr. destruct (frozen_reachable e l _ n (frozen_boot _ _ _ _ _ _ _ _ _) Hr) as [? ? ? ? ? ? Ht].
  repeat split; try done. intros Hin. by destruct (proj1 (Forall_forall _ _) Ht _ Hin).
Qed.

(** C37: nothing is ever transmitted: no run of a leader reaches the transmit
    phase, no echo of a final report is ever counted, and no goroutine of that
    phase is ever started. *)
Theorem never_transmits lead e l s_info p_globals key events b g n :
  reachable (boot lead e l s_info p_globals key events (fresh_node key b g)).2 n →
  Phase (leaderState (re n)) ≠ PhaseTransmit ∧
  finalReportAttestation (leaderState (re n)) = 0 ∧ TPhase PhaseTransmit ∉ spawned n.
Proof.
  intros Hr. destruct (frozen_reachable e l _ n (frozen_boot _ _ _ _ _ _ _ _ _) Hr) as [? ? ? ? ? ? Ht].
  repeat split; try done. intros Hin. by destruct (proj1 (Forall_forall _ _) Ht _ Hin).
Qed.

(** Stopping an engine brings the node down: its quit channel is never made, in
    no state it can reach, and closing nil panics. *)
Theorem Stop_panics lead e l s_info p_globals key events b g n :
  reachable (boot lead e l s_info p_globals key events (fresh_node key b g)).2 n →
  Stop n = (Panicked "close of nil channel", n).
Proof.
  intros Hr. destruct (frozen_reachable e l _ n (frozen_boot _ _ _ _ _ _ _ _ _) Hr) as [Hq].
  unfold Stop, gets_re, gets. proc_simpl. by rewrite Hq.
Qed.

(** ** Readiness *)
Lemma locked_blocks env msg (n : node net) :
  mu (re n) = true → ProcessMessage env msg n = (Blocked "mutex is locked", n).
Proof. intros Hm. unfold ProcessMessage, lock, gets_re, gets. proc_simpl. by rewrite Hm. Qed.

Lemma init_locked lead e l s_info p_globals key (n : node net) :
  mu (re n) = true →
  initReporter lead e l s_info p_globals key n = (Blocked "mutex is locked", n).
Proof. intros Hm. unfold initReporter, lock, gets_re, gets. proc_simpl. by rewrite Hm. Qed.

(** C38: a message that comes before the engine is ready disables it: the
    message is refused with the mutex held, so that every later message blocks
    the node's message loop for ever, and a later initialisation blocks the
    pacemaker. *)
Theorem early_message_deadlocks env msg (n : node net) :
  ready (re n) = false → mu (re n) = false →
  ∃ n', ProcessMessage env msg n = (Done (Some (Errorf "RE: not ready to process messages")), n') ∧
    (∀ env' msg', ProcessMessage env' msg' n' = (Blocked "mutex is locked", n')) ∧
    (∀ lead e l s_info p_globals key,
       initReporter lead e l s_info p_globals key n' = (Blocked "mutex is locked", n')).
Proof.
  intros Hr Hm. eexists. split.
  - unfold ProcessMessage, lock, gets_re, gets. proc_simpl. rewrite Hm. cbn. rewrite Hr.
    reflexivity.
  - split; [intros; by apply locked_blocks|intros; by apply init_locked].
Qed.
End life.
