(* ===== verification/HandlerSpec.v ===== *)
(** * The message handlers of the reporting engine: functional behaviour

    What each handler of [Reporter.v] does on its branches, and what a
    follower that accepts a final report has checked. *)

From S2P Require Import Prelude Bytes Crypto Strconv Json GoJson Jobs Rpc Observations.
From S2P Require Import Assembly Reporter.

(** ** A messaging layer that records what is sent, for concrete runs *)
Record wire := { sent : list (option string * bytes); known : gset string }.

#[export] Instance wire_layer : MessagingLayer wire := {|
  SendMsg id msg := λ w,
    (Done None, {| sent := sent w ++ [(Some id, msg)]; known := known w |});
  BroadcastMsg msg := λ w, (Done None, {| sent := sent w ++ [(None, msg)]; known := known w |});
  IsPeer id := λ w, (Done (bool_decide (id ∈ known w)), w)
|}.

#[export] Instance wire_laws : MessagingLaws wire.
Proof. by split. Qed.

(** *** Running a handler: what each kind of first statement does *)
Section run.
Context {net : Type} {A B : Type}.
Implicit Types (n : node net).

Lemma run_gets_re (f : ReportingEngine → B) (k : B → proc (node net) A) n :
  (gets_re f ≫= k) n = k (f (re n)) n.
Proof. reflexivity. Qed.

Lemma run_get (k : node net → proc (node net) A) n : (get ≫= k) n = k n n.
Proof. reflexivity. Qed.

Lemma run_mod_re f (k : unit → proc (node net) A) n :
  (mod_re f ≫= k) n = k tt (set_re (f (re n)) n).
Proof. reflexivity. Qed.

Lemma run_mod_leader f (k : unit → proc (node net) A) n :
  (mod_leader f ≫= k) n =
  k tt (set_re (set_leaderState (f (leaderState (re n))) (re n)) n).
Proof. reflexivity. Qed.

Lemma run_mod_cache f (k : unit → proc (node net) A) n :
  (mod_cache f ≫= k) n =
  k tt (set_re (set_cacheLayer (f (cacheLayer (re n))) (re n)) n).
Proof. reflexivity. Qed.

Lemma run_lift_done (b : B) (k : B → proc (node net) A) n :
  (lift_outcome (Done b) ≫= k) n = k b n.
Proof. reflexivity. Qed.

Lemma run_lift_panicked w (k : B → proc (node net) A) n :
  (lift_outcome (Panicked w) ≫= k) n = (Panicked w, n).
Proof. reflexivity. Qed.

Lemma run_ret (b : B) (k : B → proc (node net) A) n : (mret b ≫= k) n = k b n.
Proof. reflexivity. Qed.
End run.

Create Rewrite HintDb run.
#[export] Hint Rewrite @run_gets_re @run_get @run_mod_re @run_mod_leader @run_mod_cache
  @run_lift_done @run_lift_panicked @run_ret : run.

(** Evaluate the statements at the front of a handler. *)
Ltac run :=
  autorewrite with run;
  repeat match goal with |- context [id (re ?n)] => change (id (re n)) with (re n) end.

Section handlers.
Context `{Nondet} `{Ecdsa} `{Codec} {net : Type} `{MessagingLayer net}.
Implicit Types (n : node net).

(** The engine can take a message. *)
Definition open (n : node net) : Prop := ready (re n) = true ∧ mu (re n) = false.

Lemma ProcessMessage_open env msg n :
  open n →
  ProcessMessage env msg n =
  match rpcMsgPrechecks (re n) msg with
  | Ok true => dispatch env msg n
  | Ok false => (Done (Some (Errorf "RE: rpc msg prechecks failed")), n)
  | Error e => (Done (Some (Wrapf "RE: rpc msg prechecks failed" e)), n)
  end.
Proof.
  destruct n as [r b g l c x s]. destruct r. intros [Hr Hm]. cbn in Hr, Hm. subst.
  unfold ProcessMessage, lock, unlock, gets_re, mod_re. proc_simpl. cbn. unfold id.
  by destruct (rpcMsgPrechecks _ msg) as [[]|].
Qed.

(** The epoch, the round and the leader of a message are those of the engine. *)
Definition of_this_round n (c : common) : Prop :=
  Epoch c = epoch (re n) ∧ Round c = u64 (curRound (re n)) ∧ Leader c = leader (re n).

(** A message that the handlers of the round are for: it has the fields that
    every message of a round has, they are those of the engine, and its type
    belongs to one of the phases. *)
Definition of_round_and_phase n (msg : DecodedMsg) : Prop :=
  ∃ c ph, common_of (unbox (dm_Data msg)) = Some c ∧
    typeToPhase (unbox (dm_Data msg)) = Some ph ∧ of_this_round n c.

Lemma prechecks_pass n msg c ph :
  common_of (unbox (dm_Data msg)) = Some c → typeToPhase (unbox (dm_Data msg)) = Some ph →
  of_this_round n c → rpcMsgPrechecks (re n) msg = Ok true.
Proof.
  intros Hc Hp (He & Hr & Hl). unfold rpcMsgPrechecks, getCommonFieldsAndPhase.
  destruct (unbox (dm_Data msg)); try done; rewrite Hc; rewrite Hp; cbn [mbind result_bind];
    by rewrite He, Hr, Hl, !Z.eqb_refl, String.eqb_refl.
Qed.

Lemma prechecks_refuse n msg :
  ¬ of_round_and_phase n msg → ∃ e, rpcMsgPrechecks (re n) msg = Error e.
Proof.
  intros Hn. unfold rpcMsgPrechecks, getCommonFieldsAndPhase.
  destruct (common_of (unbox (dm_Data msg))) as [c|] eqn:Hc;
    [|destruct (unbox (dm_Data msg)); first [discriminate Hc|eexists; reflexivity]].
  destruct (typeToPhase (unbox (dm_Data msg))) as [ph|] eqn:Hp;
    [|destruct (unbox (dm_Data msg)); first [discriminate Hp|rewrite ?Hc; eexists; reflexivity]].
  assert (¬ of_this_round n c) as Hf by (intros Hf; apply Hn; by exists c, ph).
  destruct (unbox (dm_Data msg)) as [] eqn:Hu; try done; rewrite Hc, Hp; cbn [mbind result_bind];
    destruct (Z.eqb_spec (Epoch c) (epoch (re n))); cbn [negb]; try (by eexists);
    destruct (Z.eqb_spec (Round c) (u64 (curRound (re n)))); cbn [negb]; try (by eexists);
    destruct (String.eqb_spec (Leader c) (leader (re n))); cbn [negb]; try (by eexists);
    exfalso; apply Hf; by repeat split.
Qed.

(** The engine with its mutex held. *)
Definition holding n : node net := set_re (set_mu_ready true (ready (re n)) (re n)) n.

End handlers.

(** The observations in an entry of a map of slices. *)
Definition group (m : gmap string (slice JobObservationResponse)) (j : string)
    : list JobObservationResponse := elems (default None (m !! j)).

Lemma group_insert m j0 j s :
  group (<[j0 := s]> m) j = if decide (j0 = j) then elems s else group m j.
Proof.
  unfold group. destruct (decide (j0 = j)) as [->|Hne].
  - by rewrite lookup_insert_eq.
  - by rewrite lookup_insert_ne.
Qed.

(** The responses are grouped by job, in their order. *)
Lemma group_responses_group l j : group (group_responses l) j = filter (λ o, obs_JobId o = j) l.
Proof.
  unfold group_responses.
  assert (∀ acc, group (foldl (λ m j, <[obs_JobId j := append (default None (m !! obs_JobId j)) [j]]> m)
    acc l) j = group acc j ++ filter (λ o, obs_JobId o = j) l) as Hg; [|by rewrite Hg].
  induction l as [|o l IH]; intros acc; cbn [foldl]; [by rewrite app_nil_r|].
  rewrite IH, group_insert, filter_cons.
  destruct (decide (obs_JobId o = j)) as [<-|]; [|done].
  by rewrite elems_append, <-app_assoc.
Qed.

(** ** Observations, on the leader *)
Section observing.
Context `{Nondet} `{Ecdsa} `{Codec} {net : Type} `{MessagingLayer net}.
Implicit Types (n : node net).

(** The message is signed by the key it names as its sender. *)
Definition authentic (msg : DecodedMsg) (v : goval) : Prop :=
  ∃ b pk, Encode v = Ok b ∧ StringToPublicKey (FromId msg) = Ok pk ∧
    Verify (dm_Signature msg) b pk = Done true.

(** The observations of [from] replaced by those of [m], and [k] counted. *)
Definition with_observation (from : string) (m : ObserveResp) (k : Z) n : node net :=
  set_re
    (set_cacheLayer (set_observe_n k (cacheLayer (re n)))
      (set_leaderState
        (set_observations
          (Store from (Some (group_responses (elems (JobResponses m))))
            (observations (leaderState (re n))))
          (leaderState (re n)))
        (re n)))
    n.

Lemma with_observation_twice from m k k' n : with_observation from m k (with_observation from m k' n) = with_observation from m k n.
Proof.
  unfold with_observation, Store. cbn. destruct n as [r]; cbn. destruct r as [? ? ? ? ls]; cbn.
  destruct ls; cbn. by rewrite insert_insert_eq.
Qed.

Lemma processObserveResp_eq msg m n :
  of_this_round n (or_common m) →
  authentic msg (VObserveResp m) →
  let count := u64 (observe_n (cacheLayer (re n)) + 1) in
  processObserveResp msg m n =
  if u64 (2 * pg_f (pacemakerGlobals (re n)) + 1) <? count
  then (set_and_send PhaseGrace;; mret None) (with_observation (FromId msg) m count n)
  else (Done None, with_observation (FromId msg) m count n).
Proof.
  intros (He & Hr & _) (b & pk & Hb & Hpk & Hv). cbv zeta.
  unfold processObserveResp. run. rewrite He, Hr, !Z.eqb_refl. cbn [andb].
  rewrite Hb, Hpk, Hv. run. by destruct (u64 (2 * pg_f (pacemakerGlobals (re n)) + 1) <? _).
Qed.

(** A response that its sender has signed, from its arrival on. *)
Lemma observation_taken_eq env msg m n :
  open n → dm_Data msg = Ptr (VObserveResp m) → of_this_round n (or_common m) →
  authentic msg (VObserveResp m) →
  let count := u64 (observe_n (cacheLayer (re n)) + 1) in
  ProcessMessage env msg n =
  if u64 (2 * pg_f (pacemakerGlobals (re n)) + 1) <? count
  then (set_and_send PhaseGrace;; mret None) (with_observation (FromId msg) m count n)
  else (Done None, with_observation (FromId msg) m count n).
Proof.
  intros Ho Hd Hr Ha count. rewrite ProcessMessage_open by done.
  rewrite (prechecks_pass n msg (or_common m) PhaseObserve) by (rewrite ?Hd; done).
  unfold dispatch. rewrite Hd. by apply processObserveResp_eq.
Qed.

(** Deliver the same message [k] times. *)
Fixpoint deliver (env : Env) (msg : DecodedMsg) (k : nat) : proc (node net) (option error) :=
  match k with
  | O => mret None
  | S k => deliver env msg k;; ProcessMessage env msg
  end.

Definition live_orchestrator n : Prop :=
  listening n = Some (phaseCh (leaderState (re n))) ∧ phaseCh (leaderState (re n)) ∉ closed n.

Lemma set_and_send_live phase n :
  live_orchestrator n → phase ≠ PhaseNil →
  set_and_send phase n =
  (Done tt, spawn (TPhase phase) (set_re (set_leaderState (set_Phase phase (leaderState (re n))) (re n)) n)).
Proof.
  intros [Hl Hc] Hp. unfold set_and_send, send_phase, send_on, orchestrateLeadership. run.
  cbn [re set_re leaderState set_leaderState phaseCh set_Phase closed listening].
  rewrite decide_False by done. rewrite decide_True by done. rewrite decide_False by done.
  unfold go, mbind, proc_bind, modify. destruct n; cbn in *. by subst.
Qed.

(** [n] with the phase of its leader set to [p]. *)
Definition in_phase (p : LeaderPhase) n : node net :=
  set_re (set_leaderState (set_Phase p (leaderState (re n))) (re n)) n.

(** [res] is how the phase [p] begins in [n]: the phase is set, and then the
    orchestrator takes it and starts its handler, unless nobody reads from the
    channel of the phases or that channel has been closed. *)
Definition phase_begins (p : LeaderPhase) n (res : outcome (option error) * node net) : Prop :=
  (live_orchestrator n → res = (Done None, spawn (TPhase p) (in_phase p n))) ∧
  (phaseCh (leaderState (re n)) ∈ closed n →
   res = (Panicked "send on closed channel", in_phase p n)) ∧
  (phaseCh (leaderState (re n)) ∉ closed n →
   listening n ≠ Some (phaseCh (leaderState (re n))) →
   res = (Blocked "no receiver on the phase channel", in_phase p n)).

Lemma set_and_send_begins p n :
  p ≠ PhaseNil → phase_begins p n ((set_and_send p;; mret None) n).
Proof.
  intros Hp. split; [|split].
  - intros Hl. unfold mbind, proc_bind. by rewrite set_and_send_live.
  - intros Hc. unfold set_and_send, send_phase, send_on. rewrite proc_bind_assoc. run.
    rewrite proc_bind_assoc. run. rewrite proc_bind_assoc. run.
    by rewrite (decide_True (P := _ ∈ _)) by exact Hc.
  - intros Hc Hl. unfold set_and_send, send_phase, send_on. rewrite proc_bind_assoc. run.
    rewrite proc_bind_assoc. run. rewrite proc_bind_assoc. run.
    rewrite (decide_False (P := _ ∈ _)) by exact Hc.
    by rewrite (decide_False (P := listening _ = _)) by exact Hl.
Qed.

(** The check of the signature of [msg] crashes: the signature or the key of
    the sender is one that the check cannot be made with. *)
Definition crashes (msg : DecodedMsg) (v : goval) : Prop :=
  (∃ b, Encode v = Ok b) ∧ crashing (FromId msg) (dm_Signature msg).

(** The three ways out of the check of a signature. *)
Lemma signature_gate msg v (K : proc (node net) (option error)) n :
  let gate : proc (node net) (option error) :=
    match Encode v with
    | Error _ => mret None
    | Ok b =>
        match StringToPublicKey (FromId msg) with
        | Error _ => mret None
        | Ok pk =>
            isSigned ← lift_outcome (Verify (dm_Signature msg) b pk);
            if (isSigned : bool) then K else mret None
        end
    end in
  (authentic msg v → gate n = K n) ∧
  (crashes msg v → gate n = (Panicked "nil pointer dereference", n)) ∧
  (¬ authentic msg v → ¬ crashes msg v → gate n = (Done None, n)).
Proof.
  split; [|split].
  - intros (b & pk & -> & -> & ->). by rewrite run_lift_done.
  - intros [[b ->] Hc]. pose proof Hc as (pk & Hpk & _). rewrite Hpk.
    by rewrite (Verify_crashes (FromId msg)).
  - intros Ha Hc. destruct (Encode v) as [b|] eqn:Hb; [|done].
    destruct (StringToPublicKey (FromId msg)) as [pk|] eqn:Hpk; [|done].
    destruct (Verify_answers (FromId msg) (dm_Signature msg) pk b Hpk) as [[] Hv].
    + intros Hcr. apply Hc. split; [by exists b|done].
    + destruct Ha. by exists b, pk.
    + by rewrite Hv, run_lift_done.
Qed.

Lemma deliver_counts env msg m n k :
  open n → observe_n (cacheLayer (re n)) = 0 →
  dm_Data msg = Ptr (VObserveResp m) → of_this_round n (or_common m) →
  authentic msg (VObserveResp m) →
  0 ≤ pg_f (pacemakerGlobals (re n)) → 2 * pg_f (pacemakerGlobals (re n)) + 2 < 2 ^ 64 →
  Z.of_nat (S k) ≤ 2 * pg_f (pacemakerGlobals (re n)) + 1 →
  deliver env msg (S k) n = (Done None, with_observation (FromId msg) m (Z.of_nat (S k)) n).
Proof.
  intros Ho Hz Hd Hr Ha Hf Hf2. induction k as [|k IH]; intros Hk.
  - cbn [deliver]. run. rewrite (observation_taken_eq env msg m) by done. rewrite Hz.
    rewrite !u64_id by (unfold is_u64; lia).
    by destruct (Z.ltb_spec (2 * pg_f (pacemakerGlobals (re n)) + 1) (0 + 1)); [lia|].
  - cbn [deliver]. unfold mbind at 1, proc_bind at 1. cbn [deliver] in IH. rewrite IH by lia.
    set (n1 := with_observation (FromId msg) m (Z.of_nat (S k)) n).
    assert (open n1) as Ho1 by (by destruct n as [[]]).
    assert (of_this_round n1 (or_common m)) as Hr1 by (by destruct n as [[]]).
    rewrite (observation_taken_eq env msg m) by done.
    change (pacemakerGlobals (re n1)) with (pacemakerGlobals (re n)).
    change (observe_n (cacheLayer (re n1))) with (Z.of_nat (S k)).
    rewrite !u64_id by (unfold is_u64; lia). unfold n1. rewrite with_observation_twice.
    destruct (Z.ltb_spec (2 * pg_f (pacemakerGlobals (re n)) + 1) (Z.of_nat (S k) + 1)); [lia|].
    do 3 f_equal. lia.
Qed.


(** The count is of messages and not of senders: one follower that sends its
    response 2f+2 times takes the leader to the grace phase, with nobody else's
    observations. *)
Theorem one_observer_suffices env msg m n :
  open n → live_orchestrator n → observe_n (cacheLayer (re n)) = 0 →
  dm_Data msg = Ptr (VObserveResp m) → of_this_round n (or_common m) →
  authentic msg (VObserveResp m) →
  0 ≤ pg_f (pacemakerGlobals (re n)) → 2 * pg_f (pacemakerGlobals (re n)) + 2 < 2 ^ 64 →
  ∃ n', deliver env msg (Z.to_nat (2 * pg_f (pacemakerGlobals (re n)) + 2)) n = (Done None, n') ∧
    Phase (leaderState (re n')) = PhaseGrace ∧ TPhase PhaseGrace ∈ spawned n' ∧
    observations (leaderState (re n')) =
      <[FromId msg := Some (group_responses (elems (JobResponses m)))]>
        (observations (leaderState (re n))).
Proof.
  intros Ho Hl Hz Hd Hr Ha Hf Hf2. set (f := pg_f (pacemakerGlobals (re n))) in *.
  replace (Z.to_nat (2 * f + 2)) with (S (S (Z.to_nat (2 * f)))) by lia.
  change (deliver env msg (S (S (Z.to_nat (2 * f)))))
    with (deliver env msg (S (Z.to_nat (2 * f)));; ProcessMessage env msg).
  unfold mbind at 1, proc_bind at 1.
  rewrite (deliver_counts env msg m n (Z.to_nat (2 * f))) by (try done; fold f; lia).
  set (n1 := with_observation (FromId msg) m (Z.of_nat (S (Z.to_nat (2 * f)))) n).
  assert (open n1) as Ho1 by (by destruct n as [[]]).
  assert (of_this_round n1 (or_common m)) as Hr1 by (by destruct n as [[]]).
  rewrite (observation_taken_eq env msg m) by done.
  change (pg_f (pacemakerGlobals (re n1))) with f.
  change (observe_n (cacheLayer (re n1))) with (Z.of_nat (S (Z.to_nat (2 * f)))).
  rewrite !u64_id by (unfold is_u64; lia).
  destruct (Z.ltb_spec (2 * f + 1) (Z.of_nat (S (Z.to_nat (2 * f))) + 1)); [|lia].
  unfold n1. rewrite with_observation_twice.
  set (n2 := with_observation _ _ _ n). assert (live_orchestrator n2) as Hl2 by (by destruct n as [[]]).
  unfold mbind at 1, proc_bind at 1. rewrite (set_and_send_live PhaseGrace n2 Hl2) by done.
  eexists. split; [reflexivity|]. split; [done|]. split; [|by destruct n as [[]]].
  cbn. apply elem_of_app. right. by left.
Qed.
End observing.

(** ** Reports, on the leader *)
Section reporting.
Context `{Nondet} `{Ecdsa} `{Codec} {net : Type} `{MessagingLayer net}.
Implicit Types (n : node net).

Definition attested (msg : DecodedMsg) (m : ReportRes) : Report :=
  {| from := FromId msg; reports := Reports m; sig := dm_Signature msg |}.

Definition with_reports (rs : list Report) n : node net :=
  set_re (set_leaderState (set_reports rs (leaderState (re n))) (re n)) n.

Definition with_final (fr : FinalReport) n : node net :=
  set_re (set_leaderState (set_finalReport (Some fr) (leaderState (re n))) (re n)) n.

Lemma processReportRes_eq env msg m n rs :
  authentic msg (VReportRes m) → ls_reports (leaderState (re n)) = zero_report :: rs →
  let rs' := zero_report :: rs ++ [attested msg m] in
  processReportRes env msg m n =
  if i64 (pg_n (pacemakerGlobals (re n))) - 1 <=? Z.of_nat (length (rs ++ [attested msg m])) then
    match assembleFinalReport (site env) (i64 (pg_f (pacemakerGlobals (re n)))) rs' with
    | Some fr => (set_and_send PhaseFinal;; mret None) (with_final fr (with_reports rs' n))
    | None => (Done None, with_reports rs' n)
    end
  else (Done None, with_reports rs' n).
Proof.
  intros (b & pk & Hb & Hpk & Hv) Hrs. cbv zeta. unfold processReportRes. rewrite Hb, Hpk, Hv. run.
  rewrite Hrs. cbn [app]. fold (attested msg m).
  cbn [re set_re leaderState set_leaderState pacemakerGlobals ls_reports set_reports length].
  replace (i64 (pg_n (pacemakerGlobals (re n))) <=? Z.of_nat (S (length (rs ++ [attested msg m]))))
    with (i64 (pg_n (pacemakerGlobals (re n))) - 1 <=? Z.of_nat (length (rs ++ [attested msg m])))
    by (apply eq_true_iff_eq; rewrite !Z.leb_le; lia).
  destruct (_ <=? _); [|done]. destruct (assembleFinalReport _ _ _) as [fr|]; [|done]. by run.
Qed.

(** A report that its sender has signed, from its arrival on. *)
Lemma report_taken_eq env msg m n rs :
  open n → dm_Data msg = Ptr (VReportRes m) → of_this_round n (rr_common m) →
  authentic msg (VReportRes m) → ls_reports (leaderState (re n)) = zero_report :: rs →
  let rs' := zero_report :: rs ++ [attested msg m] in
  ProcessMessage env msg n =
  if i64 (pg_n (pacemakerGlobals (re n))) - 1 <=? Z.of_nat (length (rs ++ [attested msg m])) then
    match assembleFinalReport (site env) (i64 (pg_f (pacemakerGlobals (re n)))) rs' with
    | Some fr => (set_and_send PhaseFinal;; mret None) (with_final fr (with_reports rs' n))
    | None => (Done None, with_reports rs' n)
    end
  else (Done None, with_reports rs' n).
Proof.
  intros Ho Hd Hr Ha Hrs. cbv zeta. rewrite ProcessMessage_open by done.
  rewrite (prechecks_pass n msg (rr_common m) PhaseReport) by (rewrite ?Hd; done).
  unfold dispatch. rewrite Hd. by apply processReportRes_eq.
Qed.

End reporting.

(** ** The final report, on a follower *)
Section final.
Context `{Nondet} `{Ecdsa} `{Codec} {net : Type} `{MessagingLaws net}.
Implicit Types (n : node net).

(** [id] is a peer, and one of the signatories with that id has a signature
    of [b]. *)
Definition vouches n (b : bytes) (sgs : list Signatories) (id : string) : Prop :=
  (IsPeer id (below n)).1 = Done true ∧
  ∃ sg pk, sg ∈ sgs ∧ sg_ID sg = id ∧ StringToPublicKey id = Ok pk ∧
    Verify (sg_Sign sg) b pk = Done true.

Lemma run_is_peer {A} id (k : bool → proc (node net) A) n a n' :
  (through (IsPeer id) ≫= k) n = (Done a, n') →
  ∃ known, (IsPeer id (below n)).1 = Done known ∧ k known n = (Done a, n').
Proof.
  unfold through. rewrite (proc_bind_assoc (gets_re msgService)). rewrite run_gets_re.
  destruct (msgService (re n)); [|done]. unfold mbind, proc_bind, on_net.
  pose proof (IsPeer_reads id (below n)) as Hr.
  destruct (IsPeer id (below n)) as [[known|w|w] b']; [|done..]. cbn in Hr. subst b'.
  intros Hk. exists known. split; [done|]. destruct n; exact Hk.
Qed.

Lemma count_valid_reads th b sgs : ∀ u v n, (count_valid th b sgs u v n).2 = n.
Proof.
  induction sgs as [|sg sgs IH]; intros u v n; cbn [count_valid]; [done|].
  destruct (StringToPublicKey (sg_ID sg)) as [pk|]; [|done].
  unfold through. rewrite (proc_bind_assoc (gets_re msgService)), run_gets_re.
  destruct (msgService (re n)); [|done]. unfold mbind at 1, proc_bind at 1, on_net.
  pose proof (IsPeer_reads (sg_ID sg) (below n)) as Hr.
  destruct (IsPeer (sg_ID sg) (below n)) as [[known|w|w] b']; cbn in Hr; subst b'; [|by destruct n..].
  assert (set_below (below n) n = n) as -> by (by destruct n).
  destruct (negb known); [done|].
  destruct (Verify (sg_Sign sg) b pk); [|done..]. rewrite run_lift_done. cbv zeta.
  destruct (th <=? _); [done|apply IH].
Qed.

Lemma count_valid_sound th b all sgs : ∀ u v n k n',
  count_valid th b sgs u v n = (Done (Some k), n') →
  (∀ sg, sg ∈ sgs → sg ∈ all) → Z.of_nat (size u) = v → (∀ id, id ∈ u → vouches n b all id) →
  ∃ u' : gset string, Z.of_nat (size u') = k ∧ ∀ id, id ∈ u' → vouches n b all id.
Proof.
  induction sgs as [|sg sgs IH]; intros u v n k n' Hc Hall Hu Hv; cbn [count_valid] in Hc.
  { injection Hc as <- <-. by exists u. }
  destruct (StringToPublicKey (sg_ID sg)) as [pk|] eqn:Hpk; [|done].
  apply run_is_peer in Hc as (known & Hk & Hc). destruct known; cbn [negb] in Hc; [|done].
  destruct (Verify (sg_Sign sg) b pk) as [ok|w|w] eqn:Hver; [|done..].
  rewrite run_lift_done in Hc. cbv zeta in Hc.
  assert (Hrest : ∀ sg', sg' ∈ sgs → sg' ∈ all) by (intros; apply Hall; by right).
  assert (Hsg : sg ∈ all) by (apply Hall; by left).
  destruct (ok && negb (bool_decide (sg_ID sg ∈ u))) eqn:Hfresh.
  - apply andb_true_iff in Hfresh as [-> Hnew]. apply negb_true_iff, bool_decide_eq_false in Hnew.
    assert (Hu' : Z.of_nat (size ({[sg_ID sg]} ∪ u)) = v + 1).
    { rewrite size_union by set_solver. rewrite size_singleton. lia. }
    assert (Hv' : ∀ id, id ∈ {[sg_ID sg]} ∪ u → vouches n b all id).
    { intros id. rewrite elem_of_union, elem_of_singleton. intros [->|?]; [|by apply Hv].
      split; [done|]. by exists sg, pk. }
    destruct (th <=? v + 1); [|by eapply IH].
    injection Hc as <- <-. by eexists.
  - destruct (th <=? v); [|by eapply IH]. injection Hc as <- <-. by exists u.
Qed.

(** C21: a follower keeps a final report only when it has checked it: the
    message is signed by its sender, and more than f different peers are among
    the signatories with a signature of the message. *)
Theorem final_report_checked env msg m n :
  open n → dm_Data msg = Ptr (VBroadcastFinalReport m) →
  c_finalReport (cacheLayer (re (ProcessMessage env msg n).2)) ≠
    c_finalReport (cacheLayer (re n)) →
  authentic msg (VBroadcastFinalReport m) ∧
  ∃ b (peers : gset string), Encode (VBroadcastFinalReport m) = Ok b ∧
    i64 (pg_f (pacemakerGlobals (re n))) + 1 ≤ Z.of_nat (size peers) ∧
    ∀ id, id ∈ peers → vouches n b (elems (fr_Signatories (bf_FinalReport m))) id.
Proof.
  intros Ho Hd Hne. rewrite ProcessMessage_open in Hne by done.
  destruct (rpcMsgPrechecks (re n) msg) as [[]|e]; [|done..].
  unfold dispatch in Hne. rewrite Hd in Hne. unfold processFinalReport in Hne.
  destruct (Encode (VBroadcastFinalReport m)) as [b|] eqn:Hb; [|done].
  unfold VerifySignature in Hne. unfold authentic.
  destruct (StringToPublicKey (FromId msg)) as [pk|] eqn:Hpk; [|done].
  destruct (Verify (dm_Signature msg) b pk) as [[]|w|w] eqn:Hv; [|done..].
  cbn [mbind outcome_bind] in Hne. rewrite run_lift_done, run_gets_re in Hne.
  unfold mbind at 1, proc_bind at 1 in Hne.
  match type of Hne with context [count_valid ?th ?b ?sgs ?u ?v n] =>
    pose proof (count_valid_reads th b sgs u v n) as Hr end.
  destruct (count_valid _ b _ ∅ 0 n) as [[[k|]|w|w] n1] eqn:Hc; cbn in Hr; subst n1; [|done..].
  apply (count_valid_sound _ _ (elems (fr_Signatories (bf_FinalReport m)))) in Hc
    as (u & Hsize & Hall); [|done|done|by intros ? ?%not_elem_of_empty].
  destruct (Z.ltb_spec k (i64 (pg_f (pacemakerGlobals (re n))) + 1)) as [|Hk]; [done|].
  split; [by exists b, pk|]. exists b, u. split; [done|]. split; [lia|done].
Qed.
End final.

#[export] Hint Extern 2 (preserves _ (gets_re _)) => (apply preserves_reads; done) : preserves.

Section acceptance.
Context `{Nondet} `{Ecdsa} `{Codec} {net : Type} `{MessagingLaws net}.
Implicit Types (n : node net).

Lemma run_is_peer_done {A} id (k : bool → proc (node net) A) n known :
  msgService (re n) = true → (IsPeer id (below n)).1 = Done known →
  (through (IsPeer id) ≫= k) n = k known n.
Proof.
  intros Hm Hk. unfold through. rewrite (proc_bind_assoc (gets_re msgService)), run_gets_re, Hm.
  unfold mbind, proc_bind, on_net. pose proof (IsPeer_reads id (below n)) as Hr.
  destruct (IsPeer id (below n)) as [o b']. cbn in Hk, Hr. subst o b'. by destruct n.
Qed.

(** Signatories that are peers with good signatures of [b] are counted. *)
Lemma count_valid_all th b sgs : ∀ u v n,
  msgService (re n) = true →
  Forall (λ sg, (IsPeer (sg_ID sg) (below n)).1 = Done true ∧
    ∃ pk, StringToPublicKey (sg_ID sg) = Ok pk ∧ Verify (sg_Sign sg) b pk = Done true) sgs →
  NoDup (sg_ID <$> sgs) → (∀ sg, sg ∈ sgs → sg_ID sg ∉ u) →
  v < th → th ≤ v + Z.of_nat (length sgs) →
  count_valid th b sgs u v n = (Done (Some th), n).
Proof.
  induction sgs as [|sg sgs IH]; intros u v n Hm Hall Hnd Hu Hv Hlen; [simpl in Hlen; lia|].
  apply Forall_cons in Hall as [(Hp & pk & Hpk & Hver) Hall].
  cbn [fmap list_fmap] in Hnd. apply NoDup_cons in Hnd as [Hni Hnd].
  cbn [count_valid]. rewrite Hpk, (run_is_peer_done _ _ _ true) by done. cbn [negb].
  rewrite Hver, run_lift_done. cbv zeta.
  rewrite bool_decide_eq_false_2 by (apply Hu; by left). cbn [negb andb].
  destruct (Z.leb_spec th (v + 1)) as [Hle|Hlt].
  - by replace (v + 1) with th by lia.
  - apply IH; try done; [|cbn [length] in Hlen; lia].
    intros sg' Hsg'. rewrite not_elem_of_union, not_elem_of_singleton. split.
    + intros Heq. apply Hni. rewrite <-Heq. by apply list_elem_of_fmap_2.
    + apply Hu. by right.
Qed.

(** Echoing leaves the cached report alone. *)
Lemma echo_keeps_report env x :
  preserves (λ n, c_finalReport (cacheLayer (re n)) = x) (sendFinalReportEcho env).
Proof.
  assert (∀ (A : Type) (m : proc net A),
    preserves (λ n, c_finalReport (cacheLayer (re n)) = x) (through m)) as Hthrough.
  { intros A m. unfold through. apply preserves_bind; [by eauto with preserves|intros []].
    - intros n Hn. unfold on_net. destruct (m (below n)). exact Hn.
    - by eauto with preserves. }
  unfold sendFinalReportEcho, SignMessage, send_to. preserve.
Qed.

Lemma processFinalReport_accepts env msg m n :
  msgService (re n) = true → authentic msg (VBroadcastFinalReport m) →
  (∀ b, Encode (VBroadcastFinalReport m) = Ok b →
   let th := i64 (pg_f (pacemakerGlobals (re n))) + 1 in
   count_valid th b (elems (fr_Signatories (bf_FinalReport m))) ∅ 0 n = (Done (Some th), n)) →
  c_finalReport (cacheLayer (re (processFinalReport env msg m n).2)) = bf_FinalReport m.
Proof.
  intros Hm (b & pk & Hb & Hpk & Hv) Hc. specialize (Hc b Hb). cbv zeta in Hc.
  unfold processFinalReport. rewrite Hb. unfold VerifySignature. rewrite Hpk, Hv.
  cbn [mbind outcome_bind]. rewrite run_lift_done, run_gets_re. unfold mbind at 1, proc_bind at 1.
  rewrite Hc. rewrite Z.ltb_irrefl. rewrite run_mod_cache.
  match goal with |- context [(sendFinalReportEcho env ≫= ?k) ?n1] =>
    pose proof (preserves_bind _ (sendFinalReportEcho env) k
      (echo_keeps_report env (bf_FinalReport m)) ltac:(intros a n2 Hn2; exact Hn2) n1) as Hp end.
  by apply Hp.
Qed.

(** A message about the final report is dropped when its first signatory is not
    a peer of the node that receives it. No node is a peer of itself, so a
    follower that is among the signatories in that place drops the report that
    it helped to make. *)
Theorem foreign_signatory_drops env msg m n sg sgs :
  open n → msgService (re n) = true → dm_Data msg = Ptr (VBroadcastFinalReport m) →
  of_this_round n (bf_common m) → authentic msg (VBroadcastFinalReport m) →
  fr_Signatories (bf_FinalReport m) = Some (sg :: sgs) →
  (IsPeer (sg_ID sg) (below n)).1 = Done false →
  ProcessMessage env msg n = (Done None, n).
Proof.
  intros Ho Hm Hd Hr (b & pk & Hb & Hpk & Hv) Hs Hp. rewrite ProcessMessage_open by done.
  rewrite (prechecks_pass n msg (bf_common m) PhaseFinal) by (rewrite ?Hd; done).
  unfold dispatch. rewrite Hd. unfold processFinalReport. rewrite Hb. unfold VerifySignature.
  rewrite Hpk, Hv. cbn [mbind outcome_bind]. rewrite run_lift_done, run_gets_re, Hs.
  unfold mbind at 1, proc_bind at 1. cbn [elems from_option id count_valid].
  destruct (StringToPublicKey (sg_ID sg)); [|done].
  by rewrite (run_is_peer_done _ _ _ false).
Qed.
End acceptance.

Section forgery.
Context `{Nondet} `{Ecdsa} {net : Type} `{MessagingLaws net}.
Implicit Types (n : node net).

(** A signature, by a peer, of some message with the common fields [c]. *)
Definition signed_something n (c : common) (sg : Signatories) : Prop :=
  (IsPeer (sg_ID sg) (below n)).1 = Done true ∧
  ∃ pk v b, StringToPublicKey (sg_ID sg) = Ok pk ∧ common_of v = Some c ∧
    Encode (Codec := JSONCodec) v = Ok b ∧ Verify (sg_Sign sg) b pk = Done true.

(** The signatures do not bind the report: with the signatures that f+1 peers
    have made of whatever messages of the round (their observations, say),
    anybody who signs for itself has every follower accept any report at all as
    the final one. *)
Theorem any_report_accepted env msg n c report sgs :
  let m := {| bf_common := c;
              bf_FinalReport := {| fr_Report := report; fr_Signatories := Some sgs |} |} in
  open n → msgService (re n) = true → of_this_round n c →
  0 ≤ i64 (pg_f (pacemakerGlobals (re n))) →
  dm_Data msg = Ptr (VBroadcastFinalReport m) →
  authentic (H1 := JSONCodec) msg (VBroadcastFinalReport m) →
  Forall (signed_something n c) sgs → NoDup (sg_ID <$> sgs) →
  i64 (pg_f (pacemakerGlobals (re n))) + 1 ≤ Z.of_nat (length sgs) →
  c_finalReport (cacheLayer (re (ProcessMessage (H1 := JSONCodec) env msg n).2)) =
    bf_FinalReport m.
Proof.
  intros m Ho Hm Hr Hf Hd Ha Hs Hnd Hlen. rewrite ProcessMessage_open by done.
  rewrite (prechecks_pass n msg c PhaseFinal) by (rewrite ?Hd; done).
  unfold dispatch. rewrite Hd. apply processFinalReport_accepts; [done..|].
  intros b Hb. cbv zeta. apply count_valid_all; try done; try set_solver; try lia.
  apply Forall_forall. intros sg Hsg.
  destruct (proj1 (Forall_forall _ _) Hs sg Hsg) as (Hp & pk & v & b' & Hpk & Hc & Hb' & Hv).
  split; [done|]. exists pk. split; [done|].
  rewrite <-Hv. unfold Verify, ecdsa_Verify, hashToNat.
  by rewrite (same_first_32 (VBroadcastFinalReport m) v c b b').
Qed.
End forgery.

(** ** Report requests, on a follower *)
Section requests.
Context `{Nondet} `{Ecdsa} `{Codec} {net : Type} `{MessagingLayer net}.
Implicit Types (n : node net).

(** The inner loop adds the observations of one peer. *)
Lemma inner_groups (l : list (string * slice JobObservationResponse)) : ∀ acc j,
  NoDup l.*1 →
  group (foldl (λ acc jo, <[jo.1 := append (default None (acc !! jo.1)) (elems jo.2)]> acc) acc l) j =
  group acc j ++ group (list_to_map l) j.
Proof.
  induction l as [|[k s] l IH]; intros acc j Hnd; cbn [foldl fst snd].
  - unfold group at 3. cbn. by rewrite app_nil_r.
  - cbn [fmap list_fmap fst] in Hnd. apply NoDup_cons in Hnd as [Hk Hnd].
    rewrite IH by done. rewrite list_to_map_cons, !group_insert. cbn [fst snd].
    destruct (decide (k = j)) as [->|]; [|done].
    assert (group (list_to_map l) j = []) as ->.
    { unfold group. by rewrite not_elem_of_list_to_map_1. }
    by rewrite elems_append, app_nil_r.
Qed.

Definition peer_group (j : string) (p : string * PeerObservations) : list JobObservationResponse :=
  group (entries p.2) j.

Lemma reorganize_groups env obsMap j :
  group (reorganize env obsMap) j = concat (peer_group j <$> map_range (site env) obsMap).
Proof.
  unfold reorganize, Iterate. generalize (map_range (site env) obsMap). intros l.
  rewrite (iterate_all (λ acc peer,
    foldl (λ acc jo, <[jo.1 := append (default None (acc !! jo.1)) (elems jo.2)]> acc) acc
      (map_range (site env ++ [1%nat]) (entries peer.2)))).
  assert (∀ acc, group (foldl (λ acc peer,
    foldl (λ acc jo, <[jo.1 := append (default None (acc !! jo.1)) (elems jo.2)]> acc) acc
      (map_range (site env ++ [1%nat]) (entries peer.2))) acc l) j =
    group acc j ++ concat (peer_group j <$> l)) as Hl; [|apply Hl].
  induction l as [|p l IH]; intros acc; cbn [foldl fmap list_fmap concat].
  - by rewrite app_nil_r.
  - rewrite IH, inner_groups by apply map_range_NoDup. rewrite map_range_map.
    by rewrite (assoc_L (++)).
Qed.

(** Regrouping keeps every observation: what a follower assembles for a job is,
    up to order, what all the peers in the leader's map observed for it. *)
Theorem reorganize_complete env obsMap j :
  group (reorganize env obsMap) j ≡ₚ
  concat (peer_group j <$> map_to_list obsMap).
Proof.
  rewrite reorganize_groups. unfold map_range. by rewrite shuffle_perm.
Qed.

(** A follower has no jobs: only the leader's pacemaker fills the registry. The
    first report request with an observation of any job takes the follower
    down, on the nil job. *)
Theorem report_request_crashes env msg m n obsMap data peer po j obs :
  open n → dm_Data msg = Ptr (VReportReq m) → of_this_round n (rq_common m) →
  jobRegistry (re n) = PacemakerRegistry → pm_registry n = ∅ →
  UnmarshalJSON (default "" (rq_Observations m)) ∅ = Ok obsMap →
  MarshalJSON (follower_observations (cacheLayer (re n))) = Ok data →
  CompareHashes [default "" (rq_Observations m); data] = true →
  obsMap !! peer = Some po → entries po !! j = Some (Some obs) → obs ≠ [] →
  ProcessMessage env msg n = (Panicked "nil pointer dereference", n).
Proof.
  intros Ho Hd Hr Hreg Hpm Hu Hmj Hcmp Hpo Hj Hobs. rewrite ProcessMessage_open by done.
  rewrite (prechecks_pass n msg (rq_common m) PhaseReport) by (rewrite ?Hd; done).
  unfold dispatch. rewrite Hd. unfold processReportReq. rewrite Hu. run. rewrite Hmj, Hcmp.
  cbn [negb]. run.
  destruct (map_range (site env ++ [2%nat]) (reorganize env obsMap)) as [|[j0 s] l] eqn:Hl.
  - exfalso. apply map_range_nil in Hl.
    assert (concat (peer_group j <$> map_range (site env) obsMap) = []) as Hnil.
    { rewrite <-reorganize_groups, Hl. done. }
    assert ((peer, po) ∈ map_range (site env) obsMap) as Hin by by apply map_range_elem_of.
    apply list_elem_of_split in Hin as (l1 & l2 & Hin). rewrite Hin in Hnil.
    rewrite fmap_app, concat_app in Hnil. apply app_eq_nil in Hnil as [_ Hnil].
    cbn [fmap list_fmap concat] in Hnil. apply app_eq_nil in Hnil as [Hnil _].
    unfold peer_group, group in Hnil. cbn [snd] in Hnil. by rewrite Hj in Hnil.
  - cbn [assemble_all]. unfold registered. by rewrite Hreg, Hpm, lookup_empty.
Qed.

(** ** Scheduling and rounds *)
Lemma schedule_rounds_few rounds i per q sched :
  per ≤ 1 → schedule_rounds rounds i per q sched = Done (q, sched).
Proof.
  revert i. induction rounds as [|rounds IH]; intros i Hp; [done|]. cbn [schedule_rounds].
  replace (Z.to_nat (per - 1)) with O by lia. cbn [schedule_round mbind outcome_bind].
  destruct (Z.ltb_spec 1 per); [lia|]. by apply IH.
Qed.

Lemma schedule_rounds_many rounds i per q sched :
  1 < per → schedule_rounds (S rounds) i per q sched = Panicked "interface conversion: not jobs.Job".
Proof.
  intros Hp. cbn [schedule_rounds]. destruct (Z.to_nat (per - 1)) eqn:E; [lia|]. done.
Qed.

(** A leader schedules nothing: with fewer than twenty events the inner loop
    never runs and the schedule stays as it was; with twenty or more it takes
    an event for a job, and the node goes down. *)
Theorem leader_schedules_nothing events n :
  isLeader (re n) = true →
  ((20 <= length events)%nat →
     (Start events n).1 = Panicked "interface conversion: not jobs.Job") ∧
  ((length events < 20)%nat → (Start events n).1 = Done tt →
     jobSchedule (re (Start events n).2) = Some (default ∅ (jobSchedule (re n)))).
Proof.
  intros Hl. unfold Start. run. cbn [re set_re set_schedule isLeader]. rewrite Hl.
  cbn [jobSchedule set_schedule]. split; intros Hev.
  - change (Z.to_nat MAX_ROUNDS) with 10%nat. rewrite schedule_rounds_many; [done|].
    unfold MAX_ROUNDS. Z.to_euclidean_division_equations. lia.
  - rewrite schedule_rounds_few.
    2:{ unfold MAX_ROUNDS. Z.to_euclidean_division_equations. lia. }
    rewrite proc_bind_assoc, run_lift_done, proc_bind_assoc, run_mod_re. intros _.
    match goal with |- jobSchedule (re (?m ?n1).2) = ?x =>
      assert (preserves (λ n, jobSchedule (re n) = x) m) as Hp; [|apply Hp; reflexivity] end.
    unfold send_phase, send_on, orchestrateLeadership, lock, unlock, go, mod_re.
    preserve; apply preserves_modify; intros ? Hs; exact Hs.
Qed.

(** A leader that progresses cannot run the next round: the new round has a new
    phase channel, the orchestrator still waits on the old one, and the first
    phase that is sent blocks its sender for ever. *)
Theorem next_round_is_stuck n c phase :
  si_ID (serverOpts (re n)) = leader (re n) → listening n = Some c → c ≠ next_chan n →
  next_chan n ∉ closed n →
  ∃ n', progressToNextRound n = (Done tt, n') ∧
    curRound (re n') = i64 (curRound (re n) + 1) ∧ Phase (leaderState (re n')) = PhaseObserve ∧
    send_phase phase n' = (Blocked "no receiver on the phase channel", n').
Proof.
  intros Hid Hl Hc Hcl. unfold progressToNextRound. run. rewrite Hid, String.eqb_refl.
  eexists. split; [reflexivity|]. split; [done|]. split; [done|].
  unfold send_phase, send_on. run. destruct n; cbn in *. subst.
  rewrite decide_False by done. by rewrite decide_False by congruence.
Qed.
End requests.
