(* ===== verification/Round.v ===== *)
(** * The round of a leader, abstractly

    An automaton that says what a leader does in a round, in terms of what it
    has received and nothing of locks, channels, caches and goroutines; that
    the engine of [Reporter.v] refines it; and what follows for the final
    report that the engine holds in any state it can reach. *)

From S2P Require Import Prelude Bytes Crypto Strconv Json GoJson Jobs Rpc Observations.
From S2P Require Import Assembly Reporter ReporterSpec HandlerSpec.

(** The empty report that the list starts with supports nothing. *)
Lemma supporters_zero j h rs : supporters j h (zero_report :: rs) = supporters j h rs.
Proof.
  unfold supporters. rewrite filter_cons_False; [done|]. unfold report_hash. cbn. by rewrite lookup_empty.
Qed.

(** ** The specification *)
Record round_state := {
  a_phase : LeaderPhase;
  a_graced : bool;                  (* enough observations have been counted once *)
  a_taken : list (string * ObserveResp);  (* the observations taken, and from whom *)
  a_reports : list Report;          (* the reports taken *)
  a_final : option FinalReport
}.

Definition with_phase (p : LeaderPhase) (a : round_state) : round_state := {|
  a_phase := p; a_graced := a_graced a; a_taken := a_taken a; a_reports := a_reports a;
  a_final := a_final a |}.

Section spec.
Context `{Nondet} `{Ecdsa} `{Codec}.
(** The round, and the numbers of nodes and of faulty nodes. *)
Context (c : common) (g : PacemakerGlobals).

Definition observation_taken (from : string) (m : ObserveResp) (a : round_state) : round_state :=
  let taken := a_taken a ++ [(from, m)] in
  let enough := u64 (2 * pg_f g + 1) <? u64 (Z.of_nat (length taken)) in
  {| a_phase := if enough then PhaseGrace else a_phase a;
     a_graced := a_graced a || enough; a_taken := taken; a_reports := a_reports a;
     a_final := a_final a |}.

Definition report_taken (s : list nat) (r : Report) (a : round_state) : round_state :=
  let rs := a_reports a ++ [r] in
  let final := if i64 (pg_n g) - 1 <=? Z.of_nat (length rs)
               then assembleFinalReport s (i64 (pg_f g)) (zero_report :: rs) else None in
  {| a_phase := match final with Some _ => PhaseFinal | None => a_phase a end; a_graced := a_graced a;
     a_taken := a_taken a; a_reports := rs;
     a_final := match final with Some fr => Some fr | None => a_final a end |}.

(** The leader asks for observations, takes signed observations and signed
    reports of this round, and asks for reports once it has had enough
    observations. *)
Inductive round_step : round_state → round_state → Prop :=
| ask a : round_step a (with_phase PhaseObserve a)
| take_observation msg m a :
    authentic msg (VObserveResp m) → or_common m = c →
    round_step a (observation_taken (FromId msg) m a)
| collect a : a_graced a = true → round_step a (with_phase PhaseReport a)
| take_report s msg m a :
    authentic msg (VReportRes m) → rr_common m = c →
    round_step a (report_taken s (attested msg m) a).

(** *** What the specification guarantees *)
Definition signed_report (r : Report) : Prop :=
  ∃ msg m, authentic msg (VReportRes m) ∧ rr_common m = c ∧ r = attested msg m.

Definition signed_observation (o : string * ObserveResp) : Prop :=
  ∃ msg, authentic msg (VObserveResp o.2) ∧ FromId msg = o.1 ∧ or_common o.2 = c.

Record guarantees (a : round_state) : Prop := {
  observations_signed : Forall signed_observation (a_taken a);
  reports_signed : Forall signed_report (a_reports a);
  enough_taken : a_graced a = true → u64 (2 * pg_f g + 1) < Z.of_nat (length (a_taken a));
  final_assembled fr : a_final a = Some fr →
    ∃ s rs rest, a_reports a = rs ++ rest ∧ i64 (pg_n g) - 1 ≤ Z.of_nat (length rs) ∧
      assembleFinalReport s (i64 (pg_f g)) (zero_report :: rs) = Some fr;
  phase_final : a_phase a = PhaseFinal → is_Some (a_final a);
  phase_report : a_phase a = PhaseReport ∨ a_phase a = PhaseGrace → a_graced a = true
}.

Lemma guarantees_observation msg m a :
  guarantees a → authentic msg (VObserveResp m) → or_common m = c →
  guarantees (observation_taken (FromId msg) m a).
Proof.
  intros [Ho Hr He Hf Hpf Hpr] Ha Hc. split; cbn; try done.
  - apply Forall_app. split; [done|]. apply Forall_singleton. by exists msg.
  - rewrite length_app. cbn. intros [Hg|Hen%Z.ltb_lt]%orb_true_iff; [specialize (He Hg); lia|].
    pose proof (u64_le (Z.of_nat (length (a_taken a) + 1)) ltac:(lia)). lia.
  - destruct (_ <? _); [done|exact Hpf].
  - destruct (_ <? _); intros Hp; [by rewrite orb_true_r|]. by rewrite Hpr.
Qed.

Lemma guarantees_report s msg m a :
  guarantees a → authentic msg (VReportRes m) → rr_common m = c →
  guarantees (report_taken s (attested msg m) a).
Proof.
  intros [Ho Hr He Hf Hpf Hpr] Ha Hc. unfold report_taken.
  set (final := if _ <=? _ then _ else _).
  assert (∀ fr, final = Some fr → ∃ s rs rest, a_reports a ++ [attested msg m] = rs ++ rest ∧
    i64 (pg_n g) - 1 ≤ Z.of_nat (length rs) ∧
    assembleFinalReport s (i64 (pg_f g)) (zero_report :: rs) = Some fr) as Hnew.
  { intros fr. subst final. destruct (Z.leb_spec (i64 (pg_n g) - 1)
      (Z.of_nat (length (a_reports a ++ [attested msg m])))) as [Hn|]; [|done].
    intros Hfr. exists s, (a_reports a ++ [attested msg m]), []. by rewrite app_nil_r. }
  split; cbn; try done.
  - apply Forall_app. split; [done|]. apply Forall_singleton. by exists msg, m.
  - intros fr Hfr. destruct final as [fr'|]; [by apply Hnew|].
    destruct (Hf fr Hfr) as (s' & rs & rest & -> & Hrest).
    exists s', rs, (rest ++ [attested msg m]). by rewrite app_assoc.
  - destruct final; [by eexists|exact Hpf].
  - destruct final; [by intros [?|?]|exact Hpr].
Qed.

Lemma guarantees_step a a' : guarantees a → round_step a a' → guarantees a'.
Proof.
  intros Hg Hs. destruct Hs as [a|msg m a Ha Hc|a Hgr|s msg m a Ha Hc];
    [|by apply guarantees_observation| |by apply guarantees_report];
    destruct Hg; split; cbn; auto; try done; by intros [?|?].
Qed.

Definition round_start (lead : bool) : round_state := {|
  a_phase := if lead then PhaseObserve else PhaseNil; a_graced := false; a_taken := [];
  a_reports := []; a_final := None |}.

Lemma guarantees_reached lead a : rtc round_step (round_start lead) a → guarantees a.
Proof.
  intros Hr. assert (guarantees (round_start lead)) as Hs.
  { split; [by constructor|by constructor|done|done|by destruct lead|].
    by destruct lead; intros [?|?]. }
  induction Hr; [done|]. eauto using guarantees_step.
Qed.

(** A supported value of the final report is behind signed reports only. *)
Lemma guaranteed_value a fr j v :
  guarantees a → 0 ≤ i64 (pg_f g) → a_final a = Some fr → entries (fr_Report fr) !! j = Some v →
  ∃ h rs, value_hash v = Some h ∧ i64 (pg_f g) + 1 ≤ Z.of_nat (length rs) ∧
    sublist rs (a_reports a) ∧ Forall (λ r, signed_report r ∧ report_hash j r = Some h) rs.
Proof.
  intros [_ Hr _ Hf _ _] Hf0 Hfr Hv. destruct (Hf fr Hfr) as (s & rs & rest & Hrs & _ & Ha).
  destruct (assemble_inv s _ Hf0 _ fr Ha) as (Hval & _).
  destruct (Hval j v Hv) as (h & Hh & ->).
  destruct (final_value_reported s _ Hf0 _ j h Hh) as (_ & _ & _ & Hvh).
  rewrite supporters_zero in *. exists h, (supporters j h rs). split; [done|]. split; [done|]. split.
  - rewrite Hrs. etrans; [apply sublist_filter|]. by apply sublist_inserts_r.
  - apply Forall_forall. intros r [Hrh Hin]%list_elem_of_filter. split; [|done].
    rewrite Hrs in Hr. apply Forall_app in Hr as [Hr _].
    exact (proj1 (Forall_forall _ _) Hr r Hin).
Qed.
End spec.

(** ** The engine refines it *)
Section refinement.
Context `{Nondet} `{Ecdsa} `{Codec} {net : Type} `{MessagingLayer net}.
Context (e : Z) (l : string) (g : PacemakerGlobals) (lead : bool).

(** The round that the engine is in as long as it runs. *)
Definition the_round : common := {| Epoch := e; Round := u64 INIT_ROUND; Leader := l |}.

#[local] Abbreviation rstep := (round_step the_round g).

(** The observations that are held when these have been taken, in this order:
    the last ones of each sender. *)
Definition observed_of (taken : list (string * ObserveResp)) : ObservationSafeMap :=
  foldl (λ o t, Store t.1 (Some (group_responses (elems (JobResponses t.2)))) o) ∅ taken.

(** The engine's state is that of the automaton, and a grace period that is
    still to end has begun after enough observations. *)
Record shows (a : round_state) (n : node net) : Prop := {
  shows_quit : quitCh (re n) = None;
  shows_globals : pacemakerGlobals (re n) = g;
  shows_phase : Phase (leaderState (re n)) = a_phase a;
  shows_observed : observations (leaderState (re n)) = observed_of (a_taken a);
  shows_count : observe_n (cacheLayer (re n)) = u64 (Z.of_nat (length (a_taken a)));
  shows_reports : ls_reports (leaderState (re n)) = zero_report :: a_reports a;
  shows_final : finalReport (leaderState (re n)) = a_final a;
  shows_grace : TPhase PhaseGrace ∈ spawned n ∨ TGraceOver ∈ spawned n → a_graced a = true
}.

(** Some run of the automaton ends in the state that the engine shows. *)
Definition simulated (n : node net) : Prop :=
  ∃ a, rtc rstep (round_start lead) a ∧ shows a n.

Lemma simulated_by (f : round_state → round_state) (m : node net → node net) :
  (∀ a n, shows a n → rtc rstep a (f a) ∧ shows (f a) (m n)) →
  ∀ n, simulated n → simulated (m n).
Proof.
  intros Hf n (a & Ha & Hn). destruct (Hf a n Hn) as [Hs Hm]. exists (f a). split; [by etrans|done].
Qed.

(** *** Steps that the automaton does not see *)
Definition unseen (m : node net → node net) : Prop := ∀ a n, shows a n → shows a (m n).

Lemma unseen_modify m : unseen m → preserves simulated (modify m).
Proof. intros Hm n (a & Ha & Hn). exists a. split; [done|]. by apply Hm. Qed.

Lemma unseen_cache f :
  (∀ c, observe_n (f c) = observe_n c) → unseen (λ n, set_re (set_cacheLayer (f (cacheLayer (re n))) (re n)) n).
Proof. intros Hf a n []. split; cbn; try done. by rewrite Hf. Qed.

Lemma unseen_spawn t : t ≠ TPhase PhaseGrace → t ≠ TGraceOver → unseen (spawn t).
Proof.
  intros Ht1 Ht2 a n []. split; cbn; try done. rewrite !elem_of_app, !list_elem_of_singleton.
  intros [[?|?]|[?|?]]; subst; try done; auto.
Qed.

Lemma simulated_cache f : (∀ c, observe_n (f c) = observe_n c) → preserves simulated (mod_cache f).
Proof. intros Hf. by apply unseen_modify, unseen_cache. Qed.

Lemma simulated_go t : t ≠ TPhase PhaseGrace → t ≠ TGraceOver → preserves simulated (go t).
Proof. intros ??. by apply unseen_modify, unseen_spawn. Qed.

Lemma simulated_listening f : preserves simulated (modify (λ n, set_listening (f n) n)).
Proof. apply unseen_modify. intros a n []. by split. Qed.

Lemma simulated_mutex b r : preserves simulated (mod_re (λ x, set_mu_ready (b x) (r x) x)).
Proof. apply unseen_modify. intros a n []. by split. Qed.

Lemma simulated_round z : preserves simulated (mod_re (set_curRound z)).
Proof. apply unseen_modify. intros a n []. by split. Qed.

Lemma simulated_schedule q r s : preserves simulated (mod_re (λ x, set_schedule (q x) (r x) (s x) x)).
Proof. apply unseen_modify. intros a n []. by split. Qed.

Lemma simulated_through {A} (m : proc net A) : preserves simulated (through m).
Proof.
  unfold through. preserve. intros n (r & Hr & Hn). unfold on_net.
  destruct (m (below n)) as [o b]. exists r. split; [done|]. destruct Hn. by split.
Qed.

Lemma simulated_Stop : preserves simulated Stop.
Proof.
  intros n (a & Ha & Hn). unfold Stop. proc_simpl. unfold gets_re, gets.
  rewrite (shows_quit _ _ Hn). by exists a.
Qed.
End refinement.

#[export] Hint Resolve simulated_listening simulated_mutex simulated_round simulated_schedule
  simulated_through simulated_Stop : preserves.
#[export] Hint Extern 3 (preserves (simulated _ _ _ _) (mod_cache _)) =>
  (apply simulated_cache; done) : preserves.
#[export] Hint Extern 3 (preserves (simulated _ _ _ _) (go _)) =>
  (apply simulated_go; discriminate) : preserves.

Section handlers.
Context `{Nondet} `{Ecdsa} `{Codec} {net : Type} `{MessagingLayer net}.
Context (e : Z) (l : string) (g : PacemakerGlobals) (lead : bool).
#[local] Abbreviation rstep := (round_step (the_round e l) g).
#[local] Abbreviation sim := (simulated (net := net) e l g lead).
#[local] Abbreviation shows := (shows (net := net) g).

(** *** Sending a phase

    The phase is set; whether it is then received, blocks or panics makes no
    difference to the automaton. *)
Lemma shows_set_and_send p a n :
  shows a n → (p = PhaseGrace → a_graced a = true) → shows (with_phase p a) (set_and_send p n).2.
Proof.
  intros Hn Hp. unfold set_and_send. rewrite run_mod_leader.
  set (n1 := set_re _ n). assert (shows (with_phase p a) n1) as Hn1 by (destruct Hn; by split).
  assert (preserves (shows (with_phase p a)) (send_phase p)) as Hs; [|by apply Hs].
  unfold send_phase, send_on, orchestrateLeadership. preserve.
  - apply preserves_modify. intros n' []. split; cbn; try done.
    rewrite !elem_of_app, !list_elem_of_singleton. intros [[?|Hg]|[?|Hg]]; auto; [|done].
    injection Hg as <-. by apply Hp.
  - apply preserves_modify. intros n' []. by split.
Qed.

Lemma sim_broadcast msg : preserves sim (broadcast msg).
Proof. unfold broadcast. preserve. Qed.

Lemma sim_send_to id msg : preserves sim (send_to id msg).
Proof. unfold send_to. preserve. Qed.

Lemma sim_build headers topic v sig : preserves sim (build_or_panic headers topic v sig).
Proof. unfold build_or_panic. preserve. Qed.

Lemma sim_SignMessage env msg : preserves sim (SignMessage env msg).
Proof. unfold SignMessage. preserve. Qed.
#[local] Hint Resolve sim_broadcast sim_send_to sim_build sim_SignMessage : preserves.

Lemma sim_respond env headers v : preserves sim (respond env headers v).
Proof. unfold respond. preserve. Qed.

Lemma sim_launch infos : preserves sim (launch infos).
Proof. induction infos as [|i infos IH]; cbn [launch]; preserve. Qed.
#[local] Hint Resolve sim_respond sim_launch : preserves.

Lemma sim_ObserveReq env m : preserves sim (processObserveReq env m).
Proof. unfold processObserveReq, max_rounds_reached. preserve. Qed.

Lemma sim_ObservationMap m : preserves sim (processObservationMap m).
Proof. unfold processObservationMap. preserve. Qed.

Lemma sim_ReportReq env m : preserves sim (processReportReq env m).
Proof. unfold processReportReq. preserve. Qed.

Lemma sim_count_valid th b sgs : ∀ u v, preserves sim (count_valid th b sgs u v).
Proof. induction sgs as [|sg sgs IH]; intros u v; cbn [count_valid]; preserve. Qed.
#[local] Hint Resolve sim_count_valid : preserves.

Lemma sim_FinalReport env msg m : preserves sim (processFinalReport env msg m).
Proof. unfold processFinalReport, sendFinalReportEcho. preserve. Qed.

Lemma sim_VerifySigAndPeer msg from sig : preserves sim (VerifySigAndPeer msg from sig).
Proof. unfold VerifySigAndPeer. preserve. Qed.

Lemma sim_FinalEcho msg m : preserves sim (processFinalEcho msg m).
Proof.
  unfold processFinalEcho. apply preserves_bind; [by eauto with preserves|intros r].
  cbv zeta. destruct (_ || _); [by eauto with preserves|].
  destruct (Encode (VFinalEcho m)) as [b|]; [|by eauto with preserves].
  apply preserves_bind_dep. intros n Hn. split; [by apply sim_VerifySigAndPeer|].
  intros ok Hok. apply VerifySigAndPeer_false in Hok as ->. by apply sim_VerifySigAndPeer.
Qed.

(** *** Steps that the automaton takes *)
Lemma sim_ObserveResp msg m n :
  or_common m = the_round e l → sim n → sim (processObserveResp msg m n).2.
Proof.
  intros Hc (a & Ha & Hn). unfold processObserveResp. run.
  destruct (_ && _); [|by exists a].
  destruct (Encode (VObserveResp m)) as [b|] eqn:Hb; [|by exists a].
  destruct (StringToPublicKey (FromId msg)) as [pk|] eqn:Hpk; [|by exists a].
  destruct (Verify (dm_Signature msg) b pk) as [[]|w|w] eqn:Hv; run; try by exists a.
  set (a' := observation_taken g (FromId msg) m a).
  assert (rtc rstep (round_start lead) a') as Ha'.
  { eapply rtc_r; [exact Ha|]. apply take_observation; [by exists b, pk|done]. }
  cbn [re set_re leaderState cacheLayer set_leaderState set_cacheLayer observe_n set_observe_n
    pacemakerGlobals]. rewrite (shows_globals _ _ _ Hn).
  set (n1 := set_re _ _). set (a1 := with_phase (a_phase a) a').
  assert (Hcount : u64 (observe_n (cacheLayer (re n)) + 1) = u64 (Z.of_nat (length (a_taken a')))).
  { rewrite (shows_count _ _ _ Hn), u64_succ. cbn. rewrite length_app. do 2 f_equal. cbn. lia. }
  assert (Hn1 : shows a1 n1).
  { pose proof (shows_grace _ _ _ Hn) as Hgr. pose proof (shows_observed _ _ _ Hn) as Ho.
    destruct Hn. split; try done.
    - cbn. unfold observed_of. rewrite foldl_app. cbn. by rewrite Ho.
    - intros Hg. cbn. by rewrite Hgr. }
  rewrite Hcount. unfold a', observation_taken in *. cbn [a_phase] in a1.
  cbn [a_taken] in Hcount |- *. destruct (u64 (2 * pg_f g + 1) <? _) eqn:Hen.
  - eexists. split; [exact Ha'|].
    pose proof (shows_set_and_send PhaseGrace a1 n1 Hn1) as Hs.
    unfold mbind, proc_bind. destruct (set_and_send PhaseGrace n1) as [[]]; apply Hs; intros _;
      subst a1; cbn; by rewrite orb_true_r.
  - eexists. split; [exact Ha'|]. exact Hn1.
Qed.

Lemma all_but_first (r : Report) rs n :
  (n <=? Z.of_nat (length (r :: rs))) = (n - 1 <=? Z.of_nat (length rs)).
Proof. apply eq_true_iff_eq. rewrite !Z.leb_le. cbn [length]. lia. Qed.

Lemma sim_ReportRes env msg m n :
  rr_common m = the_round e l → sim n → sim (processReportRes env msg m n).2.
Proof.
  intros Hc (a & Ha & Hn). unfold processReportRes.
  destruct (Encode (VReportRes m)) as [b|] eqn:Hb; [|by exists a].
  destruct (StringToPublicKey (FromId msg)) as [pk|] eqn:Hpk; [|by exists a].
  destruct (Verify (dm_Signature msg) b pk) as [[]|w|w] eqn:Hv; run; try by exists a.
  fold (attested msg m).
  set (a' := report_taken g (site env) (attested msg m) a).
  assert (rtc rstep (round_start lead) a') as Ha'.
  { eapply rtc_r; [exact Ha|]. apply take_report; [by exists b, pk|done]. }
  cbn [re set_re leaderState set_leaderState pacemakerGlobals ls_reports set_reports].
  rewrite (shows_globals _ _ _ Hn), (shows_reports _ _ _ Hn).
  set (n1 := set_re _ _). exists a'. split; [exact Ha'|]. unfold a', report_taken. cbn [app].
  rewrite all_but_first. destruct (_ <=? _).
  - destruct (assembleFinalReport _ _ _) as [fr|].
    + rewrite run_mod_leader. set (n2 := set_re _ _).
      match goal with |- shows ?x _ => set (a2 := x) end.
      assert (Hn2 : shows (with_phase (a_phase a) a2) n2) by (destruct Hn; split; cbn; done).
      pose proof (shows_set_and_send PhaseFinal _ n2 Hn2) as Hs.
      unfold mbind, proc_bind. by destruct (set_and_send PhaseFinal n2) as [[]]; apply Hs.
    + destruct Hn. by split.
  - destruct Hn. by split.
Qed.

Lemma sim_dispatch env msg n :
  frozen e l n → rpcMsgPrechecks (re n) msg = Ok true → sim n → sim (dispatch env msg n).2.
Proof.
  intros Hf (_ & c & Hc & _ & He & Hr & Hl)%prechecks_ok Hn. unfold dispatch.
  assert (c = the_round e l) as ->.
  { destruct c. cbn in He, Hr, Hl. unfold the_round.
    rewrite <-(frozen_epoch _ _ _ Hf), <-(frozen_leader _ _ _ Hf), <-(frozen_round _ _ _ Hf).
    by subst. }
  destruct (dm_Data msg) as [v|v]; [|done].
  destruct v; cbn in Hc; simplify_eq; try done;
    [by apply sim_ObserveReq|by apply sim_ObserveResp|by apply sim_ReportReq|by apply sim_ReportRes
    |by apply sim_ObservationMap|by apply sim_FinalReport|by apply sim_FinalEcho|].
  unfold processProgressRound. revert n Hf Hr Hn He Hl. match goal with |- ∀ n, _ → _ → _ → _ → _ → _ (?m n).2 =>
    enough (preserves sim m) as Hp; [intros; by apply Hp|] end. preserve.
Qed.

Lemma sim_lock : preserves sim lock.
Proof. unfold lock. preserve. Qed.

Lemma sim_unlock : preserves sim unlock.
Proof. unfold unlock. preserve. Qed.

Lemma sim_ProcessMessage env msg n : frozen e l n → sim n → sim (ProcessMessage env msg n).2.
Proof.
  intros Hf Hn.
  enough (frozen e l (ProcessMessage env msg n).2 ∧ sim (ProcessMessage env msg n).2) as [_ ?] by done.
  revert n Hf Hn. enough (preserves (λ n, frozen e l n ∧ sim n) (ProcessMessage env msg)) as Hp.
  { intros n Hf Hn. by apply Hp. }
  assert (∀ A (m : proc (node net) A), preserves (frozen e l) m → preserves sim m →
    preserves (λ n, frozen e l n ∧ sim n) m) as Hboth.
  { intros A m Hm1 Hm2 n [Hf Hn]. split; [by apply Hm1|by apply Hm2]. }
  unfold ProcessMessage.
  apply preserves_bind; [apply Hboth; [apply frozen_lock|apply sim_lock]|intros _].
  apply preserves_bind; [by apply preserves_reads|intros rdy].
  destruct (negb rdy); [by apply preserves_reads|].
  apply preserves_bind; [apply Hboth; [apply frozen_unlock|apply sim_unlock]|intros _].
  apply preserves_bind_dep. intros n Hn. split; [exact Hn|]. unfold gets_re, gets.
  cbn [fst snd id]. intros r [= <-]. destruct Hn as [Hf Hn].
  destruct (rpcMsgPrechecks (re n) msg) as [[]|err] eqn:Hc; [|by split..].
  split; [by apply frozen_dispatch|by apply sim_dispatch].
Qed.

(** *** Goroutines *)
Lemma sim_handleObserve : preserves sim handleObserve.
Proof.
  unfold handleObserve. preserve. intros n (a' & Ha & Hn). exists (with_phase PhaseObserve a').
  split; [eapply rtc_r; [exact Ha|apply ask]|]. destruct Hn. by split.
Qed.

Lemma sim_handleFinal env : preserves sim (handleFinal env).
Proof. unfold handleFinal, broadcast_signed. preserve. Qed.

Lemma sim_handleReport : preserves sim handleReport.
Proof. unfold handleReport, broadcastObservationMap. preserve. Qed.

Lemma sim_sendReportReq data : preserves sim (sendReportReq data).
Proof. unfold sendReportReq. preserve. Qed.

Lemma shows_without t l1 l2 a n :
  spawned n = l1 ++ t :: l2 → shows a n →
  shows a (set_spawned (l1 ++ l2) n) ∧ ((t = TPhase PhaseGrace ∨ t = TGraceOver) → a_graced a = true).
Proof.
  intros Hs Hn. pose proof (shows_grace _ _ _ Hn) as Hg. rewrite Hs in Hg. split.
  - destruct Hn. split; cbn; try done. rewrite !elem_of_app. intros Hin. apply Hg.
    rewrite !elem_of_app, !elem_of_cons. tauto.
  - intros Ht. apply Hg. rewrite !elem_of_app, !elem_of_cons. destruct Ht as [<-|<-]; tauto.
Qed.

Lemma sim_task env t l1 l2 n :
  good_task t → spawned n = l1 ++ t :: l2 → sim n →
  sim (run_task env t (set_spawned (l1 ++ l2) n)).2.
Proof.
  intros [Ht Hp] Hs (a & Ha & Hn). destruct (shows_without t l1 l2 a n Hs Hn) as [Hn' Hg].
  assert (sim (set_spawned (l1 ++ l2) n)) as Hsim by (by exists a).
  destruct t as [[]| | | |]; try done; cbn [run_task];
    [by apply sim_handleObserve|idtac|by apply sim_handleReport|by apply sim_handleFinal
    |idtac|by apply sim_sendReportReq|].
  - exists a. split; [done|]. specialize (Hg (or_introl eq_refl)). destruct Hn'. by split.
  - exists (with_phase PhaseReport a). specialize (Hg (or_intror eq_refl)). split.
    + eapply rtc_r; [exact Ha|by apply collect].
    + by apply (shows_set_and_send PhaseReport).
  - revert Hsim. generalize (set_spawned (l1 ++ l2) n). match goal with |- ∀ n, _ → _ (?m n).2 =>
      enough (preserves sim m) as Hm; [exact Hm|] end. preserve.
Qed.

Lemma sim_step n n' : frozen e l n → sim n → step n n' → sim n'.
Proof.
  intros Hf Hn Hs. destruct Hs as [env msg n|env t l1 l2 n Hsp|b n|r n].
  - by apply sim_ProcessMessage.
  - apply sim_task; [|done|done]. pose proof (frozen_tasks _ _ _ Hf) as Hts. rewrite Hsp in Hts.
    by apply Forall_app in Hts as [_ [Ht _]%Forall_cons].
  - destruct Hn as (a & Ha & []). exists a. by repeat split.
  - destruct Hn as (a & Ha & []). exists a. by repeat split.
Qed.

Lemma sim_reachable n n' : frozen e l n → sim n → reachable n n' → sim n'.
Proof.
  intros Hf Hn Hr. induction Hr as [|n n1 n2 Hs _ IH]; [done|].
  apply IH; [by eapply frozen_step|by eapply sim_step].
Qed.
End handlers.

(** ** Adequacy *)
Section adequacy.
Context `{Nondet} `{Ecdsa} `{Codec} {net : Type} `{MessagingLayer net}.

Lemma sim_Start e l g lead events : preserves (simulated (net := net) e l g lead) (Start events).
Proof.
  unfold Start. pose proof (sim_lock (net := net) e l g lead). pose proof (sim_unlock (net := net) e l g lead).
  preserve.
Qed.

Lemma sim_boot lead e l s_info g key events b r :
  simulated (net := net) e l g lead (boot lead e l s_info g key events (fresh_node key b r)).2.
Proof.
  unfold boot, mbind, proc_bind.
  assert (simulated (net := net) e l g lead (initReporter lead e l s_info g key (fresh_node key b r)).2) as Hi.
  { exists (round_start lead). split; [done|]. split; try done. cbn. by intros [?%elem_of_nil|?%elem_of_nil]. }
  destruct (initReporter _ _ _ _ _ _ _) as [[[]|w|w] n1]; [|done..]. by apply sim_Start.
Qed.

(** C3: the engine refines the automaton: in every state that messages, its
    goroutines, the network and the pacemaker bring a started engine to, its
    phase, its observations, their count, its reports and its final report are
    those of a state that the automaton reaches: whatever else happens, they
    change only by asking for observations, by taking an observation or a
    report that its sender has signed for this round, and, after enough
    observations have been counted, by asking for reports. *)
Theorem round_refines lead e l s_info g key events b r n :
  reachable (boot lead e l s_info g key events (fresh_node key b r)).2 n →
  ∃ a, rtc (round_step (the_round e l) g) (round_start lead) a ∧ shows g a n.
Proof.
  intros Hr. exact (sim_reachable e l g lead _ n (frozen_boot _ _ _ _ _ _ _ _ _) (sim_boot _ _ _ _ _ _ _ _ _) Hr).
Qed.

(** C4: in every state that a started engine can come to, each value of the
    final report that it holds is given by at least f+1 of the reports that it
    has received, each of them signed, by the node it is from, for this epoch,
    round and leader; and an engine that is in its final phase has a final
    report. *)
Theorem held_report_backed lead e l s_info g key events b r n :
  0 ≤ i64 (pg_f g) → reachable (boot lead e l s_info g key events (fresh_node key b r)).2 n →
  (Phase (leaderState (re n)) = PhaseFinal → is_Some (finalReport (leaderState (re n)))) ∧
  ∀ fr j v, finalReport (leaderState (re n)) = Some fr → entries (fr_Report fr) !! j = Some v →
    ∃ h rs, value_hash v = Some h ∧ i64 (pg_f g) + 1 ≤ Z.of_nat (length rs) ∧
      sublist rs (ls_reports (leaderState (re n))) ∧
      Forall (λ r, signed_report (the_round e l) r ∧ report_hash j r = Some h) rs.
Proof.
  intros Hf Hr. destruct (sim_reachable e l g lead _ n (frozen_boot _ _ _ _ _ _ _ _ _)
    (sim_boot _ _ _ _ _ _ _ _ _) Hr) as (a & Ha & [_ _ Hp _ _ Hrs Hfin _]).
  apply guarantees_reached in Ha. rewrite Hp, Hrs, Hfin. split; [by apply Ha|].
  intros fr j v Hfr Hv. destruct (guaranteed_value _ g a fr j v Ha Hf Hfr Hv) as (h & rs & ? & ? & ? & ?).
  exists h, rs. repeat split; try done. by apply sublist_cons.
Qed.

(** C17: an engine that asks for reports has taken more than 2f+1 observation
    responses, each signed, by the node it is from, for this epoch, round and
    leader, and what it holds is the last one of each of these nodes. *)
Theorem reports_need_observations lead e l s_info g key events b r n :
  reachable (boot lead e l s_info g key events (fresh_node key b r)).2 n →
  Phase (leaderState (re n)) = PhaseReport →
  ∃ taken, u64 (2 * pg_f g + 1) < Z.of_nat (length taken) ∧
    Forall (signed_observation (the_round e l)) taken ∧
    observations (leaderState (re n)) = observed_of taken.
Proof.
  intros Hr. destruct (sim_reachable e l g lead _ n (frozen_boot _ _ _ _ _ _ _ _ _)
    (sim_boot _ _ _ _ _ _ _ _ _) Hr) as (a & Ha & Hs).
  apply guarantees_reached in Ha. rewrite (shows_phase _ _ _ Hs), (shows_observed _ _ _ Hs).
  intros Hp. exists (a_taken a). split; [|split; [by apply Ha|done]].
  apply (enough_taken _ _ _ Ha), (phase_report _ _ _ Ha). by left.
Qed.
End adequacy.
