(* ===== verification/Transport.v ===== *)
(** * network/: peers and the libp2p transport

    [transport.go], [peer.go] and [libp2p_transport.go]: starting and stopping
    a host, the cache of streams, broadcasting, the loop that reads messages
    from a stream, and the delay before connecting.  libp2p is a parameter. *)

From Stdlib Require Import Ascii.
From S2P Require Import Prelude Bytes Sha256 Crypto Json GoJson Rpc LeaderSelection.

(** ** transport.go: what the server uses of a transport *)
Class Transport (T : Type) : Type := {
  t_SendMsg : string → bytes → proc T (option error);
  t_Broadcast : bytes → proc T unit;
  t_Stop : proc T (option error);
  t_ID : T → string;
  t_Addr : T → string
}.

(** ** libp2p: a host with its connections; streams are numbered *)
Class Libp2p (host : Type) : Type := {
  New : PrivateKey → result host;                (* with this identity *)
  MdnsStart : proc host (option error);          (* the discovery service *)
  ClosePeer : string → proc host (option error);
  peer_Decode : string → result string;
  NewStream : string → proc host (result nat);
  Write : nat → bytes → proc host (option error);
  Peers : host → list string;
  host_ID : host → string;
  host_Addr : host → string
}.

Record LibP2pTransport (host : Type) := { lt_host : host; streams : gmap string nat }.
Arguments lt_host {host} l.
Arguments streams {host} l.

Section transport.
Context `{Libp2p host}.

(** *** Its life

    A transport has no host until it is started. *)
Record unstarted := { lt_pk : PrivateKey }.

Definition NewLibp2pTransport (pk : PrivateKey) : unstarted := {| lt_pk := pk |}.

Definition DiscoverPeers : proc host unit :=
  err ← MdnsStart;
  match err with Some _ => panic "panic(err)" | None => mret tt end.

Definition Transport_Start (lt : unstarted) : outcome (LibP2pTransport host) :=
  match New (lt_pk lt) with
  | Error _ => Panicked "panic(err)"
  | Ok h =>
      let '(o, h) := DiscoverPeers h in
      _ ← o; Done {| lt_host := h; streams := ∅ |}
  end.

Definition on_host {A} (m : proc host A) : proc (LibP2pTransport host) A :=
  λ l, let '(o, h) := m (lt_host l) in (o, {| lt_host := h; streams := streams l |}).

Definition write_stream (stream : nat) (data : bytes) : proc (LibP2pTransport host) (option error) :=
  on_host (Write stream data).

(** A stream is opened for the first message to a peer and kept. *)
Definition SendMsg (id : string) (data : bytes) : proc (LibP2pTransport host) (option error) :=
  match peer_Decode id with
  | Error err => mret (Some err)
  | Ok pID =>
      l ← get;
      match streams l !! pID with
      | Some stream => write_stream stream data
      | None =>
          opened ← on_host (NewStream pID);
          match opened with
          | Error err => mret (Some err)
          | Ok stream =>
              modify (λ l, {| lt_host := lt_host l; streams := <[pID := stream]> (streams l) |});;
              write_stream stream data
          end
      end
  end.

(** Errors are logged and the next peer is tried. *)
Fixpoint send_all (ids : list string) (data : bytes) : proc (LibP2pTransport host) unit :=
  match ids with
  | [] => mret tt
  | id :: ids => SendMsg id data;; send_all ids data
  end.

Definition Broadcast (data : bytes) : proc (LibP2pTransport host) unit :=
  l ← get; send_all (Peers (lt_host l)) data.

(** Every peer is disconnected; errors are logged.  The cached streams stay. *)
Fixpoint close_all (ids : list string) : proc (LibP2pTransport host) unit :=
  match ids with
  | [] => mret tt
  | id :: ids => on_host (ClosePeer id);; close_all ids
  end.

Definition Transport_Stop : proc (LibP2pTransport host) (option error) :=
  l ← get; close_all (Peers (lt_host l));; mret None.

#[export] Instance libp2p_transport : Transport (LibP2pTransport host) := {|
  t_SendMsg := SendMsg; t_Broadcast := Broadcast; t_Stop := Transport_Stop;
  t_ID l := host_ID (lt_host l); t_Addr l := host_Addr (lt_host l)
|}.
End transport.

(** The length of [buf]. *)
Definition buf_len : nat := 4096.

(** ** readLoop: what one stream delivers

    Each element is what one call of [Read] returned: at most [buf_len] bytes, cut
    wherever the network cut them.  Each is decoded on its own. *)
Fixpoint readLoop `{Codec} (reads : list bytes) : list RPCMessage :=
  match reads with
  | [] => []
  | data :: reads =>
      match Decode KRPCMessage data with
      | Ok (VRPCMessage rpcMsg) => rpcMsg :: readLoop reads
      | _ => readLoop reads
      end
  end.

(** ** The delay before connecting to a peer, in nanoseconds *)
Definition be_uint64 (h : bytes) : Z := Big.SetBytes (take 8 (to_bytes h)).

Definition getPeerDelay (peerID : string) : Z :=
  be_uint64 (Sha256.Sum256 peerID) mod 2000 * 10 ^ 6.

(** HandlePeerFound: what is announced to the server after connecting. *)
Definition HandlePeerFound (connected : bool) (id addr : string) (peerCh : list Peer) : list Peer :=
  if connected then peerCh ++ [{| peer_ID := id; Addr := addr |}] else peerCh.

(** ** Properties *)
Section stream_cache.
Context `{Libp2p host}.

(** Deliver a list of messages, whatever comes of each. *)
Fixpoint send_each (msgs : list (string * bytes)) : proc (LibP2pTransport host) unit :=
  match msgs with
  | [] => mret tt
  | (id, data) :: msgs => SendMsg id data;; send_each msgs
  end.

Lemma on_host_streams {A} (m : proc host A) p s :
  preserves (λ l, streams l !! p = Some s) (on_host m).
Proof. intros l Hl. unfold on_host. destruct (m (lt_host l)). exact Hl. Qed.

Lemma SendMsg_streams id data p s :
  preserves (λ l, streams l !! p = Some s) (SendMsg id data).
Proof.
  unfold SendMsg, write_stream. destruct (peer_Decode id) as [pID|err];
    [|by eauto with preserves].
  apply preserves_bind_dep. intros l Hl. split; [exact Hl|]. unfold get. cbn [fst snd].
  intros l' [= <-]. destruct (streams l !! pID) as [stream|] eqn:Hs.
  { by apply on_host_streams. }
  revert l Hl Hs. intros l Hl Hs.
  pose proof (on_host_streams (NewStream pID) p s l Hl) as Hl2.
  unfold mbind at 1, proc_bind at 1.
  assert (Hsame : streams (on_host (NewStream pID) l).2 = streams l).
  { unfold on_host. by destruct (NewStream pID (lt_host l)). }
  destruct (on_host (NewStream pID) l) as [[[stream|err]|w|w] l2]; [|exact Hl2..].
  cbn in Hsame, Hl2. unfold mbind, proc_bind, modify. apply on_host_streams. cbn.
  rewrite lookup_insert_ne; [done|]. intros ->. congruence.
Qed.

(** The stream that was opened for the first message to a peer is the one for
    ever: no send replaces it, so that when it has broken down every later
    message to that peer is written to it and lost. *)
Theorem stream_never_replaced msgs l p s :
  streams l !! p = Some s →
  streams (send_each msgs l).2 !! p = Some s ∧
  ∀ id data l', peer_Decode id = Ok p → l' = (send_each msgs l).2 →
    SendMsg id data l' = write_stream s data l'.
Proof.
  intros Hs. assert (Hkept : streams (send_each msgs l).2 !! p = Some s).
  { enough (preserves (λ l, streams l !! p = Some s) (send_each msgs)) as Hp by by apply Hp.
    clear. induction msgs as [|[id data] msgs IH]; cbn [send_each]; [by eauto with preserves|].
    apply preserves_bind; [apply SendMsg_streams|intros _; exact IH]. }
  split; [done|]. intros id data l' Hid ->. unfold SendMsg. rewrite Hid.
  unfold mbind at 1, proc_bind at 1, get at 1. by rewrite Hkept.
Qed.
End stream_cache.

(** A host on which every stream is broken from the second write on. *)
#[local] Instance broken_host : Libp2p nat := {|
  New _ := Ok O; MdnsStart := mret None; ClosePeer _ := mret None; peer_Decode id := Ok id;
  NewStream p := λ n, (Done (Ok 7%nat), n);
  Write s data := λ n, (Done (if (n =? 0)%nat then None else Some (Errorf "broken")), S n);
  Peers n := []; host_ID n := "QmA"; host_Addr n := ""
|}.

Lemma stream_never_replaced_witness :
  let l := (send_each [("QmB", "hello")] {| lt_host := O; streams := ∅ |}).2 in
  streams (send_each [("QmB", "again"); ("QmC", "hello")] l).2 !! "QmB" = Some 7%nat ∧
  ∀ id data l', peer_Decode id = Ok "QmB" →
    l' = (send_each [("QmB", "again"); ("QmC", "hello")] l).2 →
    SendMsg id data l' = write_stream 7 data l'.
Proof. intros l. apply stream_never_replaced. reflexivity. Defined.

(** *** Messages on a stream *)
Lemma rpc_bytes_shape m b :
  JSONCodec_Encode (VRPCMessage m) = Ok b →
  ∃ fs, b = print (JObj fs) ∧ enc go_rpcmessage m = Ok (JObj fs).
Proof.
  cbn [JSONCodec_Encode]. unfold Marshal. rewrite result_bind_ok. intros (j & Hj & [= <-]).
  pose proof Hj as Hj'. cbn [enc go_rpcmessage] in Hj'. unfold enc_object in Hj'.
  apply result_bind_ok in Hj' as (fs & _ & [= <-]). by exists fs.
Qed.

Lemma rpc_bytes_wf m j :
  rpcmessage_ok m → enc go_rpcmessage m = Ok j → wf max_depth j = true.
Proof. intros Hm Hj. eapply enc_wf; [|exact Hm|exact Hj]. by apply go_rpcmessage_lawful. Qed.

(** A value followed by an opening brace is not a document. *)
Lemma parse_trailing j fs :
  wf max_depth j = true → is_ok (parse (print j +:+ print (JObj fs))) = false.
Proof.
  intros Hj. unfold parse. rewrite (reads_valid _ _ (reads_all j)); [reflexivity|done| |reflexivity].
  rewrite app_length_str. lia.
Qed.

(** Messages that arrive one to a read are delivered, in order. *)
Theorem separate_reads_delivered msgs reads :
  Forall rpcmessage_ok msgs →
  Forall2 (λ m b, Encode (Codec := JSONCodec) (VRPCMessage m) = Ok b) msgs reads →
  readLoop (H := JSONCodec) reads = msgs.
Proof.
  intros Hok Henc. revert Hok. induction Henc as [|m b msgs reads Hb Henc IH]; [done|].
  intros Hok. apply Forall_cons in Hok as [Hm Hok]. cbn [readLoop Decode JSONCodec].
  rewrite (json_decode_encode (VRPCMessage m) KRPCMessage b) by done. by rewrite IH.
Qed.

(** Messages that are read together are lost, both: there is no framing on the
    stream, and what one read returns must be exactly one message. *)
Theorem joined_messages_lost m1 m2 b1 b2 :
  rpcmessage_ok m1 →
  Encode (Codec := JSONCodec) (VRPCMessage m1) = Ok b1 →
  Encode (Codec := JSONCodec) (VRPCMessage m2) = Ok b2 →
  readLoop (H := JSONCodec) [b1 +:+ b2] = [].
Proof.
  intros Hm1 Hb1 Hb2. destruct (rpc_bytes_shape m1 b1 Hb1) as (f1 & -> & Hj1).
  destruct (rpc_bytes_shape m2 b2 Hb2) as (f2 & -> & _).
  cbn [readLoop Decode JSONCodec JSONCodec_Decode]. unfold unmarshal_as, Unmarshal.
  pose proof (parse_trailing (JObj f1) f2 (rpc_bytes_wf m1 _ Hm1 Hj1)) as Hp.
  by destruct (parse (print (JObj f1) +:+ print (JObj f2))).
Qed.

Definition hello (id : string) : RPCMessage :=
  {| FromID := id; Payload := Some "x"; rpc_Signature := no_signature |}.

Definition hello_bytes (id : string) : bytes :=
  match JSONCodec_Encode (VRPCMessage (hello id)) with Ok b => b | Error _ => "" end.

Lemma separate_reads_delivered_witness :
  readLoop [hello_bytes "02aa"; hello_bytes "02bb"] = [hello "02aa"; hello "02bb"].
Proof. apply separate_reads_delivered; repeat constructor. Defined.

Lemma joined_messages_lost_witness : readLoop [hello_bytes "02aa" +:+ hello_bytes "02bb"] = [].
Proof. apply (joined_messages_lost (hello "02aa") (hello "02bb")); reflexivity. Defined.

(** The delay before connecting is below two seconds for every peer. *)
Theorem getPeerDelay_bound id : 0 ≤ getPeerDelay id < 2 * 10 ^ 9.
Proof.
  unfold getPeerDelay. pose proof (Z.mod_pos_bound (be_uint64 (Sha256.Sum256 id)) 2000). lia.
Qed.
