(* ===== verification/Framing.v ===== *)
(** * Messages that are cut

    A JSON value that has been read to its end is read the same way when more
    text follows; so no beginning of an encoded message is a message, and what
    one [Read] does not return whole is lost. *)

From Stdlib Require Import Ascii.
From S2P Require Import Prelude Bytes Crypto Json GoJson Rpc LeaderSelection Transport.

(** ** Reading goes on *)
Lemma skip_app s x c t : skip s = String c t → skip (s +:+ x) = String c (t +:+ x).
Proof.
  induction s as [|d s IH]; [done|]. cbn [skip String.append].
  destruct (is_space d); [done|]. by intros [= -> ->].
Qed.

Lemma getu4_app s x r t : getu4 s = Some (r, t) → getu4 (s +:+ x) = Some (r, t +:+ x).
Proof.
  destruct s as [|a [|b [|c [|d s]]]]; try done. cbn [getu4 String.append].
  destruct (Hex.value a), (Hex.value b), (Hex.value c), (Hex.value d); try done.
  by intros [= <- <-].
Qed.

Lemma strip_app p s x t : strip p s = Some t → strip p (s +:+ x) = Some (t +:+ x).
Proof.
  revert s. induction p as [|a p IH]; intros s; [by intros [= ->]|].
  destruct s as [|b s]; [done|]. cbn. destruct (Ascii.eqb a b); [apply IH|done].
Qed.

Lemma span_app p s x a c t :
  span p s = (a, String c t) → span p (s +:+ x) = (a, String c (t +:+ x)).
Proof.
  revert a. induction s as [|d s IH]; intros a; [done|]. cbn. destruct (p d).
  - destruct (span p s) as [a' b'] eqn:Hs. intros [= <- ->]. by rewrite (IH a').
  - by intros [= <- <- <-].
Qed.

(** A string ends where its quote is, whatever follows. *)
Lemma unquote_short n a t : unquote n (String a "") = Some t → code a = 34.
Proof.
  destruct n as [|n]; [done|]. cbn. destruct (Z.eqb_spec (code a) 34); [done|].
  repeat case_match; try done; intros Hu; exfalso; revert Hu;
    repeat (destruct n as [|n]; [done|cbn]); done.
Qed.

Lemma unquote_none n : unquote n "" = None.
Proof. by destruct n. Qed.

Lemma unquote_short2 n b c t : unquote n (String b (String c "")) = Some t → code b = 34 ∨ code c = 34.
Proof.
  destruct n as [|n]; [done|]. cbn. destruct (Z.eqb_spec (code b) 34); [by left|].
  intros Hu. right.
  assert (∀ m k, unquote m (String c "") ≫= k = Some t → code c = 34) as Hc.
  { intros m k (r & Hr & _)%bind_Some. by apply unquote_short in Hr. }
  revert Hu. rewrite unquote_none. destruct (simple_escape c); repeat case_match; cbn; try done.
  all: apply Hc.
Qed.

(** A quote is no part of a longer sequence. *)
Lemma cont_quote z : z = 34 → Utf8.cont z = false.
Proof. by intros ->. Qed.

Lemma three_quote a b c : b = 34 ∨ c = 34 → Utf8.three a b c = false.
Proof.
  intros [-> | ->]; unfold Utf8.three; rewrite ?(cont_quote 34) by done; repeat case_match; lia.
Qed.

Lemma four_quote a b c d : b = 34 ∨ c = 34 → Utf8.four a b c d = false.
Proof.
  intros [-> | ->]; unfold Utf8.four; rewrite ?(cont_quote 34) by done; repeat case_match; lia.
Qed.

Lemma unquote_app n : ∀ n' s x t rest,
  unquote n s = Some (t, rest) → (n ≤ n')%nat → unquote n' (s +:+ x) = Some (t, rest +:+ x).
Proof.
  induction n as [|n IH]; intros [|n'] s x t rest Hu Hn; try done; [lia|].
  apply le_S_n in Hn. cbn [unquote] in Hu |- *.
  assert (∀ p s1 t rest, ('(t, rest) ← unquote n s1; Some (p +:+ t, rest)) = Some (t, rest) →
    ('(t, rest) ← unquote n' (s1 +:+ x); Some (p +:+ t, rest)) = Some (t, rest +:+ x)) as Hemit.
  { intros p s1 t1 r1 Hm. destruct (unquote n s1) as [[t0 r0]|] eqn:H1; [|done].
    rewrite (IH n' s1 x t0 r0 H1 Hn). cbn in Hm |- *. by injection Hm as <- <-. }
  destruct s as [|a s1]; [done|]. cbn [String.append].
  destruct (code a =? 34); [by injection Hu as <- <-|].
  destruct (code a =? 92).
  { destruct s1 as [|e s2]; [done|]. cbn [String.append]. destruct (code e =? 117).
    - destruct (getu4 s2) as [[r s3]|] eqn:Hg; [|done]. rewrite (getu4_app _ x _ _ Hg).
      cbn [mbind option_bind] in Hu |- *. destruct (surrogate r); [|by apply Hemit].
      destruct s3 as [|y [|z s4]]; cbn [String.append].
      + cbn in Hu. by rewrite unquote_none in Hu.
      + destruct (unquote n (String y "")) as [q|] eqn:Hq; [|done]. pose proof (unquote_short _ _ _ Hq) as Hy.
        specialize (Hemit Utf8.replacement (String y "") t rest). rewrite Hq in Hemit. specialize (Hemit Hu).
        cbn [String.append] in Hemit. destruct x as [|z x]; [done|]. by rewrite Hy.
      + destruct ((code y =? 92) && (code z =? 117)); [|by apply (Hemit _ (String y (String z s4)))].
        destruct (getu4 s4) as [[r' s5]|] eqn:Hg'; [|done]. rewrite (getu4_app _ x _ _ Hg').
        cbn [mbind option_bind] in Hu |- *.
        destruct (_ && _); [by apply Hemit|by apply (Hemit _ (String y (String z s4)))].
    - destruct (simple_escape e) as [z|]; [|done]. cbn [mbind option_bind] in Hu |- *.
      by apply (Hemit (String (chr z) "")). }
  destruct (code a <? 32); [done|]. destruct (code a <? 128); [by apply (Hemit (String a ""))|].
  destruct s1 as [|b s2]; [done|]. cbn [String.append].
  destruct (Utf8.two (code a) (code b)); [by apply (Hemit (String a (String b "")))|].
  destruct s2 as [|c s3]; cbn [String.append].
  { destruct (unquote n (String b "")) as [q|] eqn:Hq; [|done]. pose proof (unquote_short _ _ _ Hq) as Hb.
    specialize (Hemit Utf8.replacement (String b "") t rest). rewrite Hq in Hemit. specialize (Hemit Hu).
    cbn [String.append] in Hemit. destruct x as [|c x]; [done|].
    rewrite three_quote by (by left). destruct x as [|d x]; [done|]. by rewrite four_quote by (by left). }
  destruct (Utf8.three (code a) (code b) (code c));
    [by apply (Hemit (String a (String b (String c ""))))|].
  destruct s3 as [|d s4]; cbn [String.append].
  { destruct (unquote n (String b (String c ""))) as [q|] eqn:Hq; [|done].
    pose proof (unquote_short2 _ _ _ _ Hq) as Hbc.
    specialize (Hemit Utf8.replacement (String b (String c "")) t rest). rewrite Hq in Hemit.
    specialize (Hemit Hu). cbn [String.append] in Hemit. destruct x as [|d x]; [done|].
    by rewrite four_quote. }
  destruct (Utf8.four _ _ _ _);
    [by apply (Hemit (String a (String b (String c (String d "")))))|by apply (Hemit _ (String b (String c (String d s4))))].
Qed.

(** A number may go on; every other value, and every value with something
    after it, has ended. *)
Definition ended (j : json) (rest : string) : Prop :=
  rest ≠ "" ∨ match j with JNum _ => False | _ => True end.

Definition goes_on (n : nat) : Prop :=
  (∀ n' d s x j rest, value n d s = Some (j, rest) → ended j rest → (n ≤ n')%nat →
     value n' d (s +:+ x) = Some (j, rest +:+ x)) ∧
  (∀ n' d s x l rest, elements n d s = Some (l, rest) → (n ≤ n')%nat →
     elements n' d (s +:+ x) = Some (l, rest +:+ x)) ∧
  (∀ n' d s x l rest, members n d s = Some (l, rest) → (n ≤ n')%nat →
     members n' d (s +:+ x) = Some (l, rest +:+ x)).

Lemma value_goes_on n n' d s x j rest :
  goes_on n → value (S n) d s = Some (j, rest) → ended j rest → (n ≤ n')%nat →
  value (S n') d (s +:+ x) = Some (j, rest +:+ x).
Proof.
  intros (_ & He & Hm) Hv Hend Hn. cbn [value] in Hv |- *.
  destruct (skip s) as [|c s'] eqn:Hs; [done|]. rewrite (skip_app _ x _ _ Hs).
  destruct (code c =? 34).
  { apply bind_Some in Hv as ([t r] & Hu & [= <- <-]).
    rewrite (unquote_app _ (S (String.length (s' +:+ x))) _ x _ _ Hu) by (rewrite app_length_str; lia). done. }
  destruct (code c =? 91).
  { destruct (d <=? 0); [done|]. destruct (skip s') as [|e r] eqn:Hs'; [done|]. rewrite (skip_app _ x _ _ Hs').
    destruct (code e =? 93); [by injection Hv as <- <-|].
    apply bind_Some in Hv as ([l r'] & Hl & [= <- <-]). by rewrite (He n' _ _ x _ _ Hl Hn). }
  destruct (code c =? 123).
  { destruct (d <=? 0); [done|]. destruct (skip s') as [|e r] eqn:Hs'; [done|]. rewrite (skip_app _ x _ _ Hs').
    destruct (code e =? 125); [by injection Hv as <- <-|].
    apply bind_Some in Hv as ([l r'] & Hl & [= <- <-]). by rewrite (Hm n' _ _ x _ _ Hl Hn). }
  do 3 (match goal with |- context [if code c =? ?k then _ else _] => destruct (code c =? k) end;
    [apply bind_Some in Hv as (r & Hr & [= <- <-]); by rewrite (strip_app _ _ x _ Hr)|]).
  destruct (span number_char (String c s')) as [lit r] eqn:Hsp.
  destruct (valid_number lit) eqn:Hval; [|done]. injection Hv as <- <-.
  destruct Hend as [Hr|[]]. destruct r as [|e r]; [done|].
  pose proof (span_app _ _ x _ _ _ Hsp) as Hsp'. cbn [String.append] in Hsp'. rewrite Hsp'. by rewrite Hval.
Qed.

Lemma elements_go_on n n' d s x l rest :
  goes_on n → elements (S n) d s = Some (l, rest) → (n ≤ n')%nat →
  elements (S n') d (s +:+ x) = Some (l, rest +:+ x).
Proof.
  intros (Hv & He & _) Hl Hn. cbn [elements] in Hl |- *.
  apply bind_Some in Hl as ([j r] & Hj & Hl). destruct (skip r) as [|c r'] eqn:Hr; [done|].
  rewrite (Hv n' _ _ x _ _ Hj) by (done || (left; by intros ->)). cbn [mbind option_bind].
  rewrite (skip_app _ x _ _ Hr). destruct (code c =? 44).
  - apply bind_Some in Hl as ([l' r''] & Hl' & [= <- <-]). by rewrite (He n' _ _ x _ _ Hl' Hn).
  - destruct (code c =? 93); [|done]. by injection Hl as <- <-.
Qed.

Lemma members_go_on n n' d s x l rest :
  goes_on n → members (S n) d s = Some (l, rest) → (n ≤ n')%nat →
  members (S n') d (s +:+ x) = Some (l, rest +:+ x).
Proof.
  intros (Hv & _ & Hm) Hl Hn. cbn [members] in Hl |- *.
  destruct (skip s) as [|q s'] eqn:Hs; [done|]. rewrite (skip_app _ x _ _ Hs).
  destruct (code q =? 34); [|done]. apply bind_Some in Hl as ([k r] & Hk & Hl).
  rewrite (unquote_app _ (S (String.length (s' +:+ x))) _ x _ _ Hk) by (rewrite app_length_str; lia).
  cbn [mbind option_bind]. destruct (skip r) as [|c r1] eqn:Hr; [done|]. rewrite (skip_app _ x _ _ Hr).
  destruct (code c =? 58); [|done]. apply bind_Some in Hl as ([j r2] & Hj & Hl).
  destruct (skip r2) as [|e r3] eqn:Hr2; [done|].
  rewrite (Hv n' _ _ x _ _ Hj) by (done || (left; by intros ->)). cbn [mbind option_bind].
  rewrite (skip_app _ x _ _ Hr2). destruct (code e =? 44).
  - apply bind_Some in Hl as ([l' r4] & Hl' & [= <- <-]). by rewrite (Hm n' _ _ x _ _ Hl' Hn).
  - destruct (code e =? 125); [|done]. by injection Hl as <- <-.
Qed.

Lemma all_go_on n : goes_on n.
Proof.
  induction n as [|n IH]; [repeat split; done|].
  repeat split; intros [|n']; intros; try lia;
    [eapply value_goes_on|eapply elements_go_on|eapply members_go_on]; eauto with lia.
Qed.

(** ** No beginning of a message is a message *)
Lemma value_object n d s j rest :
  value n d s = Some (j, rest) → (∃ t, skip s = String (chr 123) t) → ended j rest.
Proof.
  destruct n as [|n]; [done|]. intros Hv (t & Ht). cbn [value] in Hv. rewrite Ht in Hv.
  change (code (chr 123)) with 123 in Hv.
  change (123 =? 34) with false in Hv. change (123 =? 91) with false in Hv.
  change (123 =? 123) with true in Hv. cbv iota in Hv. right.
  destruct (d <=? 0); [done|]. destruct (skip t) as [|e r]; [done|].
  destruct (code e =? 125); [by injection Hv as <- _|].
  by apply bind_Some in Hv as ([l r'] & _ & [= <- _]).
Qed.

Lemma print_object fs : ∃ t, print (JObj fs) = String (chr 123) t.
Proof. cbn [print]. by eexists. Qed.

(** The text of an object and the value of a beginning of it. *)
Lemma parse_beginning fs p q :
  wf max_depth (JObj fs) = true → print (JObj fs) = p +:+ q → q ≠ "" → is_ok (parse p) = false.
Proof.
  intros Hwf Hpq Hq. destruct (parse p) as [j|] eqn:Hp; [|done]. exfalso.
  destruct p as [|c p]; [by vm_compute in Hp|].
  destruct (print_object fs) as (t & Ht). rewrite Ht in Hpq. cbn [String.append] in Hpq.
  injection Hpq as <- Hpq. unfold parse in Hp.
  destruct (value _ _ _) as [[j' r]|] eqn:Hv; [|done].
  destruct (skip r) as [|e r'] eqn:Hr; [|done]. injection Hp as ->.
  assert (ended j r) as He by (eapply value_object; [exact Hv|by eexists]).
  pose proof (reads_valid _ _ (reads_all (JObj fs)) (S (2 * String.length (print (JObj fs)))) max_depth "" Hwf ltac:(lia) I) as Hall.
  destruct (all_go_on (S (2 * String.length (String (chr 123) p)))) as (Hgo & _).
  specialize (Hgo (S (2 * String.length (print (JObj fs)))) _ _ q _ _ Hv He).
  rewrite app_nil_str, Ht in Hall. rewrite Ht in Hgo. cbn [String.append] in Hgo. rewrite <-Hpq in Hgo.
  rewrite Hgo in Hall by (cbn [String.length]; rewrite Hpq, app_length_str; lia).
  injection Hall as _ Hend. apply (f_equal String.length) in Hend. rewrite app_length_str in Hend.
  by destruct q; [|cbn in Hend; lia].
Qed.

(** ** What one read does not return whole *)
Lemma cut_message_refused m b first rest reads :
  rpcmessage_ok m → Encode (Codec := JSONCodec) (VRPCMessage m) = Ok b →
  b = first +:+ rest → rest ≠ "" →
  readLoop (H := JSONCodec) (first :: reads) = readLoop reads.
Proof.
  intros Hm Hb -> Hrest. destruct (rpc_bytes_shape m _ Hb) as (fs & Hprint & Hj).
  pose proof (parse_beginning fs first rest (rpc_bytes_wf m _ Hm Hj) (eq_sym Hprint) Hrest) as Hp.
  cbn [readLoop Decode JSONCodec JSONCodec_Decode]. unfold unmarshal_as, Unmarshal.
  by destruct (parse first).
Qed.

Lemma concat_head x l : String.concat "" (x :: l) = x +:+ String.concat "" l.
Proof. destruct l; cbn; [by rewrite app_nil_str|done]. Qed.

(** C34: a message longer than the buffer never arrives: however the network
    cuts it, it takes several reads, and the first of them is refused, as the
    beginning of a message is not a message. *)
Theorem oversize_message_refused m b reads :
  rpcmessage_ok m → Encode (Codec := JSONCodec) (VRPCMessage m) = Ok b →
  (buf_len < String.length b)%nat →
  String.concat "" reads = b → Forall (λ r, String.length r ≤ buf_len)%nat reads →
  (1 < length reads)%nat ∧ readLoop (H := JSONCodec) reads = readLoop (tail reads).
Proof.
  intros Hm Hb Hlen Hreads Hall. destruct reads as [|first reads]; [cbn in Hreads; subst b; by cbn in Hlen; lia|].
  apply Forall_cons in Hall as [Hfirst _]. rewrite concat_head in Hreads.
  assert (String.concat "" reads ≠ "") as Hrest.
  { intros Hr. rewrite Hr, app_nil_str in Hreads. subst first. lia. }
  split.
  - destruct reads; [by cbn in Hrest|]. cbn. lia.
  - by eapply cut_message_refused.
Qed.

(** A message of 4000 bytes, which are more in base64. *)
Definition long_message : RPCMessage :=
  {| FromID := "02aa"; Payload := Some (of_bytes (replicate 4000 120)); rpc_Signature := no_signature |}.

Definition long_bytes : bytes :=
  match JSONCodec_Encode (VRPCMessage long_message) with Ok b => b | Error _ => "" end.

Definition long_reads : list bytes :=
  [String.substring 0 buf_len long_bytes;
   String.substring buf_len (String.length long_bytes - buf_len) long_bytes].

Lemma long_encodes : JSONCodec_Encode (VRPCMessage long_message) = Ok long_bytes.
Proof. vm_compute. reflexivity. Qed.

Lemma long_length : (buf_len < String.length long_bytes)%nat.
Proof. apply Nat.ltb_lt. vm_compute. reflexivity. Qed.

Lemma long_cut : String.concat "" long_reads = long_bytes.
Proof. vm_compute. reflexivity. Qed.

Lemma long_fits : Forall (λ r, String.length r ≤ buf_len)%nat long_reads.
Proof.
  apply Forall_cons. split; [|apply Forall_cons; split; [|by constructor]];
    apply Nat.leb_le; vm_compute; reflexivity.
Qed.

Lemma oversize_message_refused_witness :
  (1 < length long_reads)%nat ∧ readLoop long_reads = readLoop (tail long_reads).
Proof.
  apply (oversize_message_refused long_message long_bytes long_reads eq_refl long_encodes);
    [exact long_length|exact long_cut|exact long_fits].
Defined.
