(* ===== verification/Server.v ===== *)
(** * ocr/server.go and ocr/server_rpc_processor.go

    The server: decoding and routing of messages, the table of peers, the
    handshake that ties a server id to a network id, and the messaging layer
    that it gives to the pacemaker and the reporting engine. *)

From S2P Require Import Prelude Bytes Crypto Json GoJson Rpc LeaderSelection Transport.
From S2P Require Import Observations.

(** ** server_rpc_processor.go *)
Section decoder.
Context `{Codec}.

(** The type that a header announces, and whether the decoded message keeps
    the signature of the envelope. *)
Definition header_kind (headers : Z) : option (kind * bool) :=
  if headers =? MessageNewEpoch then Some (KNewEpochMesage, false)
  else if headers =? MessageStatus then Some (KStatusMsg, false)
  else if headers =? MessageObserveReq then Some (KObserveReq, false)
  else if headers =? MessageReportRes then Some (KReportRes, true)
  else if headers =? MessageReportReq then Some (KReportReq, false)
  else if headers =? MessageObserveRes then Some (KObserveResp, true)
  else if headers =? MessageChangeLeader then Some (KChangeLeaderMessage, false)
  else if headers =? MessageObservationMap then Some (KBroadcastObservationMap, false)
  else None.

Definition DefaultRPCDecoder (rpcMsg : RPCMessage) : result DecodedMsg :=
  decoded ← Decode KMessage (default "" (Payload rpcMsg));
  match decoded with
  | VMessage msg =>
      match header_kind (Headers msg) with
      | None => Error (Errorf "unknown message type")
      | Some (k, with_signature) =>
          newMsg ← Decode k (default "" (Data msg));
          Ok {| FromId := FromID rpcMsg; Topic := msg_Topic msg; dm_Data := Ptr newMsg;
                dm_Signature := if (with_signature : bool) then rpc_Signature rpcMsg
                                else no_signature |}
      end
  | _ => Error type_error
  end.
End decoder.

(** The table of handlers, by topic. *)
Definition RegisterHandler {H} (topic : Z) (handler : H) (handlers : gmap Z H) : gmap Z H :=
  <[topic := handler]> handlers.

(** [ProcessMessage]: status messages go to the server's channel, the others to
    the handler of their topic, when there is one. *)
Section router.
Context {S : Type} (to_server : InternalPeerServerInfoMsg → proc S unit)
  (handlers : gmap Z (DecodedMsg → proc S (option error))).

Definition ServerRPCProcessor_ProcessMessage (msg : DecodedMsg) : proc S (option error) :=
  if Topic msg =? TopicServer then
    match dm_Data msg with
    | Ptr (VStatusMsg statusMsg) =>
        to_server {| info_NetworkId := NetworkId statusMsg;
                     info_ListenAddr := ListenAddr statusMsg;
                     info_ServerId := Id statusMsg |};;
        mret None
    | _ => mret None
    end
  else
    match handlers !! Topic msg with
    | None => mret None
    | Some handler => handler msg
    end.
End router.

(** ** server.go *)
Record ServerOpts := {
  so_ListenAddr : string;
  CodecType : Z;
  BootStrapNodes : slice string;
  so_PrivateKey : option PrivateKey
}.

Record Server (T : Type) := {
  server_id : string;
  transporter : T;
  peerLock : bool;  (* locked by somebody who does not unlock it *)
  peers : peers_tree;
  appIdToPeerId : gmap string string;
  peerCountChan : list Z;
  commsChWithServer : list InternalPeerServerInfoMsg;
  s_quitCh : bool;  (* closed *)
  serving : bool    (* the loop over the messages has not returned *)
}.
Arguments server_id {T} s.
Arguments transporter {T} s.
Arguments peerLock {T} s.
Arguments peers {T} s.
Arguments appIdToPeerId {T} s.
Arguments peerCountChan {T} s.
Arguments commsChWithServer {T} s.
Arguments s_quitCh {T} s.
Arguments serving {T} s.

(** The capacity of both channels. *)
Definition capacity : nat := 1000.

Section server.
Context {T : Type} `{Transport T} `{Codec}.
Implicit Types (s : Server T).

Definition set_transporter (t : T) s : Server T := {|
  server_id := server_id s; transporter := t; peerLock := peerLock s; peers := peers s;
  appIdToPeerId := appIdToPeerId s; peerCountChan := peerCountChan s;
  commsChWithServer := commsChWithServer s; s_quitCh := s_quitCh s; serving := serving s |}.
Definition set_peerLock (b : bool) s : Server T := {|
  server_id := server_id s; transporter := transporter s; peerLock := b; peers := peers s;
  appIdToPeerId := appIdToPeerId s; peerCountChan := peerCountChan s;
  commsChWithServer := commsChWithServer s; s_quitCh := s_quitCh s; serving := serving s |}.
Definition set_peers (p : peers_tree) (a : gmap string string) s : Server T := {|
  server_id := server_id s; transporter := transporter s; peerLock := peerLock s; peers := p;
  appIdToPeerId := a; peerCountChan := peerCountChan s;
  commsChWithServer := commsChWithServer s; s_quitCh := s_quitCh s; serving := serving s |}.
Definition set_channels (n : list Z) (c : list InternalPeerServerInfoMsg) s : Server T := {|
  server_id := server_id s; transporter := transporter s; peerLock := peerLock s; peers := peers s;
  appIdToPeerId := appIdToPeerId s; peerCountChan := n; commsChWithServer := c;
  s_quitCh := s_quitCh s; serving := serving s |}.
Definition set_quit (q r : bool) s : Server T := {|
  server_id := server_id s; transporter := transporter s; peerLock := peerLock s; peers := peers s;
  appIdToPeerId := appIdToPeerId s; peerCountChan := peerCountChan s;
  commsChWithServer := commsChWithServer s; s_quitCh := q; serving := r |}.

Definition fresh_server (pk : string) (t : T) : Server T := {|
  server_id := pk; transporter := t; peerLock := false; peers := ∅; appIdToPeerId := ∅;
  peerCountChan := []; commsChWithServer := []; s_quitCh := false; serving := true |}.

(** The transport is made from the private key and started later; [t] is what
    it is by then. *)
Definition NewServer (opts : ServerOpts) (t : T) : outcome (Server T) :=
  match so_PrivateKey opts with
  | None => Panicked "nil pointer dereference"
  | Some key =>
      if CodecType opts =? JsonCodec then
        id ← PublicKey_String (PrivateKey_PublicKey key); Done (fresh_server id t)
      else Panicked "unsupported Codec type given in server opts"
  end.

Definition on_transport {A} (m : proc T A) : proc (Server T) A :=
  λ s, let '(o, t) := m (transporter s) in (o, set_transporter t s).

Definition lock : proc (Server T) unit :=
  s ← get; if peerLock s then block "peerLock" else modify (set_peerLock true).
Definition unlock : proc (Server T) unit := modify (set_peerLock false).

(** *** Sending, as the messaging layer of the components above *)
Definition Server_SendMsg (to : string) (rpcMsg : bytes) : proc (Server T) (option error) :=
  s ← get;
  let pID := default "" (appIdToPeerId s !! to) in
  if String.eqb pID "" then mret (Some (Errorf "peer not found"))
  else on_transport (t_SendMsg pID rpcMsg).

Definition Server_BroadcastMsg (rpcMsg : bytes) : proc (Server T) (option error) :=
  on_transport (t_Broadcast rpcMsg);; mret None.

(** The read lock waits for the write lock. *)
Definition Server_IsPeer (who : string) : proc (Server T) bool :=
  s ← get;
  if peerLock s then block "peerLock"
  else mret (bool_decide (is_Some (appIdToPeerId s !! who))).

#[export] Instance server_messaging : MessagingLayer (Server T) := {|
  SendMsg := Server_SendMsg; BroadcastMsg := Server_BroadcastMsg; IsPeer := Server_IsPeer
|}.

#[export] Instance server_messaging_laws : MessagingLaws (Server T).
Proof.
  split. intros who s. cbn. unfold Server_IsPeer. proc_simpl. by destruct (peerLock s).
Qed.

Definition GetPeerCount s : nat := size (peers s).

(** *** Peers *)
Definition sendHandshakeMsgToPeerNode (to : string) : proc (Server T) (option error) :=
  s ← get;
  match rpc_bytes (server_id s) MessageStatus TopicServer
          (VStatusMsg {| Id := server_id s; NetworkId := t_ID (transporter s);
                         ListenAddr := t_Addr (transporter s) |}) no_signature with
  | Error err => mret (Some err)
  | Ok rpcMsg => on_transport (t_SendMsg to rpcMsg)
  end.

(** A send on a full channel waits, with the lock held. *)
Definition announce_count : proc (Server T) unit :=
  s ← get;
  if (capacity <=? length (peerCountChan s))%nat then block "peerCountChan"
  else modify (set_channels (peerCountChan s ++ [Z.of_nat (GetPeerCount s)])
                 (commsChWithServer s)).

Definition handleNewPeer (peer : Peer) : proc (Server T) unit :=
  lock;;
  modify (λ s, set_peers (<[peer_ID peer := {| ServerID := ""; embedded := Some peer |}]> (peers s))
                 (appIdToPeerId s) s);;
  announce_count;;
  sendHandshakeMsgToPeerNode (peer_ID peer);;
  unlock.

(** *** Status messages *)
Definition push_info (infoMsg : InternalPeerServerInfoMsg) : proc (Server T) unit :=
  s ← get;
  if (capacity <=? length (commsChWithServer s))%nat then block "commsChWithServer"
  else modify (set_channels (peerCountChan s) (commsChWithServer s ++ [infoMsg])).

(** One turn of the loop that receives them; it goes on to the next turn
    without unlocking when the peer is not known. *)
Definition process_info (infoMsg : InternalPeerServerInfoMsg) : proc (Server T) unit :=
  lock;;
  s ← get;
  match peers s !! info_NetworkId infoMsg with
  | None => mret tt
  | Some peer =>
      modify (set_peers
        (<[info_NetworkId infoMsg :=
             {| ServerID := info_ServerId infoMsg; embedded := embedded peer |}]> (peers s))
        (<[info_ServerId infoMsg := info_NetworkId infoMsg]> (appIdToPeerId s)));;
      unlock
  end.

Definition receive_info : proc (Server T) unit :=
  s ← get;
  match commsChWithServer s with
  | [] => block "commsChWithServer"
  | infoMsg :: rest =>
      modify (set_channels (peerCountChan s) rest);; process_info infoMsg
  end.

(** *** The end of a server

    A channel is closed once; the loop notices at some point, and the
    transport is stopped when it returns. *)
Definition Server_Stop : proc (Server T) unit :=
  s ← get;
  if s_quitCh s then panic "close of closed channel" else modify (set_quit true (serving s)).

Definition Start_return : proc (Server T) unit :=
  s ← get;
  if s_quitCh s && serving s then modify (set_quit true false);; on_transport t_Stop;; mret tt
  else block "quitCh".
End server.

(** One turn of the loop over the messages: errors are logged. *)
Definition process_rpc {S} `{Codec} (to_server : InternalPeerServerInfoMsg → proc S unit)
    (handlers : gmap Z (DecodedMsg → proc S (option error))) (rpcMsg : RPCMessage) : proc S unit :=
  match DefaultRPCDecoder rpcMsg with
  | Error _ => mret tt
  | Ok msg => ServerRPCProcessor_ProcessMessage to_server handlers msg;; mret tt
  end.

(** ** Properties of the decoder *)
Section decoding.
Context {C : Codec} {P : goval → Prop} {L : CodecLaws C P}.

(** The two layers around every payload come off again. *)
Lemma unwrap_sent fromID headers topic v sig b :
  (∀ d, P (VMessage {| Headers := headers; msg_Topic := topic; Data := Some d |})) →
  (∀ p, P (VRPCMessage {| FromID := fromID; Payload := Some p; rpc_Signature := sig |})) →
  rpc_bytes (H := C) fromID headers topic v sig = Ok b →
  ∃ data payload, Encode v = Ok data ∧
    Decode KRPCMessage b =
      Ok (VRPCMessage {| FromID := fromID; Payload := Some payload; rpc_Signature := sig |}) ∧
    Decode KMessage payload =
      Ok (VMessage {| Headers := headers; msg_Topic := topic; Data := Some data |}).
Proof.
  intros Hm Hr. unfold rpc_bytes, RPCMessageBuilder_Bytes, RPCMessageBuilder_Build. cbn.
  rewrite !result_bind_ok. intros (m & Hm' & Hb). apply result_bind_ok in Hm' as (payload & Hp & [= <-]).
  apply result_bind_ok in Hp as (data & Hd & Hp). apply wrap_ok in Hd, Hp.
  exists data, payload. split; [done|]. split.
  - by eapply (decode_encode _ KRPCMessage b).
  - by eapply (decode_encode _ KMessage payload).
Qed.

(** A message of a type that the decoder knows arrives as it was sent: the
    receiver decodes the sender, the topic and the payload of the bytes, and
    the signature for the two kinds of response. *)
Theorem sent_message_decoded fromID headers topic v sig b k ws :
  header_kind headers = Some (k, ws) → kind_of v = Some k → P v →
  (∀ d, P (VMessage {| Headers := headers; msg_Topic := topic; Data := Some d |})) →
  (∀ p, P (VRPCMessage {| FromID := fromID; Payload := Some p; rpc_Signature := sig |})) →
  rpc_bytes (H := C) fromID headers topic v sig = Ok b →
  ∃ rpcMsg, Decode KRPCMessage b = Ok (VRPCMessage rpcMsg) ∧
    DefaultRPCDecoder rpcMsg =
      Ok {| FromId := fromID; Topic := topic; dm_Data := Ptr v;
            dm_Signature := if ws then sig else no_signature |}.
Proof.
  intros Hk Hv HP Hm Hr Hb.
  destruct (unwrap_sent _ _ _ _ _ _ Hm Hr Hb) as (data & payload & Hd & Hdb & Hdp).
  eexists. split; [exact Hdb|]. unfold DefaultRPCDecoder. cbn [Payload from_option id].
  rewrite Hdp. cbn [mbind result_bind Headers]. rewrite Hk. cbn [Data from_option id].
  by rewrite (decode_encode v k data HP Hv Hd).
Qed.

(** C39: the messages of the final phase are never read: a final report, an
    echo of one and a request to progress are sent under headers that the
    decoder does not know, and every receiver drops them. *)
Theorem final_phase_undecodable fromID headers topic v sig b :
  headers ∈ [MessageFinalReport; MessageFinalEcho; MessageProgressRound] →
  (∀ d, P (VMessage {| Headers := headers; msg_Topic := topic; Data := Some d |})) →
  (∀ p, P (VRPCMessage {| FromID := fromID; Payload := Some p; rpc_Signature := sig |})) →
  rpc_bytes (H := C) fromID headers topic v sig = Ok b →
  ∃ rpcMsg, Decode KRPCMessage b = Ok (VRPCMessage rpcMsg) ∧
    DefaultRPCDecoder rpcMsg = Error (Errorf "unknown message type") ∧
    ∀ S to_server handlers (s : S), process_rpc to_server handlers rpcMsg s = (Done tt, s).
Proof.
  intros Hh Hm Hr Hb.
  destruct (unwrap_sent _ _ _ _ _ _ Hm Hr Hb) as (data & payload & _ & Hdb & Hdp).
  assert (Hd : DefaultRPCDecoder
    {| FromID := fromID; Payload := Some payload; rpc_Signature := sig |} =
    Error (Errorf "unknown message type")).
  { unfold DefaultRPCDecoder. cbn [Payload from_option id]. rewrite Hdp.
    cbn [mbind result_bind Headers].
    rewrite !elem_of_cons in Hh. destruct Hh as [-> | [-> | [-> | Hh]]]; [done..|].
    by apply not_elem_of_nil in Hh. }
  eexists. split; [exact Hdb|]. split; [exact Hd|]. intros. unfold process_rpc. by rewrite Hd.
Qed.
End decoding.

Definition echo_bytes : result bytes :=
  rpc_bytes "02aa" MessageFinalEcho TopicReporter (VFinalEcho sample_echo) no_signature.

Definition status_of_a : StatusMsg :=
  {| Id := "02aa"; NetworkId := "QmA"; ListenAddr := "/ip4/127.0.0.1" |}.

Definition status_bytes : result bytes :=
  rpc_bytes "02aa" MessageStatus TopicServer (VStatusMsg status_of_a) no_signature.

Lemma sent_message_decoded_witness :
  ∃ b rpcMsg, status_bytes = Ok b ∧ Decode KRPCMessage b = Ok (VRPCMessage rpcMsg) ∧
    DefaultRPCDecoder rpcMsg =
      Ok {| FromId := "02aa"; Topic := TopicServer;
            dm_Data := Ptr (VStatusMsg status_of_a); dm_Signature := no_signature |}.
Proof.
  destruct status_bytes as [b|] eqn:Hb; [|by vm_compute in Hb].
  destruct (sent_message_decoded (L := JSONCodec_laws) "02aa" MessageStatus TopicServer
    (VStatusMsg status_of_a) no_signature b KStatusMsg false eq_refl eq_refl
    ltac:(by repeat split) ltac:(by repeat split) ltac:(done) Hb) as (rpcMsg & Hd & Hr).
  by exists b, rpcMsg.
Defined.

Lemma final_phase_undecodable_witness :
  ∃ b rpcMsg, echo_bytes = Ok b ∧ Decode KRPCMessage b = Ok (VRPCMessage rpcMsg) ∧
    DefaultRPCDecoder rpcMsg = Error (Errorf "unknown message type").
Proof.
  destruct echo_bytes as [b|] eqn:Hb; [|by vm_compute in Hb].
  destruct (final_phase_undecodable (L := JSONCodec_laws) "02aa" MessageFinalEcho TopicReporter
    (VFinalEcho sample_echo) no_signature b ltac:(right; left) ltac:(by repeat split) ltac:(done) Hb) as (rpcMsg & Hd & Hr & _).
  by exists b, rpcMsg.
Defined.

(** ** Properties of the table of peers *)
Section table.
Context {T : Type} `{Transport T} `{Codec}.
Implicit Types (s : Server T).

(** A status message ties a server id to a network id: once it has been
    routed and received, messages to that server id go to that network id, and
    the id is a peer. Who sent it, and whether it was signed, plays no role. *)
Theorem status_registers handlers msg st s p :
  peerLock s = false → commsChWithServer s = [] →
  Topic msg = TopicServer → dm_Data msg = Ptr (VStatusMsg st) →
  peers s !! NetworkId st = Some p → NetworkId st ≠ "" →
  ∃ s', (ServerRPCProcessor_ProcessMessage push_info handlers msg;; receive_info) s = (Done tt, s') ∧
    peerLock s' = false ∧
    peers s' !! NetworkId st = Some {| ServerID := Id st; embedded := embedded p |} ∧
    (∀ b, SendMsg (Id st) b s' = on_transport (t_SendMsg (NetworkId st) b) s') ∧
    (∀ who, (IsPeer who s').1 =
       Done (bool_decide (who = Id st ∨ is_Some (appIdToPeerId s !! who)))).
Proof.
  intros Hl Hc Ht Hd Hp Hn. destruct s as [i t l ps ap pc cc q sv]. cbn in Hl, Hc, Hp. subst.
  unfold ServerRPCProcessor_ProcessMessage. rewrite Ht, Z.eqb_refl, Hd.
  unfold push_info, receive_info, process_info, lock, unlock. proc_simpl. cbn. rewrite Hp. cbn.
  eexists. split; [reflexivity|]. split; [done|]. cbn. split; [by rewrite lookup_insert_eq|]. split.
  - intros b. unfold Server_SendMsg. proc_simpl. cbn. rewrite lookup_insert_eq. cbn.
    by destruct (String.eqb_spec (NetworkId st) "").
  - intros who. unfold Server_IsPeer. proc_simpl. cbn. f_equal. apply bool_decide_ext.
    destruct (decide (who = Id st)) as [->|Hne].
    + rewrite lookup_insert_eq. split; [by left|]. intros _. by eexists.
    + rewrite lookup_insert_ne by done. tauto.
Qed.

(** A status message with an unknown network id leaves the lock of the table
    locked: from then on asking for a peer, adding a peer and processing a
    status message all wait for ever. *)
Theorem unknown_peer_deadlocks infoMsg s :
  peerLock s = false → peers s !! info_NetworkId infoMsg = None →
  ∃ s', process_info infoMsg s = (Done tt, s') ∧
    (∀ who, IsPeer who s' = (Blocked "peerLock", s')) ∧
    (∀ peer, handleNewPeer peer s' = (Blocked "peerLock", s')) ∧
    (∀ infoMsg', process_info infoMsg' s' = (Blocked "peerLock", s')).
Proof.
  intros Hl Hp. destruct s as [i t l ps ap pc cc q sv]. cbn in Hl, Hp. subst.
  unfold process_info, lock. proc_simpl. cbn. rewrite Hp. eexists. split; [reflexivity|].
  split; [|split]; intros; reflexivity.
Qed.

(** Every route leads to a peer of the table. *)
Definition routes_known s : Prop :=
  ∀ sid pid, appIdToPeerId s !! sid = Some pid → is_Some (peers s !! pid).

Lemma routes_lock : preserves routes_known (lock (T := T)).
Proof.
  unfold lock. preserve. intros s' Hs. exact Hs.
Qed.

Lemma routes_on_transport {A} (m : proc T A) : preserves routes_known (on_transport m).
Proof. intros s Hs. unfold on_transport. by destruct (m (transporter s)). Qed.

Lemma routes_set_channels n c : preserves routes_known (modify (set_channels (T := T) n c)).
Proof. intros s Hs. exact Hs. Qed.

Lemma routes_unlock : preserves routes_known (unlock (T := T)).
Proof. intros s Hs. exact Hs. Qed.

Lemma routes_SendMsg to msg : preserves routes_known (SendMsg (net := Server T) to msg).
Proof. pose proof @routes_on_transport. cbn. unfold Server_SendMsg. preserve. Qed.

Lemma routes_BroadcastMsg msg : preserves routes_known (BroadcastMsg (net := Server T) msg).
Proof. pose proof @routes_on_transport. cbn. unfold Server_BroadcastMsg. preserve. Qed.

Lemma routes_handleNewPeer peer : preserves routes_known (handleNewPeer peer).
Proof.
  pose proof routes_lock. pose proof @routes_on_transport. pose proof routes_set_channels.
  pose proof routes_unlock. unfold handleNewPeer, announce_count, sendHandshakeMsgToPeerNode. preserve.
  intros s Hs sid pid Hr. cbn in Hr. apply Hs in Hr. cbn.
  apply lookup_insert_is_Some'. by right.
Qed.

Lemma routes_process_info infoMsg : preserves routes_known (process_info infoMsg).
Proof.
  unfold process_info. apply preserves_bind; [apply routes_lock|intros _].
  apply preserves_bind_dep. intros s Hs. split; [exact Hs|].
  unfold get. cbn [fst snd]. intros s' [= <-].
  destruct (peers s !! info_NetworkId infoMsg) as [p|]; [|exact Hs].
  intros sid pid Hr.
  change (<[info_ServerId infoMsg := info_NetworkId infoMsg]> (appIdToPeerId s) !! sid
    = Some pid) in Hr.
  apply lookup_insert_is_Some'.
  destruct (decide (info_ServerId infoMsg = sid)) as [He|Hne].
  - subst sid. rewrite lookup_insert_eq in Hr. injection Hr as ->. by left.
  - rewrite lookup_insert_ne in Hr by done. right. by apply (Hs sid).
Qed.

(** The routes always lead to known peers: adding a peer and processing a
    status message, however they end, keep this; so does sending. *)
Theorem routes_stay_known peer infoMsg to msg :
  preserves routes_known (handleNewPeer peer) ∧ preserves routes_known (process_info infoMsg) ∧
  preserves routes_known (SendMsg (net := Server T) to msg).
Proof. split; [|split]; [apply routes_handleNewPeer|apply routes_process_info|apply routes_SendMsg]. Qed.

(** Discovering a peer again forgets who it is: its server id becomes empty,
    and takes part so in the choice of a leader, while messages to the old
    server id still go to it. *)
Theorem rediscovery_forgets peer p sid s :
  peerLock s = false → (length (peerCountChan s) < capacity)%nat →
  peers s !! peer_ID peer = Some p → appIdToPeerId s !! sid = Some (peer_ID peer) →
  let s' := (handleNewPeer peer s).2 in
  ServerID <$> peers s' !! peer_ID peer = Some "" ∧
  appIdToPeerId s' !! sid = Some (peer_ID peer) ∧ GetPeerCount s' = GetPeerCount s.
Proof.
  intros Hl Hc Hp Hr s'.
  assert (Hs' : peers s' = <[peer_ID peer := {| ServerID := ""; embedded := Some peer |}]> (peers s) ∧
    appIdToPeerId s' = appIdToPeerId s).
  { subst s'. destruct s as [i t l ps ap pc cc q sv]. cbn in *. subst.
    unfold handleNewPeer, lock, unlock, announce_count, sendHandshakeMsgToPeerNode, on_transport.
    proc_simpl. cbn -[rpc_bytes capacity].
    destruct (Nat.leb_spec capacity (length pc)); [lia|]. cbn -[rpc_bytes].
    match goal with |- context [rpc_bytes ?a ?b ?c ?d ?e] => destruct (rpc_bytes a b c d e) as [m|] end;
      cbn; [|done].
    by destruct (t_SendMsg (peer_ID peer) m t) as [[]]. }
  unfold GetPeerCount. destruct Hs' as [-> ->]. rewrite lookup_insert_eq.
  split; [done|]. split; [done|]. rewrite map_size_insert. by rewrite Hp.
Qed.
End table.

(** ** A run *)

(** A transport that records what is sent. *)
Definition outbox : Type := list (option string * bytes).

#[local] Instance outbox_transport : Transport outbox := {|
  t_SendMsg to b := λ l, (Done None, l ++ [(Some to, b)]);
  t_Broadcast b := λ l, (Done tt, l ++ [(None, b)]); t_Stop := mret None;
  t_ID _ := "QmB"; t_Addr _ := "/ip4/127.0.0.1" |}.

Definition peer_a : Peer := {| peer_ID := "QmA"; Addr := "/ip4/127.0.0.1" |}.

Definition server_b : Server outbox := (handleNewPeer peer_a (fresh_server "02bb" [])).2.

Definition status_message : DecodedMsg := {|
  FromId := "somebody else"; Topic := TopicServer; dm_Data := Ptr (VStatusMsg status_of_a);
  dm_Signature := no_signature |}.

Lemma status_registers_witness :
  ∃ s', (ServerRPCProcessor_ProcessMessage push_info ∅ status_message;; receive_info) server_b
      = (Done tt, s') ∧
    peerLock s' = false ∧
    peers s' !! "QmA" = Some {| ServerID := "02aa"; embedded := Some peer_a |} ∧
    (∀ b, SendMsg "02aa" b s' = on_transport (t_SendMsg "QmA" b) s') ∧
    (∀ who, (IsPeer who s').1 =
       Done (bool_decide (who = "02aa" ∨ is_Some (appIdToPeerId server_b !! who)))).
Proof.
  exact (status_registers ∅ status_message status_of_a server_b
    {| ServerID := ""; embedded := Some peer_a |} eq_refl eq_refl eq_refl eq_refl eq_refl
    ltac:(discriminate)).
Defined.

Definition unknown_info : InternalPeerServerInfoMsg :=
  {| info_NetworkId := "QmX"; info_ListenAddr := ""; info_ServerId := "02aa" |}.

Lemma unknown_peer_deadlocks_witness :
  ∃ s', process_info unknown_info server_b = (Done tt, s') ∧
    (∀ who, IsPeer who s' = (Blocked "peerLock", s')) ∧
    (∀ peer, handleNewPeer peer s' = (Blocked "peerLock", s')) ∧
    (∀ infoMsg', process_info infoMsg' s' = (Blocked "peerLock", s')).
Proof. apply unknown_peer_deadlocks; reflexivity. Defined.

Definition known_info : InternalPeerServerInfoMsg :=
  {| info_NetworkId := "QmA"; info_ListenAddr := ""; info_ServerId := "02aa" |}.

Lemma rediscovery_forgets_witness :
  let s := (process_info known_info server_b).2 in
  let s' := (handleNewPeer peer_a s).2 in
  ServerID <$> peers s' !! "QmA" = Some "" ∧
  appIdToPeerId s' !! "02aa" = Some "QmA" ∧ GetPeerCount s' = GetPeerCount s.
Proof.
  intros s. apply (rediscovery_forgets peer_a {| ServerID := "02aa"; embedded := Some peer_a |} "02aa");
    [reflexivity|apply Nat.ltb_lt; vm_compute; reflexivity|reflexivity|reflexivity].
Defined.
