(* ===== verification/Exchange.v ===== *)
(** * Exchanges between two nodes

    A request that a follower answers and the leader takes, from the handler of
    the one through the bytes on the wire to the state of the other. *)

From S2P Require Import Prelude Bytes Crypto Strconv Json GoJson Jobs Rpc Transport Server.
From S2P Require Import Observations Assembly Reporter HandlerSpec.

(** ** Lists of results *)
Lemma errors_perm {A} (l l' : list (result A)) : l ≡ₚ l' → errors l ≡ₚ errors l'.
Proof. intros Hp. by apply omap_Permutation. Qed.

Lemma oks_perm {A} (l l' : list (result A)) : l ≡ₚ l' → oks l ≡ₚ oks l'.
Proof. intros Hp. by apply omap_Permutation. Qed.

Section exchange.
Context `{Nondet} {E : Ecdsa} {EL : EcdsaLaws E}.
Context {C : Codec} {P : goval → Prop} {L : CodecLaws C P}.
Context {net : Type} `{MessagingLayer net}.
Implicit Types (n : node net).

(** A node whose id is its public key, with its network. *)
Record keyed n : Prop := {
  keyed_pair : key_pair (signer (re n));
  keyed_id : PublicKey_String (PrivateKey_PublicKey (signer (re n))) = Done (si_ID (serverOpts (re n)));
  keyed_net : msgService (re n) = true
}.

(** The envelopes of this sender survive the codec. *)
Definition carried (id : string) : Prop :=
  (∀ headers d, header_kind headers ≠ None →
     P (VMessage {| Headers := headers; msg_Topic := TopicReporter; Data := Some d |})) ∧
  (∀ p sig, P (VRPCMessage {| FromID := id; Payload := Some p; rpc_Signature := sig |})).

(** What the receiver of these bytes decodes. *)
Definition arrives (b : bytes) (msg : DecodedMsg) : Prop :=
  ∃ rpcMsg, Decode KRPCMessage b = Ok (VRPCMessage rpcMsg) ∧ DefaultRPCDecoder rpcMsg = Ok msg.

(** The bytes that the node sends to say [v] under its signature. *)
Definition says (env : Env) n (headers : Z) (v : goval) (sig : Signature) (b : bytes) : Prop :=
  ∃ data, Encode v = Ok data ∧ Sign (rand env) (signer (re n)) data = Ok sig ∧
    rpc_bytes (si_ID (serverOpts (re n))) headers TopicReporter v sig = Ok b.

Definition said n (v : goval) (sig : Signature) : DecodedMsg := {|
  FromId := si_ID (serverOpts (re n)); Topic := TopicReporter; dm_Data := Ptr v;
  dm_Signature := sig |}.

Lemma key_read_back p id :
  key_pair p → PublicKey_String (PrivateKey_PublicKey p) = Done id →
  StringToPublicKey id = Ok (PrivateKey_PublicKey p).
Proof.
  intros (_ & b & Hb & Hu). unfold PublicKey_String. rewrite Hb. cbn. intros [= <-].
  unfold StringToPublicKey. rewrite Hex.DecodeString_EncodeToString. cbn. by rewrite Hu.
Qed.

(** What is said arrives, and is authentic. *)
Lemma said_arrives env n headers k v sig b :
  keyed n → carried (si_ID (serverOpts (re n))) → header_kind headers = Some (k, true) →
  kind_of v = Some k → P v → says env n headers v sig b →
  arrives b (said n v sig) ∧ authentic (said n v sig) v.
Proof.
  intros [Hp Hid _] [Hm Hr] Hk Hv HP (data & Hd & Hs & Hb). split.
  - destruct (unwrap_sent _ _ _ _ _ _ (λ d, Hm headers d ltac:(by rewrite Hk)) (λ p, Hr p sig) Hb)
      as (data' & payload & Hd' & Hdb & Hdp).
    eexists. split; [exact Hdb|]. unfold DefaultRPCDecoder. cbn [Payload from_option id].
    rewrite Hdp. cbn [mbind result_bind Headers]. rewrite Hk. cbn [Data from_option id].
    by rewrite (decode_encode v k data' HP Hv Hd').
  - exists data, (PrivateKey_PublicKey (signer (re n))). split; [done|].
    split; [by apply key_read_back|]. by apply (sign_then_verify (rand env)).
Qed.

Lemma run_respond {A} env headers v sig b (k : unit → proc (node net) A) n :
  keyed n → says env n headers v sig b →
  (respond env headers v ≫= k) n = (send_to (leader (re n)) b ≫= k) n.
Proof.
  intros _ (data & Hd & Hs & Hb). unfold respond. rewrite Hd.
  unfold SignMessage, build_or_panic. rewrite !proc_bind_assoc, run_gets_re, Hs, run_ret.
  rewrite !proc_bind_assoc, run_gets_re, Hb, run_ret. by rewrite proc_bind_assoc, run_gets_re.
Qed.

(** A message that the network takes. *)
Lemma run_send_to {A} id b x w (k : unit → proc (node net) A) n :
  msgService (re n) = true → SendMsg id b (below n) = (Done x, w) →
  (send_to id b ≫= k) n = k tt (set_below w n).
Proof.
  intros Hm Hs. unfold send_to, through. proc_simpl. unfold gets_re, gets. rewrite Hm.
  unfold on_net. by rewrite Hs.
Qed.
(** *** Observations *)
Definition with_jobs (js : list Job) n : node net :=
  set_re (set_cacheLayer (set_cl_jobs (cl_jobs (cacheLayer (re n)) ++ js) (cacheLayer (re n))) (re n)) n.

Lemma with_no_jobs n : with_jobs [] n = n.
Proof. unfold with_jobs. rewrite app_nil_r. by destruct n as [[? ? ? ? ? ? ? ? []]]. Qed.

Lemma with_jobs_app js js' n : with_jobs js' (with_jobs js n) = with_jobs (js ++ js') n.
Proof. unfold with_jobs. cbn. by rewrite (assoc_L (++)). Qed.

Lemma launch_all infos jobs n :
  Forall2 (λ info job, NewJobFromInfo info = Ok job) infos jobs →
  launch infos n = (Done (Some (zip jobs infos)), with_jobs jobs n).
Proof.
  intros Hl. revert n. induction Hl as [|info job infos jobs Hj _ IH]; intros n; cbn [launch].
  { by rewrite with_no_jobs. }
  rewrite Hj, run_mod_cache. fold (with_jobs [job] n). unfold mbind, proc_bind.
  by rewrite IH, with_jobs_app.
Qed.

Lemma run_jobs_length env l : ∀ i rs, run_jobs env i l = Done rs → length rs = length l.
Proof.
  induction l as [|[job info] l IH]; intros i rs; cbn [run_jobs]; [by intros [= <-]|].
  destruct (run_job env i job info); [|done..]. cbn.
  destruct (run_jobs env (S i) l) as [rs'| |] eqn:Hl; [|done..]. cbn. intros [= <-]. cbn.
  by rewrite (IH _ _ Hl).
Qed.

Lemma jobs_run rs n js :
  length rs = length js →
  mod_cache (λ c, set_cl_jobs (take (length (cl_jobs c) - length js) (cl_jobs c) ++ rs) c)
    (with_jobs js n) = (Done tt, with_jobs rs n).
Proof.
  intros Hlen. unfold mod_cache, mod_re, modify, with_jobs. cbn. rewrite length_app.
  by rewrite Nat.add_sub, take_app_length.
Qed.

(** The response to a request whose jobs have observed this. *)
Definition response_to (q : ObserveReq) (obs : list JobObservationResponse) : ObserveResp := {|
  or_common := oq_common q; JobResponses := append None obs |}.

Lemma processObserveReq_eq env q jobs rs sig b x w n :
  keyed n → of_this_round n (oq_common q) → is_i64 (curRound (re n)) → curRound (re n) ≤ MAX_ROUNDS →
  Forall2 (λ info job, NewJobFromInfo info = Ok job) (elems (Jobs q)) jobs →
  run_jobs env 0 (zip jobs (elems (Jobs q))) = Done rs → errors rs.*2 = [] →
  says env n MessageObserveRes (VObserveResp (response_to q (oks (shuffle (site env) rs.*2)))) sig b →
  SendMsg (leader (re n)) b (below n) = (Done x, w) →
  processObserveReq env q n = (Done None, set_below w (with_jobs rs.*1 n)).
Proof.
  intros Hk (He & Hr & Hl) Hi Hmax Hjobs Hrun Herr Hsays Hsend.
  unfold processObserveReq. rewrite run_mod_re, Hr, i64_u64 by done.
  assert (set_re (set_curRound (curRound (re n)) (re n)) n = n) as -> by by destruct n as [[]].
  rewrite run_gets_re. destruct (Z.ltb_spec MAX_ROUNDS (curRound (re n))); [lia|]. rewrite run_ret.
  unfold mbind at 1, proc_bind at 1. rewrite (launch_all _ _ _ Hjobs). cbn [fst snd].
  rewrite Hrun, run_lift_done. unfold mbind at 1, proc_bind at 1.
  assert (length (zip jobs (elems (Jobs q))) = length jobs) as Hz.
  { rewrite length_zip. apply Forall2_length in Hjobs. lia. }
  rewrite Hz, jobs_run by (rewrite length_fmap, (run_jobs_length _ _ _ _ Hrun); done). cbv zeta.
  assert (errors (shuffle (site env) rs.*2) = []) as ->.
  { apply Permutation_nil_r. by rewrite <-Herr, (errors_perm _ _ (shuffle_perm _ _ _)). }
  rewrite run_gets_re. unfold id. cbn [re set_re with_jobs epoch curRound leader set_cacheLayer].
  rewrite <-He, <-Hr, <-Hl.
  match goal with |- context [VObserveResp ?r] =>
    replace r with (response_to q (oks (shuffle (site env) rs.*2)))
      by (unfold response_to; by destruct (oq_common q)) end.
  rewrite (run_respond _ _ _ sig b) by (by destruct Hk).
  by rewrite (run_send_to _ _ x w) by apply Hk || done.
Qed.

(** C7: an observation request is answered end to end. The follower runs the
    jobs of the request and, when all of them succeed, sends the leader one
    message and changes nothing but its cached jobs; the bytes of that message
    decode, on the leader, to the results of exactly these jobs under the
    follower's id and signature, and the leader takes them: they replace what
    it holds of this follower and are counted, and beyond 2f+1 the grace phase
    begins. *)
Theorem observation_exchange env req q jobs rs sig b x w n :
  keyed n → carried (si_ID (serverOpts (re n))) → open n →
  dm_Data req = Ptr (VObserveReq q) → of_this_round n (oq_common q) →
  is_i64 (curRound (re n)) → curRound (re n) ≤ MAX_ROUNDS →
  Forall2 (λ info job, NewJobFromInfo info = Ok job) (elems (Jobs q)) jobs →
  run_jobs env 0 (zip jobs (elems (Jobs q))) = Done rs → errors rs.*2 = [] →
  let resp := response_to q (oks (shuffle (site env) rs.*2)) in
  P (VObserveResp resp) → says env n MessageObserveRes (VObserveResp resp) sig b →
  SendMsg (leader (re n)) b (below n) = (Done x, w) →
  ProcessMessage env req n = (Done None, set_below w (with_jobs rs.*1 n)) ∧
  ∃ msg, arrives b msg ∧
    ∀ env' (nl : node net), open nl → of_this_round nl (oq_common q) →
      let count := u64 (observe_n (cacheLayer (re nl)) + 1) in
      let nl' := with_observation (si_ID (serverOpts (re n))) resp count nl in
      ProcessMessage env' msg nl =
      if u64 (2 * pg_f (pacemakerGlobals (re nl)) + 1) <? count
      then (set_and_send PhaseGrace;; mret None) nl' else (Done None, nl').
Proof.
  intros Hk Hcar Ho Hd Hr Hi Hmax Hjobs Hrun Herr resp HP Hsays Hsend. split.
  - rewrite ProcessMessage_open by done.
    rewrite (prechecks_pass n req (oq_common q) PhaseObserve) by (rewrite ?Hd; done).
    unfold dispatch. rewrite Hd. by eapply processObserveReq_eq.
  - destruct (said_arrives env n MessageObserveRes KObserveResp (VObserveResp resp) sig b)
      as [Harr Ha]; [done..|]. eexists. split; [exact Harr|].
    intros env' nl Hol Hrl count nl'. by apply observation_taken_eq.
Qed.

(** *** Reports *)
Lemma assemble_all_values n l : ∀ acc values,
  assemble_all n l acc = Done values →
  ∀ j v, values !! j = Some v →
    acc !! j = Some v ∨
    ∃ s job, (j, s) ∈ l ∧ registered n j = Done job ∧ Assemble job (elems s) = Done (Ok v).
Proof.
  induction l as [|[j0 s0] l IH]; intros acc values; cbn [assemble_all].
  { intros [= <-]. auto. }
  destruct (registered n j0) as [job| |] eqn:Hreg; [|done..]. cbn.
  destruct (Assemble job (elems s0)) as [r| |] eqn:Hasm; [|done..]. cbn.
  intros Hall j v Hv. destruct (IH _ _ Hall j v Hv) as [Hacc|(s & job' & Hin & Hrest)].
  - destruct r as [v0|]; [|by left]. apply lookup_insert_Some in Hacc as [[<- <-]|[_ Hacc]]; [|by left].
    right. exists s0, job. split; [by left|done].
  - right. exists s, job'. split; [by right|done].
Qed.

Lemma assemble_all_ext n n' l : (∀ j, registered n j = registered n' j) →
  ∀ acc, assemble_all n l acc = assemble_all n' l acc.
Proof.
  intros Hreg. induction l as [|[j s] l IH]; intros acc; cbn [assemble_all]; [done|].
  rewrite Hreg. destruct (registered n' j) as [job| |]; [|done..]. cbn.
  destruct (Assemble job (elems s)); [|done..]. apply IH.
Qed.

(** The follower after it has cached a map and assembled these values. *)
Definition with_map (o : ObservationSafeMap) n : node net :=
  set_re (set_cacheLayer (set_follower_observations o (cacheLayer (re n))) (re n)) n.
Definition with_values (values : gmap string any) n : node net :=
  set_re (set_cacheLayer (set_jobReports (Some values) (cacheLayer (re n))) (re n)) n.

Lemma same_hash data : CompareHashes [data; data] = true.
Proof. apply CompareHashes_iff. exists data. by repeat constructor. Qed.

Lemma processReportReq_eq env q o data values sig b x w n :
  keyed n → of_this_round n (rq_common q) → rq_Observations q = Some data →
  UnmarshalJSON data ∅ = Ok o → follower_observations (cacheLayer (re n)) = o →
  MarshalJSON o = Ok data →
  assemble_all n (map_range (site env ++ [2%nat]) (reorganize env o)) ∅ = Done values →
  says env n MessageReportRes
    (VReportRes {| rr_common := rq_common q; Reports := Some values |}) sig b →
  SendMsg (leader (re n)) b (below n) = (Done x, w) →
  processReportReq env q n = (Done None, set_below w (with_values values n)).
Proof.
  intros Hk (He & Hr & Hl) Hq Hu Hc Hm Hall Hsays Hsend. unfold processReportReq. rewrite Hq.
  cbn [from_option id]. rewrite Hu, run_gets_re, Hc, Hm, same_hash. cbn [negb].
  rewrite run_get, Hall, run_lift_done, run_mod_cache, run_gets_re. unfold id.
  cbn [re set_re epoch curRound leader set_cacheLayer]. rewrite <-He, <-Hr, <-Hl.
  match goal with |- context [VReportRes ?r] =>
    replace r with {| rr_common := rq_common q; Reports := Some values |}
      by by destruct (rq_common q) end.
  rewrite (run_respond _ _ _ sig b) by (by destruct Hk).
  by rewrite (run_send_to _ _ x w) by apply Hk || done.
Qed.

End exchange.

Lemma json_carried id : is_utf8 id = true → carried (P := json_ok) id.
Proof.
  intros Hid. split; [|by intros p sg]. intros h d Hh. split; [|done]. cbn. unfold header_kind in Hh.
  repeat match type of Hh with context [?a =? ?b] => destruct (Z.eqb_spec a b) as [->|_]; [done|] end.
  done.
Qed.
