(* ===== verification/Completion.v ===== *)
(** * A round that goes well

    A leader that is started, hears of enough followers and is left to run its
    goroutines makes the final report: the whole way through the engine, from
    its start to the last broadcast. *)

From S2P Require Import Prelude Bytes Crypto Strconv Json GoJson Jobs Rpc Typing Observations.
From S2P Require Import Assembly Reporter ReporterSpec HandlerSpec Round Transport Server.

(** ** Text that is UTF-8 *)
Lemma hex_ascii c x : Hex.value c = Some x → code c < 128.
Proof.
  unfold Hex.value. cbv zeta. intros Hx. repeat case_match; try done; lia.
Qed.

Lemma decoded_hex_utf8 s b : Hex.DecodeString s = Ok b → is_utf8 s = true.
Proof.
  revert b. induction s as [|c|c d s IH] using Hex.pairs_ind; intros b; cbn [Hex.DecodeString].
  - done.
  - by destruct (Hex.value c).
  - destruct (Hex.value c) as [x|] eqn:Hc, (Hex.value d) as [y|] eqn:Hd; try done.
    rewrite result_bind_ok. intros (r & Hr & _). cbn [is_utf8].
    apply hex_ascii in Hc, Hd. destruct (Z.ltb_spec (code c) 128); [|lia].
    destruct (Z.ltb_spec (code d) 128); [by eapply IH|lia].
Qed.

Lemma key_utf8 id pk : StringToPublicKey id = Ok pk → is_utf8 id = true.
Proof.
  unfold StringToPublicKey. destruct (Hex.DecodeString id) as [b|] eqn:Hb; [|done]. intros _.
  by eapply decoded_hex_utf8.
Qed.

Section text.
Context `{Ecdsa}.

Lemma authentic_utf8 `{Codec} msg v : authentic msg v → is_utf8 (FromId msg) = true.
Proof. intros (b & pk & _ & Hpk & _). by eapply key_utf8. Qed.

Lemma group_responses_ok l :
  Forall observation_ok l → entries_ok (λ s, Forall observation_ok (elems s)) (Some (group_responses l)).
Proof.
  intros Hl. unfold entries_ok, group_responses. cbn [entries default].
  assert (map_Forall (λ k s, is_utf8 k = true ∧ Forall observation_ok (elems s))
    (∅ : gmap string (slice JobObservationResponse))) as Hm by apply map_Forall_empty.
  revert Hm. generalize (∅ : gmap string (slice JobObservationResponse)).
  induction Hl as [|o l Ho _ IH]; intros m Hm; [done|]. cbn [foldl]. apply IH.
  apply map_Forall_insert_2; [|done]. split; [exact Ho|]. rewrite elems_append.
  apply Forall_app. split; [|by apply Forall_singleton].
  destruct (m !! obs_JobId o) as [s|] eqn:Hs; [|by constructor]. by destruct (Hm _ _ Hs).
Qed.

(** Observations of well-formed responses can be sent. *)
Lemma observed_ok taken :
  Forall (λ t, is_utf8 t.1 = true ∧ Forall observation_ok (elems (JobResponses t.2))) taken →
  observations_ok (observed_of taken).
Proof.
  induction taken as [|[from m] taken IH] using rev_ind; intros Ht; [apply map_Forall_empty|].
  apply Forall_app in Ht as [Ht [Hf Hm]%Forall_singleton].
  unfold observed_of. rewrite foldl_app. cbn [foldl fst snd]. unfold Store.
  apply map_Forall_insert_2; [|by apply IH]. split; [done|]. by apply group_responses_ok.
Qed.

End text.

(** ** The schedule *)
Section schedule.
Context `{Nondet} `{Ecdsa} `{Codec} {net : Type} `{MessagingLayer net}.

(** The goroutine that was started first runs. *)
Definition next_task (env : Env) : proc (node net) unit := λ n,
  match spawned n with
  | [] => (Blocked "nothing to run", n)
  | t :: ts => run_task env t (set_spawned ts n)
  end.

Fixpoint deliver_all (env : Env) (msgs : list DecodedMsg) : proc (node net) unit :=
  match msgs with
  | [] => mret tt
  | msg :: msgs => ProcessMessage env msg;; deliver_all env msgs
  end.

(** Ask for observations; receive them; wait, and send them round; ask for
    reports; receive them; send the final one round. *)
Definition leader_round (env : Env) (obs reps : list DecodedMsg) : proc (node net) unit :=
  next_task env;;
  deliver_all env obs;;
  next_task env;; next_task env;; next_task env;; next_task env;;
  deliver_all env reps;;
  next_task env.

(** All of this is made of steps of the engine. *)
Definition stepped {A} (m : proc (node net) A) : Prop := ∀ n, reachable n (m n).2.

Lemma stepped_bind {A B} (m : proc (node net) A) (k : A → proc (node net) B) :
  stepped m → (∀ a, stepped (k a)) → stepped (m ≫= k).
Proof.
  intros Hm Hk n. specialize (Hm n). unfold mbind, proc_bind.
  destruct (m n) as [[a|w|w] n']; [|done..]. etrans; [exact Hm|]. apply Hk.
Qed.

Lemma stepped_task env : stepped (next_task env).
Proof.
  intros n. unfold next_task. destruct (spawned n) as [|t ts] eqn:Hs; [apply rtc_refl|].
  apply rtc_once. exact (step_task env t [] ts n Hs).
Qed.

Lemma stepped_deliver env msgs : stepped (deliver_all env msgs).
Proof.
  induction msgs as [|msg msgs IH]; [by intros n; apply rtc_refl|]. apply stepped_bind; [|done].
  intros n. apply rtc_once, step_message.
Qed.

Lemma stepped_round env obs reps : stepped (leader_round env obs reps).
Proof. unfold leader_round. repeat (apply stepped_bind; [|intros _]); auto using stepped_task, stepped_deliver. Qed.
End schedule.

(** ** The leader, step by step *)
Section leader.
Context `{Nondet} `{Ecdsa} {net : Type} `{MessagingLayer net}.
Context (accept : bytes → net → net).
Context (Haccept : ∀ b w, ∃ err, BroadcastMsg b w = (Done err, accept b w)).
Context (e : Z) (l : string) (s_info : ServerInfo) (g : PacemakerGlobals) (key : PrivateKey).
Implicit Types (n : node net) (a : round_state).

(** A leader whose orchestrator waits, in the state [a] of the round, with
    these goroutines and this network. *)
Record leads a (tasks : list task) (w : net) n : Prop := {
  leads_open : open n;
  leads_live : live_orchestrator n;
  leads_net : msgService (re n) = true;
  leads_self : serverOpts (re n) = s_info;
  leads_key : signer (re n) = key;
  leads_epoch : epoch (re n) = e;
  leads_round : curRound (re n) = INIT_ROUND;
  leads_leader : leader (re n) = l;
  leads_jobs : jobSchedule (re n) = Some ∅;
  leads_shows : shows g a n;
  leads_tasks : spawned n = tasks;
  leads_below : below n = w
}.

Lemma leads_of_round a tasks w n c :
  leads a tasks w n → c = the_round e l → of_this_round n c.
Proof. intros [] ->. unfold the_round, of_this_round. cbn. by rewrite leads_epoch0, leads_round0, leads_leader0. Qed.

Lemma run_broadcast {A} b (k : unit → proc (node net) A) n :
  msgService (re n) = true → (broadcast b ≫= k) n = k tt (set_below (accept b (below n)) n).
Proof.
  intros Hm. unfold broadcast, through. rewrite !proc_bind_assoc, run_gets_re, Hm.
  destruct (Haccept b (below n)) as [err Hb]. unfold on_net, mbind, proc_bind. by rewrite Hb.
Qed.

(** Sending a phase, with the goroutine of the phase as the last one. *)
Lemma leads_send {A} p a tasks w (k : unit → proc (node net) A) n :
  leads a tasks w n → p ≠ PhaseNil → (p = PhaseGrace → a_graced a = true) →
  ∃ n', (set_and_send p ≫= k) n = k tt n' ∧ leads (with_phase p a) (tasks ++ [TPhase p]) w n'.
Proof.
  intros Hn Hp Hg. unfold mbind, proc_bind. rewrite set_and_send_live by (done || apply Hn).
  eexists. split; [reflexivity|]. destruct Hn as [[] [] ? ? ? ? ? ? ? Hs <- <-].
  split; try (done || by split). destruct Hs. split; try done. cbn.
  rewrite !elem_of_app, !list_elem_of_singleton. intros [[?|[= <-]]|[?|?]]; auto; done.
Qed.

(** *** Messages *)
Definition observes (om : DecodedMsg * ObserveResp) : Prop :=
  dm_Data om.1 = Ptr (VObserveResp om.2) ∧ authentic om.1 (VObserveResp om.2) ∧
  or_common om.2 = the_round e l ∧ well_typed (VObserveResp om.2).

Definition reports_on (rm : DecodedMsg * ReportRes) : Prop :=
  dm_Data rm.1 = Ptr (VReportRes rm.2) ∧ authentic rm.1 (VReportRes rm.2) ∧
  rr_common rm.2 = the_round e l ∧ well_typed (VReportRes rm.2).

Lemma leads_observation env om a tasks w n :
  leads a tasks w n → observes om →
  let enough := u64 (2 * pg_f g + 1) <? u64 (Z.of_nat (length (a_taken a ++ [(FromId om.1, om.2)]))) in
  ∃ n', ProcessMessage env om.1 n = (Done None, n') ∧
    leads (observation_taken g (FromId om.1) om.2 a) (tasks ++ if enough then [TPhase PhaseGrace] else []) w n'.
Proof.
  destruct om as [msg m]. intros Hn (Hd & Ha & Hc & _) enough. cbn [fst snd] in *.
  pose proof (leads_of_round _ _ _ _ _ Hn Hc) as Hr.
  pose proof (leads_shows _ _ _ _ Hn) as Hs.
  rewrite (observation_taken_eq env msg m n (leads_open _ _ _ _ Hn) Hd); [|by rewrite Hc in Hr |- *|done].
  assert (u64 (observe_n (cacheLayer (re n)) + 1) = u64 (Z.of_nat (length (a_taken a ++ [(FromId msg, m)])))) as Hcount.
  { rewrite (shows_count _ _ _ Hs), u64_succ, length_app. do 2 f_equal. cbn. lia. }
  rewrite Hcount, (shows_globals _ _ _ Hs). fold enough.
  set (n1 := with_observation _ _ _ _).
  assert (Hn1 : leads (with_phase (a_phase a) (observation_taken g (FromId msg) m a)) tasks w n1).
  { destruct Hn as [[] [] ? ? ? ? ? ? ? _ <- <-]. split; try (done || by split).
    pose proof (shows_grace _ _ _ Hs) as Hg. pose proof (shows_observed _ _ _ Hs) as Ho.
    destruct Hs. split; try done.
    - cbn. unfold observed_of. rewrite foldl_app. cbn. by rewrite Ho.
    - intros Ht. cbn. by rewrite Hg. }
  unfold observation_taken in *. fold enough in Hn1 |- *. destruct enough.
  - destruct (leads_send PhaseGrace _ _ _ (λ _, mret (None : option error)) n1 Hn1) as (n' & -> & Hn'); [done| |by exists n'].
    cbn. by rewrite orb_true_r.
  - exists n1. split; [done|]. by rewrite app_nil_r.
Qed.

(** Responses that are not enough yet. *)
Definition all_taken (obs : list (DecodedMsg * ObserveResp)) a : round_state := {|
  a_phase := a_phase a; a_graced := a_graced a;
  a_taken := a_taken a ++ ((λ om, (FromId om.1, om.2)) <$> obs); a_reports := a_reports a;
  a_final := a_final a |}.

Lemma leads_observations env obs : ∀ a tasks w n,
  leads a tasks w n → Forall observes obs →
  Z.of_nat (length (a_taken a) + length obs) ≤ u64 (2 * pg_f g + 1) →
  ∃ n', deliver_all env obs.*1 n = (Done tt, n') ∧ leads (all_taken obs a) tasks w n'.
Proof.
  induction obs as [|om obs IH]; intros a tasks w n Hn Hobs Hlen.
  { exists n. split; [done|]. unfold all_taken. cbn. rewrite app_nil_r. by destruct a. }
  apply Forall_cons in Hobs as [Hom Hobs]. cbn [length] in Hlen.
  destruct (leads_observation env om a tasks w n Hn Hom) as (n1 & Hrun & Hn1).
  assert ((u64 (2 * pg_f g + 1) <? u64 (Z.of_nat (length (a_taken a ++ [(FromId om.1, om.2)])))) = false) as Henough.
  { apply Z.ltb_ge. rewrite length_app. cbn [length].
    pose proof (u64_le (Z.of_nat (length (a_taken a) + 1)) ltac:(lia)). lia. }
  unfold observation_taken in Hn1. rewrite Henough, app_nil_r, orb_false_r in Hn1.
  destruct (IH _ tasks w n1 Hn1 Hobs) as (n2 & Hrun2 & Hn2).
  { cbn [a_taken]. rewrite length_app. cbn [length]. lia. }
  exists n2. split.
  - cbn [fmap list_fmap deliver_all]. unfold mbind, proc_bind. by rewrite Hrun.
  - unfold all_taken in *. cbn in Hn2 |- *. by rewrite <-(assoc_L (++)) in Hn2.
Qed.

(** A report, when it is not the last one. *)
Definition all_reported (reps : list (DecodedMsg * ReportRes)) a : round_state := {|
  a_phase := a_phase a; a_graced := a_graced a; a_taken := a_taken a;
  a_reports := a_reports a ++ ((λ rm, attested rm.1 rm.2) <$> reps); a_final := a_final a |}.

Lemma shows_report a n rs r :
  shows g a n → ls_reports (leaderState (re n)) = zero_report :: rs →
  shows g {| a_phase := a_phase a; a_graced := a_graced a; a_taken := a_taken a;
             a_reports := rs ++ [r]; a_final := a_final a |} (with_reports (zero_report :: rs ++ [r]) n).
Proof. intros [] ?. by split. Qed.

Lemma leads_reported a tasks w n r :
  leads a tasks w n →
  leads {| a_phase := a_phase a; a_graced := a_graced a; a_taken := a_taken a;
           a_reports := a_reports a ++ [r]; a_final := a_final a |} tasks w
    (with_reports (zero_report :: a_reports a ++ [r]) n).
Proof.
  intros [[] [] ? ? ? ? ? ? ? Hs <- <-]. split; try (done || by split).
  apply shows_report; [done|by destruct Hs].
Qed.

Lemma leads_reports env reps : ∀ a tasks w n,
  leads a tasks w n → Forall reports_on reps →
  Z.of_nat (length (a_reports a) + length reps) < i64 (pg_n g) - 1 →
  ∃ n', deliver_all env reps.*1 n = (Done tt, n') ∧ leads (all_reported reps a) tasks w n'.
Proof.
  induction reps as [|[msg m] reps IH]; intros a tasks w n Hn Hreps Hlen.
  { exists n. split; [done|]. unfold all_reported. cbn. rewrite app_nil_r. by destruct a. }
  apply Forall_cons in Hreps as [(Hd & Ha & Hc & _) Hreps]. cbn [length fst snd] in *.
  pose proof (leads_of_round _ _ _ _ _ Hn Hc) as Hr. pose proof (leads_shows _ _ _ _ Hn) as Hs.
  pose proof (leads_reported _ _ _ _ (attested msg m) Hn) as Hn1.
  destruct (IH _ tasks w _ Hn1 Hreps) as (n2 & Hrun2 & Hn2).
  { cbn [a_reports]. rewrite length_app. cbn [length]. lia. }
  exists n2. split.
  - cbn [fmap list_fmap deliver_all fst]. unfold mbind, proc_bind.
    rewrite (report_taken_eq env msg m n (a_reports a) (leads_open _ _ _ _ Hn) Hd); [|done|done|by destruct Hs].
    rewrite (shows_globals _ _ _ Hs). destruct (Z.leb_spec (i64 (pg_n g) - 1)
      (Z.of_nat (length (a_reports a ++ [attested msg m])))) as [Hle|_]; [|done].
    rewrite length_app in Hle. cbn [length] in Hle. lia.
  - unfold all_reported in *. cbn in Hn2 |- *. by rewrite <-(assoc_L (++)) in Hn2.
Qed.

Lemma leads_last_report env rm a tasks w n fr :
  leads a tasks w n → reports_on rm →
  i64 (pg_n g) - 1 ≤ Z.of_nat (length (a_reports a ++ [attested rm.1 rm.2])) →
  assembleFinalReport (site env) (i64 (pg_f g)) (zero_report :: a_reports a ++ [attested rm.1 rm.2]) = Some fr →
  ∃ n', ProcessMessage env rm.1 n = (Done None, n') ∧
    leads {| a_phase := PhaseFinal; a_graced := a_graced a; a_taken := a_taken a;
             a_reports := a_reports a ++ [attested rm.1 rm.2]; a_final := Some fr |}
      (tasks ++ [TPhase PhaseFinal]) w n'.
Proof.
  destruct rm as [msg m]. intros Hn (Hd & Ha & Hc & _) Hlen Hfr. cbn [fst snd] in *.
  pose proof (leads_of_round _ _ _ _ _ Hn Hc) as Hr. pose proof (leads_shows _ _ _ _ Hn) as Hs.
  rewrite (report_taken_eq env msg m n (a_reports a) (leads_open _ _ _ _ Hn) Hd); [|done|done|by destruct Hs].
  rewrite (shows_globals _ _ _ Hs), Hfr. apply Z.leb_le in Hlen. rewrite Hlen.
  pose proof (leads_reported _ _ _ _ (attested msg m) Hn) as Hn1. set (n1 := with_reports _ _) in *.
  assert (Hn2 : leads {| a_phase := a_phase a; a_graced := a_graced a; a_taken := a_taken a;
    a_reports := a_reports a ++ [attested msg m]; a_final := Some fr |} tasks w (with_final fr n1)).
  { destruct Hn1 as [[] [] ? ? ? ? ? ? ? [] <- <-]. split; try (done || by split). }
  destruct (leads_send PhaseFinal _ _ _ (λ _, mret (None : option error)) _ Hn2) as (n' & -> & Hn');
    [done|done|]. by exists n'.
Qed.

(** *** Goroutines *)
Context (self_utf8 : is_utf8 (si_ID s_info) = true) (leader_utf8 : is_utf8 l = true) (e_u64 : is_u64 e).

Lemma leads_next a t ts w n :
  leads a (t :: ts) w n →
  (∀ env, next_task env n = run_task env t (set_spawned ts n)) ∧ leads a ts w (set_spawned ts n) ∧
  (t = TPhase PhaseGrace ∨ t = TGraceOver → a_graced a = true).
Proof.
  intros [[] [] ? ? ? ? ? ? ? Hs Ht <-]. split; [intros env; unfold next_task; by rewrite Ht|].
  pose proof (shows_grace _ _ _ Hs) as Hg. rewrite Ht, !elem_of_cons in Hg. split.
  - split; try (done || by split). destruct Hs. split; try done. cbn. tauto.
  - intros [-> | ->]; tauto.
Qed.

Lemma leads_accept a ts w b n : leads a ts w n → leads a ts (accept b w) (set_below (accept b (below n)) n).
Proof. intros [[] [] ? ? ? ? ? ? ? [] <- <-]. by split. Qed.

Lemma leads_spawn a ts w t n :
  leads a ts w n → (t = TPhase PhaseGrace ∨ t = TGraceOver → a_graced a = true) →
  leads a (ts ++ [t]) w (spawn t n).
Proof.
  intros [[] [] ? ? ? ? ? ? ? Hs <- <-] Ht. split; try (done || by split).
  pose proof (shows_grace _ _ _ Hs) as Hg. destruct Hs. split; try done. cbn.
  rewrite !elem_of_app, !list_elem_of_singleton. intros [[?|<-]|[?|<-]]; auto.
Qed.

Lemma common_here a ts w n : leads a ts w n → current_common (re n) = the_round e l.
Proof. intros []. unfold current_common, the_round. by rewrite leads_epoch0, leads_round0, leads_leader0. Qed.

Lemma round_ok : common_ok (the_round e l).
Proof. split; [done|]. by split. Qed.

(** What the leader broadcasts. *)
Definition announces (headers : Z) (v : goval) (sig : Signature) (b : bytes) : Prop :=
  rpc_bytes (si_ID s_info) headers TopicReporter v sig = Ok b.

Lemma announces_total headers v sig data :
  0 ≤ headers < 2 ^ 8 → Encode v = Ok data → ∃ b, announces headers v sig b.
Proof. intros Hh Hd. by eapply rpc_bytes_total. Qed.

Lemma run_build {A} headers v sig b (k : bytes → proc (node net) A) a ts w n :
  leads a ts w n → announces headers v sig b →
  (build_or_panic headers TopicReporter v sig ≫= k) n = k b n.
Proof.
  intros Hn Hb. unfold build_or_panic. rewrite proc_bind_assoc, run_gets_re, (leads_self _ _ _ _ Hn).
  by rewrite Hb.
Qed.

(** The request for observations names no job: nothing is scheduled. *)
Definition first_request : ObserveReq := {| oq_common := the_round e l; Jobs := None |}.

Lemma leads_observe env ts w n a :
  leads a (TPhase PhaseObserve :: ts) w n →
  ∃ b n', announces MessageObserveReq (VObserveReq first_request) no_signature b ∧
    next_task env n = (Done tt, n') ∧ leads (with_phase PhaseObserve a) ts (accept b w) n'.
Proof.
  intros Hn. destruct (leads_next _ _ _ _ _ Hn) as (-> & Hn1 & _). set (n1 := set_spawned ts n) in *.
  destruct (JSONCodec_Encode_total (VObserveReq first_request)) as [data Hd];
    [split; [apply round_ok|by constructor]|].
  destruct (announces_total MessageObserveReq (VObserveReq first_request) no_signature data) as [b Hb];
    [done|exact Hd|]. exists b. eexists. split; [exact Hb|].
  cbn [run_task]. unfold handleObserve. run.
  rewrite (common_here _ _ _ _ Hn1). unfold GetJobInfosForCurrRound. rewrite (leads_jobs _ _ _ _ Hn1).
  cbn [default id]. rewrite lookup_empty. cbn [default map append].
  rewrite (run_build _ _ _ b _ _ _ _ _ Hn1 Hb), run_broadcast by apply Hn1.
  split; [reflexivity|]. apply (leads_accept _ _ _ b) in Hn1. revert Hn1.
  generalize (set_below (accept b (below n1)) n1). intros n2 [[] [] ? ? ? ? ? ? ? [] <- <-]. by split.
Qed.
Lemma leads_grace env ts w n a :
  leads a (TPhase PhaseGrace :: ts) w n →
  ∃ n', next_task env n = (Done tt, n') ∧ leads a (ts ++ [TGraceOver]) w n'.
Proof.
  intros Hn. destruct (leads_next _ _ _ _ _ Hn) as (-> & Hn1 & Hg).
  eexists. split; [reflexivity|]. apply leads_spawn; auto.
Qed.

Lemma leads_grace_over env ts w n a :
  leads a (TGraceOver :: ts) w n →
  ∃ n', next_task env n = (Done tt, n') ∧ leads (with_phase PhaseReport a) (ts ++ [TPhase PhaseReport]) w n'.
Proof.
  intros Hn. destruct (leads_next _ _ _ _ _ Hn) as (-> & Hn1 & _). cbn [run_task].
  destruct (leads_send PhaseReport _ _ _ mret _ Hn1) as (n' & Hs & Hn'); [done|done|].
  exists n'. split; [|done]. by rewrite proc_bind_ret in Hs.
Qed.

(** The observations sent round, and the request for reports on them. *)
Definition sent_round (data : bytes) : BroadcastObservationMap :=
  {| om_common := the_round e l; om_Observations := Some data |}.
Definition second_request (data : bytes) : ReportReq :=
  {| rq_common := the_round e l; rq_Observations := Some data |}.

Lemma leads_collect env ts w n a :
  leads a (TPhase PhaseReport :: ts) w n → observations_ok (observed_of (a_taken a)) →
  ∃ data b n', MarshalJSON (observed_of (a_taken a)) = Ok data ∧
    announces MessageObservationMap (VBroadcastObservationMap (sent_round data)) no_signature b ∧
    next_task env n = (Done tt, n') ∧ leads a (ts ++ [TReportReq data]) (accept b w) n'.
Proof.
  intros Hn Hok. destruct (leads_next _ _ _ _ _ Hn) as (-> & Hn1 & _). set (n1 := set_spawned ts n) in *.
  destruct (MarshalJSON_total _ Hok) as [data Hdata].
  destruct (JSONCodec_Encode_total (VBroadcastObservationMap (sent_round data))) as [d Hd];
    [split; [apply round_ok|done]|].
  destruct (announces_total MessageObservationMap (VBroadcastObservationMap (sent_round data)) no_signature d)
    as [b Hb]; [done|exact Hd|]. exists data, b. eexists. split; [done|]. split; [exact Hb|].
  cbn [run_task]. unfold handleReport. run. rewrite (shows_observed _ _ _ (leads_shows _ _ _ _ Hn1)), Hdata.
  unfold broadcastObservationMap. rewrite proc_bind_assoc. run.
  rewrite (common_here _ _ _ _ Hn1), (leads_self _ _ _ _ Hn1). fold (sent_round data).
  unfold announces in Hb. rewrite Hb, proc_bind_assoc, run_broadcast by apply Hn1.
  split; [reflexivity|]. apply leads_spawn; [by apply leads_accept|by intros [?|?]].
Qed.

Lemma leads_request env ts w n a data :
  leads a (TReportReq data :: ts) w n →
  ∃ b n', announces MessageReportReq (VReportReq (second_request data)) no_signature b ∧
    next_task env n = (Done tt, n') ∧ leads a ts (accept b w) n'.
Proof.
  intros Hn. destruct (leads_next _ _ _ _ _ Hn) as (-> & Hn1 & _). set (n1 := set_spawned ts n) in *.
  destruct (JSONCodec_Encode_total (VReportReq (second_request data))) as [d Hd];
    [split; [apply round_ok|done]|].
  destruct (announces_total MessageReportReq (VReportReq (second_request data)) no_signature d) as [b Hb];
    [done|exact Hd|]. exists b. eexists. split; [exact Hb|]. cbn [run_task]. unfold sendReportReq. run.
  rewrite (common_here _ _ _ _ Hn1). fold (second_request data).
  rewrite (run_build _ _ _ b _ _ _ _ _ Hn1 Hb). split; [|by apply leads_accept].
  rewrite <-(proc_bind_ret (broadcast b)), run_broadcast by apply Hn1. done.
Qed.

Definition final_round (fr : FinalReport) : BroadcastFinalReport :=
  {| bf_common := the_round e l; bf_FinalReport := fr |}.

Lemma leads_final env ts w n a fr :
  leads a (TPhase PhaseFinal :: ts) w n → a_final a = Some fr → finalreport_typed fr →
  (∀ d, ∃ sig, Sign (rand env) key d = Ok sig) →
  ∃ data sig b n', Encode (VBroadcastFinalReport (final_round fr)) = Ok data ∧
    Sign (rand env) key data = Ok sig ∧
    announces MessageFinalReport (VBroadcastFinalReport (final_round fr)) sig b ∧
    next_task env n = (Done tt, n') ∧ leads a ts (accept b w) n'.
Proof.
  intros Hn Hfr Hty Hsign. destruct (leads_next _ _ _ _ _ Hn) as (-> & Hn1 & _).
  set (n1 := set_spawned ts n) in *.
  destruct (typed_enc _ _ (go_with_typed "finalReport" go_finalreport finalreport_typed
    Build_BroadcastFinalReport bf_common bf_FinalReport go_finalreport_typed
    ltac:(done) ltac:(done)) (final_round fr)) as [j Hj]; [split; [apply round_ok|done]|].
  assert (Encode (VBroadcastFinalReport (final_round fr)) = Ok (print j)) as Hd.
  { cbn [Encode JSONCodec JSONCodec_Encode]. unfold Marshal, go_bfinalreport. by rewrite Hj. }
  destruct (Hsign (print j)) as [sig Hs].
  destruct (announces_total MessageFinalReport (VBroadcastFinalReport (final_round fr)) sig (print j))
    as [b Hb]; [done|exact Hd|]. exists (print j), sig, b. eexists. split; [exact Hd|].
  split; [exact Hs|]. split; [exact Hb|]. cbn [run_task]. unfold handleFinal. run.
  rewrite (shows_final _ _ _ (leads_shows _ _ _ _ Hn1)), Hfr, (common_here _ _ _ _ Hn1).
  fold (final_round fr). unfold broadcast_signed. rewrite Hd.
  unfold SignMessage. rewrite !proc_bind_assoc, run_gets_re, (leads_key _ _ _ _ Hn1), Hs, run_ret.
  rewrite proc_bind_assoc, (run_build _ _ _ b _ _ _ _ _ Hn1 Hb), proc_bind_assoc, run_broadcast by apply Hn1.
  split; [reflexivity|]. by apply leads_accept.
Qed.

(** *** The start *)
Definition started_leader (events : fifo) (w : net) (reg : gmap string Job) : node net := {|
  re := set_schedule (Some events) PacemakerRegistry (Some ∅)
          (set_mu_ready false true (NewReportingEngine true e l s_info g key 1));
  below := w; pm_registry := reg; listening := Some 1%nat; closed := ∅; next_chan := 2;
  spawned := [TPhase PhaseObserve] |}.

Lemma init_leader w reg :
  initReporter (net := net) true e l s_info g key (fresh_node key w reg) =
  (Done tt, {| re := NewReportingEngine true e l s_info g key 1; below := w; pm_registry := reg;
               listening := None; closed := ∅; next_chan := 2; spawned := [] |}).
Proof. reflexivity. Qed.

Lemma boot_leader events w reg :
  (length events < 20)%nat →
  boot true e l s_info g key events (fresh_node key w reg) = (Done tt, started_leader events w reg).
Proof.
  intros Hev. unfold boot, mbind at 1, proc_bind at 1. rewrite init_leader. unfold Start. run.
  cbn [re set_re set_schedule isLeader NewReportingEngine].
  rewrite schedule_rounds_few by (unfold MAX_ROUNDS; Z.to_euclidean_division_equations; lia).
  rewrite proc_bind_assoc, run_lift_done, proc_bind_assoc, run_mod_re. reflexivity.
Qed.

Lemma started_leads events w reg :
  leads (round_start true) [TPhase PhaseObserve] w (started_leader events w reg).
Proof.
  split; try reflexivity.
  - by split.
  - split; [reflexivity|]. apply (not_elem_of_empty (C := gset nat)).
  - split; try reflexivity. cbn. rewrite !list_elem_of_singleton. intros [[=]|[=]].
Qed.

(** *** The two halves of a round *)
Lemma run_done {A B} (m : proc (node net) A) (k : A → proc (node net) B) n x n' :
  m n = (Done x, n') → (m ≫= k) n = k x n'.
Proof. intros Hm. unfold mbind, proc_bind. by rewrite Hm. Qed.

Lemma deliver_last env msgs msg n n' :
  deliver_all env msgs n = (Done tt, n') →
  deliver_all env (msgs ++ [msg]) n = (ProcessMessage env msg;; mret tt) n'.
Proof.
  revert n. induction msgs as [|m msgs IH]; intros n; cbn [app deliver_all].
  - by intros [= ->].
  - intros (r & n1 & Hm & Hms)%proc_bind_done. rewrite (run_done _ _ _ _ _ Hm). by apply IH.
Qed.

Definition from_all (obs : list (DecodedMsg * ObserveResp)) : list (string * ObserveResp) :=
  (λ om, (FromId om.1, om.2)) <$> obs.
Definition all_attested (reps : list (DecodedMsg * ReportRes)) : list Report :=
  (λ rm, attested rm.1 rm.2) <$> reps.

Lemma from_all_ok obs : Forall observes obs → observations_ok (observed_of (from_all obs)).
Proof.
  intros Hobs. apply observed_ok, Forall_fmap. eapply Forall_impl; [exact Hobs|].
  intros [msg m] (_ & Ha & _ & _ & Hm). split; [|exact Hm]. by eapply authentic_utf8.
Qed.

(** Enough observations: one grace phase. *)
Lemma leads_enough env obs w n :
  leads (round_start true) [] w n → Forall observes obs → 0 ≤ pg_f g → 2 * pg_f g + 2 < 2 ^ 63 →
  length obs = Z.to_nat (2 * pg_f g + 2) →
  ∃ n', deliver_all env obs.*1 n = (Done tt, n') ∧
    leads {| a_phase := PhaseGrace; a_graced := true; a_taken := from_all obs; a_reports := [];
             a_final := None |} [TPhase PhaseGrace] w n'.
Proof.
  intros Hn Hobs Hf Hf2 Hlen. destruct (exists_last (l := obs)) as (obs' & om & ->); [by intros ->; simpl in Hlen; lia|].
  rewrite length_app in Hlen. cbn [length] in Hlen. apply Forall_app in Hobs as [Hobs [Hom _]%Forall_cons].
  assert (u64 (2 * pg_f g + 1) = 2 * pg_f g + 1) as Hu by (apply u64_id; unfold is_u64; lia).
  destruct (leads_observations env obs' _ _ w n Hn Hobs) as (n1 & Hrun1 & Hn1).
  { cbn [a_taken round_start length]. rewrite Hu. lia. }
  destruct (leads_observation env om _ _ w n1 Hn1 Hom) as (n2 & Hrun2 & Hn2).
  exists n2. rewrite fmap_app. change ([om].*1) with [om.1]. split; [by rewrite (deliver_last _ _ _ _ _ Hrun1), (run_done _ _ _ _ _ Hrun2)|].
  unfold observation_taken in Hn2. rewrite Hu, u64_id in Hn2
    by (unfold is_u64; cbn; rewrite length_app, length_fmap; cbn; lia).
  unfold from_all. rewrite fmap_app. cbn [all_taken a_taken round_start app fmap list_fmap] in Hn2 |- *.
  destruct (Z.ltb_spec (2 * pg_f g + 1) (Z.of_nat (length (((λ om, (FromId om.1, om.2)) <$> obs') ++ [(FromId om.1, om.2)]))))
    as [_|Hle]; [exact Hn2|]. rewrite length_app, length_fmap in Hle. cbn [length] in Hle. lia.
Qed.

(** Enough reports: the final one. *)
Lemma leads_finished env reps a w n fr :
  leads a [] w n → a_reports a = [] → Forall reports_on reps → 2 ≤ pg_n g < 2 ^ 63 →
  length reps = Z.to_nat (pg_n g - 1) →
  assembleFinalReport (site env) (i64 (pg_f g)) (zero_report :: all_attested reps) = Some fr →
  ∃ n', deliver_all env reps.*1 n = (Done tt, n') ∧
    leads {| a_phase := PhaseFinal; a_graced := a_graced a; a_taken := a_taken a;
             a_reports := all_attested reps; a_final := Some fr |} [TPhase PhaseFinal] w n'.
Proof.
  intros Hn Ha Hreps Hg Hlen Hfr. destruct (exists_last (l := reps)) as (reps' & rm & ->); [by intros ->; simpl in Hlen; lia|].
  rewrite length_app in Hlen. cbn [length] in Hlen. apply Forall_app in Hreps as [Hreps [Hrm _]%Forall_cons].
  assert (i64 (pg_n g) = pg_n g) as Hi by (apply i64_id; unfold is_i64; lia).
  destruct (leads_reports env reps' _ _ w n Hn Hreps) as (n1 & Hrun1 & Hn1).
  { rewrite Ha, Hi. cbn [length]. lia. }
  unfold all_attested in *. rewrite fmap_app in Hfr. rewrite !fmap_app. cbn [fmap list_fmap] in Hfr |- *.
  destruct (leads_last_report env rm _ _ w n1 fr Hn1 Hrm) as (n2 & Hrun2 & Hn2).
  { unfold all_reported. cbn [a_reports]. rewrite Ha, Hi, length_app. cbn [app length]. rewrite length_fmap. lia. }
  { unfold all_reported. cbn [a_reports]. rewrite Ha. exact Hfr. }
  exists n2. change ([rm].*1) with [rm.1]. split; [by rewrite (deliver_last _ _ _ _ _ Hrun1), (run_done _ _ _ _ _ Hrun2)|].
  unfold all_reported in Hn2. cbn [a_reports a_graced a_taken] in Hn2. by rewrite Ha in Hn2.
Qed.

(** The final report of well-typed reports is well typed. *)
Definition report_typed (r : Report) : Prop :=
  is_utf8 (from r) = true ∧ entries_ok (λ x, any_ok x = true) (reports r).

Lemma final_typed s f rs fr :
  0 ≤ f → Forall report_typed rs → assembleFinalReport s f rs = Some fr → finalreport_typed fr.
Proof.
  intros Hf Hrs Ha. destruct (assemble_inv s f Hf rs fr Ha) as (Hval & Hsig & _).
  pose proof (proj1 (Forall_forall _ _) Hrs) as Hty. split.
  - intros j v Hv. destruct (Hval j v Hv) as (h & Hh & ->).
    destruct (final_value_reported s f Hf rs j h Hh) as (r & Hr & Hl & _).
    destruct (Hty r Hr) as [_ Hok]. exact (Hok j _ Hl).
  - apply Forall_forall. intros sg Hin. destruct (Hsig sg Hin) as (j & h & Hh & Hfs).
    apply final_signers_elem in Hfs as (r & j' & Hr & -> & _). by destruct (Hty r Hr).
Qed.

Lemma reports_typed reps :
  Forall reports_on reps → Forall report_typed (zero_report :: all_attested reps).
Proof.
  intros Hreps. constructor; [split; [done|apply map_Forall_empty]|].
  apply Forall_fmap. eapply Forall_impl; [exact Hreps|].
  intros [msg m] (_ & Ha & _ & _ & Hm). split; [|exact Hm]. by eapply authentic_utf8.
Qed.

(** Up to the request for reports. *)
Lemma leads_first_half env obs events w reg :
  0 ≤ pg_f g → 2 * pg_f g + 2 < 2 ^ 63 → Forall observes obs →
  length obs = Z.to_nat (2 * pg_f g + 2) →
  let n := started_leader events w reg in
  ∃ data b1 b2 b3 n',
    MarshalJSON (observed_of (from_all obs)) = Ok data ∧
    announces MessageObserveReq (VObserveReq first_request) no_signature b1 ∧
    announces MessageObservationMap (VBroadcastObservationMap (sent_round data)) no_signature b2 ∧
    announces MessageReportReq (VReportReq (second_request data)) no_signature b3 ∧
    leads {| a_phase := PhaseReport; a_graced := true; a_taken := from_all obs; a_reports := [];
             a_final := None |} [] (accept b3 (accept b2 (accept b1 w))) n' ∧
    ∀ reps, leader_round env obs.*1 reps n = (deliver_all env reps;; next_task env) n'.
Proof.
  intros Hf Hf2 Hobs Hlen n.
  destruct (leads_observe env _ _ _ _ (started_leads events w reg)) as (b1 & n1 & Hb1 & Hr1 & Hn1).
  destruct (leads_enough env obs _ _ Hn1 Hobs Hf Hf2 Hlen) as (n2 & Hr2 & Hn2).
  destruct (leads_grace env _ _ _ _ Hn2) as (n3 & Hr3 & Hn3).
  destruct (leads_grace_over env _ _ _ _ Hn3) as (n4 & Hr4 & Hn4).
  destruct (leads_collect env _ _ _ _ Hn4 (from_all_ok obs Hobs)) as (data & b2 & n5 & Hd & Hb2 & Hr5 & Hn5).
  destruct (leads_request env _ _ _ _ _ Hn5) as (b3 & n6 & Hb3 & Hr6 & Hn6).
  exists data, b1, b2, b3, n6. do 4 (split; [done|]). split; [exact Hn6|]. intros reps.
  unfold leader_round. rewrite (run_done _ _ _ _ _ Hr1), (run_done _ _ _ _ _ Hr2), (run_done _ _ _ _ _ Hr3),
    (run_done _ _ _ _ _ Hr4), (run_done _ _ _ _ _ Hr5). by rewrite (run_done _ _ _ _ _ Hr6).
Qed.

(** C5: a round that goes well completes. A leader that is started, is sent
    2f+2 observation responses and then n-1 reports, each signed by its sender
    for this round, and whose goroutines run in between, makes a final report
    that has every job on which f+1 of the reports agree, with the value they
    agree on; and it has broadcast exactly four messages: the request for
    observations (of no job, as none is ever scheduled), the observations it
    was sent, the request for reports on them, and the final report under its
    signature. *)
Theorem round_completes env events w reg obs reps j h :
  (length events < 20)%nat → 0 ≤ pg_f g → 2 * pg_f g + 2 < 2 ^ 63 → 2 ≤ pg_n g < 2 ^ 63 →
  Forall observes obs → length obs = Z.to_nat (2 * pg_f g + 2) →
  Forall reports_on reps → length reps = Z.to_nat (pg_n g - 1) →
  (∀ h', pg_f g + 1 ≤ Z.of_nat (length (supporters j h' (all_attested reps))) ↔ h' = h) →
  (∀ d, ∃ sig, Sign (rand env) key d = Ok sig) →
  ∃ n n' fr v data b1 b2 b3 b4 sig,
    boot true e l s_info g key events (fresh_node key w reg) = (Done tt, n) ∧
    leader_round env obs.*1 reps.*1 n = (Done tt, n') ∧ reachable n n' ∧
    Phase (leaderState (re n')) = PhaseFinal ∧ finalReport (leaderState (re n')) = Some fr ∧
    entries (fr_Report fr) !! j = Some v ∧ value_hash v = Some h ∧
    below n' = accept b4 (accept b3 (accept b2 (accept b1 w))) ∧
    MarshalJSON (observed_of (from_all obs)) = Ok data ∧
    announces MessageObserveReq (VObserveReq first_request) no_signature b1 ∧
    announces MessageObservationMap (VBroadcastObservationMap (sent_round data)) no_signature b2 ∧
    announces MessageReportReq (VReportReq (second_request data)) no_signature b3 ∧
    announces MessageFinalReport (VBroadcastFinalReport (final_round fr)) sig b4.
Proof.
  intros Hev Hf Hf2 Hg Hobs Hlo Hreps Hlr Hh Hsign. exists (started_leader events w reg).
  destruct (leads_first_half env obs events w reg Hf Hf2 Hobs Hlo)
    as (data & b1 & b2 & b3 & n1 & Hd & Hb1 & Hb2 & Hb3 & Hn1 & Hrun).
  assert (i64 (pg_f g) = pg_f g) as Hi by (apply i64_id; unfold is_i64; lia).
  destruct (assemble_complete (site env) (pg_f g) Hf (zero_report :: all_attested reps) j h)
    as (fr & Hfr & v & Hv); [rewrite supporters_zero; by apply Hh|].
  destruct (leads_finished env reps _ _ _ fr Hn1 eq_refl Hreps Hg Hlr) as (n2 & Hr2 & Hn2);
    [by rewrite Hi|].
  pose proof (final_typed _ _ _ _ Hf (reports_typed reps Hreps) Hfr) as Hty.
  destruct (leads_final env _ _ _ _ fr Hn2 eq_refl Hty Hsign) as (d & sig & b4 & n3 & _ & _ & Hb4 & Hr3 & Hn3).
  exists n3, fr, v, data, b1, b2, b3, b4, sig. split; [by apply boot_leader|].
  split; [by rewrite Hrun, (run_done _ _ _ _ _ Hr2)|]. split.
  { pose proof (stepped_round env obs.*1 reps.*1 (started_leader events w reg)) as Hst.
    by rewrite Hrun, (run_done _ _ _ _ _ Hr2), Hr3 in Hst. }
  pose proof (leads_shows _ _ _ _ Hn3) as Hs.
  split; [by rewrite (shows_phase _ _ _ Hs)|]. split; [by rewrite (shows_final _ _ _ Hs)|].
  split; [done|]. split; [|split; [apply Hn3|done]].
  destruct (assemble_inv _ _ Hf _ fr Hfr) as (Hval & _). destruct (Hval j v Hv) as (h' & Hh' & ->).
  destruct (final_value_reported (site env) _ Hf _ j h' Hh') as (_ & _ & _ & ->).
  rewrite supporters_zero in Hh'. by apply Hh in Hh' as ->.
Qed.
End leader.

(** The server takes every broadcast whose transport does. *)
Lemma server_accepts `{Transport T} (taken : bytes → T → T) :
  (∀ b t, t_Broadcast b t = (Done tt, taken b t)) →
  ∀ b (s : Server T), ∃ err,
    BroadcastMsg b s = (Done err, set_transporter (taken b (transporter s)) s).
Proof.
  intros Ht b s. exists None. cbn. unfold Server_BroadcastMsg, on_transport. proc_simpl. by rewrite Ht.
Qed.
