(* ===== verification/Travel.v ===== *)
(** * Jobs on their way to the followers

    A leader sends the parameters of a job as a structure.  The field has type
    [interface{}], so a follower reads maps, lists, strings and float64
    instead, writes these as JSON again and reads the parameters from that
    ([NewJobFromInfo]).  What survives this, and that the jobs of a round
    do. *)

From S2P Require Import Prelude Bytes Crypto Strconv Json Integers Floats GoJson Jobs Rpc Transport Server.
From S2P Require Import Observations Assembly Reporter HandlerSpec Exchange Completion.

(** ** Through interface{} *)

(** What is written, read as an [interface{}] and written again is read as
    what it was. *)
Record survives {A} (g : gotype A) (P : A → Prop) (d : Z) : Prop := {
  survive a j : P a → enc g a = Ok j → wf d j = true ∧
    ∃ v j', any_of_json j = Ok v ∧ any_to_json v = Ok j' ∧ wf d j' = true ∧ dec g (zero g) j' = Ok a
}.
Arguments survive {A g P d} _ {a j} _ _.

Lemma string_survives d : survives go_string (λ s, is_utf8 s = true) d.
Proof. split. intros s j Hs [= <-]. split; [done|]. by exists (AStr s), (JStr s). Qed.

Lemma address_survives d : survives go_address Address.valid d.
Proof.
  split. intros a j Ha [= <-].
  assert (is_utf8 (Address.MarshalText a) = true) as Hu by apply (hex_utf8 a).
  split; [done|]. exists (AStr (Address.MarshalText a)), (JStr (Address.MarshalText a)).
  split_and!; [done..|]. cbn [dec go_address]. unfold Address.UnmarshalText, Address.MarshalText, Address.String.
  rewrite strip_0x, Hex.DecodeString_EncodeToString. unfold Address.valid in Ha. by rewrite Ha.
Qed.

Lemma float_survives d : survives go_float float_ok d.
Proof.
  split. intros f j (lit & Hl & Hw & Hp)%json_float_reads. cbn [enc go_float]. rewrite Hl. intros [= <-].
  split; [done|]. exists (AFloat f), (JNum lit). cbn. rewrite Hp, Hl. done.
Qed.

(** A 64-bit number does when a float64 can hold it. *)
Lemma uint_survives d : survives (go_uint 64) (λ z, 0 ≤ z < 2 ^ 53) d.
Proof.
  split. intros z j Hz [= <-]. split; [apply wf_Itoa|].
  destruct (int_through_float z Hz) as (f & Hp & Hl). exists (AFloat f), (JNum (Itoa z)).
  cbn. rewrite Hp, Hl. split_and!; [done..|apply wf_Itoa|]. by rewrite parse_uint_Itoa by lia.
Qed.

Lemma slice_survives {A} (g : gotype A) P d :
  0 < d → survives g P (d - 1) → survives (go_slice g) (λ s, Forall P (elems s)) d.
Proof.
  intros Hd Hg. split. intros [l|] j Hl; [|by intros [= <-]; split; [|exists ANil, JNull]].
  cbn [enc go_slice]. rewrite result_bind_ok. intros (js & Hjs & [= <-]). change (Forall P l) in Hl.
  enough (forallb (wf (d - 1)) js = true ∧ ∃ vs js', result_map (λ r, r) (map any_of_json js) = Ok vs ∧
    result_map (λ r, r) (map any_to_json vs) = Ok js' ∧ forallb (wf (d - 1)) js' = true ∧
    result_map (dec g (zero g)) js' = Ok l) as (Hw & vs & js' & Hvs & Hjs' & Hw' & Hdec).
  { cbn [wf]. rewrite Hw. destruct (Z.ltb_spec 0 d); [|lia]. split; [done|]. exists (AArr vs), (JArr js').
    cbn [any_of_json any_to_json dec go_slice wf]. cbn. rewrite Hvs, Hjs', Hw', Hdec.
    destruct (Z.ltb_spec 0 d); [|lia]. done. }
  revert js Hjs. induction Hl as [|a l' Ha Hl IH]; cbn [result_map]; intros js.
  { intros [= <-]. split; [done|]. by exists [], []. }
  rewrite result_bind_ok. intros (j & Hj & Hjs). apply result_bind_ok in Hjs as (js1 & Hjs & [= <-]).
  destruct (survive Hg Ha Hj) as (Hw & v & j' & Hv & Hj' & Hw' & Hdec).
  destruct (IH js1 Hjs) as (Hws & vs & js' & Hvs & Hjs' & Hws' & Hdecs).
  cbn [forallb]. rewrite Hw, Hws. split; [done|]. exists (v :: vs), (j' :: js').
  cbn [map result_map forallb]. rewrite Hv, Hvs, Hj', Hjs', Hw', Hws', Hdec. cbn. by rewrite Hdecs.
Qed.

Create HintDb survives.
#[export] Hint Resolve string_survives address_survives float_survives uint_survives slice_survives : survives.
#[export] Hint Extern 5 (_ < _) => lia : survives.

(** What one field gives. *)
Lemma field_survives {A} name (g : gotype A) P d a kj :
  survives g P d → P a → enc_field name g a = Ok kj →
  ∃ j v j', kj = (name, j) ∧ wf d j = true ∧ any_of_json j = Ok v ∧ any_to_json v = Ok j' ∧
    wf d j' = true ∧ dec g (zero g) j' = Ok a.
Proof.
  intros Hg Ha. unfold enc_field. rewrite result_bind_ok. intros (j & Hj & [= <-]).
  destruct (survive Hg Ha Hj) as (? & v & j' & ?). by exists j, v, j'.
Qed.

(** Take a structure, nested at depth [d], apart into its fields, go through
    the map of their values, and read it back. *)
Ltac open_survivors d :=
  repeat match goal with
  | H : enc_object _ = Ok _ |- _ => unfold enc_object in H
  | H : result_map _ (_ :: _) = Ok _ |- _ => cbn [result_map] in H
  | H : result_map _ [] = Ok _ |- _ => cbn [result_map] in H
  | H : (_ ≫= _) = Ok _ |- _ => apply result_bind_ok in H as (? & ? & ?)
  | H : Ok _ = Ok _ |- _ => injection H as H; subst
  | H : enc_field _ _ _ = Ok _ |- _ =>
      eapply (field_survives _ _ _ (d - 1)) in H as (? & ? & ? & -> & ? & ? & ? & ? & ?);
        [|solve [eauto with survives]|first [exact I | eassumption]]
  end.

Ltac store_keys :=
  cbn [foldl fst snd any_store];
  repeat match goal with |- context [String.compare ?a ?b] =>
    let c := eval vm_compute in (String.compare a b) in change (String.compare a b) with c;
    cbn [any_store] end.

Ltac through_any :=
  cbn [any_of_json map fst snd];
  repeat match goal with H : any_of_json ?j = Ok _ |- context [any_of_json ?j] => rewrite H end;
  cbn [result_map mbind result_bind fst snd]; store_keys;
  eexists _, _; split; [reflexivity|];
  cbn [any_to_json map fst snd];
  repeat match goal with H : any_to_json ?v = Ok _ |- context [any_to_json ?v] => rewrite H end;
  cbn [result_map mbind result_bind fst snd]; split; [reflexivity|]; split; [print_well|].

Definition report_params_ok (p : DirectReqReportGenParms) : Prop :=
  is_utf8 (Strategy p) = true ∧ is_utf8 (ResultType p) = true ∧ is_utf8 (Schema p) = true.

Lemma report_params_survive d : 0 < d → survives go_report_params report_params_ok d.
Proof.
  intros Hd. split. intros [s r c] j (Hs & Hr & Hc).
  cbn [enc go_report_params Strategy ResultType Schema] in *. intros H. open_survivors d.
  split; [print_well|]. through_any. cbn [dec go_report_params]. read_back. done.
Qed.
#[export] Hint Resolve report_params_survive : survives.

Definition task_ok (t : DirectReqTask) : Prop :=
  is_utf8 (task_Name t) = true ∧ is_utf8 (task_Type t) = true ∧ is_utf8 (task_Method t) = true ∧
  is_utf8 (task_URL t) = true ∧ is_utf8 (task_Input t) = true ∧ is_utf8 (task_Path t) = true ∧
  float_ok (task_Factor t).

Lemma task_survives d : 0 < d → survives go_task task_ok d.
Proof.
  intros Hd. split. intros [n t m u i p f] j Ht.
  cbn [enc go_task task_Name task_Type task_Method task_URL task_Input task_Path task_Factor].
  destruct Ht as (? & ? & ? & ? & ? & ? & ?). intros Henc. open_survivors d. split; [print_well|]. through_any. cbn [dec go_task]. read_back. done.
Qed.
#[export] Hint Resolve task_survives : survives.

(** Parameters whose strings are UTF-8 and whose numbers fit in a float64. *)
Definition params_ok (p : DirectRequestTemplateParams) : Prop :=
  Address.valid (ContractAddress p) ∧ 0 ≤ EvmChainID p < 2 ^ 53 ∧ is_utf8 (ChainID p) = true ∧
  is_utf8 (ExternalJobID p) = true ∧ 0 ≤ SchemaVersion p < 2 ^ 53 ∧ is_utf8 (params_Name p) = true ∧
  Forall task_ok (elems (ObservationSource p)) ∧ report_params_ok (ReportingStrategy p).

Lemma params_survive d : 2 < d → survives go_params params_ok d.
Proof.
  intros Hd. split. intros [a e c x v n o r] j Hp.
  cbn [enc go_params ContractAddress EvmChainID ChainID ExternalJobID SchemaVersion params_Name
    ObservationSource ReportingStrategy].
  destruct Hp as (? & ? & ? & ? & ? & ? & ? & ?). intros Henc. open_survivors d. split; [print_well|]. through_any. cbn [dec go_params]. read_back. done.
Qed.

(** ** One job *)
Definition info_ok (i : JobInfo) : Prop :=
  is_utf8 (info_JobID i) = true ∧ is_utf8 (info_JobType i) = true ∧ is_i64 (info_Timeout i) ∧
  ∃ p, info_Template i = TParams p ∧ params_ok p.

(** The description that is read, and the parameters that its template gives
    when it is written again. *)
Record arrived (i i' : JobInfo) : Prop := {
  arrived_id : info_JobID i' = info_JobID i;
  arrived_type : info_JobType i' = info_JobType i;
  arrived_timeout : info_Timeout i' = info_Timeout i;
  arrived_params p : info_Template i = TParams p →
    ∃ data, Marshal go_template (info_Template i') = Ok data ∧
      Unmarshal go_params (zero go_params) data = Ok p
}.

Lemma info_arrives d i j :
  3 < d ≤ max_depth → info_ok i → enc go_jobinfo i = Ok j →
  wf d j = true ∧ ∃ i', dec go_jobinfo (zero go_jobinfo) j = Ok i' ∧ arrived i i'.
Proof.
  intros Hd (Hi & Ht & Ho & p & Htp & Hp). destruct i as [i t tp o].
  cbn [info_JobID info_JobType info_Template info_Timeout] in *. subst tp.
  cbn [enc go_jobinfo info_JobID info_JobType info_Template info_Timeout]. unfold enc_object.
  cbn [result_map]. intros H.
  repeat match goal with
  | H : (_ ≫= _) = Ok _ |- _ => apply result_bind_ok in H as (? & ? & ?)
  | H : Ok _ = Ok _ |- _ => injection H as H; subst
  end.
  match goal with H : enc_field "Template" _ _ = Ok _ |- _ =>
    unfold enc_field in H; apply result_bind_ok in H as (jt & Hjt & [= <-]) end.
  destruct (survive (params_survive (d - 1) ltac:(lia)) Hp Hjt) as (Hw & v & j' & Hv & Hj' & _ & Hdec).
  destruct (survive (params_survive max_depth ltac:(done)) Hp Hjt) as (_ & v' & j'' & Hv' & Hj'' & Hw'' & _).
  assert (v' = v) as -> by congruence. assert (j'' = j') as -> by congruence. clear Hv' Hj''.
  repeat match goal with H : enc_field _ _ _ = Ok _ |- _ =>
    eapply (enc_field_inv _ _ _ (d - 1)) in H as (? & -> & ? & ?);
      [|solve [eauto with lawful]|first [exact I | eassumption]] end.
  split; [print_well|]. eexists. cbn [dec go_jobinfo]. split.
  - read_back. cbn [dec go_template]. rewrite Hv. read_back. reflexivity.
  - split; cbn; try done. intros p' [= ->]. exists (print j'). unfold Marshal.
    cbn [enc go_template go_any]. rewrite Hj'. split; [done|]. unfold Unmarshal.
    by rewrite parse_print_wf.
Qed.

(** A job that has not been run. *)
Definition unrun (job : Job) : Job := {|
  dr_JobID := dr_JobID job; dr_JobType := dr_JobType job; dr_params := dr_params job;
  dr_Results := ∅; dr_timeout := dr_timeout job; dr_ReportAssembler := None |}.

(** The jobs that can be sent. *)
Definition job_ok (job : Job) : Prop :=
  dr_JobType job = DirectReqJob ∧ is_utf8 (dr_JobID job) = true ∧ is_u64 (dr_timeout job) ∧
  params_ok (dr_params job).

Definition info_of (job : Job) : JobInfo := {|
  info_JobID := dr_JobID job; info_JobType := dr_JobType job;
  info_Template := TParams (dr_params job); info_Timeout := TaskTimeout job |}.

Lemma info_of_ok job : job_ok job → info_ok (info_of job).
Proof.
  intros (Ht & Hi & _ & Hp). split_and!; cbn; [done|by rewrite Ht|apply i64_range|by eexists].
Qed.

(** The follower makes the job that the leader has. *)
Lemma job_arrives job i' : job_ok job → arrived (info_of job) i' → NewJobFromInfo i' = Ok (unrun job).
Proof.
  intros (Ht & _ & Hu & _) [Hi Hty Ho Hp]. destruct (Hp _ eq_refl) as (data & Hm & Hun).
  unfold NewJobFromInfo. rewrite Hi, Hty, Ho, Hm. cbn [info_JobID info_JobType info_Timeout info_of wrap mbind result_bind].
  rewrite Ht, String.eqb_refl, Hun. cbn [wrap mbind result_bind]. unfold unrun, TaskTimeout.
  by rewrite Ht, u64_i64.
Qed.

(** ** The request *)
Lemma infos_arrive d l js :
  3 < d ≤ max_depth → Forall info_ok l → result_map (enc go_jobinfo) l = Ok js →
  forallb (wf d) js = true ∧
  ∃ l', result_map (dec go_jobinfo (zero go_jobinfo)) js = Ok l' ∧ Forall2 arrived l l'.
Proof.
  intros Hd Hl. revert js. induction Hl as [|i l Hi Hl IH]; cbn [result_map]; intros js.
  { intros [= <-]. split; [done|]. by exists []. }
  rewrite result_bind_ok. intros (j & Hj & Hjs). apply result_bind_ok in Hjs as (js1 & Hjs & [= <-]).
  destruct (info_arrives d i j Hd Hi Hj) as (Hw & i' & Hdec & Ha), (IH js1 Hjs) as (Hws & l' & Hdecs & Has).
  cbn [forallb result_map]. rewrite Hw, Hws, Hdec. split; [done|]. exists (i' :: l').
  cbn [mbind result_bind]. rewrite Hdecs.
  split; [done|by constructor].
Qed.

Lemma request_arrives q b :
  common_ok (oq_common q) → Forall info_ok (elems (Jobs q)) → Encode (VObserveReq q) = Ok b →
  ∃ q', Decode KObserveReq b = Ok (VObserveReq q') ∧ oq_common q' = oq_common q ∧
    Forall2 arrived (elems (Jobs q)) (elems (Jobs q')).
Proof.
  destruct q as [c js]. cbn [oq_common Jobs Encode Decode JSONCodec JSONCodec_Encode JSONCodec_Decode].
  intros (He & Hr & Hl) Hjs. unfold Marshal, unmarshal_as, Unmarshal. rewrite result_bind_ok.
  intros (j & Hj & [= <-]). unfold go_observereq in *. cbn [enc go_with oq_common Jobs app enc_common] in Hj.
  unfold enc_object in Hj. cbn [result_map] in Hj.
  repeat match goal with
  | H : (_ ≫= _) = Ok _ |- _ => apply result_bind_ok in H as (? & ? & ?)
  | H : Ok _ = Ok _ |- _ => injection H as H; subst
  end.
  match goal with H : enc_field "jobs" _ _ = Ok _ |- _ =>
    unfold enc_field in H; apply result_bind_ok in H as (jj & Hjj & [= <-]) end.
  assert (wf (max_depth - 1) jj = true ∧ ∃ js', dec (go_slice go_jobinfo) (zero (go_slice go_jobinfo)) jj = Ok js' ∧
    Forall2 arrived (elems js) (elems js')) as (Hw & js' & Hdec & Has).
  { destruct js as [l|]; [|injection Hjj as <-; split; [done|]; exists None; split; [done|constructor]].
    cbn [enc go_slice] in Hjj. apply result_bind_ok in Hjj as (jl & Hjl & [= <-]).
    destruct (infos_arrive (max_depth - 2) l jl ltac:(done) Hjs Hjl) as (Hw & l' & Hdec & Has).
    cbn [wf dec go_slice]. change (max_depth - 1 - 1) with (max_depth - 2). rewrite Hw, Hdec.
    split; [done|]. by exists (Some l'). }
  repeat match goal with H : enc_field _ _ _ = Ok _ |- _ =>
    eapply (enc_field_inv _ _ _ (max_depth - 1)) in H as (? & -> & ? & ?);
      [|solve [eauto with lawful]|first [exact I | eassumption]] end.
  rewrite parse_print_wf by print_well. cbn [mbind result_bind dec go_with zero]. unfold dec_common.
  cbn [oq_common Jobs]. read_back. eexists. split; [reflexivity|]. by destruct c.
Qed.

(** Such a request can be written. *)
Lemma params_total : total go_params params_ok.
Proof.
  intros [a e c x v n o r] (Ha & He & Hc & Hx & Hv & Hn & Ho & Hr).
  cbn [enc go_params ContractAddress EvmChainID ChainID ExternalJobID SchemaVersion params_Name
    ObservationSource ReportingStrategy] in *.
  assert (total go_address (λ _, True)) as Hta by (intros ? _; by eexists).
  assert (total go_report_params (λ _, True)) as Htr.
  { intros [s t u] _. cbn [enc go_report_params]. fields_total. }
  assert (total go_task task_ok) as Htt.
  { intros [n' t m u i p f] (_ & _ & _ & _ & _ & _ & Hf). cbn [enc go_task task_Factor] in *.
    pose proof go_float_total. fields_total. }
  fields_total; eapply enc_field_total; first [exact Hta|exact Htr|exact I|idtac].
Qed.

Lemma request_total q : Forall info_ok (elems (Jobs q)) → ∃ b, Encode (VObserveReq q) = Ok b.
Proof.
  intros Hq. assert (total go_jobinfo info_ok) as Hi.
  { intros [i t tp o] (_ & _ & _ & p & Htp & Hp). cbn [info_Template] in Htp. subst tp.
    cbn [enc go_jobinfo]. fields_total.
    destruct (params_total p Hp) as [j Hj]. exists ("Template", j). unfold enc_field.
    cbn [info_Template enc go_template]. by rewrite Hj. }
  cbn [Encode JSONCodec JSONCodec_Encode]. apply (Marshal_total _ (λ q, Forall info_ok (elems (Jobs q)))); [|done].
  clear q Hq. intros q Hq. unfold go_observereq. cbn [enc go_with]. fields_total.
Qed.

(** The jobs of a round. *)
Definition scheduled (r : ReportingEngine) : list Job := default [] (default ∅ (jobSchedule r) !! curRound r).

Lemma round_infos r : elems (GetJobInfosForCurrRound r) = info_of <$> scheduled r.
Proof. unfold GetJobInfosForCurrRound. by rewrite elems_append. Qed.

Definition round_request (r : ReportingEngine) : ObserveReq :=
  {| oq_common := current_common r; Jobs := GetJobInfosForCurrRound r |}.

Lemma round_infos_ok r : Forall job_ok (scheduled r) → Forall info_ok (elems (GetJobInfosForCurrRound r)).
Proof. rewrite round_infos, Forall_fmap. intros Hjs. eapply Forall_impl; [exact Hjs|exact info_of_ok]. Qed.

Lemma jobs_launched js l :
  Forall job_ok js → Forall2 arrived (info_of <$> js) l →
  Forall2 (λ info job, NewJobFromInfo info = Ok job) l (unrun <$> js).
Proof.
  intros Hjs. revert l. induction Hjs as [|job js Hj _ IH]; intros l Hl; inversion Hl; subst; constructor.
  - by apply job_arrives.
  - by apply IH.
Qed.

Section travel.
Context `{Nondet} `{Ecdsa} {net : Type} `{MessagingLayer net}.

(** C9: the jobs of a round reach the followers. A leader whose jobs can be
    sent (UTF-8 strings, chain ids and versions below 2^53, factors that read
    back) broadcasts one request; whoever reads the bytes decodes a request of
    the same epoch, round and leader, and launches from it exactly the jobs of
    the leader's schedule, in order, with their ids, parameters and timeouts,
    none of them run. *)
Theorem jobs_travel (nl : node net) :
  is_utf8 (si_ID (serverOpts (re nl))) = true → common_ok (current_common (re nl)) →
  Forall job_ok (scheduled (re nl)) →
  ∃ b msg q,
    handleObserve nl =
      (broadcast b;;
       mod_leader (λ l, set_Phase PhaseObserve (set_timers (Some NewTimer) (TimerGrace l) l))) nl ∧
    arrives b msg ∧ dm_Data msg = Ptr (VObserveReq q) ∧ oq_common q = current_common (re nl) ∧
    ∀ n : node net, launch (elems (Jobs q)) n =
      (Done (Some (zip (unrun <$> scheduled (re nl)) (elems (Jobs q)))),
       with_jobs (unrun <$> scheduled (re nl)) n).
Proof.
  intros Hid Hc Hjs. pose proof (round_infos_ok _ Hjs) as Hinfos.
  destruct (request_total (round_request (re nl)) Hinfos) as (data & Hdata).
  destruct (rpc_bytes_total (si_ID (serverOpts (re nl))) MessageObserveReq TopicReporter
    (VObserveReq (round_request (re nl))) no_signature data) as (b & Hb); [done..|].
  destruct (request_arrives (round_request (re nl)) data Hc Hinfos Hdata) as (q & Hq & Hcq & Has).
  destruct (json_carried _ Hid) as [Hm Hr].
  destruct (unwrap_sent (P := json_ok) _ _ _ _ _ _
    (λ d, Hm MessageObserveReq d ltac:(done)) (λ p, Hr p no_signature) Hb)
    as (data' & payload & Hd' & Hdb & Hdp). rewrite Hdata in Hd'. injection Hd' as <-.
  exists b. eexists. exists q. split_and!.
  - unfold handleObserve, build_or_panic. rewrite run_gets_re, proc_bind_assoc, run_gets_re.
    cbv [id]. fold (round_request (re nl)). by rewrite Hb, run_ret.
  - eexists. split; [exact Hdb|]. unfold DefaultRPCDecoder. cbn [Payload from_option id]. rewrite Hdp.
    cbn [mbind result_bind Headers]. change (header_kind MessageObserveReq) with (Some (KObserveReq, false)).
    cbn [Data from_option id]. by rewrite Hq.
  - done.
  - exact Hcq.
  - intros n. apply launch_all. cbn [round_request Jobs] in Has. rewrite round_infos in Has.
    by apply jobs_launched.
Qed.
End travel.

(** ** Numbers that do not fit

    Of a chain id from 2^53 on, a follower may make another one, or no job at
    all. *)
Definition on_chain (id : Z) : Job := NewDirectReq {|
  ContractAddress := zero go_address; EvmChainID := id; ChainID := ""; ExternalJobID := "job";
  SchemaVersion := 1; params_Name := ""; ObservationSource := None;
  ReportingStrategy := zero go_report_params |}.

Definition sent_over (job : Job) : result Job :=
  b ← Marshal go_jobinfo (info_of job);
  i ← Unmarshal go_jobinfo (zero go_jobinfo) b;
  NewJobFromInfo i.

Example chain_id_rounded :
  (job ← sent_over (on_chain (2 ^ 53 + 1)); Ok (EvmChainID (dr_params job))) = Ok (2 ^ 53).
Proof. vm_compute. reflexivity. Qed.

Example chain_id_refused : ∃ e, sent_over (on_chain (2 ^ 64 - 1)) = Error e.
Proof. eexists. vm_compute. reflexivity. Qed.
