(* ===== verification/Runs.v ===== *)
(** * Concrete runs

    The properties of the reporting engine at work on nodes that can be
    computed with: the JSON codec, a transparent signature scheme, maps visited
    in order, and a network that records what is sent. *)

From S2P Require Import Prelude Bytes Crypto Sha256 Strconv Json GoJson Jobs Rpc Observations.
From S2P Require Import Assembly Reporter ReporterSpec HandlerSpec Round Exchange.
From S2P Require Import Typing Completion Travel.

#[local] Existing Instance in_order.
#[local] Existing Instance plain_ecdsa.

(** ** Nodes *)
Definition round_1 : common := {| Epoch := 0; Round := 1; Leader := base_hex |}.

(** A node of a network of [n] with [f] faulty, whose peer is [base_hex]. *)
Definition base_engine (lead : bool) (self : string) (n f : Z) : ReportingEngine :=
  set_schedule None PacemakerRegistry (Some ∅)
    (set_mu_ready false true
      (NewReportingEngine lead 0 base_hex {| si_Addr := ""; si_ID := self |}
        {| pg_n := n; pg_f := f |} base_pair 1)).

Definition base_node (lead : bool) (self : string) (n f : Z) : node wire := {|
  re := base_engine lead self n f;
  below := {| sent := []; known := {[base_hex]} |};
  pm_registry := ∅; listening := Some 1%nat; closed := ∅; next_chan := 2; spawned := [] |}.

Definition quiet_env : Env := {|
  http := λ _, price_get; late := λ _ _, false; rand := tt; site := [] |}.

(** A message of [base_hex], signed by it. *)
Definition signature_of (v : goval) : Signature :=
  match Encode v with
  | Ok b => match Sign tt base_pair b with Ok s => s | Error _ => no_signature end
  | Error _ => no_signature
  end.

Definition signed (v : goval) : DecodedMsg := {|
  FromId := base_hex; Topic := TopicReporter; dm_Data := Ptr v; dm_Signature := signature_of v |}.

(** Check a signature by running the scheme. *)
Ltac authenticate :=
  eexists _, base_key; split; [vm_compute; reflexivity|]; split; [exact base_hex_key|];
  rewrite Verify_base; vm_compute; reflexivity.

(** ** Messages *)
Definition one_observation : ObserveResp :=
  {| or_common := round_1; JobResponses := Some [observed "1.5"] |}.
Definition one_report (v : string) : ReportRes :=
  {| rr_common := round_1; Reports := Some {["job-1" := AStr v]} |}.

Lemma observation_authentic : authentic (signed (VObserveResp one_observation)) (VObserveResp one_observation).
Proof. authenticate. Qed.

Lemma report_authentic : authentic (signed (VReportRes (one_report "7"))) (VReportRes (one_report "7")).
Proof. authenticate. Qed.

(** ** The life of an engine *)
Definition boot_info : ServerInfo := {| si_Addr := ""; si_ID := base_hex |}.
Definition boot_globals : PacemakerGlobals := {| pg_n := 4; pg_f := 1 |}.

Abbreviation booted :=
  ((boot true 0 base_hex boot_info boot_globals base_pair []
     (fresh_node base_pair {| sent := []; known := ∅ |} ∅)).2).

Definition progress_request : DecodedMsg := signed (VProgressRound {| pr_common := round_1 |}).

(** The leader has received a signed request to progress. *)
Abbreviation asked := ((ProcessMessage quiet_env progress_request booted).2).

Lemma booted_reaches : reachable booted asked.
Proof. exact (rtc_once _ _ (step_message quiet_env progress_request booted)). Qed.

Lemma round_never_advances_witness :
  curRound (re asked) = INIT_ROUND ∧ epoch (re asked) = 0 ∧ leader (re asked) = base_hex ∧
  TProgress ∉ spawned asked.
Proof.
  exact (round_never_advances true 0 base_hex boot_info boot_globals base_pair []
    {| sent := []; known := ∅ |} ∅ asked booted_reaches).
Defined.

Lemma never_transmits_witness :
  Phase (leaderState (re asked)) ≠ PhaseTransmit ∧
  finalReportAttestation (leaderState (re asked)) = 0 ∧ TPhase PhaseTransmit ∉ spawned asked.
Proof.
  exact (never_transmits true 0 base_hex boot_info boot_globals base_pair []
    {| sent := []; known := ∅ |} ∅ asked booted_reaches).
Defined.

Lemma Stop_panics_witness :
  Stop asked = (Panicked "close of nil channel", asked).
Proof.
  exact (Stop_panics true 0 base_hex boot_info boot_globals base_pair []
    {| sent := []; known := ∅ |} ∅ asked booted_reaches).
Defined.

Lemma early_message_deadlocks_witness :
  let n := fresh_node base_pair {| sent := []; known := ∅ |} ∅ in
  ∃ n', ProcessMessage quiet_env progress_request n =
      (Done (Some (Errorf "RE: not ready to process messages")), n') ∧
    (∀ env' msg', ProcessMessage env' msg' n' = (Blocked "mutex is locked", n')) ∧
    (∀ lead e l s_info p_globals key,
       initReporter lead e l s_info p_globals key n' = (Blocked "mutex is locked", n')).
Proof. apply early_message_deadlocks; reflexivity. Defined.

(** ** Handlers *)
Definition next_round_echo : DecodedMsg :=
  signed (VFinalEcho {| fe_common := {| Epoch := 0; Round := 2; Leader := base_hex |} |}).


Lemma base_live : live_orchestrator (base_node true base_hex 4 1).
Proof. split; [reflexivity|]. exact (not_elem_of_empty (C := gset nat) 1%nat). Qed.

Lemma one_observer_suffices_witness :
  ∃ n', deliver quiet_env (signed (VObserveResp one_observation)) 4 (base_node true base_hex 4 1) =
      (Done None, n') ∧
    Phase (leaderState (re n')) = PhaseGrace ∧ TPhase PhaseGrace ∈ spawned n' ∧
    observations (leaderState (re n')) =
      {[base_hex := Some (group_responses [observed "1.5"])]}.
Proof.
  exact (one_observer_suffices quiet_env (signed (VObserveResp one_observation)) one_observation
    (base_node true base_hex 4 1) (conj eq_refl eq_refl) base_live eq_refl eq_refl
    (conj eq_refl (conj eq_refl eq_refl)) observation_authentic ltac:(done) ltac:(done)).
Defined.

(** ** The final report *)

(** A follower of one peer, with nobody faulty. *)
Definition follower : node wire := base_node false "02aa" 2 0.

Definition sign_as_base (v : goval) : Signatories :=
  {| sg_Sign := signature_of v; sg_ID := base_hex |}.

(** A report that nobody made, under the signature of an observation. *)
Definition forged : BroadcastFinalReport :=
  {| bf_common := round_1;
     bf_FinalReport := {| fr_Report := Some {["job-1" := AStr "666"]};
                          fr_Signatories := Some [sign_as_base (VObserveResp one_observation)] |} |}.

Lemma forged_authentic : authentic (signed (VBroadcastFinalReport forged)) (VBroadcastFinalReport forged).
Proof. authenticate. Qed.

Lemma forged_signer : signed_something follower round_1 (sign_as_base (VObserveResp one_observation)).
Proof.
  split; [vm_compute; reflexivity|].
  destruct observation_authentic as (b & pk & Hb & Hpk & Hv). exists pk, (VObserveResp one_observation), b.
  split; [exact Hpk|]. split; [reflexivity|]. split; [exact Hb|exact Hv].
Qed.

Lemma any_report_accepted_witness :
  c_finalReport (cacheLayer (re
    (ProcessMessage quiet_env (signed (VBroadcastFinalReport forged)) follower).2)) =
  bf_FinalReport forged.
Proof.
  apply (any_report_accepted quiet_env (signed (VBroadcastFinalReport forged)) follower round_1
    (Some {["job-1" := AStr "666"]}) [sign_as_base (VObserveResp one_observation)]).
  - exact (conj eq_refl eq_refl).
  - reflexivity.
  - exact (conj eq_refl (conj eq_refl eq_refl)).
  - vm_compute. discriminate.
  - reflexivity.
  - exact forged_authentic.
  - constructor; [exact forged_signer|constructor].
  - apply NoDup_singleton.
  - vm_compute. discriminate.
Defined.

Lemma forged_kept :
  c_finalReport (cacheLayer (re
    (ProcessMessage quiet_env (signed (VBroadcastFinalReport forged)) follower).2)) ≠
  c_finalReport (cacheLayer (re follower)).
Proof. rewrite any_report_accepted_witness. discriminate. Qed.

Lemma final_report_checked_witness :
  authentic (signed (VBroadcastFinalReport forged)) (VBroadcastFinalReport forged) ∧
  ∃ b (peers : gset string), Encode (VBroadcastFinalReport forged) = Ok b ∧
    i64 (pg_f (pacemakerGlobals (re follower))) + 1 ≤ Z.of_nat (size peers) ∧
    ∀ id, id ∈ peers →
      vouches follower b (elems (fr_Signatories (bf_FinalReport forged))) id.
Proof.
  exact (final_report_checked quiet_env (signed (VBroadcastFinalReport forged)) forged follower
    (conj eq_refl eq_refl) eq_refl forged_kept).
Defined.

(** The final report that the follower with id 02aa has signed first. *)
Definition own_report : BroadcastFinalReport :=
  {| bf_common := round_1;
     bf_FinalReport := {| fr_Report := Some ∅;
                          fr_Signatories := Some [{| sg_Sign := no_signature; sg_ID := "02aa" |}] |} |}.

Lemma own_authentic : authentic (signed (VBroadcastFinalReport own_report)) (VBroadcastFinalReport own_report).
Proof. authenticate. Qed.

Lemma own_unknown : (IsPeer "02aa" (below follower)).1 = Done false.
Proof. vm_compute. reflexivity. Qed.

Lemma foreign_signatory_drops_witness :
  ProcessMessage quiet_env (signed (VBroadcastFinalReport own_report)) follower = (Done None, follower).
Proof.
  exact (foreign_signatory_drops quiet_env (signed (VBroadcastFinalReport own_report)) own_report
    follower {| sg_Sign := no_signature; sg_ID := "02aa" |} [] (conj eq_refl eq_refl) eq_refl eq_refl
    (conj eq_refl (conj eq_refl eq_refl)) own_authentic eq_refl own_unknown).
Defined.

(** ** Requests, schedules and rounds *)

(** The observations that the leader has broadcast, as the follower cached them. *)
Definition cached_observations : ObservationSafeMap :=
  {[base_hex := Some {["job-1" := Some [observed "1.5"]]}]}.

Definition caching_follower : node wire :=
  set_re (set_cacheLayer (set_follower_observations cached_observations zero_cache) (re follower))
    follower.

Definition observation_bytes : bytes :=
  match MarshalJSON cached_observations with Ok b => b | Error _ => "" end.

Definition report_request : ReportReq :=
  {| rq_common := round_1; rq_Observations := Some observation_bytes |}.

Lemma observation_bytes_marshal : MarshalJSON cached_observations = Ok observation_bytes.
Proof. vm_compute. reflexivity. Qed.

Lemma cached_observations_ok : observations_ok cached_observations.
Proof.
  apply map_Forall_singleton. split; [by vm_compute|].
  apply map_Forall_singleton. split; [done|]. by constructor.
Qed.

Lemma observation_bytes_read : UnmarshalJSON observation_bytes ∅ = Ok cached_observations.
Proof.
  exact (Unmarshal_MarshalJSON _ _ cached_observations_ok observation_bytes_marshal).
Qed.

Lemma observation_bytes_match : CompareHashes [observation_bytes; observation_bytes] = true.
Proof. vm_compute. reflexivity. Qed.

Lemma report_request_crashes_witness :
  ProcessMessage quiet_env (signed (VReportReq report_request)) caching_follower =
  (Panicked "nil pointer dereference", caching_follower).
Proof.
  exact (report_request_crashes quiet_env (signed (VReportReq report_request)) report_request
    caching_follower cached_observations observation_bytes base_hex
    (Some {["job-1" := Some [observed "1.5"]]}) "job-1" [observed "1.5"]
    (conj eq_refl eq_refl) eq_refl (conj eq_refl (conj eq_refl eq_refl)) eq_refl eq_refl
    observation_bytes_read observation_bytes_marshal observation_bytes_match
    eq_refl eq_refl ltac:(discriminate)).
Defined.

Definition some_event : DirectReqEventRes :=
  {| dre_id := "job-1"; dre_event := "dummy_event"; dre_result := None |}.

Lemma leader_schedules_nothing_witness :
  (Start (replicate 20 some_event) (base_node true base_hex 4 1)).1 =
    Panicked "interface conversion: not jobs.Job" ∧
  ((Start (replicate 19 some_event) (base_node true base_hex 4 1)).1 = Done tt →
   jobSchedule (re (Start (replicate 19 some_event) (base_node true base_hex 4 1)).2) = Some ∅).
Proof.
  split.
  - apply (leader_schedules_nothing (replicate 20 some_event)); [reflexivity|simpl; lia].
  - apply (leader_schedules_nothing (replicate 19 some_event) (base_node true base_hex 4 1));
      [reflexivity|simpl; lia].
Defined.

Lemma next_round_is_stuck_witness :
  ∃ n', progressToNextRound (base_node true base_hex 4 1) = (Done tt, n') ∧
    curRound (re n') = 2 ∧ Phase (leaderState (re n')) = PhaseObserve ∧
    send_phase PhaseObserve n' = (Blocked "no receiver on the phase channel", n').
Proof.
  exact (next_round_is_stuck (base_node true base_hex 4 1) 1 PhaseObserve eq_refl eq_refl
    ltac:(discriminate) (not_elem_of_empty (C := gset nat) 2%nat)).
Defined.

(** ** A round of a leader, from its start

    Of two nodes, none of them faulty: two observations take the leader to the
    grace phase, whose end makes it ask for reports, and the first report is
    the final one. *)
Definition pair_globals : PacemakerGlobals := {| pg_n := 2; pg_f := 0 |}.

Abbreviation started :=
  ((boot true 0 base_hex boot_info pair_globals base_pair []
     (fresh_node base_pair {| sent := []; known := {[base_hex]} |} ∅)).2).

Definition observation : DecodedMsg := signed (VObserveResp one_observation).

Abbreviation observed_twice := (with_observation base_hex one_observation 2 started).
Abbreviation in_grace := (set_and_send PhaseGrace observed_twice).2.
Abbreviation grace_begun :=
  (run_task quiet_env (TPhase PhaseGrace) (set_spawned [TPhase PhaseObserve] in_grace)).2.
Abbreviation asks_reports :=
  (run_task quiet_env TGraceOver (set_spawned [TPhase PhaseObserve] grace_begun)).2.

Lemma observe_once : step started (with_observation base_hex one_observation 1 started).
Proof.
  pose proof (step_message quiet_env observation started) as Hs.
  rewrite (observation_taken_eq quiet_env observation one_observation) in Hs;
    [exact Hs|by split|reflexivity|by repeat split|exact observation_authentic].
Qed.

Lemma observe_again : step (with_observation base_hex one_observation 1 started) in_grace.
Proof.
  pose proof (step_message quiet_env observation (with_observation base_hex one_observation 1 started)) as Hs.
  rewrite (observation_taken_eq quiet_env observation one_observation) in Hs;
    [|by split|reflexivity|by repeat split|exact observation_authentic].
  rewrite with_observation_twice in Hs.
  match type of Hs with step _ ?n => replace n with in_grace in Hs; [exact Hs|] end.
  vm_compute. reflexivity.
Qed.

(** A message as it comes without the numbers of a signature. *)
Definition without_signature (msg : DecodedMsg) : DecodedMsg := {|
  FromId := FromId msg; Topic := Topic msg; dm_Data := dm_Data msg; dm_Signature := no_signature |}.

Lemma without_signature_crashes msg v b :
  FromId msg = base_hex → Encode v = Ok b → crashes (without_signature msg) v.
Proof.
  intros Hf Hb. split; [by exists b|]. exists base_key. split; [by cbn; rewrite Hf, base_hex_key|].
  left. by left.
Qed.

Lemma started_open : open started.
Proof. by split. Qed.

Lemma started_round : of_this_round started round_1.
Proof. vm_compute. by repeat split. Qed.

Lemma started_live : live_orchestrator started.
Proof.
  split; [reflexivity|]. assert (closed started = ∅) as -> by (vm_compute; reflexivity).
  apply not_elem_of_empty.
Qed.


Lemma in_grace_spawned : spawned in_grace = [TPhase PhaseObserve] ++ TPhase PhaseGrace :: [].
Proof. vm_compute. reflexivity. Qed.

Lemma grace_begun_spawned : spawned grace_begun = [TPhase PhaseObserve] ++ TGraceOver :: [].
Proof. vm_compute. reflexivity. Qed.

Lemma started_asks_reports : reachable started asks_reports.
Proof.
  apply rtc_l with (1 := observe_once), rtc_l with (1 := observe_again).
  apply rtc_l with (1 := step_task quiet_env _ _ _ _ in_grace_spawned).
  exact (rtc_once _ _ (step_task quiet_env _ _ _ _ grace_begun_spawned)).
Qed.

Lemma asks_reports_phase : Phase (leaderState (re asks_reports)) = PhaseReport.
Proof. vm_compute. reflexivity. Qed.

Lemma reports_need_observations_witness :
  ∃ taken, 1 < Z.of_nat (length taken) ∧
    Forall (signed_observation (the_round 0 base_hex)) taken ∧
    observations (leaderState (re asks_reports)) = observed_of taken.
Proof.
  exact (reports_need_observations true 0 base_hex boot_info pair_globals base_pair []
    {| sent := []; known := {[base_hex]} |} ∅ asks_reports started_asks_reports asks_reports_phase).
Defined.

Lemma round_refines_witness :
  ∃ a, rtc (round_step (the_round 0 base_hex) pair_globals) (round_start true) a ∧
    shows pair_globals a asks_reports.
Proof.
  exact (round_refines true 0 base_hex boot_info pair_globals base_pair []
    {| sent := []; known := {[base_hex]} |} ∅ asks_reports started_asks_reports).
Defined.

(** The first report is the final one. *)
Definition report_of_7 : DecodedMsg := signed (VReportRes (one_report "7")).
Abbreviation has_report := ((ProcessMessage quiet_env report_of_7 started).2).

Lemma started_has_report : reachable started has_report.
Proof. exact (rtc_once _ _ (step_message quiet_env report_of_7 started)). Qed.

Lemma started_reports : ls_reports (leaderState (re started)) = [zero_report].
Proof. vm_compute. reflexivity. Qed.

Lemma final_of_7 :
  is_Some (assembleFinalReport (site quiet_env) (i64 (pg_f (pacemakerGlobals (re started))))
    [zero_report; attested report_of_7 (one_report "7")]).
Proof. vm_compute. by eexists. Qed.


Lemma has_report_final :
  ProcessMessage quiet_env report_of_7 started = (Done None, has_report) ∧
  Phase (leaderState (re has_report)) = PhaseFinal ∧
  (fr ← finalReport (leaderState (re has_report)); entries (fr_Report fr) !! "job-1") = Some (AStr "7").
Proof.
  pose proof (report_taken_eq quiet_env report_of_7 (one_report "7") started []
    started_open eq_refl started_round report_authentic started_reports) as Hr.
  cbv zeta in Hr. revert Hr. generalize (ProcessMessage quiet_env report_of_7 started).
  intros p ->. vm_compute. by repeat split.
Qed.

Lemma held_report_backed_witness :
  is_Some (finalReport (leaderState (re has_report))) ∧
  ∃ h rs, value_hash (AStr "7") = Some h ∧ 1 ≤ Z.of_nat (length rs) ∧
    sublist rs (ls_reports (leaderState (re has_report))) ∧
    Forall (λ r, signed_report (the_round 0 base_hex) r ∧ report_hash "job-1" r = Some h) rs.
Proof.
  pose proof (held_report_backed true 0 base_hex boot_info pair_globals base_pair []
    {| sent := []; known := {[base_hex]} |} ∅ has_report ltac:(done) started_has_report) as [Hp Hv].
  destruct has_report_final as (_ & Hf & Hj). split; [exact (Hp Hf)|].
  destruct (finalReport (leaderState (re has_report))) as [fr|]; [|discriminate Hj].
  exact (Hv fr "job-1" (AStr "7") eq_refl Hj).
Defined.

(** ** A whole round of that leader *)
Definition wire_0 : wire := {| sent := []; known := {[base_hex]} |}.
Definition heard (b : bytes) (w : wire) : wire :=
  {| sent := sent w ++ [(None, b)]; known := known w |}.
Definition two_observations : list (DecodedMsg * ObserveResp) :=
  replicate 2 (observation, one_observation).
Definition only_report : list (DecodedMsg * ReportRes) := [(report_of_7, one_report "7")].

Lemma heard_takes b w : ∃ err, BroadcastMsg b w = (Done err, heard b w).
Proof. by exists None. Qed.

Lemma always_signs d : ∃ sig, Sign (rand quiet_env) base_pair d = Ok sig.
Proof. by eexists. Qed.

Lemma two_observe : Forall (observes 0 base_hex) two_observations.
Proof.
  assert (observes 0 base_hex (observation, one_observation)) as Ho.
  { split; [done|]. split; [exact observation_authentic|]. split; [done|].
    split; [done|]. by constructor. }
  by apply Forall_replicate.
Qed.

Lemma one_reports : Forall (reports_on 0 base_hex) only_report.
Proof.
  constructor; [|done]. split; [done|]. split; [exact report_authentic|]. split; [done|].
  split; [done|]. by apply map_Forall_singleton.
Qed.

Lemma only_value h h' : value_hash (AStr "7") = Some h →
  0 + 1 ≤ Z.of_nat (length (supporters "job-1" h' (all_attested only_report))) ↔ h' = h.
Proof.
  intros Hh. assert (report_hash "job-1" (attested report_of_7 (one_report "7")) = Some h) as Hr
    by (unfold report_hash; cbn; by rewrite lookup_singleton_eq).
  change (all_attested only_report) with [attested report_of_7 (one_report "7")].
  unfold supporters. rewrite filter_cons, filter_nil. case_decide as Hd; rewrite Hr in Hd; cbn [length].
  - injection Hd as ->. split; [reflexivity|lia].
  - split; [lia|]. intros ->. congruence.
Qed.

Lemma round_completes_witness :
  ∃ n' fr v b1 b2 b3 b4,
    leader_round quiet_env two_observations.*1 only_report.*1 started = (Done tt, n') ∧
    Phase (leaderState (re n')) = PhaseFinal ∧ finalReport (leaderState (re n')) = Some fr ∧
    entries (fr_Report fr) !! "job-1" = Some v ∧ value_hash v = value_hash (AStr "7") ∧
    sent (below n') = [(None, b1); (None, b2); (None, b3); (None, b4)].
Proof.
  destruct (value_hash (AStr "7")) as [h|] eqn:Hh; [|by vm_compute in Hh].
  assert (is_utf8 (si_ID boot_info) = true) as Hself by (vm_compute; reflexivity).
  assert (is_utf8 base_hex = true) as Hl by (vm_compute; reflexivity).
  assert (is_u64 0 ∧ 0 ≤ pg_f pair_globals ∧ 2 * pg_f pair_globals + 2 < 2 ^ 63 ∧ 2 ≤ pg_n pair_globals < 2 ^ 63)
    as (He & Hf & Hf2 & Hn) by (unfold is_u64; cbn; lia).
  destruct (round_completes heard heard_takes 0 base_hex boot_info pair_globals base_pair Hself Hl He
    quiet_env [] wire_0 ∅ two_observations only_report "job-1" h (Nat.lt_0_succ 19) Hf Hf2 Hn
    two_observe eq_refl one_reports eq_refl (λ h', only_value h h' Hh) always_signs)
    as (n & n' & fr & v & data & b1 & b2 & b3 & b4 & sig & Hb & Hr & _ & Hp & Hfr & Hv & Hhv & Hs & _).
  unfold wire_0 in Hb. rewrite Hb. exists n', fr, v, b1, b2, b3, b4. rewrite Hs. by repeat split.
Defined.

(** ** Exchanges

    A follower with the key [base_pair], whose leader is another node, and that
    has the job of the price in its registry, with its assembler. *)
Definition round_of_other : common := {| Epoch := 0; Round := 1; Leader := "02bb" |}.

Definition worker : node wire := {|
  re := set_schedule None PacemakerRegistry (Some ∅)
    (set_mu_ready false true
      (NewReportingEngine false 0 "02bb" {| si_Addr := ""; si_ID := base_hex |}
        {| pg_n := 4; pg_f := 1 |} base_pair 1));
  below := {| sent := []; known := {["02bb"]} |};
  pm_registry := {["job-1" := set_ReportAssembler price_assembler (NewDirectReq price_params)]};
  listening := None; closed := ∅; next_chan := 2; spawned := [] |}.

Lemma worker_keyed : keyed worker.
Proof.
  split; [|reflexivity..].
  - split; [reflexivity|]. exists base_bytes. split; [apply base_key_bytes|apply base_decompress].
Qed.

Definition price_info : JobInfo :=
  {| info_JobID := "job-1"; info_JobType := DirectReqJob; info_Template := TParams price_params;
     info_Timeout := 1000000000 |}.
Definition price_request : ObserveReq :=
  {| oq_common := round_of_other; Jobs := Some [price_info] |}.

Definition price_job : Job :=
  match NewJobFromInfo price_info with Ok job => job | Error _ => NewDirectReq price_params end.

Lemma price_job_made : Forall2 (λ info job, NewJobFromInfo info = Ok job) (elems (Jobs price_request)) [price_job].
Proof. constructor; [vm_compute; reflexivity|constructor]. Qed.

(** The observation of the price in cents. *)
Definition price_observed : list (Job * result JobObservationResponse) :=
  match run_jobs quiet_env 0 [(price_job, price_info)] with Done rs => rs | _ => [] end.

Definition price_response : ObserveResp := response_to price_request [observed "250"].
Definition response_bytes : bytes :=
  match rpc_bytes base_hex MessageObserveRes TopicReporter (VObserveResp price_response)
          (signature_of (VObserveResp price_response)) with Ok b => b | Error _ => "" end.

Lemma price_run :
  run_jobs quiet_env 0 (zip [price_job] (elems (Jobs price_request))) = Done price_observed ∧
  errors price_observed.*2 = [] ∧ oks (shuffle (site quiet_env) price_observed.*2) = [observed "250"].
Proof. vm_compute. by repeat split. Qed.

Lemma response_said :
  says quiet_env worker MessageObserveRes (VObserveResp price_response)
    (signature_of (VObserveResp price_response)) response_bytes.
Proof. eexists. split; [vm_compute; reflexivity|]. split; vm_compute; reflexivity. Qed.

Lemma worker_open : open worker.
Proof. by split. Qed.

Lemma worker_round : of_this_round worker round_of_other.
Proof. by repeat split. Qed.

Lemma worker_in_bounds : is_i64 (curRound (re worker)) ∧ curRound (re worker) ≤ MAX_ROUNDS.
Proof. by vm_compute. Qed.

Definition after_response : wire := {| sent := [(Some "02bb", response_bytes)]; known := {["02bb"]} |}.

Lemma response_sent : SendMsg (leader (re worker)) response_bytes (below worker) = (Done None, after_response).
Proof. reflexivity. Qed.

Lemma price_response_ok :
  json_ok (VObserveResp (response_to price_request (oks (shuffle (site quiet_env) price_observed.*2)))).
Proof. destruct price_run as (_ & _ & ->). by repeat constructor. Qed.

Lemma price_response_said :
  says quiet_env worker MessageObserveRes
    (VObserveResp (response_to price_request (oks (shuffle (site quiet_env) price_observed.*2))))
    (signature_of (VObserveResp price_response)) response_bytes.
Proof. destruct price_run as (_ & _ & ->). exact response_said. Qed.

Lemma observation_exchange_witness :
  ProcessMessage quiet_env (signed (VObserveReq price_request)) worker =
    (Done None, set_below after_response (with_jobs price_observed.*1 worker)) ∧
  ∃ msg, arrives response_bytes msg.
Proof.
  destruct price_run as (Hrun & Herr & _). destruct worker_in_bounds as [Hi Hmax].
  destruct (observation_exchange (EL := plain_ecdsa_laws) (L := JSONCodec_laws) quiet_env
    (signed (VObserveReq price_request)) price_request [price_job] price_observed
    (signature_of (VObserveResp price_response)) response_bytes None after_response worker
    worker_keyed (json_carried base_hex eq_refl) worker_open eq_refl worker_round Hi Hmax
    price_job_made Hrun Herr price_response_ok price_response_said response_sent)
    as (Hp & msg & Harr & _).
  split; [exact Hp|]. by exists msg.
Defined.

(** The report on these observations. *)
Definition map_message : DecodedMsg := signed (VBroadcastObservationMap
  {| om_common := round_of_other; om_Observations := Some observation_bytes |}).
Definition report_question : DecodedMsg := signed (VReportReq
  {| rq_common := round_of_other; rq_Observations := Some observation_bytes |}).

Definition price_values : gmap string any := {["job-1" := AFloat (Strconv.Float64.div (Strconv.Float64.of_Z 3) (Strconv.Float64.of_Z 2))]}.
Definition price_report : ReportRes := {| rr_common := round_of_other; Reports := Some price_values |}.
Definition report_bytes : bytes :=
  match rpc_bytes base_hex MessageReportRes TopicReporter (VReportRes price_report)
          (signature_of (VReportRes price_report)) with Ok b => b | Error _ => "" end.

Lemma price_assembled :
  assemble_all worker (map_range (site quiet_env ++ [2%nat]) (reorganize quiet_env cached_observations)) ∅ =
  Done price_values.
Proof. vm_compute. reflexivity. Qed.

Lemma price_values_ok : entries_ok scalar_ok (Some price_values).
Proof.
  apply map_Forall_singleton. split; [done|]. vm_compute. reflexivity.
Qed.

Lemma price_report_ok : json_ok (VReportRes price_report).
Proof. split; [by repeat split|exact price_values_ok]. Qed.

Lemma report_said :
  says quiet_env worker MessageReportRes (VReportRes price_report)
    (signature_of (VReportRes price_report)) report_bytes.
Proof. eexists. split; [vm_compute; reflexivity|]. split; vm_compute; reflexivity. Qed.

Definition after_report : wire := {| sent := [(Some "02bb", report_bytes)]; known := {["02bb"]} |}.

Lemma report_sent : SendMsg (leader (re worker)) report_bytes (below worker) = (Done None, after_report).
Proof. reflexivity. Qed.


(** ** Sending the job of the price *)
Definition price_leader : node wire :=
  let n := base_node true base_hex 4 1 in
  set_re (set_schedule None PacemakerRegistry (Some {[1 := [NewDirectReq price_params]]}) (re n)) n.

Lemma price_job_ok : job_ok (NewDirectReq price_params).
Proof.
  split_and!; [done..|]. split_and!; [done..| |done]. repeat constructor.
Qed.

Lemma jobs_travel_witness :
  ∃ b msg q,
    handleObserve price_leader =
      (broadcast b;;
       mod_leader (λ l, set_Phase PhaseObserve (set_timers (Some NewTimer) (TimerGrace l) l))) price_leader ∧
    arrives b msg ∧ dm_Data msg = Ptr (VObserveReq q) ∧
    launch (elems (Jobs q)) worker =
      (Done (Some (zip [NewDirectReq price_params] (elems (Jobs q)))),
       with_jobs [NewDirectReq price_params] worker).
Proof.
  destruct (jobs_travel price_leader) as (b & msg & q & Hh & Ha & Hd & _ & Hl).
  - by vm_compute.
  - by repeat split.
  - constructor; [exact price_job_ok|constructor].
  - exists b, msg, q. split; [exact Hh|]. split; [exact Ha|]. split; [exact Hd|]. exact (Hl worker).
Defined.
