(* ===== verification/EngineInv.v ===== *)
(** * Invariants of an engine and of the network below it

    What every handler, goroutine and life-cycle call of an engine keeps, from
    what sending, asking for a peer and the few updates that matter keep: a
    predicate [I] on the network, one [L] on the engine, one [G] on the
    pacemaker's registry, the messages [M] that are sent, the values [V] that
    are sent under a header, and the messages [R] that arrive. *)

From S2P Require Import Prelude Bytes Crypto Strconv Json GoJson Jobs Rpc Observations.
From S2P Require Import Assembly Reporter ReporterSpec.

(** An update that brings the engine no observation and no report, no other id
    to send under, and no network to send on. *)
Record neutral (r r' : ReportingEngine) : Prop := {
  neutral_opts : serverOpts r' = serverOpts r;
  neutral_service : msgService r' = true → msgService r = true;
  neutral_observations : observations (leaderState r') ⊆ observations (leaderState r);
  neutral_reports : ∀ rep, rep ∈ ls_reports (leaderState r') →
    rep ∈ ls_reports (leaderState r) ∨ rep = zero_report
}.

(** The updates of the leader's state that [neutral] leaves out. *)
Definition with_observation (who : string) (m : ObserveResp) (l : LeaderState) : LeaderState :=
  set_observations
    (Store who (Some (group_responses (elems (JobResponses m)))) (observations l)) l.

Definition with_report (msg : DecodedMsg) (m : ReportRes) (l : LeaderState) : LeaderState :=
  set_reports (ls_reports l ++
    [{| sig := dm_Signature msg; from := FromId msg; Assembly.reports := Reports m |}]) l.

Class Custody `{Ecdsa} `{Codec} {net : Type} `{MessagingLayer net} (I : net → Prop)
    (L : ReportingEngine → Prop) (G : gmap string Job → Prop) (M : bytes → Prop)
    (V : Z → goval → Prop) (R : DecodedMsg → Prop) : Prop := {
  keep_SendMsg id msg : M msg → preserves I (SendMsg id msg);
  keep_BroadcastMsg msg : M msg → preserves I (BroadcastMsg msg);
  keep_IsPeer id : preserves I (IsPeer id);
  keep_neutral r r' : neutral r r' → L r → L r';
  keep_sent r headers topic v sig b :
    V headers v → L r → msgService r = true → rpc_bytes (si_ID (serverOpts r)) headers topic v sig = Ok b → M b;
  (* what may be sent, and as a report only what the registry gives *)
  keep_value headers v : headers ≠ MessageReportRes → headers ≠ MessageStatus → V headers v;
  keep_answer (n : node net) obs values c :
    G (pm_registry n) → assemble_all n obs ∅ = Done values →
    V MessageReportRes (VReportRes {| rr_common := c; Reports := Some values |});
  keep_observation r msg m :
    R msg → dm_Data msg = Ptr (VObserveResp m) → L r →
    L (set_leaderState (with_observation (FromId msg) m (leaderState r)) r);
  keep_report r msg m :
    R msg → dm_Data msg = Ptr (VReportRes m) → L r →
    L (set_leaderState (with_report msg m (leaderState r)) r)
}.

Section custody.
Context `{Nondet} `{Ecdsa} `{Codec} {net : Type} `{MessagingLayer net}.
Context (I : net → Prop) (L : ReportingEngine → Prop) (G : gmap string Job → Prop).
Context (M : bytes → Prop) (V : Z → goval → Prop) (R : DecodedMsg → Prop).
Context {K : Custody I L G M V R}.

Definition kept (n : node net) : Prop := I (below n) ∧ L (re n) ∧ G (pm_registry n).

Lemma kept_modify m :
  (∀ n, below (m n) = below n) → (∀ n, pm_registry (m n) = pm_registry n) →
  (∀ n, neutral (re n) (re (m n))) → preserves kept (modify m).
Proof.
  intros Hb Hg Hr. apply preserves_modify. intros n (Hn & Hl & Hm). unfold kept. rewrite Hb, Hg.
  split; [done|]. split; [|done]. by eapply keep_neutral.
Qed.

Lemma neutral_refl r : neutral r r.
Proof. split; auto. Qed.

Lemma kept_mod_re f : (∀ r, neutral r (f r)) → preserves kept (mod_re f).
Proof. intros Hf. by apply kept_modify; intros n; [..|apply Hf]. Qed.

Lemma kept_mod_cache f : preserves kept (mod_cache f).
Proof. apply kept_mod_re. intros r. by split; auto. Qed.

Lemma kept_mod_leader f :
  (∀ l, observations (f l) ⊆ observations l ∧
        ∀ rep, rep ∈ ls_reports (f l) → rep ∈ ls_reports l ∨ rep = zero_report) →
  preserves kept (mod_leader f).
Proof. intros Hf. apply kept_mod_re. intros r. destruct (Hf (leaderState r)). by split. Qed.

(** An update that leaves the engine alone. *)
Lemma kept_around m :
  (∀ n, below (m n) = below n) → (∀ n, pm_registry (m n) = pm_registry n) →
  (∀ n, re (m n) = re n) → preserves kept (modify m).
Proof. intros Hb Hg Hr. apply kept_modify; [done..|]. intros n. rewrite Hr. apply neutral_refl. Qed.

(** An update of the registry. *)
Lemma kept_registry m :
  (∀ n, below (m n) = below n) → (∀ n, re (m n) = re n) →
  (∀ n, G (pm_registry n) → G (pm_registry (m n))) → preserves kept (modify m).
Proof.
  intros Hb Hr Hm. apply preserves_modify. intros n (Hn & Hl & Hg). unfold kept. rewrite Hb, Hr. auto.
Qed.

Lemma kept_go t : preserves kept (go t).
Proof. by apply kept_around. Qed.

Lemma kept_through {A} (m : proc net A) :
  preserves I m → preserves kept (through m).
Proof.
  intros Hm. unfold through. preserve. intros n (Hn & Hl & Hg). unfold on_net, kept.
  specialize (Hm (below n) Hn). by destruct (m (below n)).
Qed.

Lemma kept_send_on c p : preserves kept (send_on c p).
Proof. unfold send_on, orchestrateLeadership. preserve; by apply kept_around. Qed.

(** *** Sending

    What is sent was built from the engine's own id, and is sent only while
    there is a network to send on. *)
Definition sendable (n : node net) (msg : bytes) : Prop := msgService (re n) = true → M msg.

Lemma kept_sends {A} (m : bytes → proc net A) msg n :
  (∀ msg, M msg → preserves I (m msg)) → sendable n msg → kept n → kept (through (m msg) n).2.
Proof.
  intros Hm Hs Hn. unfold through, gets_re, gets. unfold mbind, proc_bind.
  destruct (msgService (re n)) eqn:Hup; [|exact Hn]. destruct Hn as (Hn & Hl & Hg). unfold on_net, kept.
  specialize (Hm msg (Hs Hup) (below n) Hn). by destruct (m msg (below n)).
Qed.

Lemma kept_broadcast msg n : sendable n msg → kept n → kept (broadcast msg n).2.
Proof.
  intros Hs Hn. unfold broadcast, mbind, proc_bind.
  pose proof (kept_sends BroadcastMsg msg n keep_BroadcastMsg Hs Hn) as Hk.
  by destruct (through (BroadcastMsg msg) n) as [[]].
Qed.

Lemma kept_send_to id msg n : sendable n msg → kept n → kept (send_to id msg n).2.
Proof.
  intros Hs Hn. unfold send_to, mbind, proc_bind.
  pose proof (kept_sends (SendMsg id) msg n (λ m, keep_SendMsg id m) Hs Hn) as Hk.
  by destruct (through (SendMsg id msg) n) as [[]].
Qed.

Lemma sendable_built n headers topic v sig b :
  V headers v → kept n → rpc_bytes (si_ID (serverOpts (re n))) headers topic v sig = Ok b → sendable n b.
Proof. intros Hv (_ & Hl & _) Hb Hup. by eapply keep_sent. Qed.

(** A message is built, and then something is done with it. *)
Lemma kept_build {A} headers topic v sig (k : bytes → proc (node net) A) :
  V headers v → (∀ b n, sendable n b → kept n → kept (k b n).2) →
  preserves kept (build_or_panic headers topic v sig ≫= k).
Proof.
  intros Hv Hk n Hn. unfold build_or_panic, gets_re, gets. unfold mbind, proc_bind.
  destruct (rpc_bytes (si_ID (serverOpts (re n))) headers topic v sig) as [b|err] eqn:Hb;
    [|exact Hn]. apply Hk; [|done]. by eapply sendable_built.
Qed.

Lemma kept_build_broadcast {A} headers topic v sig (k : proc (node net) A) :
  V headers v → preserves kept k →
  preserves kept (b ← build_or_panic headers topic v sig; broadcast b;; k).
Proof.
  intros Hv Hk. apply kept_build; [done|]. intros b n Hb Hn. pose proof (kept_broadcast b n Hb Hn) as Hs.
  unfold mbind at 1, proc_bind at 1.
  destruct (broadcast b n) as [[[]|w|w] n']; [by apply Hk|exact Hs..].
Qed.

Lemma kept_respond_build headers topic v sig :
  V headers v → preserves kept (b ← build_or_panic headers topic v sig; to ← gets_re leader; send_to to b).
Proof. intros Hv. apply kept_build; [done|]. intros b n Hb Hn. by apply kept_send_to. Qed.

Lemma kept_broadcast_build headers topic v sig :
  V headers v → preserves kept (b ← build_or_panic headers topic v sig; broadcast b).
Proof. intros Hv. apply kept_build; [done|]. intros b n Hb Hn. by apply kept_broadcast. Qed.

Lemma kept_SignMessage env msg : preserves kept (SignMessage env msg).
Proof. unfold SignMessage. preserve. Qed.
End custody.

#[export] Hint Extern 2 =>
  match goal with K : Custody _ _ _ _ ?V _ |- ?V _ _ => apply (keep_value (Custody := K)); discriminate end
  : preserves.
#[export] Hint Resolve kept_mod_cache kept_go kept_through kept_send_on kept_SignMessage
  keep_IsPeer kept_respond_build kept_broadcast_build : preserves.
#[export] Hint Resolve kept_build_broadcast | 2 : preserves.
#[export] Hint Extern 3 (preserves (kept _ _ _) (mod_leader _)) =>
  (eapply kept_mod_leader; [typeclasses eauto|]; intros ?; split; [reflexivity|intros ? ?; left; assumption]) : preserves.
#[export] Hint Extern 3 (preserves (kept _ _ _) (mod_re _)) =>
  (eapply kept_mod_re; [typeclasses eauto|]; intros ?; split; auto; discriminate) : preserves.
#[export] Hint Extern 3 (preserves (kept _ _ _) (modify _)) =>
  (eapply kept_around; [typeclasses eauto|done..]) : preserves.

(** ** The handlers, the goroutines and the life cycle *)
Section operations.
Context `{Nondet} `{Ecdsa} `{Codec} {net : Type} `{MessagingLayer net}.
Context (I : net → Prop) (L : ReportingEngine → Prop) (G : gmap string Job → Prop).
Context (M : bytes → Prop) (V : Z → goval → Prop) (R : DecodedMsg → Prop).
Context {K : Custody I L G M V R}.
#[local] Abbreviation J := (kept (net := net) I L G).

Lemma kept_set_and_send p : preserves J (set_and_send p).
Proof. unfold set_and_send, send_phase. preserve. Qed.

Lemma kept_Stop : preserves J Stop.
Proof. unfold Stop, cleanupFunc. preserve. Qed.
#[local] Hint Resolve kept_set_and_send kept_Stop : preserves.

Lemma kept_respond env headers v : V headers v → preserves J (respond env headers v).
Proof. intros Hv. unfold respond. preserve. Qed.

Lemma kept_launch infos : preserves J (launch infos).
Proof. induction infos as [|i infos IH]; cbn [launch]; preserve. Qed.

Lemma kept_max_rounds : preserves J max_rounds_reached.
Proof. unfold max_rounds_reached. preserve. Qed.

Lemma kept_count_valid th b sgs : ∀ u v, preserves J (count_valid th b sgs u v).
Proof. induction sgs as [|sg sgs IH]; intros u v; cbn [count_valid]; preserve. Qed.

Lemma kept_VerifySigAndPeer msg from sig : preserves J (VerifySigAndPeer msg from sig).
Proof. unfold VerifySigAndPeer. preserve. Qed.
#[local] Hint Resolve kept_respond kept_launch kept_max_rounds kept_count_valid
  kept_VerifySigAndPeer : preserves.

(** The two handlers whose updates are not neutral. *)
Lemma kept_observed msg m :
  R msg → dm_Data msg = Ptr (VObserveResp m) →
  preserves J (mod_leader (with_observation (FromId msg) m)).
Proof.
  intros Hr Hd. apply preserves_modify. intros n (Hn & Hl & Hg). split; [exact Hn|].
  split; [|exact Hg]. by apply keep_observation.
Qed.

Lemma kept_reported msg m :
  R msg → dm_Data msg = Ptr (VReportRes m) → preserves J (mod_leader (with_report msg m)).
Proof.
  intros Hr Hd. apply preserves_modify. intros n (Hn & Hl & Hg). split; [exact Hn|].
  split; [|exact Hg]. by apply keep_report.
Qed.

Lemma sendable_other n headers topic v sig b :
  headers ≠ MessageReportRes → headers ≠ MessageStatus → J n →
  rpc_bytes (si_ID (serverOpts (re n))) headers topic v sig = Ok b → sendable M n b.
Proof.
  intros Hr Hs. apply (sendable_built I L G M V R). by apply keep_value.
Qed.

Lemma kept_ObserveResp msg m :
  R msg → dm_Data msg = Ptr (VObserveResp m) → preserves J (processObserveResp msg m).
Proof.
  intros Hr Hd. pose proof (kept_observed msg m Hr Hd) as Ho.
  unfold with_observation in Ho. unfold processObserveResp. preserve.
Qed.

Lemma kept_ReportRes env msg m :
  R msg → dm_Data msg = Ptr (VReportRes m) → preserves J (processReportRes env msg m).
Proof.
  intros Hr Hd. pose proof (kept_reported msg m Hr Hd) as Ho.
  unfold with_report in Ho. unfold processReportRes. preserve.
Qed.

(** The echo is built by hand. *)
Lemma kept_echo env : preserves J (sendFinalReportEcho env).
Proof.
  intros n Hn. unfold sendFinalReportEcho, gets_re, gets. unfold mbind at 1, proc_bind at 1.
  destruct (Encode _) as [b|]; [|exact Hn].
  pose proof (kept_SignMessage I L G env b n Hn) as Hs. unfold mbind at 1, proc_bind at 1.
  assert ((SignMessage env b n).2 = n) as Hsame.
  { unfold SignMessage, gets_re, gets. unfold mbind, proc_bind. by destruct (Sign _ _ _). }
  destruct (SignMessage env b n) as [[sg|w|w] n']; [|exact Hs..]. cbn in Hsame. subst n'.
  destruct (rpc_bytes _ _ _ _ _) as [msg|] eqn:Hb; [|exact Hn].
  assert (sendable M n msg) as Hm by (eapply sendable_other; [..|exact Hn|exact Hb]; discriminate).
  pose proof (kept_send_to I L G M V R (leader (id (re n))) msg n Hm Hn) as Hk.
  unfold mbind, proc_bind. by destruct (send_to _ _ n) as [[[]|w|w] n'].
Qed.
#[local] Hint Resolve kept_echo : preserves.

(** The answer to a request for a report. *)
Lemma kept_ReportReq env m : preserves J (processReportReq env m).
Proof.
  unfold processReportReq. destruct (UnmarshalJSON _ _) as [o|]; [|preserve].
  apply preserves_bind; [preserve|intros cached]. destruct (negb _); [preserve|].
  intros n Hn. unfold get. unfold mbind at 1, proc_bind at 1.
  destruct (assemble_all n _ ∅) as [values| |] eqn:Ha; [|exact Hn..].
  enough (preserves J (mod_cache (set_jobReports (Some values));;
    r ← gets_re id;
    respond env MessageReportRes (VReportRes {|
      rr_common := {| Epoch := epoch r; Round := u64 (curRound r); Leader := leader r |};
      Reports := Some values |});; mret (None (A := error)))) as Hp by by apply Hp.
  preserve. apply kept_respond. eapply keep_answer; [apply Hn|exact Ha].
Qed.
#[local] Hint Resolve kept_ReportReq : preserves.

Lemma kept_dispatch env msg : R msg → preserves J (dispatch env msg).
Proof.
  intros Hr. unfold dispatch. destruct (dm_Data msg) as [v|v] eqn:Hd; [|preserve].
  destruct v; first [by apply kept_ObserveResp|by apply kept_ReportRes|idtac];
    unfold processObserveReq, processObservationMap, processFinalReport,
      processFinalEcho, processProgressRound; preserve.
Qed.

Lemma kept_ProcessMessage env msg : R msg → preserves J (ProcessMessage env msg).
Proof. intros Hr. pose proof (kept_dispatch env msg Hr). unfold ProcessMessage, lock, unlock. preserve. Qed.

(** *** Goroutines *)
Lemma kept_broadcast_signed env headers v :
  V headers v → preserves J (broadcast_signed env headers v).
Proof. intros Hv. unfold broadcast_signed. preserve. Qed.

Lemma kept_map data : preserves J (broadcastObservationMap data).
Proof.
  intros n Hn. unfold broadcastObservationMap, gets_re, gets. unfold mbind at 1, proc_bind at 1.
  destruct (rpc_bytes _ _ _ _ _) as [msg|] eqn:Hb; [|exact Hn].
  assert (sendable M n msg) as Hm by (eapply sendable_other; [..|exact Hn|exact Hb]; discriminate).
  pose proof (kept_broadcast I L G M V R msg n Hm Hn) as Hk.
  unfold mbind, proc_bind. by destruct (broadcast msg n) as [[[]|w|w] n'].
Qed.

(** The next round starts without observations and reports. *)
Lemma kept_progress : preserves J progressToNextRound.
Proof.
  unfold progressToNextRound, make_chan. preserve. eapply kept_mod_leader; [exact K|].
  intros l. cbn. split; [apply map_empty_subseteq|]. intros rep ->%list_elem_of_singleton. by right.
Qed.
#[local] Hint Resolve kept_broadcast_signed kept_map kept_progress : preserves.

Lemma kept_run_task env t : preserves J (run_task env t).
Proof.
  destruct t as [[]| | | |]; cbn [run_task]; unfold handleObserve, handleGrace, handleReport,
    handleFinal, handleTransmit, sendReportReq; preserve.
Qed.

(** *** Life *)
Lemma kept_Start events : preserves J (Start events).
Proof. unfold Start, send_phase, lock, unlock. preserve. Qed.

(** An engine that is made knows nothing yet. *)
Lemma kept_initReporter lead e l s_info g key :
  (∀ r, serverOpts r = s_info → observations (leaderState r) = ∅ →
        ls_reports (leaderState r) = [zero_report] → L r) →
  preserves J (initReporter lead e l s_info g key).
Proof.
  intros Hl. unfold initReporter, lock, unlock, make_chan. preserve.
  apply preserves_modify. intros n (Hn & _ & Hg). split; [exact Hn|].
  split; [by apply Hl|exact Hg].
Qed.
End operations.
