(* ===== verification/Pacemaker.v ===== *)
(** * ocr/pacemaker.go and ocr/ocr.go

    The pacemaker elects the leader, runs the job listeners on it, brings the
    reporting engine up, and counts the requests for a new epoch; the OCR
    object gives it the size of the network.  The state of a whole node is
    here: the reporting engine on top of the server, and the pacemaker. *)

From S2P Require Import Prelude Bytes Crypto Strconv Json GoJson Jobs JobFiles Rpc LeaderSelection.
From S2P Require Import Transport Server Observations Assembly Reporter.

(** ** Data *)
Record OCRCtx := { PeerCount : Z; FaultyCount : Z; ID : string }.

Record EpochStats := {
  f : Z;     (* faulty nodes *)
  n : Z;     (* total peers *)
  ne : Z;    (* highest epoch number received *)
  e : Z;     (* current epoch number *)
  n_e0 : Z;  (* no of times e0 > e has been recorded *)
  new_e : Z
}.

Definition zero_stats : EpochStats := {| f := 0; n := 0; ne := 0; e := 0; n_e0 := 0; new_e := 0 |}.

(** Goroutines of the pacemaker. *)
Inductive pm_task :=
| PSendNewEpoch          (* go p.SendNewEpochMsg() *)
| PListen (job : Job).   (* go job.Listen(p.recEventsChan) *)

(** A node.  [p.leader] is nil and stays so; the timers are zero timers, whose
    nil channel never fires; [p.Reporter] is never nil. *)
Record Pacemaker (T : Type) := {
  Reporter : node (Server T);
  currEpochStat : EpochStats;
  ocrCtx : option OCRCtx;
  attached : bool;         (* msgService is not nil *)
  pm_recEvents : fifo;
  pm_spawned : list pm_task;
  state : OCRState         (* of the OCR object, which its readLoop updates *)
}.
Arguments Reporter {T} p.
Arguments currEpochStat {T} p.
Arguments ocrCtx {T} p.
Arguments attached {T} p.
Arguments pm_recEvents {T} p.
Arguments pm_spawned {T} p.
Arguments state {T} p.

Section updates.
Context {T : Type}.
Implicit Types (p : Pacemaker T).

Definition set_Reporter r p : Pacemaker T := {|
  Reporter := r; currEpochStat := currEpochStat p; ocrCtx := ocrCtx p; attached := attached p;
  pm_recEvents := pm_recEvents p; pm_spawned := pm_spawned p; state := state p |}.
Definition set_stats s p : Pacemaker T := {|
  Reporter := Reporter p; currEpochStat := s; ocrCtx := ocrCtx p; attached := attached p;
  pm_recEvents := pm_recEvents p; pm_spawned := pm_spawned p; state := state p |}.
Definition set_ctx c a p : Pacemaker T := {|
  Reporter := Reporter p; currEpochStat := currEpochStat p; ocrCtx := c; attached := a;
  pm_recEvents := pm_recEvents p; pm_spawned := pm_spawned p; state := state p |}.
Definition set_recEvents q p : Pacemaker T := {|
  Reporter := Reporter p; currEpochStat := currEpochStat p; ocrCtx := ocrCtx p;
  attached := attached p; pm_recEvents := q; pm_spawned := pm_spawned p; state := state p |}.
Definition pm_spawn t p : Pacemaker T := {|
  Reporter := Reporter p; currEpochStat := currEpochStat p; ocrCtx := ocrCtx p;
  attached := attached p; pm_recEvents := pm_recEvents p; pm_spawned := pm_spawned p ++ [t];
  state := state p |}.
Definition set_state s p : Pacemaker T := {|
  Reporter := Reporter p; currEpochStat := currEpochStat p; ocrCtx := ocrCtx p;
  attached := attached p; pm_recEvents := pm_recEvents p; pm_spawned := pm_spawned p;
  state := s |}.
End updates.

(** ** ocr.go *)

(** [float32(x)] of an integer: 24 bits of precision, ties to even. *)
Definition float32_int (x : Z) : Z :=
  if Z.abs x <? 2 ^ 24 then x else
  let unit := 2 ^ (Z.log2 (Z.abs x) - 23) in
  let q := x / unit in
  let r := x mod unit in
  unit * (if (unit <? 2 * r) || ((unit =? 2 * r) && Z.odd q) then q + 1 else q).

(** The number of faulty nodes for a count of peers: an integer division, whose
    result has nothing left to be rounded up. *)
Definition faulty_count (peerCount : Z) : Z := i64 (float32_int (Z.quot (peerCount - 1) 3)).

(** The goroutine of [OCR.Start]: the first count that the server announces. *)
Definition init_context (counts : list Z) (who : string) : outcome OCRCtx :=
  match counts with
  | [] => Blocked "peerCountChan"
  | peerCount :: _ =>
      Done {| PeerCount := peerCount; FaultyCount := faulty_count peerCount; ID := who |}
  end.

(** One message of [readLoop]. *)
Definition readLoop_step {T} (s : OCRState) : proc (Pacemaker T) unit := modify (set_state s).

(** ** pacemaker.go *)
Section pacemaker.
Context `{Nondet} `{Ecdsa} `{Codec} {T : Type} `{Transport T}.

Abbreviation P A := (proc (Pacemaker T) A).

Definition NewPaceMaker (s : Server T) (key : PrivateKey) : Pacemaker T := {|
  Reporter := {| re := zero_engine key; below := s; pm_registry := ∅; listening := None;
                 closed := ∅; next_chan := 1; spawned := [] |};
  currEpochStat := zero_stats; ocrCtx := None; attached := false; pm_recEvents := [];
  pm_spawned := []; state := PREPARE |}.

Definition on_reporter {A} (m : proc (node (Server T)) A) : P A :=
  λ p, let '(o, r) := m (Reporter p) in (o, set_Reporter r p).

Definition on_server {A} (m : proc (Server T) A) : P A := on_reporter (on_net m).

Definition SetOCRContext (ctx : OCRCtx) : P unit :=
  p ← get;
  let s := currEpochStat p in
  modify (λ p, set_stats {| f := u64 (FaultyCount ctx); n := u64 (PeerCount ctx); ne := ne s;
                            e := e s; n_e0 := n_e0 s; new_e := new_e s |}
                 (set_ctx (Some ctx) (attached p) p)).

Definition AttachMsgLayer : P unit := modify (λ p, set_ctx (ocrCtx p) true p).

(** [p.leader.String()] dereferences nil. *)
Definition PM_SendMsg (s : SendingSchme) (msg : bytes) (to : string) : P unit :=
  match s with
  | BROADCAST => on_server (BroadcastMsg msg);; mret tt
  | LEADER => panic "nil pointer dereference"
  | PEER => on_server (SendMsg to msg);; mret tt
  end.

(** The message of the resend timer and of [SendNewEpochMsg]: built without
    the envelope that a receiver takes off first. *)
Definition new_epoch_bytes (epochID : Z) : outcome bytes :=
  b ← MessageBuilder_SetData (VNewEpochMesage {| EpochID := epochID |})
        (MessageBuilder_SetTopic TopicPacemaker
          (MessageBuilder_SetHeaders MessageNewEpoch NewMessageBuilder));
  match MessageBuilder_Bytes b with
  | Error _ => Panicked "panic(err)"
  | Ok msg => Done msg
  end.

Definition SendNewEpochMsg : P unit :=
  p ← get;
  msg ← lift_outcome (new_epoch_bytes (e (currEpochStat p)));
  if attached p then on_server (BroadcastMsg msg);; mret tt
  else panic "nil pointer dereference".

Definition upateOCRState (s : OCRState) : P unit := readLoop_step s.

(** *** The choice of a leader; [looks i] is the table at the [i]-th look *)
Definition elect (fuel : nat) (looks : nat → peers_tree) (epoch : Z) : P ProtcolPeer :=
  p ← get;
  match ocrCtx p with
  | None => panic "nil pointer dereference"
  | Some ctx =>
      match exponentialBackoff fuel 0 initTickerTime 0 (i64 epoch) secretKey looks (ID ctx) with
      | None => block "no peers"
      | Some (leader, _) => mret leader
      end
  end.

(** *** New epochs *)
Definition switchToNewEpoch (fuel : nat) (looks : nat → peers_tree) : P unit :=
  p ← get;
  let s := currEpochStat p in
  let e' := u64 (2 * f s + 1 - ne s) in
  modify (set_stats {| f := f s; n := n s; ne := ne s; e := e'; n_e0 := 0; new_e := 0 |});;
  leader ← elect fuel looks e';
  match embedded leader with
  | None => panic "nil pointer dereference"
  | Some peer =>
      let lead := match ocrCtx p with
                  | Some ctx => String.eqb (peer_ID peer) (ID ctx)
                  | None => false
                  end in
      on_reporter Stop;;
      q ← gets pm_recEvents;
      on_reporter (Start (if lead then q else []))
  end.

Definition processNewEpochMsg (fuel : nat) (looks : nat → peers_tree) (msg : NewEpochMesage)
    : P unit :=
  p ← get;
  let s := currEpochStat p in
  let e0 := EpochID msg in
  if e s <? e0 then
    let count := u64 (n_e0 s + 1) in
    modify (set_stats {| f := f s; n := n s; ne := e0; e := e s; n_e0 := count; new_e := new_e s |});;
    if f s <? count then
      modify (set_stats {| f := f s; n := n s; ne := e0; e := e s; n_e0 := count;
                           new_e := u64 (f s + 1 - e0) |});;
      modify (pm_spawn PSendNewEpoch)
    else if u64 (2 * f s) <? count then switchToNewEpoch fuel looks
    else mret tt
  else mret tt.

(** The counts that are logged are read from the context, nil until the first
    peer is found.  The decoder only makes pointers, so the case of a change
    of leader, which is a value, is never taken. *)
Definition PM_ProcessMessage (fuel : nat) (looks : nat → peers_tree) (msg : DecodedMsg)
    : P (option error) :=
  match dm_Data msg with
  | Ptr (VNewEpochMesage m) =>
      p ← get;
      match ocrCtx p with
      | None => panic "nil pointer dereference"
      | Some _ => processNewEpochMsg fuel looks m;; mret None
      end
  | Val VChangeLeaderMessage => mret None
  | _ => mret (Some (Errorf "PACEMAKER RPC Handler: unkown rpc msg type"))
  end.

(** *** Jobs, on the leader *)
Section listeners.
Context `{JobFiles fs file}.
Variable toml_type : bytes → result string.
Variable toml_params : bytes → result DirectRequestTemplateParams.

(** The loop over the readers, by what each gives; [job.ID()] is called on
    what was read, which is nil for a type that is not supported. *)
Fixpoint launch_readers (readers : list (result bytes)) : P unit :=
  match readers with
  | [] => mret tt
  | reader :: readers =>
      match JobReader_Read toml_type toml_params reader JobFormatTOML with
      | Error _ => launch_readers readers
      | Ok None => panic "nil pointer dereference"
      | Ok (Some job) =>
          on_reporter (modify (λ r, {|
            re := re r; below := below r;
            pm_registry := <[dr_JobID job := job]> (pm_registry r);
            listening := listening r; closed := closed r; next_chan := next_chan r;
            spawned := spawned r |}));;
          modify (pm_spawn (PListen job));;
          launch_readers readers
      end
  end.

(** The whole function, on the files as they are; a source that is not a
    directory, or a directory that cannot be read, is logged. *)
Definition launchJobListeners (config : JobSourceConfig) (s : fs) : P unit :=
  if String.eqb (SourceType config) JobSourceDir then
    match ReadJobsFromDir (DirPath config) s with
    | Error _ => mret tt
    | Ok readers => launch_readers (map (λ r, ReadAll r s) readers)
    end
  else mret tt.
End listeners.

(** A listener sends its event, and the pacemaker's loop queues it. *)
Definition run_pm_task (t : pm_task) : P unit :=
  match t with
  | PSendNewEpoch => SendNewEpochMsg
  | PListen job =>
      event ← lift_outcome (Listen job);
      modify (λ p, set_recEvents (pm_recEvents p ++ [event]) p)
  end.

(** [waitForEvents]: polls until the deadline; [now i] is the clock and
    [queued i] the length of the queue at the [i]-th poll. *)
Fixpoint waitForEvents (fuel i : nat) (now : nat → Z) (queued : nat → nat) (deadline : Z)
    : option bool :=
  match fuel with
  | O => None
  | S fuel =>
      if now i <? deadline then
        if (0 <? queued i)%nat then Some true
        else waitForEvents fuel (S i) now queued deadline
      else Some false
  end.

(** *** Start, cut where it sleeps *)

(** The election, and the leader's listeners. *)
Definition jobsDir : string := "./jobs_def".
Definition jobs_source : JobSourceConfig :=
  {| SourceType := JobSourceDir; DirPath := jobsDir; APIURL := "" |}.

Definition Start_elect `{JobFiles fs file} (fuel : nat) (looks : nat → peers_tree)
    (toml_type : bytes → result string)
    (toml_params : bytes → result DirectRequestTemplateParams) (s : fs)
    : P (ProtcolPeer * bool) :=
  p ← get;
  leader ← elect fuel looks (e (currEpochStat p));
  let isLeader := match ocrCtx p with
                  | Some ctx => String.eqb (ServerID leader) (ID ctx)
                  | None => false
                  end in
  if isLeader then
    upateOCRState LEADING;;
    launchJobListeners toml_type toml_params jobs_source s;;
    mret (leader, true)
  else upateOCRState FOLLOWING;; mret (leader, false).

(** After the wait, with its result: the engine is initialised. *)
Definition Start_init (leader : ProtcolPeer) (lead events_came : bool) (address : string)
    (key : PrivateKey) : P unit :=
  (if lead && negb events_came then SendNewEpochMsg else mret tt);;
  p ← get;
  let s := currEpochStat p in
  on_reporter (initReporter lead (e s) (ServerID leader)
    {| si_Addr := address; si_ID := server_id (below (Reporter p)) |}
    {| pg_n := n s; pg_f := f s |} key).

(** Two seconds later. *)
Definition Start_run : P unit :=
  q ← gets pm_recEvents; on_reporter (Start q).
End pacemaker.

(** ** The context of the protocol *)

Lemma float32_small x : Z.abs x < 2 ^ 24 → float32_int x = x.
Proof. intros Hx. unfold float32_int. by apply Z.ltb_lt in Hx as ->. Qed.

(** For up to 2^24 peers the number of faulty nodes is the largest that the
    protocol allows: [3f + 1 <= n < 3f + 4]. *)
Theorem faulty_count_optimal peerCount :
  1 ≤ peerCount ≤ 2 ^ 24 →
  let f := faulty_count peerCount in
  0 ≤ f ∧ 3 * f + 1 ≤ peerCount < 3 * f + 4.
Proof.
  intros Hn. unfold faulty_count.
  pose proof (Z.quot_pos (peerCount - 1) 3 ltac:(lia) ltac:(lia)).
  pose proof (Z.quot_rem' (peerCount - 1) 3).
  pose proof (Z.rem_bound_pos (peerCount - 1) 3 ltac:(lia) ltac:(lia)).
  rewrite float32_small, i64_id; unfold is_i64; lia.
Qed.

Lemma faulty_count_optimal_witness :
  0 ≤ faulty_count 31 ∧ 3 * faulty_count 31 + 1 ≤ 31 < 3 * faulty_count 31 + 4.
Proof. apply (faulty_count_optimal 31). lia. Defined.

Section first_count.
Context {T : Type} `{Transport T} `{Codec}.
Implicit Types (s : Server T).

(** What the server goes through: peers found and status messages. *)
Inductive table_event :=
| PeerFound (peer : Peer)
| StatusReceived (infoMsg : InternalPeerServerInfoMsg).

Definition table_step (ev : table_event) : proc (Server T) unit :=
  match ev with
  | PeerFound peer => handleNewPeer peer
  | StatusReceived infoMsg => process_info infoMsg
  end.

Fixpoint table_run (evs : list table_event) s : Server T :=
  match evs with
  | [] => s
  | ev :: evs => table_run evs (table_step ev s).2
  end.

(** Nothing is announced before the first peer, whose count is 1. *)
Definition counts_from_one s : Prop :=
  match peerCountChan s with
  | [] => peers s = ∅
  | c :: _ => c = 1
  end.

Lemma counts_lock : preserves counts_from_one (Server.lock (T := T)).
Proof. unfold Server.lock. preserve. by intros s Hs. Qed.

Lemma counts_on_transport {A} (m : proc T A) : preserves counts_from_one (on_transport m).
Proof. intros s Hs. unfold on_transport. by destruct (m (transporter s)). Qed.

Lemma counts_handshake to : preserves counts_from_one (sendHandshakeMsgToPeerNode (T := T) to).
Proof. pose proof @counts_on_transport. unfold sendHandshakeMsgToPeerNode. preserve. Qed.

Lemma counts_step ev : preserves counts_from_one (table_step ev).
Proof.
  intros s Hs. destruct s as [i t l ps ap pc cc q sv]. unfold counts_from_one in Hs. cbn in Hs.
  destruct ev as [peer|infoMsg]; cbn [table_step].
  - unfold handleNewPeer, Server.lock, Server.unlock, announce_count. proc_simpl. cbn -[capacity sendHandshakeMsgToPeerNode].
    destruct l; [exact Hs|]. cbn -[capacity sendHandshakeMsgToPeerNode].
    destruct (Nat.leb_spec capacity (length pc)) as [Hc|Hc].
    + cbn. unfold counts_from_one. cbn. destruct pc; [cbn in Hc; unfold capacity in Hc; lia|done].
    + match goal with |- context [sendHandshakeMsgToPeerNode ?a ?x] =>
        pose proof (counts_handshake a x) as Hx; destruct (sendHandshakeMsgToPeerNode a x) as [[] s'] end;
        cbn in Hx |- *; apply Hx; unfold counts_from_one; cbn;
        (destruct pc as [|c pc]; cbn; [|exact Hs]); subst ps; unfold GetPeerCount; cbn;
        by rewrite map_size_insert_None.
  - unfold process_info, Server.lock, Server.unlock. proc_simpl. cbn. destruct l; [exact Hs|]. cbn.
    destruct (ps !! info_NetworkId infoMsg) as [p|] eqn:Hp; [|exact Hs].
    unfold counts_from_one. cbn. destruct pc as [|c pc]; [|exact Hs]. by subst ps.
Qed.

Lemma counts_run evs s : counts_from_one s → counts_from_one (table_run evs s).
Proof.
  revert s. induction evs as [|ev evs IH]; intros s Hs; [done|]. by apply IH, counts_step.
Qed.

(** The protocol always starts with one peer and no faulty node: whatever peers
    the server finds and however many, the context that the pacemaker is given
    is made from the first count announced. *)
Theorem context_of_one_peer pk (t : T) evs who ctx :
  init_context (peerCountChan (table_run evs (fresh_server pk t))) who = Done ctx →
  ctx = {| PeerCount := 1; FaultyCount := 0; ID := who |}.
Proof.
  pose proof (counts_run evs (fresh_server pk t) eq_refl) as Hc. unfold counts_from_one in Hc.
  destruct (peerCountChan _) as [|c cs]; cbn; [done|]. subst c. by intros [= <-].
Qed.
End first_count.

(** ** Requests for a new epoch *)
Section new_epochs.
Context `{Nondet} `{Ecdsa} `{Codec} {T : Type} `{Transport T}.
Implicit Types (p : Pacemaker T).

(** Messages one after the other; an error is logged. *)
Fixpoint process_all (fuel : nat) (looks : nat → peers_tree) (msgs : list DecodedMsg)
    : proc (Pacemaker T) unit :=
  match msgs with
  | [] => mret tt
  | msg :: msgs => PM_ProcessMessage fuel looks msg;; process_all fuel looks msgs
  end.

(** The epoch that a message asks for. *)
Definition requested (msg : DecodedMsg) : option Z :=
  match dm_Data msg with
  | Ptr (VNewEpochMesage m) => Some (EpochID m)
  | _ => None
  end.

(** The epochs above [e] that are asked for, in order. *)
Definition higher (e : Z) (msgs : list DecodedMsg) : list Z :=
  filter (λ e0, e < e0) (omap requested msgs).

(** What a list of requests above the current epoch leaves. *)
Definition count_request (p : Pacemaker T) (e0 : Z) : Pacemaker T :=
  let s := currEpochStat p in
  let count := u64 (n_e0 s + 1) in
  let p' := set_stats {| f := f s; n := n s; ne := e0; e := e s; n_e0 := count;
                         new_e := if f s <? count then u64 (f s + 1 - e0) else new_e s |} p in
  if f s <? count then pm_spawn PSendNewEpoch p' else p'.

(** The second threshold is only looked at when the first is not met, where
    it cannot be met either. *)
Lemma thresholds x count : 0 ≤ x < 2 ^ 63 → count ≤ x → (u64 (2 * x) <? count) = false.
Proof. intros Hx Hc. rewrite u64_id by (unfold is_u64; lia). apply Z.ltb_ge. lia. Qed.

Lemma processNewEpochMsg_spec fuel looks m p :
  0 ≤ f (currEpochStat p) < 2 ^ 63 →
  processNewEpochMsg fuel looks m p =
    (Done tt, if e (currEpochStat p) <? EpochID m then count_request p (EpochID m) else p).
Proof.
  intros Hf. unfold processNewEpochMsg, count_request. proc_simpl.
  destruct (e (currEpochStat p) <? EpochID m); [|done].
  destruct (Z.ltb_spec (f (currEpochStat p)) (u64 (n_e0 (currEpochStat p) + 1))) as [Hc|Hc];
    [done|]. by rewrite thresholds by lia.
Qed.

Lemma PM_ProcessMessage_spec fuel looks msg ctx p :
  ocrCtx p = Some ctx → 0 ≤ f (currEpochStat p) < 2 ^ 63 →
  ∃ r, PM_ProcessMessage fuel looks msg p =
    (Done r, foldl count_request p (higher (e (currEpochStat p)) [msg])).
Proof.
  intros Hc Hf. unfold PM_ProcessMessage, higher, requested. proc_simpl. cbn [omap list_omap].
  destruct (dm_Data msg) as [v|v]; [|destruct v; by eexists].
  destruct v; try by eexists. rewrite Hc, processNewEpochMsg_spec by done.
  rewrite filter_cons, filter_nil.
  destruct (Z.ltb_spec (e (currEpochStat p)) (EpochID m)); [rewrite decide_True by done|
    rewrite decide_False by lia]; by eexists.
Qed.

Lemma count_request_keeps p e0 :
  let p' := count_request p e0 in
  e (currEpochStat p') = e (currEpochStat p) ∧ f (currEpochStat p') = f (currEpochStat p) ∧
  n (currEpochStat p') = n (currEpochStat p) ∧ ocrCtx p' = ocrCtx p ∧
  Reporter p' = Reporter p ∧ state p' = state p.
Proof. cbv zeta. unfold count_request. by destruct (_ <? _). Qed.

Lemma count_requests_keep l p :
  let p' := foldl count_request p l in
  e (currEpochStat p') = e (currEpochStat p) ∧ f (currEpochStat p') = f (currEpochStat p) ∧
  n (currEpochStat p') = n (currEpochStat p) ∧ ocrCtx p' = ocrCtx p ∧
  Reporter p' = Reporter p ∧ state p' = state p.
Proof.
  revert p. induction l as [|e0 l IH]; intros p; [done|]. cbn [foldl].
  destruct (IH (count_request p e0)) as (-> & -> & -> & -> & -> & ->).
  apply count_request_keeps.
Qed.

Lemma process_all_spec fuel looks msgs ctx p :
  ocrCtx p = Some ctx → 0 ≤ f (currEpochStat p) < 2 ^ 63 →
  process_all fuel looks msgs p =
    (Done tt, foldl count_request p (higher (e (currEpochStat p)) msgs)).
Proof.
  revert p. induction msgs as [|msg msgs IH]; intros p Hc Hf; [done|]. cbn [process_all].
  destruct (PM_ProcessMessage_spec fuel looks msg ctx p Hc Hf) as (r & Hr).
  unfold mbind, proc_bind. rewrite Hr.
  destruct (count_requests_keep (higher (e (currEpochStat p)) [msg]) p)
    as (He & Hf' & _ & Hc' & _).
  rewrite IH by congruence. rewrite He, <-foldl_app. f_equal. f_equal.
  unfold higher. change (msg :: msgs) with ([msg] ++ msgs). by rewrite omap_app, filter_app.
Qed.

(** The epoch never changes: whatever messages arrive, and however many ask for
    a higher epoch, the pacemaker stays in its epoch and neither stops nor
    restarts the reporting engine. *)
Theorem epoch_never_changes fuel looks msgs ctx p :
  ocrCtx p = Some ctx → 0 ≤ f (currEpochStat p) < 2 ^ 63 →
  ∃ p', process_all fuel looks msgs p = (Done tt, p') ∧
    e (currEpochStat p') = e (currEpochStat p) ∧ Reporter p' = Reporter p ∧ state p' = state p.
Proof.
  intros Hc Hf. eexists. split; [by eapply process_all_spec|].
  edestruct count_requests_keep as (? & _ & _ & _ & ? & ?). done.
Qed.

Lemma count_requests_counted l p c :
  n_e0 (currEpochStat p) = c → 0 ≤ c → 0 ≤ f (currEpochStat p) →
  c + Z.of_nat (length l) < 2 ^ 64 →
  let p' := foldl count_request p l in
  n_e0 (currEpochStat p') = c + Z.of_nat (length l) ∧
  ne (currEpochStat p') = default (ne (currEpochStat p)) (last l) ∧
  pm_spawned p' = pm_spawned p ++
    replicate (Z.to_nat (c + Z.of_nat (length l) - Z.max c (f (currEpochStat p)))) PSendNewEpoch.
Proof.
  revert p c. induction l as [|e0 l IH]; intros p c Hc Hc0 Hf Hl; cbv zeta.
  - cbn [length foldl last from_option]. replace (Z.to_nat _) with 0%nat by lia.
    rewrite app_nil_r. split; [cbn; lia|done].
  - cbn [length] in Hl |- *. cbn [foldl].
    assert (Hu : u64 (c + 1) = c + 1) by (apply u64_id; unfold is_u64; lia).
    assert (Hn : n_e0 (currEpochStat (count_request p e0)) = c + 1)
      by (unfold count_request; rewrite Hc, Hu; by destruct (_ <? _)).
    destruct (count_request_keeps p e0) as (_ & Hf' & _).
    destruct (IH (count_request p e0) (c + 1) Hn ltac:(lia) ltac:(lia) ltac:(lia))
      as (Hcount & Hne & Hsp). rewrite Hcount, Hne, Hsp, Hf'.
    split; [lia|]. split.
    + unfold count_request. rewrite last_cons. destruct (last l); [done|]. cbn.
      by destruct (_ <? _).
    + unfold count_request. rewrite Hc, Hu.
      destruct (Z.ltb_spec (f (currEpochStat p)) (c + 1)); cbn [pm_spawned pm_spawn set_stats].
      * rewrite <-app_assoc. f_equal. cbn [app]. rewrite <-replicate_S. f_equal. lia.
      * f_equal. f_equal. lia.
Qed.

(** C25: requests are counted: after messages with [k] requests for a higher
    epoch the count is [k], the highest epoch is the one asked for last, and
    each request from the [f+1]-st on makes the node send a request of its own.
    *)
Theorem new_epochs_counted fuel looks msgs ctx p :
  ocrCtx p = Some ctx → 0 ≤ f (currEpochStat p) < 2 ^ 63 → n_e0 (currEpochStat p) = 0 →
  let asked := higher (e (currEpochStat p)) msgs in
  Z.of_nat (length asked) < 2 ^ 64 →
  ∃ p', process_all fuel looks msgs p = (Done tt, p') ∧
    n_e0 (currEpochStat p') = Z.of_nat (length asked) ∧
    ne (currEpochStat p') = default (ne (currEpochStat p)) (last asked) ∧
    pm_spawned p' = pm_spawned p ++
      replicate (length asked - Z.to_nat (f (currEpochStat p))) PSendNewEpoch.
Proof.
  intros Hc Hf Hz asked Hl. subst asked. eexists. split; [by eapply process_all_spec|].
  destruct (count_requests_counted (higher (e (currEpochStat p)) msgs) p 0 Hz ltac:(done) ltac:(lia) ltac:(lia)) as (-> & -> & ->).
  split; [done|]. split; [done|]. f_equal. f_equal. lia.
Qed.
End new_epochs.

(** ** The node's own request *)

(** A message without an envelope, read as one: none of its fields is a field
    of the envelope. *)
Lemma bare_message_decodes m b :
  message_ok m → Encode (VMessage m) = Ok b →
  Decode KRPCMessage b = Ok (VRPCMessage (zero go_rpcmessage)).
Proof.
  intros Hm. cbn [Encode Decode JSONCodec JSONCodec_Encode JSONCodec_Decode].
  unfold Marshal, unmarshal_as, Unmarshal. rewrite result_bind_ok. intros (j & Hj & [= <-]).
  assert (Hd : 0 < max_depth) by (unfold max_depth; lia).
  rewrite parse_print_wf by apply (enc_wf (go_message_lawful max_depth Hd) Hm Hj).
  destruct m as [h t x], Hm as [Hh Ht]. cbn [enc go_message Headers msg_Topic Data] in *.
  open_fields max_depth. reflexivity.
Qed.

Section own_request.
Context `{Nondet} `{Ecdsa} {T : Type} `{Transport T}.

(** The request for a new epoch that a node broadcasts is not read by anybody:
    it is sent without the envelope, so that what a receiver takes from it has
    no payload and is dropped, whatever its handlers are. *)
Theorem own_request_unreadable epochID :
  is_u64 epochID →
  ∃ b rpcMsg, new_epoch_bytes epochID = Done b ∧
    (∀ p : Pacemaker T, attached p = true → e (currEpochStat p) = epochID →
       SendNewEpochMsg p = (on_server (BroadcastMsg b);; mret tt) p) ∧
    Decode KRPCMessage b = Ok (VRPCMessage rpcMsg) ∧ is_ok (DefaultRPCDecoder rpcMsg) = false ∧
    ∀ S to_server handlers (s : S), process_rpc to_server handlers rpcMsg s = (Done tt, s).
Proof.
  intros He.
  destruct (JSONCodec_Encode_total (VNewEpochMesage {| EpochID := epochID |}) He) as (d & Hd).
  set (m := {| Headers := MessageNewEpoch; msg_Topic := TopicPacemaker; Data := Some d |}).
  assert (Hm : message_ok m) by (split; cbn; unfold MessageNewEpoch, TopicPacemaker; lia).
  destruct (JSONCodec_Encode_total (VMessage m) Hm) as (b & Hb).
  assert (Hbytes : new_epoch_bytes epochID = Done b).
  { unfold new_epoch_bytes, MessageBuilder_SetData. cbn [Encode JSONCodec]. rewrite Hd.
    cbn [mbind outcome_bind]. unfold MessageBuilder_Bytes, MessageBuilder_Build.
    cbn [mb_data mb_headers mb_topic MessageBuilder_SetTopic MessageBuilder_SetHeaders
      mbind result_bind Encode JSONCodec].
    subst m. by rewrite Hb. }
  assert (Hdec : is_ok (DefaultRPCDecoder (zero go_rpcmessage)) = false)
    by (vm_compute; reflexivity).
  exists b, (zero go_rpcmessage). split; [done|]. split; [|split; [|split; [done|]]].
  - intros p Ha <-. unfold SendNewEpochMsg, lift_outcome. proc_simpl. by rewrite Hbytes, Ha.
  - by apply (bare_message_decodes m b Hm).
  - intros S ts hs s. unfold process_rpc. by destruct (DefaultRPCDecoder (zero go_rpcmessage)).
Qed.
End own_request.

(** ** The leader's jobs *)
Section jobs.
Context `{Nondet} `{Ecdsa} {T : Type} `{Transport T}.
Context `{JobFiles fs file} (toml_type : bytes → result string)
  (toml_params : bytes → result DirectRequestTemplateParams).
Implicit Types (p : Pacemaker T).

Abbreviation read := (λ r, JobReader_Read toml_type toml_params r JobFormatTOML).

(** The jobs of the files that can be read. *)
Definition job_of (r : result bytes) : option Job :=
  match read r with Ok (Some job) => Some job | _ => None end.

(** What launching the listeners of these files does. *)
Definition launched (contents : list (result bytes)) p (o : outcome unit) p' : Prop :=
  if existsb (λ r, match read r with Ok None => true | _ => false end) contents
  then o = Panicked "nil pointer dereference"
  else o = Done tt ∧
    pm_registry (Reporter p') =
      foldl (λ r job, <[dr_JobID job := job]> r) (pm_registry (Reporter p)) (omap job_of contents) ∧
    pm_spawned p' = pm_spawned p ++ map PListen (omap job_of contents) ∧
    currEpochStat p' = currEpochStat p ∧ re (Reporter p') = re (Reporter p).

Lemma readers_launched contents : ∀ p,
  let '(o, p') := launch_readers toml_type toml_params contents p in launched contents p o p'.
Proof.
  unfold launched. induction contents as [|r contents IH]; intros p.
  - cbn. by rewrite app_nil_r.
  - cbn [launch_readers existsb].
    change (omap job_of (r :: contents)) with
      (match job_of r with
       | Some job => job :: omap job_of contents
       | None => omap job_of contents
       end).
    assert (Hj : job_of r = match read r with Ok (Some job) => Some job | _ => None end) by done.
    destruct (read r) as [[job|]|err]; rewrite Hj; cbn [orb]; [|done|apply IH].
    unfold on_reporter. proc_simpl. cbn [launch_readers].
    match goal with |- context [launch_readers _ _ contents ?q] =>
      specialize (IH q); destruct (launch_readers toml_type toml_params contents q) as [o p'] end.
    destruct (existsb _ contents); [done|]. destruct IH as (-> & -> & -> & -> & ->).
    cbn. by rewrite <-app_assoc.
Qed.

(** C32: the listeners of a leader. When the source is a directory that can be
    read and whose files, directories apart, can all be opened, every file that
    holds a job is registered under its id and listened to, in the order of the
    directory, and the files that cannot be read are passed over; but one file
    with a job of another type brings the process down, wherever it is. When
    some file cannot be opened, or the source is not a directory, nothing is
    launched at all. *)
Theorem listeners_launched config s p files :
  ReadDir (DirPath config) s = Ok files →
  let opened := λ name f, Open (Join (DirPath config) name) s = Ok f in
  (∀ readers, SourceType config = JobSourceDir → Forall2 opened (regular files) readers →
     let '(o, p') := launchJobListeners toml_type toml_params config s p in
     launched (map (λ f, ReadAll f s) readers) p o p') ∧
  (SourceType config ≠ JobSourceDir ∨ (∃ name, name ∈ regular files ∧ ∀ f, ¬ opened name f) →
     launchJobListeners toml_type toml_params config s p = (Done tt, p)).
Proof.
  intros Hdir opened. unfold launchJobListeners, ReadJobsFromDir. rewrite Hdir. cbn [mbind result_bind].
  split.
  - intros readers -> Hr%open_files_ok. rewrite Hr. apply readers_launched.
  - intros [Hs%String.eqb_neq|(name & Hin & Hno)]; [by rewrite Hs|]. destruct (String.eqb _ _); [|done].
    destruct (open_files _ _ _) as [readers|] eqn:Hr; [|done].
    apply open_files_ok in Hr. apply list_elem_of_lookup_1 in Hin as [i Hi].
    destruct (Forall2_lookup_l _ _ _ _ _ Hr Hi) as (f & _ & Hf). by destruct (Hno f).
Qed.
End jobs.

(** ** The wait for events *)
Section waiting.
Context (now : nat → Z) (queued : nat → nat).

(** A poll is at least half a second after the one before. *)
Hypothesis half_second : ∀ i, now i + 500 * 10 ^ 6 ≤ now (S i).

Lemma clock_advances i j : (i ≤ j)%nat → now i ≤ now j.
Proof. induction 1 as [|j _ IH]; [done|]. pose proof (half_second j). lia. Qed.

Lemma waitForEvents_from fuel i deadline :
  (0 < fuel)%nat → deadline ≤ now i + 500 * 10 ^ 6 * (Z.of_nat fuel - 1) →
  ∃ b, waitForEvents fuel i now queued deadline = Some b ∧
    (b = true ↔ ∃ j, (i ≤ j)%nat ∧ now j < deadline ∧ (0 < queued j)%nat).
Proof.
  revert i. induction fuel as [|fuel IH]; intros i Hf Hd; [lia|]. cbn [waitForEvents].
  destruct (Z.ltb_spec (now i) deadline) as [Hn|Hn].
  - destruct (Nat.ltb_spec 0 (queued i)) as [Hq|Hq].
    + exists true. split; [done|]. split; [|done]. intros _. by exists i.
    + pose proof (half_second i) as Hs. destruct (IH (S i)) as (b & -> & Hb); [lia..|].
      exists b. split; [done|]. rewrite Hb. split; intros (j & Hj & Hjd & Hjq).
      * exists j. split; [lia|done].
      * exists j. split; [|done]. assert (i ≠ j) by (intros ->; lia). lia.
  - exists false. split; [done|]. split; [done|]. intros (j & Hj & Hjd & _).
    pose proof (clock_advances i j Hj). lia.
Qed.

(** C33: the wait for the first events ends: the deadline is noticed after at
    most as many polls as there are half seconds until then, and the answer is
    whether some poll before the deadline finds an event. *)
Theorem waitForEvents_ends fuel deadline :
  (0 < fuel)%nat → deadline ≤ now 0%nat + 500 * 10 ^ 6 * (Z.of_nat fuel - 1) →
  ∃ b, waitForEvents fuel 0 now queued deadline = Some b ∧
    (b = true ↔ ∃ i, now i < deadline ∧ (0 < queued i)%nat).
Proof.
  intros Hf Hd. destruct (waitForEvents_from fuel 0 deadline Hf Hd) as (b & Hb & Hi).
  exists b. split; [done|]. rewrite Hi. split; intros (i & ?); exists i; intuition lia.
Qed.
End waiting.

(** ** Runs *)

(** A transport that delivers nothing. *)
#[local] Instance silent_transport : Transport unit := {|
  t_SendMsg _ _ := mret None; t_Broadcast _ := mret tt; t_Stop := mret None; t_ID _ := "QmB"; t_Addr _ := "" |}.

#[local] Existing Instance in_order.
#[local] Existing Instance plain_ecdsa.

Definition three_peers : list table_event :=
  [PeerFound {| peer_ID := "QmA"; Addr := "" |}; PeerFound {| peer_ID := "QmC"; Addr := "" |};
   StatusReceived {| info_NetworkId := "QmC"; info_ListenAddr := ""; info_ServerId := "02cc" |};
   PeerFound {| peer_ID := "QmD"; Addr := "" |}].

(** A directory of one file, beside another directory. *)
#[local] Instance one_file : JobFiles unit string := {|
  ReadDir _ _ := Ok [("old", true); ("price.toml", false)];
  Open path _ := if String.eqb path "jobs_def/price.toml" then Ok path
                 else Error (Errorf "no such file or directory");
  ReadAll _ _ := Ok "type = 'directreq'"
|}.

Lemma listeners_launched_witness :
  let p := NewPaceMaker (fresh_server "02bb" tt) base_pair in
  let '(o, p') := launchJobListeners (λ _, Ok DirectReqJob) (λ _, Ok price_params) jobs_source tt p in
  o = Done tt ∧ is_Some (pm_registry (Reporter p') !! "job-1").
Proof.
  intros p. pose proof (listeners_launched (λ _, Ok DirectReqJob) (λ _, Ok price_params) jobs_source tt p
    [("old", true); ("price.toml", false)] eq_refl) as [Hl _].
  specialize (Hl ["jobs_def/price.toml"] eq_refl).
  assert (Forall2 (λ name f, Open (Join (DirPath jobs_source) name) tt = Ok f)
    (regular [("old", true); ("price.toml", false)]) ["jobs_def/price.toml"]) as Hf.
  { change (regular _) with ["price.toml"]. constructor; [reflexivity|constructor]. }
  specialize (Hl Hf).
  destruct (launchJobListeners _ _ _ _ _) as [o p']. destruct Hl as (Ho & Hr & _).
  split; [exact Ho|]. rewrite Hr. by eexists.
Defined.

Lemma context_of_one_peer_witness :
  let s := table_run three_peers (fresh_server "02bb" tt) in
  ∃ ctx, init_context (peerCountChan s) "02bb" = Done ctx ∧ GetPeerCount s = 3%nat ∧
    ctx = {| PeerCount := 1; FaultyCount := 0; ID := "02bb" |}.
Proof.
  intros s. eexists. split; [vm_compute; reflexivity|]. split; [vm_compute; reflexivity|].
  apply (context_of_one_peer "02bb" tt three_peers). vm_compute. reflexivity.
Defined.

(** A pacemaker in epoch 0, among four nodes one of which may be faulty. *)
Definition pm_of_four : Pacemaker unit :=
  set_stats {| f := 1; n := 4; ne := 0; e := 0; n_e0 := 0; new_e := 0 |}
    (set_ctx (Some {| PeerCount := 4; FaultyCount := 1; ID := "02bb" |}) true
      (NewPaceMaker (table_run three_peers (fresh_server "02bb" tt)) base_pair)).

Definition request (from : string) (epochID : Z) : DecodedMsg := {|
  FromId := from; Topic := TopicPacemaker;
  dm_Data := Ptr (VNewEpochMesage {| EpochID := epochID |}); dm_Signature := no_signature |}.

Definition requests : list DecodedMsg :=
  [request "02aa" 1; request "02cc" 1; request "02cc" 0; request "02dd" 7].

Lemma epoch_never_changes_witness :
  ∃ p', process_all 1 (λ _, ∅) requests pm_of_four = (Done tt, p') ∧
    e (currEpochStat p') = 0 ∧ Reporter p' = Reporter pm_of_four ∧ state p' = PREPARE.
Proof.
  apply (epoch_never_changes 1 (λ _, ∅) requests {| PeerCount := 4; FaultyCount := 1; ID := "02bb" |}
    pm_of_four); [reflexivity|cbn; lia].
Defined.

Lemma new_epochs_counted_witness :
  ∃ p', process_all 1 (λ _, ∅) requests pm_of_four = (Done tt, p') ∧
    n_e0 (currEpochStat p') = 3 ∧ ne (currEpochStat p') = 7 ∧
    pm_spawned p' = [PSendNewEpoch; PSendNewEpoch].
Proof.
  apply (new_epochs_counted 1 (λ _, ∅) requests
    {| PeerCount := 4; FaultyCount := 1; ID := "02bb" |} pm_of_four);
    [reflexivity|cbn; lia|reflexivity|vm_compute; reflexivity].
Defined.

Lemma own_request_unreadable_witness :
  ∃ b rpcMsg, new_epoch_bytes 5 = Done b ∧ Decode KRPCMessage b = Ok (VRPCMessage rpcMsg) ∧
    is_ok (DefaultRPCDecoder rpcMsg) = false.
Proof.
  destruct (own_request_unreadable (T := unit) 5 ltac:(unfold is_u64; lia))
    as (b & rpcMsg & Hb & _ & Hd & Hr & _).
  by exists b, rpcMsg.
Defined.

(** Polls every half second, an event at the fourth. *)
Lemma waitForEvents_ends_witness :
  ∃ b, waitForEvents 21 0 (λ i, 500 * 10 ^ 6 * Z.of_nat i) (λ i, if (i =? 3)%nat then 1 else 0)%nat
      (10 * 10 ^ 9) = Some b ∧
    (b = true ↔ ∃ i, 500 * 10 ^ 6 * Z.of_nat i < 10 * 10 ^ 9 ∧
      (0 < (if (i =? 3)%nat then 1 else 0))%nat).
Proof.
  apply (waitForEvents_ends (λ i, 500 * 10 ^ 6 * Z.of_nat i)
    (λ i, if (i =? 3)%nat then 1 else 0)%nat); intros; lia.
Defined.
