(* ===== verification/System.v ===== *)
(** * A whole node

    The pacemaker over the reporting engine over the server over a transport:
    what [OCR.Start] puts together, as one step relation, and what holds in
    every state that a node can come to. *)

From S2P Require Import Prelude Bytes Crypto Strconv Json GoJson Jobs JobFiles Rpc LeaderSelection.
From S2P Require Import Transport Server Observations Assembly Reporter ReporterSpec HandlerSpec.
From S2P Require Import Round Pacemaker EngineInv.

(** ** What the engine does with its network

    Whatever is kept by sending, broadcasting and asking for a peer is kept by
    everything that the engine does. *)
Section interface.
Context `{Nondet} `{Ecdsa} `{Codec} {net : Type} `{MessagingLayer net} (I : net → Prop).

Class Kept : Prop := {
  kept_custody :: Custody I (λ _, True) (λ _, True) (λ _, True) (λ _ _, True) (λ _, True)
}.

Lemma any_custody :
  (∀ id msg, preserves I (SendMsg id msg)) → (∀ msg, preserves I (BroadcastMsg msg)) →
  (∀ id, preserves I (IsPeer id)) → Kept.
Proof. by repeat split. Qed.

Lemma below_kept {A} (m : proc (node net) A) :
  preserves (kept I (λ _, True) (λ _, True)) m → preserves (λ n, I (below n)) m.
Proof. intros Hm n Hn. by apply Hm. Qed.
End interface.

(** ** The engine of a node

    Until the pacemaker initialises it an engine is dormant: at most one
    message has locked it. After that it is in the first round of epoch 0. *)
Section engine.
Context `{Nondet} `{Ecdsa} `{Codec} {net : Type} `{MessagingLayer net}.
Implicit Types (r : node net).

Record dormant (key : PrivateKey) r : Prop := {
  dormant_re : re r = set_mu_ready (mu (re r)) false (zero_engine key);
  dormant_spawned : spawned r = []
}.

(** One peer, none of them faulty. *)
Definition one_peer : PacemakerGlobals := {| pg_n := 1; pg_f := 0 |}.

Definition in_round r : Prop :=
  ∃ l lead, frozen 0 l r ∧ simulated 0 l one_peer lead r.

Definition engine_ok (key : PrivateKey) r : Prop := dormant key r ∨ in_round r.

Lemma dormant_message env msg key r : dormant key r → dormant key (ProcessMessage env msg r).2.
Proof.
  intros Hd. pose proof Hd as [Hr Hs].
  unfold ProcessMessage, lock, unlock, gets_re, gets, mod_re, modify. proc_simpl.
  destruct (mu (re r)); [exact Hd|]. cbn. rewrite Hr. by split.
Qed.

Lemma engine_ok_step key r r' : engine_ok key r → step r r' → engine_ok key r'.
Proof.
  intros [Hd|(l & lead & Hf & Hsim)] Hs.
  - left. destruct Hs as [env msg r|env t l1 l2 r Hsp|b r|g r].
    + by apply dormant_message.
    + rewrite (dormant_spawned _ _ Hd) in Hsp. by destruct l1.
    + by destruct Hd.
    + by destruct Hd.
  - right. exists l, lead. split; [by eapply frozen_step|by eapply sim_step].
Qed.

(** What the pacemaker makes of a dormant engine. *)
Lemma dormant_init key lead l s_info key' r o r' :
  dormant key r → initReporter lead 0 l s_info one_peer key' r = (o, r') →
  (o = Done tt ∧ in_round r') ∨ (o ≠ Done tt ∧ dormant key r').
Proof.
  intros Hd. pose proof Hd as [Hr Hs].
  unfold initReporter, lock, unlock, make_chan, gets_re, mod_re. proc_simpl.
  unfold gets, modify, get. destruct (mu (re r)).
  { cbn. intros [= <- <-]. by right. }
  cbn. intros [= <- <-]. left. split; [done|]. exists l, lead. rewrite Hr. split.
  - destruct lead; split; try done; cbn; by rewrite Hs.
  - exists (round_start lead). split; [done|]. split; try done. cbn. rewrite Hs.
    by intros [?%elem_of_nil|?%elem_of_nil].
Qed.

Lemma in_round_Start events r : in_round r → in_round (Start events r).2.
Proof.
  intros (l & lead & Hf & Hsim). exists l, lead. split; [by apply frozen_Start|by apply sim_Start].
Qed.
End engine.

(** ** Nodes *)
Section system.
Context `{Nondet} `{Ecdsa} `{Codec} {T : Type} `{Transport T}.
Context `{JobFiles fs file} (toml_type : bytes → result string)
  (toml_params : bytes → result DirectRequestTemplateParams).
Implicit Types (p : Pacemaker T).

Definition server p : Server T := below (Reporter p).

(** How far [OCR.Start] and the pacemaker's own [Start] have come. *)
Inductive stage :=
| SBoot                                        (* the server runs, no handler is registered *)
| SListening                                   (* the handlers are; the first count is awaited *)
| SContext                                     (* the pacemaker has its context *)
| SElected (leader : ProtcolPeer) (lead : bool)
| SInitialised                                 (* the engine is made, and started soon *)
| SRunning
| SStuck.                                      (* the pacemaker waits for ever *)

Record system := { pm : Pacemaker T; at_stage : stage }.

Definition NewOCR (s : Server T) (key : PrivateKey) : system :=
  {| pm := NewPaceMaker s key; at_stage := SBoot |}.

(** [OCR.Stop] stops the server and nothing else. *)
Definition OCR_Stop : proc (Pacemaker T) unit := on_server Server_Stop.

(** The handlers that are registered. *)
Definition handlers (st : stage) (env : Env) (fuel : nat) (looks : nat → peers_tree)
    : gmap Z (DecodedMsg → proc (Pacemaker T) (option error)) :=
  match st with
  | SBoot => ∅
  | _ => RegisterHandler TopicReporter (λ msg, on_reporter (ProcessMessage env msg))
           (RegisterHandler TopicPacemaker (PM_ProcessMessage fuel looks) ∅)
  end.

(** What one read of a stream brings, decoded, routed and handled, as long as
    the server's loop runs. *)
Definition receive (st : stage) (env : Env) (fuel : nat) (looks : nat → peers_tree) (b : bytes)
    : proc (Pacemaker T) unit :=
  p ← get;
  if serving (server p) then
    match Decode KRPCMessage b with
    | Ok (VRPCMessage rpcMsg) =>
        process_rpc (λ i, on_server (push_info i)) (handlers st env fuel looks) rpcMsg
    | _ => mret tt
    end
  else block "the server has stopped".

Definition set_pm_spawned (l : list pm_task) p : Pacemaker T := {|
  Reporter := Reporter p; currEpochStat := currEpochStat p; ocrCtx := ocrCtx p;
  attached := attached p; pm_recEvents := pm_recEvents p; pm_spawned := l; state := state p |}.

(** The receive from the server's channel of counts. *)
Definition take_count : proc (Server T) unit :=
  modify (λ s, set_channels (tail (peerCountChan s)) (commsChWithServer s) s).

Definition after {A} (o : outcome A) (f : A → stage) : stage :=
  match o with Done a => f a | _ => SStuck end.

(** What a step of a node has to do with the world: nothing that comes from it,
    the bytes of one read, or a change of its transport by the network. *)
Inductive event := Own | Received (b : bytes) | Changed (t : T).

(** The goroutines of a node, one step of one of them at a time. *)
Inductive sys_event : event → system → system → Prop :=
| sys_attach p :
    sys_event Own {| pm := p; at_stage := SBoot |}
      {| pm := (AttachMsgLayer p).2; at_stage := SListening |}
| sys_context p ctx :
    init_context (peerCountChan (server p)) (server_id (server p)) = Done ctx →
    sys_event Own {| pm := p; at_stage := SListening |}
      {| pm := ((on_server take_count;; SetOCRContext ctx) p).2; at_stage := SContext |}
| sys_elect fuel looks files p o p' :
    Start_elect fuel looks toml_type toml_params files p = (o, p') →
    sys_event Own {| pm := p; at_stage := SContext |}
      {| pm := p'; at_stage := after o (λ r, SElected r.1 r.2) |}
| sys_init leader lead came address key p o p' :
    Start_init leader lead came address key p = (o, p') →
    sys_event Own {| pm := p; at_stage := SElected leader lead |}
      {| pm := p'; at_stage := after o (λ _, SInitialised) |}
| sys_run p o p' :
    Start_run p = (o, p') →
    sys_event Own {| pm := p; at_stage := SInitialised |}
      {| pm := p'; at_stage := after o (λ _, SRunning) |}
| sys_receive env fuel looks b p st :
    sys_event (Received b) {| pm := p; at_stage := st |}
      {| pm := (receive st env fuel looks b p).2; at_stage := st |}
| sys_peer peer p st :
    sys_event Own {| pm := p; at_stage := st |}
      {| pm := (on_server (handleNewPeer peer) p).2; at_stage := st |}
| sys_info p st :
    sys_event Own {| pm := p; at_stage := st |}
      {| pm := (on_server receive_info p).2; at_stage := st |}
| sys_transport t p st :
    sys_event (Changed t) {| pm := p; at_stage := st |}
      {| pm := (on_server (modify (set_transporter t)) p).2; at_stage := st |}
| sys_task env t l1 l2 p st :
    spawned (Reporter p) = l1 ++ t :: l2 →
    sys_event Own {| pm := p; at_stage := st |}
      {| pm := set_Reporter (run_task env t (set_spawned (l1 ++ l2) (Reporter p))).2 p;
         at_stage := st |}
| sys_pm_task t l1 l2 p st :
    pm_spawned p = l1 ++ t :: l2 →
    sys_event Own {| pm := p; at_stage := st |}
      {| pm := (run_pm_task t (set_pm_spawned (l1 ++ l2) p)).2; at_stage := st |}
| sys_stop p st :
    sys_event Own {| pm := p; at_stage := st |} {| pm := (OCR_Stop p).2; at_stage := st |}
| sys_return p st :
    sys_event Own {| pm := p; at_stage := st |}
      {| pm := (on_server Start_return p).2; at_stage := st |}.

Definition sys_step (s s' : system) : Prop := ∃ ev, sys_event ev s s'.

(** ** The invariant *)
Definition has_context (st : stage) : bool :=
  match st with SBoot | SListening => false | _ => true end.

Definition engine_at (key : PrivateKey) (st : stage) (r : node (Server T)) : Prop :=
  match st with
  | SBoot | SListening | SContext | SElected _ _ => dormant key r
  | SInitialised | SRunning => in_round r
  | SStuck => engine_ok key r
  end.

Record node_inv (key : PrivateKey) (st : stage) p : Prop := {
  inv_routes : routes_known (server p);
  inv_counts : has_context st = false → counts_from_one (server p);
  inv_ctx : if has_context st
            then ∃ who, ocrCtx p = Some {| PeerCount := 1; FaultyCount := 0; ID := who |}
            else ocrCtx p = None;
  inv_f : f (currEpochStat p) = 0;
  inv_n : n (currEpochStat p) = if has_context st then 1 else 0;
  inv_e : e (currEpochStat p) = 0;
  inv_engine : engine_at key st (Reporter p)
}.

Context (key : PrivateKey).

#[local] Instance routes_kept : Kept (net := Server T) routes_known.
Proof.
  apply any_custody; [apply routes_SendMsg|apply routes_BroadcastMsg|].
  intros id s Hs. cbn. unfold Server_IsPeer. proc_simpl. by destruct (peerLock s).
Qed.

#[local] Instance counts_kept : Kept (net := Server T) counts_from_one.
Proof.
  pose proof @counts_on_transport. apply any_custody; intros; cbn;
    unfold Server_SendMsg, Server_BroadcastMsg, Server_IsPeer; preserve.
Qed.

Lemma engine_at_step st r r' : engine_at key st r → step r r' → engine_at key st r'.
Proof.
  assert (dormant key r → step r r' → dormant key r') as Hd.
  { intros Hd Hs. destruct Hs as [env msg r|env t l1 l2 r Hsp|b r|g r];
      [by apply dormant_message| |by destruct Hd..].
    rewrite (dormant_spawned _ _ Hd) in Hsp. by destruct l1. }
  assert (in_round r → step r r' → in_round r') as Hr.
  { intros (l & lead & Hf & Hsim) Hs. exists l, lead.
    split; [by eapply frozen_step|by eapply sim_step]. }
  destruct st; cbn; auto. intros [Hx|Hx] Hs; [left|right]; auto.
Qed.

(** A change of the engine's node and of nothing else. *)
Lemma inv_set_Reporter st p r :
  node_inv key st p → engine_at key st r → routes_known (below r) →
  (has_context st = false → counts_from_one (below r)) → node_inv key st (set_Reporter r p).
Proof. intros [] ???. by split. Qed.

Lemma inv_on_reporter {A} st (m : proc (node (Server T)) A) :
  (∀ r, engine_at key st r → engine_at key st (m r).2) →
  (∀ I, Kept (net := Server T) I → preserves (kept I (λ _, True) (λ _, True)) m) →
  preserves (node_inv key st) (on_reporter m).
Proof.
  intros He Hb p Hp. unfold on_reporter. pose proof (He (Reporter p)) as He'.
  pose proof (below_kept routes_known m (Hb routes_known routes_kept) (Reporter p)) as Hr.
  pose proof (below_kept counts_from_one m (Hb counts_from_one counts_kept) (Reporter p)) as Hc.
  destruct (m (Reporter p)) as [o r]. destruct Hp. apply inv_set_Reporter; [by split|..]; auto.
Qed.

Lemma inv_on_server {A} st (m : proc (Server T) A) :
  preserves routes_known m → preserves counts_from_one m →
  preserves (node_inv key st) (on_server m).
Proof.
  intros Hr Hc p Hp. unfold on_server, on_reporter, on_net.
  pose proof (Hr (server p) (inv_routes _ _ _ Hp)) as Hr'.
  pose proof (λ Hst, Hc (server p) (inv_counts _ _ _ Hp Hst)) as Hc'. unfold server in *.
  destruct (m (below (Reporter p))) as [o b]. apply inv_set_Reporter; try done.
  eapply engine_at_step; [apply Hp|apply step_below].
Qed.

Lemma inv_pm (st : stage) (m : Pacemaker T → Pacemaker T) :
  (∀ p, Reporter (m p) = Reporter p ∧ ocrCtx (m p) = ocrCtx p ∧ f (currEpochStat (m p)) = f (currEpochStat p)
     ∧ n (currEpochStat (m p)) = n (currEpochStat p) ∧ e (currEpochStat (m p)) = e (currEpochStat p)) →
  preserves (node_inv key st) (modify m).
Proof.
  intros Hm. apply preserves_modify. intros p []. destruct (Hm p) as (Hr & Hc & Hf & Hn & He).
  split; unfold server in *; rewrite ?Hr, ?Hc, ?Hf, ?Hn, ?He; done.
Qed.

Lemma inv_same st p p' :
  Reporter p' = Reporter p → ocrCtx p' = ocrCtx p → f (currEpochStat p') = f (currEpochStat p) →
  n (currEpochStat p') = n (currEpochStat p) → e (currEpochStat p') = e (currEpochStat p) →
  node_inv key st p → node_inv key st p'.
Proof.
  intros Hr Hc Hf Hn He []. split; unfold server in *; rewrite ?Hr, ?Hc, ?Hf, ?Hn, ?He; done.
Qed.

(** *** Messages *)
Lemma inv_message st env msg : preserves (node_inv key st) (on_reporter (ProcessMessage env msg)).
Proof.
  apply inv_on_reporter.
  - intros r Hr. eapply engine_at_step; [exact Hr|apply step_message].
  - intros I HI. by apply (kept_ProcessMessage I _ _ (λ _, True) (λ _ _, True) (λ _, True)).
Qed.

Lemma inv_PM_ProcessMessage st fuel looks msg :
  preserves (node_inv key st) (PM_ProcessMessage fuel looks msg).
Proof.
  intros p Hp. destruct (ocrCtx p) as [ctx|] eqn:Hctx.
  - destruct (PM_ProcessMessage_spec fuel looks msg ctx p Hctx) as (r & ->).
    { rewrite (inv_f _ _ _ Hp). lia. }
    destruct (count_requests_keep (higher (e (currEpochStat p)) [msg]) p) as (He & Hf & Hn & Hc & Hr & _).
    by apply (inv_same st p).
  - unfold PM_ProcessMessage. proc_simpl. destruct (dm_Data msg) as [v|v]; destruct v; try exact Hp.
    unfold get. rewrite Hctx. exact Hp.
Qed.

Lemma inv_push_info st i : preserves (node_inv key st) (on_server (push_info i)).
Proof.
  apply inv_on_server; intros s Hs; unfold push_info; proc_simpl; by destruct (_ <=? _)%nat.
Qed.

Lemma inv_receive st env fuel looks b : preserves (node_inv key st) (receive st env fuel looks b).
Proof.
  unfold receive. apply preserves_bind; [by eauto with preserves|intros p0].
  destruct (serving (server p0)); [|by eauto with preserves].
  destruct (Decode KRPCMessage b) as [v|]; [|by eauto with preserves].
  destruct v as [|m| | | | | | | | | | | |]; try by eauto with preserves.
  unfold process_rpc. destruct (DefaultRPCDecoder m) as [msg|]; [|by eauto with preserves].
  unfold ServerRPCProcessor_ProcessMessage. pose proof (inv_push_info st).
  assert (∀ h, handlers st env fuel looks !! Topic msg = Some h → preserves (node_inv key st) (h msg)) as Hh.
  { intros h. assert (<[TopicReporter := λ msg, on_reporter (ProcessMessage env msg)]>
      ({[TopicPacemaker := PM_ProcessMessage fuel looks]} : gmap Z _) !! Topic msg = Some h →
      preserves (node_inv key st) (h msg)) as Hboth.
    { intros [[_ <-]|[_ [_ <-]%lookup_singleton_Some]]%lookup_insert_Some;
        [apply inv_message|apply inv_PM_ProcessMessage]. }
    destruct st; cbn; [by rewrite lookup_empty|exact Hboth..]. }
  preserve. by apply Hh.
Qed.

(** *** The server's own steps *)
Lemma inv_handleNewPeer st peer : preserves (node_inv key st) (on_server (handleNewPeer peer)).
Proof. apply inv_on_server; [apply routes_handleNewPeer|apply (counts_step (PeerFound peer))]. Qed.

Lemma inv_receive_info st : preserves (node_inv key st) (on_server receive_info).
Proof.
  apply inv_on_server; intros s Hs; unfold receive_info; proc_simpl; unfold get;
    destruct (commsChWithServer s) as [|i rest]; try exact Hs; cbn [modify].
  - by apply routes_process_info.
  - by apply (counts_step (StatusReceived i)).
Qed.

Lemma inv_transport st t : preserves (node_inv key st) (on_server (modify (set_transporter t))).
Proof. apply inv_on_server; intros s Hs; exact Hs. Qed.

Lemma inv_OCR_Stop st : preserves (node_inv key st) OCR_Stop.
Proof. apply inv_on_server; unfold Server_Stop; preserve; intros s Hs; exact Hs. Qed.

Lemma inv_Start_return st : preserves (node_inv key st) (on_server Start_return).
Proof.
  pose proof @routes_on_transport. pose proof @counts_on_transport.
  apply inv_on_server; unfold Start_return; preserve; intros s Hs; exact Hs.
Qed.

(** *** The pacemaker's goroutines *)
Lemma inv_BroadcastMsg st b : preserves (node_inv key st) (on_server (BroadcastMsg b)).
Proof.
  apply inv_on_server; [apply routes_BroadcastMsg|].
  by apply (keep_BroadcastMsg (I := counts_from_one)).
Qed.

Lemma inv_SendNewEpochMsg st : preserves (node_inv key st) SendNewEpochMsg.
Proof. pose proof inv_BroadcastMsg. unfold SendNewEpochMsg. preserve. Qed.

Lemma inv_run_pm_task st t : preserves (node_inv key st) (run_pm_task t).
Proof.
  destruct t; cbn [run_pm_task]; [apply inv_SendNewEpochMsg|]. preserve. by apply inv_pm.
Qed.

Lemma inv_launch st readers : preserves (node_inv key st) (launch_readers toml_type toml_params readers).
Proof.
  induction readers as [|data readers IH]; cbn [launch_readers]; preserve.
  - apply inv_on_reporter.
    + intros r Hr. eapply engine_at_step; [exact Hr|apply step_registry].
    + intros I HI. by apply (kept_registry I).
  - by apply inv_pm.
Qed.

Lemma inv_elect st fuel looks epoch : preserves (node_inv key st) (elect fuel looks epoch).
Proof. unfold elect. preserve. Qed.

Lemma inv_Start_elect st fuel looks files :
  preserves (node_inv key st) (Start_elect fuel looks toml_type toml_params files).
Proof.
  pose proof inv_elect. pose proof inv_launch.
  unfold Start_elect, launchJobListeners, upateOCRState, readLoop_step. preserve; by apply inv_pm.
Qed.

(** *** The steps *)
Lemma inv_restage st st' p :
  has_context st = has_context st' → (∀ r, engine_at key st r → engine_at key st' r) →
  node_inv key st p → node_inv key st' p.
Proof. intros Hc He []. rewrite Hc in *. split; auto. Qed.

Lemma inv_attach p : node_inv key SBoot p → node_inv key SListening (AttachMsgLayer p).2.
Proof. intros []. by split. Qed.

Lemma inv_context p ctx :
  init_context (peerCountChan (server p)) (server_id (server p)) = Done ctx →
  node_inv key SListening p →
  node_inv key SContext ((on_server take_count;; SetOCRContext ctx) p).2.
Proof.
  intros Hi [Hr Hc _ _ _ He Hen]. specialize (Hc eq_refl). unfold counts_from_one in Hc.
  destruct (peerCountChan (server p)) as [|c cs]; cbn in Hi; [done|]. subst c. injection Hi as <-.
  split; cbn; try done.
  - by eexists.
  - by destruct Hen.
Qed.

Lemma inv_Start_init leader lead came address key' p o p' :
  node_inv key (SElected leader lead) p →
  Start_init leader lead came address key' p = (o, p') →
  node_inv key (after o (λ _, SInitialised)) p'.
Proof.
  intros Hp. unfold Start_init.
  assert (preserves (node_inv key (SElected leader lead))
    (if lead && negb came then SendNewEpochMsg else mret tt)) as Hsend.
  { pose proof inv_SendNewEpochMsg. preserve. }
  specialize (Hsend p Hp). unfold mbind at 1, proc_bind at 1.
  destruct ((if lead && negb came then SendNewEpochMsg else mret tt) p) as [[[]|w|w] p1];
    [|by intros [= <- <-]; apply (inv_restage (SElected leader lead)); [|left|]..].
  cbn in Hsend. unfold mbind, proc_bind, get, on_reporter.
  rewrite (inv_e _ _ _ Hsend), (inv_n _ _ _ Hsend), (inv_f _ _ _ Hsend). cbn [has_context].
  fold one_peer.
  match goal with |- context [initReporter ?a ?b ?c ?d ?g ?k (Reporter p1)] =>
    pose proof (below_kept routes_known _ (kept_initReporter routes_known _ _ _ _ _ a b c d g k
      (λ _ _ _ _, Logic.I)) (Reporter p1) (inv_routes _ _ _ Hsend)) as Hr;
    destruct (initReporter a b c d g k (Reporter p1)) as [o1 r1] eqn:Hinit end.
  apply (dormant_init key) in Hinit; [|apply (inv_engine _ _ _ Hsend)]. intros [= <- <-].
  apply (inv_restage (SElected leader lead)) with (st' := SStuck) in Hsend; [|done|by left].
  destruct Hinit as [[-> Hin]|[Ho Hd]].
  - assert (node_inv key SStuck (set_Reporter r1 p1)) as [] by (apply inv_set_Reporter; try done; by right).
    by split.
  - assert (after o1 (λ _ : (), SInitialised) = SStuck) as -> by (destruct o1 as [[]| |]; done).
    apply inv_set_Reporter; try done. by left.
Qed.

Lemma inv_Start_run p o p' :
  node_inv key SInitialised p → Start_run p = (o, p') → node_inv key (after o (λ _, SRunning)) p'.
Proof.
  intros Hp Hs. assert (node_inv key SRunning p') as Hp'.
  { change p' with (o, p').2. rewrite <-Hs.
    assert (preserves (node_inv key SRunning) Start_run) as Hrun.
    { unfold Start_run. preserve. apply inv_on_reporter; [intros r; apply in_round_Start|].
      intros I HI. by apply (kept_Start I _ _ (λ _, True) (λ _ _, True) (λ _, True)). }
    by apply Hrun, (inv_restage SInitialised). }
  destruct o; cbn; [done|by apply (inv_restage SRunning); [|right|]..].
Qed.

Lemma sys_inv_step s s' :
  node_inv key (at_stage s) (pm s) → sys_step s s' → node_inv key (at_stage s') (pm s').
Proof.
  intros Hp [ev Hs]. destruct Hs as [p|p ctx Hi|fuel looks files p o p' He
    |leader lead came address key' p o p' Hi|p o p' Hr|env fuel looks b p st|peer p st|p st|t p st
    |env t l1 l2 p st Hsp|t l1 l2 p st Hsp|p st|p st];
    cbn [pm at_stage] in *.
  - by apply inv_attach.
  - by apply inv_context.
  - apply (inv_restage SContext); [by destruct o| |].
    + by destruct o; cbn; [done|left..].
    + change p' with (o, p').2. rewrite <-He. by apply inv_Start_elect.
  - by eapply inv_Start_init.
  - by eapply inv_Start_run.
  - by apply inv_receive.
  - by apply inv_handleNewPeer.
  - by apply inv_receive_info.
  - by apply inv_transport.
  - assert (node_inv key st p) as [] by done. apply inv_set_Reporter; [done|..].
    + eapply engine_at_step; [apply Hp|by apply step_task].
    + apply (below_kept routes_known (run_task env t)); [|done].
      apply (kept_run_task _ _ _ (λ _, True) (λ _ _, True) (λ _, True)).
    + intros Hst. apply (below_kept counts_from_one (run_task env t)); [|by apply inv_counts0].
      apply (kept_run_task _ _ _ (λ _, True) (λ _ _, True) (λ _, True)).
  - apply inv_run_pm_task. by apply (inv_same st p).
  - by apply inv_OCR_Stop.
  - by apply inv_Start_return.
Qed.

Lemma sys_inv_steps s s' :
  node_inv key (at_stage s) (pm s) → rtc sys_step s s' → node_inv key (at_stage s') (pm s').
Proof. intros Hi Hr. induction Hr; [done|]. eauto using sys_inv_step. Qed.

Lemma sys_inv_reached pk t s :
  rtc sys_step (NewOCR (fresh_server pk t) key) s → node_inv key (at_stage s) (pm s).
Proof.
  apply (sys_inv_steps (NewOCR (fresh_server pk t) key)). split; try done; by split.
Qed.

Lemma engine_at_ok st r : engine_at key st r → engine_ok key r.
Proof. destruct st; cbn; intros; [by left..|by right|by right|done]. Qed.
End system.

Section theorems.
Context `{Nondet} `{Ecdsa} `{Codec} {T : Type} `{Transport T}.
Context `{JobFiles fs file} (toml_type : bytes → result string)
  (toml_params : bytes → result DirectRequestTemplateParams).

(** C11: what holds of a node in every state that it can come to, whatever
    arrives, in whatever order its goroutines run and whatever the network
    does: its routes lead to known peers; it believes in one peer, no faulty
    one, and epoch 0; and its engine is dormant, or frozen in the first round
    of epoch 0 and in a state of the round automaton. *)
Theorem node_invariants pk (t : T) key sys :
  rtc (sys_step toml_type toml_params) (NewOCR (fresh_server pk t) key) sys →
  routes_known (server (pm sys)) ∧
  (∀ ctx, ocrCtx (pm sys) = Some ctx → PeerCount ctx = 1 ∧ FaultyCount ctx = 0) ∧
  e (currEpochStat (pm sys)) = 0 ∧ f (currEpochStat (pm sys)) = 0 ∧
  (dormant key (Reporter (pm sys)) ∨
   ∃ l lead a, frozen 0 l (Reporter (pm sys)) ∧
     rtc (round_step (the_round 0 l) one_peer) (round_start lead) a ∧
     shows one_peer a (Reporter (pm sys))).
Proof.
  intros [Hr _ Hc Hf _ He Hen]%sys_inv_reached. split; [done|]. split; [|split; [done|split; [done|]]].
  - intros ctx Hctx. rewrite Hctx in Hc. destruct (has_context (at_stage sys)); [|done].
    by destruct Hc as [who [= ->]].
  - destruct (engine_at_ok _ _ _ Hen) as [?|(l & lead & Hfr & a & Ha & Hs)]; [by left|right].
    by exists l, lead, a.
Qed.

Lemma one_reporter s r j v h :
  entries (reports r) !! j = Some v → value_hash v = Some h →
  ∃ fr, assembleFinalReport s 0 [zero_report; r] = Some fr ∧ entries (fr_Report fr) !! j = Some v.
Proof.
  intros Hv Hh. assert (report_hash j r = Some h) as Hrh by (unfold report_hash; by rewrite Hv).
  assert (0 + 1 ≤ Z.of_nat (length (supporters j h [zero_report; r]))) as Hs.
  { unfold supporters. rewrite !filter_cons. rewrite (decide_True (P := report_hash j r = Some h)) by done.
    destruct (decide _); cbn [length]; lia. }
  destruct (assemble_complete s 0 ltac:(lia) _ j h Hs) as (fr & Ha & v' & Hv').
  exists fr. split; [done|]. rewrite Hv'. f_equal.
  destruct (assemble_inv s 0 ltac:(lia) _ fr Ha) as (Hval & _).
  destruct (Hval j v' Hv') as (h' & Hh' & ->).
  destruct (final_value_reported s 0 ltac:(lia) _ j h' Hh') as (r' & Hin & Hl & _).
  rewrite !elem_of_cons in Hin. destruct Hin as [->|[->|Hin%elem_of_nil]]; [|congruence|done].
  cbn in Hl. by rewrite lookup_empty in Hl.
Qed.

(** C18: the first report decides: because the node believes in one peer and no
    faulty one, the first signed report that an engine receives in its round is
    the final one, with every value that it gives for any job, and whether or
    not its signer is a peer. *)
Theorem first_report_decides pk (t : T) key sys env msg m j v h :
  rtc (sys_step toml_type toml_params) (NewOCR (fresh_server pk t) key) sys →
  open (Reporter (pm sys)) →
  ls_reports (leaderState (re (Reporter (pm sys)))) = [zero_report] →
  dm_Data msg = Ptr (VReportRes m) → of_this_round (Reporter (pm sys)) (rr_common m) →
  authentic msg (VReportRes m) → entries (Reports m) !! j = Some v → value_hash v = Some h →
  let r' := (ProcessMessage env msg (Reporter (pm sys))).2 in
  ∃ fr, finalReport (leaderState (re r')) = Some fr ∧ entries (fr_Report fr) !! j = Some v.
Proof.
  intros Hsys Ho Hrs Hd Hround Ha Hv Hh r'. apply sys_inv_reached in Hsys.
  destruct (engine_at_ok _ _ _ (inv_engine _ _ _ Hsys)) as [[Hre _]|(l & lead & _ & a & _ & Hs)].
  { destruct Ho as [Hready _]. rewrite Hre in Hready. done. }
  subst r'. rewrite ProcessMessage_open by done.
  rewrite (prechecks_pass _ msg (rr_common m) PhaseReport) by (rewrite ?Hd; done).
  unfold dispatch. rewrite Hd, (processReportRes_eq _ _ _ _ [] Ha Hrs), (shows_globals _ _ _ Hs).
  cbn [app length pg_n pg_f one_peer]. change (i64 1 - 1 <=? Z.of_nat 1) with true. cbv iota.
  change (i64 0) with 0.
  destruct (one_reporter (site env) (attested msg m) j v h Hv Hh) as (fr & -> & Hfr).
  exists fr. split; [|done]. unfold mbind, proc_bind.
  set (n1 := with_final fr _).
  assert (preserves (λ r : node (Server T), finalReport (leaderState (re r)) = Some fr)
    (set_and_send PhaseFinal)) as Hp.
  { unfold set_and_send, send_phase, send_on, orchestrateLeadership, go, mod_leader, mod_re. preserve;
      apply preserves_modify; intros r Hr; exact Hr. }
  specialize (Hp n1 eq_refl). by destruct (set_and_send PhaseFinal n1) as [[]].
Qed.
End theorems.

(** ** A node that comes up *)
Section run.
#[local] Existing Instance in_order.
#[local] Existing Instance plain_ecdsa.

(** A transport that delivers nothing. *)
#[local] Instance quiet_transport : Transport unit := {|
  t_SendMsg _ _ := mret None; t_Broadcast _ := mret tt; t_Stop := mret None; t_ID _ := "QmB"; t_Addr _ := "" |}.

(** No directory of jobs. *)
#[local] Instance no_files : JobFiles unit unit := {|
  ReadDir _ _ := Error (Errorf "no such file or directory");
  Open _ _ := Error (Errorf "no such file or directory");
  ReadAll _ _ := Error (Errorf "no such file or directory")
|}.

#[local] Abbreviation no_type := (λ _, Error (Errorf "no jobs")).
#[local] Abbreviation steps := (rtc (sys_step (T := unit) no_type no_type)).

Definition node_0 : system := NewOCR (fresh_server base_hex tt) base_pair.
Definition found : Pacemaker unit :=
  (on_server (handleNewPeer {| peer_ID := "QmA"; Addr := "" |}) (AttachMsgLayer (pm node_0)).2).2.
Definition informed : Pacemaker unit :=
  ((on_server take_count;; SetOCRContext {| PeerCount := 1; FaultyCount := 0; ID := base_hex |}) found).2.
Definition election := Start_elect 1 (λ _, peers (server informed)) no_type no_type tt informed.
Definition elected : stage := after election.1 (λ r, SElected r.1 r.2).
Definition itself : ProtcolPeer := {| ServerID := base_hex; embedded := None |}.
Definition initialised := Start_init itself true false "" base_pair election.2.
Definition running : system := {| pm := (Start_run initialised.2).2; at_stage := SRunning |}.

Lemma elects_itself : elected = SElected itself true.
Proof. vm_compute. reflexivity. Qed.

Lemma initialised_done : initialised.1 = Done tt.
Proof. vm_compute. reflexivity. Qed.

Lemma running_done : (Start_run initialised.2).1 = Done tt.
Proof. vm_compute. reflexivity. Qed.

Lemma comes_up : steps node_0 running.
Proof.
  eapply rtc_l; [eexists; apply sys_attach|].
  eapply rtc_l; [eexists; apply (sys_peer _ _ {| peer_ID := "QmA"; Addr := "" |})|].
  eapply rtc_l; [eexists; apply (sys_context _ _ found); vm_compute; reflexivity|].
  eapply rtc_l; [eexists; apply (sys_elect _ _ 1 (λ _, peers (server informed)) tt informed), surjective_pairing|].
  fold election. fold elected. rewrite elects_itself.
  eapply rtc_l; [eexists; apply (sys_init _ _ itself true false "" base_pair), surjective_pairing|].
  fold initialised. rewrite initialised_done. cbn [after].
  eapply rtc_l; [eexists; apply sys_run, surjective_pairing|]. rewrite running_done. apply rtc_refl.
Qed.

Lemma node_invariants_witness :
  routes_known (server (pm running)) ∧ e (currEpochStat (pm running)) = 0.
Proof.
  pose proof (node_invariants no_type no_type base_hex tt base_pair running comes_up) as (Hr & _ & He & _).
  by split.
Defined.

(** A report of somebody who is no peer of the node. *)
Definition first_report : ReportRes :=
  {| rr_common := {| Epoch := 0; Round := 1; Leader := base_hex |};
     Reports := Some {["job-1" := AStr "7"]} |}.
Definition first_report_data : bytes :=
  match Encode (VReportRes first_report) with Ok b => b | Error _ => "" end.
Definition first_report_signature : Signature :=
  match Sign tt base_pair first_report_data with Ok s => s | Error _ => no_signature end.
Definition first_report_msg : DecodedMsg := {|
  FromId := base_hex; Topic := TopicReporter; dm_Data := Ptr (VReportRes first_report);
  dm_Signature := first_report_signature |}.
Definition still_env : Env := {|
  http := λ _, price_get; late := λ _ _, false; rand := tt; site := [] |}.

Lemma first_report_authentic : authentic first_report_msg (VReportRes first_report).
Proof.
  exists first_report_data, base_key. split; [vm_compute; reflexivity|]. split; [exact base_hex_key|].
  rewrite Verify_base. vm_compute. reflexivity.
Qed.

Lemma running_open : open (Reporter (pm running)).
Proof. vm_compute. by split. Qed.

Lemma running_reports : ls_reports (leaderState (re (Reporter (pm running)))) = [zero_report].
Proof. vm_compute. reflexivity. Qed.

Lemma running_round : of_this_round (Reporter (pm running)) (rr_common first_report).
Proof. vm_compute. by repeat split. Qed.

Lemma first_report_decides_witness :
  let r' := (ProcessMessage still_env first_report_msg (Reporter (pm running))).2 in
  ∃ fr, finalReport (leaderState (re r')) = Some fr ∧ entries (fr_Report fr) !! "job-1" = Some (AStr "7").
Proof.
  destruct (value_hash (AStr "7")) as [h|] eqn:Hh; [|by vm_compute in Hh].
  exact (first_report_decides no_type no_type base_hex tt base_pair running still_env first_report_msg
    first_report "job-1" (AStr "7") h comes_up running_open running_reports eq_refl running_round
    first_report_authentic eq_refl Hh).
Defined.
End run.
