(* ===== verification/Config.v ===== *)
(** * Keys and configuration

    The import and the generation of keys of [crypto/keypairs.go], the key file
    of [crypto/gen_keys.go], its reader of [ocr/config_reader.go], and the
    builder of [ocr/ocr_builder.go] with the check that [OCR.Start] begins
    with.  The file system is a parameter. *)

From Stdlib Require Import Ascii.
From S2P Require Import Prelude Bytes Crypto Json GoJson Rpc LeaderSelection Transport Server.

(** ** keypairs.go: import *)
Section keys.
Context `{Ecdsa}.

(** The curve always gives a point, so that its coordinates are not nil. *)
Definition ConvertBase64ToECDSAPrivateKey (base64Key : string) : result PrivateKey :=
  keyBytes ← wrap "failed to decode Base64 key" (Base64.DecodeString base64Key);
  if negb (String.length keyBytes =? 32)%nat then Error (Errorf "invalid key length")
  else
    let d := Big.SetBytes (to_bytes keyBytes) in
    Ok {| priv_D := d; priv_pub := base_mult d |}.

(** *** Generation: the scalar that [ecdsa.GenerateKey] draws from the reader *)
Context (GenerateKey : entropy → result Z).

Definition NewPrivateKeyUsingReader (r : entropy) : outcome PrivateKey :=
  match GenerateKey r with
  | Error _ => Panicked "panic(err)"
  | Ok d => Done {| priv_D := d; priv_pub := base_mult d |}
  end.

(** [r] is what [rand.Reader] yields. *)
Definition GeneratePrivateKey (r : entropy) : outcome PrivateKey := NewPrivateKeyUsingReader r.
End keys.

(** ** The entries of a key file

    [KeyPair] of gen_keys.go and [PeerInfo] of config_reader.go have the same
    fields and tags. *)
Record PeerInfo := { pi_PrivateKey : string; pi_PublicKey : string; pi_ListenAddr : string }.

Definition go_peerinfo : gotype PeerInfo := {|
  zero := {| pi_PrivateKey := ""; pi_PublicKey := ""; pi_ListenAddr := "" |};
  enc p := enc_object [enc_field "privateKey" go_string (pi_PrivateKey p);
                       enc_field "publicKey" go_string (pi_PublicKey p);
                       enc_field "listenAddr" go_string (pi_ListenAddr p)];
  dec p j :=
    match j with
    | JNull => Ok p
    | JObj fs =>
        priv ← dec_field "privateKey" go_string (pi_PrivateKey p) fs;
        pub ← dec_field "publicKey" go_string (pi_PublicKey p) fs;
        addr ← dec_field "listenAddr" go_string (pi_ListenAddr p) fs;
        Ok {| pi_PrivateKey := priv; pi_PublicKey := pub; pi_ListenAddr := addr |}
    | _ => Error type_error
    end
|}.

Definition peerinfo_ok (p : PeerInfo) : Prop :=
  is_utf8 (pi_PrivateKey p) = true ∧ is_utf8 (pi_PublicKey p) = true ∧ is_utf8 (pi_ListenAddr p) = true.

Lemma go_peerinfo_lawful d : 0 < d → lawful go_peerinfo peerinfo_ok d.
Proof.
  intros Hd. split; intros [i n l] j (Hi & Hn & Hl);
    cbn [enc go_peerinfo pi_PrivateKey pi_PublicKey pi_ListenAddr] in *; intros H; open_fields d;
    cbn [dec go_peerinfo]; [read_back; done|print_well].
Qed.

(** [json.MarshalIndent(v, "", "  ")] *)
Definition MarshalIndent {A} (g : gotype A) (a : A) : result bytes :=
  j ← enc g a; Ok (print_indent 0 j).

Lemma Unmarshal_MarshalIndent {A} (g : gotype A) P a b :
  lawful g P max_depth → P a → MarshalIndent g a = Ok b → Unmarshal g (zero g) b = Ok a.
Proof.
  intros Hg Ha. unfold MarshalIndent, Unmarshal. rewrite result_bind_ok.
  intros (j & Hj & [= <-]). rewrite parse_print_indent by by apply (enc_wf Hg Ha Hj).
  cbn. by apply (enc_dec Hg Ha Hj).
Qed.

(** ** Files *)
Class Files (fs : Type) : Type := {
  ReadFile : string → fs → result bytes;
  WriteFile : string → bytes → proc fs (option error)
}.

(** A file that was written without an error reads as what was written. *)
Class FilesLaws (fs : Type) `{Files fs} : Prop := {
  read_written name data s s' :
    WriteFile name data s = (Done None, s') → ReadFile name s' = Ok data
}.

Section files.
Context `{Ecdsa} `{Files fs} (GenerateKey : entropy → result Z).

(** ** gen_keys.go *)

(** The loop: [rands i] is what the reader yields in the [i]-th turn. *)
Fixpoint generate_pairs (k i : nat) (rands : nat → entropy) : outcome (list PeerInfo) :=
  match k with
  | O => Done []
  | S k =>
      privKey ← GeneratePrivateKey GenerateKey (rands i);
      publicKeyhex ← PublicKey_String (PrivateKey_PublicKey privKey);
      rest ← generate_pairs k (S i) rands;
      Done ({| pi_PrivateKey := Hex.EncodeToString (of_bytes (Big.Bytes (priv_D privKey)));
               pi_PublicKey := publicKeyhex; pi_ListenAddr := "127.0.0.1:4000" |} :: rest)
  end.

Definition GenerateKeyPairsJSON (x : Z) (outputFile : string) (rands : nat → entropy)
    : proc fs (option error) :=
  if x <? 0 then panic "makeslice: cap out of range"
  else
    keyPairs ← lift_outcome (generate_pairs (Z.to_nat x) 0 rands);
    match MarshalIndent (go_slice go_peerinfo) (Some keyPairs) with
    | Error e => mret (Some (Wrapf "failed to marshal JSON" e))
    | Ok jsonData =>
        err ← WriteFile outputFile jsonData;
        match err with
        | Some e => mret (Some (Wrapf "failed to write to file" e))
        | None => mret None
        end
    end.

(** [gen_keys] of main.go, where a failure ends the program. *)
Definition gen_keys (rands : nat → entropy) : proc fs unit :=
  err ← GenerateKeyPairsJSON 2 "peers.json" rands;
  match err with Some _ => panic "Error generating key pairs" | None => mret tt end.

(** ** config_reader.go *)
Record JsonConfigReader := { FileName : string }.
Definition NewJsonConfigReader (fileName : string) : JsonConfigReader := {| FileName := fileName |}.

Definition GetPeerInfo (j : JsonConfigReader) (s : fs) : result (slice PeerInfo) :=
  data ← wrap "failed to read peer file" (ReadFile (FileName j) s);
  wrap "failed to unmarshal peers" (Unmarshal (go_slice go_peerinfo) None data).
End files.

(** ** ocr_builder.go, and the beginning of [OCR.Start] *)
Record OCRBuilder := { b_codec : option Codec }.

Record OCR (T : Type) := { o_Codec : option Codec; o_Server : option (Server T) }.
Arguments o_Codec {T} o.
Arguments o_Server {T} o.

Definition WithCodec (codec : option Codec) (b : OCRBuilder) : OCRBuilder := {| b_codec := codec |}.

Definition Build {T} (b : OCRBuilder) : result (OCR T) :=
  match b_codec b with
  | None => Error (Errorf "missing required components")
  | Some codec => Ok {| o_Codec := Some codec; o_Server := None |}
  end.

(** [None]: the node goes on to start. *)
Definition Start_check {T} (o : OCR T) : option error :=
  match o_Server o with
  | None => Some (Errorf "OCR: missing required components")
  | Some _ => None
  end.

(** ** Properties of the import *)

(** Without padding four characters are three bytes. *)
Lemma quads_ind (P : string → Prop) :
  P "" → (∀ a, P (String a "")) → (∀ a b, P (String a (String b ""))) →
  (∀ a b c, P (String a (String b (String c "")))) →
  (∀ a b c d s, P s → P (String a (String b (String c (String d s))))) → ∀ s, P s.
Proof.
  intros H0 H1 H2 H3 H4. fix IH 1. intros [|a [|b [|c [|d s]]]]; [done..|]. apply H4, IH.
Qed.

Lemma quanta_length s b :
  Hex.all_lower s = true → Base64.quanta s = Some b → (4 * String.length b = 3 * String.length s)%nat.
Proof.
  assert (∀ c, Hex.is_lower_digit c = true → Base64.is_pad c = false) as Hpad.
  { intros c. unfold Hex.is_lower_digit, Base64.is_pad. intros. lia. }
  revert b. induction s as [|a|a b|a b c|a b c d s IH] using quads_ind; intros r; try done.
  { intros _ [= <-]. done. }
  cbn [Hex.all_lower Base64.quanta]. rewrite !andb_true_iff. intros (_ & _ & Hc & Hd & Hs).
  destruct (Base64.value a); [|done]. destruct (Base64.value b); [|done]. cbn [mbind option_bind].
  rewrite (Hpad c), (Hpad d) by done. cbn [andb].
  destruct (Base64.value c); [|done]. cbn [mbind option_bind].
  destruct (Base64.value d); [|done]. cbn [mbind option_bind].
  destruct (Base64.quanta s) as [t|]; [|done]. cbn [mbind option_bind]. intros [= <-].
  cbn [String.length]. specialize (IH t Hs eq_refl). lia.
Qed.

Lemma strip_newlines_hex s : Hex.all_lower s = true → Base64.strip_newlines s = s.
Proof.
  induction s as [|c s IH]; [done|]. cbn [Hex.all_lower Base64.strip_newlines].
  rewrite andb_true_iff. intros [Hc Hs]. rewrite IH by done. unfold Hex.is_lower_digit in Hc.
  by replace ((code c =? 10) || (code c =? 13)) with false by lia.
Qed.

(** No private key that is written in hexadecimal can be imported: the import
    takes base64, in which no text of two digits a byte is 32 bytes. *)
Theorem hex_key_not_imported `{Ecdsa} (b : bytes) :
  ∃ e, ConvertBase64ToECDSAPrivateKey (Hex.EncodeToString b) = Error e.
Proof.
  unfold ConvertBase64ToECDSAPrivateKey, Base64.DecodeString.
  pose proof (Hex.EncodeToString_lower b) as Hl. rewrite strip_newlines_hex by done.
  destruct (Base64.quanta (Hex.EncodeToString b)) as [k|] eqn:Hk; [|by eexists].
  apply quanta_length in Hk; [|done]. rewrite Hex.EncodeToString_length in Hk. cbn.
  destruct (Nat.eqb_spec (String.length k) 32); [lia|]. by eexists.
Qed.

Lemma SetBytes_bytes_n k z : 0 ≤ z < 256 ^ Z.of_nat k → Big.SetBytes (Big.bytes_n k z) = z.
Proof.
  revert z. induction k as [|k IH]; intros z Hz; cbn [Big.bytes_n].
  - cbn in *. lia.
  - rewrite Big.SetBytes_snoc, IH.
    + pose proof (Z.div_mod z 256). lia.
    + rewrite Nat2Z.inj_succ, Z.pow_succ_r in Hz by lia. split; [apply Z.div_pos; lia|].
      apply Z.div_lt_upper_bound; lia.
Qed.

Lemma bytes_n_range k z : Forall (λ b, 0 ≤ b < 256) (Big.bytes_n k z).
Proof.
  revert z. induction k as [|k IH]; intros z; cbn; [constructor|].
  apply Forall_app. split; [done|]. constructor; [|constructor]. apply Z.mod_pos_bound. lia.
Qed.

(** Every scalar can be imported from the base64 of its 32 bytes, leading zeros
    included: the import gives the key pair of the scalar. *)
Theorem import_roundtrip `{Ecdsa} d :
  0 ≤ d < 2 ^ 256 →
  ConvertBase64ToECDSAPrivateKey (Base64.EncodeToString (of_bytes (Big.bytes_n 32 d))) =
  Ok {| priv_D := d; priv_pub := base_mult d |}.
Proof.
  intros Hd. unfold ConvertBase64ToECDSAPrivateKey. rewrite base64_roundtrip. cbn [wrap mbind result_bind].
  rewrite of_bytes_length, Big.bytes_n_length. cbn [Nat.eqb negb].
  rewrite to_of_bytes by apply bytes_n_range. rewrite SetBytes_bytes_n; [done|]. exact Hd.
Qed.

Lemma import_roundtrip_witness :
  ConvertBase64ToECDSAPrivateKey (H := plain_ecdsa)
    (Base64.EncodeToString (of_bytes (Big.bytes_n 32 7))) =
  Ok {| priv_D := 7; priv_pub := (base_x, base_y) |}.
Proof. apply (import_roundtrip (H := plain_ecdsa) 7). lia. Defined.

(** ** Properties of the key file *)
Section key_file.
Context {E : Ecdsa} {fs : Type} {F : Files fs} {FL : FilesLaws fs}.
Context (GenerateKey : entropy → result Z).

Lemma generate_pairs_ok k rands : ∀ i l,
  generate_pairs GenerateKey k i rands = Done l →
  length l = k ∧ Forall (λ p, peerinfo_ok p ∧ ∃ b, pi_PrivateKey p = Hex.EncodeToString b) l.
Proof.
  induction k as [|k IH]; intros i l; cbn [generate_pairs]; [by intros [= <-]; repeat constructor|].
  unfold GeneratePrivateKey, NewPrivateKeyUsingReader.
  destruct (GenerateKey (rands i)) as [d|]; [|done]. cbn [mbind outcome_bind].
  unfold PublicKey_String. destruct (PublicKey_Bytes _) as [b| |]; [|done..]. cbn [mbind outcome_bind].
  destruct (generate_pairs GenerateKey k (S i) rands) as [rest| |] eqn:Hrest; [|done..].
  cbn [mbind outcome_bind]. intros [= <-]. destruct (IH _ _ Hrest) as [Hl Hall].
  split; [cbn; by rewrite Hl|]. constructor; [|done]. cbn. split; [|by eexists].
  split; [apply hex_utf8|]. split; [apply hex_utf8|done].
Qed.

(** C31: what the key generator writes is what the reader of the configuration
    reads: a file of [x] key pairs, all of them, in order; and not one of the
    private keys in it can be imported. *)
Theorem key_file_roundtrip x file rands s s' :
  0 ≤ x → GenerateKeyPairsJSON GenerateKey x file rands s = (Done None, s') →
  ∃ pairs, generate_pairs GenerateKey (Z.to_nat x) 0 rands = Done pairs ∧
    Z.of_nat (length pairs) = x ∧ GetPeerInfo (NewJsonConfigReader file) s' = Ok (Some pairs) ∧
    Forall (λ p, ∃ e, ConvertBase64ToECDSAPrivateKey (pi_PrivateKey p) = Error e) pairs.
Proof.
  intros Hx. unfold GenerateKeyPairsJSON. destruct (Z.ltb_spec x 0); [lia|].
  destruct (generate_pairs GenerateKey (Z.to_nat x) 0 rands) as [pairs| |] eqn:Hg; [|done..].
  apply generate_pairs_ok in Hg as Hok. destruct Hok as [Hlen Hok].
  unfold mbind at 1, proc_bind at 1. cbn [lift_outcome].
  destruct (MarshalIndent (go_slice go_peerinfo) (Some pairs)) as [data|] eqn:Hm; [|done].
  unfold mbind, proc_bind. destruct (WriteFile file data s) as [[[e|]| |] s1] eqn:Hw; [done| |done..].
  intros [= <-]. exists pairs. split; [done|]. split; [lia|]. split.
  - unfold GetPeerInfo. cbn [FileName NewJsonConfigReader]. rewrite (read_written _ _ _ _ Hw).
    cbn [wrap mbind result_bind].
    change None with (zero (go_slice go_peerinfo)).
    rewrite (Unmarshal_MarshalIndent (go_slice go_peerinfo) (λ s, Forall peerinfo_ok (elems s))
      (Some pairs) data); [done| | |done].
    + apply go_slice_lawful; [done|]. by apply go_peerinfo_lawful.
    + eapply Forall_impl; [exact Hok|]. by intros p [].
  - eapply Forall_impl; [exact Hok|]. intros p [_ [b ->]]. apply hex_key_not_imported.
Qed.
End key_file.

(** A file system of named files that never fails. *)
#[local] Instance map_files : Files (gmap string bytes) := {|
  ReadFile name s := match s !! name with Some data => Ok data | None => Error (Errorf "no such file") end;
  WriteFile name data := λ s, (Done None, <[name := data]> s)
|}.

#[local] Instance map_files_laws : FilesLaws (gmap string bytes).
Proof. split. intros name data s s' [= <-]. cbn. by rewrite lookup_insert_eq. Qed.

Lemma key_file_roundtrip_witness :
  ∃ s' pairs, GenerateKeyPairsJSON (H := plain_ecdsa) (λ _, Ok 255) 2 "peers.json" (λ _, tt) ∅ = (Done None, s') ∧
    Z.of_nat (length pairs) = 2 ∧ GetPeerInfo (NewJsonConfigReader "peers.json") s' = Ok (Some pairs) ∧
    Forall (λ p, ∃ e, ConvertBase64ToECDSAPrivateKey (H := plain_ecdsa) (pi_PrivateKey p) = Error e) pairs.
Proof.
  destruct (GenerateKeyPairsJSON (H := plain_ecdsa) (λ _, Ok 255) 2 "peers.json" (λ _, tt) ∅) as [o s'] eqn:Hg.
  assert (o = Done None) as -> by (change o with (o, s').1; rewrite <-Hg; vm_compute; reflexivity).
  destruct (key_file_roundtrip (E := plain_ecdsa) (λ _, Ok 255) 2 "peers.json" (λ _, tt) ∅ s'
    ltac:(lia) Hg) as (pairs & _ & Hl & Hr & Hall).
  by exists s', pairs.
Defined.

(** An object that the builder makes never starts: it has no server, and
    [OCR.Start] refuses it; and without a codec the builder makes none. *)
Theorem built_never_starts {T} codec b :
  match Build (T := T) (WithCodec codec b) with
  | Ok o => codec = o_Codec o ∧ codec ≠ None ∧
      Start_check o = Some (Errorf "OCR: missing required components")
  | Error e => codec = None ∧ e = Errorf "missing required components"
  end.
Proof. unfold Build. by destruct codec. Qed.
