(* ===== verification/Network.v ===== *)
(** * main.go: nodes on one network

    Three nodes are made and run, each of them what [System.v] makes of it, on
    a network that loses, repeats and reorders what is written to it but makes
    nothing up.  libp2p is a parameter, with that as its law. *)

From S2P Require Import Prelude Bytes Crypto Strconv Json GoJson Jobs JobFiles Rpc LeaderSelection.
From S2P Require Import Transport Server Observations Assembly Reporter ReporterSpec HandlerSpec.
From S2P Require Import EngineInv Round Pacemaker System Config.

(** ** What a host has written

    Its log grows by what is written to a stream and by nothing else, and its
    id is a text that never changes. *)
Class Libp2pLog (host : Type) `{Libp2p host} : Type := {
  written : host → list bytes;
  host_ID_utf8 h : is_utf8 (host_ID h) = true;
  New_written key h : New key = Ok h → written h = [];
  MdnsStart_written h : written (MdnsStart h).2 = written h;
  MdnsStart_ID h : host_ID (MdnsStart h).2 = host_ID h;
  NewStream_written p h : written (NewStream p h).2 = written h;
  NewStream_ID p h : host_ID (NewStream p h).2 = host_ID h;
  ClosePeer_written p h : written (ClosePeer p h).2 = written h;
  ClosePeer_ID p h : host_ID (ClosePeer p h).2 = host_ID h;
  Write_written s b h : written (Write s b h).2 = written h ∨ written (Write s b h).2 = written h ++ [b];
  Write_ID s b h : host_ID (Write s b h).2 = host_ID h
}.

Section log.
Context `{Libp2pLog host}.
Implicit Types (l : LibP2pTransport host).

Definition log l : list bytes := written (lt_host l).

(** Under its id the log has what it had, and besides only messages that are
    [M]. *)
Definition logs (N : string) (old : list bytes) (M : bytes → Prop) l : Prop :=
  host_ID (lt_host l) = N ∧ old ⊆ log l ∧ Forall M (log l).

Context (N : string) (old : list bytes) (M : bytes → Prop).

Lemma logs_on_host {A} (m : proc host A) :
  (∀ h, host_ID (m h).2 = host_ID h) →
  (∀ h, written (m h).2 = written h ∨ ∃ b, M b ∧ written (m h).2 = written h ++ [b]) →
  preserves (logs N old M) (on_host m).
Proof.
  intros Hi Hm l (HN & Ho & HM). unfold on_host, logs, log in *.
  specialize (Hi (lt_host l)). specialize (Hm (lt_host l)).
  destruct (m (lt_host l)) as [o h]. cbn in *. rewrite Hi. split; [done|].
  destruct Hm as [->|(b & Hb & ->)]; [done|]. split.
  - intros x Hx. apply elem_of_app. left. by apply Ho.
  - apply Forall_app. split; [done|]. by apply Forall_singleton.
Qed.

Lemma logs_write s b : M b → preserves (logs N old M) (write_stream s b).
Proof.
  intros Hb. apply logs_on_host; intros h; [apply Write_ID|].
  destruct (Write_written s b h); [by left|right]. by exists b.
Qed.

Lemma logs_SendMsg id b : M b → preserves (logs N old M) (Transport.SendMsg id b).
Proof.
  intros Hb. pose proof (logs_write) as Hw. unfold Transport.SendMsg.
  assert (∀ p, preserves (logs N old M) (on_host (NewStream p))) as Hn.
  { intros p. apply logs_on_host; intros h; [apply NewStream_ID|left; apply NewStream_written]. }
  preserve; try by apply Hw. intros l Hl. exact Hl.
Qed.

Lemma logs_Broadcast b : M b → preserves (logs N old M) (Broadcast b).
Proof.
  intros Hb. unfold Broadcast. preserve. generalize (Peers (lt_host a)) as ids.
  induction ids as [|id ids IH]; cbn [send_all]; preserve. by apply logs_SendMsg.
Qed.

Lemma logs_Stop : preserves (logs N old M) Transport_Stop.
Proof.
  unfold Transport_Stop. preserve. generalize (Peers (lt_host a)) as ids.
  induction ids as [|id ids IH]; cbn [close_all]; preserve.
  apply logs_on_host; intros h; [apply ClosePeer_ID|left; apply ClosePeer_written].
Qed.

(** A transport that was just started has written nothing. *)
Lemma started_log key l : Transport_Start (NewLibp2pTransport key) = Done l → log l = [].
Proof.
  unfold Transport_Start, NewLibp2pTransport, DiscoverPeers, log. cbn [lt_pk].
  destruct (New key) as [h|] eqn:Hn; [|done]. pose proof (MdnsStart_written h) as Hm.
  unfold mbind, proc_bind. destruct (MdnsStart h) as [[[err|]|w|w] h']; try done.
  cbn. intros [= <-]. cbn in *. rewrite Hm. by apply New_written in Hn.
Qed.
End log.

(** ** What a node writes

    Messages in its own name, and requests for a new epoch, which are in
    nobody's name.  A report that it writes is empty, and a status message has
    its own names [X] and [N]. *)
Definition sincere (X N : string) (headers : Z) (v : goval) : Prop :=
  (headers = MessageReportRes → ∃ c, v = VReportRes {| rr_common := c; Reports := Some ∅ |}) ∧
  (headers = MessageStatus →
     ∃ a, v = VStatusMsg {| Id := X; NetworkId := N; ListenAddr := a |}).

Definition own (X N : string) (b : bytes) : Prop :=
  (∃ headers topic v sig, sincere X N headers v ∧ rpc_bytes X headers topic v sig = Ok b) ∨
  (∃ epochID, new_epoch_bytes epochID = Done b).

Lemma new_epoch_decodes epochID b :
  new_epoch_bytes epochID = Done b → Decode KRPCMessage b = Ok (VRPCMessage (zero go_rpcmessage)).
Proof.
  unfold new_epoch_bytes, MessageBuilder_SetData.
  destruct (Encode (VNewEpochMesage _)) as [d|]; [|done]. cbn [mbind outcome_bind].
  unfold MessageBuilder_Bytes, MessageBuilder_Build.
  cbn [mb_data mb_headers mb_topic MessageBuilder_SetTopic MessageBuilder_SetHeaders mbind result_bind].
  destruct (Encode (VMessage _)) as [b'|] eqn:Hb; [|done]. intros [= <-].
  eapply bare_message_decodes; [|exact Hb]. split; cbn; unfold MessageNewEpoch, TopicPacemaker; lia.
Qed.

Lemma report_header headers ws : header_kind headers = Some (KReportRes, ws) → headers = MessageReportRes.
Proof. unfold header_kind. intros Hh. repeat case_match; simplify_eq. by apply Z.eqb_eq. Qed.

Lemma status_header headers ws : header_kind headers = Some (KStatusMsg, ws) → headers = MessageStatus.
Proof. unfold header_kind. intros Hh. repeat case_match; simplify_eq. by apply Z.eqb_eq. Qed.

(** Whoever reads such a message learns who has written it, and no report. *)
Record read_from (X N : string) (msg : DecodedMsg) : Prop := {
  read_author : FromId msg = X;
  read_report m : dm_Data msg = Ptr (VReportRes m) → Reports m = Some ∅;
  read_status m : dm_Data msg = Ptr (VStatusMsg m) → Id m = X ∧ NetworkId m = N
}.

Lemma own_read X N b rpcMsg msg :
  is_utf8 X = true → is_utf8 N = true → own X N b → Decode KRPCMessage b = Ok (VRPCMessage rpcMsg) →
  DefaultRPCDecoder rpcMsg = Ok msg → read_from X N msg.
Proof.
  intros HX HN [(headers & topic & v & sig & Hq & Hb)|(epochID & Hb)] Hd Hm.
  - unfold rpc_bytes, RPCMessageBuilder_Bytes in Hb. apply result_bind_ok in Hb as (r & Hr & Hb).
    unfold RPCMessageBuilder_Build in Hr. apply result_bind_ok in Hr as (p & Hp & [= <-]).
    assert (Decode KRPCMessage b = Ok (VRPCMessage {| FromID := X; Payload := Some p; rpc_Signature := sig |}))
      as Hd'. { by apply (json_decode_encode (VRPCMessage _) KRPCMessage b). }
    rewrite Hd' in Hd. injection Hd as <-. unfold DefaultRPCDecoder in Hm.
    cbn [b_message NewRPCMessageBuilder SetHeaders SetTopic SetPayload SetSignature b_payloadData
      b_headers b_topic] in Hp.
    apply result_bind_ok in Hp as (data & Hv & Hp). cbn [default Payload] in Hm.
    apply result_bind_ok in Hm as (d & Hd & Hm).
    destruct (Encode v) as [data'|] eqn:Hdata; [|done]. injection Hv as ->.
    destruct (Encode (VMessage _)) as [p'|] eqn:Hpay in Hp; [|done]. injection Hp as ->.
    destruct (message_read _ _ _ Hpay Hd) as (m' & -> & Hh & Hdat). cbn [Headers Data] in Hh, Hdat.
    rewrite Hh, Hdat in Hm. destruct (header_kind headers) as [[k ws]|] eqn:Hk; [|done].
    apply result_bind_ok in Hm as (new & Hnew & [= <-]).
    pose proof (decode_kind _ _ _ Hnew) as Hkind. destruct Hq as [Hq1 Hq2].
    split; [done|intros m [= ->]; injection Hkind as <-..].
    + destruct (Hq1 (report_header _ _ Hk)) as (c & ->).
      by destruct (empty_report_read c _ _ Hdata Hnew) as (m2 & [= ->] & Hm2).
    + destruct (Hq2 (status_header _ _ Hk)) as (a & ->).
      by destruct (status_read {| Id := X; NetworkId := N; ListenAddr := a |} _ _ HX HN Hdata Hnew)
        as (m2 & [= ->] & Hm2).
  - apply new_epoch_decodes in Hb. rewrite Hb in Hd. injection Hd as <-. by vm_compute in Hm.
Qed.

(** The jobs of a registry that nobody has run: none of them gives a report. *)
Definition unready (g : gmap string Job) : Prop := map_Forall (λ _ job, dr_ReportAssembler job = None) g.

Lemma unready_answers {net} (n : node net) obs acc values :
  unready (pm_registry n) → assemble_all n obs acc = Done values → values = acc.
Proof.
  intros Hg. destruct obs as [|[j obs] rest]; cbn [assemble_all]; [by intros [= <-]|].
  unfold registered. destruct (jobRegistry (re n)); [done..|].
  destruct (pm_registry n !! j) as [job|] eqn:Hj; [|done]. cbn [mbind outcome_bind].
  unfold Assemble. by rewrite (Hg j job Hj).
Qed.

(** ** A node in the network *)
Section node.
Context `{Nondet} `{Ecdsa} `{Libp2pLog host}.
#[local] Abbreviation T := (LibP2pTransport host).
#[local] Abbreviation net := (Server T).

(** What the server has been told about who is where. *)
Record told (B : string → string → Prop) (s : net) : Prop := {
  told_infos : Forall (λ i, B (info_ServerId i) (info_NetworkId i)) (commsChWithServer s);
  told_routes who p : appIdToPeerId s !! who = Some p → B who p;
  told_peers p q : peers s !! p = Some q → ServerID q = "" ∨ B (ServerID q) p
}.

(** The server under its id, whose log has what it had and what is its own. *)
Record own_server (X N : string) (B : string → string → Prop) (old : list bytes) (s : net) : Prop := {
  own_name : server_id s = X;
  own_logs : logs N old (own X N) (transporter s);
  own_told : told B s
}.

(** The engine sends under the same id, and what it holds was received. *)
Record own_engine (X : string) (R : DecodedMsg → Prop) (r : ReportingEngine) : Prop := {
  own_id : msgService r = true → si_ID (serverOpts r) = X;
  own_observations who o : observations (leaderState r) !! who = Some o →
    ∃ msg m, R msg ∧ FromId msg = who ∧ dm_Data msg = Ptr (VObserveResp m) ∧
      o = Some (group_responses (elems (JobResponses m)));
  own_reports rep : rep ∈ ls_reports (leaderState r) → rep = zero_report ∨
    ∃ msg m, R msg ∧ dm_Data msg = Ptr (VReportRes m) ∧ rep = attested msg m
}.

Section server.
Context (X N : string) (B : string → string → Prop) (old : list bytes).
#[local] Abbreviation J := (own_server X N B old).

Lemma own_on_transport {A} (m : proc T A) :
  preserves (logs N old (own X N)) m → preserves J (on_transport m).
Proof.
  intros Hm s [Hs Hl []]. unfold on_transport. specialize (Hm (transporter s) Hl).
  destruct (m (transporter s)). by split.
Qed.

(** An update that leaves the id and the transport alone. *)
Lemma own_modify f :
  (∀ s, server_id (f s) = server_id s ∧ transporter (f s) = transporter s) →
  (∀ s, told B s → told B (f s)) → preserves J (modify f).
Proof.
  intros Hf Ht. apply preserves_modify. intros s []. destruct (Hf s) as [Hi Hl].
  split; [by rewrite Hi|by rewrite Hl|by apply Ht].
Qed.

(** One that leaves the tables alone too. *)
Lemma own_idle f :
  (∀ s, server_id (f s) = server_id s ∧ transporter (f s) = transporter s ∧
        commsChWithServer (f s) = commsChWithServer s ∧ appIdToPeerId (f s) = appIdToPeerId s ∧
        peers (f s) = peers s) → preserves J (modify f).
Proof.
  intros Hf. apply own_modify; [intros s; by destruct (Hf s) as (? & ? & _)|].
  intros s []. destruct (Hf s) as (_ & _ & Hc & Hr & Hp). split; by rewrite ?Hc, ?Hr, ?Hp.
Qed.

Lemma own_SendMsg to b : own X N b → preserves J (Server_SendMsg to b).
Proof.
  intros Hb. unfold Server_SendMsg. preserve. by apply own_on_transport, logs_SendMsg.
Qed.

Lemma own_BroadcastMsg b : own X N b → preserves J (Server_BroadcastMsg b).
Proof.
  intros Hb. unfold Server_BroadcastMsg. preserve. by apply own_on_transport, logs_Broadcast.
Qed.

Lemma own_handshake to : preserves J (sendHandshakeMsgToPeerNode to).
Proof.
  intros s Hs. unfold sendHandshakeMsgToPeerNode, get. unfold mbind, proc_bind.
  destruct (rpc_bytes _ _ _ _ _) as [b|] eqn:Hb; [|exact Hs].
  apply own_on_transport; [|done]. apply logs_SendMsg. left. destruct Hs as [<- [<- _] _].
  do 4 eexists. split; [|exact Hb]. split; [discriminate|]. intros _. by eexists.
Qed.

Lemma own_announce : preserves J announce_count.
Proof.
  intros s Hs. unfold announce_count, get, block, modify, mbind, proc_bind.
  destruct (_ <=? _)%nat; [exact Hs|]. by destruct Hs as [Hn Hl []].
Qed.

(** A peer that was just found has no server id yet. *)
Lemma own_handleNewPeer peer : preserves J (handleNewPeer peer).
Proof.
  pose proof own_handshake. pose proof own_announce. unfold handleNewPeer, Server.lock, Server.unlock.
  preserve; try by apply own_idle. apply own_modify; [done|]. intros s [Hi Hr Hp]. split; [done..|].
  intros p q. cbn. intros [[<- <-]|[_ Hq]]%lookup_insert_Some; [by left|by apply Hp].
Qed.

Lemma own_process_info i :
  B (info_ServerId i) (info_NetworkId i) → preserves J (process_info i).
Proof.
  intros Hb s Hs. unfold process_info, Server.lock, Server.unlock, get, block, modify.
  unfold mbind, proc_bind. destruct (peerLock s); [exact Hs|]. cbn.
  destruct (peers s !! info_NetworkId i) as [peer|] eqn:Hpeer;
    destruct Hs as [Hn Hl [Hi Hr Hp]]; (split; [done..|]); split; cbn; try done.
  - intros who p. cbn. intros [[<- <-]|[_ Hw]]%lookup_insert_Some; [done|by apply Hr].
  - intros p q. cbn. intros [[<- <-]|[_ Hq]]%lookup_insert_Some; [by right|by apply Hp].
Qed.

Lemma own_receive_info : preserves J receive_info.
Proof.
  intros s Hs. unfold receive_info, get, block. unfold mbind at 1, proc_bind at 1.
  destruct (commsChWithServer s) as [|i rest] eqn:Hc; [exact Hs|].
  pose proof Hs as [Hn Hl [Hi Hr Hp]]. rewrite Hc in Hi. apply Forall_cons in Hi as [Hi Hrest].
  unfold modify, mbind, proc_bind. apply own_process_info; [done|]. split; [done..|]. by split.
Qed.

Lemma own_push_info i : B (info_ServerId i) (info_NetworkId i) → preserves J (push_info i).
Proof.
  intros Hb. unfold push_info. intros s Hs. unfold get, block, modify, mbind, proc_bind.
  destruct (_ <=? _)%nat; [exact Hs|]. destruct Hs as [Hn Hl [Hi Hr Hp]]. split; [done..|].
  split; [|done..]. cbn. apply Forall_app. split; [done|]. by apply Forall_singleton.
Qed.

Lemma own_Start_return : preserves J Start_return.
Proof.
  unfold Start_return. preserve; [by apply own_idle|]. apply own_on_transport, logs_Stop.
Qed.
End server.

#[local] Instance own_custody X N B old R :
  Custody (own_server X N B old) (own_engine X R) unready (own X N) (sincere X N) R.
Proof.
  split.
  - intros to b. apply own_SendMsg.
  - intros b. apply own_BroadcastMsg.
  - intros who s Hs. cbn. unfold Server_IsPeer. proc_simpl. by destruct (peerLock s).
  - intros r r' [Ho Hs Hobs Hrep] [Hi Hob Hre]. split.
    + intros Hup. rewrite Ho. auto.
    + intros who o Hw. apply Hob. by eapply lookup_weaken.
    + intros rep Hr. destruct (Hrep rep Hr) as [?| ->]; [auto|by left].
  - intros r headers topic v sig b Hq [Hi _ _] Hup Hb. left.
    exists headers, topic, v, sig. split; [done|]. by rewrite <-(Hi Hup).
  - intros headers v Hr Hs. by split.
  - intros n obs values c Hg Ha. split; [|discriminate]. intros _.
    exists c. by rewrite (unready_answers n obs ∅ values Hg Ha).
  - intros r msg m Hr Hd [Hi Hob Hre]. split; [exact Hi| |exact Hre].
    intros who o. cbn. unfold Store. intros [[<- <-]|[_ Ho]]%lookup_insert_Some; [|by apply Hob].
    by exists msg, m.
  - intros r msg m Hr Hd [Hi Hob Hre]. split; [exact Hi|exact Hob|].
    intros rep. cbn. rewrite elem_of_app, list_elem_of_singleton. intros [?| ->]; [by apply Hre|].
    right. by exists msg, m.
Qed.

(** *** Its steps *)
Section steps.
Context `{JobFiles fs file} (toml_type : bytes → result string)
  (toml_params : bytes → result DirectRequestTemplateParams).
Context (X N : string) (B : string → string → Prop) (old : list bytes) (R : DecodedMsg → Prop).
(** What arrives about who is where. *)
Hypothesis R_told : ∀ msg m, R msg → dm_Data msg = Ptr (VStatusMsg m) → B (Id m) (NetworkId m).

Lemma read_unready r format job :
  JobReader_Read toml_type toml_params r format = Ok (Some job) → dr_ReportAssembler job = None.
Proof.
  unfold JobReader_Read. intros Hr. apply result_bind_ok in Hr as (data & _ & Hr).
  apply result_bind_ok in Hr as (t & _ & Hr). destruct format; try done.
  destruct (String.eqb _ _); [|done]. by apply result_bind_ok in Hr as (p & _ & [= <-]).
Qed.

Definition own_node (p : Pacemaker T) : Prop :=
  kept (own_server X N B old) (own_engine X R) unready (Reporter p).
#[local] Hint Extern 2 (preserves own_node (modify _)) =>
  (apply preserves_modify; intros ? ?; assumption) : preserves.

Lemma own_on_reporter {A} (m : proc (node net) A) :
  preserves (kept (own_server X N B old) (own_engine X R) unready) m → preserves own_node (on_reporter m).
Proof.
  intros Hm p Hp. unfold on_reporter, own_node. specialize (Hm (Reporter p) Hp).
  by destruct (m (Reporter p)).
Qed.

Lemma own_on_server {A} (m : proc net A) :
  preserves (own_server X N B old) m → preserves own_node (on_server m).
Proof.
  intros Hm. apply own_on_reporter. intros r [Hr Hl]. unfold on_net.
  specialize (Hm (below r) Hr). by destruct (m (below r)).
Qed.

Lemma own_SendNewEpochMsg : preserves own_node SendNewEpochMsg.
Proof.
  intros p Hp. unfold SendNewEpochMsg, get, lift_outcome. unfold mbind at 1 2, proc_bind at 1 2.
  destruct (new_epoch_bytes (e (currEpochStat p))) as [b|w|w] eqn:Hb; [|exact Hp..].
  destruct (attached p); [|exact Hp].
  assert (preserves own_node (on_server (BroadcastMsg b))) as Hs.
  { apply own_on_server, own_BroadcastMsg. right. by eexists. }
  specialize (Hs p Hp). unfold mbind, proc_bind. by destruct (on_server _ p) as [[]].
Qed.

Lemma own_elect fuel looks epoch : preserves own_node (elect fuel looks epoch).
Proof. unfold elect. preserve. Qed.

Lemma own_launch readers : preserves own_node (launch_readers toml_type toml_params readers).
Proof.
  induction readers as [|data readers IH]; cbn [launch_readers]; preserve.
  apply own_on_reporter. apply kept_registry; [done..|].
  intros n Hg. cbn. apply map_Forall_insert_2; [|done]. by eapply read_unready.
Qed.

Lemma own_Start_elect fuel looks files :
  preserves own_node (Start_elect fuel looks toml_type toml_params files).
Proof.
  pose proof own_elect. pose proof own_launch.
  unfold Start_elect, launchJobListeners, upateOCRState, readLoop_step. preserve.
Qed.

(** The engine is made with the id of the server. *)
Lemma own_Start_init leader lead came address key :
  preserves own_node (Start_init leader lead came address key).
Proof.
  unfold Start_init. apply preserves_bind.
  { pose proof own_SendNewEpochMsg. preserve. }
  intros _ p Hp. unfold get. unfold mbind, proc_bind. pose proof Hp as [[HX _ _] _].
  apply own_on_reporter; [|exact Hp].
  apply (kept_initReporter _ _ _ (own X N) (sincere X N) R). intros r Ho Hob Hrep. split.
  - intros _. rewrite Ho. exact HX.
  - intros who o. by rewrite Hob, lookup_empty.
  - intros rep. rewrite Hrep, list_elem_of_singleton. by left.
Qed.

Lemma own_Start_run : preserves own_node Start_run.
Proof. unfold Start_run. preserve. by apply own_on_reporter, (kept_Start _ _ _ (own X N) (sincere X N) R). Qed.

Lemma own_PM_ProcessMessage fuel looks msg : preserves own_node (PM_ProcessMessage fuel looks msg).
Proof.
  pose proof own_elect.
  unfold PM_ProcessMessage, processNewEpochMsg, switchToNewEpoch. preserve; apply own_on_reporter;
    [by apply (kept_Stop _ _ _ (own X N) (sincere X N) R)|by apply (kept_Start _ _ _ (own X N) (sincere X N) R)..].
Qed.

(** What is read from a stream is [R]. *)
Definition arrives (b : bytes) : Prop := ∀ rpcMsg msg,
  Decode KRPCMessage b = Ok (VRPCMessage rpcMsg) → DefaultRPCDecoder rpcMsg = Ok msg → R msg.

Lemma own_receive st env fuel looks b : arrives b → preserves own_node (receive st env fuel looks b).
Proof.
  intros Hb. unfold receive. apply preserves_bind; [by eauto with preserves|intros p0].
  destruct (serving (server p0)); [|by eauto with preserves].
  destruct (Decode KRPCMessage b) as [v|] eqn:Hd; [|by eauto with preserves].
  destruct v as [|m| | | | | | | | | | | |]; try by eauto with preserves.
  unfold process_rpc. destruct (DefaultRPCDecoder m) as [msg|] eqn:Hm; [|by eauto with preserves].
  specialize (Hb m msg Hd Hm). unfold ServerRPCProcessor_ProcessMessage.
  assert (∀ m, dm_Data msg = Ptr (VStatusMsg m) → preserves own_node (on_server (push_info
    {| info_NetworkId := NetworkId m; info_ListenAddr := ListenAddr m; info_ServerId := Id m |}))) as Hi.
  { intros m' Hs. apply own_on_server, own_push_info. by apply (R_told msg). }
  assert (∀ h, handlers st env fuel looks !! Topic msg = Some h → preserves own_node (h msg)) as Hh.
  { intros h Hlook. assert (h = (λ msg, on_reporter (ProcessMessage env msg)) ∨
      h = PM_ProcessMessage fuel looks) as [-> | ->].
    { revert Hlook. destruct st; cbn; [by rewrite lookup_empty|..];
        intros [[_ <-]|[_ [_ <-]%lookup_singleton_Some]]%lookup_insert_Some; auto. }
    - by apply own_on_reporter, (kept_ProcessMessage _ _ _ (own X N) (sincere X N) R).
    - apply own_PM_ProcessMessage. }
  preserve; [by apply Hi|by apply Hh].
Qed.

(** The network changes nothing in the log and no id. *)
Definition allowed (ev : event (T := T)) (p : Pacemaker T) : Prop :=
  match ev with
  | Own => True
  | Received b => arrives b
  | Changed t => t_ID t = t_ID (transporter (server p)) ∧ log t = log (transporter (server p))
  end.

Lemma own_event ev s s' :
  sys_event toml_type toml_params ev s s' → allowed ev (pm s) → own_node (pm s) → own_node (pm s').
Proof.
  intros Hs Ha Hp. destruct Hs as [p|p ctx Hi|fuel looks files p o p' He
    |leader lead came address key' p o p' Hi|p o p' Hr|env fuel looks b p st|peer p st|p st|t p st
    |env t l1 l2 p st Hsp|t l1 l2 p st Hsp|p st|p st]; cbn [pm allowed] in *.
  - exact Hp.
  - assert (preserves own_node (on_server take_count;; SetOCRContext ctx)) as Hc; [|by apply Hc].
    unfold SetOCRContext. preserve. apply own_on_server. by apply own_idle.
  - change p' with (o, p').2. rewrite <-He. by apply own_Start_elect.
  - change p' with (o, p').2. rewrite <-Hi. by apply own_Start_init.
  - change p' with (o, p').2. rewrite <-Hr. by apply own_Start_run.
  - by apply own_receive.
  - by apply own_on_server; [apply own_handleNewPeer|].
  - by apply own_on_server; [apply own_receive_info|].
  - destruct Hp as [[HX (HN & Hl) []] He]. split; [|exact He]. destruct Ha as [Hid Ha].
    split; [exact HX| |by split]. unfold logs. cbn. rewrite Ha. by split; [rewrite <-HN|].
  - destruct Hp as [Hb He]. by apply (kept_run_task _ _ _ (own X N) (sincere X N) R).
  - destruct t; cbn [run_pm_task]; [by apply own_SendNewEpochMsg|].
    enough (preserves own_node (event ← lift_outcome (Listen job);
      modify (λ p, set_recEvents (pm_recEvents p ++ [event]) p))) as Hl by by apply Hl.
    preserve.
  - unfold OCR_Stop. apply own_on_server; [|done]. unfold Server_Stop. preserve. by apply own_idle.
  - by apply own_on_server; [apply own_Start_return|].
Qed.
End steps.
End node.

(** ** The network *)
Section world.
Context `{Nondet} `{Ecdsa} `{Libp2pLog host} `{JobFiles fs file}.
Context (toml_type : bytes → result string)
  (toml_params : bytes → result DirectRequestTemplateParams).
#[local] Abbreviation T := (LibP2pTransport host).

(** A node is known by its place. *)
#[local] Abbreviation world := (list (system (T := T))).

Definition log_of (s : system (T := T)) : list bytes := log (transporter (server (pm s))).

Definition network_id (s : system (T := T)) : string := t_ID (transporter (server (pm s))).

(** A node does something of its own; reads what some node has written, at any
    time and any number of times; or sees its connections change. *)
Inductive world_step : world → world → Prop :=
| world_own i s s' w :
    w !! i = Some s → sys_event toml_type toml_params Own s s' → world_step w (<[i := s']> w)
| world_deliver i s s' writer b w :
    w !! i = Some s → writer ∈ w → b ∈ log_of writer →
    sys_event toml_type toml_params (Received b) s s' → world_step w (<[i := s']> w)
| world_change i s t s' w :
    w !! i = Some s → t_ID t = network_id s → log t = log_of s →
    sys_event toml_type toml_params (Changed t) s s' → world_step w (<[i := s']> w).

(** *** main.go *)
Context (GenerateKey : entropy → result Z).

Definition main_opts (key : PrivateKey) : ServerOpts := {|
  so_ListenAddr := ""; CodecType := JsonCodec; BootStrapNodes := None; so_PrivateKey := Some key |}.

(** A key, a server, and the transport as it is when it has started. *)
Definition main_server (r : entropy) : outcome (PrivateKey * Server T) :=
  key ← GeneratePrivateKey GenerateKey r;
  t ← Transport_Start (NewLibp2pTransport key);
  s ← NewServer (main_opts key) t;
  Done (key, s).

Definition main (r1 r2 r3 : entropy) : outcome world :=
  s1 ← main_server r1; s2 ← main_server r2; s3 ← main_server r3;
  Done (map (λ s, NewOCR s.2 s.1) [s1; s2; s3]).

(** ** Every node of the network is a node *)
Lemma world_step_node w w' i s :
  world_step w w' → w' !! i = Some s →
  w !! i = Some s ∨ ∃ s0, w !! i = Some s0 ∧ sys_step toml_type toml_params s0 s.
Proof.
  intros Hs. destruct Hs as [j s0 s1 w Hj Hev|j s0 s1 writer b w Hj _ _ Hev|j s0 t s1 w Hj _ _ Hev];
    (destruct (decide (i = j)) as [-> |Hne];
      [rewrite list_lookup_insert_eq by (by eapply lookup_lt_Some); intros [= <-]; right;
        exists s0; split; [done|by eexists]
      |rewrite list_lookup_insert_ne by done; by left]).
Qed.

Lemma world_steps_node w w' i s :
  rtc world_step w w' → w' !! i = Some s →
  ∃ s0, w !! i = Some s0 ∧ rtc (sys_step toml_type toml_params) s0 s.
Proof.
  intros Hr. revert s. induction Hr as [w|w1 w2 w3 H12 _ IH]; intros s Hs; [by exists s|].
  destruct (IH s Hs) as (s2 & Hs2 & Hsys).
  destruct (world_step_node _ _ _ _ H12 Hs2) as [?|(s1 & ? & ?)]; [by exists s2|].
  exists s1. split; [done|]. by eapply rtc_l.
Qed.

(** ** Nothing is made up *)

(** What a node has sent, in its own name. *)
Definition has_sent (s : system (T := T)) (msg : DecodedMsg) : Prop :=
  FromId msg = server_id (server (pm s)) ∧
  ∃ b rpcMsg, b ∈ log_of s ∧ Decode KRPCMessage b = Ok (VRPCMessage rpcMsg) ∧
    DefaultRPCDecoder rpcMsg = Ok msg.

Definition said (w : world) (msg : DecodedMsg) : Prop := ∃ s, s ∈ w ∧ has_sent s msg.

(** Who is where: a node of the network has both names. *)
Definition bound (w : world) (who p : string) : Prop :=
  ∃ s, s ∈ w ∧ server_id (server (pm s)) = who ∧ network_id s = p.

(** Each node has its names, and writes and holds only what it may. *)
Definition honest (w : world) : Prop := ∀ s, s ∈ w →
  ∃ X N, is_utf8 X = true ∧ is_utf8 N = true ∧ own_node X N (bound w) [] (said w) (pm s).

Lemma own_node_mono X N (B B' : string → string → Prop) old (R R' : DecodedMsg → Prop) (p : Pacemaker T) :
  (∀ who p, B who p → B' who p) → (∀ msg, R msg → R' msg) →
  own_node X N B old R p → own_node X N B' old R' p.
Proof.
  intros HB HR ([Hn Hl [Hinf Hrt Hpe]] & [Hi Ho Hr] & Hg). split; [split|split; [split|exact Hg]].
  - exact Hn.
  - exact Hl.
  - split.
    + eapply Forall_impl; [exact Hinf|]. intros i. apply HB.
    + intros who q Hq. by apply HB, Hrt.
    + intros q peer Hq. destruct (Hpe q peer Hq); [by left|right; by apply HB].
  - exact Hi.
  - intros who o Hw. destruct (Ho who o Hw) as (msg & m & ? & Hrest). exists msg, m. auto.
  - intros rep Hrep. destruct (Hr rep Hrep) as [?|(msg & m & ? & Hrest)]; [by left|right].
    exists msg, m. auto.
Qed.

(** What can be read of a log is from its node. *)
Lemma honest_read w writer b rpcMsg msg :
  honest w → writer ∈ w → b ∈ log_of writer → Decode KRPCMessage b = Ok (VRPCMessage rpcMsg) →
  DefaultRPCDecoder rpcMsg = Ok msg →
  read_from (server_id (server (pm writer))) (network_id writer) msg.
Proof.
  intros Hw Hin Hb Hd Hm. destruct (Hw writer Hin) as (X & N & HX & HN & [<- (<- & _ & Hl) _] & _).
  by apply (own_read _ _ b rpcMsg msg HX HN (proj1 (Forall_forall _ _) Hl b Hb)).
Qed.

(** What is read was said. *)
Lemma read_said w writer b : honest w → writer ∈ w → b ∈ log_of writer → arrives (said w) b.
Proof.
  intros Hw Hin Hb rpcMsg msg Hd Hm. exists writer. split; [done|].
  destruct (honest_read w writer b rpcMsg msg Hw Hin Hb Hd Hm) as [Ha _ _].
  split; [done|]. by exists b, rpcMsg.
Qed.

(** What is said about who is where is so. *)
Lemma said_bound w msg m :
  honest w → said w msg → dm_Data msg = Ptr (VStatusMsg m) → bound w (Id m) (NetworkId m).
Proof.
  intros Hw (q & Hq & _ & b & rpcMsg & Hb & Hd & Hm) Hdata. exists q. split; [done|].
  destruct (honest_read w q b rpcMsg msg Hw Hq Hb Hd Hm) as [_ _ Hs]. by destruct (Hs m Hdata) as [-> ->].
Qed.

(** A node goes on: it keeps its names, and its log grows. *)
Definition goes_on_as (s s' : system (T := T)) : Prop :=
  server_id (server (pm s')) = server_id (server (pm s)) ∧ network_id s' = network_id s ∧
  log_of s ⊆ log_of s'.

Lemma still_there (w : world) i s s' q :
  w !! i = Some s → goes_on_as s s' → q ∈ w → ∃ q', q' ∈ <[i := s']> w ∧ goes_on_as q q'.
Proof.
  intros Hi Hs (j & Hq)%list_elem_of_lookup. destruct (decide (i = j)) as [-> |Hne].
  - rewrite Hi in Hq. injection Hq as <-. exists s'. split; [|done].
    apply list_elem_of_lookup. exists j. apply list_lookup_insert_eq. by eapply lookup_lt_Some.
  - exists q. split; [|by repeat split]. apply list_elem_of_lookup. exists j. by rewrite list_lookup_insert_ne.
Qed.

Lemma said_on w i s s' msg :
  w !! i = Some s → goes_on_as s s' → said w msg → said (<[i := s']> w) msg.
Proof.
  intros Hi Hs (q & Hq & Hfrom & b & rpcMsg & Hb & Hrest).
  destruct (still_there w i s s' q Hi Hs Hq) as (q' & Hq' & Hid & _ & Hl).
  exists q'. split; [done|]. split; [by rewrite Hid|]. exists b, rpcMsg. split; [by apply Hl|done].
Qed.

Lemma bound_on w i s s' who p :
  w !! i = Some s → goes_on_as s s' → bound w who p → bound (<[i := s']> w) who p.
Proof.
  intros Hi Hs (q & Hq & <- & <-). destruct (still_there w i s s' q Hi Hs Hq) as (q' & Hq' & ? & ? & _).
  by exists q'.
Qed.

(** What a node is after a step that the network allows, and that it goes on. *)
Lemma honest_next w i s ev s' :
  honest w → w !! i = Some s → sys_event toml_type toml_params ev s s' → allowed (said w) ev (pm s) →
  goes_on_as s s' ∧
  ∃ X N, is_utf8 X = true ∧ is_utf8 N = true ∧ own_node X N (bound w) (log_of s) (said w) (pm s').
Proof.
  intros Hw Hi Hev Ha. destruct (Hw s) as (X & N & HX & HN & Hn); [by eapply list_elem_of_lookup_2|].
  assert (own_node X N (bound w) (log_of s) (said w) (pm s')) as Hn'.
  { eapply own_event; [|exact Hev|exact Ha|].
    { intros msg m Hsaid. by apply said_bound. }
    destruct Hn as ([Hid (HN' & _ & Hl) Ht] & He). split; [|done]. by split; [|split_and!|]. }
  split; [|by exists X, N].
  destruct Hn as [[Hid (HN1 & _) _] _], Hn' as [[Hid' (HN2 & Hold & _) _] _]. split_and!; [..|exact Hold].
  - exact (eq_trans Hid' (eq_sym Hid)).
  - exact (eq_trans HN2 (eq_sym HN1)).
Qed.

Lemma honest_event w i s ev s' :
  honest w → w !! i = Some s → sys_event toml_type toml_params ev s s' → allowed (said w) ev (pm s) →
  honest (<[i := s']> w).
Proof.
  intros Hw Hi Hev Ha. destruct (honest_next w i s ev s' Hw Hi Hev Ha) as (Hs & X & N & HX & HN & Hn').
  assert (∀ Y N old q, own_node Y N (bound w) old (said w) q →
    own_node Y N (bound (<[i := s']> w)) old (said (<[i := s']> w)) q) as Hmono.
  { intros Y N' old q. apply own_node_mono; intros; [by eapply bound_on|by eapply said_on]. }
  intros q (j & Hq)%list_elem_of_lookup. destruct (decide (i = j)) as [-> |Hne].
  - rewrite list_lookup_insert_eq in Hq by (by eapply lookup_lt_Some). injection Hq as <-.
    exists X, N. split; [done|]. split; [done|]. apply Hmono.
    destruct Hn' as ([Hid (HN' & _ & Hl) Ht] & He). split; [|done].
    split; [done|split_and!; [done|apply list_subseteq_nil|done]|done].
  - rewrite list_lookup_insert_ne in Hq by done.
    destruct (Hw q) as (Y & N' & HY & HN' & Hqn); [by eapply list_elem_of_lookup_2|].
    exists Y, N'. split; [done|]. split; [done|]. by apply Hmono.
Qed.

(** A step is one of a node, and allowed. *)
Lemma world_step_event w w' : honest w → world_step w w' →
  ∃ i s ev s', w !! i = Some s ∧ sys_event toml_type toml_params ev s s' ∧ allowed (said w) ev (pm s) ∧
    w' = <[i := s']> w.
Proof.
  intros Hw Hs. destruct Hs as [i s s' w Hi Hev|i s s' writer b w Hi Hin Hb Hev|i s t s' w Hi Hid Ht Hev].
  - by exists i, s, Own, s'.
  - exists i, s, (Received b), s'. split_and!; try done. by apply (read_said w writer).
  - by exists i, s, (Changed t), s'.
Qed.

Lemma honest_step w w' : honest w → world_step w w' → honest w'.
Proof. intros Hw (i & s & ev & s' & Hi & Hev & Ha & ->)%world_step_event; [|done]. by apply (honest_event w i s ev). Qed.

Lemma honest_steps w w' : honest w → rtc world_step w w' → honest w'.
Proof. intros Hw Hr. induction Hr; eauto using honest_step. Qed.

(** All nodes go on. *)
Lemma nodes_go_on w w' i s' : honest w → rtc world_step w w' → w' !! i = Some s' →
  ∃ s, w !! i = Some s ∧ goes_on_as s s'.
Proof.
  intros Hw Hr. revert Hw s'. induction Hr as [w|w1 w2 w3 Hs _ IH]; intros Hw s' Hi; [by exists s'|].
  destruct (IH (honest_step _ _ Hw Hs) s' Hi) as (s2 & Hs2 & Hon).
  destruct (world_step_event _ _ Hw Hs) as (j & s & ev & s1 & Hj & Hev & Ha & ->).
  destruct (honest_next w1 j s ev s1 Hw Hj Hev Ha) as ((Hn & Hid & Hl) & _).
  destruct (decide (j = i)) as [-> |Hne].
  - rewrite list_lookup_insert_eq in Hs2 by (by eapply lookup_lt_Some). injection Hs2 as <-.
    exists s. destruct Hon as (Hn' & Hid' & Hl'). split; [done|].
    split_and!; [by rewrite Hn'|by rewrite Hid'|by etrans].
  - rewrite list_lookup_insert_ne in Hs2 by done. by exists s2.
Qed.

(** What is held is empty, when nobody writes anything else. *)
Lemma honest_reports w s :
  honest w → s ∈ w →
  Forall (λ rep, entries (reports rep) = ∅) (ls_reports (leaderState (re (Reporter (pm s))))).
Proof.
  intros Hw Hs. destruct (Hw s Hs) as (X & N & _ & _ & (_ & [_ _ Hre] & _)). apply Forall_forall.
  intros rep [->|(msg & m & (q & Hq & _ & b & rpcMsg & Hb & Hd & Hm) & Hdata & ->)]%Hre; [done|].
  destruct (honest_read w q b rpcMsg msg Hw Hq Hb Hd Hm) as [_ He _].
  cbn. by rewrite (He m Hdata).
Qed.

(** The nodes that main makes have written nothing and hold nothing. *)
Lemma main_server_fresh r key s :
  main_server r = Done (key, s) →
  is_utf8 (server_id s) = true ∧ log (transporter s) = [] ∧
  ∃ t, s = fresh_server (server_id s) t.
Proof.
  unfold main_server. destruct (GeneratePrivateKey GenerateKey r) as [k| |]; try done.
  cbn [mbind outcome_bind]. destruct (Transport_Start (NewLibp2pTransport k)) as [t| |] eqn:Ht; try done.
  cbn [mbind outcome_bind NewServer so_PrivateKey main_opts CodecType]. rewrite Z.eqb_refl.
  unfold PublicKey_String. destruct (PublicKey_Bytes (PrivateKey_PublicKey k)) as [b| |]; try done.
  cbn. intros [= <- <-]. cbn. split; [apply hex_utf8|]. split; [by eapply started_log|]. by eexists.
Qed.

Lemma main_nodes r1 r2 r3 w s :
  main r1 r2 r3 = Done w → s ∈ w →
  ∃ r key srv, main_server r = Done (key, srv) ∧ s = NewOCR srv key.
Proof.
  unfold main. destruct (main_server r1) as [[k1 s1]| |] eqn:E1; try done.
  cbn [mbind outcome_bind]. destruct (main_server r2) as [[k2 s2]| |] eqn:E2; try done.
  cbn [mbind outcome_bind]. destruct (main_server r3) as [[k3 s3]| |] eqn:E3; try done.
  cbn. intros [= <-]. rewrite !elem_of_cons, elem_of_nil. intros [-> | [-> | [-> | []]]];
    do 3 eexists; (split; [|reflexivity]); eassumption.
Qed.

Lemma main_honest r1 r2 r3 w : main r1 r2 r3 = Done w → honest w.
Proof.
  intros Hm s Hs. destruct (main_nodes _ _ _ _ _ Hm Hs) as (r & key & srv & Hr & ->).
  destruct (main_server_fresh r key srv Hr) as (HX & Hl & t & Hsrv).
  exists (server_id srv), (t_ID (transporter srv)). split; [done|]. split; [apply host_ID_utf8|]. split; cbn.
  - split; [done|unfold logs; rewrite Hl; by split_and!; [|apply list_subseteq_nil|constructor]|].
    rewrite Hsrv. split; cbn; [by constructor|intros who p; by rewrite lookup_empty..].
  - split; [|done]. split; cbn; [done| |by intros rep ?%elem_of_nil]. intros who o. by rewrite lookup_empty.
Qed.
End world.

Section theorems.
Context `{Nondet} `{Ecdsa} `{Libp2pLog host} `{JobFiles fs file}.
Context (toml_type : bytes → result string)
  (toml_params : bytes → result DirectRequestTemplateParams) (GenerateKey : entropy → result Z).
#[local] Abbreviation T := (LibP2pTransport host).

(** C12: nothing is made up on the way. In every state of the network of
    [main], whatever is lost, repeated or delayed, the observations that a node
    holds under an id are those of a response that the node with this id has
    sent, and every report that it holds, except for the empty one that the
    list begins with, is one that the node it names has sent, with its contents
    and its signature. *)
Theorem network_integrity r1 r2 r3 w0 w i s :
  main GenerateKey r1 r2 r3 = Done w0 → rtc (world_step toml_type toml_params) w0 w →
  w !! i = Some s →
  (∀ who o, observations (leaderState (re (Reporter (pm s)))) !! who = Some o →
     ∃ writer msg m, writer ∈ w ∧ server_id (server (pm writer)) = who ∧ has_sent writer msg ∧
       dm_Data msg = Ptr (VObserveResp m) ∧ o = Some (group_responses (elems (JobResponses m)))) ∧
  (∀ rep, rep ∈ ls_reports (leaderState (re (Reporter (pm s)))) → rep ≠ zero_report →
     ∃ writer msg m, writer ∈ w ∧ server_id (server (pm writer)) = from rep ∧ has_sent writer msg ∧
       dm_Data msg = Ptr (VReportRes m) ∧ reports rep = Reports m ∧ sig rep = dm_Signature msg).
Proof.
  intros Hmain Hrun Hi.
  assert (honest w) as Hw by (eapply honest_steps; [by eapply main_honest|exact Hrun]).
  destruct (Hw s) as (X & N & HX & _ & (_ & [_ Hob Hre] & _)); [by eapply list_elem_of_lookup_2|]. split.
  - intros who o Ho. destruct (Hob who o Ho) as (msg & m & (q & Hq & Hsent) & Hfrom & ?).
    exists q, msg, m. split; [done|]. split; [|done]. destruct Hsent as [Hs _]. by rewrite <-Hfrom.
  - intros rep Hrep Hz. destruct (Hre rep Hrep) as [?|(msg & m & (q & Hq & Hsent) & Hd & ->)]; [done|].
    exists q, msg, m. by destruct Hsent.
Qed.

(** An engine without a final report, and not in the phase that has one. *)
Definition no_report (r : ReportingEngine) : Prop :=
  finalReport (leaderState r) = None ∧ Phase (leaderState r) ≠ PhaseFinal.

Lemma empty_round l lead a :
  rtc (round_step (the_round 0 l) one_peer) (round_start lead) a →
  Forall (λ rep, entries (reports rep) = ∅) (a_reports a) → a_final a = None ∧ a_phase a ≠ PhaseFinal.
Proof.
  intros [_ _ _ Hf Hp _]%guarantees_reached Hrs.
  assert (a_final a = None) as Hn.
  { destruct (a_final a) as [fr|] eqn:Hfr; [|done]. destruct (Hf fr eq_refl) as (sc & rs & rest & Hr & _ & Ha).
    rewrite Hr in Hrs. apply Forall_app in Hrs as [Hrs _].
    by rewrite (assemble_nothing sc _ ltac:(done)) in Ha by by constructor. }
  split; [done|]. intros Hph. rewrite Hn in Hp. by destruct (Hp Hph).
Qed.

Lemma empty_node pk (t : T) key s :
  rtc (sys_step toml_type toml_params) (NewOCR (fresh_server pk t) key) s →
  Forall (λ rep, entries (reports rep) = ∅) (ls_reports (leaderState (re (Reporter (pm s))))) →
  no_report (re (Reporter (pm s))).
Proof.
  intros Hs Hrs. apply sys_inv_reached in Hs.
  destruct (engine_at_ok _ _ _ (inv_engine _ _ _ Hs)) as [[Hre _]|(l & lead & _ & a & Ha & Hsh)].
  - unfold no_report. by rewrite Hre.
  - rewrite (shows_reports _ _ _ Hsh) in Hrs. apply Forall_cons in Hrs as [_ Hrs].
    unfold no_report. rewrite (shows_final _ _ _ Hsh), (shows_phase _ _ _ Hsh).
    by apply (empty_round l lead).
Qed.

(** C13: the program reports nothing. In every state of the network of [main],
    whatever the job files hold, whatever is lost, repeated or delayed and
    however the goroutines interleave, no engine holds a final report or is in
    its final phase: the jobs of a registry have never been run, so a node that
    is asked for a report crashes or sends an empty one, and empty reports give
    no final one. *)
Theorem no_final_report r1 r2 r3 w0 w i s :
  main GenerateKey r1 r2 r3 = Done w0 → rtc (world_step toml_type toml_params) w0 w →
  w !! i = Some s → no_report (re (Reporter (pm s))).
Proof.
  intros Hmain Hrun Hi.
  assert (honest w) as Hw by (eapply honest_steps; [by eapply main_honest|exact Hrun]).
  destruct (world_steps_node _ _ _ _ _ _ Hrun Hi) as (s0 & Hs0 & Hsys).
  destruct (main_nodes _ _ _ _ _ _ Hmain (list_elem_of_lookup_2 _ _ _ Hs0)) as (r & key & srv & Hsrv & ->).
  destruct (main_server_fresh _ _ _ _ Hsrv) as (_ & _ & t & Hf).
  rewrite Hf in Hsys. eapply empty_node; [exact Hsys|]. apply (honest_reports w); [done|].
  by eapply list_elem_of_lookup_2.
Qed.

(** C14: names are resolved truthfully: in every state of the network of
    [main], a route of a node leads to the network id of a node of the network
    that has the server id, and a peer of a node either has no server id yet,
    or has the one of a node with that network id. *)
Theorem routes_truthful r1 r2 r3 w0 w i s :
  main GenerateKey r1 r2 r3 = Done w0 → rtc (world_step toml_type toml_params) w0 w →
  w !! i = Some s →
  (∀ who p, appIdToPeerId (server (pm s)) !! who = Some p → bound w who p) ∧
  (∀ p q, peers (server (pm s)) !! p = Some q → ServerID q = "" ∨ bound w (ServerID q) p).
Proof.
  intros Hmain Hrun Hi.
  assert (honest w) as Hw by (eapply honest_steps; [by eapply main_honest|exact Hrun]).
  destruct (Hw s) as (X & N & _ & _ & [_ _ [_ Hr Hp]] & _); [by eapply list_elem_of_lookup_2|]. done.
Qed.

(** Every node of this network has come to where it is by its own steps, so
    that what holds of a node in all its runs holds of it. *)
Theorem network_nodes r1 r2 r3 w0 w i s :
  main GenerateKey r1 r2 r3 = Done w0 → rtc (world_step toml_type toml_params) w0 w →
  w !! i = Some s →
  ∃ r key srv, main_server GenerateKey r = Done (key, srv) ∧
    rtc (sys_step toml_type toml_params) (NewOCR srv key) s.
Proof.
  intros Hmain Hrun Hi. destruct (world_steps_node _ _ _ _ _ _ Hrun Hi) as (s0 & Hs0 & Hsys).
  destruct (main_nodes _ _ _ _ _ _ Hmain (list_elem_of_lookup_2 _ _ _ Hs0)) as (r & key & srv & Hsrv & ->).
  by exists r, key, srv.
Qed.
End theorems.

(** ** Schedules

    Moves of the nodes that can be computed, each a step of the network. *)
Section schedule.
Context `{Nondet} `{Ecdsa} `{Libp2pLog host} `{JobFiles fs file}.
Context (toml_type : bytes → result string)
  (toml_params : bytes → result DirectRequestTemplateParams).
#[local] Abbreviation T := (LibP2pTransport host).
#[local] Abbreviation world := (list (system (T := T))).

Inductive move :=
| MAttach | MContext | MElect (files : fs) | MInit (key : PrivateKey) | MRun
| MPeer (peer : Peer) | MInfo
| MTask (env : Env)                        (* the first goroutine that waits *)
| MRead (env : Env) (writer k : nat).      (* the k-th message of a log *)

Definition play (mv : move) (w : world) (s : system (T := T)) : option (system (T := T)) :=
  let p := pm s in
  let on_pm p' st := Some {| pm := p'; at_stage := st |} in
  match mv, at_stage s with
  | MAttach, SBoot => on_pm (AttachMsgLayer p).2 SListening
  | MContext, SListening =>
      match init_context (peerCountChan (server p)) (server_id (server p)) with
      | Done ctx => on_pm ((on_server take_count;; SetOCRContext ctx) p).2 SContext
      | _ => None
      end
  | MElect files, SContext =>
      let '(o, p') := Start_elect 1 (λ _, peers (server p)) toml_type toml_params files p in
      on_pm p' (after o (λ r, SElected r.1 r.2))
  | MInit key, SElected leader lead =>
      let '(o, p') := Start_init leader lead true "" key p in on_pm p' (after o (λ _, SInitialised))
  | MRun, SInitialised =>
      let '(o, p') := Start_run p in on_pm p' (after o (λ _, SRunning))
  | MPeer peer, st => on_pm (on_server (handleNewPeer peer) p).2 st
  | MInfo, st => on_pm (on_server receive_info p).2 st
  | MTask env, st =>
      match spawned (Reporter p) with
      | t :: l => on_pm (set_Reporter (run_task env t (set_spawned l (Reporter p))).2 p) st
      | [] => None
      end
  | MRead env writer k, st =>
      from ← w !! writer; b ← log_of from !! k;
      on_pm (receive st env 1 (λ _, peers (server p)) b p).2 st
  | _, _ => None
  end.

Definition play_at (w : world) (mv : nat * move) : option world :=
  s ← w !! mv.1; s' ← play mv.2 w s; Some (<[mv.1 := s']> w).

Fixpoint play_all (mvs : list (nat * move)) (w : world) : option world :=
  match mvs with [] => Some w | mv :: mvs => w' ← play_at w mv; play_all mvs w' end.

Lemma play_step w i mv s s' :
  w !! i = Some s → play mv w s = Some s' → world_step toml_type toml_params w (<[i := s']> w).
Proof.
  intros Hi Hp. destruct s as [p st], mv as [| | | | | | | |env writer k]; cbn [play at_stage pm] in Hp.
  - destruct st; try done. injection Hp as <-. by eapply world_own, sys_attach.
  - destruct st; try done. destruct (init_context _ _) eqn:Hc; try done. injection Hp as <-.
    by eapply world_own, sys_context.
  - destruct st; try done. destruct (Start_elect _ _ _ _ _ p) as [o p'] eqn:He. injection Hp as <-.
    by eapply world_own, sys_elect.
  - destruct st; try done. destruct (Start_init _ _ _ _ _ p) as [o p'] eqn:He. injection Hp as <-.
    by eapply world_own, sys_init.
  - destruct st; try done. destruct (Start_run p) as [o p'] eqn:He. injection Hp as <-.
    by eapply world_own, sys_run.
  - destruct st; injection Hp as <-; by eapply world_own, sys_peer.
  - destruct st; injection Hp as <-; by eapply world_own, sys_info.
  - destruct st; (destruct (spawned (Reporter p)) as [|t l] eqn:Hs; [done|]; injection Hp as <-;
      by eapply world_own, (sys_task _ _ env t [] l)).
  - assert (∃ from b, w !! writer = Some from ∧ log_of from !! k = Some b ∧
      s' = {| pm := (receive st env 1 (λ _, peers (server p)) b p).2; at_stage := st |})
      as (from & b & Hw & Hb & ->).
    { destruct st; (apply bind_Some in Hp as (from & Hw & Hp); apply bind_Some in Hp as (b & Hb & Hp);
        injection Hp as <-; by exists from, b). }
    eapply world_deliver; [exact Hi|by eapply list_elem_of_lookup_2|by eapply list_elem_of_lookup_2|].
    apply sys_receive.
Qed.

Lemma play_all_steps mvs w w' :
  play_all mvs w = Some w' → rtc (world_step toml_type toml_params) w w'.
Proof.
  revert w. induction mvs as [|[i mv] mvs IH]; intros w; cbn [play_all].
  { intros [= ->]. apply rtc_refl. }
  intros (w1 & Hw1 & Hr)%bind_Some. apply bind_Some in Hw1 as (s & Hs & Hp).
  apply bind_Some in Hp as (s' & Hp & [= <-]). eapply rtc_l; [by eapply play_step|]. by apply IH.
Qed.
End schedule.

(** ** A run of main *)
Section run.
#[local] Existing Instance in_order.

(** Three keys with three points, and signatures that anybody can make. *)
Definition twice_x : Z := 0x7cf27b188d034f7e8a52380304b51ac3c08969e277f21b35a60b48fc47669978.
Definition twice_y : Z := 0x07775510db8ed040293d9ac69f7430dbba7dade63ce982299e04b79d227873d1.

#[local] Instance three_points : Ecdsa := {|
  entropy := Z;
  base_mult d := if d =? 1 then (base_x, base_y) else if d =? 2 then (twice_x, twice_y)
                 else (base_x, P256.P - base_y);
  sign_digest _ _ e := Ok (e * e + 1, 1);
  verify_digest _ e r s := (r =? e * e + 1) && (s =? 1)
|}.

(** Hosts that are all connected. *)
Record port := { port_key : Z; port_log : list bytes }.

Definition port_name (h : port) : string :=
  if port_key h =? 1 then "QmA" else if port_key h =? 2 then "QmB" else "QmC".

#[local] Instance port_libp2p : Libp2p port := {|
  New key := Ok {| port_key := priv_D key; port_log := [] |};
  MdnsStart := mret None; ClosePeer _ := mret None; peer_Decode id := Ok id;
  NewStream _ := mret (Ok O);
  Write _ b := λ h, (Done None, {| port_key := port_key h; port_log := port_log h ++ [b] |});
  Peers h := filter (λ x, x ≠ port_name h) ["QmA"; "QmB"; "QmC"];
  host_ID := port_name; host_Addr _ := "/ip4/127.0.0.1"
|}.

#[local] Instance port_written : Libp2pLog port.
Proof.
  refine {| written := port_log |}; try done; [|by intros key h [= <-]|intros s b h; by right].
  intros h. cbn. unfold port_name. by repeat case_match.
Defined.

#[local] Instance empty_disk : JobFiles unit unit := {|
  ReadDir _ _ := Error (Errorf "no such file or directory");
  Open _ _ := Error (Errorf "no such file or directory");
  ReadAll _ _ := Error (Errorf "no such file or directory")
|}.

#[local] Abbreviation no_type := (λ _, Error (Errorf "no jobs")).
#[local] Abbreviation world := (list (system (T := LibP2pTransport port))).

(** The scalar is the entropy. *)
Definition draw (r : entropy) : result Z := Ok (r : Z).

Definition main_run : outcome world := main draw (1 : Z) (2 : Z) (3 : Z).
Definition calm : Env := {|
  http _ _ := Error (Errorf "no network"); late _ _ := false; rand := (0 : Z); site := [] |}.
Definition key_of (d : Z) : PrivateKey := {| priv_D := d; priv_pub := base_mult d |}.

Definition script : list (nat * move (fs := unit)) :=
  [(0, MAttach); (1, MAttach);
   (0, MPeer {| peer_ID := "QmB"; Addr := "" |}); (1, MPeer {| peer_ID := "QmA"; Addr := "" |});
   (0, MRead calm 1 0); (0, MInfo); (1, MRead calm 0 0); (1, MInfo);
   (0, MContext); (1, MContext); (0, MElect tt); (1, MElect tt);
   (0, MInit (key_of 1)); (1, MInit (key_of 2)); (0, MRun); (1, MRun)]%nat.

(** The leader asks, the follower answers, and the leader reads the answer, twice;
    then it sends the observations round and asks for a report on them. *)
Definition exchange : list (nat * move (fs := unit)) :=
  [(0, MTask calm); (1, MRead calm 0 1); (0, MRead calm 1 1); (0, MRead calm 1 1);
   (0, MTask calm); (0, MTask calm); (0, MTask calm); (0, MTask calm);
   (1, MRead calm 0 3); (1, MRead calm 0 5); (0, MRead calm 1 2)]%nat.

Definition follower_id : string :=
  "037cf27b188d034f7e8a52380304b51ac3c08969e277f21b35a60b48fc47669978".

(** Whether node [i] then has an observation and a report of somebody, and a
    route to it. *)
Definition has_all (s : system (T := LibP2pTransport port)) (who : string) : bool :=
  let ls := leaderState (re (Reporter (pm s))) in
  match observations ls !! who, ls_reports ls, appIdToPeerId (server (pm s)) !! who with
  | Some _, [_; rep], Some _ => String.eqb (from rep) who
  | _, _, _ => false
  end.

Definition holds (i : nat) (who : string) : bool :=
  match main_run with
  | Done w0 =>
      match play_all no_type no_type (script ++ exchange) w0 with
      | Some w => match w !! i with Some s => has_all s who | None => false end
      | None => false
      end
  | _ => false
  end.

Lemma holds_run i who :
  holds i who = true → who ≠ "" → ∃ (w0 w : world) s o rep p, main_run = Done w0 ∧
    rtc (world_step no_type no_type) w0 w ∧ w !! i = Some s ∧
    observations (leaderState (re (Reporter (pm s)))) !! who = Some o ∧
    rep ∈ ls_reports (leaderState (re (Reporter (pm s)))) ∧ rep ≠ zero_report ∧
    appIdToPeerId (server (pm s)) !! who = Some p.
Proof.
  unfold holds. intros Hh Hwho. destruct main_run as [w0| |]; try done.
  destruct (play_all no_type no_type (script ++ exchange) w0) as [w|] eqn:Hw; [|done].
  apply play_all_steps in Hw. destruct (w !! i) as [s|] eqn:Hs; [|done].
  unfold has_all in Hh. destruct (observations _ !! who) as [o|] eqn:Hob; [|done].
  destruct (ls_reports _) as [|z [|rep [|]]] eqn:Hr; try done.
  destruct (appIdToPeerId _ !! who) as [p|] eqn:Hp; [|done]. apply String.eqb_eq in Hh.
  exists w0, w, s, o, rep, p. rewrite Hr. repeat split; try done.
  - right. left.
  - intros ->. by subst who.
Qed.

Lemma leader_holds : holds 0 follower_id = true.
Proof. vm_compute. reflexivity. Qed.

Lemma network_integrity_witness :
  ∃ (w : world) s rep q1 msg1 m1 q2 msg2 m2, w !! 0%nat = Some s ∧
    (q1 ∈ w ∧ server_id (server (pm q1)) = follower_id ∧ has_sent q1 msg1 ∧
     dm_Data msg1 = Ptr (VObserveResp m1) ∧
     observations (leaderState (re (Reporter (pm s)))) !! follower_id =
       Some (Some (group_responses (elems (JobResponses m1))))) ∧
    (q2 ∈ w ∧ server_id (server (pm q2)) = from rep ∧ has_sent q2 msg2 ∧
     dm_Data msg2 = Ptr (VReportRes m2) ∧ reports rep = Reports m2 ∧ sig rep = dm_Signature msg2).
Proof.
  destruct (holds_run _ _ leader_holds ltac:(discriminate))
    as (w0 & w & s & o & rep & p & H0 & Hw & Hs & Hob & Hin & Hz & Hp).
  destruct (network_integrity no_type no_type draw _ _ _ w0 w 0%nat s H0 Hw Hs) as [Ho Hr].
  destruct (Ho follower_id o Hob) as (q1 & msg1 & m1 & ? & ? & ? & ? & ->).
  destruct (Hr rep Hin Hz) as (q2 & msg2 & m2 & Hq).
  exists w, s, rep, q1, msg1, m1, q2, msg2, m2. split_and!; first [done|apply Hq].
Defined.
(** The leader of this run has a report of its follower, an empty one. *)
Lemma no_final_report_witness :
  ∃ (w : world) s rep, w !! 0%nat = Some s ∧ rep ∈ ls_reports (leaderState (re (Reporter (pm s)))) ∧
    rep ≠ zero_report ∧ no_report (re (Reporter (pm s))).
Proof.
  destruct (holds_run _ _ leader_holds ltac:(discriminate))
    as (w0 & w & s & o & rep & p & H0 & Hw & Hs & Hob & Hin & Hz & Hp).
  exists w, s, rep. split; [exact Hs|]. split; [exact Hin|]. split; [exact Hz|].
  exact (no_final_report no_type no_type draw _ _ _ w0 w 0%nat s H0 Hw Hs).
Defined.
(** Its route to the follower leads to a node of the network. *)
Lemma routes_truthful_witness :
  ∃ (w : world) s p, w !! 0%nat = Some s ∧ appIdToPeerId (server (pm s)) !! follower_id = Some p ∧
    bound w follower_id p.
Proof.
  destruct (holds_run _ _ leader_holds ltac:(discriminate))
    as (w0 & w & s & o & rep & p & H0 & Hw & Hs & Hob & Hin & Hz & Hp).
  exists w, s, p. split; [exact Hs|]. split; [exact Hp|].
  by apply (routes_truthful no_type no_type draw _ _ _ w0 w 0%nat s H0 Hw Hs).
Defined.
End run.
