(* ===== verification/Election.v ===== *)
(** * One leader for the network of main

    The rule by which a node chooses a leader depends on what it knows of the
    others.  In the network of [main] what a node knows is true, so nodes that
    know everybody choose the same leader, which is one of them and which leads
    when it has chosen; and nodes can come to know everybody. *)

From S2P Require Import Prelude Bytes Crypto Json GoJson Jobs JobFiles Rpc LeaderSelection.
From S2P Require Import Transport Server Observations Assembly Reporter Pacemaker System Config Network.

Section election.
Context `{Nondet} `{Ecdsa} `{Libp2pLog host} `{JobFiles fs file}.
Context (toml_type : bytes → result string)
  (toml_params : bytes → result DirectRequestTemplateParams) (GenerateKey : entropy → result Z).
#[local] Abbreviation T := (LibP2pTransport host).
#[local] Abbreviation world := (list (system (T := T))).

Definition name_of (s : system (T := T)) : string := server_id (server (pm s)).
Definition tree_of (s : system (T := T)) : peers_tree := peers (server (pm s)).

(** A node that has found everybody else, and has the server ids of all it has
    found. *)
Record acquainted (w : world) (s : system (T := T)) : Prop := {
  has_found q : q ∈ w → network_id q = network_id s ∨ is_Some (tree_of s !! network_id q);
  has_ids p q : tree_of s !! p = Some q → ServerID q ≠ ""
}.

(** A network id belongs to one key, hence to one server id. *)
Definition one_name (w : world) : Prop := ∀ q q',
  q ∈ w → q' ∈ w → network_id q = network_id q' → name_of q = name_of q'.

(** Such a node chooses from the nodes of the network, all of them. *)
Lemma acquainted_candidates (w : world) s x :
  honest w → one_name w → s ∈ w → acquainted w s →
  x ∈ candidates (name_of s) (tree_of s) ↔ ∃ q, q ∈ w ∧ name_of q = x.
Proof.
  intros Hw Hone Hs [Hfound Hids].
  assert (∀ p q, tree_of s !! p = Some q → ∃ q', q' ∈ w ∧ name_of q' = ServerID q ∧ network_id q' = p) as Hp.
  { intros p q Hq. destruct (Hw s Hs) as (X & N & _ & _ & [_ _ [_ _ Hp]] & _).
    destruct (Hp p q Hq) as [He|(q' & ? & ? & ?)]; [by destruct (Hids p q Hq)|by exists q']. }
  unfold candidates. rewrite elem_of_union, elem_of_singleton, elem_of_map_to_set. split.
  - intros [->|(p & q & Hq & <-)]; [by exists s|]. destruct (Hp p q Hq) as (q' & ? & ? & _). by exists q'.
  - intros (q & Hq & <-). destruct (Hfound q Hq) as [He|[pq Hpq]]; [left; by apply Hone|right].
    exists (network_id q), pq. split; [done|]. destruct (Hp _ _ Hpq) as (q' & Hq' & <- & He). by apply Hone.
Qed.

(** ** Getting acquainted *)

(** A node that has sent its names to somebody. *)
Definition introduced (s : system (T := T)) : Prop := ∃ b rpcMsg msg m,
  b ∈ log_of s ∧ Decode KRPCMessage b = Ok (VRPCMessage rpcMsg) ∧ DefaultRPCDecoder rpcMsg = Ok msg ∧
  Topic msg = TopicServer ∧ dm_Data msg = Ptr (VStatusMsg m).

(** A server that runs, with nothing in the way. *)
Record idle (s : system (T := T)) : Prop := {
  idle_serving : serving (server (pm s)) = true;
  idle_lock : peerLock (server (pm s)) = false;
  idle_channel : commsChWithServer (server (pm s)) = []
}.

Definition with_server (v : Server T) (s : system (T := T)) : system (T := T) :=
  {| pm := set_Reporter (set_below v (Reporter (pm s))) (pm s); at_stage := at_stage s |}.

(** The server after it has received the names of a peer. *)
Definition named (who p : string) (peer : ProtcolPeer) (v : Server T) : Server T :=
  set_peers (<[p := {| ServerID := who; embedded := embedded peer |}]> (peers v))
    (<[who := p]> (appIdToPeerId v)) v.

Lemma run_on_server {A} (m : proc (Server T) A) (p : Pacemaker T) :
  on_server m p = ((m (server p)).1, set_Reporter (set_below (m (server p)).2 (Reporter p)) p).
Proof. unfold on_server, on_reporter, on_net, server. by destruct (m (below (Reporter p))). Qed.

Lemma push_info_empty i (v : Server T) :
  commsChWithServer v = [] → push_info i v = (Done tt, set_channels (peerCountChan v) [i] v).
Proof. intros Hc. unfold push_info. proc_simpl. unfold get. by rewrite Hc. Qed.

Lemma receive_info_named v i rest peer :
  peerLock v = false → commsChWithServer v = i :: rest → peers v !! info_NetworkId i = Some peer →
  receive_info v = (Done tt, named (info_ServerId i) (info_NetworkId i) peer (set_channels (peerCountChan v) rest v)).
Proof.
  destruct v as [x t l ps ap pc cc q sv]. cbn. intros -> -> Hp.
  unfold receive_info, process_info, Server.lock, Server.unlock. proc_simpl. cbn. rewrite Hp. done.
Qed.

Context (env : Env).

(** It reads them, and takes them from its channel. *)
Lemma meets_one (w : world) i s q peer :
  honest w → w !! i = Some s → q ∈ w → introduced q → idle s → tree_of s !! network_id q = Some peer →
  rtc (world_step toml_type toml_params) w
    (<[i := with_server (named (name_of q) (network_id q) peer (server (pm s))) s]> w).
Proof.
  intros Hw Hi Hq (b & rpcMsg & msg & m & Hb & Hd & Hm & Ht & Hdata) [Hsv Hlk Hch] Hpeer.
  destruct (honest_read w q b rpcMsg msg Hw Hq Hb Hd Hm) as [_ _ Hs]. destruct (Hs m Hdata) as [Hid Hnid].
  destruct s as [p st]. cbn [pm] in *. unfold tree_of in Hpeer. cbn [pm] in Hpeer.
  set (i0 := {| info_NetworkId := NetworkId m; info_ListenAddr := ListenAddr m; info_ServerId := Id m |}).
  set (v := server p) in *. set (v1 := set_channels (peerCountChan v) [i0] v).
  set (p1 := set_Reporter (set_below v1 (Reporter p)) p).
  assert (receive st env 1 (λ _, peers v) b p = (Done tt, p1)) as Hr.
  { unfold receive. proc_simpl. unfold get. fold v. rewrite Hsv, Hd. unfold process_rpc. rewrite Hm.
    unfold ServerRPCProcessor_ProcessMessage. rewrite Ht, Z.eqb_refl, Hdata.
    proc_simpl. rewrite run_on_server. fold v. by rewrite (push_info_empty _ _ Hch). }
  assert (receive_info v1 = (Done tt, named (name_of q) (network_id q) peer v)) as Hri.
  { rewrite (receive_info_named v1 i0 [] peer); [|done..|by rewrite <-Hnid in Hpeer].
    unfold i0. cbn [info_ServerId info_NetworkId]. rewrite Hid, Hnid. fold (name_of q).
    do 2 f_equal. unfold v1. destruct v. cbn in *. by subst. }
  eapply rtc_l; [|eapply rtc_l; [|apply rtc_refl]].
  - eapply (world_deliver _ _ i _ _ q b); [exact Hi|exact Hq|exact Hb|].
    apply (sys_receive _ _ env 1 (λ _, peers v)).
  - rewrite Hr. cbn [snd].
    assert (with_server (named (name_of q) (network_id q) peer v) {| pm := p; at_stage := st |} =
      {| pm := (on_server receive_info p1).2; at_stage := st |}) as ->.
    { rewrite run_on_server. change (server p1) with v1. by rewrite Hri. }
    rewrite <-(list_insert_insert_eq w i {| pm := (on_server receive_info p1).2; at_stage := st |}
      {| pm := p1; at_stage := st |}).
    eapply world_own; [|apply sys_info].
    apply list_lookup_insert_eq. by eapply lookup_lt_Some.
Qed.

(** What a node with these peers has heard from: their server ids are those of
    the nodes, and it has no other peers than before. *)
Lemma meets_all i (js : list nat) : ∀ (w : world) s,
  honest w → w !! i = Some s → idle s →
  (∀ j, j ∈ js → j ≠ i ∧ ∃ q, w !! j = Some q ∧ introduced q ∧ is_Some (tree_of s !! network_id q)) →
  ∃ s', rtc (world_step toml_type toml_params) w (<[i := s']> w) ∧ idle s' ∧
    (∀ k, is_Some (tree_of s' !! k) ↔ is_Some (tree_of s !! k)) ∧
    (∀ k p, tree_of s' !! k = Some p →
       (∃ j q, j ∈ js ∧ w !! j = Some q ∧ ServerID p = name_of q) ∨
       (tree_of s !! k = Some p ∧ ∀ j q, j ∈ js → w !! j = Some q → network_id q ≠ k)).
Proof.
  induction js as [|j js IH]; intros w s Hw Hi Hs Hjs.
  { exists s. rewrite list_insert_id by done. split; [apply rtc_refl|]. split; [done|]. split; [done|].
    intros k p Hk. right. split; [done|]. by intros j q ?%elem_of_nil. }
  destruct (Hjs j) as (Hne & q & Hq & Hin & peer & Hpeer); [by left|].
  set (s1 := with_server (named (name_of q) (network_id q) peer (server (pm s))) s).
  assert (rtc (world_step toml_type toml_params) w (<[i := s1]> w)) as Hstep.
  { by eapply meets_one; [..|eapply list_elem_of_lookup_2| | |]. }
  assert (tree_of s1 = <[network_id q := {| ServerID := name_of q; embedded := embedded peer |}]> (tree_of s)) as Ht1
    by done.
  assert (<[i := s1]> w !! i = Some s1) as Hi1 by (apply list_lookup_insert_eq; by eapply lookup_lt_Some).
  assert (∀ j, j ≠ i → <[i := s1]> w !! j = w !! j) as Hsame.
  { intros j' Hj'. by apply list_lookup_insert_ne. }
  destruct (IH (<[i := s1]> w) s1) as (s' & Hrun & Hidle & Hdom & Hval).
  - by eapply honest_steps.
  - done.
  - by destruct Hs.
  - intros j' Hj'. destruct (Hjs j') as (Hne' & q' & Hq' & Hin' & Hf); [by right|]. split; [done|].
    exists q'. rewrite Hsame by done. split; [done|]. split; [done|]. rewrite Ht1.
    apply lookup_insert_is_Some'. by right.
  - rewrite list_insert_insert_eq in Hrun. exists s'. split; [by etrans|]. split; [done|]. split.
    + intros k. rewrite Hdom, Ht1, lookup_insert_is_Some'. split; [intros [<-|?]|by right]; [by eexists|done].
    + intros k p [(j' & q' & Hj' & Hq' & He)|[Hk Hno]]%Hval.
      * left. exists j', q'. split; [by right|]. split; [|done]. rewrite Hsame in Hq'; [done|].
        apply Hjs. by right.
      * rewrite Ht1 in Hk. apply lookup_insert_Some in Hk as [[<- <-]|[Hkn Hk]].
        { left. exists j, q. split; [by left|done]. }
        right. split; [done|]. intros j' q' [->|Hj']%elem_of_cons Hq'; [by rewrite Hq in Hq'; simplify_eq|].
        apply (Hno j' q' Hj'). rewrite Hsame; [done|]. apply Hjs. by right.
Qed.

(** ** The context of the protocol names its node *)

(** What is on the pacemaker and not in its engine. *)
Lemma kept_on_reporter {X A} (g : Pacemaker T → X) c (m : proc (node (Server T)) A) :
  (∀ r p, g (set_Reporter r p) = g p) → preserves (λ p, g p = c) (on_reporter m).
Proof. intros Hg p Hp. unfold on_reporter. destruct (m (Reporter p)). cbn. by rewrite Hg. Qed.

Lemma kept_launched {X} (g : Pacemaker T → X) c files :
  (∀ r p, g (set_Reporter r p) = g p) → (∀ t p, g (pm_spawn t p) = g p) →
  preserves (λ p, g p = c) (launchJobListeners toml_type toml_params jobs_source files).
Proof.
  intros Hr Hs. assert (∀ readers, preserves (λ p, g p = c) (launch_readers toml_type toml_params readers)) as Hl.
  { induction readers as [|data readers IH]; cbn [launch_readers]; preserve.
    - by apply kept_on_reporter.
    - apply preserves_modify. intros p Hp. by rewrite Hs. }
  unfold launchJobListeners. preserve.
Qed.

Section noted.
Context (c : option OCRCtx).
#[local] Abbreviation noted := (λ p : Pacemaker T, ocrCtx p = c).
#[local] Hint Extern 2 (preserves noted (modify _)) => (apply preserves_modify; intros ? ?; assumption) : preserves.
#[local] Hint Extern 2 (preserves noted (on_reporter _)) => (by apply kept_on_reporter) : preserves.

Lemma noted_on_server {A} (m : proc (Server T) A) : preserves noted (on_server m).
Proof. by apply kept_on_reporter. Qed.
#[local] Hint Resolve noted_on_server : preserves.

Lemma noted_SendNewEpochMsg : preserves noted SendNewEpochMsg.
Proof. unfold SendNewEpochMsg. preserve. Qed.
#[local] Hint Resolve noted_SendNewEpochMsg : preserves.

Lemma noted_PM_ProcessMessage fuel looks msg : preserves noted (PM_ProcessMessage fuel looks msg).
Proof. unfold PM_ProcessMessage, processNewEpochMsg, switchToNewEpoch, elect. preserve. Qed.
#[local] Hint Resolve noted_PM_ProcessMessage : preserves.

Lemma noted_receive st e fuel looks b : preserves noted (receive st e fuel looks b).
Proof.
  assert (∀ t h msg, handlers st e fuel looks !! t = Some h → preserves noted (h msg)) as Hh.
  { intros t h msg. destruct st; cbn; [by rewrite lookup_empty|..];
      intros [[_ <-]|[_ [_ <-]%lookup_singleton_Some]]%lookup_insert_Some; eauto with preserves. }
  unfold receive, process_rpc, ServerRPCProcessor_ProcessMessage. preserve.
Qed.

Lemma noted_Start_elect fuel looks files :
  preserves noted (Start_elect fuel looks toml_type toml_params files).
Proof.
  pose proof (kept_launched ocrCtx c files (λ _ _, eq_refl) (λ _ _, eq_refl)).
  unfold Start_elect, elect, upateOCRState, readLoop_step. preserve.
Qed.

Lemma noted_Start_init leader lead came address key : preserves noted (Start_init leader lead came address key).
Proof. unfold Start_init. preserve. Qed.

Lemma noted_run_pm_task t : preserves noted (run_pm_task t).
Proof. destruct t; cbn [run_pm_task]; preserve. Qed.
End noted.

(** Only the first count of peers makes a context, and in the node's name. *)
Lemma context_next ev s s' : sys_event toml_type toml_params ev s s' →
  ocrCtx (pm s') = ocrCtx (pm s) ∨
  ∃ count faulty, ocrCtx (pm s') = Some {| PeerCount := count; FaultyCount := faulty; ID := name_of s |}.
Proof.
  intros Hs. destruct Hs as [p|p ctx Hi|fuel looks files p o p' He
    |leader lead came address key' p o p' Hi|p o p' Hr|e fuel looks b p st|peer p st|p st|t p st
    |e t l1 l2 p st Hsp|t l1 l2 p st Hsp|p st|p st]; cbn [pm]; try (left; by apply noted_on_server).
  - by left.
  - right. unfold init_context in Hi. destruct (peerCountChan (server p)) as [|count rest]; [done|].
    injection Hi as <-. by do 2 eexists.
  - left. change p' with (o, p').2. rewrite <-He. by apply noted_Start_elect.
  - left. change p' with (o, p').2. rewrite <-Hi. by apply noted_Start_init.
  - left. change p' with (o, p').2. rewrite <-Hr. unfold Start_run, gets. by apply kept_on_reporter.
  - left. by apply noted_receive.
  - by left.
  - left. by apply (noted_run_pm_task (ocrCtx p)).
Qed.

(** A server id is the text of a key, never empty. *)
Lemma main_name r key srv : main_server GenerateKey r = Done (key, srv) → server_id srv ≠ "".
Proof.
  unfold main_server. destruct (GeneratePrivateKey GenerateKey r) as [k| |]; try done.
  cbn [mbind outcome_bind]. destruct (Transport_Start (NewLibp2pTransport k)) as [t| |]; try done.
  cbn [mbind outcome_bind NewServer so_PrivateKey main_opts CodecType]. rewrite Z.eqb_refl.
  unfold PublicKey_String, PublicKey_Bytes. destruct (pub_key _) as [[x y]|]; try done.
  cbn. intros [= <- <-]. cbn [server_id fresh_server]. by destruct (Z.testbit y 0).
Qed.

Lemma names_nonempty r1 r2 r3 (w0 w : world) q :
  main GenerateKey r1 r2 r3 = Done w0 → rtc (world_step toml_type toml_params) w0 w → q ∈ w → name_of q ≠ "".
Proof.
  intros Hmain Hrun (i & Hq)%list_elem_of_lookup.
  destruct (nodes_go_on _ _ _ _ _ _ (main_honest _ _ _ _ _ Hmain) Hrun Hq) as (q0 & Hq0 & Hn & _).
  unfold name_of. rewrite Hn.
  destruct (main_nodes _ _ _ _ _ _ Hmain (list_elem_of_lookup_2 _ _ _ Hq0)) as (r & key & srv & Hr & ->).
  by eapply main_name.
Qed.

(** C16: nodes can get acquainted. From every state of the network of [main] in
    which a node has found all the others, and only them, its server is idle
    and the others have sent it their names, there is a run after which the
    node is acquainted with the whole network, and no other node has changed. *)
Theorem nodes_meet r1 r2 r3 (w0 w : world) i s :
  main GenerateKey r1 r2 r3 = Done w0 → rtc (world_step toml_type toml_params) w0 w →
  w !! i = Some s → idle s →
  (∀ j q, w !! j = Some q → j ≠ i → introduced q ∧ is_Some (tree_of s !! network_id q)) →
  (∀ k, is_Some (tree_of s !! k) → ∃ j q, j ≠ i ∧ w !! j = Some q ∧ network_id q = k) →
  ∃ w' s', rtc (world_step toml_type toml_params) w w' ∧ w' !! i = Some s' ∧
    acquainted w' s' ∧ idle s' ∧ ∀ j, j ≠ i → w' !! j = w !! j.
Proof.
  intros Hmain Hrun Hi Hs Hall Honly.
  assert (honest w) as Hw by (eapply honest_steps; [by eapply main_honest|exact Hrun]).
  set (js := filter (λ j, j ≠ i) (seq 0 (length w))).
  assert (∀ j q, w !! j = Some q → j ≠ i → j ∈ js) as Hjs.
  { intros j q Hj Hne. apply list_elem_of_filter. split; [done|]. apply elem_of_seq.
    apply lookup_lt_Some in Hj. lia. }
  destruct (meets_all i js w s Hw Hi Hs) as (s' & Hr & Hs' & Hdom & Hval).
  { intros j [Hne Hj]%list_elem_of_filter. split; [done|]. apply elem_of_seq in Hj.
    destruct (lookup_lt_is_Some_2 w j ltac:(lia)) as [q Hq]. exists q. split; [done|]. by apply (Hall j). }
  assert (<[i := s']> w !! i = Some s') as Hi' by (apply list_lookup_insert_eq; by eapply lookup_lt_Some).
  assert (∀ j, j ≠ i → <[i := s']> w !! j = w !! j) as Hsame by (intros; by apply list_lookup_insert_ne).
  exists (<[i := s']> w), s'. split_and!; [done..| |done|done]. split.
  - intros q (j & Hq)%list_elem_of_lookup. destruct (decide (j = i)) as [-> |Hne].
    + left. by simplify_eq.
    + right. rewrite Hsame in Hq by done. apply Hdom. by apply (Hall j).
  - intros k p Hk. destruct (Hval k p Hk) as [(j & q & Hj & Hq & ->)|[Hk' Hno]].
    + eapply names_nonempty; [exact Hmain|exact Hrun|by eapply list_elem_of_lookup_2].
    + destruct (Honly k) as (j & q & Hne & Hq & He); [by eexists|]. by destruct (Hno j q (Hjs j q Hq Hne) Hq).
Qed.

(** ** The election of a node *)

(** The wait ends with the leader of one of the looks, if one of them finds a
    peer. *)
Lemma backoff_finds `{Nondet} epoch key (looks : nat → peers_tree) self fuel : ∀ i backoff slept,
  (∃ k, (i ≤ k < i + fuel)%nat ∧ looks k ≠ ∅) →
  ∃ leader t j, exponentialBackoff fuel i backoff slept epoch key looks self = Some (leader, t) ∧
    findLeader [j] self epoch key (looks j) = Some leader.
Proof.
  induction fuel as [|fuel IH]; intros i backoff slept (k & Hk & Hne); [lia|]. cbn [exponentialBackoff].
  destruct (findLeader [i] self epoch key (looks i)) as [leader|] eqn:E; [by exists leader, slept, i|].
  apply findLeader_None in E. apply IH. exists k. split; [|done].
  assert (k ≠ i) by (by intros ->). lia.
Qed.

Lemma Start_elect_finds `{Nondet} fuel looks files (p : Pacemaker T) ctx tree :
  ocrCtx p = Some ctx → e (currEpochStat p) = 0 →
  (∀ k, looks k = ∅ ∨ looks k = tree) → (∃ k, (k < fuel)%nat ∧ looks k ≠ ∅) →
  ∃ v leader, findLeader v (ID ctx) 0 secretKey tree = Some leader ∧
    Start_elect fuel looks toml_type toml_params files p =
    if String.eqb (ServerID leader) (ID ctx) then
      (upateOCRState LEADING;; launchJobListeners toml_type toml_params jobs_source files;; mret (leader, true)) p
    else (Done (leader, false), set_state FOLLOWING p).
Proof.
  intros Hc He Hl (k & Hk & Hne).
  destruct (backoff_finds 0 secretKey looks (ID ctx) fuel 0 initTickerTime 0) as (leader & t & j & Hb & Hf).
  { exists k. split; [lia|done]. }
  exists [j], leader. split.
  - destruct (Hl j) as [Hj| <-]; [|done]. rewrite Hj in Hf. by rewrite (proj2 (findLeader_None _ _ _ _ _) eq_refl) in Hf.
  - unfold Start_elect, elect. proc_simpl. unfold get. cbv beta iota. rewrite Hc, He. cbv beta iota.
    change (i64 0) with 0. rewrite Hb. by destruct (String.eqb _ _).
Qed.

(** The one whose leader is itself leads, and the others follow. *)
Lemma Start_elect_role `{Nondet} fuel looks files (p : Pacemaker T) ctx tree who :
  ocrCtx p = Some ctx → e (currEpochStat p) = 0 →
  (∀ k, looks k = ∅ ∨ looks k = tree) → (∃ k, (k < fuel)%nat ∧ looks k ≠ ∅) →
  (∀ v leader, findLeader v (ID ctx) 0 secretKey tree = Some leader → ServerID leader = who) →
  let '(o, p') := Start_elect fuel looks toml_type toml_params files p in
  (ID ctx = who → state p' = LEADING ∧ ∀ leader lead, o = Done (leader, lead) → ServerID leader = who ∧ lead = true) ∧
  (ID ctx ≠ who → state p' = FOLLOWING ∧ ∃ leader, o = Done (leader, false) ∧ ServerID leader = who).
Proof.
  intros Hc He Hl Hk Hwho.
  destruct (Start_elect_finds fuel looks files p ctx tree Hc He Hl Hk) as (v & leader & Hf & ->).
  specialize (Hwho v leader Hf). destruct (String.eqb_spec (ServerID leader) (ID ctx)) as [Heq|Hneq].
  - pose proof (kept_launched state LEADING files (λ _ _, eq_refl) (λ _ _, eq_refl) (set_state LEADING p) eq_refl) as Hs.
    unfold upateOCRState, readLoop_step, modify. unfold mbind, proc_bind.
    destruct (launchJobListeners _ _ _ _ (set_state LEADING p)) as [[[]|w|w] p']; cbn in Hs |- *;
      (split; [|congruence]); (split; [done|]); by intros ?? [= <- <-].
  - split; [congruence|]. intros _. split; [done|]. by exists leader.
Qed.

(** ** The network of main before elections *)

(** Nodes stay, under their names. *)
Lemma nodes_stay (w w' : world) i s : honest w → rtc (world_step toml_type toml_params) w w' → w !! i = Some s →
  ∃ s', w' !! i = Some s' ∧ goes_on_as s s'.
Proof.
  intros Hw Hr Hi. assert (length w' = length w) as Hlen.
  { clear Hi. induction Hr as [|w1 w2 w3 H12 _ IH]; [done|]. rewrite IH by by eapply honest_step.
    destruct (world_step_event _ _ _ _ Hw H12) as (j & ? & ? & ? & _ & _ & _ & ->). apply length_insert. }
  destruct (lookup_lt_is_Some_2 w' i) as [s' Hs']; [rewrite Hlen; by eapply lookup_lt_Some|].
  exists s'. split; [done|]. destruct (nodes_go_on _ _ _ _ _ _ Hw Hr Hs') as (s2 & Hs2 & Hon).
  rewrite Hi in Hs2. by injection Hs2 as <-.
Qed.

Lemma main_context r1 r2 r3 (w0 w : world) s :
  main GenerateKey r1 r2 r3 = Done w0 → rtc (world_step toml_type toml_params) w0 w → s ∈ w →
  ∀ ctx, ocrCtx (pm s) = Some ctx → ID ctx = name_of s.
Proof.
  intros Hmain Hrun. revert s.
  apply (rtc_ind_r (R := world_step toml_type toml_params)
    (λ w, ∀ s, s ∈ w → ∀ ctx, ocrCtx (pm s) = Some ctx → ID ctx = name_of s) w0); [| |exact Hrun].
  - intros s Hs ctx Hc. destruct (main_nodes _ _ _ _ _ _ Hmain Hs) as (r & key & srv & _ & ->). done.
  - intros w1 w2 H01 H12 IH s (i & Hs)%list_elem_of_lookup ctx Hc.
    assert (honest w1) as Hw by (eapply honest_steps; [by eapply main_honest|exact H01]).
    destruct (world_step_event _ _ _ _ Hw H12) as (j & s1 & ev & s' & Hj & Hev & Ha & ->).
    destruct (decide (j = i)) as [-> |Hne].
    + rewrite list_lookup_insert_eq in Hs by (by eapply lookup_lt_Some). injection Hs as ->.
      destruct (honest_next _ _ _ _ _ _ _ Hw Hj Hev Ha) as ((Hn & _) & _). unfold name_of. rewrite Hn.
      destruct (context_next _ _ _ Hev) as [He|(count & faulty & He)]; rewrite He in Hc.
      * apply (IH s1); [by eapply list_elem_of_lookup_2|done].
      * by injection Hc as <-.
    + rewrite list_lookup_insert_ne in Hs by done. apply (IH s); [by eapply list_elem_of_lookup_2|done].
Qed.

(** A node that is about to choose has a context of its own, and is in epoch 0. *)
Lemma main_ready r1 r2 r3 (w0 w : world) s :
  main GenerateKey r1 r2 r3 = Done w0 → rtc (world_step toml_type toml_params) w0 w → s ∈ w →
  at_stage s = SContext →
  e (currEpochStat (pm s)) = 0 ∧ ∃ ctx, ocrCtx (pm s) = Some ctx ∧ ID ctx = name_of s.
Proof.
  intros Hmain Hrun Hs Hst. pose proof (main_context _ _ _ _ _ _ Hmain Hrun Hs) as Hid.
  apply list_elem_of_lookup in Hs as (i & Hi). destruct (world_steps_node _ _ _ _ _ _ Hrun Hi) as (s0 & Hs0 & Hsys).
  destruct (main_nodes _ _ _ _ _ _ Hmain (list_elem_of_lookup_2 _ _ _ Hs0)) as (r & key & srv & Hsrv & ->).
  destruct (main_server_fresh _ _ _ _ Hsrv) as (_ & _ & t & Hf). rewrite Hf in Hsys.
  apply sys_inv_reached in Hsys as [_ _ Hc _ _ He _]. rewrite Hst in Hc. destruct Hc as [who Hc].
  split; [exact He|]. eexists. split; [exact Hc|]. by apply Hid.
Qed.

(** Some name of a list has the least hash. *)
Lemma least_exists (f : string → string) (l : list string) : l ≠ [] →
  ∃ x, x ∈ l ∧ ∀ y, y ∈ l → String.ltb (f y) (f x) = false.
Proof.
  induction l as [|a l IH]; [done|]. intros _. destruct l as [|b l].
  { exists a. split; [by left|]. intros y ->%list_elem_of_singleton. apply ltb_irrefl. }
  destruct IH as (x & Hx & Hmin); [done|]. destruct (String.ltb (f a) (f x)) eqn:E.
  - exists a. split; [by left|]. intros y [->|Hy]%elem_of_cons; [apply ltb_irrefl|].
    destruct (String.ltb (f y) (f a)) eqn:E'; [|done]. by rewrite <-(Hmin y Hy), (ltb_trans _ _ _ E' E).
  - exists x. split; [by right|]. intros y [->|Hy]%elem_of_cons; [done|by apply Hmin].
Qed.

Lemma same_names (w0 w : world) x : honest w0 → rtc (world_step toml_type toml_params) w0 w →
  (∃ q, q ∈ w ∧ name_of q = x) ↔ (∃ q, q ∈ w0 ∧ name_of q = x).
Proof.
  intros Hw Hr. split; intros (q & (i & Hq)%list_elem_of_lookup & <-).
  - destruct (nodes_go_on _ _ _ _ _ _ Hw Hr Hq) as (q0 & Hq0 & Hn & _).
    exists q0. split; [by eapply list_elem_of_lookup_2|by symmetry].
  - destruct (nodes_stay _ _ _ _ Hw Hr Hq) as (q' & Hq' & Hn & _).
    exists q'. split; [by eapply list_elem_of_lookup_2|exact Hn].
Qed.

Lemma one_name_stays (w0 w : world) : honest w0 → rtc (world_step toml_type toml_params) w0 w → one_name w0 → one_name w.
Proof.
  intros Hw Hr Hone q q' (i & Hq)%list_elem_of_lookup (i' & Hq')%list_elem_of_lookup.
  destruct (nodes_go_on _ _ _ _ _ _ Hw Hr Hq) as (q0 & Hq0 & Hn & Hid & _).
  destruct (nodes_go_on _ _ _ _ _ _ Hw Hr Hq') as (q0' & Hq0' & Hn' & Hid' & _).
  unfold name_of. rewrite Hid, Hid', Hn, Hn'. apply Hone; by eapply list_elem_of_lookup_2.
Qed.

Lemma main_not_empty r1 r2 r3 (w0 : world) : main GenerateKey r1 r2 r3 = Done w0 → w0 ≠ [].
Proof.
  unfold main. destruct (main_server GenerateKey r1) as [[k1 s1]| |]; [|done..].
  cbn [mbind outcome_bind]. destruct (main_server GenerateKey r2) as [[k2 s2]| |]; [|done..].
  cbn [mbind outcome_bind]. destruct (main_server GenerateKey r3) as [[k3 s3]| |]; [|done..].
  by intros [= <-].
Qed.

(** C15: one leader. If the nodes that [main] makes have network ids and hashes
    of their own, one of their names has the least hash, and it is the leader
    of everybody: whenever in a run a node comes to choose a leader, if it
    finds its tree empty until it has found all the others with their server
    ids, then it chooses that name, in whatever order it visits its tree; the
    node that has the name comes to the state LEADING, and every other node to
    FOLLOWING, after a choice that ends. *)
Theorem network_leader r1 r2 r3 (w0 : world) :
  main GenerateKey r1 r2 r3 = Done w0 → one_name w0 →
  (∀ q q', q ∈ w0 → q' ∈ w0 →
     hashPeer 0 secretKey (name_of q) = hashPeer 0 secretKey (name_of q') → name_of q = name_of q') →
  ∃ who, (∃ q, q ∈ w0 ∧ name_of q = who) ∧
    (∀ q, q ∈ w0 → String.ltb (hashPeer 0 secretKey (name_of q)) (hashPeer 0 secretKey who) = false) ∧
    ∀ (w : world) s fuel looks files,
      rtc (world_step toml_type toml_params) w0 w → s ∈ w → at_stage s = SContext → acquainted w s →
      (∀ k, looks k = ∅ ∨ looks k = tree_of s) → (∃ k, (k < fuel)%nat ∧ looks k ≠ ∅) →
      ∀ N : Nondet, let '(o, p') := Start_elect (H := N) fuel looks toml_type toml_params files (pm s) in
      (name_of s = who →
         state p' = LEADING ∧ ∀ leader lead, o = Done (leader, lead) → ServerID leader = who ∧ lead = true) ∧
      (name_of s ≠ who →
         state p' = FOLLOWING ∧ ∃ leader, o = Done (leader, false) ∧ ServerID leader = who).
Proof.
  intros Hmain Hone Hinj. assert (honest w0) as Hw0 by (by eapply main_honest).
  destruct (least_exists (hashPeer 0 secretKey) (map name_of w0)) as (who & Hwho & Hmin).
  { pose proof (main_not_empty _ _ _ _ Hmain). by destruct w0. }
  setoid_rewrite list_elem_of_fmap in Hwho. setoid_rewrite list_elem_of_fmap in Hmin.
  destruct Hwho as (q0 & -> & Hq0). exists (name_of q0). split; [by exists q0|].
  split; [intros q Hq; apply Hmin; by exists q|].
  intros w s fuel looks files Hrun Hs Hst Ha Hl Hk.
  destruct (main_ready _ _ _ _ _ _ Hmain Hrun Hs Hst) as (He & ctx & Hc & Hid).
  assert (∀ x, x ∈ candidates (name_of s) (tree_of s) ↔ ∃ q, q ∈ w0 ∧ name_of q = x) as Hcand.
  { intros x. rewrite <-(same_names w0 w x Hw0 Hrun). apply acquainted_candidates; [|by eapply one_name_stays|done..].
    by eapply honest_steps. }
  rewrite <-Hid in Hcand |- *. intros N. apply (Start_elect_role fuel looks files (pm s) ctx (tree_of s)); try done.
  intros v leader Hlead. apply findLeader_least in Hlead as (Hin & Hleast & _). apply Hcand in Hin as (q & Hq & Hql).
  rewrite <-Hql in *. apply Hinj; [done..|]. apply ltb_total; [apply Hmin; by exists q|apply Hleast, Hcand; by exists q0].
Qed.
End election.

(** ** A run in which everybody meets *)
Section run.
#[local] Existing Instances in_order three_points port_libp2p port_written empty_disk.
#[local] Abbreviation T := (LibP2pTransport port).
#[local] Abbreviation world := (list (system (T := T))).
#[local] Abbreviation no_type := (λ _, Error (Errorf "no jobs")).

Definition found (i : nat) (id : string) : nat * move (fs := unit) := (i, MPeer {| peer_ID := id; Addr := "" |}).
Definition hears (i j : nat) : list (nat * move (fs := unit)) := [(i, MRead calm j 0); (i, MInfo)].

Definition finding : list (nat * move (fs := unit)) :=
  [found 0 "QmB"; found 0 "QmC"; found 1 "QmA"; found 1 "QmC"; found 2 "QmA"; found 2 "QmB"].

Definition meeting : list (nat * move (fs := unit)) :=
  finding ++ hears 0 1 ++ hears 0 2 ++ hears 1 0 ++ hears 1 2 ++ hears 2 0 ++ hears 2 1.

(** Whether a node knows everybody; whether names and hashes are distinct. *)
Definition knows_all (w : world) (s : system (T := T)) : bool :=
  forallb (λ q, String.eqb (network_id q) (network_id s) ||
    match tree_of s !! network_id q with Some _ => true | None => false end) w &&
  forallb (λ kq, negb (String.eqb (ServerID kq.2) "")) (map_to_list (tree_of s)).

Definition apart (f : system (T := T) → string) (w : world) : bool :=
  forallb (λ q, forallb (λ q', negb (String.eqb (f q) (f q')) || String.eqb (name_of q) (name_of q')) w) w.

Lemma knows_all_acquainted w s : knows_all w s = true → acquainted w s.
Proof.
  unfold knows_all. rewrite andb_true_iff, !forallb_forall. intros [Hf Hn]. split.
  - intros q Hq. specialize (Hf q (proj1 (list_elem_of_In _ _) Hq)). apply orb_true_iff in Hf as [He|He].
    + left. by apply String.eqb_eq.
    + right. by destruct (tree_of s !! network_id q).
  - intros p q Hq. apply elem_of_map_to_list in Hq. specialize (Hn (p, q) (proj1 (list_elem_of_In _ _) Hq)).
    cbn in Hn. intros He. by rewrite He in Hn.
Qed.

Lemma apart_spec f w : apart f w = true → ∀ q q', q ∈ w → q' ∈ w → f q = f q' → name_of q = name_of q'.
Proof.
  unfold apart. intros Ha q q' Hq Hq' He. rewrite forallb_forall in Ha.
  specialize (Ha q (proj1 (list_elem_of_In _ _) Hq)). rewrite forallb_forall in Ha.
  specialize (Ha q' (proj1 (list_elem_of_In _ _) Hq')). rewrite He, String.eqb_refl in Ha.
  by apply String.eqb_eq.
Qed.

(** Then the first two start the protocol, as far as their elections. *)
Definition starting : list (nat * move (fs := unit)) :=
  meeting ++ [(0%nat, MAttach); (0%nat, MContext); (1%nat, MAttach); (1%nat, MContext)].

Definition about_to_choose (w : world) (s : system (T := T)) : bool :=
  match at_stage s with SContext => true | _ => false end && knows_all w s && (0 <? size (tree_of s))%nat.

Definition all_met (o : outcome world) : bool :=
  match o with
  | Done w0 =>
      apart network_id w0 && apart (λ s, hashPeer 0 secretKey (name_of s)) w0 &&
      match play_all no_type no_type starting w0 with
      | Some [a; b; c] => about_to_choose [a; b; c] a && about_to_choose [a; b; c] b
      | _ => false
      end
  | _ => false
  end.

Lemma all_met_holds : all_met main_run = true.
Proof. vm_compute. reflexivity. Qed.

Lemma about_to_choose_spec w s : about_to_choose w s = true →
  at_stage s = SContext ∧ acquainted w s ∧ tree_of s ≠ ∅.
Proof.
  unfold about_to_choose. rewrite !andb_true_iff. intros [[Hst Ha%knows_all_acquainted] Hz].
  split; [by destruct (at_stage s)|]. split; [done|]. intros He. by rewrite He, map_size_empty in Hz.
Qed.

Lemma met_run o : all_met o = true → ∃ (w0 w : world) s1 s2, o = Done w0 ∧ rtc (world_step no_type no_type) w0 w ∧
  s1 ∈ w ∧ s2 ∈ w ∧ (at_stage s1 = SContext ∧ acquainted w s1 ∧ tree_of s1 ≠ ∅) ∧
  (at_stage s2 = SContext ∧ acquainted w s2 ∧ tree_of s2 ≠ ∅) ∧ one_name w0 ∧
  (∀ q q', q ∈ w0 → q' ∈ w0 →
     hashPeer 0 secretKey (name_of q) = hashPeer 0 secretKey (name_of q') → name_of q = name_of q').
Proof.
  unfold all_met. intros Hm. destruct o as [w0| |]; try done. rewrite !andb_true_iff in Hm.
  destruct Hm as [[Hn Hh] Hm]. destruct (play_all no_type no_type starting w0) as [w|] eqn:Hw; [|done].
  destruct w as [|a [|b [|c [|]]]]; try done. apply andb_true_iff in Hm as [Ha Hb].
  apply play_all_steps in Hw. apply about_to_choose_spec in Ha, Hb.
  pose proof (apart_spec network_id _ Hn) as Hone. pose proof (apart_spec _ _ Hh) as Hinj. cbv beta in Hinj.
  exists w0, [a; b; c], a, b. split_and!; first [done|exact Hone|exact Hinj|by left|by right; left|apply Ha|apply Hb].
Qed.

(** Two of the three nodes, which visit their trees in opposite orders: the
    states that they come to are those of one leader. *)
Lemma network_leader_witness : ∃ who (w : world) s1 s2, s1 ∈ w ∧ s2 ∈ w ∧
  state (Start_elect (H := in_order) 1 (λ _, tree_of s1) no_type no_type tt (pm s1)).2 =
    (if decide (name_of s1 = who) then LEADING else FOLLOWING) ∧
  state (Start_elect (H := in_reverse) 1 (λ _, tree_of s2) no_type no_type tt (pm s2)).2 =
    (if decide (name_of s2 = who) then LEADING else FOLLOWING).
Proof.
  destruct (met_run _ all_met_holds) as (w0 & w & s1 & s2 & H0 & Hw & Hs1 & Hs2 & (Ht1 & Ha1 & Hn1) &
    (Ht2 & Ha2 & Hn2) & Hone & Hh).
  destruct (network_leader no_type no_type draw _ _ _ w0 H0 Hone Hh) as (who & _ & _ & Hall).
  exists who, w, s1, s2. split; [done|]. split; [done|].
  assert (∀ s : system (T := T), tree_of s ≠ ∅ → ∃ k : nat, (k < 1)%nat ∧ tree_of s ≠ ∅) as Hk
    by (intros; exists 0%nat; by split; [lia|]).
  pose proof (Hall w s1 1%nat (λ _, tree_of s1) tt Hw Hs1 Ht1 Ha1 (λ _, or_intror eq_refl) (Hk _ Hn1) in_order) as H1.
  pose proof (Hall w s2 1%nat (λ _, tree_of s2) tt Hw Hs2 Ht2 Ha2 (λ _, or_intror eq_refl) (Hk _ Hn2) in_reverse) as H2.
  destruct (Start_elect _ _ _ _ _ (pm s1)) as [o1 p1]. destruct (Start_elect _ _ _ _ _ (pm s2)) as [o2 p2]. cbn [snd].
  split; [destruct (decide (name_of s1 = who))|destruct (decide (name_of s2 = who))]; tauto.
Defined.

(** The first of them before it has heard of the others. *)
Definition introduces (s : system (T := T)) : bool :=
  match log_of s with
  | b :: _ =>
      match Decode KRPCMessage b with
      | Ok (VRPCMessage m) =>
          match DefaultRPCDecoder m with
          | Ok msg => match dm_Data msg with Ptr (VStatusMsg _) => Topic msg =? TopicServer | _ => false end
          | Error _ => false
          end
      | _ => false
      end
  | [] => false
  end.

Definition waits (s : system (T := T)) : bool :=
  serving (server (pm s)) && negb (peerLock (server (pm s))) &&
  match commsChWithServer (server (pm s)) with [] => true | _ => false end.

Definition has_found_two (a b c : system (T := T)) : bool :=
  bool_decide (map fst (map_to_list (tree_of a)) ≡ₚ [network_id b; network_id c]).

Definition all_found (o : outcome world) : bool :=
  match o with
  | Done w0 =>
      match play_all no_type no_type finding w0 with
      | Some [a; b; c] => waits a && introduces b && introduces c && has_found_two a b c
      | _ => false
      end
  | _ => false
  end.

Lemma introduces_introduced s : introduces s = true → introduced s.
Proof.
  unfold introduces. intros Hs. destruct (log_of s) as [|b l] eqn:Hl; [done|].
  destruct (Decode KRPCMessage b) as [v|] eqn:Hd; [|done]. destruct v as [|m| | | | | | | | | | | |]; try done.
  destruct (DefaultRPCDecoder m) as [msg|] eqn:Hm; [|done].
  destruct (dm_Data msg) as [v|] eqn:Hv; [|done]. destruct v as [| | |st| | | | | | | | | |]; try done.
  exists b, m, msg, st. rewrite Hl. split; [by left|]. split_and!; try done. by apply Z.eqb_eq.
Qed.

Lemma found_run o : all_found o = true → ∃ (w0 w : world) s, o = Done w0 ∧
  rtc (world_step no_type no_type) w0 w ∧ w !! 0%nat = Some s ∧ idle s ∧
  (∀ j q, w !! j = Some q → j ≠ 0%nat → introduced q ∧ is_Some (tree_of s !! network_id q)) ∧
  (∀ k, is_Some (tree_of s !! k) → ∃ j q, j ≠ 0%nat ∧ w !! j = Some q ∧ network_id q = k).
Proof.
  unfold all_found. intros Hm. destruct o as [w0| |]; try done.
  destruct (play_all no_type no_type finding w0) as [w|] eqn:Hw; [|done].
  destruct w as [|a [|b [|c [|]]]]; try done. rewrite !andb_true_iff in Hm. destruct Hm as [[[Ha Hb] Hc] Hf].
  apply play_all_steps in Hw. apply introduces_introduced in Hb, Hc. apply bool_decide_eq_true in Hf.
  assert (∀ k, is_Some (tree_of a !! k) ↔ k = network_id b ∨ k = network_id c) as Hk.
  { intros k. transitivity (k ∈ [network_id b; network_id c]);
      [|rewrite !elem_of_cons, elem_of_nil; tauto].
    rewrite <-Hf, list_elem_of_In, in_map_iff. split.
    - intros [p Hp]. exists (k, p). split; [done|]. by apply list_elem_of_In, elem_of_map_to_list.
    - intros ([k' p] & <- & Hp%list_elem_of_In%elem_of_map_to_list). by exists p. }
  exists w0, [a; b; c], a. split; [done|]. split; [done|]. split; [done|]. split; [|split].
  - unfold waits in Ha. rewrite !andb_true_iff, negb_true_iff in Ha. destruct Ha as [[Hs Hl] Hch].
    split; [done..|]. by destruct (commsChWithServer (server (pm a))).
  - intros [|[|[|j]]] q Hq Hne; simplify_eq/=; (split; [done|]); apply Hk; auto.
  - intros k [-> | ->]%Hk; [by exists 1%nat, b|by exists 2%nat, c].
Qed.

Lemma all_found_holds : all_found main_run = true.
Proof. vm_compute. reflexivity. Qed.

Lemma nodes_meet_witness : ∃ (w' : world) s', w' !! 0%nat = Some s' ∧ acquainted w' s'.
Proof.
  destruct (found_run _ all_found_holds) as (w0 & w & s & H0 & Hw & Hs & Hi & Hall & Honly).
  destruct (nodes_meet no_type no_type draw calm _ _ _ w0 w 0%nat s H0 Hw Hs Hi Hall Honly)
    as (w' & s' & _ & Hs' & Ha & _).
  by exists w', s'.
Defined.
End run.
